(* ===== verification/_CoqProject ===== *)
-Q . S2P
Prelude.v
PyDict.v
PyAssoc.v
PyStd.v
PyFloat.v
Json.v
Pydantic.v
Plugins.v
Ogc.v
PyTemplate.v
Config.v
Toml.v
Web.v
Utils.v
RouteTemplates.v
Routes.v
Components.v
Layers.v
Extent.v
Collections.v
CacheManager.v
FileHandler.v
StorageHandlers.v
Messages.v
Response.v
MapRequests.v
OpCache.v
OpRequests.v
Delegate.v
Settings.v
Startup.v
Providers.v
Catalog.v
Worker.v
Registry.v
Executor.v
Executors.v
JobsApi.v
ProcessesApi.v
Terminal.v
Commands.v
RpcClient.v
Store.v
WorkerCache.v
Callbacks.v
WorkerJobs.v
JobLife.v
WorkerFiles.v
WorkerApp.v
ProcessContext.v
ProcessingCli.v
InputLiterals.v
InputLayers.v
GeoInputs.v
InputFiles.v
Inputs.v
OutputLayers.v
Schemas.v
RunAlg.v
