(* ===== verification/Prelude.v ===== *)
(** * Verification of QJazz

    QJazz serves QGIS projects.  A pool of worker processes, written in Python
    around a QGIS server, keeps loaded projects in a cache and answers the
    messages that its parent process sends over a pipe; a second service runs
    QGIS processing as jobs on Celery workers, keeps its records of jobs in
    Redis, and publishes them as an OGC API.  This library models the Python
    code of both, from the sources under [src/], and proves what makes it
    correct; where the code does not do what it means to, the theorem or an
    example says what it does instead.

    Abbreviations below: [cache/] is [qjazz-contrib/src/qjazz_cache/], [core/]
    is [qjazz_core/], [ogc/] is [qjazz_ogc/] and [store/] is [qjazz_store/]
    beside it, [rpc/] is [qjazz-server/qjazz-rpc/python/qjazz_rpc/], [proc/] is
    [qjazz-processes/src/qjazz_processes/] and [qpg/] is [qjazz_processing/]
    beside it.  The theorems named below are those of the files they follow; the
    most important ones have a number, [C1] to [C40].

    ** The language

    - [Prelude]: exceptions ([exn]), results ([res]), statement blocks as state
      passing functions that keep what they wrote when they raise ([M], with
      [try_except]), generators consumed to their end ([Gen]), the tactics
      [py_unfold], [py_split], [py_cases] and the hint database [py].
    - [PyDict]: the [dict] of CPython with its array of slots, because the
      program deletes from dictionaries it iterates; [for_each_value] is the
      [for] loop with the two RuntimeErrors of the runtime.  [PyAssoc]: the
      dictionaries that are only read and written, as lists of entries.
    - [PyStd]: [str], [pathlib.PurePosixPath], [urllib.parse], [str.format].
      [PyTemplate]: [string.Template].  [PyFloat]: what [float] reads.
      [Json]: the values of requests, with their truth value, [str] and [repr].
    - [Pydantic]: annotated types and the class [TypeAdapter] of what the program
      relies on of their validation.  [StrictPydantic] is the implementation that
      accepts the values that are of the type as they stand.
    - [Utils]: [core/utils.py], the texts of dates.

    ** Search paths and projects

    - [RouteTemplates], [Routes]: [cache/routes.py], the path resolution of
      [cache/cachemanager.py] and its inverse in [cache/handlers/file.py].  A
      path is resolved by the first route that answers
      ([resolve_path_first_match], [C15]); the public paths are the inverse of it
      ([public_path_resolve_path]).
    - [Components]: [core/componentmanager.py] and the registration of protocol
      handlers ([cache/handlers/config.py], [handlers/__init__.py],
      [CacheManager.initialize_handlers]).  After their initialisation handlers
      are all there and looking them up has no effect, which is what lets the
      cache manager take them as a function ([Env]).
    - [CacheManager]: [cache/cachemanager.py], [common.py], [status.py],
      [extras.py].  The state is the dict of entries and the list of the entries
      removed from the QGIS configuration cache.  The invariant of every reachable
      cache ([cache_invariant], [C3]), the table of statuses of a checkout
      ([checkout_correct], [C4]), loading then checking out
      ([update_then_checkout], [C5]), the choice of the evicted entry
      ([evict_correct], [C26]); refreshing fails after the first project that
      left the storage or was reloaded.
    - [FileHandler]: [cache/handlers/file.py] and [cache/storage.py].
      [StorageHandlers]: [handlers/storage.py], [postgresql.py],
      [geopackage.py] and [s3.py].  They build the record of operations that the
      cache manager calls.
    - [Config]: [core/config/_service.py]: the tree of settings, their merging,
      the builder and the proxies.  A proxy reads what the configuration it
      stands for would answer after any sequence of operations
      ([proxy_transparent], [C19]).
    - [Plugins]: [core/qgis/qgis_plugins.py]; only plugins that are allowed
      and support the version of QGIS are loaded ([loaded_plugins_allowed],
      [C21]).  [Providers]: [core/qgis/processing.py], the providers that the
      plugins register and that are exposed ([plugins_providers_exposed], [C29]).
    - [Toml]: [core/config/_toml.py], the documentation of a configuration as
      TOML: each key is read in the table of its model ([configuration_keys], [C34]).
    - [Settings]: [core/qgis/qgis_init.py], [qgis_network.py], [rpc/config.py],
      [proc/processing/config.py]: what QGIS is told when it starts
      ([settings_applied], [C24]).
    - [Startup]: the set up of the workers ([setup_server] of [rpc/worker.py],
      [proc/worker/context.py]), that runs the operations of [Settings] and
      [Components] on one state ([server_set_up], [C25]); the levels of the log
      ([core/logger.py]) and the interfaces that are listened to
      ([core/config/_models.py], [proc/server/server.py]).
    - [Schemas]: [core/models.py], [proc/schemas/utils.py] and the [json_schema] of
      inputs and outputs: what is changed of the schemas of pydantic, and the
      removal of automatic titles ([remove_titles_spec], [C35]).

    ** What is published of a project

    - [Layers], [Extent], [Collections]: [ogc/layers.py], [ogc/extent.py],
      [ogc/crs.py], [ogc/project.py] and the models they fill.
    - [Catalog]: [ogc/catalog.py] and [rpc/op_collections.py].  The catalog
      mirrors the storage ([catalog_update_mirrors], [C40]), and its pages are
      windows.

    ** A worker of the map server

    - [Messages]: [rpc/messages.py] and [rpc/connection.py]: messages, replies,
      the framing of the pipe (Module [Framing]) and the rendez-vous.  Messages
      survive any fragmentation ([recv_send_bytes], [C14]); a pipe closed in the
      middle of a message leaves [recv] in an endless loop
      ([recv_truncated_spins], [C39]).
    - [Response]: [rpc/requests.py]; a response arrives as one header, its chunks
      and a final mark ([response_stream], [C13]).
    - [MapRequests]: [rpc/op_map.py].
    - [OpCache]: [rpc/op_cache.py]; pulling pins ([pull_project_pinned]).
    - [OpRequests]: [rpc/op_requests.py], [rpc/monitor.py]; the project of a
      request ([get_project_spec], [C16]) and one complete answer to every
      request ([requests_answered], [C2]).  [Delegate]: [rpc/delegate.py], the api
      that runs others at the path of a service ([delegated_request], [C28]).
    - [Worker]: [rpc/worker.py], [rpc/op_plugins.py], the loop that receives a
      message, dispatches it to all of the above and recovers from its exceptions.
      [zoom] runs an operation of a part on the whole: [Srv] is a cache and a
      connection, [CSrv] adds the catalog, [W] the configuration and the
      rendez-vous.  Over any run the cache never exceeds its bound
      ([worker_cache_bounded], [C1]), exceptions do not stop the loop
      ([handler_errors_recovered], [C27]) and the parent can follow the worker
      from its signals ([rendez_vous_per_message], [C38]).

    ** Jobs

    - [Registry]: [proc/worker/registry.py]; [Redis] is a class of operations
      with the laws the code relies on, discharged by a concrete store.
      Registration and lookup are inverse ([register_find_job]), deletion
      is by id, but for the ids that are patterns ([delete_records]).
    - [Executor]: [proc/executor/processes.py], [executor.py] and [commands.py],
      the check of [proc/worker/worker.py] before a task starts; what a dismissal
      does ([dismiss_spec], [C17]).  [Executors]: the clients that keep the
      services they know, blocking and asynchronous, around these operations
      ([executor/executor.py], [blocking.py], [commands.py]).
    - [JobLife]: servers, workers, registry and broker together.  A step relation
      whose steps run the operations of [Executor], [Registry] and [WorkerJobs] in
      any order refines, for each job, a pair of small automata
      ([job_life_refines], [C6]); hence a job runs at most once, registered and not
      dismissed ([job_runs_once], [C7]), and is answered with its status and its
      results ([job_answered], [C12]).
    - [Web]: the part of [proc/server/] below its handlers: requests, links,
      middlewares, forwarded headers, routes; what becomes of the errors of a
      handler, and of a request that has an identifier ([app_spec], [C31]).
    - [JobsApi]: [proc/server/_handlers/jobs.py], [jobrealm.py], policies and
      access control.  [ProcessesApi]: the handlers of processes and services, and
      the cache of the server: executing registers the job under its realm
      ([execute_registers_job], [C11]), [processes_cached],
      [wait_result_timeout], [update_intervals] ([C30]).
    - [Store]: [store/] with its handlers and the store of a job
      ([job_store_roundtrip], [C37]).
    - [Callbacks]: [proc/callbacks/]; mails go to allowed recipients only
      ([mail_recipients_allowed]).
    - [WorkerCache]: [proc/worker/cache.py], [threads.py], [watch.py]; the cache
      over its pipe refines the function that describes processes
      ([process_cache_refines], [C8]).
    - [WorkerApp]: [core/celery/_celery.py], [celery/worker.py] and
      [proc/worker/worker.py]: the settings of a worker, its jobs and its life; it
      is a refinement of the service it stands for ([worker_refines_service],
      [C23]).
    - [WorkerJobs]: [core/celery/worker.py], [proc/worker/worker.py],
      [generic.py] and the mixin of callbacks; each job is notified of its start
      and of its end ([job_notifications], [C22]).
    - [WorkerFiles]: the files of a job, the two storages and the cleanup: what is
      published can be downloaded, and is what was written
      ([published_downloadable], [C18]), and the cleanup removes the directories of
      expired jobs, no other file ([cleanup_expired], [C32]).

    ** Processing

    - [ProcessContext]: [proc/worker/context.py], [qpg/processing.py] and
      [proc/processing/processes.py]: the cache of projects of a process
      ([context_project_bounded]), and its processes.
    - [Ogc], [InputLiterals], [InputLayers], [GeoInputs], [InputFiles]:
      [proc/schemas/ogc.py], [geojson.py], [crs.py], [models.py] and
      [proc/processing/inputs/]: the class of input of each QGIS parameter, the
      type it is annotated with, its metadata and the value it gives to QGIS.
    - [Inputs]: their dispatch, and the conversion of a whole request.  What QGIS
      is given is of the kind of its parameter ([parameters_typed], [C10]), and
      destinations stay in the directory of the job, or beside it
      ([file_destination_place], [C20]).  [parameters_required],
      [file_outputs_refused] and [lines_have_two_points] say what is refused
      that should not be.
    - [OutputLayers], [RunAlg]: [proc/processing/outputs/], [runalg.py],
      [context.py], [proc/schemas/formats.py] and the execution of an algorithm
      as a whole: the layers that are answered are in the project of the results
      under the name of their url ([answered_layers_published], [C9]).

    ** The command lines

    - [Terminal]: the widths of formats, [textwrap.indent], and a terminal with what
      is printed and what is left to read.
    - [Commands]: [proc/__main__.py], the commands on services, processes and jobs;
      the listing of jobs page after page ([list_jobs_paged], [C33]).
    - [RpcClient]: [rpc/client.py], the commands that are sent to a server of
      workers; what is printed of a stream and of the error that ends it
      ([listings_reported], [C36]).
    - [ProcessingCli]: [proc/processing/cli.py], processes run without workers.

    Files follow the order of their dependencies.  Each operation is a definition
    with the name it has in the code, on the state that it reads and writes.  A
    handler is modelled whole: its guards, early returns, replies and exceptions.

    ** Bounds and fuel

    Loops follow the data they run over.  The others: [read_loop] recurses on
    the sizes that the reads of the pipe return; [for_values] on the number of
    entries the dict had when the loop started, the bound CPython itself uses;
    [slices] and [route_re_split] have the length of their input as fuel, of
    which each step consumes one at least; the doubling of a dict's size has the
    size asked for as fuel.  A type that refers to itself (a collection of
    geometries) is unfolded as deep as the value that is validated, after which
    more turns change nothing ([geometry_unfold]), and so is a schema whose titles are
    removed ([remove_titles_spec]); the models of a configuration are printed to a
    depth, and completely when they have it ([configuration_keys]).  Time is what the clocks
    answer, or a number of turns: the process cache is asked how many messages
    its child handled before the poll timed out.  The integers of the program
    are Python's, without a width; the length prefix of a message is kept to its
    four bytes.

    ** Parameters

    Code outside of the repository is an argument: the QGIS server and what QGIS
    says of projects, layers, geometries and algorithms ([Qgis], [ProjectView],
    [ProjectOps], [QgisGeo], [handle_request], assumed to write to its response
    and finish it), the compiler of [re] ([matches_pieces] is what is assumed of
    it), the file system, a finite map where files are written, the clocks and
    memory readings ([Env]; those of [Config] increase strictly), pydantic, Redis,
    the S3 client, gRPC, the network and Celery, whose documented behaviour is the
    class [CeleryLaws].  Every theorem with a hypothesis on one
    of these has a witness on concrete functions ([Demo], [QgisDemo],
    [RedisDemo], [CeleryDemo], [StrictPydantic] and the like).  Times and
    coordinates are rationals, so that rounding is not modelled.

    ** What is not modelled

    The encodings of messages (msgpack); the schemas that pydantic makes of a type;
    the scheduler of Celery; the configuration of the Rust server; the command
    lines that only start a server or print a version; the handlers of the log, TLS
    contexts and the start of sockets; the documentation of the routes (swagger);
    the stubs that gRPC generates.  They are calls to libraries, generated code or
    descriptions. *)
From Corelib Require Export ssreflect.
From Stdlib Require Export Ascii Qcanon.
From stdpp Require Export base tactics numbers option strings gmap list.

#[global] Open Scope general_if_scope.
#[global] Close Scope Qc_scope.
#[global] Close Scope Q_scope.

(** ** Python exceptions and results *)

(** The exceptions the modelled code raises or catches, by their class. *)
Inductive exn : Type :=
| FileNotFoundError (uri : string)
| KeyError (key : string)
| IndexError
| ValueError (msg : string)
| RuntimeError (msg : string)
| TypeError (msg : string)
| ZeroDivisionError
| AssertionError (msg : string)
| ResourceNotAllowed (msg : string)
| StrictCheckingFailure (uri : string)
| UnreadableResource (uri : string)
| InvalidCacheRootUrl (msg : string)
| FactoryNotFoundError (contract : string)
| NoRegisteredFactoryError (contract : string)
| ProjectTooOld (uri : string)
| DismissedTaskError (job_id : string)
| LockError (msg : string)
| UnreachableDestination (msg : string)
| CeleryTimeoutError
| InputValueError (response : string)
| RunProcessException (msg : string)
| ProcessNotFound (msg : string)
| ProjectRequired (msg : string)
| ApiNotFoundError (api : string)
| ServiceNotAvailable (service : string)
| PreconditionError (msg : string)
| PostconditionError (msg : string)
| EntryPointNotFoundError (name : string)
| InvalidMapRequest (msg : string)
| MinioError (status : option Z) (msg : string)
| StoreError (status : Z) (msg : string)
| HTTPException (status : Z) (msg : string)
| ValidationError (msg : string)
| OtherException (msg : string).

#[global] Instance exn_eq_dec : EqDecision exn.
Proof. solve_decision. Defined.

(** A Python expression either has a value or raises. *)
Inductive res (A : Type) : Type :=
| Ok (a : A)
| Raise (e : exn).
Arguments Ok {A} a.
Arguments Raise {A} e.

#[global] Instance res_eq_dec {A} `{EqDecision A} : EqDecision (res A).
Proof. solve_decision. Defined.

#[global] Instance res_ret : MRet res := fun A a => Ok a.
#[global] Instance res_bind : MBind res := fun A B f m =>
  match m with Ok a => f a | Raise e => Raise e end.
#[global] Instance res_fmap : FMap res := fun A B f m =>
  match m with Ok a => Ok (f a) | Raise e => Raise e end.

(** ** Stateful computations

    A statement block reads and writes a state and may raise; what it wrote
    before raising stays written, so the state is returned in both cases. *)
Definition M (S A : Type) : Type := S → res A * S.

#[global] Instance M_ret {S} : MRet (M S) := fun A a s => (Ok a, s).
#[global] Instance M_bind {S} : MBind (M S) := fun A B f m s =>
  match m s with
  | (Ok a, s') => f a s'
  | (Raise e, s') => (Raise e, s')
  end.

Definition raise {S A} (e : exn) : M S A := fun s => (Raise e, s).
Definition get {S} : M S S := fun s => (Ok s, s).
Definition gets {S A} (f : S → A) : M S A := fun s => (Ok (f s), s).
Definition modify {S} (f : S → S) : M S unit := fun s => (Ok tt, f s).

(** An expression that neither reads nor writes the state. *)
Definition pure {S A} (r : res A) : M S A := fun s => (r, s).

(** [try: m except ...: h]: the handler sees the exception in the state the
    block left, and answers [None] for an exception it does not catch. *)
Definition try_except {S A} (m : M S A) (h : exn → option (M S A)) : M S A :=
  fun s => match m s with
           | (Raise e, s') => match h e with
                              | Some k => k s'
                              | None => (Raise e, s')
                              end
           | r => r
           end.

(** Running a computation on a component of a larger state. *)
Definition zoom {S T A} (proj : S → T) (upd : T → S → S) (m : M T A) : M S A :=
  fun s => let '(r, t) := m (proj s) in (r, upd t s).

(** A generator consumed to its end: what it yielded, and the exception that
    stopped it if one did. *)
Definition Gen (S Y : Type) : Type := S → (list Y * option exn) * S.

Section monad_lemmas.
Context {S : Type}.

Lemma bind_ok {A B} (m : M S A) (f : A → M S B) s a s' :
  m s = (Ok a, s') → (m ≫= f) s = f a s'.
Proof. rw /mbind /M_bind. by intros ->. Qed.

Lemma bind_raise {A B} (m : M S A) (f : A → M S B) s e s' :
  m s = (Raise e, s') → (m ≫= f) s = (Raise e, s').
Proof. rw /mbind /M_bind. by intros ->. Qed.

Lemma bind_inv {A B} (m : M S A) (f : A → M S B) s r s' :
  (m ≫= f) s = (r, s') →
  (∃ a s1, m s = (Ok a, s1) ∧ f a s1 = (r, s')) ∨
  (∃ e, m s = (Raise e, s') ∧ r = Raise e).
Proof.
  rw /mbind /M_bind. destruct (m s) as [[a|e] s1]; [by left; eauto|].
  intros [= <- <-]. by right; eauto.
Qed.

Lemma bind_ok_inv {A B} (m : M S A) (f : A → M S B) s b s' :
  (m ≫= f) s = (Ok b, s') → ∃ a s1, m s = (Ok a, s1) ∧ f a s1 = (Ok b, s').
Proof. intros [?|(e & _ & ?)]%bind_inv; [done|discriminate]. Qed.

Lemma res_bind_inv {A B} (m : res A) (f : A → res B) b :
  m ≫= f = Ok b → ∃ a, m = Ok a ∧ f a = Ok b.
Proof. destruct m as [a|e]; [by exists a|discriminate]. Qed.

(** What every normal and exceptional exit of a block satisfies. *)
Definition preserves {A} (P : S → Prop) (m : M S A) : Prop :=
  ∀ s, P s → P (m s).2.

Lemma preserves_run {A} (P : S → Prop) (m : M S A) s r s' :
  preserves P m → P s → m s = (r, s') → P s'.
Proof. intros Hm Hs E. specialize (Hm s Hs). by rw E in Hm. Qed.

Lemma preserves_ret {A} P (a : A) : preserves P (mret a : M S A).
Proof. by intros s. Qed.

Lemma preserves_raise {A} P e : preserves P (raise e : M S A).
Proof. by intros s. Qed.

Lemma preserves_pure {A} P (r : res A) : preserves P (pure r : M S A).
Proof. by intros s. Qed.

Lemma preserves_gets {A} P (f : S → A) : preserves P (gets f : M S A).
Proof. by intros s. Qed.

Lemma preserves_bind {A B} P (m : M S A) (f : A → M S B) :
  preserves P m → (∀ a, preserves P (f a)) → preserves P (m ≫= f).
Proof.
  intros Hm Hf s Hs. specialize (Hm s Hs). rw /mbind /M_bind.
  destruct (m s) as [[a|e] s1]; simpl in *; [by apply Hf|done].
Qed.

Lemma preserves_try {A} P (m : M S A) h :
  preserves P m → (∀ e k, h e = Some k → preserves P k) →
  preserves P (try_except m h).
Proof.
  intros Hm Hh s Hs. specialize (Hm s Hs). rw /try_except.
  destruct (m s) as [[a|e] s1]; simpl in *; [done|].
  destruct (h e) as [k|] eqn:He; simpl; [by eapply Hh|done].
Qed.
End monad_lemmas.

Create HintDb py.
#[export] Hint Resolve preserves_ret preserves_raise preserves_pure
  preserves_gets : py.

(** Unfolds the plumbing of the monad, leaving the program's own tests. *)
Ltac py_unfold :=
  rw /mbind /mret /M_bind /M_ret /res_bind /res_ret /raise /get /gets
    /modify /pure /try_except /zoom /=.

(** Splits on the first test of the goal that is not yet decided. *)
Ltac py_split :=
  match goal with
  | |- context [match ?x with _ => _ end] =>
      lazymatch x with
      | context [match _ with _ => _ end] => fail
      | _ => destruct x eqn:?
      end
  end.

Ltac py_cases := repeat (py_split; simpl in *; simplify_eq).

(** ** Truthiness *)

(** A string is false exactly when it is empty. *)
Definition str_truth (s : string) : bool :=
  match s with "" => false | _ => true end.

(** [x or y] on strings. *)
Definition str_or (x y : string) : string := if str_truth x then x else y.

(** An optional string is true when it is a non empty string. *)
Definition ostr_truth (s : option string) : bool :=
  match s with Some s => str_truth s | None => false end.

Lemma str_truth_spec s : str_truth s = true ↔ s ≠ "".
Proof. by destruct s. Qed.

(** ** Lists *)

Lemma omap_id_Some {A} (l : list A) : omap id (Some <$> l) = l.
Proof. induction l as [|x l IH]; by f_equal/=. Qed.

Lemma omap_id_app {A} (l k : list (option A)) :
  omap id (l ++ k) = omap id l ++ omap id k.
Proof. apply omap_app. Qed.

Lemma sublist_keys_NoDup {A B} (l : list (A * B)) k v w :
  NoDup l.*1 → (k, v) ∈ l → (k, w) ∈ l → v = w.
Proof.
  induction l as [|[k' v'] l IH]; simpl.
  { intros _ H. by apply not_elem_of_nil in H. }
  rw NoDup_cons. intros [Hk Hl] Hv Hw.
  apply elem_of_cons in Hv as [[= -> ->]|Hv];
    apply elem_of_cons in Hw as [?|Hw]; simplify_eq; eauto.
  - destruct Hk. by apply (list_elem_of_fmap_2 fst) in Hw.
  - destruct Hk. by apply (list_elem_of_fmap_2 fst) in Hv.
Qed.

Lemma fmap_id_ext {A} (f : A → A) (l : list A) :
  (∀ x, x ∈ l → f x = x) → f <$> l = l.
Proof. induction l as [|x l IH]; intros Hf; f_equal/=; [|apply IH]; set_solver. Qed.

Lemma filter_id {A} (P : A → Prop) `{!∀ x, Decision (P x)} (l : list A) :
  (∀ x, x ∈ l → P x) → filter P l = l.
Proof.
  induction l as [|x l IH]; intros HP; [done|].
  rw filter_cons_True; [|f_equal; apply IH]; set_solver.
Qed.
