(* ===== verification/PyDict.v ===== *)
(** * The dictionaries of the Python runtime

    The caches, catalogs and registries of the program are Python [dict]s that
    are read, written and iterated, sometimes while they are being written.
    A [dict] keeps its entries in an array in insertion order: deleting an
    entry leaves a hole, inserting a new key appends, and an insertion into a
    full array first compacts it into a larger one (CPython 3.12,
    [Objects/dictobject.c]: [insertdict], [dictresize], [dict_pop],
    [dictiter_iternextvalue]).  Everything but iteration under modification
    depends on [items] only. *)
From S2P Require Import Prelude.

Section pydict.
Context {K V : Type} `{!EqDecision K}.

(** [slots] is the entry array, holes included; [usable] the number of
    entries that can still be appended before a resize. *)
Record pydict : Type := PyDict {
  slots : list (option (K * V));
  usable : nat;
}.

Definition items (d : pydict) : list (K * V) := omap id (slots d).
Definition keys (d : pydict) : list K := (items d).*1.
Definition values (d : pydict) : list V := (items d).*2.
Definition dlen (d : pydict) : nat := length (items d).

(** [{}] and [d.clear()]: no array is allocated. *)
Definition empty : pydict := PyDict [] 0.

Fixpoint assoc (k : K) (l : list (K * V)) : option V :=
  match l with
  | [] => None
  | (k', v) :: l => if decide (k = k') then Some v else assoc k l
  end.

Definition lookup (k : K) (d : pydict) : option V := assoc k (items d).
Definition contains (k : K) (d : pydict) : bool :=
  match lookup k d with Some _ => true | None => false end.

Fixpoint slots_write (k : K) (v : V) (l : list (option (K * V))) :
    list (option (K * V)) :=
  match l with
  | [] => []
  | Some (k', w) :: l =>
      if decide (k = k') then Some (k', v) :: l
      else Some (k', w) :: slots_write k v l
  | None :: l => None :: slots_write k v l
  end.

Fixpoint slots_erase (k : K) (l : list (option (K * V))) :
    list (option (K * V)) :=
  match l with
  | [] => []
  | Some (k', w) :: l =>
      if decide (k = k') then None :: l else Some (k', w) :: slots_erase k l
  | None :: l => None :: slots_erase k l
  end.

(** The smallest power of two, at least 8, that is not below [minsize];
    [fuel] doublings of [size] are tried. *)
Fixpoint keysize_from (fuel size minsize : nat) : nat :=
  match fuel with
  | 0 => size
  | S fuel => if minsize <=? size then size
              else keysize_from fuel (2 * size) minsize
  end.
Definition keysize (minsize : nat) : nat := keysize_from minsize 8 minsize.
Definition usable_fraction (n : nat) : nat := (2 * n) `div` 3.

(** [d[k] = v]: an existing key keeps its place, a new one goes last. *)
Definition insert (k : K) (v : V) (d : pydict) : pydict :=
  if contains k d then PyDict (slots_write k v (slots d)) (usable d)
  else match usable d with
       | S u => PyDict (slots d ++ [Some (k, v)]) u
       | 0 => PyDict ((Some <$> items d) ++ [Some (k, v)])
                (usable_fraction (keysize (3 * dlen d)) - dlen d - 1)
       end.

(** [del d[k]], when [k] is there. *)
Definition delete (k : K) (d : pydict) : pydict :=
  PyDict (slots_erase k (slots d)) (usable d).

(** [d.pop(k)]: [None] stands for the KeyError. *)
Definition pop (k : K) (d : pydict) : option (V * pydict) :=
  match lookup k d with
  | Some v => Some (v, delete k d)
  | None => None
  end.

(** A mutation of the object stored under [k], seen through the dict. *)
Definition alter (f : V → V) (k : K) (d : pydict) : pydict :=
  match lookup k d with
  | Some v => insert k (f v) d
  | None => d
  end.

(** ** Iteration

    [next_live pos l]: position after the first entry of [l], itself at
    position [pos] of the array, and the value found there. *)
Fixpoint next_live (pos : nat) (l : list (option (K * V))) :
    option (nat * V) :=
  match l with
  | [] => None
  | None :: l => next_live (S pos) l
  | Some (_, v) :: _ => Some (S pos, v)
  end.

(** [for v in d.values(): body(v)], where the body may write the dict, which
    lives in the state.  The iterator remembers the size the dict had
    ([used]), its position in the array and how many entries it still
    expects ([n], the [di->len] of the runtime), on which the loop is
    structurally recursive. *)
Fixpoint for_values {S Y} (get_dict : S → pydict) (body : V → M S Y)
    (used n pos : nat) : Gen S Y := fun s =>
  if decide (dlen (get_dict s) = used) then
    match next_live pos (drop pos (slots (get_dict s))) with
    | None => ([], None, s)
    | Some (pos', v) =>
        match n with
        | 0 => ([], Some (RuntimeError
                  "dictionary keys changed during iteration"), s)
        | Datatypes.S n =>
            match body v s with
            | (Raise e, s') => ([], Some e, s')
            | (Ok y, s') =>
                let '(ys, oe, s'') := for_values get_dict body used n pos' s' in
                (y :: ys, oe, s'')
            end
        end
    end
  else ([], Some (RuntimeError "dictionary changed size during iteration"), s).

Definition for_each_value {S Y} (get_dict : S → pydict) (body : V → M S Y) :
    Gen S Y := fun s =>
  let n := dlen (get_dict s) in for_values get_dict body n n 0 s.

(** ** Well-formedness: no key is stored twice. *)
Definition wf (d : pydict) : Prop := NoDup (keys d).

Lemma assoc_Some k v l : assoc k l = Some v → (k, v) ∈ l.
Proof.
  induction l as [|[k' w] l IH]; simpl; [done|].
  case_decide; rw elem_of_cons; [intros [= ->]|]; subst; auto.
Qed.

Lemma assoc_None k l : assoc k l = None ↔ k ∉ l.*1.
Proof.
  induction l as [|[k' w] l IH]; simpl; [by split; [intros _; set_solver|]|].
  case_decide; rw not_elem_of_cons; naive_solver.
Qed.

Lemma assoc_elem k v l : NoDup l.*1 → (k, v) ∈ l → assoc k l = Some v.
Proof.
  intros Hl Hin. destruct (assoc k l) as [w|] eqn:Ha.
  - apply assoc_Some in Ha. f_equal. by eapply sublist_keys_NoDup.
  - apply assoc_None in Ha. destruct Ha.
    by apply (list_elem_of_fmap_2 fst) in Hin.
Qed.

Lemma assoc_app k l1 l2 :
  assoc k (l1 ++ l2) = match assoc k l1 with Some v => Some v | None => assoc k l2 end.
Proof. induction l1 as [|[k' w] l1 IH]; simpl; [done|]. by case_decide. Qed.

Lemma lookup_items d k v :
  wf d → lookup k d = Some v ↔ (k, v) ∈ items d.
Proof. split; [apply assoc_Some|by apply assoc_elem]. Qed.

Lemma items_write k v l :
  omap id (slots_write k v l) =
  (fun kw => if decide (k = kw.1) then (kw.1, v) else kw) <$> omap id l
  ∨ ¬ NoDup (omap id l).*1.
Proof.
  induction l as [|[[k' w]|] l IH]; simpl; [by left| |by destruct IH; auto].
  destruct (decide (NoDup (k' :: (omap id l).*1))) as [Hnd|]; [left|by right].
  apply NoDup_cons in Hnd as [Hk Hnd]. destruct IH as [IH|]; [|done].
  case_decide; subst; simpl; f_equal; [|done].
  symmetry. apply fmap_id_ext. intros [k2 w2] Hi. simpl.
  case_decide; [|done]. subst. destruct Hk.
  by apply (list_elem_of_fmap_2 fst) in Hi.
Qed.

Lemma items_erase k l :
  NoDup (omap id l).*1 →
  omap id (slots_erase k l) = filter (fun kw => k ≠ kw.1) (omap id l).
Proof.
  induction l as [|[[k' w]|] l IH]; csimpl; [done| |done].
  intros [Hk Hnd]%NoDup_cons. case_decide; subst; csimpl.
  - rw filter_cons_False; [by intros []|]. symmetry. apply filter_id.
    intros [k2 w2] Hin -> . by apply (list_elem_of_fmap_2 fst) in Hin.
  - rw filter_cons_True; [done|]. f_equal. auto.
Qed.

Lemma contains_true k d : contains k d = true ↔ is_Some (lookup k d).
Proof. rw /contains. destruct (lookup k d); split; naive_solver. Qed.

Lemma contains_false k d : contains k d = false ↔ lookup k d = None.
Proof. rw /contains. destruct (lookup k d); split; naive_solver. Qed.

Lemma items_insert_new k v d :
  lookup k d = None → items (insert k v d) = items d ++ [(k, v)].
Proof.
  intros Hk%contains_false. rw /insert Hk. destruct (usable d); rw /items /=.
  - by rw omap_id_app omap_id_Some.
  - by rw omap_id_app.
Qed.

Lemma items_insert_old k v d :
  wf d → is_Some (lookup k d) →
  items (insert k v d) =
  (fun kw => if decide (k = kw.1) then (kw.1, v) else kw) <$> items d.
Proof.
  intros Hwf Hk%contains_true. rw /insert Hk /items /=.
  by destruct (items_write k v (slots d)).
Qed.

Lemma items_delete k d :
  wf d → items (delete k d) = filter (fun kw => k ≠ kw.1) (items d).
Proof. apply items_erase. Qed.

Lemma keys_insert_old k v d :
  wf d → is_Some (lookup k d) → keys (insert k v d) = keys d.
Proof.
  intros. rw /keys items_insert_old // -list_fmap_compose.
  apply list_fmap_ext. intros ? [k' w] _. simpl. by case_decide.
Qed.

Lemma wf_empty : wf empty.
Proof. constructor. Qed.

Lemma wf_insert k v d : wf d → wf (insert k v d).
Proof.
  intros Hwf. destruct (lookup k d) eqn:Hk.
  - rw /wf keys_insert_old //; eauto.
  - rw /wf /keys items_insert_new // fmap_app. apply NoDup_app. split_and!.
    + done.
    + intros x Hx. apply assoc_None in Hk. simpl. set_solver.
    + simpl. apply NoDup_singleton.
Qed.

Lemma wf_delete k d : wf d → wf (delete k d).
Proof.
  intros Hwf. rw /wf /keys items_delete //.
  eapply sublist_NoDup; [exact Hwf|]. apply fmap_sublist, sublist_filter.
Qed.

Lemma lookup_insert_eq k v d : wf d → lookup k (insert k v d) = Some v.
Proof.
  intros Hwf. apply lookup_items; [by apply wf_insert|].
  destruct (lookup k d) as [w|] eqn:Hk.
  - rw items_insert_old //; eauto. apply lookup_items in Hk; [|done].
    apply list_elem_of_fmap. exists (k, w). simpl. by rw decide_True.
  - rw items_insert_new //. set_solver.
Qed.

Lemma lookup_insert_ne k k' v d :
  wf d → k ≠ k' → lookup k' (insert k v d) = lookup k' d.
Proof.
  intros Hwf Hne. destruct (lookup k d) as [w|] eqn:Hk.
  - rw /lookup items_insert_old //; eauto. clear Hk Hwf.
    induction (items d) as [|[k2 w2] l IH]; [done|]. simpl.
    destruct (decide (k = k2)) as [->|]; simpl; [|by case_decide].
    by rw !decide_False.
  - rw /lookup items_insert_new // assoc_app /=. rw decide_False; [done|].
    by destruct (assoc k' (items d)).
Qed.

Lemma lookup_delete_eq k d : wf d → lookup k (delete k d) = None.
Proof.
  intros. apply assoc_None. rw items_delete // list_elem_of_fmap.
  intros ([k' w] & Heq & Hin). apply list_elem_of_filter in Hin as [? _].
  simpl in *; congruence.
Qed.

Lemma lookup_delete_ne k k' d :
  wf d → k ≠ k' → lookup k' (delete k d) = lookup k' d.
Proof.
  intros Hwf Hne. rw /lookup items_delete //. clear Hwf.
  induction (items d) as [|[k2 w2] l IH]; [done|].
  destruct (decide (k = k2)) as [->|].
  - rw filter_cons_False; [by intros []|]. csimpl. rw IH. by rw decide_False.
  - rw filter_cons_True; [done|]. csimpl. by rw IH.
Qed.

Lemma dlen_delete k d :
  wf d → is_Some (lookup k d) → S (dlen (delete k d)) = dlen d.
Proof.
  intros Hwf [v Hv]. apply lookup_items in Hv; [|done].
  rw /dlen items_delete //. rw /wf /keys in Hwf.
  induction (items d) as [|[k2 w2] l IH]; [by apply not_elem_of_nil in Hv|].
  csimpl in Hwf. apply NoDup_cons in Hwf as [Hk Hnd].
  apply elem_of_cons in Hv as [[= -> ->]|Hv].
  - rw filter_cons_False; [by intros []|]. csimpl. f_equal.
    rw filter_id //. intros [k3 w3] Hin ->.
    by apply (list_elem_of_fmap_2 fst) in Hin.
  - rw filter_cons_True; [|csimpl; f_equal; auto]. csimpl. intros ->.
    by apply (list_elem_of_fmap_2 fst) in Hv.
Qed.

Lemma dlen_insert_new k v d : lookup k d = None → dlen (insert k v d) = S (dlen d).
Proof. intros. rw /dlen items_insert_new // length_app /=. lia. Qed.

Lemma dlen_insert_old k v d :
  wf d → is_Some (lookup k d) → dlen (insert k v d) = dlen d.
Proof. intros. rw /dlen items_insert_old //. apply length_fmap. Qed.

Lemma wf_alter f k d : wf d → wf (alter f k d).
Proof. rw /alter. destruct (lookup k d); [apply wf_insert|done]. Qed.

Lemma lookup_alter f k k' d :
  wf d → lookup k' (alter f k d) = if decide (k = k') then f <$> lookup k' d else lookup k' d.
Proof.
  intros. rw /alter. case_decide; subst.
  - destruct (lookup k' d) eqn:E; simpl; [by apply lookup_insert_eq|done].
  - destruct (lookup k d); [by apply lookup_insert_ne|done].
Qed.

Lemma dlen_alter f k d : wf d → dlen (alter f k d) = dlen d.
Proof.
  intros. rw /alter. destruct (lookup k d) eqn:?; [|done].
  apply dlen_insert_old; eauto.
Qed.

(** ** Iterating a dict the body leaves alone *)

(** The same statements run over a fixed list of values. *)
Fixpoint for_list {S Y} (body : V → M S Y) (l : list V) : Gen S Y := fun s =>
  match l with
  | [] => ([], None, s)
  | v :: l =>
      match body v s with
      | (Raise e, s') => ([], Some e, s')
      | (Ok y, s') => let '(ys, oe, s'') := for_list body l s' in (y :: ys, oe, s'')
      end
  end.

Lemma next_live_None pos l : next_live pos l = None → omap id l = [].
Proof. revert pos. by induction l as [|[[k v]|] l IH]; intros pos; simpl; eauto. Qed.

Lemma next_live_Some pos l pos' v :
  next_live pos l = Some (pos', v) →
  pos < pos' ∧ (omap id l).*2 = v :: (omap id (drop (pos' - pos) l)).*2.
Proof.
  revert pos. induction l as [|[[k w]|] l IH]; intros pos; csimpl; [done| |].
  - intros [= <- <-]. split; [lia|]. by replace (S pos - pos) with 1 by lia.
  - intros [? Heq]%IH. split; [lia|]. rw Heq.
    by replace (pos' - pos) with (S (pos' - S pos)) by lia.
Qed.

Lemma for_values_stable {S Y} (get_dict : S → pydict) (body : V → M S Y) n pos s :
  (∀ v s y s', body v s = (Ok y, s') → get_dict s' = get_dict s) →
  length (omap id (drop pos (slots (get_dict s)))) = n →
  for_values get_dict body (dlen (get_dict s)) n pos s =
  for_list body (omap id (drop pos (slots (get_dict s)))).*2 s.
Proof.
  intros Hb. revert pos s. induction n as [|n IH]; intros pos s Hn; simpl.
  all: rw decide_True //.
  all: destruct (next_live _ _) as [[pos' v]|] eqn:Hnl.
  - apply next_live_Some in Hnl as [_ Hnl]. apply (f_equal length) in Hnl.
    rw length_fmap Hn in Hnl. done.
  - by apply next_live_None in Hnl as ->.
  - apply next_live_Some in Hnl as [Hpos Hnl].
    pose proof (f_equal length Hnl) as Hlen. csimpl in Hlen.
    rw !length_fmap drop_drop in Hlen. rw Hnl drop_drop. simpl.
    destruct (body v s) as [[y|e] s'] eqn:Hv; [|done].
    apply Hb in Hv. replace (pos + (pos' - pos)) with pos' in * by lia.
    rw -Hv in Hn Hlen |- *. rw IH //. lia.
  - apply next_live_None in Hnl. by rw Hnl in Hn.
Qed.

Lemma for_each_value_stable {S Y} (get_dict : S → pydict) (body : V → M S Y) s :
  (∀ v s y s', body v s = (Ok y, s') → get_dict s' = get_dict s) →
  for_each_value get_dict body s = for_list body (values (get_dict s)) s.
Proof. intros Hb. apply (for_values_stable _ _ _ 0); done. Qed.

(** A body whose first run changes the number of entries is run once. *)
Lemma for_values_resized {S Y} (get_dict : S → pydict) (body : V → M S Y)
    n pos s pos' v y s' :
  next_live pos (drop pos (slots (get_dict s))) = Some (pos', v) →
  body v s = (Ok y, s') → dlen (get_dict s') ≠ dlen (get_dict s) →
  for_values get_dict body (dlen (get_dict s)) (Datatypes.S n) pos s =
  ([y], Some (RuntimeError "dictionary changed size during iteration"), s').
Proof.
  intros Hnl Hb Hlen. simpl. rw decide_True // Hnl Hb.
  destruct n; simpl; by rw decide_False.
Qed.

(** *** Values the body answers without writing the state *)
Definition remaining (pos : nat) (d : pydict) : list V := (omap id (drop pos (slots d))).*2.

Lemma next_live_remaining pos d :
  next_live pos (drop pos (slots d)) = None ∧ remaining pos d = [] ∨
  ∃ pos' v, next_live pos (drop pos (slots d)) = Some (pos', v) ∧
    remaining pos d = v :: remaining pos' d.
Proof.
  rw /remaining. destruct (next_live _ _) as [[pos' v]|] eqn:E.
  - right. exists pos', v. split; [done|]. apply next_live_Some in E as [? ->].
    rw drop_drop. by replace (pos + (pos' - pos)) with pos' by lia.
  - left. by apply next_live_None in E as ->.
Qed.

Section prefix.
Context {S Y : Type} (get_dict : S → pydict) (body : V → M S Y) (s : S) (f : V → Y).

(** Running over a prefix [l1] of the remaining values leaves the iterator
    at the values that follow. *)
Lemma for_values_prefix l1 l2 n pos :
  remaining pos (get_dict s) = l1 ++ l2 →
  (∀ w, w ∈ l1 → body w s = (Ok (f w), s)) → length l1 ≤ n →
  ∃ pos', remaining pos' (get_dict s) = l2 ∧
    for_values get_dict body (dlen (get_dict s)) n pos s =
    let '(ys, oe, s') := for_values get_dict body (dlen (get_dict s)) (n - length l1) pos' s in
    ((f <$> l1) ++ ys, oe, s').
Proof.
  revert n pos. induction l1 as [|w l1 IH]; intros n pos Hrem Hf Hn.
  { exists pos. split; [done|]. simpl. rw Nat.sub_0_r.
    by destruct (for_values _ _ _ _ _ _) as [[ys oe] s']. }
  destruct n as [|n]; simpl in Hn; [lia|].
  destruct (next_live_remaining pos (get_dict s)) as [[_ Hnil]|(p & v & Hnl & Hr)].
  { by rw Hnil in Hrem. }
  rw Hr in Hrem. simplify_list_eq.
  destruct (IH n p) as (pos' & Hpos' & Hrun); [done|set_solver|lia|].
  exists pos'. split; [done|].
  rw decide_True // Hnl Hf; [set_solver|]. rw Hrun.
  by destruct (for_values _ _ _ _ pos' _) as [[ys oe] s'].
Qed.

(** The body leaves everything alone: every value is answered, in order. *)
Lemma for_each_value_const :
  (∀ w, w ∈ values (get_dict s) → body w s = (Ok (f w), s)) →
  for_each_value get_dict body s = (f <$> values (get_dict s), None, s).
Proof.
  intros Hf. rw /for_each_value.
  destruct (for_values_prefix (values (get_dict s)) [] (dlen (get_dict s)) 0)
    as (p & Hp & ->); [by rw app_nil_r|done|by rw /values length_fmap|].
  assert (dlen (get_dict s) - length (values (get_dict s)) = 0) as ->.
  { rw /values length_fmap. apply Nat.sub_diag. }
  destruct (next_live_remaining p (get_dict s)) as [[Hnl _]|(p' & v & _ & Hr)].
  - simpl. rw decide_True // Hnl. by rw app_nil_r.
  - by rw Hr in Hp.
Qed.

(** The first value whose treatment changes the size of the dict ends the
    loop with an exception; the values after it are not looked at. *)
Lemma for_each_value_resized l1 v l2 y s' :
  values (get_dict s) = l1 ++ v :: l2 →
  (∀ w, w ∈ l1 → body w s = (Ok (f w), s)) →
  body v s = (Ok y, s') → dlen (get_dict s') ≠ dlen (get_dict s) →
  for_each_value get_dict body s =
  ((f <$> l1) ++ [y], Some (RuntimeError "dictionary changed size during iteration"), s').
Proof.
  intros Hv Hf Hb Hlen. rw /for_each_value.
  assert (dlen (get_dict s) = length l1 + Datatypes.S (length l2)) as Hn.
  { apply (f_equal length) in Hv. rw /values length_fmap length_app in Hv. done. }
  destruct (for_values_prefix l1 (v :: l2) (dlen (get_dict s)) 0)
    as (p & Hp & ->); [done|done|lia|].
  destruct (next_live_remaining p (get_dict s)) as [[_ Hnil]|(p' & w & Hnl & Hr)];
    [by rw Hnil in Hp|]. rw Hr in Hp. injection Hp as -> Hp.
  replace (dlen (get_dict s) - length l1) with (Datatypes.S (length l2)) by lia.
  by erewrite for_values_resized by done.
Qed.
End prefix.

(** *** A value removed and stored again during its turn *)
Lemma next_live_split pos l pos' v :
  next_live pos l = Some (pos', v) →
  ∃ a k b, l = a ++ Some (k, v) :: b ∧ pos' = pos + Datatypes.S (length a).
Proof.
  revert pos. induction l as [|[[k w]|] l IH]; intros pos; simpl; [done| |].
  - intros [= <- <-]. exists [], k, l. split; [done|simpl; lia].
  - intros (a & k & b & -> & ->)%IH. exists (None :: a), k, b.
    split; [done|simpl; lia].
Qed.

Lemma slots_erase_split k v a b :
  NoDup (omap id (a ++ Some (k, v) :: b)).*1 →
  slots_erase k (a ++ Some (k, v) :: b) = a ++ None :: b.
Proof.
  induction a as [|[[k' w]|] a IH]; csimpl; [by rw decide_True| |intros; f_equal; auto].
  intros [Hk Hnd]%NoDup_cons. rw decide_False; [|f_equal; auto].
  intros ->. destruct Hk. rw omap_app fmap_app. csimpl. set_solver.
Qed.

Lemma for_each_value_moved {S Y} (get_dict : S → pydict) (body : V → M S Y)
    (s s' : S) (f f' : V → Y) l1 v l2 y k v' u :
  wf (get_dict s) → usable (get_dict s) = Datatypes.S u →
  values (get_dict s) = l1 ++ v :: l2 →
  (∀ k0, (k0, v) ∈ items (get_dict s) → k0 = k) →
  (∀ w, w ∈ l1 → body w s = (Ok (f w), s)) →
  body v s = (Ok y, s') → get_dict s' = insert k v' (delete k (get_dict s)) →
  (∀ w, w ∈ l2 → body w s' = (Ok (f' w), s')) →
  for_each_value get_dict body s =
  ((f <$> l1) ++ y :: (f' <$> l2),
   Some (RuntimeError "dictionary keys changed during iteration"), s').
Proof.
  intros Hwf Hus Hv Huniq Hf Hb Hd' Hf'. rw /for_each_value.
  assert (dlen (get_dict s) = length l1 + Datatypes.S (length l2)) as Hn.
  { apply (f_equal length) in Hv. rw /values length_fmap length_app in Hv. done. }
  destruct (for_values_prefix get_dict body s f l1 (v :: l2) (dlen (get_dict s)) 0)
    as (p & Hp & ->); [done|done|lia|].
  destruct (next_live_remaining p (get_dict s)) as [[_ Hnil]|(p' & w & Hnl & Hr)];
    [by rw Hnil in Hp|]. rw Hr in Hp. injection Hp as -> Hp.
  replace (dlen (get_dict s) - length l1) with (Datatypes.S (length l2)) by lia.
  pose proof Hnl as (a & k0 & b & Hsplit & ->)%next_live_split.
  assert (slots (get_dict s) = (take p (slots (get_dict s)) ++ a) ++ Some (k0, v) :: b) as Hsl.
  { by rw -app_assoc -Hsplit take_drop. }
  assert (k0 = k) as ->.
  { apply Huniq. rw /items Hsl omap_app. csimpl. set_solver. }
  assert (is_Some (lookup k (get_dict s))) as Hk.
  { exists v. apply lookup_items; [done|]. rw /items Hsl omap_app. csimpl. set_solver. }
  assert (length (take p (slots (get_dict s)) ++ a) = p + length a) as Hla.
  { rw length_app length_take. assert (p < length (slots (get_dict s))); [|lia].
    apply dec_stable. intros Hge. rw drop_ge in Hsplit; [lia|]. by destruct a. }
  remember (take p (slots (get_dict s)) ++ a) as pre eqn:Hpre. clear Hpre.
  assert (slots (get_dict s') = pre ++ None :: b ++ [Some (k, v')]) as Hs'.
  { rw Hd' /insert. assert (contains k (delete k (get_dict s)) = false) as ->.
    { by apply contains_false, lookup_delete_eq. }
    rw /delete /= Hus /= Hsl slots_erase_split.
    - by rw -Hsl.
    - by rw -(app_assoc pre (None :: b)). }
  assert (dlen (get_dict s') = dlen (get_dict s)) as Hlen.
  { rw Hd' dlen_insert_new; [by apply lookup_delete_eq|]. by apply dlen_delete. }
  assert (remaining (p + Datatypes.S (length a)) (get_dict s') = l2 ++ [v']) as Hrem.
  { rw -Hp /remaining Hs' Hsl -!Nat.add_succ_comm. simpl.
    rw !drop_app_ge ?Hla; [lia..|].
    replace (Datatypes.S (p + length a) - (p + length a)) with 1 by lia. csimpl.
    by rw omap_app fmap_app. }
  simpl. rw decide_True // Hnl Hb -Hlen.
  destruct (for_values_prefix get_dict body s' f' l2 [v'] (length l2) (p + Datatypes.S (length a)))
    as (q & Hq & ->); [done|done|lia|].
  rw Nat.sub_diag. simpl. rw decide_True //.
  destruct (next_live_remaining q (get_dict s')) as [[_ Hnil]|(q' & w & -> & _)];
    [by rw Hnil in Hq|]. by rw app_nil_r.
Qed.
(** What the entries of a written dict are. *)
Lemma items_insert_elem k v d kw :
  kw ∈ items (insert k v d) → kw.2 = v ∨ kw ∈ items d.
Proof.
  rw /insert. destruct (contains k d).
  - rw /items /=. induction (slots d) as [|[[k' w]|] l IH]; simpl; [by right| |done].
    case_decide; simpl; rw !elem_of_cons; intros [->|Hin]; auto.
    apply IH in Hin as [?|?]; auto.
  - destruct (usable d); rw /items /= omap_id_app ?omap_id_Some elem_of_app /=;
      intros [?|Hx]; auto; apply list_elem_of_singleton in Hx as ->; by left.
Qed.

Lemma items_delete_elem k d kw : kw ∈ items (delete k d) → kw ∈ items d.
Proof.
  rw /items /=. induction (slots d) as [|[[k' w]|] l IH]; simpl; [done| |done].
  case_decide; simpl; rw !elem_of_cons; [by right|]. intros [->|?]; auto.
Qed.

End pydict.

Arguments pydict : clear implicits.
#[export] Hint Resolve wf_empty wf_insert wf_delete wf_alter : py.
