(* ===== verification/PyAssoc.v ===== *)
(** * Dictionaries as lists

    Where the program keeps a dictionary for its values alone, or reads one out
    of a document, the dictionary is the list of its entries in the order of
    their insertion: no hole is left by a deletion, and it is not written while
    it is iterated (see PyDict.v for those that are). *)
From S2P Require Import Prelude PyDict.

Section assoc_dict.
Context {K V : Type} `{!EqDecision K}.
Implicit Types (d l : list (K * V)) (k : K) (v : V).

(** [d[k] = v], [dict(l)] and [d.update(l)], keeping the order of insertion *)
Fixpoint dict_set (k : K) (v : V) (d : list (K * V)) : list (K * V) :=
  match d with
  | [] => [(k, v)]
  | (k', v') :: d => if decide (k = k') then (k', v) :: d else (k', v') :: dict_set k v d
  end.
Definition dict_extend (d l : list (K * V)) : list (K * V) :=
  foldl (fun d kv => dict_set kv.1 kv.2 d) d l.

Lemma dict_set_fresh k v d : k ∉ d.*1 → dict_set k v d = d ++ [(k, v)].
Proof.
  induction d as [|[k' v'] d IH]; [done|]. csimpl. intros [Hk Hd]%not_elem_of_cons.
  rw decide_False // IH //.
Qed.

Lemma dict_set_keys k v d x : x ∈ (dict_set k v d).*1 → x = k ∨ x ∈ d.*1.
Proof.
  induction d as [|[k' v'] d IH]; csimpl; [by intros ?%list_elem_of_singleton; left|].
  case_decide; csimpl; [by right|]. intros [->|H1]%elem_of_cons; [right; by left|].
  destruct (IH H1) as [->|]; [by left|right; by right].
Qed.

Lemma dict_set_nodup k v d : NoDup d.*1 → NoDup (dict_set k v d).*1.
Proof.
  induction d as [|[k' v'] d IH]; csimpl; [intros _; apply NoDup_singleton|].
  intros [Hk Hd]%NoDup_cons. case_decide as He; csimpl; apply NoDup_cons; split; auto.
  intros [->|?]%dict_set_keys; done.
Qed.

Lemma dict_set_lookup k v d : assoc k (dict_set k v d) = Some v.
Proof.
  induction d as [|[k' v'] d IH]; csimpl; [by rw decide_True|].
  case_decide; csimpl; [by rw decide_True|by rw decide_False].
Qed.

Lemma dict_extend_nodup d l : NoDup d.*1 → NoDup (dict_extend d l).*1.
Proof. revert d. induction l as [|[k v] l IH]; intros d Hd; [done|]. simpl. by apply IH, dict_set_nodup. Qed.

Lemma dict_extend_app d l : NoDup (d ++ l).*1 → dict_extend d l = d ++ l.
Proof.
  revert d. induction l as [|[k v] l IH]; intros d Hd; [by rw app_nil_r|].
  assert (k ∉ d.*1) as Hk.
  { rw fmap_app in Hd. apply NoDup_app in Hd as (_ & Hd & _). intros Hk. apply (Hd k Hk). by left. }
  simpl. rw dict_set_fresh // IH; by rw -app_assoc.
Qed.

Lemma dict_set_lookup_ne k k' v d : k ≠ k' → assoc k' (dict_set k v d) = assoc k' d.
Proof.
  intros Hk. induction d as [|[k1 v1] d IH]; csimpl; [by rw decide_False|].
  case_decide as E; csimpl; [|by rw IH]. subst. by rw !decide_False.
Qed.

Lemma dict_extend_lookup d l k : NoDup l.*1 →
  assoc k (dict_extend d l) = match assoc k l with Some v => Some v | None => assoc k d end.
Proof.
  revert d. induction l as [|[k1 v1] l IH]; intros d; [done|]. csimpl. intros [Hk Hl]%NoDup_cons.
  rw IH //. case_decide as E; [subst|by destruct (assoc k l); [|rw dict_set_lookup_ne]].
  apply assoc_None in Hk. by rw Hk dict_set_lookup.
Qed.
End assoc_dict.
