(* ===== verification/PyStd.v ===== *)
(** * Strings, paths and URLs of the Python standard library

    What the program uses of [str], [pathlib.PurePosixPath] and
    [urllib.parse], as executable functions.  Characters are the ASCII ones. *)
From S2P Require Import Prelude.

(** ** str *)

(** [s.startswith(p)] *)
Fixpoint startswith (p s : string) : bool :=
  match p, s with
  | "", _ => true
  | String a p, String b s => bool_decide (a = b) && startswith p s
  | _, _ => false
  end.

(** [s.removeprefix(p)] *)
Definition removeprefix (p s : string) : string :=
  if startswith p s
  then String.substring (String.length p) (String.length s - String.length p) s
  else s.

(** [s.endswith(p)] *)
Definition endswith (p s : string) : bool :=
  (String.length p <=? String.length s) &&
  bool_decide (String.substring (String.length s - String.length p) (String.length p) s = p).

(** [s.removesuffix(p)] *)
Definition removesuffix (p s : string) : string :=
  if endswith p s then String.substring 0 (String.length s - String.length p) s else s.

(** [p in s] for strings *)
Fixpoint str_in (p s : string) : bool :=
  startswith p s || match s with "" => false | String _ s => str_in p s end.

(** [c in s] for a character *)
Fixpoint char_in (c : ascii) (s : string) : bool :=
  match s with "" => false | String a s => bool_decide (a = c) || char_in c s end.

(** Everything before and after the first occurrence of a character. *)
Fixpoint partition (c : ascii) (s : string) : option (string * string) :=
  match s with
  | "" => None
  | String a s =>
      if decide (a = c) then Some ("", s)
      else '(l, r) ← partition c s; Some (String a l, r)
  end.

(** [s.split(c)] for a one character separator *)
Fixpoint split (c : ascii) (s : string) : list string :=
  match s with
  | "" => [""]
  | String a s =>
      if decide (a = c) then "" :: split c s
      else match split c s with
           | w :: ws => String a w :: ws
           | [] => [String a ""]
           end
  end.

(** [sep.join(l)] *)
Fixpoint join (sep : string) (l : list string) : string :=
  match l with
  | [] => ""
  | [s] => s
  | s :: l => s +:+ sep +:+ join sep l
  end.

Definition is_alpha (a : ascii) : bool :=
  let n := N_of_ascii a in
  ((65 <=? n) && (n <=? 90))%N || ((97 <=? n) && (n <=? 122))%N.
Definition is_digit (a : ascii) : bool :=
  let n := N_of_ascii a in ((48 <=? n) && (n <=? 57))%N.
Definition to_lower (a : ascii) : ascii :=
  let n := N_of_ascii a in
  if ((65 <=? n) && (n <=? 90))%N then ascii_of_N (n + 32) else a.
Definition to_upper (a : ascii) : ascii :=
  let n := N_of_ascii a in
  if ((97 <=? n) && (n <=? 122))%N then ascii_of_N (n - 32) else a.

Fixpoint str_map (f : ascii → ascii) (s : string) : string :=
  match s with "" => "" | String a s => String (f a) (str_map f s) end.
Fixpoint str_forall (f : ascii → bool) (s : string) : bool :=
  match s with "" => true | String a s => f a && str_forall f s end.
Fixpoint str_filter (f : ascii → bool) (s : string) : string :=
  match s with
  | "" => ""
  | String a s => if f a then String a (str_filter f s) else str_filter f s
  end.
Fixpoint lstrip (f : ascii → bool) (s : string) : string :=
  match s with
  | "" => ""
  | String a s' => if f a then lstrip f s' else s
  end.

Definition upper (s : string) : string := str_map to_upper s.
Definition lower (s : string) : string := str_map to_lower s.

(** ** pathlib.PurePosixPath

    A root (["" ], ["/"], or ["//"], which POSIX keeps apart) and the
    components; empty components and ["."] are dropped when a path is
    parsed, [".."] is not. *)
Record ppath : Type := PPath { p_root : string; p_parts : list string }.

#[global] Instance ppath_eq_dec : EqDecision ppath.
Proof. solve_decision. Defined.

Definition path_root (s : string) : string :=
  if startswith "//" s && negb (startswith "///" s) then "//"
  else if startswith "/" s then "/" else "".

Definition path_parts (s : string) : list string :=
  filter (fun x => x ≠ "" ∧ x ≠ ".") (split "/" s).

(** [PurePosixPath(s)] *)
Definition path_of (s : string) : ppath := PPath (path_root s) (path_parts s).

(** [str(p)] *)
Definition path_str (p : ppath) : string :=
  match p_root p, p_parts p with
  | "", [] => "."
  | r, l => r +:+ join "/" l
  end.

(** [PurePosixPath(p, q)] and [p / q]: an absolute [q] replaces [p]. *)
Definition path_join (p q : ppath) : ppath :=
  match p_root q with
  | "" => PPath (p_root p) (p_parts p ++ p_parts q)
  | _ => q
  end.

Fixpoint strip_prefix (l k : list string) : option (list string) :=
  match l, k with
  | [], _ => Some k
  | x :: l, y :: k => if decide (x = y) then strip_prefix l k else None
  | _, [] => None
  end.

(** [p.relative_to(q)]; [None] stands for the ValueError. *)
Definition path_relative_to (p q : ppath) : option ppath :=
  if decide (p_root p = p_root q) then PPath "" <$> strip_prefix (p_parts q) (p_parts p)
  else None.

(** [p.is_relative_to(q)]: [q] is [p] or one of its parents. *)
Definition path_is_relative_to (p q : ppath) : bool :=
  match path_relative_to p q with Some _ => true | None => false end.

Lemma strip_prefix_Some l k r : strip_prefix l k = Some r ↔ k = l ++ r.
Proof.
  revert k. induction l as [|x l IH]; intros k; simpl; [naive_solver|].
  destruct k as [|y k]; [naive_solver|].
  destruct (decide (x = y)) as [->|]; rw ?IH; naive_solver.
Qed.

Lemma path_relative_to_Some p q r :
  path_relative_to p q = Some r ↔
  p_root p = p_root q ∧ p_root r = "" ∧ p_parts p = p_parts q ++ p_parts r.
Proof.
  rw /path_relative_to. destruct (decide _); [|naive_solver].
  destruct (strip_prefix _ _) as [l|] eqn:Hs; simpl.
  - apply strip_prefix_Some in Hs. destruct r as [rr rp]; simpl.
    split; [by intros [= <- <-]|]. intros (_ & -> & Hp). rw Hs in Hp.
    by apply app_inv_head in Hp as ->.
  - split; [done|]. intros (_ & _ & Hp). apply strip_prefix_Some in Hp. congruence.
Qed.

(** Joining a relative path and taking it back off are inverse. *)
Lemma path_join_relative_to p q r :
  path_relative_to p q = Some r → path_join q r = p.
Proof.
  rw path_relative_to_Some. destruct p, q, r; simpl. rw /path_join /=.
  by intros (-> & -> & ->).
Qed.

Lemma path_relative_to_join q r :
  p_root r = "" → path_relative_to (path_join q r) q = Some r.
Proof.
  intros Hr. apply path_relative_to_Some. rw /path_join Hr /=. done.
Qed.

(** ** urllib.parse *)

Record Url : Type := SplitResult {
  scheme : string; netloc : string; u_path : string;
  query : string; fragment : string;
}.

#[global] Instance Url_eq_dec : EqDecision Url.
Proof. solve_decision. Defined.

Definition scheme_char (a : ascii) : bool :=
  is_alpha a || is_digit a || char_in a "+-.".

(** Splits [scheme:rest]; a text before the colon that is no scheme stays. *)
Definition split_scheme (s : string) : string * string :=
  match partition ":" s with
  | Some (String a l, r) =>
      if is_alpha a && str_forall scheme_char (String a l)
      then (lower (String a l), r) else ("", s)
  | _ => ("", s)
  end.

Fixpoint split_netloc (s : string) : string * string :=
  match s with
  | "" => ("", "")
  | String a s' =>
      if char_in a "/?#" then ("", s)
      else let '(n, r) := split_netloc s' in (String a n, r)
  end.

Definition url_strip (a : ascii) : bool := (N_of_ascii a <=? 32)%N.
Definition url_unsafe (a : ascii) : bool :=
  match N_of_ascii a with 9%N | 10%N | 13%N => true | _ => false end.

(** [urlsplit(s)], the check of the text inside a bracketed host apart. *)
Definition urlsplit (s : string) : res Url :=
  let s := str_filter (fun a => negb (url_unsafe a)) (lstrip url_strip s) in
  let '(sch, s) := split_scheme s in
  let '(net, s) := if startswith "//" s then split_netloc (removeprefix "//" s)
                   else ("", s) in
  if xorb (char_in "[" net) (char_in "]" net) then Raise (ValueError "Invalid IPv6 URL")
  else
    let '(s, frag) := match partition "#" s with Some p => p | None => (s, "") end in
    let '(s, q) := match partition "?" s with Some p => p | None => (s, "") end in
    Ok (SplitResult sch net s q frag).

Definition uses_netloc : list string :=
  ["ftp"; "http"; "gopher"; "nntp"; "telnet"; "imap"; "wais"; "file"; "mms";
   "https"; "shttp"; "snews"; "prospero"; "rtsp"; "rtspu"; "rsync"; "svn";
   "svn+ssh"; "sftp"; "nfs"; "git"; "git+ssh"; "ws"; "wss"].

(** [urlunsplit(u)], also [u.geturl()] *)
Definition urlunsplit (u : Url) : string :=
  let url := u_path u in
  let url :=
    if str_truth (netloc u) ||
       (bool_decide (scheme u ∈ uses_netloc) && negb (startswith "//" url))
    then "//" +:+ netloc u +:+
         (if str_truth url && negb (startswith "/" url) then "/" +:+ url else url)
    else url in
  let url := if str_truth (scheme u) then scheme u +:+ ":" +:+ url else url in
  let url := if str_truth (query u) then url +:+ "?" +:+ query u else url in
  if str_truth (fragment u) then url +:+ "#" +:+ fragment u else url.

(** [SplitResult.hostname] *)
Definition rpartition_after (c : ascii) (s : string) : string := default s (last (split c s)).
Definition hostname (u : Url) : option string :=
  let hostinfo := rpartition_after "@" (netloc u) in
  let host := match partition "[" hostinfo with
              | Some (_, bracketed) =>
                  match partition "]" bracketed with Some (h, _) => h | None => bracketed end
              | None => match partition ":" hostinfo with Some (h, _) => h | None => hostinfo end
              end in
  if str_truth host then
    Some (match partition "%" host with
          | Some (h, zone) => lower h +:+ "%" +:+ zone
          | None => lower host
          end)
  else None.

Example urlsplit_ex1 :
  urlsplit "postgres1://?dbname=mydb" = Ok (SplitResult "postgres1" "" "" "dbname=mydb" "").
Proof. reflexivity. Qed.
Example urlsplit_ex2 :
  urlsplit "/srv/data/a.qgs" = Ok (SplitResult "" "" "/srv/data/a.qgs" "" "").
Proof. reflexivity. Qed.
Example urlsplit_ex3 :
  urlunsplit (SplitResult "file" "" "/srv/a.qgs" "" "") = "file:///srv/a.qgs".
Proof. reflexivity. Qed.

(** ** str.format with named fields

    [{{] and [}}] stand for braces and [{name}] for the argument; a field
    without a name or with an attribute, an index, a conversion or a format
    specification is not modelled and answers an exception of its own. *)
Fixpoint format_map (args : list (string * string)) (s : string)
    (field : option string) : res string :=
  match field, s with
  | None, "" => Ok ""
  | None, String "{" (String "{" s) => String "{" <$> format_map args s None
  | None, String "}" (String "}" s) => String "}" <$> format_map args s None
  | None, String "{" s => format_map args s (Some "")
  | None, String "}" _ => Raise (ValueError "Single '}' encountered in format string")
  | None, String a s => String a <$> format_map args s None
  | Some _, "" => Raise (ValueError "expected '}' before end of string")
  | Some f, String "}" s =>
      if str_forall is_digit f || negb (str_forall (fun a => negb (char_in a ".[!:")) f)
      then Raise (OtherException "format field not modelled")
      else match list_find (fun kv => kv.1 = f) args with
           | Some (_, (_, v)) => String.append v <$> format_map args s None
           | None => Raise (KeyError f)
           end
  | Some f, String a s => format_map args s (Some (f +:+ String a ""))
  end.

Example format_ex :
  format_map [("path", "a/b")] "dbname=x&project={path}&y={{}}" None
  = Ok "dbname=x&project=a/b&y={}".
Proof. reflexivity. Qed.

(** Text without braces is left as it is. *)
Lemma format_map_plain args s :
  str_forall (fun a => negb (char_in a "{}")) s = true → format_map args s None = Ok s.
Proof.
  induction s as [|a s IH]; [done|]. simpl. intros [Ha Hs]%andb_prop.
  apply negb_true_iff, orb_false_iff in Ha as [H1 H2].
  rw orb_false_r in H2. apply bool_decide_eq_false in H1, H2.
  specialize (IH Hs). destruct a as [[] [] [] [] [] [] [] []];
    try (by rw IH); by (exfalso; (apply H1 || apply H2)).
Qed.

(** ** urllib.parse.parse_qs

    Strings are their UTF-8 bytes, so that an escape stands for one byte of
    the decoded text. *)
Definition hex_digit (a : ascii) : option N :=
  let n := N_of_ascii a in
  if (48 <=? n)%N && (n <=? 57)%N then Some (n - 48)%N
  else if (65 <=? n)%N && (n <=? 70)%N then Some (n - 55)%N
  else if (97 <=? n)%N && (n <=? 102)%N then Some (n - 87)%N
  else None.

(** [unquote_plus]: a malformed escape is left as it is *)
Fixpoint unquote_plus (s : string) : string :=
  match s with
  | "" => ""
  | String "+" s => String " " (unquote_plus s)
  | String "%" ((String a (String b s')) as r) =>
      match hex_digit a, hex_digit b with
      | Some h, Some l => String (ascii_of_N (16 * h + l)) (unquote_plus s')
      | _, _ => String "%" (unquote_plus r)
      end
  | String c s => String c (unquote_plus s)
  end.

(** The values of a query by name, names in the order they first appear; a
    field without a value is ignored. *)
Fixpoint add_value (k v : string) (l : list (string * list string)) : list (string * list string) :=
  match l with
  | [] => [(k, [v])]
  | (k', vs) :: l => if decide (k = k') then (k', vs ++ [v]) :: l else (k', vs) :: add_value k v l
  end.
Definition qs_field (f : string) : option (string * string) :=
  match partition "=" f with
  | Some (k, v) => if str_truth v then Some (unquote_plus k, unquote_plus v) else None
  | None => None
  end.
Definition parse_qsl (s : string) : list (string * string) := omap qs_field (split "&" s).
Definition parse_qs (s : string) : list (string * list string) :=
  foldl (fun l kv => add_value kv.1 kv.2 l) [] (parse_qsl s).

Lemma add_value_keys k v l x : x ∈ (add_value k v l).*1 ↔ x = k ∨ x ∈ l.*1.
Proof.
  induction l as [|[k' vs] l IH]; simpl; [set_solver|].
  case_decide; subst; csimpl; rw !elem_of_cons; [set_solver|]. rw IH. set_solver.
Qed.

Lemma parse_qs_keys s x : x ∈ (parse_qs s).*1 ↔ x ∈ (parse_qsl s).*1.
Proof.
  rw /parse_qs. assert (∀ l acc, x ∈ (foldl (fun l kv => add_value kv.1 kv.2 l) acc l).*1 ↔
    x ∈ l.*1 ∨ x ∈ (acc : list (string * list string)).*1) as H.
  { induction l as [|[k v] l IH]; intros acc; csimpl; [set_solver|].
    rw IH add_value_keys elem_of_cons. simpl. tauto. }
  rw H. set_solver.
Qed.

(** [string.capwords(s, sep="-")] *)
Definition capitalize (s : string) : string :=
  match s with "" => "" | String a s => String (to_upper a) (lower s) end.
Definition capwords_dash (s : string) : string := join "-" (capitalize <$> split "-" s).

(** ** String concatenation *)
Lemma str_app_assoc (a b c : string) : (a +:+ b) +:+ c = a +:+ b +:+ c.
Proof. induction a as [|x a IH]; [done|]. exact (f_equal (String x) IH). Qed.

Lemma str_app_nil_r (a : string) : a +:+ "" = a.
Proof. induction a as [|x a IH]; [done|]. exact (f_equal (String x) IH). Qed.

Lemma str_app_inj (p a b : string) : p +:+ a = p +:+ b → a = b.
Proof. induction p as [|x p IH]; [done|]. intros [= H]. by apply IH. Qed.

Lemma substring_0 n s : (String.length s <= n)%nat → String.substring 0 n s = s.
Proof.
  revert n. induction s as [|a s IH]; intros [|n] Hn; simpl in *; try done; [lia|].
  rw IH //. lia.
Qed.
Lemma startswith_app p s : startswith p (p +:+ s) = true.
Proof. induction p as [|a p IH]; [by destruct s|]. simpl. rw IH andb_true_r. by apply bool_decide_eq_true_2. Qed.
Lemma removeprefix_app p s : removeprefix p (p +:+ s) = s.
Proof.
  rw /removeprefix startswith_app. induction p as [|a p IH]; [|exact IH].
  change (String.substring 0 (String.length s - 0) s = s). apply substring_0. lia.
Qed.
Lemma partition_app c s l r : partition c s = Some (l, r) → s = l +:+ String c r.
Proof.
  revert l. induction s as [|a s IH]; intros l; simpl; [done|].
  case_decide; [subst; by intros [= <- <-]|].
  intros ([l' r'] & Hp & [= <- <-])%bind_Some. apply IH in Hp. by rw Hp.
Qed.

(** ** Fields of a query *)
Lemma split_at_sep c a b : split c (a +:+ String c b) = split c a ++ split c b.
Proof.
  induction a as [|x a IH]; simpl; [by rw decide_True|]. case_decide; [by rw IH|].
  rw IH. destruct (split c a) eqn:E; [|done].
  destruct a; simpl in E; [done|]. by repeat case_match.
Qed.

Lemma char_in_app c a b : char_in c (a +:+ b) = char_in c a || char_in c b.
Proof. induction a as [|x a IH]; [done|]. simpl. rw IH orb_assoc //. Qed.

Lemma split_single c s : char_in c s = false → split c s = [s].
Proof.
  induction s as [|x s IH]; simpl; [done|]. intros [Hx Hs]%orb_false_iff.
  apply bool_decide_eq_false in Hx. rw decide_False // IH //.
Qed.

Lemma parse_qsl_and a b : parse_qsl (a +:+ "&" +:+ b) = parse_qsl a ++ parse_qsl b.
Proof. rw /parse_qsl. change ("&" +:+ b) with (String "&" b). by rw split_at_sep omap_app. Qed.

Lemma parse_qsl_field f : char_in "&" f = false → parse_qsl f = omap qs_field [f].
Proof. intros Hf. by rw /parse_qsl split_single. Qed.
