(* ===== verification/PyFloat.v ===== *)
(** * Floats

    The reading of numbers by [float]; floats are rationals. *)
From S2P Require Import Prelude PyDict PyStd.

(** ** [float(s)] *)

Fixpoint read_digits (s : string) (acc : Z) (n : nat) : Z * nat * string :=
  match s with
  | String a s' =>
      if is_digit a then read_digits s' (10 * acc + Z.of_N (N_of_ascii a) - 48) (S n) else (acc, n, s)
  | "" => (acc, n, s)
  end.

Definition read_sign (s : string) : Z * string :=
  match s with
  | String "-" s => (-1, s)%Z
  | String "+" s => (1, s)%Z
  | _ => (1, s)%Z
  end.

Definition is_space (a : ascii) : bool :=
  bool_decide (a = " "%char) || ((9 <=? N_of_ascii a) && (N_of_ascii a <=? 13))%N.
Fixpoint rstrip (s : string) : string :=
  match s with
  | "" => ""
  | String a s => match rstrip s with
                  | "" => if is_space a then "" else String a ""
                  | r => String a r
                  end
  end.

(** [m * 10 ** k] *)
Definition scale10 (m k : Z) : Qc :=
  if (0 <=? k)%Z then Qc_of_Z (m * 10 ^ k)
  else Q2Qc (QArith_base.Qmake m (Z.to_pos (10 ^ (- k)))).

(** Decimal notation; the spellings of infinity and of the values that are no
    number, and digits with underscores, are not modelled and answer an
    exception of their own. *)
Definition float_of (s : string) : res Qc :=
  let t := rstrip (lstrip is_space s) in
  let bad := Raise (ValueError "could not convert string to float") in
  let '(sg, r) := read_sign t in
  if bool_decide (lower r ∈ ["inf"; "infinity"; "nan"]) || char_in "_" r
  then Raise (OtherException "float notation not modelled")
  else
    let '(m, n1, r) := read_digits r 0 0 in
    let '(m, n2, r) := match r with String "." r => read_digits r m 0 | _ => (m, 0, r) end in
    if n1 + n2 =? 0 then bad
    else
      match r with
      | "" => Ok (scale10 (sg * m) (- Z.of_nat n2))
      | String e r =>
          if bool_decide (to_lower e = "e"%char) then
            let '(se, r) := read_sign r in
            let '(x, n3, r) := read_digits r 0 0 in
            if (n3 =? 0) || str_truth r then bad
            else Ok (scale10 (sg * m) (se * x - Z.of_nat n2))
          else bad
      end.

Example float_ex1 : float_of "-12.50" = Ok (Q2Qc (QArith_base.Qmake (-25) 2)).
Proof. change (float_of "-12.50") with (Ok (scale10 (-1250) (-2))). f_equal. by apply Qc_is_canon. Qed.
Example float_ex2 : float_of "1e3 " = Ok (Qc_of_Z 1000).
Proof. reflexivity. Qed.
Example float_ex3 : float_of "1.5x" = Raise (ValueError "could not convert string to float").
Proof. reflexivity. Qed.
