(* ===== verification/Json.v ===== *)
(** * JSON values and integers as text

    The values that requests, commands and replies are made of, with Python's
    truth value, [str] and [repr] of them, and the text of an integer. *)
From Stdlib Require Import DecimalString DecimalZ.
From S2P Require Import Prelude PyStd.

(** ** Integers as they are written and read back *)
Definition str_of_int (z : Z) : string := NilZero.string_of_int (Z.to_int z).
Definition int_of_str (s : string) : res Z :=
  match NilZero.int_of_string s with
  | Some d => Ok (Z.of_int d)
  | None => Raise (ValueError s)
  end.

Lemma to_int_nonnil z : Z.to_int z ≠ Decimal.Pos Decimal.Nil ∧ Z.to_int z ≠ Decimal.Neg Decimal.Nil.
Proof.
  destruct z as [|p|p]; simpl; [done|..]; (split; [|try done]).
  all: intros [= H]; by apply DecimalPos.Unsigned.to_uint_nonnil in H.
Qed.

Lemma int_of_str_of_int z : int_of_str (str_of_int z) = Ok z.
Proof.
  rw /int_of_str /str_of_int NilZero.isi; [apply to_int_nonnil..|]. by rw of_to.
Qed.

Lemma str_of_int_truth z : str_truth (str_of_int z) = true.
Proof.
  destruct (str_of_int z) eqn:E; [|done]. pose proof (int_of_str_of_int z) as H. by rw E in H.
Qed.

(** ** JSON values *)
Inductive JsonValue : Type :=
| JNull
| JBool (b : bool)
| JInt (z : Z)
| JFloat (repr : string)
| JStr (s : string)
| JArr (l : list JsonValue)
| JObj (fields : list (string * JsonValue)).

(** The truth value of a value. *)
Definition json_truth (j : JsonValue) : bool :=
  match j with
  | JNull => false
  | JBool b => b
  | JInt z => negb (z =? 0)%Z
  | JFloat r => negb (bool_decide (r ∈ ["0.0"; "-0.0"]))
  | JStr s => str_truth s
  | JArr l => match l with [] => false | _ => true end
  | JObj l => match l with [] => false | _ => true end
  end.

(** [repr] of a string: between double quotes when it has a single quote and no
    double one; a backslash, the quote and what is not printable are escaped *)
Definition hex_char (n : N) : ascii :=
  ascii_of_N (if (n <? 10)%N then (48 + n)%N else (87 + n)%N).
Fixpoint repr_chars (quote : ascii) (s : string) : string :=
  match s with
  | "" => ""
  | String a s =>
      let n := N_of_ascii a in
      (if decide (a = "\"%char ∨ a = quote) then String "\" (String a "")
       else if (n =? 9)%N then "\t" else if (n =? 10)%N then "\n" else if (n =? 13)%N then "\r"
       else if (n <? 32)%N || (n =? 127)%N
            then "\x" +:+ String (hex_char (n / 16)) (String (hex_char (n mod 16)) "")
       else String a "") +:+ repr_chars quote s
  end.
Definition repr_str (s : string) : string :=
  let quote := if char_in "'" s && negb (char_in (ascii_of_N 34) s) then ascii_of_N 34 else "'"%char in
  String quote (repr_chars quote s +:+ String quote "").

(** [repr] and [str] of a value *)
Fixpoint json_repr (j : JsonValue) : string :=
  match j with
  | JNull => "None"
  | JBool b => if b then "True" else "False"
  | JInt z => str_of_int z
  | JFloat r => r
  | JStr s => repr_str s
  | JArr l => "[" +:+ join ", " (json_repr <$> l) +:+ "]"
  | JObj l => "{" +:+ join ", " ((fun kv => repr_str kv.1 +:+ ": " +:+ json_repr kv.2) <$> l) +:+ "}"
  end.
Definition json_str (j : JsonValue) : string :=
  match j with JStr s => s | j => json_repr j end.
