(* ===== verification/Pydantic.v ===== *)
(** * Annotated types

    The types that the inputs of a process are annotated with
    ([processing/inputs/]), and what the program relies on of pydantic, which
    validates the values of a request against them: the class [TypeAdapter], its
    laws, and an implementation that accepts exactly the values that are of the
    type as they stand. *)
From S2P Require Import Prelude PyDict PyStd Json.

(** ** Values *)

(** Dates, times of the day and date times *)
Inductive TimeKind : Type := KDate | KTime | KDateTime.
#[global] Instance TimeKind_eq_dec : EqDecision TimeKind.
Proof. solve_decision. Defined.

(** The Python values of inputs: those a JSON document gives, the sets, colors
    and times that validation makes of them (a time is a number of seconds), and
    the other objects, by their type. *)
Inductive PyVal : Type :=
| VNone
| VBool (b : bool)
| VInt (z : Z)
| VFloat (q : Qc)
| VStr (s : string)
| VList (l : list PyVal)
| VSet (l : list PyVal)
| VObj (fields : list (string * PyVal))
| VColor (r g b : Z) (alpha : option Qc)
| VTime (k : TimeKind) (t : Qc)
| VOther (type : string).

#[global] Instance PyVal_eq_dec : EqDecision PyVal.
Proof.
  notypeclasses refine (fix IH (x y : PyVal) : Decision (x = y) := _).
  destruct x as [|b|z|q|s|l|l|l|r g b a|k q|s], y as [|b'|z'|q'|s'|l'|l'|l'|r' g' b' a'|k' q'|s'];
    try (right; congruence); try (left; reflexivity).
  - destruct (decide (b = b')); [left|right]; congruence.
  - destruct (decide (z = z')); [left|right]; congruence.
  - destruct (decide (q = q')); [left|right]; congruence.
  - destruct (decide (s = s')); [left|right]; congruence.
  - destruct (@list_eq_dec PyVal IH l l'); [left|right]; congruence.
  - destruct (@list_eq_dec PyVal IH l l'); [left|right]; congruence.
  - destruct (@list_eq_dec (string * PyVal) (@prod_eq_dec string _ PyVal IH) l l'); [left|right]; congruence.
  - destruct (decide ((r, g, b, a) = (r', g', b', a'))); [left|right]; congruence.
  - destruct (decide ((k, q) = (k', q'))); [left|right]; congruence.
  - destruct (decide (s = s')); [left|right]; congruence.
Defined.

Definition py_truth (v : PyVal) : bool :=
  match v with
  | VNone => false
  | VBool b => b
  | VInt z => negb (z =? 0)%Z
  | VFloat q => negb (bool_decide (q = 0%Qc))
  | VStr s => str_truth s
  | VList l | VSet l => match l with [] => false | _ => true end
  | VObj l => match l with [] => false | _ => true end
  | VColor _ _ _ _ | VTime _ _ | VOther _ => true
  end.

Definition num_of (v : PyVal) : option Qc :=
  match v with VInt z => Some (Qc_of_Z z) | VFloat q | VTime _ q => Some q | _ => None end.
Definition len_of (v : PyVal) : option nat :=
  match v with
  | VStr s => Some (String.length s)
  | VList l | VSet l => Some (length l)
  | _ => None
  end.

(** ** Types *)

(** The keywords of [Field]. *)
Record Field : Type := MkField {
  f_ge : option Qc; f_le : option Qc; f_min_length : option nat; f_max_length : option nat;
  f_default : option PyVal;
}.
Definition no_field : Field := MkField None None None None None.
Definition set_default (d : option PyVal) (f : Field) : Field :=
  MkField (f_ge f) (f_le f) (f_min_length f) (f_max_length f) d.
Definition set_bounds (ge le : option Qc) (f : Field) : Field :=
  MkField ge le (f_min_length f) (f_max_length f) (f_default f).
Definition set_lengths (mn mx : option nat) (f : Field) : Field :=
  MkField (f_ge f) (f_le f) mn mx (f_default f).

Inductive Ty : Type :=
| TAny
| TNone
| TBool
| TStr
| TInt
| TFloat
| TColor
| TTime (k : TimeKind)
| TLiteral (opts : list string)
| TIntLiteral (opts : list Z)
| TSet (t : Ty)
| TSeq (t : Ty)
| TUnion (l : list Ty)
| TModel (fields : list (string * Ty)) (extra : bool)
| TAnnotated (t : Ty) (f : Field)
(** A type that refers to itself, by its unfoldings *)
| TRec (f : nat → Ty).

Definition TOptional (t : Ty) : Ty := TUnion [t; TNone].

Definition opt_all {A} (p : A → bool) (x : option A) : bool := from_option p true x.
Definition Qc_le (x y : Qc) : bool := bool_decide (x ≤ y)%Qc.

Lemma Qc_le_true x y : Qc_le x y = true → (x ≤ y)%Qc.
Proof. apply bool_decide_eq_true_1. Qed.

(** The constraints of a field. *)
Definition meets (f : Field) (v : PyVal) : bool :=
  opt_all (fun m => from_option (Qc_le m) false (num_of v)) (f_ge f) &&
  opt_all (fun m => from_option (fun x => Qc_le x m) false (num_of v)) (f_le f) &&
  opt_all (fun m => from_option (fun n => bool_decide (m ≤ n)) false (len_of v)) (f_min_length f) &&
  opt_all (fun m => from_option (fun n => bool_decide (n ≤ m)) false (len_of v)) (f_max_length f).

(** How deep a value is; the keys of an object do not count. *)
Fixpoint py_depth (v : PyVal) : nat :=
  match v with
  | VList l | VSet l => S (foldr (fun v n => Nat.max (py_depth v) n) 0 l)
  | VObj l => S (foldr (fun kv n => Nat.max (py_depth kv.2) n) 0 l)
  | _ => 0
  end.
Fixpoint json_depth (j : JsonValue) : nat :=
  match j with
  | JArr l => S (foldr (fun j n => Nat.max (json_depth j) n) 0 l)
  | JObj l => S (foldr (fun kj n => Nat.max (json_depth kj.2) n) 0 l)
  | _ => 0
  end.

(** The values of a type; a recursive type is unfolded as many times as the value
    is deep. *)
Fixpoint has_type (t : Ty) (v : PyVal) {struct t} : bool :=
  match t, v with
  | TAny, _ => true
  | TNone, VNone => true
  | TBool, VBool _ => true
  | TStr, VStr _ => true
  | TInt, VInt _ => true
  | TFloat, VFloat _ => true
  | TColor, VColor _ _ _ _ => true
  | TLiteral opts, VStr s => bool_decide (s ∈ opts)
  | TIntLiteral opts, VInt z => bool_decide (z ∈ opts)
  | TSet t, VSet l => forallb (has_type t) l
  | TSeq t, VList l => forallb (has_type t) l
  | TUnion ts, _ => existsb (fun t => has_type t v) ts
  | TModel fs _, VObj l =>
      forallb (fun f => from_option (has_type f.2) false (assoc f.1 l)) fs
  | TAnnotated t f, _ => has_type t v && meets f v
  | TTime k, VTime k' _ => bool_decide (k = k')
  | TRec f, _ => has_type (f (py_depth v)) v
  | _, _ => false
  end.

(** ** The interface *)
Class TypeAdapter : Type := {
  (** [TypeAdapter(Annotated[t, Field(..)]).validate_python] *)
  validate_python : Ty → Field → JsonValue → res PyVal;
}.

(** What is validated is of the type and meets the constraints; what is not is
    refused by a [ValidationError]; null is taken for nothing but [None]. *)
Class TypeAdapterLaws {TA : TypeAdapter} : Prop := {
  validate_ok : ∀ t f j v, validate_python t f j = Ok v → has_type t v = true ∧ meets f v = true;
  validate_raise : ∀ t f j e, validate_python t f j = Raise e → ∃ m, e = ValidationError m;
  validate_null : ∀ t f v, validate_python t f JNull = Ok v → v = VNone;
}.

(** ** An implementation *)
Module StrictPydantic.

(** A value of the type [t] for a JSON value, when the one is the other as it
    stands; floats are read by [py_float]. *)
Section conv.
Context (py_float : string → option Qc).

Fixpoint py_of_json (j : JsonValue) : option PyVal :=
  match j with
  | JNull => Some VNone
  | JBool b => Some (VBool b)
  | JInt z => Some (VInt z)
  | JFloat s => VFloat <$> py_float s
  | JStr s => Some (VStr s)
  | JArr l => VList <$> mapM py_of_json l
  | JObj l => VObj <$> mapM (fun kj => v ← py_of_json kj.2; Some (kj.1, v)) l
  end.

Fixpoint conv (t : Ty) (j : JsonValue) {struct t} : option PyVal :=
  match t, j with
  | TAny, _ => py_of_json j
  | TNone, JNull => Some VNone
  | TBool, JBool b => Some (VBool b)
  | TStr, JStr s => Some (VStr s)
  | TInt, JInt z => Some (VInt z)
  | TFloat, JFloat s => VFloat <$> py_float s
  | TFloat, JInt z => Some (VFloat (Qc_of_Z z))
  | TLiteral opts, JStr s => if decide (s ∈ opts) then Some (VStr s) else None
  | TIntLiteral opts, JInt z => if decide (z ∈ opts) then Some (VInt z) else None
  | TSet t, JArr l => VSet <$> mapM (conv t) l
  | TSeq t, JArr l => VList <$> mapM (conv t) l
  | TUnion ts, _ =>
      (fix first ts := match ts with
                       | [] => None
                       | t :: ts => match conv t j with Some v => Some v | None => first ts end
                       end) ts
  | TModel fs x, JObj l =>
      VObj <$> (fix go fs := match fs with
                             | [] => Some []
                             | (n, t) :: fs =>
                                 v ← conv t (default JNull (assoc n l)); vs ← go fs; Some ((n, v) :: vs)
                             end) fs
  | TAnnotated t f, _ => v ← conv t j; if meets f v then Some v else None
  | TRec f, _ => conv (f (json_depth j)) j
  | _, _ => None
  end.

#[local] Instance strict : TypeAdapter := {
  validate_python t f j :=
    match conv t j with
    | Some v => if has_type t v && meets f v then Ok v else Raise (ValidationError "constraint")
    | None => Raise (ValidationError "type")
    end;
}.

Lemma conv_null : ∀ t v, conv t JNull = Some v → v = VNone.
Proof.
  fix IH 1. intros [| | | | | | |k|opts|opts|t|t|ts|fs x|t f|f] v; simpl; try (intros [=]; by subst).
  - induction ts as [|t ts IHts]; [done|]. destruct (conv t JNull) eqn:E; [|apply IHts].
    intros [= <-]. by apply (IH t).
  - intros (w & Hw & Hv)%bind_Some. case_match; [|done]. injection Hv as <-. by apply (IH t).
  - apply IH.
Qed.

#[local] Instance strict_laws : TypeAdapterLaws.
Proof.
  split.
  - intros t f j v. rw /validate_python /=. destruct (conv t j); [|done].
    case_match eqn:E; [|done]. intros [= <-]. by apply andb_true_iff in E.
  - intros t f j e. rw /validate_python /=. repeat case_match; intros [= <-]; eauto.
  - intros t f v. rw /validate_python /=. destruct (conv t JNull) eqn:E; [|done].
    case_match; [|done]. intros [= <-]. by apply (conv_null t).
Qed.
End conv.
End StrictPydantic.
