(* ===== verification/Plugins.v ===== *)
(** * QGIS plugins

    [qjazz_core/qgis/qgis_plugins.py]: the search of the plugins of a type in the
    configured paths, the check of the versions they support, their loading and
    their installation. *)
From S2P Require Import Prelude PyDict PyAssoc PyStd PyFloat Json.

(** ** Versions *)

(** [to_int]: the digits of the three numbers one after the other, with two at
    least for the second and the third *)
Definition version_number (major minor rev : Z) : res Z :=
  if decide (0 ≤ minor ∧ 0 ≤ rev)%Z then
    let width := Z.max 2 (Z.of_nat (String.length (str_of_int minor))) in
    Ok (Z.sgn major * (Z.abs major * 10 ^ (width + 2)) + (if decide (major < 0)%Z then -1 else 1) * (minor * 100 + rev))%Z
  else Raise (ValueError "invalid literal for int()").
Definition to_int (ver : string) : res Z :=
  let parts := split "." ver in
  major ← int_of_str (default "" (parts !! 0));
  minor ← match parts !! 1 with Some s => int_of_str s | None => Ok 0%Z end;
  rev ← match parts !! 2 with Some s => int_of_str s | None => Ok 0%Z end;
  version_number major minor (if decide (99 < rev)%Z then 99%Z else rev).

(** [checkQgisVersion], for a version of QGIS *)
Definition checkQgisVersion (qgis : string) (minver maxver : option string) : res bool :=
  version ← to_int (default "" (split "-" qgis !! 0));
  let bound v := if ostr_truth v then to_int (default "" v) else Ok version in
  mn ← bound minver;
  mx ← bound maxver;
  Ok ((mn <=? version) && (version <=? mx))%Z.

(** ** Search *)
Inductive PluginType : Type := PROCESSING | SERVER.

(** The sections of a configuration file, whose options are in lower case *)
Definition Ini : Type := list (string * list (string * string)).

(** An entry of a search path: its name, whether it is a directory, what reading
    its metadata file answers when it has one, whether it is a package *)
Record Entry : Type := MkEntry {
  en_name : string; en_dir : bool; en_metadata : option (res Ini); en_package : bool;
}.

(** [SectionProxy.getboolean] *)
Definition getboolean (section : list (string * string)) (option_ : string) : res (option bool) :=
  match assoc option_ section with
  | None => Ok None
  | Some v =>
      if decide (lower v ∈ ["1"; "yes"; "true"; "on"]) then Ok (Some true)
      else if decide (lower v ∈ ["0"; "no"; "false"; "off"]) then Ok (Some false)
      else Raise (ValueError ("Not a boolean: " +:+ v))
  end.

(** The metadata of an entry, when it is a plugin of the type *)
Definition type_option (t : PluginType) : string :=
  match t with SERVER => "server" | PROCESSING => "hasprocessingprovider" end.
Definition plugin_metadata (t : PluginType) (e : Entry) : option (Ini * list (string * string)) :=
  if negb (en_dir e) then None
  else match en_metadata e with
       | Some (Ok cp) =>
           if negb (en_package e) then None
           else match assoc "general" cp with
                | Some general =>
                    match getboolean general (type_option t) with
                    | Ok (Some true) => Some (cp, general)
                    | _ => None
                    end
                | None => None
                end
       | _ => None
       end.

(** [find_plugins]: the names of the plugins with their metadata, and the
    exception that ends the search *)
Fixpoint find_plugins (qgis : string) (t : PluginType) (entries : list Entry) : list (string * Ini) * option exn :=
  match entries with
  | [] => ([], None)
  | e :: es =>
      match plugin_metadata t e with
      | None => find_plugins qgis t es
      | Some (cp, general) =>
          match checkQgisVersion qgis (assoc "qgisminimumversion" general) (assoc "qgismaximumversion" general) with
          | Raise x => ([], Some x)
          | Ok false => find_plugins qgis t es
          | Ok true => let '(l, x) := find_plugins qgis t es in ((en_name e, cp) :: l, x)
          end
      end
  end.

(** ** Loading *)
Record Plugin : Type := MkPlugin { pl_name : string; pl_path : string; pl_type : PluginType; pl_init : string }.

(** [sys.path], the files of [sys.modules], and the plugins of the service *)
Record PluginState : Type := MkPlugins {
  sys_path : list string; sys_modules : list (string * string); service_plugins : list (string * Plugin);
}.

Section load.
(** The entries of a path, the package of a name in a path, by its file and its
    directory; importing a file and calling its entry point may raise *)
Context (qgis : string) (entries : string → list Entry) (package_in : string → string → option (string * string)).
Context (import_file : string → res unit) (init_plugin : PluginType → string → res string).

(** [__import__]: the package is looked for in all of [sys.path] *)
Definition find_module (path : list string) (name : string) : option (string * string) :=
  head (omap (fun p => package_in p name) path).
Definition import (name : string) : M PluginState (string * string) :=
  s ← get;
  match find_module (sys_path s) name with
  | None => raise (OtherException ("ModuleNotFoundError: " +:+ name))
  | Some f =>
      pure (import_file f.1);;
      modify (fun s => MkPlugins (sys_path s) (dict_set name f.1 (sys_modules s)) (service_plugins s));;
      mret f
  end.

(** One plugin *)
Definition load_plugin (t : PluginType) (white_list : option (list string)) (plugin : string) (meta : Ini) :
    M PluginState unit :=
  try_except
    (name ← pure (match assoc "general" meta ≫= assoc "name" with Some n => Ok n | None => Raise (KeyError "name") end);
     if match white_list with Some l => negb (bool_decide (name ∈ l)) | None => false end then mret tt
     else
       s ← get;
       if bool_decide (is_Some (assoc plugin (sys_modules s)))
       then raise (OtherException ("PluginError: The module '" +:+ plugin +:+ "' conflict with a previously loaded module"))
       else
         f ← import plugin;
         init ← pure (init_plugin t f.1);
         modify (fun s => MkPlugins (sys_path s) (sys_modules s)
                            (dict_set plugin (MkPlugin name f.2 t init) (service_plugins s))))
    (fun _ => Some (raise (OtherException ("PluginError: Error loading plugin '" +:+ plugin +:+ "'")))).
Fixpoint load_found (t : PluginType) (white_list : option (list string)) (found : list (string * Ini)) :
    M PluginState unit :=
  match found with
  | [] => mret tt
  | (plugin, meta) :: l => load_plugin t white_list plugin meta;; load_found t white_list l
  end.

(** [load_plugins]: each path is added to [sys.path] before it is searched *)
Fixpoint load_plugins (t : PluginType) (white_list : option (list string)) (paths : list string) :
    M PluginState unit :=
  match paths with
  | [] => mret tt
  | p :: ps =>
      modify (fun s => MkPlugins (sys_path s ++ [p]) (sys_modules s) (service_plugins s));;
      let '(found, x) := find_plugins qgis t (entries p) in
      load_found t white_list found;;
      match x with Some e => raise e | None => mret tt end;;
      load_plugins t white_list ps
  end.
End load.

(** [Plugin.metadata], of the metadata file when there is one *)
Definition metadata_sections (file : option (res Ini)) : res Ini :=
  match file with
  | None => Ok []
  | Some r => cp ← r; Ok (List.filter (fun s => negb (bool_decide (s.1 = "DEFAULT"))) cp)
  end.

(** ** Installation *)

(** [_default_plugin_paths] *)
Definition getenv (env : list (string * string)) (name : string) : option string := assoc name env.
Definition _default_plugin_paths (env : list (string * string)) (home : string) (exists_dir : string → bool) :
    list string :=
  let path_env := default "" (getenv env "QGIS_PLUGINPATH") in
  if str_truth path_env then split ":" path_env
  else
    let or x y := if ostr_truth x then default "" x else y in
    let base := or (getenv env "QGIS_OPTIONS_PATH") (or (getenv env "QGIS_CUSTOM_CONFIG_PATH")
                  (or (getenv env "QGIS_HOME") (path_str (path_join (path_of home) (path_of ".qjazz"))))) in
    let path := path_str (path_join (path_of base) (path_of "plugins")) in
    if exists_dir path then [path] else [].

(** [_run_plugin_manager] and [install_plugins]: the state is the commands that
    were run; [returncode] is what each one ends with *)
Definition _run_plugin_manager (absolute : bool) (returncode : list string → Z) (args : list string) :
    M (list (list string)) unit :=
  if absolute then
    modify (fun cmds => cmds ++ [args]);;
    if decide (0 < returncode args)%Z then raise (RuntimeError "'qgis-plugin-manager' failed") else mret tt
  else raise (PreconditionError "").
Fixpoint run_installs (absolute : bool) (returncode : list string → Z) (plugins : list string) :
    M (list (list string)) unit :=
  match plugins with
  | [] => mret tt
  | p :: ps => _run_plugin_manager absolute returncode ["install"; p];; run_installs absolute returncode ps
  end.
Definition install_plugins (install : option (list string)) (absolute sources_exist : bool)
    (returncode : list string → Z) : M (list (list string)) unit :=
  match install with
  | None | Some [] => mret tt
  | Some plugins =>
      (if sources_exist then mret tt else _run_plugin_manager absolute returncode ["init"]);;
      updated ← try_except (_run_plugin_manager absolute returncode ["update"];; mret true)
                  (fun e => match e with RuntimeError _ => Some (mret false) | _ => None end);
      if updated : bool then run_installs absolute returncode plugins else mret tt
  end.

(** ** Properties *)

(** The version numbers are in the order of versions. *)
Lemma two_digits n : (0 ≤ n < 100)%Z → Z.max 2 (Z.of_nat (String.length (str_of_int n))) = 2%Z.
Proof.
  intros Hn.
  assert (forallb (fun k => (Z.max 2 (Z.of_nat (String.length (str_of_int (Z.of_nat k)))) =? 2)%Z) (seq 0 100) = true) as H.
  { vm_compute. reflexivity. }
  rw -(Z2Nat.id n); [lia|]. apply Z.eqb_eq. eapply forallb_forall in H; [exact H|].
  apply list_elem_of_In, elem_of_seq. lia.
Qed.
Lemma version_number_value major minor rev : (0 ≤ major)%Z → (0 ≤ minor < 100)%Z → (0 ≤ rev)%Z →
  version_number major minor rev = Ok (major * 10000 + minor * 100 + rev)%Z.
Proof.
  intros Hma Hmi Hr. rw /version_number. rw decide_True; [lia|]. rw two_digits //.
  rw decide_False; [lia|]. f_equal. change (10 ^ (2 + 2))%Z with 10000%Z.
  destruct (decide (major = 0%Z)) as [->|]; [lia|]. rw Z.sgn_pos; [lia|]. rw Z.abs_eq; [done|]. lia.
Qed.

Section load.
Context (qgis : string) (entries : string → list Entry) (package_in : string → string → option (string * string)).
Context (import_file : string → res unit) (init_plugin : PluginType → string → res string).
Abbreviation load_plugins := (load_plugins qgis entries package_in import_file init_plugin).

Lemma find_plugins_inv t es n cp : (n, cp) ∈ (find_plugins qgis t es).1 →
  ∃ e general, e ∈ es ∧ en_name e = n ∧ plugin_metadata t e = Some (cp, general) ∧
    checkQgisVersion qgis (assoc "qgisminimumversion" general) (assoc "qgismaximumversion" general) = Ok true.
Proof.
  induction es as [|e es IH]; simpl; [by intros ?%not_elem_of_nil|].
  assert ((n, cp) ∈ (find_plugins qgis t es).1 → ∃ e0 general, e0 ∈ e :: es ∧ en_name e0 = n ∧
    plugin_metadata t e0 = Some (cp, general) ∧
    checkQgisVersion qgis (assoc "qgisminimumversion" general) (assoc "qgismaximumversion" general) = Ok true) as IH'.
  { intros (e0 & g & ? & ?)%IH. exists e0, g. split; [by right|done]. }
  destruct (plugin_metadata t e) as [[cp' general]|] eqn:E; [|done].
  destruct (checkQgisVersion _ _ _) as [[]|x] eqn:Hv; [|done|by intros ?%not_elem_of_nil].
  destruct (find_plugins qgis t es) as [l x]. simpl. intros [[= -> ->]|H]%elem_of_cons; [|by apply IH'].
  exists e, general. split_and!; [by left|done..].
Qed.

Lemma metadata_general t e cp general : plugin_metadata t e = Some (cp, general) → assoc "general" cp = Some general.
Proof. rw /plugin_metadata. by repeat case_match; intros [= <- <-]. Qed.

(** What every plugin of the service is. *)
Definition allowed (t : PluginType) (white_list : option (list string)) (paths : list string)
    (np : string * Plugin) : Prop :=
  ∃ p e cp general, p ∈ paths ∧ e ∈ entries p ∧ en_name e = np.1 ∧ plugin_metadata t e = Some (cp, general) ∧
    assoc "name" general = Some (pl_name np.2) ∧ pl_type np.2 = t ∧
    checkQgisVersion qgis (assoc "qgisminimumversion" general) (assoc "qgismaximumversion" general) = Ok true ∧
    match white_list with Some l => pl_name np.2 ∈ l | None => True end.

Lemma dict_set_Forall {V} (P : string * V → Prop) k v d : P (k, v) → Forall P d → Forall P (dict_set k v d).
Proof.
  intros Hkv. induction 1 as [|[k' v'] d Hx Hd IH]; csimpl; [by constructor|].
  case_decide as E; constructor; [by subst|done..].
Qed.

Lemma load_plugin_allowed t white paths p n cp s r s' :
  p ∈ paths → (n, cp) ∈ (find_plugins qgis t (entries p)).1 →
  load_plugin package_in import_file init_plugin t white n cp s = (r, s') →
  Forall (allowed t white paths) (service_plugins s) → Forall (allowed t white paths) (service_plugins s').
Proof.
  intros Hp (e & general & He & <- & Hm & Hv)%find_plugins_inv. pose proof (metadata_general _ _ _ _ Hm) as Hg.
  rw /load_plugin /try_except /import /pure /get /modify Hg. py_unfold. simpl.
  destruct (assoc "name" general) as [name|] eqn:Hname; [|by intros [= _ <-]].
  destruct (match white with Some l => _ | None => _ end) eqn:Hw; [by intros [= _ <-]|].
  destruct (bool_decide (is_Some (assoc (en_name e) (sys_modules s)))); simpl; [by intros [= _ <-]|].
  destruct (find_module _ _) as [[file dir]|]; [|by intros [= _ <-]]. simpl.
  destruct (import_file file) as [[]|]; simpl; [|by intros [= _ <-]].
  destruct (init_plugin t file) as [init|]; simpl; [|by intros [= _ <-]].
  intros [= _ <-] Hs. apply dict_set_Forall; [|done]. exists p, e, cp, general. split_and!; try done.
  destruct white as [l|]; [|done]. simpl. by apply negb_false_iff, bool_decide_eq_true in Hw.
Qed.

Lemma load_found_allowed t white paths p found s r s' :
  p ∈ paths → (∀ x, x ∈ found → x ∈ (find_plugins qgis t (entries p)).1) →
  load_found package_in import_file init_plugin t white found s = (r, s') →
  Forall (allowed t white paths) (service_plugins s) → Forall (allowed t white paths) (service_plugins s').
Proof.
  intros Hp. revert s r. induction found as [|[n cp] found IH]; intros s r Hf; simpl; [by intros [= _ <-]|].
  intros [([] & s1 & H1 & H2)|(x & H1 & _)]%bind_inv Hs.
  - eapply IH; [|exact H2|]; [intros y ?; apply Hf; by right|].
    eapply load_plugin_allowed; [done| |done|done]. apply Hf. by left.
  - eapply load_plugin_allowed; [done| |done|done]. apply Hf. by left.
Qed.

End load.

(** ** Witness *)
Module PluginsDemo.
Definition ini (name server maximum : string) : Ini :=
  [("general", [("name", name); ("server", server); ("qgismaximumversion", maximum)])].
Definition entries (p : string) : list Entry :=
  if decide (p = "/b") then
    [MkEntry "tools" true (Some (Ok (ini "Tools" "True" "3.99"))) true;
     MkEntry "old" true (Some (Ok (ini "Old" "yes" "3.4.5"))) true;
     MkEntry "gui" true (Some (Ok (ini "Gui" "False" ""))) true;
     MkEntry "extra" true (Some (Ok (ini "Extra" "1" ""))) true]
  else [MkEntry "tools" true None true].
Definition package_in (p n : string) : option (string * string) :=
  if bool_decide (n ∈ en_name <$> entries p) then Some (p +:+ "/" +:+ n +:+ "/__init__.py", p +:+ "/" +:+ n) else None.
Definition load (white : option (list string)) (paths : list string) : res unit * PluginState :=
  load_plugins "3.40.6-Bratislava" entries package_in (fun _ => Ok tt) (fun _ f => Ok f) SERVER white paths
    (MkPlugins [] [] []).

Example load_ex : (load (Some ["Tools"; "Old"; "Gui"]) ["/b"]).1 = Ok tt ∧
  (load (Some ["Tools"; "Old"; "Gui"]) ["/b"]).2.(service_plugins) =
    [("tools", MkPlugin "Tools" "/b/tools" SERVER "/b/tools/__init__.py")].
Proof. vm_compute. done. Qed.
(** A package of another search path that is no plugin is loaded in its place. *)
Example shadowed : (load (Some ["Tools"]) ["/a"; "/b"]).2.(service_plugins) =
    [("tools", MkPlugin "Tools" "/a/tools" SERVER "/a/tools/__init__.py")].
Proof. vm_compute. done. Qed.
(** A hundredth minor version is newer than the next major one. *)
Example minor_overflow : checkQgisVersion "3.100.0" (Some "4.0") None = Ok true.
Proof. vm_compute. reflexivity. Qed.
End PluginsDemo.

