(* ===== verification/Ogc.v ===== *)
(** * Units and data types of the OGC

    The tables of [schemas/ogc.py]: references to data types and to units. *)
From S2P Require Import Prelude PyDict PyStd.

Definition OGC_OPENGIS_URL : string := "https://www.opengis.net/".
Definition OGC_DATATYPE_URL : string := OGC_OPENGIS_URL +:+ "/def/dataType/OGC".

(** [OgcDataType], each after [OGC_DATATYPE_URL] *)
Definition data_types : list (string * string) :=
  [("double", "/0/double");
   ("float128", "/0/float128");
   ("float64", "/0/float64");
   ("float32", "/0/float32");
   ("float16", "/0/float16");
   ("signedByte", "/0/signedByte");
   ("signedInt", "/0/signedInt");
   ("signedLong", "/0/signedLong");
   ("signedShort", "/0/unsignedShort");
   ("unsignedByte", "/0/unsignedByte");
   ("unsignedInt", "/0/unsignedInt");
   ("unsignedLong", "/0/unsignedLong");
   ("unsignedShort", "/0/unsignedShort");
   ("strinfg-utf8", "/0/string-utf8");
   ("angle", "/1.1/angle");
   ("angleList", "/1.1/angleList");
   ("anyCRS", "/1.1/anyCRS");
   ("anyURI", "/1.1/anyURI");
   ("boolean", "/1.1/boolean");
   ("crsURI", "/1.1/crsURI");
   ("gridLength", "/1.1/gridLength");
   ("gridLengthList", "/1.1/gridLengthList");
   ("integerList", "/1.1/integerList");
   ("length", "/1.1/length");
   ("lengthList", "/1.1/lengthList");
   ("lengthOrAngle", "/1.1/lengthOrAngle");
   ("measure", "/1.1/measure");
   ("measureList", "/1.1/measureList");
   ("nonNegativeInteger", "/1.1/nonNegativeInteger");
   ("positiveInteger", "/1.1/positiveInteger");
   ("positiveIntegerList", "/1.1/positiveIntegerList");
   ("scale", "/1.1/scale");
   ("scaleList", "/1.1/scaleList");
   ("string", "/1.1/string");
   ("time", "/1.1/time");
   ("timeList", "/1.1/timeList");
   ("valueFile", "/1.1/valueFile")].
Definition OgcDataType (name : string) : option string :=
  (fun p => OGC_DATATYPE_URL +:+ p) <$> assoc name data_types.

Definition OGC_UOM_URN : string := "urn:ogc:def:uom".
Definition UCUM : string := OGC_UOM_URN +:+ ":UCUM".
Definition OGC_UOM : string := OGC_UOM_URN +:+ ":OGC:1.0".
Definition EPSG_UOM : string := OGC_UOM_URN +:+ ":ESPG:0:".

Definition UOM : list (string * (string * string)) :=
  [("deg", (UCUM, "deg"));
   ("degree", (UCUM, "deg"));
   ("degrees", (UCUM, "deg"));
   ("inches", (UCUM, "[in_i]"));
   ("meter", (UCUM, "m"));
   ("metre", (UCUM, "m"));
   ("metres", (UCUM, "m"));
   ("meters", (UCUM, "m"));
   ("meters (German legal)", (EPSG_UOM, "9031"));
   ("m", (UCUM, "m"));
   ("feet", (UCUM, "foot"));
   ("feet (British, 1865)", (EPSG_UOM, "9070"));
   ("feet (British, 1936)", (EPSG_UOM, "9095"));
   ("feet (British, Benoit 1895 A)", (EPSG_UOM, "9051"));
   ("feet (British, Benoit 1895 B)", (EPSG_UOM, "9061"));
   ("feet (British, Sears 1922)", (EPSG_UOM, "9041"));
   ("feet (British, Sears 1922 truncated)", (EPSG_UOM, "9300"));
   ("feet (Clarke's)", (EPSG_UOM, "9005"));
   ("feet (Gold Coast)", (EPSG_UOM, "9094"));
   ("feet (Indian)", (EPSG_UOM, "9080"));
   ("feet (Indian 1937)", (EPSG_UOM, "9081"));
   ("feet (Indian 1962)", (EPSG_UOM, "9082"));
   ("feet (Indian 1975)", (EPSG_UOM, "9083"));
   ("feet (US survey)", (EPSG_UOM, "9003"));
   ("radians", (UCUM, "rad"));
   ("radian", (UCUM, "rad"));
   ("rad", (UCUM, "rad"));
   ("kilometer", (UCUM, "km"));
   ("kilometers", (UCUM, "km"));
   ("km", (UCUM, "km"));
   ("centimeter", (UCUM, "cm"));
   ("centimeters", (UCUM, "cm"));
   ("cm", (UCUM, "cm"));
   ("millimeter", (UCUM, "mm"));
   ("millimeters", (UCUM, "mm"));
   ("mm", (UCUM, "mm"));
   ("mile", (UCUM, "[mi_i]"));
   ("miles", (UCUM, "[mi_i]"));
   ("miles (US survey)", (EPSG_UOM, "9035"));
   ("nautical mile", (UCUM, "[nmi_i]"));
   ("nautical miles", (UCUM, "[nmi_i]"));
   ("yard", (UCUM, "[yd_i]"));
   ("yards", (UCUM, "[yd_i]"));
   ("yd", (UCUM, "[yd_i]"));
   ("urn:ogc:def:uom:OGC:1.0:metre", (UCUM, "m"));
   ("urn:ogc:def:uom:OGC:1.0:degree", (UCUM, "deg"));
   ("urn:ogc:def:uom:OGC:1.0:radian", (UCUM, "rad"));
   ("urn:ogc:def:uom:OGC:1.0:feet", (UCUM, "foot"));
   ("unity", (OGC_UOM, "unity"));
   ("gridspacing", (OGC_UOM, "gridspacing"));
   ("fathom", (UCUM, "[fth_i]"));
   ("fathoms", (UCUM, "[fth_i]"));
   ("yards (British, Sears 1922)", (EPSG_UOM, "9040"));
   ("yards (British, Sears 1922 truncated)", (EPSG_UOM, "9099"));
   ("yards (British, Benoit 1895 A)", (EPSG_UOM, "9050"));
   ("yards (British, Benoit 1895 B)", (EPSG_UOM, "9060"));
   ("yards (Clarke's)", (EPSG_UOM, "9037"));
   ("yards (Indian)", (EPSG_UOM, "9084"));
   ("yards (Indian 1937)", (EPSG_UOM, "9085"));
   ("yards (Indian 1962)", (EPSG_UOM, "9086"));
   ("yards (Indian 1975)", (EPSG_UOM, "9087"));
   ("links (British, Benoit 1895 A)", (EPSG_UOM, "9053"));
   ("links (British, Benoit 1895 B)", (EPSG_UOM, "9063"));
   ("links (British, Sears 1922)", (EPSG_UOM, "9043"));
   ("links (British, Sears 1922 truncated)", (EPSG_UOM, "9302"));
   ("links (Clarke's)", (EPSG_UOM, "9039"));
   ("links", (EPSG_UOM, "9098"));
   ("link", (EPSG_UOM, "9098"));
   ("links (US survey)", (EPSG_UOM, "9033"));
   ("chains (British, Benoit 1895 A)", (EPSG_UOM, "9052"));
   ("chains (British, Benoit 1895 B)", (EPSG_UOM, "9062"));
   ("chains (British, Sears 1922)", (EPSG_UOM, "9042"));
   ("chains (British, Sears 1922 truncated)", (EPSG_UOM, "9301"));
   ("chains (Clarke's)", (EPSG_UOM, "9038"));
   ("chains (international)", (EPSG_UOM, "9097"));
   ("chains", (EPSG_UOM, "9097"));
   ("chain", (EPSG_UOM, "9097"));
   ("chains (US survey)", (EPSG_UOM, "9033"));
   ("week", (UCUM, "wk"));
   ("weeks", (UCUM, "wk"));
   ("years", (UCUM, "a"));
   ("day", (UCUM, "d"));
   ("days", (UCUM, "d"));
   ("month", (UCUM, "mo"));
   ("months", (UCUM, "mo"));
   ("hour", (UCUM, "h"));
   ("hours", (UCUM, "h"));
   ("min", (UCUM, "min"));
   ("minute", (UCUM, "min"));
   ("minutes", (UCUM, "min"));
   ("s", (UCUM, "s"));
   ("second", (UCUM, "s"));
   ("seconds", (UCUM, "s"));
   ("ms", (UCUM, "ms"));
   ("millisecond", (UCUM, "ms"));
   ("milliseconds", (UCUM, "ms"));
   ("decades", (UCUM, "10.a"));
   ("centuries", (UCUM, "100.a"))].

(** [uom_ref] *)
Definition uom_ref (name : string) : option string :=
  (fun urn => urn.1 +:+ ":" +:+ urn.2) <$> assoc name UOM.

(** [crs_ref], [WGS84] *)
Definition crs_ref (auth_code auth_name : string) (version : option string) : string :=
  if ostr_truth version
  then "urn:ogc:def:crs:" +:+ auth_name +:+ ":" +:+ default "" version +:+ ":" +:+ auth_code
  else "urn:ogc:def:crs:" +:+ auth_name +:+ ":" +:+ auth_code.
Definition WGS84 : string := crs_ref "CRS84" "OGC" (Some "1.3").
