(* ===== verification/PyTemplate.v ===== *)
(** * string.Template

    The substitution of Python's [string.Template], which the processing
    component uses for the urls of files and the texts of mails.  A template is
    read once into pieces; [substitute] and [safe_substitute] differ in what
    they do of a name that has no value and of a lone dollar. *)
From S2P Require Import Prelude PyDict PyStd.

(** ** Pieces *)

(** What [Template.pattern] finds: an escape, a name with the text it was
    written as, a lone dollar; and the text between. *)
Inductive TPiece : Type :=
| TText (a : ascii)
| TEscaped
| TName (name : string) (raw : string)
| TInvalid.

#[global] Instance TPiece_eq_dec : EqDecision TPiece.
Proof. solve_decision. Defined.

Definition id_start (a : ascii) : bool := is_alpha a || bool_decide (a = "_"%char).
Definition id_char (a : ascii) : bool := id_start a || is_digit a.

(** The longest text of identifier characters, and what follows. *)
Fixpoint id_span (s : string) : string * string :=
  match s with
  | "" => ("", "")
  | String a s' => if id_char a then let '(w, r) := id_span s' in (String a w, r) else ("", s)
  end.

(** What a dollar stands for: the piece and the text after it. *)
Definition after_dollar (s : string) : TPiece * string :=
  match s with
  | "" => (TInvalid, "")
  | String a r =>
      if decide (a = "$"%char) then (TEscaped, r)
      else if id_start a then let '(w, r') := id_span s in (TName w ("$" +:+ w), r')
      else if decide (a = "{"%char) then
        match r with
        | String b _ =>
            let '(w, r') := id_span r in
            match r' with
            | String c r'' => if id_start b && bool_decide (c = "}"%char)
                              then (TName w ("${" +:+ w +:+ "}"), r'') else (TInvalid, s)
            | "" => (TInvalid, s)
            end
        | "" => (TInvalid, s)
        end
      else (TInvalid, s)
  end.

Fixpoint pieces_from (fuel : nat) (s : string) : list TPiece :=
  match fuel with
  | O => []
  | S fuel =>
      match s with
      | "" => []
      | String a r => if decide (a = "$"%char)
                      then let '(p, r) := after_dollar r in p :: pieces_from fuel r
                      else TText a :: pieces_from fuel r
      end
  end.

(** Every piece takes at least one character, so that the length is enough. *)
Definition pieces (s : string) : list TPiece := pieces_from (String.length s) s.

(** [Template.is_valid] *)
Definition is_valid (s : string) : bool := bool_decide (TInvalid ∉ pieces s).

(** ** Substitution *)
Definition sub_piece (safe : bool) (args : list (string * string)) (p : TPiece) : res string :=
  match p with
  | TText a => Ok (String a "")
  | TEscaped => Ok "$"
  | TName n raw => match assoc n args with
                   | Some v => Ok v
                   | None => if safe then Ok raw else Raise (KeyError n)
                   end
  | TInvalid => if safe then Ok "$" else Raise (ValueError "Invalid placeholder in string")
  end.

Fixpoint sub_pieces (safe : bool) (args : list (string * string)) (ps : list TPiece) : res string :=
  match ps with
  | [] => Ok ""
  | p :: ps => t ← sub_piece safe args p; r ← sub_pieces safe args ps; Ok (t +:+ r)
  end.

(** [Template.substitute] *)
Definition substitute (t : string) (args : list (string * string)) : res string :=
  sub_pieces false args (pieces t).

(** [Template.safe_substitute], which does not fail *)
Definition safe_substitute (t : string) (args : list (string * string)) : string :=
  match sub_pieces true args (pieces t) with Ok s => s | Raise _ => "" end.

(** ** Lemmas *)
Lemma sub_pieces_safe args ps : ∃ s, sub_pieces true args ps = Ok s.
Proof.
  induction ps as [|p ps [r IH]]; simpl; [by eexists|].
  assert (∃ t, sub_piece true args p = Ok t) as [t ->].
  { destruct p; simpl; try (by eexists). destruct (assoc _ _); by eexists. }
  simpl. rw IH. by eexists.
Qed.

(** A template all of whose names have values is substituted, safely or not,
    with the same result. *)
Lemma substitute_safe t args :
  is_valid t = true → (∀ n raw, TName n raw ∈ pieces t → is_Some (assoc n args)) →
  substitute t args = Ok (safe_substitute t args).
Proof.
  rw /is_valid /substitute /safe_substitute => Hv. apply bool_decide_eq_true in Hv. revert Hv.
  generalize (pieces t). intros ps Hv Hn.
  assert (sub_pieces false args ps = sub_pieces true args ps) as ->.
  { induction ps as [|p ps IH]; [done|]. simpl. apply not_elem_of_cons in Hv as [Hp Hv].
    rw IH; [done|intros n raw ?; apply (Hn n raw); by right|].
    f_equal. destruct p as [| |n raw|]; simpl; try done.
    destruct (Hn n raw) as [v ->]; [by left|done]. }
  by destruct (sub_pieces_safe args ps) as [s ->].
Qed.

Example template_ex :
  substitute "${public_url}/jobs/$jobId/files/$resource"
    [("resource", "a.tif"); ("jobId", "6f1c"); ("public_url", "http://h")] =
  Ok "http://h/jobs/6f1c/files/a.tif" ∧
  safe_substitute "$$5 for $tag, $ and ${who" [("tag", "x")] = "$5 for x, $ and ${who".
Proof. split; reflexivity. Qed.
