(* ===== verification/Config.v ===== *)
(** * Configuration

    [qjazz_core/config/_service.py]: the configuration as a tree of models, its
    merging with updates, the builder that validates it against the sections
    that were added, and the proxies that the services read it through. *)
From S2P Require Import Prelude PyDict PyAssoc PyStd PyTemplate Json Pydantic.

(** ** Settings *)

(** A configuration: plain values, and models with their fields; a model is a
    [ConfigBase] or another [BaseModel]. *)
Inductive Conf : Type :=
| CVal (v : PyVal)
| CModel (base : bool) (fields : list (string * Conf)).

(** [model_dump()] *)
Fixpoint model_dump (c : Conf) : PyVal :=
  match c with
  | CVal v => v
  | CModel _ fs => VObj ((fun kc => (kc.1, model_dump kc.2)) <$> fs)
  end.
Definition dump_fields (fs : list (string * Conf)) : list (string * PyVal) :=
  (fun kc => (kc.1, model_dump kc.2)) <$> fs.

(** [dict_merge]: the value of a key, from the new value, the model of the key
    and the old value; and the merge of all keys *)
Fixpoint merge_value (v : PyVal) (model : option Conf) (old : option PyVal) : PyVal :=
  match v, model, old with
  | VObj kvs, Some (CModel _ fields), Some (VObj dct) =>
      VObj (foldl (fun dct kf => dict_set kf.1 (kf.2 (assoc kf.1 fields) (assoc kf.1 dct)) dct) dct
              ((fun kv => (kv.1, merge_value kv.2)) <$> kvs))
  | _, _, _ => v
  end.
Definition dict_merge (dct merge_dct : list (string * PyVal)) (model : list (string * Conf)) :
    list (string * PyVal) :=
  foldl (fun dct kv => dict_set kv.1 (merge_value kv.2 (assoc kv.1 model) (assoc kv.1 dct)) dct) dct merge_dct.

(** [read_config], of a file with a given text, in a given directory *)
Definition read_config (loads : string → res PyVal) (content directory : string) (kwds : list (string * string)) :
    res PyVal :=
  s ← substitute content (("location", directory) :: kwds); loads s.

(** [settings_customise_sources] *)
Inductive EnvSettingsOption : Type := EnvFirst | EnvLast | EnvDisabled.
Inductive SettingsSource : Type := InitSettings | EnvSettings | FileSecretSettings.
Definition settings_customise_sources (opt : EnvSettingsOption) : list SettingsSource :=
  match opt with
  | EnvFirst => [EnvSettings; InitSettings; FileSecretSettings]
  | EnvLast => [InitSettings; FileSecretSettings; EnvSettings]
  | EnvDisabled => [InitSettings; FileSecretSettings]
  end.

(** ** ConfBuilder *)
Section builder.
(** The model classes of the sections, the defaults of their fields, the class of
    all settings; [instance] makes the default of a section that gives none, and
    [model_validate] is strict. *)
Context {T D Model : Type} (instance : T → res D) (create_model : list (string * (T * D)) → Model)
  (model_validate : Model → PyVal → res Conf).

Record ConfBuilder : Type := MkBuilder {
  b_sections : list (string * (T * option D));
  b_model : option Model;
  b_conf : option Conf;
  b_changed : bool;
  b_timestamp : Qc;
}.
Definition new_builder : ConfBuilder := MkBuilder [] None None true 0.

Fixpoint _create_base_model_of (sections : list (string * (T * option D))) : res (list (string * (T * D))) :=
  match sections with
  | [] => Ok []
  | (name, (t, field)) :: l =>
      d ← match field with Some d => Ok d | None => instance t end;
      fs ← _create_base_model_of l;
      Ok ((name, (t, d)) :: fs)
  end.
Definition _create_base_model (sections : list (string * (T * option D))) : res Model :=
  create_model <$> _create_base_model_of sections.

Definition _get_model : M ConfBuilder Model :=
  b ← get;
  match b_model b, b_changed b with
  | Some m, false => mret m
  | _, _ =>
      m ← pure (_create_base_model (b_sections b));
      modify (fun b => MkBuilder (b_sections b) (Some m) (b_conf b) false (b_timestamp b));;
      mret m
  end.

(** [validate], at a time *)
Definition validate (now : Qc) (obj : PyVal) : M ConfBuilder Conf :=
  m ← _get_model;
  c ← pure (model_validate m obj);
  modify (fun b => MkBuilder (b_sections b) (b_model b) (Some c) (b_changed b) now);;
  mret c.

(** [update_config]; the answer is [None] when there is no configuration *)
Definition update_data (conf : option Conf) (obj : option (list (string * PyVal))) : PyVal :=
  match conf with
  | Some c =>
      match model_dump c, obj, c with
      | VObj d, Some o, CModel _ fields => VObj (dict_merge d o fields)
      | v, _, _ => v
      end
  | None => VObj (default [] obj)
  end.
Definition update_config (now : Qc) (obj : option (list (string * PyVal))) : M ConfBuilder Conf :=
  b ← get;
  (if b_changed b || match obj with Some (_ :: _) => true | _ => false end
   then validate now (update_data (b_conf b) obj);; mret tt
   else mret tt);;
  b ← get; mret (default (CVal VNone) (b_conf b)).

(** [add_section] and the property [conf] *)
Definition add_section (name : string) (t : T) (field : option D) (replace : bool) : M ConfBuilder unit :=
  b ← get;
  if negb replace && bool_decide (is_Some (assoc name (b_sections b))) then raise (ValueError name)
  else modify (fun b => MkBuilder (dict_set name (t, field) (b_sections b)) (b_model b) (b_conf b) true (b_timestamp b)).
Definition conf (now : Qc) : M ConfBuilder Conf := update_config now None.

(** ** ConfigProxy *)

(** [getattr(c, name)]; the attributes of plain values are not modelled *)
Definition getattr (c : Conf) (name : string) : res Conf :=
  match c with
  | CModel _ fs => match assoc name fs with
                   | Some x => Ok x
                   | None => Raise (OtherException ("AttributeError: " +:+ name))
                   end
  | CVal _ => Raise (OtherException ("AttributeError: " +:+ name))
  end.

Record ConfigProxy : Type := MkProxy { p_timestamp : Qc; p_path : string; p_conf : Conf }.
Abbreviation PM := (M (ConfBuilder * ConfigProxy)).
Definition set_p_conf (c : Conf) : PM unit :=
  modify (fun bp => (bp.1, MkProxy (p_timestamp bp.2) (p_path bp.2) c)).

(** [__update]; the attributes of the path are read one after the other *)
Fixpoint read_path (attrs : list string) : PM unit :=
  match attrs with
  | [] => mret tt
  | a :: l =>
      (if str_truth a then
         c ← gets (fun bp => p_conf bp.2); x ← pure (getattr c a); set_p_conf x
       else mret tt);;
      read_path l
  end.
Definition on_builder {A} (m : M ConfBuilder A) : PM A := zoom fst (fun b bp => (b, bp.2)) m.
Definition proxy_update (now : Qc) : PM Conf :=
  bp ← get;
  (if Qc_le (b_timestamp bp.1) (p_timestamp bp.2) then mret tt
   else
     modify (fun bp => (bp.1, MkProxy (b_timestamp bp.1) (p_path bp.2) (p_conf bp.2)));;
     c ← on_builder (conf now);
     set_p_conf c;;
     read_path (split "." (p_path bp.2)));;
  gets (fun bp => p_conf bp.2).

(** [ConfigProxy.__init__] and [__getattr__]: a model is wrapped in a proxy *)
Definition wrap (path name : string) (attr : Conf) : Conf + ConfigProxy :=
  match attr with
  | CModel true _ => inr (MkProxy (- (1)) (path +:+ "." +:+ name) attr)
  | _ => inl attr
  end.
Definition proxy_getattr (now : Qc) (name : string) : PM (Conf + ConfigProxy) :=
  c ← proxy_update now;
  attr ← pure (getattr c name);
  bp ← get; mret (wrap (p_path bp.2) name attr).

Definition new_proxy (now : Qc) (path : string) (dflt : option Conf) : M ConfBuilder ConfigProxy :=
  match dflt with
  | Some c => mret (MkProxy (- (1)) path c)
  | None => fun b => let '(r, bp) := proxy_update now (b, MkProxy (- (1)) path (CVal VNone)) in
                     ((fun _ => bp.2) <$> r, bp.1)
  end.

(** ** A process that uses its configuration *)

(** The builder, the proxies that were made, and what is done with them, each at
    a time.  An update that fails leaves the process running. *)
Record Settings : Type := MkSettings { st_builder : ConfBuilder; st_proxies : list ConfigProxy }.
Inductive op : Type :=
| OUpdate (obj : option (list (string * PyVal)))
| OValidate (obj : PyVal)
| OSection (name : string) (t : T) (field : option D) (replace : bool)
| OProxy (path : string) (dflt : option Conf)
| ORead (i : nat) (name : string).

Definition with_builder {A} (m : M ConfBuilder A) : M Settings A :=
  zoom st_builder (fun b s => MkSettings b (st_proxies s)) m.
Definition attempt {A} (m : M ConfBuilder A) : M Settings unit :=
  try_except (with_builder m;; mret tt) (fun _ => Some (mret tt)).
Definition add_proxy (p : ConfigProxy) : M Settings unit :=
  modify (fun s => MkSettings (st_builder s) (st_proxies s ++ [p])).
Definition run_op (now : Qc) (o : op) : M Settings unit :=
  match o with
  | OUpdate obj => attempt (update_config now obj)
  | OValidate obj => attempt (validate now obj)
  | OSection name t field replace => attempt (add_section name t field replace)
  | OProxy path dflt => p ← with_builder (new_proxy now path dflt); add_proxy p
  | ORead i name => fun s =>
      match st_proxies s !! i with
      | None => (Raise IndexError, s)
      | Some p =>
          let '(r, bp) := proxy_getattr now name (st_builder s, p) in
          let s := MkSettings bp.1 (<[i := bp.2]> (st_proxies s)) in
          match r with
          | Ok (inr q) => add_proxy q s
          | Ok (inl _) => (Ok tt, s)
          | Raise e => (Raise e, s)
          end
      end
  end.
Fixpoint run_ops (ops : list (Qc * op)) : M Settings unit :=
  match ops with
  | [] => mret tt
  | (now, o) :: ops => run_op now o;; run_ops ops
  end.
End builder.

(** ** Merging *)

(** The plain value that a path of names leads to, through models; the value of a
    document there; a document whose values along the path are dictionaries. *)
Fixpoint setting (path : list string) (c : Conf) : option PyVal :=
  match path, c with
  | [], CVal v => Some v
  | k :: p, CModel _ fs => assoc k fs ≫= setting p
  | _, _ => None
  end.
Fixpoint get_path (path : list string) (v : PyVal) : option PyVal :=
  match path, v with
  | [], _ => Some v
  | k :: p, VObj l => assoc k l ≫= get_path p
  | _, _ => None
  end.
Fixpoint dicts_along (path : list string) (v : PyVal) : Prop :=
  match path, v with
  | [], _ => True
  | k :: p, VObj l => NoDup l.*1 ∧ match assoc k l with Some v => dicts_along p v | None => True end
  | _, _ => False
  end.

Lemma assoc_dump fs k : assoc k (dump_fields fs) = model_dump <$> assoc k fs.
Proof. induction fs as [|[k' c] fs IH]; [done|]. csimpl. by case_decide. Qed.

Lemma setting_dump path c v : setting path c = Some v → get_path path (model_dump c) = Some v.
Proof.
  revert c. induction path as [|k p IH]; intros [x|b fs]; simpl; try done.
  change ((fun kc : string * Conf => (kc.1, model_dump kc.2)) <$> fs) with (dump_fields fs).
  rw assoc_dump. destruct (assoc k fs) as [c|]; [|done]. apply IH.
Qed.

Lemma fold_set_lookup {A B} (f : string → A → option B → B) l d k : NoDup l.*1 →
  assoc k (foldl (fun d kv => dict_set kv.1 (f kv.1 kv.2 (assoc kv.1 d)) d) d l) =
    match assoc k l with Some v => Some (f k v (assoc k d)) | None => assoc k d end.
Proof.
  revert d. induction l as [|[k' v] l IH]; intros d; csimpl; [done|]. intros [Hk Hl]%NoDup_cons.
  rw IH //. case_decide as E.
  - subst k'. apply assoc_None in Hk. by rw Hk dict_set_lookup.
  - by rw dict_set_lookup_ne.
Qed.

Lemma dict_merge_lookup d l fs k : NoDup l.*1 →
  assoc k (dict_merge d l fs) =
    match assoc k l with Some v => Some (merge_value v (assoc k fs) (assoc k d)) | None => assoc k d end.
Proof. apply (fold_set_lookup (fun k v old => merge_value v (assoc k fs) old)). Qed.

Lemma merge_value_dict l b fs d :
  merge_value (VObj l) (Some (CModel b fs)) (Some (VObj d)) = VObj (dict_merge d l fs).
Proof.
  simpl. f_equal. rw /dict_merge. revert d. induction l as [|[k v] l IH]; intros d; [done|]. csimpl. apply IH.
Qed.

(** The data an update validates: every setting has the value that the update
    gives it when it gives one, in sections as deep as they are, and otherwise
    the value it had; a plain value is replaced as a whole, dictionaries too. *)
Theorem update_settings base fs obj path old :
  setting path (CModel base fs) = Some old → dicts_along path (VObj obj) →
  get_path path (update_data (Some (CModel base fs)) (Some obj)) =
    Some (default old (get_path path (VObj obj))).
Proof.
  change (update_data (Some (CModel base fs)) (Some obj)) with (VObj (dict_merge (dump_fields fs) obj fs)).
  revert base fs obj. induction path as [|k p IH]; intros base fs obj; [done|]. cbn [setting get_path dicts_along].
  rewrite bind_Some. intros (c & Hc & Hs) [Hnd Hd]. rw dict_merge_lookup // assoc_dump Hc /=.
  destruct (assoc k obj) as [v|]; simpl; [|by apply setting_dump].
  destruct p as [|k' p].
  - destruct c as [x|]; [|done]. by destruct v.
  - destruct c as [|b fs']; [done|]. destruct v; try done.
    change (model_dump (CModel b fs')) with (VObj (dump_fields fs')). rw merge_value_dict. by apply (IH b).
Qed.

(** ** Proxies *)
Section proxies.
Context {T D Model : Type} (instance : T → res D) (create_model : list (string * (T * D)) → Model)
  (model_validate : Model → PyVal → res Conf).
Abbreviation Builder := (@ConfBuilder T D Model).
Abbreviation validate := (validate instance create_model model_validate).
Abbreviation update_config := (update_config instance create_model model_validate).
Abbreviation proxy_update := (proxy_update instance create_model model_validate).
Abbreviation proxy_getattr := (proxy_getattr instance create_model model_validate).
Abbreviation run_op := (run_op instance create_model model_validate).
Abbreviation run_ops := (run_ops instance create_model model_validate).
Implicit Types (b : Builder) (p : ConfigProxy).

(** What is found at a path of a configuration. *)
Fixpoint navigate (attrs : list string) (c : Conf) : res Conf :=
  match attrs with
  | [] => Ok c
  | a :: l => if str_truth a then x ← getattr c a; navigate l x else navigate l c
  end.
Definition current b : Conf := default (CVal VNone) (b_conf b).

Lemma read_path_spec attrs b p r s :
  read_path attrs (b, p) = (r, s) →
  s.1 = b ∧ p_timestamp s.2 = p_timestamp p ∧ p_path s.2 = p_path p ∧
  (r = Ok tt → navigate attrs (p_conf p) = Ok (p_conf s.2)).
Proof.
  revert p. induction attrs as [|a attrs IH]; intros p; simpl; [by intros [= <- <-]|].
  destruct (str_truth a); [|apply IH].
  rw /set_p_conf /modify /gets /pure. py_unfold. simpl. destruct (getattr (p_conf p) a) as [x|e]; simpl.
  - intros (-> & -> & -> & H)%IH. done.
  - by intros [= <- <-].
Qed.

Lemma read_path_nav attrs b p r s e :
  read_path attrs (b, p) = (r, s) → r = Raise e → navigate attrs (p_conf p) = Raise e.
Proof.
  revert p. induction attrs as [|a attrs IH]; intros p; simpl; [by intros [= <- _]|].
  destruct (str_truth a); [|apply IH].
  rw /set_p_conf /modify /gets /pure. py_unfold. simpl. destruct (getattr (p_conf p) a) as [x|e']; simpl.
  - intros H He. by eapply IH in H.
  - by intros [= <- _] [= ->].
Qed.

(** The configuration changes at the times it is validated only. *)
Definition later (now : Qc) b b' : Prop := (b_conf b' = b_conf b ∧ b_timestamp b' = b_timestamp b) ∨ b_timestamp b' = now.

Lemma get_model_later b r b' : _get_model instance create_model b = (r, b') →
  b_conf b' = b_conf b ∧ b_timestamp b' = b_timestamp b.
Proof.
  rw /_get_model /pure /modify /get. py_unfold.
  destruct (b_model b) as [m|], (b_changed b); try by intros [= <- <-].
  all: destruct (_create_base_model _ _ _) as [m'|e]; by intros [= <- <-].
Qed.

Lemma validate_later now obj b r b' : validate now obj b = (r, b') → later now b b'.
Proof.
  rw /Config.validate. intros [(m & b1 & Hm & Hv)|(e & Hm & ->)]%bind_inv; apply get_model_later in Hm as [Hc Ht]; [|by left].
  move: Hv. rw /pure /modify. py_unfold. destruct (model_validate m obj); intros [= <- <-]; [by right|by left].
Qed.

Lemma update_later now obj b r b' : update_config now obj b = (r, b') →
  later now b b' ∧ (∀ c, r = Ok c → c = current b').
Proof.
  rw /Config.update_config /get. py_unfold. simpl. destruct (b_changed b || _).
  - destruct (validate now (update_data (b_conf b) obj) b) as [[c|e] b1] eqn:Hv; apply validate_later in Hv.
    + intros [= <- <-]. split; [done|]. by intros c' [= <-].
    + by intros [= <- <-].
  - intros [= <- <-]. split; [by left|]. by intros c [= <-].
Qed.

Lemma add_section_later name t f replace now b r b' : add_section name t f replace b = (r, b') → later now b b'.
Proof. rw /add_section /get. py_unfold. simpl. case_match; intros [= <- <-]; by left. Qed.

(** A proxy that is up to date holds what is at its path. *)
Definition consistent b p : Prop :=
  (p_timestamp p ≤ b_timestamp b)%Qc ∧
  (p_timestamp p = b_timestamp b → navigate (split "." (p_path p)) (current b) = Ok (p_conf p)).

Lemma consistent_later now b b' p : (b_timestamp b < now)%Qc → later now b b' → consistent b p → consistent b' p.
Proof.
  intros Hnow [[Hc Ht]|Ht] [Hle Heq]; [by rw /consistent /current Hc Ht|].
  assert (p_timestamp p < now)%Qc as Hlt by by eapply Qcle_lt_trans.
  split; rw Ht; [by apply Qclt_le_weak|]. intros E. rw E in Hlt. by apply Qclt_not_eq in Hlt.
Qed.

Lemma proxy_update_spec now b p r b' p' : (b_timestamp b < now)%Qc → consistent b p →
  proxy_update now (b, p) = (r, (b', p')) →
  later now b b' ∧ p_path p' = p_path p ∧
  (∀ c, r = Ok c → consistent b' p' ∧ c = p_conf p' ∧ navigate (split "." (p_path p)) (current b') = Ok c).
Proof.
  intros Hnow Hp. rw /Config.proxy_update /get /gets /modify /on_builder /zoom /conf. py_unfold. simpl.
  destruct (Qc_le (b_timestamp b) (p_timestamp p)) eqn:Hle.
  { intros [= <- <- <-]. split_and!; [by left|done|]. intros c [= <-]. split_and!; [done..|].
    destruct Hp as [Hp1 Hp2]. apply Hp2, Qcle_antisym; [done|by apply Qc_le_true]. }
  cbn [fst snd].
  destruct (update_config now None b) as [[c|e] b1] eqn:Hu; apply update_later in Hu as [Hl Hc]; cbn [fst snd];
    [|by intros [= <- <- <-]].
  rw /set_p_conf /modify. simpl.
  destruct (read_path _ _) as [r1 [b2 p2]] eqn:Hr. apply read_path_spec in Hr as (Hb & Ht & Hpath & Hnav).
  simpl in *. subst b2. destruct r1 as [[]|e]; intros [= <- <- <-]; [|done].
  split_and!; [done..|]. intros c' [= <-]. rewrite -(Hc c eq_refl). specialize (Hnav eq_refl).
  split_and!; [|done..]. split; rw Ht; [|by rw Hpath -(Hc c eq_refl)].
  destruct Hl as [[Hc' E]|E]; rw E; [done|by apply Qclt_le_weak].
Qed.

(** ** Runs *)
Definition consistent_at (t : Qc) (s : @Settings T D Model) : Prop :=
  (0 ≤ b_timestamp (st_builder s) ≤ t)%Qc ∧ Forall (consistent (st_builder s)) (st_proxies s).

(** The clock goes forward from one operation to the next. *)
Fixpoint clocked (t : Qc) (ops : list (Qc * @op T D)) : Prop :=
  match ops with [] => True | (now, _) :: l => (t < now)%Qc ∧ clocked now l end.

Lemma fresh_consistent b path c : (0 ≤ b_timestamp b)%Qc → consistent b (MkProxy (- (1)) path c).
Proof.
  intros Hb. assert (- (1) < b_timestamp b)%Qc as Hlt by by eapply Qclt_le_trans; [|exact Hb].
  split; simpl; [by apply Qclt_le_weak|]. intros E. rw E in Hlt. by apply Qclt_not_eq in Hlt.
Qed.

Lemma later_at now t b b' ps : (t < now)%Qc → (0 ≤ b_timestamp b ≤ t)%Qc → later now b b' →
  Forall (consistent b) ps → (0 ≤ b_timestamp b' ≤ now)%Qc ∧ Forall (consistent b') ps.
Proof.
  intros Hnow [H0 Ht] Hl Hps. assert (b_timestamp b < now)%Qc as Hlt by by eapply Qcle_lt_trans.
  assert (0 ≤ now)%Qc by (eapply Qcle_trans; [exact H0|by apply Qclt_le_weak]).
  split.
  - destruct Hl as [[_ ->]| ->]; [|done]. split; [done|by apply Qclt_le_weak].
  - eapply Forall_impl; [exact Hps|]. intros p. by eapply consistent_later.
Qed.

Lemma attempt_at {A} now t (m : M Builder A) s r s' : (t < now)%Qc →
  (∀ b r b', m b = (r, b') → later now b b') → consistent_at t s →
  attempt m s = (r, s') → consistent_at now s'.
Proof.
  intros Hnow Hm [Ht Hps]. rw /attempt /try_except /with_builder /zoom. py_unfold.
  destruct (m (st_builder s)) as [[a|e] b'] eqn:E; intros [= <- <-].
  all: by apply Hm in E; eapply later_at.
Qed.

Lemma add_proxy_at t p s r s' : consistent_at t s → consistent (st_builder s) p → add_proxy p s = (r, s') →
  consistent_at t s'.
Proof.
  intros [Ht Hps] Hp. rw /add_proxy /modify. intros [= <- <-]. split; [done|]. apply Forall_app. split; [done|].
  by constructor.
Qed.

Lemma read_at now t i name s s' : (t < now)%Qc → consistent_at t s → run_op now (ORead i name) s = (Ok tt, s') →
  consistent_at now s'.
Proof.
  intros Hnow [Ht Hps]. simpl. destruct (st_proxies s !! i) as [p|] eqn:Hi; [|done].
  assert (b_timestamp (st_builder s) < now)%Qc as Hlt by (eapply Qcle_lt_trans; [apply Ht|done]).
  pose proof (Forall_lookup_1 _ _ _ _ Hps Hi) as Hp.
  rw /Config.proxy_getattr /pure /get. py_unfold.
  destruct (proxy_update now (st_builder s, p)) as [[c|e] [b' p']] eqn:Hu; [|done].
  apply (proxy_update_spec now) in Hu as (Hl & _ & Hc); [|done..]. destruct (Hc c eq_refl) as (Hp' & _ & _).
  destruct (getattr c name) as [x|e]; [|done]. simpl.
  destruct (later_at now t _ _ _ Hnow Ht Hl Hps) as [Ht' Hps'].
  assert (consistent_at now (MkSettings b' (<[i:=p']> (st_proxies s)))) as Hs.
  { split; [done|]. by apply Forall_insert. }
  rw /wrap. destruct x as [v|[] fs]; try by intros [= <-].
  intros Hq. eapply add_proxy_at; [exact Hs| |exact Hq]. apply fresh_consistent. apply Ht'.
Qed.

Lemma new_proxy_at now t path dflt s s' : (t < now)%Qc → consistent_at t s →
  run_op now (OProxy path dflt) s = (Ok tt, s') → consistent_at now s'.
Proof.
  intros Hnow [Ht Hps]. simpl. rw /with_builder /zoom /new_proxy. py_unfold.
  assert (b_timestamp (st_builder s) < now)%Qc as Hlt by (eapply Qcle_lt_trans; [apply Ht|done]).
  destruct dflt as [c|]; simpl.
  - apply add_proxy_at; [|apply fresh_consistent, Ht].
    split; [|done]. simpl. split; [apply Ht|]. by apply Qclt_le_weak.
  - destruct (proxy_update _ _) as [[c|e] [b' p']] eqn:Hu; [|done].
    apply (proxy_update_spec now) in Hu as (Hl & _ & Hc); [|done|apply fresh_consistent, Ht].
    destruct (Hc c eq_refl) as (Hp' & _ & _).
    cbn [fst snd]. change (add_proxy p' (MkSettings b' (st_proxies s)) = (Ok tt, s') → consistent_at now s').
    apply add_proxy_at; [|done]. by apply (later_at now t (st_builder s)).
Qed.

Lemma run_op_at now t o s s' : (t < now)%Qc → consistent_at t s → run_op now o s = (Ok tt, s') →
  consistent_at now s'.
Proof.
  intros Hnow Hs. destruct o as [obj|obj|name ty field replace|path dflt|i name].
  - apply (attempt_at now t); [done| |done]. intros b r b' H. by apply update_later in H as [? _].
  - apply (attempt_at now t); [done| |done]. intros b r b'. apply validate_later.
  - apply (attempt_at now t); [done| |done]. intros b r b'. apply add_section_later.
  - by apply (new_proxy_at now t).
  - by apply (read_at now t).
Qed.

Lemma run_ops_at t ops s s' : clocked t ops → consistent_at t s → run_ops ops s = (Ok tt, s') →
  ∃ t', consistent_at t' s'.
Proof.
  revert t s. induction ops as [|[now o] ops IH]; intros t s; [by intros _ ? [= <-]; eauto|].
  intros [Hnow Hc] Hs ([] & s1 & Ho & Hops)%bind_ok_inv. eapply IH; [exact Hc| |exact Hops].
  by eapply run_op_at.
Qed.

End proxies.

(** The path of a proxy that another one answers. *)
Lemma navigate_app l k c : navigate (l ++ k) c = (x ← navigate l c; navigate k x).
Proof.
  revert c. induction l as [|a l IH]; intros c; [done|]. simpl. destruct (str_truth a); [|apply IH].
  destruct (getattr c a); [apply IH|done].
Qed.
Lemma navigate_nested path name c : name ≠ "" → char_in "." name = false →
  navigate (split "." (path +:+ "." +:+ name)) c = (x ← navigate (split "." path) c; getattr x name).
Proof.
  intros Hne Hdot. change ("." +:+ name) with (String "." name). rw split_at_sep (split_single "." name) // navigate_app.
  destruct (navigate _ c) as [x|]; [|done]. simpl. apply str_truth_spec in Hne as ->. by destruct (getattr x name).
Qed.

(** ** Witnesses *)
Module ConfigDemo.
(** Sections of one field, whose default is given by the section. *)
Definition section_of (v : PyVal) (nd : string * (string * unit)) : string * Conf :=
  (nd.1, CModel true [(nd.2.1, CVal (default (VStr "info") (get_path [nd.1; nd.2.1] v)))]).
Definition model_validate (m : list (string * (string * unit))) (v : PyVal) : res Conf :=
  if decide (get_path ["logging"; "level"] v = Some (VInt 0)) then Raise (ValidationError "level")
  else Ok (CModel false (section_of v <$> m)).
Definition instance (t : string) : res unit := Ok tt.
Definition at_ (n : Z) (o : @op string unit) : Qc * @op string unit := (Qc_of_Z n, o).
Definition debug (v : PyVal) : option (list (string * PyVal)) := Some [("logging", VObj [("level", v)])].
(** A section, a proxy on it, a first update, one that fails, and one more. *)
Definition ops : list (Qc * @op string unit) :=
  [at_ 1 (OSection "logging" "level" None false); at_ 2 (OProxy "" None); at_ 3 (ORead 0 "logging");
   at_ 4 (OUpdate (debug (VStr "debug"))); at_ 5 (OUpdate (debug (VInt 0)));
   at_ 6 (OSection "rpc" "port" None false); at_ 7 (OUpdate (debug (VStr "trace")))].
Definition final : res unit * @Settings string unit (list (string * (string * unit))) :=
  run_ops instance id model_validate ops (MkSettings new_builder []).
Definition nested : ConfigProxy :=
  MkProxy (- (1)) ".logging" (CModel true [("level", CVal (VStr "info"))]).

Example final_ex : final.1 = Ok tt ∧ b_changed (st_builder final.2) = false ∧ st_proxies final.2 !! 1 = Some nested.
Proof. vm_compute. done. Qed.

(** When the first validation fails, there is no configuration and none is made. *)
Example no_configuration :
  let b := (run_ops instance id model_validate
              [at_ 1 (OSection "logging" "level" None false); at_ 2 (OValidate (VObj [("logging", VObj [("level", VInt 0)])]))]
              (MkSettings new_builder [])).2 in
  (conf instance id model_validate (Qc_of_Z 3) (st_builder b)).1 = Ok (CVal VNone).
Proof. vm_compute. reflexivity. Qed.
End ConfigDemo.


Lemma update_settings_witness :
  get_path ["logging"; "level"]
    (update_data (Some (CModel false [("logging", CModel true [("level", CVal (VStr "info")); ("file", CVal VNone)])]))
       (Some [("logging", VObj [("level", VStr "debug")])])) = Some (VStr "debug").
Proof.
  apply (update_settings false _ [("logging", VObj [("level", VStr "debug")])] ["logging"; "level"] (VStr "info")).
  - reflexivity.
  - simpl. split; [apply NoDup_singleton|]. by split; [apply NoDup_singleton|].
Defined.
