(* ===== verification/Toml.v ===== *)
(** * The documentation of the configuration as TOML

    [core/config/_toml.py]: a model of the configuration is printed as a TOML
    file, with its documentation in comments.  What pydantic and [typing] say of a
    model is data: the fields with their annotations, documentation and defaults.
    What is printed is kept as lines, of which [render] is the text. *)
From S2P Require Import Prelude PyDict PyAssoc PyStd Json.

(** ** Models, annotations, defaults *)

(** A default value: [PydanticUndefined], a value of JSON, a tuple or a set, the
    instance of a model (what [model_dump] makes of it), or another object. *)
Inductive Value : Type :=
| Undefined
| Plain (j : JsonValue)
| Sequence (text : string) (l : list Value)
| Instance (text : string) (dump : list (string * JsonValue))
| Object (text : string).

(** An annotation: a model, another class, a generic type of [typing] with its
    arguments, or a union [X | Y], that has no [__name__]. *)
Inductive Ann : Type :=
| AModel (m : Model)
| AClass (name : string)
| AGeneric (name : string) (args : list Ann)
| AUnionType (args : list Ann)
with Model : Type :=
| MkModel (name : string) (doc : option string) (fields : list (string * Field))
with Field : Type :=
| MkField (title description : option string) (examples : list string)
    (annotation : option Ann) (required : bool) (field_default : Value).

Definition model_fields (m : Model) : list (string * Field) := let '(MkModel _ _ l) := m in l.
Definition model_doc (m : Model) : option string := let '(MkModel _ d _) := m in d.
Definition f_title (f : Field) : option string := let '(MkField t _ _ _ _ _) := f in t.
Definition f_description (f : Field) : option string := let '(MkField _ d _ _ _ _) := f in d.
Definition f_examples (f : Field) : list string := let '(MkField _ _ e _ _ _) := f in e.
Definition f_annotation (f : Field) : option Ann := let '(MkField _ _ _ a _ _) := f in a.
Definition is_required (f : Field) : bool := let '(MkField _ _ _ _ r _) := f in r.
Definition f_default (f : Field) : Value := let '(MkField _ _ _ _ _ v) := f in v.

(** ** What is printed *)
Inductive Line : Type :=
| Blank
| Hash
| Example_mark
| Comment (text : string)
| Header (commented is_list : bool) (section : string)
| Unset (name : string) (required : bool)
| Assign (commented : bool) (name value : string).

Definition newline : string := String (ascii_of_N 10) "".
Definition quote : string := String (ascii_of_N 34) "".
Definition render (l : Line) : string :=
  match l with
  | Blank => ""
  | Hash => "#"
  | Example_mark => "#" +:+ newline +:+ "# Example:" +:+ newline +:+ "#"
  | Comment text => "# " +:+ text
  | Header commented is_list section =>
      (if commented then "#" else "") +:+
      (if is_list then "[[" +:+ section +:+ "]]" else "[" +:+ section +:+ "]")
  | Unset name required =>
      "#" +:+ name +:+ " =   " +:+ String (ascii_of_N 9) "" +:+ (if required then "# Required" else "# Optional")
  | Assign commented name value => (if commented then "#" else "") +:+ name +:+ " = " +:+ value
  end.

(** The file that is written, and the standard output. *)
Record Out : Type := MkOut { written : list Line; printed : list Line }.
Definition put (ls : list Line) : M Out unit := modify (fun s => MkOut (written s ++ ls) (printed s)).
Definition print_stdout (l : Line) : M Out unit := modify (fun s => MkOut (written s) (printed s ++ [l])).
Definition text_of (s : Out) : string := String.concat "" ((fun l => render l +:+ newline) <$> written s).

(** [textwrap.dedent]: the lines of white space are emptied, the others lose the
    spaces that they all begin with *)
Definition blank (a : ascii) : bool := bool_decide (a ∈ [" "%char; ascii_of_N 9]).
Fixpoint take_while (f : ascii → bool) (s : string) : string :=
  match s with "" => "" | String a s => if f a then String a (take_while f s) else "" end.
Fixpoint common_prefix (s t : string) : string :=
  match s, t with
  | String a s, String b t => if decide (a = b) then String a (common_prefix s t) else ""
  | _, _ => ""
  end.
Definition dedent (text : string) : string :=
  let ls := (fun l => if str_forall blank l then "" else l) <$> split (ascii_of_N 10) text in
  match filter (fun l => l ≠ "") ls with
  | [] => join newline ls
  | l :: rest =>
      let margin := foldl (fun m l => common_prefix m (take_while blank l)) (take_while blank l) rest in
      join newline (removeprefix margin <$> ls)
  end.
(** [s.strip(newline)] *)
Definition strip_newlines (s : string) : string :=
  let f a := bool_decide (a = ascii_of_N 10) in
  let rev s := String.string_of_list_ascii (reverse (String.list_ascii_of_string s)) in
  rev (lstrip f (rev (lstrip f s))).

Definition comments (text : string) : list Line := Comment <$> split (ascii_of_N 10) text.

(** [_print_field_doc] *)
Definition field_doc (f : Field) : list Line :=
  (if ostr_truth (f_title f) then [Hash; Comment (default "" (f_title f))] else []) ++
  (if ostr_truth (f_description f) then Hash :: comments (default "" (f_description f)) else []) ++
  flat_map (fun ex => Example_mark :: comments (removeprefix newline (dedent ex))) (f_examples f).

(** [_print_model_doc] *)
Definition _print_model_doc (m : Model) : list Line :=
  if ostr_truth (model_doc m) then comments (dedent (strip_newlines (default "" (model_doc m)))) else [].

(** [str(v)] *)
Definition value_str (v : Value) : string :=
  match v with
  | Undefined => "PydanticUndefined"
  | Plain j => json_str j
  | Sequence text _ | Instance text _ | Object text => text
  end.
(** [_to_string] *)
Definition quoted (s : string) : string := quote +:+ s +:+ quote.
Definition _to_string (v : Value) : string :=
  match v with
  | Plain (JBool b) => if b then "true" else "false"
  | Plain (JInt z) => str_of_int z
  | Plain (JFloat r) => r
  | v => quoted (value_str v)
  end.
(** [_field_default_repr] *)
Definition _field_default_repr (v : Value) : string :=
  match v with
  | Plain (JStr s) => if char_in (ascii_of_N 10) s then "'''" +:+ s +:+ "'''" else quoted s
  | Plain (JBool b) => if b then "true" else "false"
  | Plain (JInt z) => str_of_int z
  | Plain (JFloat r) => r
  | Plain (JArr l) => "[" +:+ join "," (_to_string ∘ Plain <$> l) +:+ "]"
  | Sequence _ l => "[" +:+ join "," (_to_string <$> l) +:+ "]"
  | Plain (JObj l) => "{" +:+ join ", " ((fun kv => "'" +:+ kv.1 +:+ "'='" +:+ json_str kv.2 +:+ "'") <$> l) +:+ "}"
  | v => quoted (value_str v)
  end.

(** [v is None] *)
Definition is_none (v : Value) : bool := match v with Plain JNull => true | _ => false end.
Definition value_truth (v : Value) : bool :=
  match v with
  | Plain j => json_truth j
  | Sequence _ l => match l with [] => false | _ => true end
  | Undefined | Instance _ _ | Object _ => true
  end.

(** [_print_field] *)
Definition _print_field (name : string) (f : Field) (comment : bool) (dflt : JsonValue) : Line :=
  match dflt with
  | JNull =>
      if is_required f then Unset name true
      else if is_none (f_default f) then Unset name false
      else Assign comment name (_field_default_repr (f_default f))
  | j => Assign false name (_field_default_repr (Plain j))
  end.

(** ** The inspection of annotations *)
Definition no_attribute (s : string) : exn := OtherException ("AttributeError: " +:+ s).
(** [t.__name__] and [t.__args__] *)
Definition ann_name (a : Ann) : res string :=
  match a with
  | AModel (MkModel name _ _) | AClass name | AGeneric name _ => Ok name
  | AUnionType _ => Raise (no_attribute "__name__")
  end.
Definition ann_args (a : Ann) : res (list Ann) :=
  match a with
  | AGeneric _ args | AUnionType args => Ok args
  | AModel _ | AClass _ => Raise (no_attribute "__args__")
  end.
Definition ann_arg (n : nat) (a : Ann) : res Ann :=
  args ← ann_args a; match args !! n with Some x => Ok x | None => Raise IndexError end.

(** [_unpack_arg] *)
Definition wraps (name : string) : bool := bool_decide (name ∈ ["Annotated"; "Optional"]).
Fixpoint _unpack_arg (a : Ann) : res Ann :=
  match a with
  | AGeneric name args =>
      if wraps name then match args with x :: _ => _unpack_arg x | [] => Raise IndexError end else Ok a
  | AClass name => if wraps name then Raise (no_attribute "__args__") else Ok a
  | AModel (MkModel name _ _) => if wraps name then Raise (no_attribute "__args__") else Ok a
  | AUnionType _ => Ok a
  end.
(** [arg.__name__ == "Union"], and the test of [defer], that first looks for the
    class of [X | Y] *)
Definition named_union (a : Ann) : res bool := name ← ann_name a; Ok (bool_decide (name = "Union")).
Definition is_union (a : Ann) : res bool :=
  match a with AUnionType _ => Ok true | a => named_union a end.

(** ** Sections *)

(** What is printed after the fields of a section.  The models of a union are
    kept without the last two elements that the loop unpacks. *)
Inductive Deferred : Type :=
| Later (m : Model) (name : string) (f : Field) (as_list : bool) (dflt : JsonValue)
| Short (m : Model) (name : string) (f : Field).

(** The models of a union, with the names of their keys *)
Fixpoint union_models (i : nat) (name : string) (keyed : bool) (f : Field) (args : list Ann) : list Deferred :=
  match args with
  | [] => []
  | a :: args =>
      (match a with
       | AModel m => [Short m (name +:+ if keyed then ".'key" +:+ str_of_int (Z.of_nat i) +:+ "'" else "") f]
       | _ => []
       end) ++ union_models (S i) name keyed f args
  end.
(** [defer]: the name of a dictionary ends with a key *)
Definition defer (name : string) (keyed : bool) (f : Field) (arg : Ann) (as_list : bool) (dflt : JsonValue) :
    res (list Deferred) :=
  arg ← _unpack_arg arg;
  match arg with
  | AModel m => Ok [Later m (name +:+ if keyed then ".'key'" else "") f as_list dflt]
  | arg =>
      union ← is_union arg;
      if union : bool then args ← ann_args arg; Ok (union_models 0 name keyed f args) else Ok []
  end.
(** The match on the annotation of a field *)
Definition defer_field (section name : string) (f : Field) (a : Ann) (dflt : JsonValue) : res (list Deferred) :=
  let path := section +:+ "." +:+ name in
  n ← ann_name a;
  if decide (lower n ∈ ["list"; "tuple"; "union"; "sequence"])
  then arg ← ann_arg 0 a; defer path false f arg true dflt
  else if decide (lower n = "dict") then arg ← ann_arg 1 a; defer path true f arg false dflt
  else defer path false f a false dflt.

(** The defaults of the fields, from that of the model *)
Definition fields_default (model_default : Value) : list (string * JsonValue) :=
  match model_default with
  | Instance _ dump => dump
  | Plain (JObj d) => d
  | _ => []
  end.
(** [field.default or default] *)
Definition or_default (f : Field) (dflt : JsonValue) : Value :=
  if value_truth (f_default f) then f_default f else Plain dflt.

(** The loop on the fields: what is not deferred is printed *)
Fixpoint dump_fields (section : string) (comment : bool) (defaults : list (string * JsonValue))
    (fields : list (string * Field)) : M Out (list Deferred) :=
  match fields with
  | [] => mret []
  | (name, f) :: fields =>
      let dflt := default JNull (assoc name defaults) in
      match f_annotation f with
      | None => dump_fields section comment defaults fields
      | Some a =>
          ds ← pure (defer_field section name f a dflt);
          match ds with
          | [] => put (field_doc f ++ [_print_field name f comment dflt])
          | _ => mret tt
          end;;
          rest ← dump_fields section comment defaults fields;
          mret (ds ++ rest)
      end
  end.
(** The loop on what is deferred *)
Fixpoint dump_deferred (dump : Model → Value → string → bool → M Out unit) (ds : list Deferred) : M Out unit :=
  match ds with
  | [] => mret tt
  | Later m name f as_list dflt :: ds =>
      put (Blank :: field_doc f ++ [Hash]);;
      dump m (or_default f dflt) name as_list;;
      dump_deferred dump ds
  | Short _ _ _ :: _ => raise (ValueError "not enough values to unpack (expected 5, got 3)")
  end.
(** [_dump_section]; [n] bounds the depth of the model *)
Fixpoint _dump_section (n : nat) (m : Model) (model_default : Value) (section : string)
    (comment is_list : bool) : M Out unit :=
  match n with
  | O => raise (OtherException "RecursionError")
  | S n =>
      put [Header comment is_list section];;
      ds ← dump_fields section comment (fields_default model_default) (model_fields m);
      dump_deferred (fun m d name as_list => _dump_section n m d name comment as_list) ds
  end.

(** [_dump_model] of an element of a list *)
Definition _dump_model (m : Model) (name : string) : M Out unit :=
  put (_print_model_doc m);;
  put [Header false true name];;
  put (flat_map (fun nf => field_doc nf.2 ++ [_print_field nf.1 nf.2 false JNull]) (model_fields m)).

(** ** The whole model *)

(** The models of a union in a list or in a dictionary *)
Fixpoint each_model (i : nat) (dump : nat → Model → M Out unit) (args : list Ann) : M Out unit :=
  match args with
  | [] => mret tt
  | AModel m :: args => put [Blank];; dump i m;; each_model (S i) dump args
  | _ :: _ => raise (PreconditionError "Pre condition failed")
  end.
Definition dump_field (n : nat) (name : string) (f : Field) (ann : Ann) : M Out unit :=
  a ← pure (_unpack_arg ann);
  match a with
  | AModel m =>
      print_stdout Blank;;
      put (_print_model_doc m);;
      outer ← pure (ann_name ann);
      _dump_section n m (f_default f) name (bool_decide (outer = "Optional")) false
  | a =>
      kind ← pure (ann_name a);
      if decide (lower kind ∈ ["list"; "sequence"]) then
        arg ← pure (ann_arg 0 a);
        match arg with
        | AModel m => _dump_model m name
        | arg =>
            union ← pure (named_union arg);
            if union : bool then args ← pure (ann_args arg); each_model 0 (fun _ m => _dump_model m name) args
            else mret tt
        end
      else if decide (lower kind = "dict") then
        arg ← pure (ann_arg 1 a);
        match arg with
        | AModel m =>
            put (_print_model_doc m);; _dump_section n m (f_default f) (name +:+ ".'key'") false false
        | arg =>
            union ← pure (named_union arg);
            if union : bool then
              args ← pure (ann_args arg);
              each_model 0 (fun i m =>
                _dump_section n m (f_default f) (name +:+ ".'key" +:+ str_of_int (Z.of_nat i) +:+ "'") false false) args
            else mret tt
        end
      else put (field_doc f ++ [_print_field name f true JNull])
  end.
(** [dump_model_toml] *)
Fixpoint dump_toml_fields (n : nat) (fields : list (string * Field)) : M Out unit :=
  match fields with
  | [] => mret tt
  | (name, f) :: fields =>
      put (field_doc f);;
      match f_annotation f with
      | None => mret tt
      | Some a => dump_field n name f a;; put [Blank]
      end;;
      dump_toml_fields n fields
  end.
Definition dump_model_toml (n : nat) (m : Model) : M Out unit :=
  put [Blank];; dump_toml_fields n (model_fields m).

(** ** Properties

    How TOML reads the lines: a header opens a table, a key belongs to the table
    that was opened last. *)
Fixpoint tables (current : string) (ls : list Line) : list (string * string) :=
  match ls with
  | [] => []
  | Header false _ section :: ls => tables section ls
  | Assign false name _ :: ls => (current, name) :: tables current ls
  | _ :: ls => tables current ls
  end.
Fixpoint opened (current : string) (ls : list Line) : string :=
  match ls with
  | [] => current
  | Header false _ section :: ls => opened section ls
  | _ :: ls => opened current ls
  end.

(** The keys of a model with a default, and those of the models it is made of: the
    fields that have a value and are not models themselves. *)
Definition shape (d : Deferred) : option Model := match d with Later m _ _ _ _ => Some m | Short _ _ _ => None end.
Definition no_field : Field := MkField None None [] None false Undefined.
Definition shapes (ds : list Deferred) : list (option Model) := shape <$> ds.
Definition inner (a : Ann) : res (list (option Model)) := shapes <$> defer_field "" "" no_field a JNull.
Definition has_value (f : Field) (dflt : JsonValue) : bool :=
  match dflt with JNull => negb (is_required f) && negb (is_none (f_default f)) | _ => true end.
Definition own_keys (defaults : list (string * JsonValue)) (fields : list (string * Field)) : list string :=
  omap (fun nf => match inner <$> f_annotation nf.2 with
                  | Some (Ok []) => if has_value nf.2 (default JNull (assoc nf.1 defaults)) then Some nf.1 else None
                  | _ => None
                  end) fields.
Definition parts (section : string) (defaults : list (string * JsonValue)) (fields : list (string * Field)) :
    list Deferred :=
  flat_map (fun nf => match f_annotation nf.2 with
                      | Some a => match defer_field section nf.1 nf.2 a (default JNull (assoc nf.1 defaults)) with
                                  | Ok ds => ds
                                  | Raise _ => []
                                  end
                      | None => []
                      end) fields.
Fixpoint keys_of (n : nat) (m : Model) (dflt : Value) (section : string) : list (string * string) :=
  match n with
  | O => []
  | S n =>
      (pair section <$> own_keys (fields_default dflt) (model_fields m)) ++
      flat_map (fun d => match d with
                         | Later m name f _ v => keys_of n m (or_default f v) name
                         | Short _ _ _ => []
                         end) (parts section (fields_default dflt) (model_fields m))
  end.

(** The models of depth [n] that can be printed: their annotations have names, and
    no field is a union with a model. *)
Fixpoint dumpable (n : nat) (m : Model) : bool :=
  match n with
  | O => false
  | S n =>
      forallb (fun nf => match inner <$> f_annotation nf.2 with
                         | Some (Ok l) => forallb (fun x => match x with Some m => dumpable n m | None => false end) l
                         | Some (Raise _) => false
                         | None => true
                         end) (model_fields m)
  end.

Lemma tables_app c l1 l2 : tables c (l1 ++ l2) = tables c l1 ++ tables (opened c l1) l2.
Proof.
  revert c. induction l1 as [|l l1 IH]; intros c; [done|].
  destruct l as [| | |?|[] ? ?|? ?|[] ? ?]; simpl; rw ?IH //.
Qed.

Lemma opened_app c l1 l2 : opened c (l1 ++ l2) = opened (opened c l1) l2.
Proof.
  revert c. induction l1 as [|l l1 IH]; intros c; [done|].
  destruct l as [| | |?|[] ? ?|? ?|[] ? ?]; simpl; rw ?IH //.
Qed.

(** The documentation has no header and no key. *)
Definition is_doc (l : Line) : bool :=
  match l with Blank | Hash | Example_mark | Comment _ => true | _ => false end.
Lemma doc_tables c ls : forallb is_doc ls = true → tables c ls = [] ∧ opened c ls = c.
Proof. induction ls as [|l ls IH]; [done|]. by destruct l. Qed.

Lemma comments_doc s : forallb is_doc (comments s) = true.
Proof. rw /comments. by induction (split _ s). Qed.

Lemma field_doc_doc f : forallb is_doc (field_doc f) = true.
Proof.
  rw /field_doc !forallb_app. repeat (apply andb_true_intro; split).
  - by destruct (ostr_truth _).
  - destruct (ostr_truth _); [apply comments_doc|done].
  - induction (f_examples f) as [|e l IH]; [done|]. cbn [flat_map]. rw forallb_app IH andb_true_r.
    apply comments_doc.
Qed.

Lemma model_doc_doc m : forallb is_doc (_print_model_doc m) = true.
Proof. rw /_print_model_doc. destruct (ostr_truth _); [apply comments_doc|done]. Qed.

Lemma field_tables c name f d :
  tables c (field_doc f ++ [_print_field name f false d]) = (if has_value f d then [(c, name)] else []) ∧
  opened c (field_doc f ++ [_print_field name f false d]) = c.
Proof.
  destruct (doc_tables c (field_doc f) (field_doc_doc f)) as [H1 H2].
  rw tables_app opened_app H1 H2 /_print_field /has_value.
  destruct d; [destruct (is_required f), (is_none (f_default f))|..]; done.
Qed.

Lemma union_shapes i j name name' keyed keyed' f f' args :
  shapes (union_models i name keyed f args) = shapes (union_models j name' keyed' f' args).
Proof.
  revert i j. induction args as [|a args IH]; intros i j; [done|]. rw /shapes /= !fmap_app. f_equal; [by destruct a|apply IH].
Qed.
Lemma defer_shapes name name' keyed keyed' f f' arg al al' d d' :
  shapes <$> defer name keyed f arg al d = shapes <$> (defer name' keyed' f' arg al' d').
Proof.
  rw /defer. destruct (_unpack_arg arg) as [a|e]; [|done]. py_unfold. destruct a as [m|nm|nm args|args]; [done|..].
  all: destruct (is_union _) as [[]|]; py_unfold; try done; simpl; f_equal; apply union_shapes.
Qed.
Lemma defer_inner section name f a d : shapes <$> defer_field section name f a d = inner a.
Proof.
  rw /inner /defer_field. destruct (ann_name a) as [n|e]; [|done]. py_unfold.
  case_decide; [destruct (ann_arg 0 a); [apply defer_shapes|done]|].
  case_decide; [destruct (ann_arg 1 a); [apply defer_shapes|done]|apply defer_shapes].
Qed.

Lemma dumpable_shapes n ds :
  forallb (fun x => match x with Some m => dumpable n m | None => false end) (shapes ds) = true →
  ∀ d, d ∈ ds → ∃ m, shape d = Some m ∧ dumpable n m = true.
Proof.
  induction ds as [|d ds IH]; [intros _ d; by rw elem_of_nil|].
  cbn. intros [Hd Hds]%andb_true_iff x [->|Hx]%elem_of_cons; [|by apply IH].
  destruct (shape d) as [m|]; [by exists m|done].
Qed.

(** The loop on the fields: the keys that it prints, and what it defers *)
Lemma dump_fields_spec n section defaults fields s :
  forallb (fun nf => match inner <$> f_annotation nf.2 with
                     | Some (Ok l) => forallb (fun x => match x with Some m => dumpable n m | None => false end) l
                     | Some (Raise _) => false
                     | None => true
                     end) fields = true →
  ∃ ls, dump_fields section false defaults fields s =
          (Ok (parts section defaults fields), MkOut (written s ++ ls) (printed s)) ∧
    (∀ c, tables c ls = pair c <$> own_keys defaults fields ∧ opened c ls = c) ∧
    ∀ d, d ∈ parts section defaults fields → ∃ m, shape d = Some m ∧ dumpable n m = true.
Proof.
  revert s. induction fields as [|[name f] fields IH]; intros s.
  { intros _. exists []. rw app_nil_r. destruct s. split_and!; [done|done|]. intros d. by rw elem_of_nil. }
  cbn [forallb fst snd]. intros [Hf Hfs]%andb_true_iff. cbn [dump_fields parts own_keys flat_map omap list_omap fst snd].
  rw -/(parts section defaults fields) -/(own_keys defaults fields).
  destruct (f_annotation f) as [a|]; [|by destruct (IH s Hfs) as (ls & H1 & H2 & H3); exists ls].
  cbn [fmap option_fmap option_map] in *. set (d := default JNull (assoc name defaults)).
  pose proof (defer_inner section name f a d) as Hi.
  destruct (defer_field section name f a d) as [ds|e]; [|by rw -Hi in Hf].
  rw -Hi /= in Hf. erewrite bind_ok by reflexivity.
  pose proof (dumpable_shapes n ds Hf) as Hds.
  assert (∃ l1, match ds with [] => put (field_doc f ++ [_print_field name f false d]) | _ => mret tt end s =
                (Ok tt, MkOut (written s ++ l1) (printed s)) ∧
          ∀ c, tables c l1 = pair c <$> (match ds with [] => if has_value f d then [name] else [] | _ => [] end) ∧
               opened c l1 = c) as (l1 & E1 & Ht1).
  { destruct ds as [|x ds].
    - eexists. split; [reflexivity|]. intros c. destruct (field_tables c name f d) as [-> ->].
      by destruct (has_value f d).
    - exists []. rw app_nil_r. by destruct s. }
  erewrite bind_ok by exact E1.
  destruct (IH (MkOut (written s ++ l1) (printed s)) Hfs) as (ls & H1 & H2 & H3).
  erewrite bind_ok by exact H1. exists (l1 ++ ls). split_and!.
  - rw app_assoc //.
  - intros c. destruct (Ht1 c) as [Ha Hb], (H2 c) as [Hc He].
    rw tables_app opened_app Ha Hb Hc He -fmap_app. split; [|done]. f_equal. rw -Hi /=.
    destruct ds as [|x ds]; [by destruct (has_value f d)|done].
  - intros x [Hx|Hx]%elem_of_app; [by apply Hds|by apply H3].
Qed.

(** A section that can be printed is printed, and TOML reads in it the keys of its
    model, each one in the table of the model that has it, whatever table was
    opened before. *)
Lemma section_tables n m dflt section is_list s :
  dumpable n m = true →
  ∃ ls, _dump_section n m dflt section false is_list s = (Ok tt, MkOut (written s ++ ls) (printed s)) ∧
    ∀ c, tables c ls = keys_of n m dflt section.
Proof.
  revert m dflt section is_list s. induction n as [|n IH]; intros m dflt section is_list s Hm; [done|].
  cbn [_dump_section keys_of]. erewrite bind_ok by reflexivity.
  destruct (dump_fields_spec n section (fields_default dflt) (model_fields m)
    (MkOut (written s ++ [Header false is_list section]) (printed s)) Hm) as (l1 & E1 & H1 & Hp).
  erewrite bind_ok by exact E1.
  set (ds := parts section (fields_default dflt) (model_fields m)) in *.
  assert (∃ l2, dump_deferred (fun m d name as_list => _dump_section n m d name false as_list) ds
                  (MkOut ((written s ++ [Header false is_list section]) ++ l1) (printed s)) =
                (Ok tt, MkOut (((written s ++ [Header false is_list section]) ++ l1) ++ l2) (printed s)) ∧
          ∀ c, tables c l2 = flat_map (fun d => match d with
                         | Later m name f _ v => keys_of n m (or_default f v) name
                         | Short _ _ _ => []
                         end) ds) as (l2 & E2 & H2).
  { generalize ((written s ++ [Header false is_list section]) ++ l1) as w. clear E1 H1. revert Hp.
    induction ds as [|d ds IHds]; intros Hp w; [by exists []; rw app_nil_r|].
    destruct (Hp d ltac:(set_solver)) as (m' & Hd & Hm'). destruct d as [m0 name f al v|]; [|done].
    injection Hd as ->. cbn [dump_deferred flat_map]. erewrite bind_ok by reflexivity.
    destruct (IH m' (or_default f v) name al (MkOut (w ++ Blank :: field_doc f ++ [Hash]) (printed s)) Hm')
      as (l3 & E3 & H3). erewrite bind_ok by exact E3.
    destruct (IHds ltac:(set_solver) ((w ++ Blank :: field_doc f ++ [Hash]) ++ l3)) as (l4 & E4 & H4).
    exists ((Blank :: field_doc f ++ [Hash]) ++ l3 ++ l4). split; [rw E4 !app_assoc //|].
    intros c. rw !tables_app H3 H4.
    destruct (doc_tables c (Blank :: field_doc f ++ [Hash])) as [-> _]; [|done].
    cbn. rw forallb_app field_doc_doc //. }
  exists (Header false is_list section :: l1 ++ l2). split; [rw E2 -!app_assoc //|].
  intros c. cbn [tables]. destruct (H1 section) as [Ha Hb]. rw tables_app Ha H2 //.
Qed.

(** A commented section without default, whose fields are not models: no key is
    read in it. *)
Definition flat (m : Model) : bool :=
  forallb (fun nf => match inner <$> f_annotation nf.2 with Some (Ok []) | None => true | _ => false end) (model_fields m).
Lemma commented_fields section fields s :
  forallb (fun nf => match inner <$> f_annotation nf.2 with Some (Ok []) | None => true | _ => false end) fields = true →
  ∃ ls, dump_fields section true [] fields s = (Ok [], MkOut (written s ++ ls) (printed s)) ∧
    ∀ c, tables c ls = [] ∧ opened c ls = c.
Proof.
  revert s. induction fields as [|[name f] fields IH]; intros s; [exists []; rw app_nil_r; by destruct s|].
  cbn [forallb fst snd]. intros [Hf Hfs]%andb_true_iff. cbn [dump_fields].
  destruct (f_annotation f) as [a|]; [|by apply IH]. cbn [fmap option_fmap option_map assoc default from_option] in *.
  pose proof (defer_inner section name f a JNull) as Hi.
  destruct (defer_field section name f a JNull) as [ds|e] eqn:E; rw -Hi in Hf; [|done].
  destruct ds as [|d ds]; [|done].
  erewrite bind_ok by reflexivity. erewrite bind_ok by reflexivity.
  destruct (IH (MkOut (written s ++ field_doc f ++ [_print_field name f true JNull]) (printed s)) Hfs)
    as (ls & E1 & H1).
  erewrite bind_ok by exact E1. exists ((field_doc f ++ [_print_field name f true JNull]) ++ ls).
  split; [by cbn [written printed]; rw -app_assoc|].
  intros c. generalize (field_doc f) (field_doc_doc f). intros doc Hdoc.
  destruct (doc_tables c doc Hdoc) as [Ha Hb]. rw !tables_app !opened_app Ha Hb /_print_field.
  destruct (is_required f), (is_none (f_default f)); apply H1.
Qed.
Lemma commented_section n m section is_list s :
  flat m = true →
  ∃ ls, _dump_section (S n) m (Plain JNull) section true is_list s = (Ok tt, MkOut (written s ++ ls) (printed s)) ∧
    ∀ c, tables c ls = [] ∧ opened c ls = c.
Proof.
  intros Hm. cbn [_dump_section]. erewrite bind_ok by reflexivity.
  destruct (commented_fields section (model_fields m)
    (MkOut (written s ++ [Header true is_list section]) (printed s)) Hm) as (ls & E & H).
  erewrite bind_ok by exact E. exists (Header true is_list section :: ls).
  split; [rw -app_assoc //|]. apply H.
Qed.

(** The fields of the whole model: a model (optional or not), a list or a
    dictionary of models, or anything else that is not a union of models. *)
Inductive Top : Type := TopModel (optional : bool) (m : Model) | TopList (m : Model) | TopDict (m : Model) | TopOther.
Definition top_arg (top : Model → Top) (arg : res Ann) : option Top :=
  match arg with
  | Ok (AModel m) => Some (top m)
  | Ok arg => match named_union arg with Ok false => Some TopOther | _ => None end
  | Raise _ => None
  end.
Definition top_of (ann : Ann) : option Top :=
  match _unpack_arg ann with
  | Ok (AModel m) =>
      match ann_name ann with Ok outer => Some (TopModel (bool_decide (outer = "Optional")) m) | Raise _ => None end
  | Ok a =>
      match ann_name a with
      | Ok kind =>
          if decide (lower kind ∈ ["list"; "sequence"]) then top_arg TopList (ann_arg 0 a)
          else if decide (lower kind = "dict") then top_arg TopDict (ann_arg 1 a)
          else Some TopOther
      | Raise _ => None
      end
  | Raise _ => None
  end.
Definition top_dumpable (n : nat) (nf : string * Field) : bool :=
  match top_of <$> f_annotation nf.2 with
  | None => true
  | Some None => false
  | Some (Some (TopModel true m)) => flat m && is_none (f_default nf.2)
  | Some (Some (TopModel false m)) | Some (Some (TopDict m)) => dumpable n m
  | Some (Some _) => true
  end.
Definition element_keys (m : Model) : list string :=
  omap (fun nf => if has_value nf.2 JNull then Some nf.1 else None) (model_fields m).
Definition top_keys (n : nat) (nf : string * Field) : list (string * string) :=
  match top_of <$> f_annotation nf.2 with
  | Some (Some (TopModel false m)) => keys_of n m (f_default nf.2) nf.1
  | Some (Some (TopDict m)) => keys_of n m (f_default nf.2) (nf.1 +:+ ".'key'")
  | Some (Some (TopList m)) => pair nf.1 <$> element_keys m
  | _ => []
  end.

Lemma dump_model_tables m name s :
  ∃ ls, _dump_model m name s = (Ok tt, MkOut (written s ++ ls) (printed s)) ∧
    ∀ c, tables c ls = pair name <$> element_keys m.
Proof.
  exists (_print_model_doc m ++ Header false true name ::
    flat_map (fun nf => field_doc nf.2 ++ [_print_field nf.1 nf.2 false JNull]) (model_fields m)).
  split; [rw /_dump_model /put /=; py_unfold; rw -!app_assoc //|].
  intros c. destruct (doc_tables c (_print_model_doc m) (model_doc_doc m)) as [H1 H2].
  rw tables_app H1 H2 /=. rw /element_keys. induction (model_fields m) as [|[k f] l IH]; [done|].
  cbn [flat_map omap list_omap fst snd]. destruct (field_tables name k f JNull) as [Ha Hb].
  rw tables_app Ha Hb IH. by destruct (has_value f JNull).
Qed.

Lemma top_section n m (dflt : Value) section (commented : bool) s :
  (if commented then flat m && is_none dflt else dumpable (S n) m) = true →
  ∃ ls, (put (_print_model_doc m);; _dump_section (S n) m dflt section commented false) s =
          (Ok tt, MkOut (written s ++ ls) (printed s)) ∧
    ∀ c, tables c ls = if commented then [] else keys_of (S n) m dflt section.
Proof.
  intros Hm. erewrite bind_ok by reflexivity.
  set (s1 := MkOut (written s ++ _print_model_doc m) (printed s)).
  assert (∃ ls, _dump_section (S n) m dflt section commented false s1 = (Ok tt, MkOut (written s1 ++ ls) (printed s1)) ∧
    ∀ c, tables c ls = if commented then [] else keys_of (S n) m dflt section) as (ls & E & H).
  { destruct commented; [|by apply section_tables]. apply andb_true_iff in Hm as [Hm Hd].
    destruct dflt as [|[]| | |]; try done.
    destruct (commented_section n m section false s1 Hm) as (ls & E & H). exists ls. split; [done|]. apply H. }
  exists (_print_model_doc m ++ ls). split; [rw E -app_assoc //|].
  intros c. destruct (doc_tables c (_print_model_doc m) (model_doc_doc m)) as [H1 H2]. by rw tables_app H1 H2 H.
Qed.

Lemma top_line n name f s :
  ∃ ls, (put (field_doc f ++ [_print_field name f true JNull]) : M Out unit) s = (Ok tt, MkOut (written s ++ ls) (printed s)) ∧
    ∀ c, tables c ls = top_keys n (name, MkField None None [] None false Undefined).
Proof.
  eexists. split; [reflexivity|]. intros c. destruct (doc_tables c (field_doc f) (field_doc_doc f)) as [H1 H2].
  rw tables_app H1 H2 /_print_field. by destruct (is_required f), (is_none (f_default f)).
Qed.

(** The models of a list or of a dictionary *)
Lemma top_arg_cases (top : Model → Top) arg t :
  top_arg top arg = Some t →
  (∃ m, arg = Ok (AModel m) ∧ t = top m) ∨
  ∃ a, arg = Ok a ∧ (∀ m, a ≠ AModel m) ∧ named_union a = Ok false ∧ t = TopOther.
Proof.
  destruct arg as [[m|nm|nm args|args]|]; [intros [= <-]; left; by exists m|..|done].
  all: cbn [top_arg]; destruct (named_union _) as [[]|] eqn:E; [done| |done].
  all: intros [= <-]; right; eexists; by split_and!.
Qed.

Lemma dump_field_tables n name f a s :
  f_annotation f = Some a → top_dumpable (S n) (name, f) = true →
  ∃ ls pr, dump_field (S n) name f a s = (Ok tt, MkOut (written s ++ ls) pr) ∧
    ∀ c, tables c ls = top_keys (S n) (name, f).
Proof.
  intros Ha. rw /top_dumpable /top_keys /dump_field /top_of. cbn [fst snd]. rw Ha.
  cbn [fmap option_fmap option_map].
  destruct (_unpack_arg a) as [a'|]; [|done]. erewrite bind_ok by reflexivity.
  assert (∃ ls pr, (mret tt : M Out unit) s = (Ok tt, MkOut (written s ++ ls) pr) ∧ ∀ c, tables c ls = []) as Hnone.
  { exists [], (printed s). rw app_nil_r. by destruct s. }
  destruct a' as [m|nm|nm args|args].
  { destruct (ann_name a) as [outer|]; [|done]. intros Hm. erewrite bind_ok by reflexivity.
    destruct (top_section n m (f_default f) name (bool_decide (outer = "Optional"))
      (MkOut (written s) (printed s ++ [Blank]))) as (ls & E & H).
    { by destruct (bool_decide _). }
    exists ls, (printed s ++ [Blank]). split; [exact E|]. intros c. rw H. by destruct (bool_decide _). }
  all: match goal with |- context [ann_name ?a] => destruct (ann_name a) as [kind|]; [|done] end.
  all: erewrite bind_ok by reflexivity; case_decide; [|case_decide].
  all: try match goal with |- context [top_arg ?T ?arg] =>
    destruct (top_arg T arg) as [t|] eqn:Et; [|done];
    destruct (top_arg_cases T arg t Et) as [(m & Earg & ->)|(x & Earg & Hx & Hu & ->)]; intros Hm;
    (erewrite bind_ok by (rw /pure Earg; reflexivity)); cbv beta match
  end.
  all: first
    [ destruct x; [by destruct (Hx m)|..]; (erewrite bind_ok by (rw /pure Hu; reflexivity)); exact Hnone
    | destruct (dump_model_tables m name s) as (ls & E & Hls); exists ls, (printed s); split; [exact E|exact Hls]
    | destruct (top_section n m (f_default f) (name +:+ ".'key'") false s Hm) as (ls & E & Hls);
      exists ls, (printed s); split; [exact E|exact Hls]
    | intros _; destruct (top_line n name f s) as (ls & E & Hls); exists ls, (printed s); split; [exact E|exact Hls] ].
Qed.


(** ** An example: a server with its TLS files, its handlers and a store *)
Module TomlDemo.
Definition field (a : Ann) (v : Value) : Field := MkField (Some "A field") None [] (Some a) false v.
Definition text : Value → Field := field (AClass "str").
Definition tls : Model := MkModel "TLSConfig" None
  [("cafile", field (AGeneric "Optional" [AClass "Path"]) (Plain JNull)); ("certfile", text (Plain (JStr "cert.pem")))].
Definition handler : Model := MkModel "Handler" (Some "A handler") [("class", text (Plain (JStr "Dummy")))].
Definition http : Model := MkModel "HttpConfig" None
  [("listen", field (AGeneric "tuple" [AClass "str"; AClass "int"]) (Sequence "" [Plain (JStr "0.0.0.0"); Plain (JInt 80)]));
   ("tls", field (AModel tls) (Instance "" [("cafile", JNull); ("certfile", JStr "cert.pem")]));
   ("timeout", field (AClass "int") (Plain (JInt 20)));
   ("handlers", field (AGeneric "dict" [AClass "str"; AModel handler]) (Plain (JObj [])))].
Definition store : Model := MkModel "StoreConfig" None [("url", text (Plain (JStr "s3:")))].
Definition config : Model := MkModel "Config" None
  [("http", field (AModel http) (Instance "" [("timeout", JInt 30)]));
   ("store", field (AGeneric "Optional" [AModel store]) (Plain JNull))].
Definition dump (m : Model) : res unit * list string :=
  let '(r, s) := dump_model_toml 5 m (MkOut [] []) in (r, render <$> filter (fun l => is_doc l = false) (written s)).

Lemma config_text : dump config =
  (Ok tt, ["[http]"; "listen = [" +:+ quoted "0.0.0.0" +:+ ",80]"; "timeout = 30"; "[http.tls]";
           "#cafile =   " +:+ String (ascii_of_N 9) "# Optional"; "certfile = " +:+ quoted "cert.pem";
           "[http.handlers.'key']"; "class = " +:+ quoted "Dummy"; "#[store]"; "#url = " +:+ quoted "s3:"]).
Proof. vm_compute. reflexivity. Qed.

(** An optional section that has a model with a default: its header is a comment,
    its key is not, and is read in the table before. *)
Definition optional_tls : Model := MkModel "Config" None
  [("http", field (AModel store) Undefined);
   ("proxy", field (AGeneric "Optional" [AModel (MkModel "Proxy" None
      [("tls", field (AModel tls) (Instance "" [("certfile", JStr "cert.pem")]))])]) (Plain JNull))].
Lemma key_in_wrong_table : dump optional_tls =
  (Ok tt, ["[http]"; "url = " +:+ quoted "s3:"; "#[proxy]"; "#[proxy.tls]";
           "#cafile =   " +:+ String (ascii_of_N 9) "# Optional"; "certfile = " +:+ quoted "cert.pem"]) ∧
  ("http", "certfile") ∈ tables "" (written (dump_model_toml 5 optional_tls (MkOut [] [])).2).
Proof. split; [vm_compute; reflexivity|]. by apply (bool_decide_unpack _). Qed.

(** A field that is a union of models *)
Lemma union_of_models : (dump (MkModel "Config" None
  [("http", field (AModel (MkModel "Http" None [("tls", field (AUnionType [AModel tls; AClass "str"]) Undefined)])) Undefined)])).1 =
  Raise (no_attribute "__name__") ∧
  (dump (MkModel "Config" None
  [("http", field (AModel (MkModel "Http" None [("tls", field (AGeneric "List" [AUnionType [AModel tls; AClass "str"]]) Undefined)])) Undefined)])).1 =
  Raise (ValueError "not enough values to unpack (expected 5, got 3)").
Proof. split; vm_compute; reflexivity. Qed.
End TomlDemo.

