(* ===== verification/Web.v ===== *)
(** * The HTTP server of processes

    [qjazz_processes/server]: requests, responses and links ([utils.py],
    [models.py]), the middlewares and the headers of [server.py] and
    [forwarded.py], and the table of routes of [handlers.py].  A handler that
    fails raises an [HTTPException] with its status.  The validation of urls is
    pydantic's ([HttpUrl]); requests are dispatched to routes by aiohttp. *)
From S2P Require Import Prelude PyDict PyStd Json.

(** ** Requests

    Names of headers do not depend on case. [wr_items] is the mapping of the
    request itself, which middlewares fill; [wr_match] is what the route
    matched; [wr_forwarded] is [request.forwarded]. *)
Record WebRequest : Type := MkWebRequest {
  wr_method : string; wr_scheme : string; wr_host : string; wr_path : string;
  wr_remote : option string;
  wr_headers : list (string * string);
  wr_query : list (string * string);
  wr_items : list (string * string);
  wr_match : list (string * string);
  wr_forwarded : list (list (string * string));
  wr_text : string;
}.

Fixpoint header (k : string) (h : list (string * string)) : option string :=
  match h with
  | [] => None
  | (k', v) :: h => if decide (lower k = lower k') then Some v else header k h
  end.
Definition headers_getall (k : string) (h : list (string * string)) : list string :=
  snd <$> filter (fun kv => lower kv.1 = lower k) h.
Definition getall (k : string) (l : list (string * string)) : list string :=
  snd <$> filter (fun kv => kv.1 = k) l.

(** [request[k] = v] *)
Definition set_item (k v : string) (rq : WebRequest) : WebRequest :=
  MkWebRequest (wr_method rq) (wr_scheme rq) (wr_host rq) (wr_path rq) (wr_remote rq)
    (wr_headers rq) (wr_query rq) ((k, v) :: wr_items rq) (wr_match rq) (wr_forwarded rq) (wr_text rq).

(** [request.match_info[k]] *)
Definition match_info (k : string) (rq : WebRequest) : res string :=
  match assoc k (wr_match rq) with Some v => Ok v | None => Raise (KeyError k) end.

(** ** urllib.parse.urlencode *)
Definition upper_hex (n : N) : ascii :=
  ascii_of_N (if (n <? 10)%N then (48 + n)%N else (55 + n)%N).
Definition url_safe (a : ascii) : bool := is_alpha a || is_digit a || char_in a "_.-~".
Fixpoint quote_plus (s : string) : string :=
  match s with
  | "" => ""
  | String a s =>
      if url_safe a then String a (quote_plus s)
      else if decide (a = " "%char) then String "+" (quote_plus s)
      else let n := N_of_ascii a in
           String "%" (String (upper_hex (n / 16)) (String (upper_hex (n mod 16)) (quote_plus s)))
  end.
(** [urlencode(params, doseq=True)]: a parameter has a list of values *)
Definition urlencode (params : list (string * list string)) : string :=
  join "&" (params ≫= fun kvs => (fun v => quote_plus kvs.1 +:+ "=" +:+ quote_plus v) <$> kvs.2).

(** ** Responses *)
Inductive Body (B : Type) : Type :=
| BModel (b : B)
| BError (message : string) (details : list (string * string))
| BEmpty.
Arguments BModel {_} _.
Arguments BError {_} _ _.
Arguments BEmpty {_}.
Record Response (B : Type) : Type := MkResponse {
  rs_status : Z; rs_headers : list (string * string); rs_body : Body B;
}.
Arguments MkResponse {_} _ _ _.
Arguments rs_status {_} _.
Arguments rs_headers {_} _.
Arguments rs_body {_} _.

(** [ErrorResponse.response] *)
Definition error_response {B} (status : Z) (message : string) (details : list (string * string)) :
    Response B := MkResponse status [] (BError message details).
(** [ErrorResponse.raises] with the class of the status *)
Definition error_raises {A} (status : Z) (message : string) : res A :=
  Raise (HTTPException status message).

(** A response with a model as its JSON text *)
Definition json_response {B} (b : B) : Response B := MkResponse 200 [] (BModel b).

(** ** Links *)
Record Link : Type := MkLink {
  link_href : string; link_rel : string; link_mime_type : string; link_title : string;
}.

#[global] Instance Link_eq_dec : EqDecision Link.
Proof. solve_decision. Defined.

Section links.
Context (HttpUrl : string → res string).

(** [public_url], [href] *)
Definition public_url (rq : WebRequest) (path : string) : res string :=
  match assoc "public_url" (wr_items rq) with
  | Some url => Ok (url +:+ path)
  | None => Raise (KeyError "public_url")
  end.
Definition href (rq : WebRequest) (path : string) : res string := public_url rq path.

(** [make_link] *)
Definition make_link_as (mime_type : string) (rq : WebRequest) (rel path title : string) : res Link :=
  h ← href rq path;
  u ← HttpUrl h;
  Ok (MkLink u rel mime_type title).
Definition make_link : WebRequest → string → string → string → res Link :=
  make_link_as "application/json".
End links.

(** A list of links, each of which may fail *)
Fixpoint seq_res {A} (l : list (res A)) : res (list A) :=
  match l with
  | [] => Ok []
  | r :: l => a ← r; l ← seq_res l; Ok (a :: l)
  end.

(** ** forwarded.py *)
Record ForwardedConfig : Type := MkForwarded { fw_enable : bool; fw_allow_x_headers : bool }.

(** The host and the scheme a request was sent to, by the client's view *)
Definition forwarded_origin (c : ForwardedConfig) (rq : WebRequest) : string * string :=
  if fw_enable c then
    let '(host, proto) :=
      if fw_allow_x_headers c
      then (default (wr_host rq) (header "X-Forwarded-Host" (wr_headers rq)),
            default (wr_scheme rq) (header "X-Forwarded-Proto" (wr_headers rq)))
      else (wr_host rq, wr_scheme rq) in
    match wr_forwarded rq with
    | fwd :: _ => (default host (assoc "host" fwd), default proto (assoc "proto" fwd))
    | [] => (host, proto)
    end
  else (wr_host rq, wr_scheme rq).

Section server.
Context {S B : Type}.
Definition Handler : Type := WebRequest → M S (Response B).

(** [forwarded] *)
Definition forwarded (c : ForwardedConfig) (handler : Handler) : Handler := fun rq =>
  let '(host, proto) := forwarded_origin c rq in
  handler (set_item "public_url" (proto +:+ "://" +:+ host) rq).

(** ** server.py *)

(** [REQ_FORMAT], [REQ_ID_FORMAT], [RREQ_FORMAT] *)
Definition TAB : string := String (ascii_of_N 9) "".
Definition REQ_FORMAT : string :=
  join TAB ["{ip}"; "{code}"; "{method}"; "{url}"; "{time}"; "{length}"; "{agent}"; "{referer}"].
Definition REQ_ID_FORMAT : string := "REQ-ID:{request_id}".
Definition RREQ_FORMAT : string :=
  join TAB ["{ip}"; "{method}"; "{url}"; "{agent}"; "{referer}"] +:+ TAB +:+ REQ_FORMAT.

(** [AccessLogger.log]: the line of the log; [ms] is the duration *)
Definition access_log (rq : WebRequest) (status : Z) (length : option string) (ms : Z) : res string :=
  let header_or k d := default d (header k (wr_headers rq)) in
  fmt ← format_map
    [("ip", default "None" (wr_remote rq)); ("method", wr_method rq); ("url", wr_path rq);
     ("code", str_of_int status); ("time", str_of_int ms); ("length", str_or (default "" length) "-1");
     ("referer", header_or "Referer" ""); ("agent", header_or "User-Agent" "")] REQ_FORMAT None;
  match assoc "request_id" (wr_items rq) with
  | Some id => if str_truth id
               then i ← format_map [("request_id", id)] REQ_ID_FORMAT None; Ok (fmt +:+ TAB +:+ i)
               else Ok fmt
  | None => Ok fmt
  end.

(** [log_incoming_request] *)
Definition log_incoming_request (handler : Handler) : Handler := fun rq =>
  let request_id := default "" (header "X-Request-ID" (wr_headers rq)) in
  if str_truth request_id then
    let rq := set_item "request_id" request_id rq in
    pure (format_map
      [("ip", default "None" (wr_remote rq)); ("method", wr_method rq); ("url", wr_path rq);
       ("referer", default "" (header "Referer" (wr_headers rq)));
       ("agent", default "" (header "User-Agent" (wr_headers rq)));
       ("request_id", default "" (assoc "request_id" (wr_items rq)))] RREQ_FORMAT None);;
    handler rq
  else handler rq.

(** [unhandled_exceptions]; the reason of a status 404 is [Not Found] *)
Definition unhandled_exceptions (handler : Handler) : Handler := fun rq =>
  try_except (handler rq)
    (fun e => Some (raise match e with
                          | HTTPException st m =>
                              HTTPException st (if decide (st = 404)%Z then "Not Found" else m)
                          | _ => HTTPException 500 "Internal server error"
                          end)).

(** The middlewares of [create_app], the first one outermost; [dispatch] is
    aiohttp's, which normalises the path and calls the handler of the route *)
Definition app (c : ForwardedConfig) (dispatch : Handler) : Handler :=
  unhandled_exceptions (log_incoming_request (forwarded c dispatch)).
End server.
Arguments Handler : clear implicits.

(** [response.headers[k] = v] *)
Definition set_header (k v : string) (h : list (string * string)) : list (string * string) :=
  filter (fun kv => lower kv.1 ≠ lower k) h ++ [(k, v)].

(** [HttpCORS] *)
Inductive HttpCORS : Type := CorsAll | CorsSameOrigin | CorsUrl (url : string).

(** [set_access_control_headers] *)
Definition set_access_control_headers {B} (mode : HttpCORS) (rq : WebRequest) (r : Response B) : Response B :=
  let origin := header "Origin" (wr_headers rq) in
  if ostr_truth origin then
    let '(allow, h) := match mode with
                       | CorsAll => ("*", rs_headers r)
                       | CorsSameOrigin => (default "" origin, set_header "Vary" "Origin" (rs_headers r))
                       | CorsUrl url => (url, rs_headers r)
                       end in
    MkResponse (rs_status r) (set_header "Access-Control-Allow-Origin" allow h) (rs_body r)
  else r.

(** [set_server_headers] *)
Definition set_server_headers {B} (server_header : string) (rq : WebRequest) (r : Response B) : Response B :=
  let h := set_header "Server" server_header (rs_headers r) in
  match assoc "request_id" (wr_items rq) with
  | Some id => MkResponse (rs_status r) (if str_truth id then set_header "X-Request-ID" id h else h) (rs_body r)
  | None => MkResponse (rs_status r) h (rs_body r)
  end.

(** [cors_options_handler] *)
Definition cors_options_handler {B} (rq : WebRequest) (allow_methods allow_headers : string) : Response B :=
  let headers := [("Allow", allow_methods); ("Access-Control-Allow-Headers", allow_headers)] in
  MkResponse 200
    (if ostr_truth (header "Origin" (wr_headers rq))
     then headers ++ [("Access-Control-Allow-Methods", allow_methods)] else headers) BEmpty.

(** ** handlers.py *)

(** A path template: text, [{Name}] for the characters up to the next slash,
    and [{Name:.+}] for any. *)
Inductive Piece : Type := PText (s : string) | PName (name : string) | PRest (name : string).
Record RouteDef : Type := MkRoute { rt_method : string; rt_path : list Piece; rt_handler : string }.

(** [Handler.routes] *)
Definition routes (prefix : string) (store : bool) : list RouteDef :=
  [MkRoute "GET" [PText (prefix +:+ "/")] "landing_page";
   MkRoute "GET" [PText (prefix +:+ "/conformance")] "conformance";
   MkRoute "GET" [PText (prefix +:+ "/processes/")] "list_processes";
   MkRoute "GET" [PText (prefix +:+ "/processes/"); PName "Ident"] "describe_process";
   MkRoute "POST" [PText (prefix +:+ "/processes/"); PName "Ident"; PText "/execution"] "execute_process";
   MkRoute "GET" [PText (prefix +:+ "/jobs/")] "list_jobs";
   MkRoute "GET" [PText (prefix +:+ "/jobs/"); PName "JobId"] "job_status";
   MkRoute "DELETE" [PText (prefix +:+ "/jobs/"); PName "JobId"] "dismiss_job";
   MkRoute "GET" [PText (prefix +:+ "/jobs/"); PName "JobId"; PText "/results"] "job_results";
   MkRoute "GET" [PText (prefix +:+ "/jobs/"); PName "JobId"; PText "/log"] "job_log";
   MkRoute "GET" [PText (prefix +:+ "/jobs/"); PName "JobId"; PText "/files/"] "job_files";
   MkRoute "GET" [PText (prefix +:+ "/jobs/"); PName "JobId"; PText "/files/"; PRest "Resource"]
     "job_download";
   MkRoute "GET" [PText (prefix +:+ "/services/")] "list_services"] ++
  (if store then
     [MkRoute "GET" [PText (prefix +:+ "/store/"); PRest "Name"] "get_store";
      MkRoute "GET" [PText (prefix +:+ "/store/")] "list_store";
      MkRoute "POST" [PText (prefix +:+ "/store/"); PRest "Name"] "put_store";
      MkRoute "DELETE" [PText ("/" +:+ prefix +:+ "/store/"); PRest "Name"] "delete_store"]
   else []).

(** The text up to the next slash. *)
Fixpoint segment (s : string) : string * string :=
  match s with
  | "" => ("", "")
  | String a s' => if decide (a = "/"%char) then ("", s)
                   else let '(w, r) := segment s' in (String a w, r)
  end.

(** The text after a prefix. *)
Fixpoint strip_text (t s : string) : option string :=
  match t, s with
  | "", s => Some s
  | String a t, String b s => if decide (a = b) then strip_text t s else None
  | _, _ => None
  end.

(** What a template captures of a path. *)
Fixpoint match_pieces (ps : list Piece) (s : string) : option (list (string * string)) :=
  match ps with
  | [] => if str_truth s then None else Some []
  | PText t :: ps => s ← strip_text t s; match_pieces ps s
  | PName n :: ps =>
      let '(w, r) := segment s in
      if str_truth w && str_forall (fun a => negb (char_in a "{}")) w
      then cons (n, w) <$> match_pieces ps r else None
  | PRest n :: ps => if str_truth s && match ps with [] => true | _ => false end then Some [(n, s)] else None
  end.

(** The first route that answers for a method and a path. *)
Fixpoint resolve_route (rts : list RouteDef) (method path : string) :
    option (string * list (string * string)) :=
  match rts with
  | [] => None
  | r :: rts =>
      match (if decide (rt_method r = method) then match_pieces (rt_path r) path else None) with
      | Some m => Some (rt_handler r, m)
      | None => resolve_route rts method path
      end
  end.

(** ** Quoting is undone by the parser of queries *)
Lemma below_16 (P : N → Prop) : Forall P (N.of_nat <$> seq 0 16) → ∀ n, (n < 16)%N → P n.
Proof.
  intros HP n Hn. rw Forall_forall in HP. apply HP, list_elem_of_fmap.
  exists (N.to_nat n). split; [lia|]. apply elem_of_seq. lia.
Qed.

Lemma hex_upper (n : N) : (n < 16)%N → hex_digit (upper_hex n) = Some n.
Proof. revert n. apply below_16. by repeat constructor. Qed.

Lemma upper_hex_safe (n : N) : (n < 16)%N → url_safe (upper_hex n) = true.
Proof. revert n. apply below_16. by repeat constructor. Qed.

Lemma unquote_safe a s : url_safe a = true → unquote_plus (String a s) = String a (unquote_plus s).
Proof. destruct a as [[] [] [] [] [] [] [] []]; try done. Qed.

Lemma unquote_quote s : unquote_plus (quote_plus s) = s.
Proof.
  induction s as [|a s IH]; [done|]. simpl. destruct (url_safe a) eqn:Ha.
  { rw unquote_safe //. by rw IH. }
  case_decide as Hs; [subst a; simpl; by rw IH|].
  pose proof (N_ascii_bounded a) as Hb. simpl.
  rw !hex_upper; [apply N.Div0.div_lt_upper_bound; lia|apply N.mod_lt; lia|].
  rw IH -N.div_mod' //. by rw ascii_N_embedding.
Qed.

(** Quoted text has no separator of its own. *)
Lemma quote_no_sep c s :
  url_safe c = false → c ≠ "+"%char → c ≠ "%"%char → char_in c (quote_plus s) = false.
Proof.
  intros Hc Hp Hq. assert (∀ n, (n < 16)%N → upper_hex n ≠ c) as Hx.
  { intros n Hn <-. by rw upper_hex_safe // in Hc. }
  induction s as [|a s IH]; [done|]. simpl. destruct (url_safe a) eqn:Ha; [|case_decide]; simpl.
  - rw bool_decide_false //. congruence.
  - rw bool_decide_false //.
  - pose proof (N_ascii_bounded a). rw !bool_decide_false //.
    + apply Hx, N.Div0.div_lt_upper_bound. lia.
    + apply Hx, N.mod_lt. lia.
Qed.

Lemma partition_first c a b : char_in c a = false → partition c (a +:+ String c b) = Some (a, b).
Proof.
  induction a as [|x a IH]; simpl; [by rw decide_True|].
  intros [Hx Ha]%orb_false_iff. apply bool_decide_eq_false in Hx.
  rw decide_False //. by rw IH.
Qed.

Lemma parse_qsl_join (l : list (string * string)) :
  Forall (fun kv => str_truth kv.2 = true) l →
  parse_qsl (join "&" ((fun kv => quote_plus kv.1 +:+ "=" +:+ quote_plus kv.2) <$> l)) = l.
Proof.
  assert (∀ k v, str_truth v = true →
    qs_field (quote_plus k +:+ "=" +:+ quote_plus v) = Some (k, v) ∧
    char_in "&" (quote_plus k +:+ "=" +:+ quote_plus v) = false) as Hf.
  { intros k v Hv. split.
    - rw /qs_field partition_first; [by apply quote_no_sep|]. rw !unquote_quote.
      destruct v as [|a v]; [done|]. simpl. by repeat case_match.
    - rw !char_in_app !quote_no_sep //. }
  induction l as [|[k v] l IH]; intros Hl; [done|].
  apply Forall_cons in Hl as [Hv Hl]. destruct (Hf k v Hv) as [Hq Hc].
  specialize (IH Hl). rw /parse_qsl in IH |- *. destruct l as [|kv' l].
  - csimpl. rw split_single //. csimpl. by rw Hq.
  - csimpl. rw split_at_sep omap_app split_single //. csimpl. rw Hq. simpl. f_equal. exact IH.
Qed.

(** The query of a link gives back its parameters. *)
Lemma parse_urlencode (ps : list (string * list string)) :
  Forall (fun kvs => Forall (fun v => str_truth v = true) kvs.2) ps →
  parse_qsl (urlencode ps) = ps ≫= fun kvs => (fun v => (kvs.1, v)) <$> kvs.2.
Proof.
  intros Hps. rw /urlencode.
  assert ((ps ≫= fun kvs => (fun v => quote_plus kvs.1 +:+ "=" +:+ quote_plus v) <$> kvs.2) =
    (fun kv => quote_plus kv.1 +:+ "=" +:+ quote_plus kv.2) <$>
      (ps ≫= fun kvs => (fun v => (kvs.1, v)) <$> kvs.2)) as ->.
  { clear Hps. induction ps as [|[k vs] ps IH]; [done|]. csimpl. rw fmap_app IH -list_fmap_compose //. }
  apply parse_qsl_join. rw Forall_forall. intros [k v] (kvs & Hin & Hk)%list_elem_of_bind.
  rw Forall_forall in Hps. specialize (Hps _ Hk). rw Forall_forall in Hps.
  apply list_elem_of_fmap in Hin as (v' & [= -> ->] & Hv). by apply Hps.
Qed.

(** ** The middlewares *)
Section middlewares.
Context {S B : Type}.
Implicit Types (h : Handler S B) (rq : WebRequest).

(** The format of the incoming requests has fields that are not given. *)
Lemma rreq_format_fails ip method url referer agent id :
  format_map [("ip", ip); ("method", method); ("url", url); ("referer", referer); ("agent", agent);
    ("request_id", id)] RREQ_FORMAT None = Raise (KeyError "code").
Proof. reflexivity. Qed.

(** C31. The server never fails but by an HTTP error, and a request reaches its
    handler with the public url of the server: errors that are not HTTP errors
    end in a status 500, those of status 404 lose their message, the others
    are passed on; a request that has an identifier ([X-Request-ID]) is not
    handled at all, its logging fails. *)
Theorem app_spec c h rq (s : S) :
  let id := header "X-Request-ID" (wr_headers rq) in
  let rq' := set_item "public_url" ((forwarded_origin c rq).2 +:+ "://" +:+ (forwarded_origin c rq).1) rq in
  (ostr_truth id = true → app c h rq s = (Raise (HTTPException 500 "Internal server error"), s)) ∧
  (ostr_truth id = false →
   match h rq' s with
   | (Ok r, s') => app c h rq s = (Ok r, s')
   | (Raise (HTTPException st m), s') =>
       app c h rq s = (Raise (HTTPException st (if decide (st = 404)%Z then "Not Found" else m)), s')
   | (Raise _, s') => app c h rq s = (Raise (HTTPException 500 "Internal server error"), s')
   end).
Proof.
  intros id rq'. rw /app /unhandled_exceptions /try_except /log_incoming_request /forwarded.
  fold id. split.
  - intros Hi. assert (str_truth (default "" id) = true) as -> by (by destruct id).
    erewrite bind_raise; [|by rw /pure rreq_format_fails]. done.
  - intros Hi. assert (str_truth (default "" id) = false) as -> by (by destruct id).
    rw /rq'. destruct (forwarded_origin c rq) as [host proto]. simpl.
    by destruct (h _ s) as [[r|[]] s'].
Qed.
End middlewares.

(** ** The routes of jobs *)

(** The names a segment of a path can have. *)
Definition segment_ok (w : string) : bool :=
  str_truth w && str_forall (fun a => negb (char_in a "/{}")) w.

Lemma segment_app w r :
  char_in "/" w = false → (r = "" ∨ ∃ r', r = String "/" r') → segment (w +:+ r) = (w, r).
Proof.
  intros Hw Hr. induction w as [|a w IH].
  - by destruct Hr as [->|[r' ->]].
  - simpl in Hw. apply orb_false_iff in Hw as [Ha Hw]. apply bool_decide_eq_false in Ha.
    simpl. rw decide_False // IH //.
Qed.

Lemma segment_ok_inv w :
  segment_ok w = true →
  str_truth w = true ∧ char_in "/" w = false ∧ str_forall (fun a => negb (char_in a "{}")) w = true.
Proof.
  rw /segment_ok. intros [Ht Hw]%andb_true_iff. split; [done|]. clear Ht.
  induction w as [|a w IH]; [done|]. cbn [str_forall] in Hw. cbn [str_forall char_in].
  apply andb_true_iff in Hw as [Ha Hw]. destruct (IH Hw) as [H1 H2]. rw H1 H2.
  clear -Ha. by destruct a as [[] [] [] [] [] [] [] []].
Qed.

Lemma match_name n w r ps :
  segment_ok w = true → (r = "" ∨ ∃ r', r = String "/" r') →
  match_pieces (PName n :: ps) (w +:+ r) = cons (n, w) <$> match_pieces ps r.
Proof.
  intros (Ht & Hs & Hb)%segment_ok_inv Hr. simpl. rw segment_app // Ht Hb //.
Qed.

Lemma strip_prefix_text p t s : strip_text (p +:+ t) (p +:+ s) = strip_text t s.
Proof. induction p as [|a p IH]; [done|]. simpl. by rw decide_True. Qed.

Lemma match_prefix p t ps s :
  match_pieces (PText (p +:+ t) :: ps) (p +:+ s) = match_pieces (PText t :: ps) s.
Proof. simpl. by rw strip_prefix_text. Qed.

Lemma resolve_skip r rts m s :
  (rt_method r = m → match_pieces (rt_path r) s = None) →
  resolve_route (r :: rts) m s = resolve_route rts m s.
Proof. intros H. simpl. case_decide as Hm; [|done]. by rw H. Qed.

Lemma resolve_hit r rts m s l :
  rt_method r = m → match_pieces (rt_path r) s = Some l →
  resolve_route (r :: rts) m s = Some (rt_handler r, l).
Proof. intros Hm Hl. simpl. by rw decide_True // Hl. Qed.

Lemma match_job p n id r ps :
  segment_ok id = true → (r = "" ∨ ∃ r', r = String "/" r') →
  match_pieces (PText (p +:+ "/jobs/") :: PName n :: ps) (p +:+ "/jobs/" +:+ id +:+ r) =
  cons (n, id) <$> match_pieces ps r.
Proof.
  intros Hid Hr. rw match_prefix.
  change (match_pieces (PName n :: ps) (id +:+ r) = cons (n, id) <$> match_pieces ps r).
  by apply match_name.
Qed.

Lemma match_jobs p id r :
  segment_ok id = true → match_pieces [PText (p +:+ "/jobs/")] (p +:+ "/jobs/" +:+ id +:+ r) = None.
Proof. intros Hid. rw match_prefix. by destruct id. Qed.

(** Walks the table to the route of the goal. *)
Ltac no_route := intros _; cbn [rt_path]; first [by apply match_jobs | rw match_job; [done|by eauto|reflexivity] | by rw match_prefix].
Ltac walk := cbn [routes app]; repeat (rw resolve_skip; [first [by intros [=] | no_route]|]).

Lemma download_route p st id name :
  segment_ok id = true → str_truth name = true →
  resolve_route (routes p st) "GET" (p +:+ "/jobs/" +:+ id +:+ "/files/" +:+ name) =
    Some ("job_download", [("JobId", id); ("Resource", name)]).
Proof.
  intros Hid Hname. destruct name as [|a name]; [done|]. rw /routes. walk.
  apply resolve_hit; [done|]; cbn [rt_path]; rw match_job; [done|by eauto|reflexivity].
Qed.

(** The routes of a job, whatever the prefix: each path that a job has leads to
    its own handler with the id of the job; a path with [/results] twice leads
    nowhere. *)
Theorem job_routes p st id name :
  segment_ok id = true → str_truth name = true →
  let get r := resolve_route (routes p st) "GET" (p +:+ "/jobs/" +:+ id +:+ r) in
  get "" = Some ("job_status", [("JobId", id)]) ∧
  get "/results" = Some ("job_results", [("JobId", id)]) ∧
  get "/log" = Some ("job_log", [("JobId", id)]) ∧
  get "/files/" = Some ("job_files", [("JobId", id)]) ∧
  get ("/files/" +:+ name) = Some ("job_download", [("JobId", id); ("Resource", name)]) ∧
  get "/results/results" = None ∧
  resolve_route (routes p st) "DELETE" (p +:+ "/jobs/" +:+ id +:+ "") = Some ("dismiss_job", [("JobId", id)]).
Proof.
  intros Hid Hname get. destruct name as [|a name]; [done|]. rw /get /routes. split_and!; walk.
  6: by destruct st; walk.
  all: apply resolve_hit; [done|]; cbn [rt_path]; rw match_job; [done|by eauto|reflexivity].
Qed.

(** The default prefix of the routes is empty, and then nothing in the store can
    be deleted: no route answers for it. *)
Lemma delete_store_unreachable name :
  resolve_route (routes "" true) "DELETE" ("/store/" +:+ name) = None.
Proof. reflexivity. Qed.

Lemma job_routes_witness :
  resolve_route (routes "/api" true) "GET" ("/api" +:+ "/jobs/" +:+ "6f-1" +:+ "/files/" +:+ "a/out.tif") =
  Some ("job_download", [("JobId", "6f-1"); ("Resource", "a/out.tif")]).
Proof. apply (job_routes "/api" true "6f-1" "a/out.tif"); reflexivity. Defined.

(** A server whose handler answers the public url, or fails. *)
Module WebDemo.
Definition request (headers : list (string * string)) : WebRequest :=
  MkWebRequest "GET" "http" "localhost" "/jobs/" None headers [] [] [] [] "".
Definition handler (fail : option exn) : Handler unit string := fun rq s =>
  match fail with
  | Some e => (Raise e, s)
  | None => (u ← public_url rq "/jobs/"; Ok (json_response u), s)
  end.
Definition conf : ForwardedConfig := MkForwarded true true.
End WebDemo.

Lemma app_spec_witness :
  app WebDemo.conf (WebDemo.handler None)
    (WebDemo.request [("X-Forwarded-Host", "qjazz.org"); ("X-Forwarded-Proto", "https")]) tt =
    (Ok (json_response "https://qjazz.org/jobs/"), tt) ∧
  app WebDemo.conf (WebDemo.handler None) (WebDemo.request [("x-request-id", "42")]) tt =
    (Raise (HTTPException 500 "Internal server error"), tt).
Proof.
  split.
  - apply (proj2 (app_spec WebDemo.conf (WebDemo.handler None)
      (WebDemo.request [("X-Forwarded-Host", "qjazz.org"); ("X-Forwarded-Proto", "https")]) tt)).
    reflexivity.
  - apply (proj1 (app_spec WebDemo.conf (WebDemo.handler None)
      (WebDemo.request [("x-request-id", "42")]) tt)). reflexivity.
Defined.
