(* ===== verification/Utils.v ===== *)
(** * Dates

    [qjazz_core/utils.py]: the texts of the times in replies and headers.  A
    timestamp is read to the microsecond, as [datetime.fromtimestamp] does, and
    given in UTC; the dates are those of the years 1 to 9999 that a [datetime]
    can hold. *)
From stdpp Require Import pretty.
From S2P Require Import Prelude.
Local Open Scope Z_scope.

(** ** [datetime] in UTC *)

(** The date of a day counted from the epoch: years are counted from March, in
    eras of 400 years of 146097 days. *)
Definition civil_of_doe (doe : Z) : Z * Z * Z :=
  let yoe := (doe - doe / 1460 + doe / 36524 - doe / 146096) / 365 in
  let doy := doe - (365 * yoe + yoe / 4 - yoe / 100) in
  let mp := (5 * doy + 2) / 153 in
  let d := doy - (153 * mp + 2) / 5 + 1 in
  let m := if mp <? 10 then mp + 3 else mp - 9 in
  (if m <=? 2 then yoe + 1 else yoe, m, d).
Definition civil_from_days (days : Z) : Z * Z * Z :=
  let z := days + 719468 in
  let '(y, m, d) := civil_of_doe (z mod 146097) in
  (y + 400 * (z / 146097), m, d).

(** [round(t * 10**6)], ties to even *)
Definition microseconds (t : Qc) : Z :=
  let n := QArith_base.Qnum (this t) * 1000000 in
  let d := Z.pos (QArith_base.Qden (this t)) in
  let r := n mod d in
  if (2 * r <? d) || ((2 * r =? d) && Z.even (n / d)) then n / d else n / d + 1.

Record datetime : Type := MkDateTime {
  year : Z; month : Z; day : Z; hour : Z; minute : Z; second : Z; microsecond : Z;
  weekday : Z;
}.

(** [to_utc_datetime]: [datetime.fromtimestamp(t).astimezone(timezone.utc)] *)
Definition to_utc_datetime (t : Qc) : datetime :=
  let us := microseconds t in
  let s := us / 1000000 in
  let days := s / 86400 in
  let sod := s mod 86400 in
  let '(y, m, d) := civil_from_days days in
  MkDateTime y m d (sod / 3600) (sod / 60 mod 60) (sod mod 60) (us mod 1000000) ((days + 3) mod 7).

(** [f"{n:0w}"] for a number that is not negative *)
Fixpoint zeros (n : nat) : string := match n with O => "" | S n => String "0" (zeros n) end.
Definition pad (w : nat) (n : Z) : string :=
  let s := pretty n in zeros (w - String.length s) +:+ s.

Definition WEEKDAYS : list string := ["Mon"; "Tue"; "Wed"; "Thu"; "Fri"; "Sat"; "Sun"].

(** [to_rfc822] *)
Definition to_rfc822 (t : Qc) : string :=
  let dt := to_utc_datetime t in
  let dayname := nth (Z.to_nat (weekday dt)) WEEKDAYS "" in
  dayname +:+ ", " +:+ pad 2 (day dt) +:+ " " +:+ pad 2 (month dt) +:+ " " +:+ pad 4 (year dt) +:+ " " +:+
  pad 2 (hour dt) +:+ ":" +:+ pad 2 (minute dt) +:+ ":" +:+ pad 2 (second dt) +:+ " GMT".

(** [to_iso8601(datetime.fromtimestamp(t))], to the millisecond *)
Definition to_iso8601 (t : Qc) : string :=
  let dt := to_utc_datetime t in
  pad 4 (year dt) +:+ "-" +:+ pad 2 (month dt) +:+ "-" +:+ pad 2 (day dt) +:+ "T" +:+
  pad 2 (hour dt) +:+ ":" +:+ pad 2 (minute dt) +:+ ":" +:+ pad 2 (second dt) +:+ "." +:+
  pad 3 (microsecond dt / 1000) +:+ "+00:00".

Example rfc822_ex : to_rfc822 (Qc_of_Z 1709209845) = "Thu, 29 02 2024 12:30:45 GMT".
Proof. vm_compute. reflexivity. Qed.
Example iso_ex :
  to_iso8601 (Q2Qc (QArith_base.Qmake (-1) 2)) = "1969-12-31T23:59:59.500+00:00".
Proof. vm_compute. reflexivity. Qed.
