(* ===== verification/RouteTemplates.v ===== *)
(** * Templates of dynamic routes

    The part of [qjazz_cache/routes.py] that turns a location with fields
    ([/{user}/projects], [/{name:[a-z]+}]) into a regular expression and a
    format string: [ROUTE_RE], [DynamicRoute.DYN], [DYN_WITH_RE] and the loop
    of [DynamicRoute.__init__].  The expressions the program itself writes are
    modelled as the functions they denote; the compiler of the [re] module,
    which sees the text of the configuration, is a parameter. *)
From S2P Require Import Prelude PyStd.

(** The groups a compiled pattern binds at the start of a text. *)
Definition groups : Type := list (string * string).

(** [[_a-zA-Z]] and [[_a-zA-Z0-9]] *)
Definition var_start (a : ascii) : bool := is_alpha a || bool_decide (a = "_"%char).
Definition var_char (a : ascii) : bool := var_start a || is_digit a.
Definition is_var (s : string) : bool :=
  match s with "" => false | String a v => var_start a && str_forall var_char v end.

(** What follows the first letter of a field in [ROUTE_RE], up to the brace
    that closes it: the text matched and the rest.  Braces nest once
    ([inner]); no step has a choice, so there is nothing to backtrack
    into. *)
Fixpoint route_re_tail (inner : bool) (s : string) : option (string * string) :=
  match s with
  | "" => None
  | String a s =>
      if decide (a = "{"%char) then
        if inner then None else '(m, r) ← route_re_tail true s; Some (String a m, r)
      else if decide (a = "}"%char) then
        if inner then '(m, r) ← route_re_tail false s; Some (String a m, r)
        else Some ("}", s)
      else '(m, r) ← route_re_tail inner s; Some (String a m, r)
  end.

(** [ROUTE_RE.match(s)] *)
Definition route_re_match (s : string) : option (string * string) :=
  match s with
  | String "{" (String a s) =>
      if var_start a
      then '(m, r) ← route_re_tail false s; Some (String "{" (String a m), r)
      else None
  | _ => None
  end.

(** [ROUTE_RE.search(s) is not None] *)
Fixpoint route_re_search (s : string) : bool :=
  match route_re_match s with
  | Some _ => true
  | None => match s with "" => false | String _ s => route_re_search s end
  end.

(** [ROUTE_RE.split(s)]: texts and fields in turn.  Each step consumes at
    least one character, so the length of [s] is fuel enough. *)
Fixpoint route_re_split_from (fuel : nat) (s : string) : list string :=
  match fuel with
  | 0 => [s]
  | S fuel =>
      match route_re_match s with
      | Some (m, r) => "" :: m :: route_re_split_from fuel r
      | None =>
          match s with
          | "" => [""]
          | String a s =>
              match route_re_split_from fuel s with
              | w :: ws => String a w :: ws
              | [] => [String a ""]
              end
          end
      end
  end.
Definition route_re_split (s : string) : list string := route_re_split_from (String.length s) s.

(** The text between a leading and a final brace. *)
Definition braced (part : string) : option string :=
  match part with
  | String "{" r => if endswith "}" r then Some (removesuffix "}" r) else None
  | _ => None
  end.

(** [DynamicRoute.DYN.fullmatch(part)]: the variable *)
Definition dyn (part : string) : option string :=
  v ← braced part; if is_var v then Some v else None.

(** [DynamicRoute.DYN_WITH_RE.fullmatch(part)]: the variable and its
    expression; [.] does not match an end of line *)
Definition dyn_with_re (part : string) : option (string * string) :=
  i ← braced part; '(v, re) ← partition ":" i;
  if is_var v && str_truth re && negb (char_in (ascii_of_nat 10) re) then Some (v, re) else None.

(** [re.escape] *)
Definition re_special (a : ascii) : bool :=
  char_in a "()[]{}?*+-|^$\.&~# " || ((9 <=? N_of_ascii a) && (N_of_ascii a <=? 13))%N.
Fixpoint re_escape (s : string) : string :=
  match s with
  | "" => ""
  | String a s => if re_special a then String "\" (String a (re_escape s)) else String a (re_escape s)
  end.

(** One field or text of a location. *)
Inductive piece : Type :=
| Text (s : string)
| Field (var re : string).

Definition GOOD : string := "[^{}/]+".

Definition parse_part (location part : string) : res piece :=
  match dyn part with
  | Some v => Ok (Field v GOOD)
  | None =>
      match dyn_with_re part with
      | Some (v, re) => Ok (Field v re)
      | None =>
          if char_in "{" part || char_in "}" part
          then Raise (ValueError ("Invalid path '" +:+ location +:+ "'['" +:+ part +:+ "']"))
          else Ok (Text part)
      end
  end.

(** What a piece adds to the pattern and to the formatter. *)
Definition piece_pattern (p : piece) : string :=
  match p with
  | Text s => re_escape s
  | Field v re => "(?P<" +:+ v +:+ ">" +:+ re +:+ ")"
  end.
Definition piece_format (p : piece) : string :=
  match p with Text s => s | Field v _ => "{" +:+ v +:+ "}" end.

Fixpoint concat_str (l : list string) : string :=
  match l with [] => "" | s :: l => s +:+ concat_str l end.
Definition pattern_of (ps : list piece) : string := concat_str (map piece_pattern ps).
Definition formatter_of (ps : list piece) : string := concat_str (map piece_format ps).

Fixpoint parse_parts (location : string) (parts : list string) : res (list piece) :=
  match parts with
  | [] => Ok []
  | part :: parts =>
      p ← parse_part location part;
      ps ← parse_parts location parts;
      Ok (p :: ps)
  end.

Section compile.
(** [re.compile], with [match] and [groupdict] of the expression it answers;
    [None] stands for [re.error]. *)
Context (re_compile : string → option (string → option groups)).

(** [DynamicRoute.__init__] after the url: the pattern and the formatter *)
Definition compile_location (location : string) : res ((string → option groups) * string) :=
  ps ← parse_parts location (route_re_split location);
  match re_compile (pattern_of ps) with
  | None => Raise (ValueError ("Bad pattern '" +:+ pattern_of ps +:+ "'"))
  | Some compiled =>
      if negb (startswith (re_escape "/") (pattern_of ps))
      then Raise (PostconditionError "Post condition failed")
      else if negb (startswith "/" (formatter_of ps))
      then Raise (PostconditionError "Post condition failed")
      else Ok (compiled, formatter_of ps)
  end.
End compile.

Example split_ex : route_re_split "/{user}/x/{name:[a-z]{2}}" = ["/"; "{user}"; "/x/"; "{name:[a-z]{2}}"; ""].
Proof. reflexivity. Qed.
Example pieces_ex :
  parse_parts "" (route_re_split "/{user}/x.y/{name:[a-z]{2}}") =
  Ok [Text "/"; Field "user" GOOD; Text "/x.y/"; Field "name" "[a-z]{2}"; Text ""].
Proof. reflexivity. Qed.
Example pattern_ex :
  pattern_of [Text "/"; Field "user" GOOD; Text "/x.y/"] = "/(?P<user>[^{}/]+)/x\.y/".
Proof. reflexivity. Qed.

(** ** Properties *)

Lemma concat_str_app l k : concat_str (l ++ k) = concat_str l +:+ concat_str k.
Proof. induction l as [|s l IH]; [done|]. simpl. by rw IH str_app_assoc. Qed.

Lemma route_re_tail_app i s m r : route_re_tail i s = Some (m, r) → s = m +:+ r.
Proof.
  revert i m. induction s as [|a s IH]; intros i m; simpl; [done|].
  repeat case_decide; try destruct i; subst;
    try (intros ([m' r'] & Hm & [= <- <-])%bind_Some; apply IH in Hm; by rw Hm).
  - done.
  - by intros [= <- <-].
Qed.

Lemma route_re_match_app s m r : route_re_match s = Some (m, r) → s = m +:+ r.
Proof.
  rw /route_re_match. repeat case_match; try done.
  intros ([m' r'] & Hm & [= <- <-])%bind_Some. apply route_re_tail_app in Hm. by rw Hm.
Qed.

(** Splitting a location loses nothing of it. *)
Lemma route_re_split_concat s : concat_str (route_re_split s) = s.
Proof.
  rw /route_re_split. generalize (String.length s) as n. intros n.
  revert s. induction n as [|n IH]; intros s; simpl; [by rw str_app_nil_r|].
  destruct (route_re_match s) as [[m r]|] eqn:E.
  { simpl. rw IH. by apply route_re_match_app in E. }
  destruct s as [|a s]; [done|]. specialize (IH s).
  destruct (route_re_split_from n s); exact (f_equal (String a) IH).
Qed.

Lemma route_re_split_slash s :
  startswith "/" s = true → ∃ w ws, route_re_split s = String "/" w :: ws.
Proof.
  destruct s as [|a s]; [done|]. simpl. rw andb_true_r bool_decide_eq_true. intros <-.
  rw /route_re_split /=. destruct (route_re_split_from _ s); eauto.
Qed.

Lemma parse_part_slash location w p :
  parse_part location (String "/" w) = Ok p → p = Text (String "/" w).
Proof. rw /parse_part /dyn /dyn_with_re /=. case_match; [done|]. by intros [= <-]. Qed.

Lemma parse_parts_slash location ps :
  startswith "/" location = true → parse_parts location (route_re_split location) = Ok ps →
  startswith (re_escape "/") (pattern_of ps) = true ∧ startswith "/" (formatter_of ps) = true.
Proof.
  intros (w & ws & ->)%route_re_split_slash. simpl. py_unfold.
  destruct (parse_part _ _) as [p|] eqn:E; [|done].
  apply parse_part_slash in E as ->. destruct (parse_parts location ws); [|done].
  by intros [= <-].
Qed.

(** What parsing guarantees of the pieces. *)
Definition piece_ok (p : piece) : Prop :=
  match p with
  | Text s => str_forall (fun a => negb (char_in a "{}")) s = true
  | Field v _ => is_var v = true
  end.

Lemma no_braces s :
  char_in "{" s = false → char_in "}" s = false →
  str_forall (fun a => negb (char_in a "{}")) s = true.
Proof.
  induction s as [|a s IH]; [done|]. simpl.
  intros [Ha Hs]%orb_false_iff [Hb Ht]%orb_false_iff. rw IH // andb_true_r orb_false_r.
  apply bool_decide_eq_false in Ha, Hb.
  by rw !bool_decide_eq_false_2.
Qed.

Lemma parse_part_ok location part p : parse_part location part = Ok p → piece_ok p.
Proof.
  rw /parse_part. destruct (dyn part) as [v|] eqn:Ed.
  { intros [= <-]. simpl. apply bind_Some in Ed as (i & _ & H). by case_match; simplify_eq. }
  destruct (dyn_with_re part) as [[v re]|] eqn:Er.
  { intros [= <-]. simpl. apply bind_Some in Er as (i & _ & ([v' re'] & _ & H)%bind_Some).
    case_match eqn:Hb; simplify_eq. by apply andb_prop in Hb as [[? _]%andb_prop _]. }
  destruct (_ || _) eqn:Hb; [done|]. intros [= <-]. apply orb_false_iff in Hb as [??].
  by apply no_braces.
Qed.

Lemma parse_parts_ok location parts ps :
  parse_parts location parts = Ok ps → Forall piece_ok ps.
Proof.
  revert ps. induction parts as [|part parts IH]; intros ps; simpl; [by intros [= <-]|].
  py_unfold. destruct (parse_part location part) as [p|] eqn:E; [|done].
  destruct (parse_parts location parts); [|done]. intros [= <-].
  constructor; [by eapply parse_part_ok|by apply IH].
Qed.

(** A location with the values of its fields. *)
Definition group_value (g : groups) (v : string) : option string :=
  (fun x => x.2.2) <$> list_find (fun kv => kv.1 = v) g.
Definition instantiate (g : groups) (ps : list piece) : string :=
  concat_str (map (fun p => match p with
                            | Text s => s
                            | Field v _ => default "" (group_value g v)
                            end) ps).

Lemma format_map_app args s t :
  str_forall (fun a => negb (char_in a "{}")) s = true →
  format_map args (s +:+ t) None = String.append s <$> format_map args t None.
Proof.
  induction s as [|a s IH].
  { intros _. change ("" +:+ t) with t. by destruct (format_map args t None). }
  simpl. intros [Ha Hs]%andb_prop. specialize (IH Hs).
  apply negb_true_iff, orb_false_iff in Ha as [H1 H2].
  rw orb_false_r in H2. apply bool_decide_eq_false in H1, H2.
  change (String a s +:+ t) with (String a (s +:+ t)).
  destruct a as [[] [] [] [] [] [] [] []];
    try (by rw /= IH; destruct (format_map args t None));
    by (exfalso; (apply H1 || apply H2)).
Qed.

(** A variable read back as a field. *)
Lemma format_map_field_run args v s f :
  str_forall (fun a => negb (char_in a ".[!:}")) v = true →
  format_map args (v +:+ s) (Some f) = format_map args s (Some (f +:+ v)).
Proof.
  revert f. induction v as [|a v IH]; intros f; [by rw str_app_nil_r|].
  simpl. intros [Ha Hv]%andb_prop. change (String a v +:+ s) with (String a (v +:+ s)).
  destruct (decide (a = "}"%char)) as [->|Hne]; [done|].
  transitivity (format_map args (v +:+ s) (Some (f +:+ String a ""))).
  { by destruct a as [[] [] [] [] [] [] [] []]. }
  rw IH // str_app_assoc. done.
Qed.

Lemma var_char_plain a : var_char a = true → negb (char_in a ".[!:}") = true.
Proof. by destruct a as [[] [] [] [] [] [] [] []]. Qed.

Lemma str_forall_impl (f g : ascii → bool) s :
  (∀ a, f a = true → g a = true) → str_forall f s = true → str_forall g s = true.
Proof.
  intros Hfg. induction s as [|a s IH]; [done|]. simpl.
  intros [Ha Hs]%andb_prop. by rw Hfg // IH.
Qed.

Lemma is_var_chars v : is_var v = true → str_forall var_char v = true ∧ str_forall is_digit v = false.
Proof.
  destruct v as [|a v]; [done|]. simpl. intros [Ha Hv]%andb_prop. rw Hv /var_char Ha. split; [done|].
  clear Hv. by destruct a as [[] [] [] [] [] [] [] []].
Qed.

Lemma format_map_field args v x s :
  is_var v = true → group_value args v = Some x →
  format_map args ("{" +:+ v +:+ "}" +:+ s) None = String.append x <$> format_map args s None.
Proof.
  intros [Hv Hd]%is_var_chars Hx.
  assert (str_forall (fun a => negb (char_in a ".[!:}")) v = true) as Hp
    by (eapply str_forall_impl; [apply var_char_plain|done]).
  transitivity (format_map args (v +:+ "}" +:+ s) (Some "")).
  { destruct v as [|a v]; [done|]. destruct (decide (a = "{"%char)) as [->|Hne]; [done|].
    by destruct a as [[] [] [] [] [] [] [] []]. }
  rw format_map_field_run //. change ("" +:+ v) with v. change ("}" +:+ s) with (String "}" s).
  simpl. rw Hd /=. replace (str_forall _ v) with true.
  - rw /group_value in Hx. destruct (list_find _ args) as [[i [k y]]|]; simplify_eq/=. done.
  - symmetry. eapply str_forall_impl; [|exact Hp]. intros a.
    by destruct a as [[] [] [] [] [] [] [] []].
Qed.

(** Filling in the formatter of a location gives the location with the values
    of its fields. *)
Lemma format_map_formatter g ps :
  Forall piece_ok ps → (∀ v re, Field v re ∈ ps → is_Some (group_value g v)) →
  format_map g (formatter_of ps) None = Ok (instantiate g ps).
Proof.
  induction ps as [|p ps IH]; intros Hok Hg; [done|].
  apply Forall_cons in Hok as [Hp Hok].
  rw /formatter_of /instantiate /= -/(formatter_of ps) -/(instantiate g ps).
  specialize (IH Hok (fun v re Hin => Hg v re (list_elem_of_further _ _ _ Hin))).
  destruct p as [s|v re]; simpl in *.
  - by rw format_map_app // IH.
  - destruct (Hg v re) as [x Hx]; [by left|].
    transitivity (format_map g ("{" +:+ v +:+ "}" +:+ formatter_of ps) None);
      [by rw -!str_app_assoc|]. by rw (format_map_field _ _ x) // IH Hx.
Qed.

(** What the [re] module documents of a sequence of texts and named groups: a
    match binds every group, and starts with the texts and the values of the
    groups in their order. *)
Definition matches_pieces (ps : list piece) (m : string → option groups) : Prop :=
  ∀ text g, m text = Some g →
    (∀ v re, Field v re ∈ ps → is_Some (group_value g v)) ∧
    ∃ rest, text = instantiate g ps +:+ rest.

(** The conditions asserted at the end of [DynamicRoute.__init__] hold for
    every location that starts with a slash. *)
Lemma compile_location_asserts re_compile location msg :
  startswith "/" location = true →
  compile_location re_compile location ≠ Raise (PostconditionError msg).
Proof.
  intros Hl. rw /compile_location /mbind /res_bind.
  destruct (parse_parts location (route_re_split location)) as [ps|e] eqn:E.
  - apply parse_parts_slash in E as [Hp Hf]; [|done].
    destruct (re_compile _); [|done]. by rw Hp Hf.
  - clear Hl. revert E. generalize (route_re_split location) as parts.
    induction parts as [|part parts IH]; simpl; [done|]. py_unfold.
    destruct (parse_part location part) as [p|e'] eqn:Ep.
    + destruct (parse_parts location parts); [done|]. intros [= ->]. by apply IH.
    + intros [= ->]. revert Ep. rw /parse_part. by repeat case_match; intros; simplify_eq.
Qed.
