(* ===== verification/Routes.v ===== *)
(** * Search paths: routes and path resolution

    [qjazz_cache/routes.py], and the path resolution of
    [qjazz_cache/cachemanager.py] ([find_location], [resolve_path]) with the
    file handler's inverse of it ([handlers/file.py], [public_path]). *)
From S2P Require Import Prelude PyStd RouteTemplates.

(** ** Round trip of paths through their text *)
Module Paths.
(** A component as parsing leaves it. *)
Definition part_ok (x : string) : Prop :=
  x ≠ "" ∧ x ≠ "." ∧ char_in "/" x = false.
Definition path_ok (p : ppath) : Prop :=
  p_root p ∈ [""; "/"; "//"] ∧ Forall part_ok (p_parts p).

Lemma split_no_sep c s w : w ∈ split c s → char_in c w = false.
Proof.
  revert w. induction s as [|a s IH]; intros w; simpl.
  { rw list_elem_of_singleton. by intros ->. }
  case_decide; [rw elem_of_cons; intros [->|?]; auto|].
  destruct (split c s) as [|w0 ws]; rw elem_of_cons.
  - intros [->|[]%not_elem_of_nil]. simpl. by rw bool_decide_eq_false_2.
  - intros [->|Hw]; [|apply IH; set_solver]. simpl.
    rw bool_decide_eq_false_2 //=. apply IH. set_solver.
Qed.

Lemma path_of_ok s : path_ok (path_of s).
Proof.
  split; simpl.
  - rw /path_root. repeat case_match; set_solver.
  - apply Forall_forall. intros x [[??] Hx]%list_elem_of_filter.
    split_and!; [done|done|]. by eapply split_no_sep.
Qed.

Lemma split_app c x s :
  char_in c x = false → split c (x +:+ String c s) = x :: split c s.
Proof.
  induction x as [|a x IH]; simpl; [by rw decide_True|].
  intros [Ha Hx]%orb_false_iff. apply bool_decide_eq_false in Ha.
  rw decide_False //. by rw IH.
Qed.

Lemma split_one c x : char_in c x = false → split c x = [x].
Proof.
  induction x as [|a x IH]; simpl; [done|].
  intros [Ha Hx]%orb_false_iff. apply bool_decide_eq_false in Ha.
  rw decide_False //. by rw IH.
Qed.

Lemma split_join l :
  Forall part_ok l → l ≠ [] → split "/" (join "/" l) = l.
Proof.
  induction l as [|x l IH]; [done|]. intros [(_ & _ & Hx) Hl]%Forall_cons _.
  destruct l as [|y l]; [by apply split_one|].
  change (join "/" (x :: y :: l)) with (x +:+ String "/" (join "/" (y :: l))).
  by rw split_app // IH.
Qed.

Lemma filter_parts l :
  Forall part_ok l → filter (fun x => x ≠ "" ∧ x ≠ ".") l = l.
Proof. intros Hl. apply filter_id. rw Forall_forall in Hl. by intros x (?&?&_)%Hl. Qed.

Lemma parts_join l : Forall part_ok l → path_parts (join "/" l) = l.
Proof.
  intros Hl. destruct l as [|x l]; [done|].
  rw /path_parts split_join //. by apply filter_parts.
Qed.

Lemma parts_slash s : path_parts (String "/" s) = path_parts s.
Proof. reflexivity. Qed.

Lemma join_head l :
  Forall part_ok l → startswith "/" (join "/" l) = false.
Proof.
  intros Hl. destruct l as [|x l]; [done|].
  apply Forall_cons in Hl as [(Hx & _ & Hc) _].
  destruct x as [|a x]; [done|]. simpl in Hc.
  apply orb_false_iff in Hc as [Ha _]. apply bool_decide_eq_false in Ha.
  destruct l; simpl; by rw bool_decide_eq_false_2.
Qed.

Lemma path_root_spec s :
  startswith "/" s = false →
  path_root s = "" ∧ path_root (String "/" s) = "/" ∧
  path_root (String "/" (String "/" s)) = "//".
Proof.
  rw /path_root. destruct s as [|a s]; [done|].
  by destruct a as [[] [] [] [] [] [] [] []].
Qed.

(** Printing a path and parsing it again gives the path back. *)
Lemma path_of_str p : path_ok p → path_of (path_str p) = p.
Proof.
  destruct p as [r l]. intros [Hr Hl]. simpl in *.
  destruct (path_root_spec _ (join_head l Hl)) as (H0 & H1 & H2).
  pose proof (parts_join l Hl) as Hp.
  rw /path_of /path_str /=. rw !elem_of_cons in Hr.
  destruct Hr as [->|[->|[->|[]%not_elem_of_nil]]].
  - destruct l as [|x l]; [done|]. change ("" +:+ ?s) with s. by f_equal.
  - change ("/" +:+ ?s) with (String "/" s). by rw parts_slash Hp H1.
  - change ("//" +:+ ?s) with (String "/" (String "/" s)).
    by rw !parts_slash Hp H2.
Qed.

Lemma path_join_ok p q : path_ok p → path_ok q → path_ok (path_join p q).
Proof.
  intros [? ?] Hq. rw /path_join. destruct (p_root q); [|done].
  split; [done|]. apply Forall_app. split; [done|apply Hq].
Qed.

Lemma relative_to_ok p q r :
  path_ok p → path_relative_to p q = Some r → path_ok r.
Proof.
  intros [_ Hp] (_ & Hr & Heq)%path_relative_to_Some. rw Heq Forall_app in Hp.
  split; [rw Hr; set_solver|]. apply Hp.
Qed.
End Paths.
Import Paths.

#[export] Hint Resolve path_of_ok path_join_ok : py.

(** ** routes.py *)

(** [validate_url] *)
Definition validate_url (urlstr : string) : res Url :=
  url ← urlsplit urlstr;
  Ok (if str_truth (scheme url) then url
      else SplitResult "file" (netloc url) (u_path url) (query url) (fragment url)).

(** A route; a dynamic one holds the compiled pattern (the regular expression
    comes from the configuration) as the function that matches it, and the
    format string that rebuilds the location. *)
Inductive RouteDef : Type :=
| StaticRoute (location : ppath) (url : Url)
| DynamicRoute (location : string) (url : Url)
    (pattern : string → option groups) (formatter : string).

Definition is_dynamic (r : RouteDef) : bool :=
  match r with StaticRoute _ _ => false | DynamicRoute _ _ _ _ => true end.

(** [cannonical] *)
Definition cannonical (r : RouteDef) : string * Url :=
  match r with
  | StaticRoute location url => (path_str location, url)
  | DynamicRoute location url _ _ => (location, url)
  end.

(** [DynamicRoute.relative_to] and [resolve_path] share their last lines: the
    url template is filled in and split. *)
Definition format_url (url : Url) (args : groups) : res Url :=
  s ← format_map args (urlunsplit url) None; urlsplit s.

(** [StaticRoute.relative_to], [DynamicRoute.relative_to] *)
Definition relative_to (r : RouteDef) (location : string) : res (option (string * Url)) :=
  match r with
  | StaticRoute loc url =>
      Ok (if path_is_relative_to loc (path_of location)
          then Some (path_str loc, url) else None)
  | DynamicRoute _ url pattern formatter =>
      match pattern location with
      | None | Some [] => Ok None
      | Some args =>
          this_location ← format_map args formatter None;
          if path_is_relative_to (path_of this_location) (path_of location)
          then u ← format_url url args; Ok (Some (this_location, u))
          else Ok None
      end
  end.

(** [StaticRoute.resolve_path], [DynamicRoute.resolve_path] *)
Definition route_resolve_path (r : RouteDef) (path : ppath) : res (option (string * Url)) :=
  match r with
  | StaticRoute loc url =>
      Ok (if path_is_relative_to path loc then Some (path_str loc, url) else None)
  | DynamicRoute _ url pattern formatter =>
      match pattern (path_str path) with
      | None | Some [] => Ok None
      | Some args =>
          location ← format_map args formatter None;
          if path_is_relative_to path (path_of location)
          then u ← format_url url args; Ok (Some (location, u))
          else Ok None
      end
  end.

(** [Routes]: the routes by their location, in the order of the
    configuration. *)
Definition Routes : Type := list (string * RouteDef).

Section routes.
(** [re.compile] *)
Context (re_compile : string → option (string → option groups)).

(** [StaticRoute.__init__], [DynamicRoute.__init__] *)
Definition new_StaticRoute (location url : string) : res RouteDef :=
  u ← validate_url url; Ok (StaticRoute (path_of location) u).
Definition new_DynamicRoute (location url : string) : res RouteDef :=
  u ← validate_url url;
  pf ← compile_location re_compile location;
  Ok (DynamicRoute location u pf.1 pf.2).

(** [Routes.__init__] *)
Fixpoint build_routes (search_paths : list (string * string)) : res Routes :=
  match search_paths with
  | [] => Ok []
  | (location, url) :: rest =>
      if negb (startswith "/" location)
      then Raise (ValueError "Search path route must start with '/'")
      else
        route ←
          (if negb (str_in "{" location || str_in "}" location || route_re_search location)
           then new_StaticRoute location url
           else new_DynamicRoute location url);
        routes ← build_routes rest;
        Ok ((location, route) :: routes)
  end.
End routes.

(** [filter(None, ...)] over the answers of the routes *)
Fixpoint collect_relative (location : string) (rs : list RouteDef) : res (list (string * Url)) :=
  match rs with
  | [] => Ok []
  | r :: rs =>
      x ← relative_to r location;
      xs ← collect_relative location rs;
      Ok (match x with Some y => y :: xs | None => xs end)
  end.

(** [Routes.locations] *)
Definition locations (routes : Routes) (location : option string) : res (list (string * Url)) :=
  if ostr_truth location then
    let location := default "" location in
    match list_find (fun kr => kr.1 = location) routes with
    | Some (_, (_, StaticRoute _ url)) => Ok [(location, url)]
    | Some (_, (_, DynamicRoute _ _ _ _)) => Ok []
    | None => collect_relative location routes.*2
    end
  else Ok (omap (fun r => match r with
                          | StaticRoute loc url => Some (path_str loc, url)
                          | DynamicRoute _ _ _ _ => None
                          end) routes.*2).

(** ** cachemanager.py: path resolution *)

(** [CacheManager.find_location] *)
Fixpoint find_location_in (rs : list RouteDef) (path : ppath) : res (option ppath) :=
  match rs with
  | [] => Ok None
  | r :: rs =>
      result ← route_resolve_path r path;
      match result with
      | Some (location, _) => Ok (Some (path_of location))
      | None => find_location_in rs path
      end
  end.
Definition find_location (routes : Routes) (path : string) : res (option ppath) :=
  find_location_in routes.*2 (path_of path).

(** The url of a resource at [path], relative to a location, below a root
    url: a [{path}] field in the query is filled in, otherwise the path is
    appended to the path of the root url. *)
Definition url_for (rooturl : Url) (path : ppath) : res Url :=
  q ← format_map [("path", path_str path)] (query rooturl) None;
  if decide (q ≠ query rooturl)
  then Ok (SplitResult (scheme rooturl) (netloc rooturl) (u_path rooturl) q (fragment rooturl))
  else Ok (SplitResult (scheme rooturl) (netloc rooturl)
             (path_str (path_join (path_of (u_path rooturl)) path))
             (query rooturl) (fragment rooturl)).

(** [CacheManager.resolve_path] *)
Fixpoint resolve_path_in (rs : list RouteDef) (path : ppath) (allow_direct : bool) : res Url :=
  match rs with
  | [] => if allow_direct then validate_url (path_str path)
          else Raise (ResourceNotAllowed (path_str path))
  | r :: rs =>
      result ← route_resolve_path r path;
      match result with
      | None => resolve_path_in rs path allow_direct
      | Some (location, rooturl) =>
          match path_relative_to path (path_of location) with
          | None => Raise (ValueError "not in the subpath")
          | Some rel => url_for rooturl rel
          end
      end
  end.
Definition resolve_path (routes : Routes) (allow_direct_path_resolution : bool)
    (path : string) (allow_direct : bool) : res Url :=
  resolve_path_in routes.*2 (path_of path) (allow_direct || allow_direct_path_resolution).

(** ** handlers/file.py: the public path of a file

    [FileProtocolHandler.public_path] on a split url; [None] stands for the
    ValueError of [relative_to]. *)
Definition file_public_path (url : Url) (location : string) (rooturl : Url) : option string :=
  relpath ← path_relative_to (path_of (u_path url)) (path_of (u_path rooturl));
  Some (path_str (path_join (path_of location) relpath)).

(** ** Properties *)

(** A route that answers only answers for paths below the location it gives. *)
Lemma route_resolve_relative r path location url :
  match r with StaticRoute loc _ => path_ok loc | _ => True end →
  route_resolve_path r path = Ok (Some (location, url)) →
  path_is_relative_to path (path_of location) = true.
Proof.
  destruct r as [loc u|loc u pat fmt]; simpl; intros Hok.
  - destruct (path_is_relative_to path loc) eqn:Hr; [|done].
    intros [= <- _]. by rw path_of_str.
  - destruct (pat _) as [[|a args]|]; [done| |done]. py_unfold.
    destruct (format_map _ fmt None) as [l|]; [|done].
    destruct (path_is_relative_to path (path_of l)) eqn:Hr; [|done].
    destruct (format_url u (a :: args)); [|done]. by intros [= <- _].
Qed.

Definition route_ok (r : RouteDef) : Prop :=
  match r with StaticRoute loc _ => path_ok loc | DynamicRoute _ _ _ _ => True end.

Lemma new_StaticRoute_ok location url r :
  new_StaticRoute location url = Ok r → route_ok r.
Proof.
  rw /new_StaticRoute. py_unfold. destruct (validate_url url) as [u|]; [|done].
  intros [= <-]. apply path_of_ok.
Qed.

Lemma new_DynamicRoute_ok re_compile location url r :
  new_DynamicRoute re_compile location url = Ok r → route_ok r.
Proof.
  rw /new_DynamicRoute. py_unfold. destruct (validate_url url) as [u|]; [|done].
  destruct (compile_location _ _); [|done]. by intros [= <-].
Qed.

Lemma build_routes_ok re_compile sp routes :
  build_routes re_compile sp = Ok routes → Forall route_ok routes.*2.
Proof.
  revert routes. induction sp as [|[loc url] sp IH]; intros routes; simpl.
  { intros [= <-]. constructor. }
  destruct (negb _); [done|]. py_unfold.
  destruct (if negb _ then _ else _) as [r|] eqn:Er; [|done].
  destruct (build_routes re_compile sp); [|done].
  intros [= <-]. constructor; [|by apply IH]. simpl.
  destruct (negb _); [by eapply new_StaticRoute_ok|by eapply new_DynamicRoute_ok].
Qed.

(** The route that resolves a path: the first one that answers. *)
Inductive first_match (path : ppath) : list RouteDef → string → Url → Prop :=
| fm_here r rs location rooturl :
    route_resolve_path r path = Ok (Some (location, rooturl)) →
    first_match path (r :: rs) location rooturl
| fm_later r rs location rooturl :
    route_resolve_path r path = Ok None →
    first_match path rs location rooturl →
    first_match path (r :: rs) location rooturl.

Lemma first_match_resolve rs path direct location rooturl :
  first_match path rs location rooturl →
  resolve_path_in rs path direct =
  match path_relative_to path (path_of location) with
  | None => Raise (ValueError "not in the subpath")
  | Some rel => url_for rooturl rel
  end.
Proof. induction 1 as [r rs l u H|r rs l u H _ IH]; simpl; py_unfold; by rw H. Qed.

Lemma first_match_relative rs path location rooturl :
  Forall route_ok rs → path_ok path → first_match path rs location rooturl →
  ∃ rel, path_relative_to path (path_of location) = Some rel ∧ path_ok rel.
Proof.
  intros Hok Hp. induction 1 as [r rs l u H|r rs l u H _ IH];
    apply Forall_cons in Hok as [Hr Hok]; [|auto].
  apply route_resolve_relative in H; [|by destruct r].
  rw /path_is_relative_to in H. destruct (path_relative_to _ _) as [rel|] eqn:E; [|done].
  exists rel. split; [done|]. by eapply relative_to_ok.
Qed.

Lemma resolve_first_match rs path url :
  resolve_path_in rs path false = Ok url →
  ∃ location rooturl, first_match path rs location rooturl.
Proof.
  induction rs as [|r rs IH]; simpl; [done|]. py_unfold.
  destruct (route_resolve_path r path) as [[[l u]|]|] eqn:E; [|intros H|done].
  - intros _. exists l, u. by constructor.
  - destruct (IH H) as (l & u & ?). exists l, u. by apply fm_later.
Qed.


(** A root url whose query has no field appends the path to its own path. *)
Lemma url_for_append rooturl rel :
  str_forall (fun a => negb (char_in a "{}")) (query rooturl) = true →
  url_for rooturl rel =
  Ok (SplitResult (scheme rooturl) (netloc rooturl)
        (path_str (path_join (path_of (u_path rooturl)) rel))
        (query rooturl) (fragment rooturl)).
Proof. intros H. rw /url_for. py_unfold. rw format_map_plain //. by case_decide. Qed.

Lemma url_for_append_path rooturl rel :
  path_ok rel →
  path_of (path_str (path_join (path_of (u_path rooturl)) rel)) =
  path_join (path_of (u_path rooturl)) rel.
Proof. intros. apply path_of_str, path_join_ok; auto with py. Qed.

(** For root urls without a [{path}] field, the file handler's public path
    inverts the resolution: it gives back the requested path, normalised. *)
Theorem public_path_resolve_path re_compile search_paths routes path url :
  build_routes re_compile search_paths = Ok routes →
  resolve_path routes false path false = Ok url →
  Forall (fun r => str_forall (fun a => negb (char_in a "{}")) (query (cannonical r).2) = true ∧
                   is_dynamic r = false) routes.*2 →
  ∃ location rooturl,
    first_match (path_of path) routes.*2 location rooturl ∧
    file_public_path url location rooturl = Some (path_str (path_of path)).
Proof.
  intros Hb%build_routes_ok Hr Hplain.
  destruct (resolve_first_match _ _ _ Hr) as (l & u & Hm). exists l, u. split; [done|].
  destruct (first_match_relative _ _ _ _ Hb (path_of_ok path) Hm) as (rel & Hrel & Hok).
  rw /resolve_path /= (first_match_resolve _ _ _ _ _ Hm) Hrel in Hr.
  assert (str_forall (fun a => negb (char_in a "{}")) (query u) = true) as Hq.
  { clear -Hm Hplain. induction Hm as [[]|]; simplify_eq/=; decompose_Forall_hyps; auto.
    - by repeat case_match; simplify_eq/=; destruct_and!.
    - naive_solver. }
  rw url_for_append // in Hr. injection Hr as <-. rw /file_public_path /=.
  rw url_for_append_path // path_relative_to_join /=.
  - by apply path_relative_to_Some in Hrel as (_ & ? & _).
  - by rw (path_join_relative_to _ _ _ Hrel).
Qed.


Lemma public_path_resolve_path_witness :
  ∃ location rooturl,
    first_match (path_of "/pub//a/./b.qgs") [StaticRoute (path_of "/pub") (SplitResult "file" "" "/srv" "" "")]
      location rooturl ∧
    file_public_path (SplitResult "file" "" "/srv/a/b.qgs" "" "") location rooturl
    = Some (path_str (path_of "/pub//a/./b.qgs")).
Proof.
  apply (public_path_resolve_path (fun _ => None) [("/pub", "/srv")]
    [("/pub", StaticRoute (path_of "/pub") (SplitResult "file" "" "/srv" "" ""))]);
    [reflexivity|reflexivity|repeat constructor].
Defined.

(** ** Parent references

    How a POSIX system walks an absolute path without symbolic links: [".."]
    goes back one component. *)
Fixpoint walk (stack : list string) (parts : list string) : list string :=
  match parts with
  | [] => rev stack
  | x :: parts =>
      if decide (x = "..") then walk (tail stack) parts else walk (x :: stack) parts
  end.

Lemma walk_up l stack rest :
  Forall (fun x => x ≠ "..") l →
  walk stack (l ++ replicate (length l) ".." ++ rest) = walk stack rest.
Proof.
  intros Hl.
  assert (∀ k st, walk (k ++ st) (replicate (length k) ".." ++ rest) = walk st rest) as Hpop.
  { intros k. induction k as [|x k IH]; intros st; [done|]. apply (IH st). }
  assert (∀ k st, Forall (fun x => x ≠ "..") k →
            ∀ r, walk st (k ++ r) = walk (rev k ++ st) r) as Hpush.
  { induction k as [|x k IH]; intros st Hk r; [done|].
    apply Forall_cons in Hk as [? Hk]. simpl. rw decide_False //.
    rw IH //. by rw -(assoc app). }
  rw Hpush // -(length_rev l). apply Hpop.
Qed.

(** Resolution is lexical and keeps parent references: below any static
    location whose root url is a plain directory, the request that climbs as
    many levels as the root directory is deep resolves, and the resolved path
    designates any chosen absolute path outside of the search path. *)
Theorem resolve_path_parent_escape location rootpath target :
  path_ok location → p_root location = "/" →
  Forall (fun x => x ≠ "..") (path_parts rootpath) →
  Forall part_ok target → Forall (fun x => x ≠ "..") target →
  ∃ request url,
    path_is_relative_to (path_of request) location = true ∧
    resolve_path [(path_str location, StaticRoute location (SplitResult "file" "" rootpath "" ""))]
      false request false = Ok url ∧
    walk [] (path_parts (u_path url)) = target.
Proof.
  intros Hloc Hroot Hrp Htgt Hup.
  set (rel := PPath "" (replicate (length (path_parts rootpath)) ".." ++ target)).
  assert (path_ok rel) as Hrel.
  { split; [set_solver|]. apply Forall_app. split; [|done].
    by apply Forall_replicate. }
  exists (path_str (path_join location rel)). eexists.
  rw /resolve_path /= path_of_str; [by apply path_join_ok|].
  rw /path_is_relative_to path_relative_to_join //. split; [done|]. split.
  - py_unfold. rw path_of_str // path_relative_to_join // url_for_append //.
  - simpl. pose proof (url_for_append_path (SplitResult "file" "" rootpath "" "") rel Hrel) as Hp.
    apply (f_equal p_parts) in Hp. simpl in Hp. rw Hp /=.
    rw walk_up //. clear -Hup.
    assert (∀ st, walk st target = rev st ++ target) as ->; [|done].
    induction target as [|x l IH]; intros st; [by rw app_nil_r|].
    apply Forall_cons in Hup as [? Hup]. simpl. rw decide_False // IH //=.
    by rw -(assoc app).
Qed.

Lemma resolve_path_parent_escape_witness :
  ∃ request url,
    path_is_relative_to (path_of request) (path_of "/public") = true ∧
    resolve_path [("/public", StaticRoute (path_of "/public") (SplitResult "file" "" "/srv/projects" "" ""))]
      false request false = Ok url ∧
    walk [] (path_parts (u_path url)) = ["etc"; "secret.qgs"].
Proof.
  apply (resolve_path_parent_escape (path_of "/public") "/srv/projects" ["etc"; "secret.qgs"]);
    [apply path_of_ok|reflexivity|repeat constructor; discriminate..].
Defined.

(** ** Dynamic routes *)

(** The location a dynamic route answers is the text its pattern matched at
    the start of the requested path, whole components of it, and the root url
    is the url of the route with the values of the fields filled in. *)
Theorem dynamic_route_location re_compile location url r ps path loc u :
  new_DynamicRoute re_compile location url = Ok r →
  parse_parts location (route_re_split location) = Ok ps →
  (∀ m, re_compile (pattern_of ps) = Some m → matches_pieces ps m) →
  route_resolve_path r path = Ok (Some (loc, u)) →
  ∃ rooturl m g rest,
    validate_url url = Ok rooturl ∧ re_compile (pattern_of ps) = Some m ∧
    m (path_str path) = Some g ∧
    loc = instantiate g ps ∧ path_str path = loc +:+ rest ∧
    path_is_relative_to path (path_of loc) = true ∧
    format_url rooturl g = Ok u.
Proof.
  rw /new_DynamicRoute /compile_location /mbind /res_bind. intros Hr Hps. rw Hps in Hr.
  destruct (validate_url url) as [rooturl|]; [|done].
  destruct (re_compile (pattern_of ps)) as [m|]; [|done].
  destruct (negb _); [done|]. destruct (negb _); [done|]. injection Hr as <-.
  intros Hlaw. cbn [fst snd]. rw /route_resolve_path.
  destruct (m (path_str path)) as [[|a g]|] eqn:Em; [done| |done].
  destruct (Hlaw m eq_refl _ _ Em) as [Hg [rest Ht]]. revert Em Hg Ht. cbn iota beta.
  generalize (a :: g) as args. intros args Em Hg Ht.
  rw /mbind /res_bind format_map_formatter //; [by eapply parse_parts_ok|].
  destruct (path_is_relative_to _ _) eqn:Hrel; [|done].
  destruct (format_url rooturl args) as [u'|] eqn:Hu; [|done]. intros [= <- <-].
  exists rooturl, m, args, rest. split_and!; done.
Qed.

(** [re.match(r"/(?P<user>[^{}/]+)/p", text)] *)
Definition user_pattern (text : string) : option groups :=
  match text with
  | String "/" t =>
      match partition "/" t with
      | Some (u, String "p" _) =>
          if str_truth u && str_forall (fun a => negb (char_in a "{}")) u
          then Some [("user", u)] else None
      | _ => None
      end
  | _ => None
  end.
Definition user_compile (pattern : string) : option (string → option groups) :=
  if decide (pattern = "/(?P<user>[^{}/]+)/p") then Some user_pattern else None.

Lemma user_pattern_pieces :
  matches_pieces [Text "/"; Field "user" GOOD; Text "/p"] user_pattern.
Proof.
  intros text g. rw /user_pattern. repeat case_match; try done. intros [= <-].
  split.
  { intros v re. rw !elem_of_cons. intros [?|[?|[?|[]%not_elem_of_nil]]]; simplify_eq. by eexists. }
  match goal with H : partition _ _ = Some (?u, String _ ?r) |- _ =>
    apply partition_app in H as ->; exists r end.
  rw /instantiate /= str_app_nil_r. change ("/" +:+ ?s) with (String "/" s).
  exact (f_equal (String "/") (eq_sym (str_app_assoc _ "/p" _))).
Qed.

Lemma dynamic_route_location_witness :
  ∃ rooturl m g rest,
    validate_url "/srv/{user}" = Ok rooturl ∧
    user_compile (pattern_of [Text "/"; Field "user" GOOD; Text "/p"]) = Some m ∧
    m (path_str (path_of "/ann/p/a.qgs")) = Some g ∧
    "/ann/p" = instantiate g [Text "/"; Field "user" GOOD; Text "/p"] ∧
    path_str (path_of "/ann/p/a.qgs") = "/ann/p" +:+ rest ∧
    path_is_relative_to (path_of "/ann/p/a.qgs") (path_of "/ann/p") = true ∧
    format_url rooturl g = Ok (SplitResult "file" "" "/srv/ann" "" "").
Proof.
  apply (dynamic_route_location user_compile "/{user}/p" "/srv/{user}"
    (DynamicRoute "/{user}/p" (SplitResult "file" "" "/srv/{user}" "" "") user_pattern "/{user}/p")
    [Text "/"; Field "user" GOOD; Text "/p"]); [reflexivity|reflexivity| |reflexivity].
  intros m. vm_compute decide. intros [= <-]. exact user_pattern_pieces.
Defined.
