(* ===== verification/Components.v ===== *)
(** * The component manager

    [qjazz_core/componentmanager.py]: objects registered under contract ids,
    created on demand or shared as services, and the registration of the
    protocol handlers in it ([qjazz_cache/handlers/__init__.py],
    [handlers/config.py], [CacheManager.initialize_handlers] and
    [get_protocol_handler]).  The global manager is the state of the
    operations. *)
From S2P Require Import Prelude PyDict PyStd RouteTemplates Routes.

Section components.
(** The registered objects; [None] is Python's. *)
Context {T : Type}.

(** A factory is called with the number of objects created before, which
    tells its results apart. *)
Definition factory : Type := nat → res (option T).

(** [FactoryEntry] *)
Record FactoryEntry : Type := MkFactoryEntry {
  fe_create_instance : factory;
  service : option T;
}.

(** [FactoryEntry._bind_service] *)
Definition _bind_service (fe : FactoryEntry) (instance : option T) : FactoryEntry :=
  MkFactoryEntry (fe_create_instance fe) instance.

(** [ComponentManager]: the entries by contract id, the number of calls made
    to factories, and whether the modules of the default handlers were
    imported, which is when their classes register themselves. *)
Record Components : Type := MkComponents {
  _contractIDs : pydict string FactoryEntry;
  created : nat;
  imported : bool;
}.
Definition new_components : Components := MkComponents PyDict.empty 0 false.

Definition set_entry (c : string) (fe : FactoryEntry) : M Components unit :=
  modify (fun s => MkComponents (insert c fe (_contractIDs s)) (created s) (imported s)).

(** A call of a factory. *)
Definition call (f : factory) : M Components (option T) := fun s =>
  (f (created s), MkComponents (_contractIDs s) (S (created s)) (imported s)).

(** [register_factory]; [None] is an object that cannot be called *)
Definition register_factory (contractID : string) (f : option factory) : M Components unit :=
  match f with
  | None => raise (ValueError "factory must be a callable object")
  | Some f => set_entry contractID (MkFactoryEntry f None)
  end.

(** [register_service] *)
Definition nullFactory (contractID : string) : factory :=
  fun _ => Raise (NoRegisteredFactoryError contractID).
Definition register_service (contractID : string) (srv : option T) : M Components unit :=
  set_entry contractID (MkFactoryEntry (nullFactory contractID) srv).

(** [create_instance] *)
Definition create_instance (contractID : string) : M Components (option T) :=
  s ← get;
  match lookup contractID (_contractIDs s) with
  | Some fe => call (fe_create_instance fe)
  | None => raise (FactoryNotFoundError contractID)
  end.

(** [get_service] *)
Definition get_service (contractID : string) : M Components (option T) :=
  s ← get;
  match lookup contractID (_contractIDs s) with
  | None => raise (FactoryNotFoundError contractID)
  | Some fe =>
      match service fe with
      | Some srv => mret (Some srv)
      | None =>
          instance ← call (fe_create_instance fe);
          set_entry contractID (_bind_service fe instance);;
          mret instance
      end
  end.

(** An entry point of an installed distribution: its group, its name, and the
    call of what it loads on the component manager. *)
Record EntryPoint : Type := MkEntryPoint {
  ep_group : string;
  ep_name : string;
  ep_load : M Components unit;
}.

Definition _entry_points (eps : list EntryPoint) (group : string) : list EntryPoint :=
  filter (fun ep => ep_group ep = group) eps.

Fixpoint load_all (eps : list EntryPoint) : M Components unit :=
  match eps with
  | [] => mret tt
  | ep :: eps => ep_load ep;; load_all eps
  end.

(** [register_entrypoints] *)
Definition register_entrypoints (eps : list EntryPoint) (category : string) : M Components unit :=
  load_all (_entry_points eps category).

(** [load_entrypoint] *)
Definition load_entrypoint (eps : list EntryPoint) (category name : string) : M Components unit :=
  match filter (fun ep => ep_name ep = name) (_entry_points eps category) with
  | ep :: _ => ep_load ep
  | [] => raise (EntryPointNotFoundError name)
  end.

(** ** Protocol handlers *)
Definition handler_contract (scheme : string) : string :=
  "@3liz.org/cache/protocol-handler;1?scheme=" +:+ scheme.

(** The constructors of the default handlers: [FileProtocolHandler],
    [PostgresHandler] and [GeoPackageHandler]. *)
Record DefaultHandlers : Type := {
  file_factory : factory;
  postgresql_factory : factory;
  geopackage_factory : factory;
}.

(** [register_default_handlers]: a module runs when it is first imported *)
Definition register_default_handlers (dh : DefaultHandlers) : M Components unit :=
  s ← get;
  if imported s then mret tt
  else
    register_factory (handler_contract "file") (Some (file_factory dh));;
    register_factory (handler_contract "postgresql") (Some (postgresql_factory dh));;
    register_factory (handler_contract "geopackage") (Some (geopackage_factory dh));;
    modify (fun s => MkComponents (_contractIDs s) (created s) true).

(** [HandlerConfig]: the class with its constructor, and its validated
    configuration if it has one; [create_instance] *)
Record HandlerConfig (C : Type) : Type := MkHandlerConfig {
  hc_class : option C → nat → res T;
  _handler_conf : option C;
}.
Arguments hc_class {C}.
Arguments _handler_conf {C}.
Definition hc_create_instance {C} (conf : HandlerConfig C) : nat → res T :=
  hc_class conf (_handler_conf conf).

(** [register_protocol_handler] *)
Definition register_protocol_handler {C} (scheme : string) (conf : HandlerConfig C) :
    M Components unit :=
  h ← call (fun n => Some <$> hc_create_instance conf n);
  register_service (handler_contract scheme) h.

(** [CacheManager.get_protocol_handler] *)
Definition get_protocol_handler (scheme : string) : M Components (option T) :=
  get_service (handler_contract (str_or scheme "file")).

Context (validate_rooturl : T → Url → bool → res unit).

Fixpoint register_handlers {C} (handlers : list (string * HandlerConfig C)) : M Components unit :=
  match handlers with
  | [] => mret tt
  | (scheme, conf) :: handlers =>
      register_protocol_handler scheme conf;; register_handlers handlers
  end.

Fixpoint validate_routes (routes : list RouteDef) : M Components unit :=
  match routes with
  | [] => mret tt
  | route :: routes =>
      let '(_, rooturl) := cannonical route in
      handler ← get_protocol_handler (scheme rooturl);
      match handler with
      | Some h => pure (validate_rooturl h rooturl (is_dynamic route))
      | None => raise (OtherException "AttributeError")
      end;;
      validate_routes routes
  end.

(** [CacheManager.initialize_handlers] *)
Definition initialize_handlers {C} (dh : DefaultHandlers)
    (handlers : list (string * HandlerConfig C)) (routes : Routes) : M Components unit :=
  register_default_handlers dh;;
  register_handlers handlers;;
  validate_routes routes.*2.
End components.

Arguments FactoryEntry : clear implicits.
Arguments Components : clear implicits.
Arguments EntryPoint : clear implicits.
Arguments DefaultHandlers : clear implicits.
Arguments HandlerConfig : clear implicits.

(** ** Services are shared *)
Section services.
Context {T : Type}.
Implicit Types (s : Components T) (h : T).

Definition cwf s : Prop := wf (_contractIDs s).
Definition bound (c : string) (h : T) s : Prop :=
  ∃ fe, lookup c (_contractIDs s) = Some fe ∧ service fe = Some h.

(** The operations on the manager that leave the registration of [c] alone. *)
Inductive step (c : string) : Components T → Components T → Prop :=
| step_get c' s : step c s (get_service c' s).2
| step_create c' s : step c s (create_instance c' s).2
| step_register_factory c' f s : c' ≠ c → step c s (register_factory c' f s).2
| step_register_service c' o s : c' ≠ c → step c s (register_service c' o s).2.

Lemma set_entry_cwf c fe s : cwf s → cwf (set_entry c fe s).2.
Proof. apply wf_insert. Qed.

Lemma set_entry_bound_ne c c' fe h s :
  cwf s → c' ≠ c → bound c h s → bound c h (set_entry c' fe s).2.
Proof. intros Hs Hne (fe0 & Hl & Hv). exists fe0. simpl. by rw lookup_insert_ne. Qed.

Lemma set_entry_bound_eq c fe h s :
  cwf s → service fe = Some h → bound c h (set_entry c fe s).2.
Proof. intros Hs Hv. exists fe. simpl. by rw lookup_insert_eq. Qed.

(** What a call of [get_service] does, case by case. *)
Lemma get_service_cases c s :
  (∃ h, bound c h s ∧ get_service c s = (Ok (Some h), s)) ∨
  (∃ e s', get_service c s = (Raise e, s') ∧ _contractIDs s' = _contractIDs s) ∨
  (∃ fe o s1, lookup c (_contractIDs s) = Some fe ∧ service fe = None ∧
     fe_create_instance fe (created s) = Ok o ∧
     _contractIDs s1 = _contractIDs s ∧
     get_service c s = (Ok o, (set_entry c (_bind_service fe o) s1).2)).
Proof.
  rw /get_service. py_unfold. destruct (lookup c (_contractIDs s)) as [fe|] eqn:Hl.
  - destruct (service fe) as [h|] eqn:Hv; [left; exists h; split; [by exists fe|done]|right].
    rw /call. destruct (fe_create_instance fe (created s)) as [o|e] eqn:Hc.
    + right. by exists fe, o, (MkComponents (_contractIDs s) (S (created s)) (imported s)).
    + left. by eexists _, _.
  - right; left. by eexists _, _.
Qed.

Lemma get_service_bound c h s : bound c h s → get_service c s = (Ok (Some h), s).
Proof. intros (fe & Hl & Hv). rw /get_service. py_unfold. by rw Hl Hv. Qed.

Lemma get_service_cwf c s : cwf s → cwf (get_service c s).2.
Proof.
  intros Hs. destruct (get_service_cases c s)
    as [(h & _ & ->)|[(e & s' & -> & He)|(fe & o & s1 & _ & _ & _ & E & ->)]]; [done| |].
  - by rw /cwf He.
  - apply set_entry_cwf. by rw /cwf E.
Qed.

Lemma get_service_keeps c c' h s : cwf s → bound c h s → bound c h (get_service c' s).2.
Proof.
  intros Hs Hb. destruct (get_service_cases c' s)
    as [(h' & _ & ->)|[(e & s' & -> & He)|(fe & o & s1 & Hl & Hv & _ & E & ->)]]; [done| |].
  - rw /bound He. done.
  - destruct (decide (c' = c)) as [->|Hne].
    + destruct Hb as (fe' & Hl' & Hv'). congruence.
    + apply set_entry_bound_ne; [by rw /cwf E|done|by rw /bound E].
Qed.

Lemma get_service_binds c h s s' :
  cwf s → get_service c s = (Ok (Some h), s') → bound c h s'.
Proof.
  intros Hs. destruct (get_service_cases c s)
    as [(h' & Hb & ->)|[(e & s1 & -> & He)|(fe & o & s1 & Hl & Hv & _ & E & ->)]].
  - by intros [= -> <-].
  - done.
  - intros H. simplify_eq. apply set_entry_bound_eq; [by rw /cwf E|done].
Qed.

Lemma create_instance_contracts c s :
  _contractIDs (create_instance c s).2 = _contractIDs s.
Proof. rw /create_instance. py_unfold. by case_match. Qed.

Lemma step_keeps c h s s' : step c s s' → cwf s ∧ bound c h s → cwf s' ∧ bound c h s'.
Proof.
  intros Hst [Hs Hb]. destruct Hst as [c' s|c' s|c' f s Hne|c' o s Hne].
  - split; [by apply get_service_cwf|by apply get_service_keeps].
  - rw /cwf /bound create_instance_contracts. done.
  - destruct f; [|done]. split; [by apply set_entry_cwf|by apply set_entry_bound_ne].
  - split; [by apply set_entry_cwf|by apply set_entry_bound_ne].
Qed.

(** A service is created once: after the first [get_service] of a contract,
    whatever else is registered, created or asked for, the same object is
    answered and no factory is called, until the contract is registered
    anew. *)
Theorem service_singleton c h s s' s'' :
  cwf s → get_service c s = (Ok (Some h), s') → rtc (step c) s' s'' →
  get_service c s'' = (Ok (Some h), s'').
Proof.
  intros Hs Hg Hst. apply get_service_bound.
  assert (cwf s' ∧ bound c h s') as Hi.
  { split; [|by eapply get_service_binds]. by pose proof (get_service_cwf c s Hs) as Hc; rw Hg in Hc. }
  clear Hs Hg. induction Hst as [|s1 s2 s3 H _ IH]; [apply Hi|].
  apply IH. by eapply step_keeps.
Qed.
End services.

(** ** The handlers are ready once they are initialised *)
Section handlers.
Context {T C : Type} (validate_rooturl : T → Url → bool → res unit).
Implicit Types (s : Components T) (h : T).

(** What later registrations and lookups keep. *)
Lemma validate_routes_keeps routes c h s :
  cwf s → bound c h s → cwf (validate_routes validate_rooturl routes s).2 ∧
                        bound c h (validate_routes validate_rooturl routes s).2.
Proof.
  revert s. induction routes as [|r routes IH]; intros s Hs Hb; [done|]. simpl.
  destruct (cannonical r) as [loc url]. rw /get_protocol_handler.
  pose proof (get_service_cwf (handler_contract (str_or (scheme url) "file")) s Hs) as Hs1.
  pose proof (get_service_keeps c (handler_contract (str_or (scheme url) "file")) h s Hs Hb) as Hb1.
  destruct (get_service _ s) as [[[h1|]|e] s1] eqn:E; simpl in *; rw /mbind /M_bind E; [|done..].
  rw /pure. destruct (validate_rooturl h1 url (is_dynamic r)); [by apply IH|done].
Qed.

Lemma validate_routes_bound routes s s' :
  cwf s → validate_routes validate_rooturl routes s = (Ok tt, s') →
  ∀ r, r ∈ routes → ∃ h,
    bound (handler_contract (str_or (scheme (cannonical r).2) "file")) h s' ∧
    validate_rooturl h (cannonical r).2 (is_dynamic r) = Ok tt.
Proof.
  revert s. induction routes as [|r0 routes IH]; intros s Hs H r Hin; [by apply not_elem_of_nil in Hin|].
  simpl in H. destruct (cannonical r0) as [loc url] eqn:Er.
  apply bind_ok_inv in H as ([h|] & s1 & Hg & H); [|done].
  apply bind_ok_inv in H as ([] & s2 & [= Hv <-] & H).
  rw /get_protocol_handler in Hg. assert (cwf s1) as Hs1.
  { pose proof (get_service_cwf (handler_contract (str_or (scheme url) "file")) s Hs) as Hc.
    by rw Hg in Hc. }
  apply elem_of_cons in Hin as [->|Hin]; [|by eapply IH].
  exists h. rw Er /=. split; [|done]. apply get_service_binds in Hg; [|done].
  destruct (validate_routes_keeps routes _ h s1 Hs1 Hg) as [_ Hb]. by rw H in Hb.
Qed.

Lemma register_protocol_handler_ok scheme (conf : HandlerConfig T C) s s' :
  cwf s → register_protocol_handler scheme conf s = (Ok tt, s') →
  cwf s' ∧ (∃ h n, hc_create_instance conf n = Ok h ∧ bound (handler_contract scheme) h s') ∧
  ∀ c h, c ≠ handler_contract scheme → bound c h s → bound c h s'.
Proof.
  intros Hs H. apply bind_ok_inv in H as (o & s1 & Hc & [= <-]).
  rw /call in Hc. injection Hc as Hc <-.
  destruct (hc_create_instance conf (created s)) as [h|] eqn:E; [|done]. injection Hc as <-.
  set (s1 := MkComponents (_contractIDs s) (S (created s)) (imported s)).
  assert (cwf s1) by done. split_and!.
  - by apply (set_entry_cwf _ _ s1).
  - exists h, (created s). split; [done|]. by apply (set_entry_bound_eq _ _ _ s1).
  - intros c h' Hne Hb. by apply (set_entry_bound_ne _ _ _ _ s1).
Qed.

Lemma handler_contract_inj a b : handler_contract a = handler_contract b → a = b.
Proof. apply str_app_inj. Qed.

Lemma register_handlers_bound (handlers : list (string * HandlerConfig T C)) s s' :
  cwf s → NoDup handlers.*1 → register_handlers handlers s = (Ok tt, s') →
  cwf s' ∧
  (∀ scheme conf, (scheme, conf) ∈ handlers →
     ∃ h n, hc_create_instance conf n = Ok h ∧ bound (handler_contract scheme) h s') ∧
  ∀ c h, (∀ scheme, scheme ∈ handlers.*1 → c ≠ handler_contract scheme) → bound c h s → bound c h s'.
Proof.
  revert s. induction handlers as [|[sch conf] handlers IH]; intros s Hs Hnd H.
  { injection H as <-. split_and!; [done| |done]. intros ?? []%not_elem_of_nil. }
  apply NoDup_cons in Hnd as [Hni Hnd]. apply bind_ok_inv in H as ([] & s1 & H1 & H2).
  destruct (register_protocol_handler_ok _ _ _ _ Hs H1) as (Hs1 & (h & n & Hc & Hb) & Hk).
  destruct (IH s1 Hs1 Hnd H2) as (Hs' & Hall & Hk'). split_and!; [done| |].
  - intros scheme' conf' [[= -> ->]|Hin]%elem_of_cons; [|by apply Hall].
    exists h, n. split; [done|]. apply Hk'; [|done].
    intros scheme'' Hin ->%handler_contract_inj. by apply Hni.
  - intros c h' Hne Hb'. apply Hk'.
    + intros scheme' Hin. apply Hne. by right.
    + apply Hk; [|done]. apply Hne. by left.
Qed.

Lemma register_default_handlers_cwf dh s s' :
  cwf s → register_default_handlers dh s = (Ok tt, s') → cwf s'.
Proof.
  intros Hs. rw /register_default_handlers. py_unfold. destruct (imported s); intros [= <-]; [done|].
  rw /cwf /=. by repeat apply wf_insert.
Qed.

(** Once [initialize_handlers] succeeded, the lookup of a handler has no
    effect any more and cannot fail for the configuration: every search path
    has its handler, the one that accepted its root url, and every configured
    scheme the object built from its configuration. *)
Theorem initialize_handlers_ready dh (handlers : list (string * HandlerConfig T C)) routes s s' :
  cwf s → NoDup handlers.*1 →
  initialize_handlers validate_rooturl dh handlers routes s = (Ok tt, s') →
  (∀ r, r ∈ routes.*2 → ∃ h,
     get_protocol_handler (scheme (cannonical r).2) s' = (Ok (Some h), s') ∧
     validate_rooturl h (cannonical r).2 (is_dynamic r) = Ok tt) ∧
  (∀ scheme conf, (scheme, conf) ∈ handlers → scheme ≠ "" → ∃ h n,
     hc_create_instance conf n = Ok h ∧
     get_protocol_handler scheme s' = (Ok (Some h), s')).
Proof.
  intros Hs Hnd H. apply bind_ok_inv in H as ([] & s1 & H1 & H).
  apply bind_ok_inv in H as ([] & s2 & H2 & H3).
  apply register_default_handlers_cwf in H1; [|done].
  destruct (register_handlers_bound handlers s1 s2 H1 Hnd H2) as (Hs2 & Hall & _). split.
  - intros r Hin. destruct (validate_routes_bound _ _ _ Hs2 H3 r Hin) as (h & Hb & Hv).
    exists h. split; [by apply get_service_bound|done].
  - intros scheme conf Hin Hne. destruct (Hall scheme conf Hin) as (h & n & Hc & Hb).
    exists h, n. split; [done|]. apply get_service_bound.
    destruct (validate_routes_keeps routes.*2 _ h s2 Hs2 Hb) as [_ Hb']. rw H3 in Hb'.
    by destruct scheme.
Qed.
End handlers.

(** ** An example: two configured schemes and two search paths *)
Module ComponentsDemo.
Definition dh : DefaultHandlers nat :=
  {| file_factory n := Ok (Some n); postgresql_factory n := Ok (Some n);
     geopackage_factory n := Ok (Some n) |}.
Definition handlers : list (string * HandlerConfig nat nat) :=
  [("pg1", MkHandlerConfig nat (fun c n => Ok (default 0 c + n)) (Some 100));
   ("pg2", MkHandlerConfig nat (fun c n => Ok (default 0 c + n)) (Some 200))].
Definition routes : Routes :=
  [("/a", StaticRoute (path_of "/a") (SplitResult "file" "" "/srv/a" "" ""));
   ("/b", StaticRoute (path_of "/b") (SplitResult "pg2" "" "" "dbname=b" ""))].
Definition accept (h : nat) (u : Url) (dyn : bool) : res unit := Ok tt.
End ComponentsDemo.

Lemma service_singleton_witness :
  get_service (handler_contract "file")
    (get_service (handler_contract "postgresql")
       (get_service (handler_contract "file")
          (register_default_handlers ComponentsDemo.dh new_components).2).2).2
  = (Ok (Some 0),
     (get_service (handler_contract "postgresql")
       (get_service (handler_contract "file")
          (register_default_handlers ComponentsDemo.dh new_components).2).2).2).
Proof.
  eapply (service_singleton (handler_contract "file") 0
    (register_default_handlers ComponentsDemo.dh new_components).2).
  - rw /cwf /=. repeat apply wf_insert. apply wf_empty.
  - reflexivity.
  - apply rtc_once, step_get.
Defined.

Lemma initialize_handlers_ready_witness :
  (∀ r, r ∈ ComponentsDemo.routes.*2 → ∃ h,
     get_protocol_handler (scheme (cannonical r).2)
       (initialize_handlers ComponentsDemo.accept ComponentsDemo.dh ComponentsDemo.handlers
          ComponentsDemo.routes new_components).2
     = (Ok (Some h), (initialize_handlers ComponentsDemo.accept ComponentsDemo.dh ComponentsDemo.handlers
          ComponentsDemo.routes new_components).2) ∧
     ComponentsDemo.accept h (cannonical r).2 (is_dynamic r) = Ok tt) ∧
  (∀ scheme conf, (scheme, conf) ∈ ComponentsDemo.handlers → scheme ≠ "" → ∃ h n,
     hc_create_instance conf n = Ok h ∧
     get_protocol_handler scheme
       (initialize_handlers ComponentsDemo.accept ComponentsDemo.dh ComponentsDemo.handlers
          ComponentsDemo.routes new_components).2
     = (Ok (Some h), (initialize_handlers ComponentsDemo.accept ComponentsDemo.dh ComponentsDemo.handlers
          ComponentsDemo.routes new_components).2)).
Proof.
  apply (initialize_handlers_ready ComponentsDemo.accept ComponentsDemo.dh _ _ new_components).
  - apply wf_empty.
  - repeat constructor; set_solver.
  - reflexivity.
Defined.
