(* ===== verification/Layers.v ===== *)
(** * Layers

    [qjazz_ogc/layers.py]: the layers of a project that are published and their
    names; what the program reads of a QGIS project and of its layers is a
    record of functions. *)
From S2P Require Import Prelude.

Inductive LayerKind : Type := VectorLayer | RasterLayer | OtherLayer.

(** What the catalog reads of a [QgsMapLayer]; [l_shortName] is absent when the
    layer has no server properties. *)
Record Layer : Type := MkLayer {
  l_id : string; l_name : string; l_shortName : option string;
  l_kind : LayerKind; l_spatial : bool;
}.

(** What it reads of a [QgsProject]: [mapLayers()] and [mapLayers(True)], which
    leaves out the layers that are not valid; the version is absent when it is
    null. *)
Record ProjectView (Project : Type) : Type := {
  pv_layers : Project → list Layer;
  pv_valid_layers : Project → list Layer;
  wmsUseLayerIds : Project → bool;
  wmsRestrictedLayers : Project → list string;
  wfsLayerIds : Project → list string;
  wcsLayerIds : Project → list string;
  saved_version : Project → option (Z * Z);
  mapLayersByShortName : Project → string → list Layer;
}.
Arguments pv_layers {_} _ _.
Arguments pv_valid_layers {_} _ _.
Arguments wmsUseLayerIds {_} _ _.
Arguments wmsRestrictedLayers {_} _ _.
Arguments wfsLayerIds {_} _ _.
Arguments wcsLayerIds {_} _ _.
Arguments saved_version {_} _ _.
Arguments mapLayersByShortName {_} _ _ _.

Section accessor.
Context {Project : Type} (pv : ProjectView Project).

(** [LayerAccessor.layers] *)
Definition accessor_layers (p : Project) : list Layer :=
  filter (fun l => l_name l ∉ wmsRestrictedLayers pv p) (pv_layers pv p).

(** [LayerAccessor.layer_name] *)
Definition layer_name (p : Project) (l : Layer) : string :=
  if wmsUseLayerIds pv p then l_id l
  else match l_shortName l with
       | Some short => str_or short (l_name l)
       | None => l_name l
       end.

(** [LayerAccessor.layer_by_name] *)
Definition layer_by_name (p : Project) (name : string) : option Layer :=
  if wmsUseLayerIds pv p then snd <$> list_find (fun l => l_id l = name) (pv_layers pv p)
  else head (mapLayersByShortName pv p name).
End accessor.
