(* ===== verification/Extent.v ===== *)
(** * Extents and reference systems

    [qjazz_ogc/extent.py], [qjazz_ogc/crs.py] and [qjazz_ogc/core/crs.py]: the
    bounding boxes and the time intervals of projects and layers.  Everything
    QGIS answers (rectangles, boxes, reference systems, transformations, and
    what a project or a layer says of itself) is a record of types and
    functions. *)
From S2P Require Import Prelude PyStd Layers.

(** ** What is read of QGIS *)

(** [QDateTime]: the seconds of a valid date *)
Definition QDateTime : Type := option Z.
Record QgsDateTimeRange : Type := MkRange {
  dr_isEmpty : bool; dr_begin : QDateTime; dr_end : QDateTime;
}.

Record QgsLink : Type := MkQgsLink {
  lk_url : string; lk_mimeType : string; lk_name : string; lk_description : string;
}.

(** [QgsProjectMetadata] *)
Record ProjectMd : Type := MkProjectMd {
  pm_title : string; pm_abstract : string; pm_categories : list string;
  pm_links : list QgsLink;
  pm_published : QDateTime; pm_revised : QDateTime; pm_created : QDateTime;
}.

(** [QgsMapLayerServerProperties] *)
Record ServerProperties : Type := MkServerProperties {
  sp_title : string; sp_abstract : string; sp_attribution : string;
  sp_attributionUrl : string; sp_keywordList : string;
  sp_legendUrl : string; sp_legendUrlFormat : string;
}.

(** [QgsDataProvider] with its layer metadata *)
Record Provider (Box Crs : Type) : Type := MkProvider {
  pr_crs : Crs;
  pr_spatialExtents : list (Box * Crs);
  pr_temporalExtents : list QgsDateTimeRange;
  pr_licenses : list string;
  pr_rights : list string;
  pr_dataTimestamp : QDateTime;
}.
Arguments pr_crs {_ _} _.
Arguments pr_spatialExtents {_ _} _.
Arguments pr_temporalExtents {_ _} _.
Arguments pr_licenses {_ _} _.
Arguments pr_rights {_ _} _.
Arguments pr_dataTimestamp {_ _} _.

Record Qgis (Project : Type) : Type := {
  Rect : Type; Box : Type; Crs : Type;
  (* QgsRectangle *)
  QgsRectangle : Rect;
  isEmpty : Rect → bool;
  xMinimum : Rect → Qc; yMinimum : Rect → Qc; xMaximum : Rect → Qc; yMaximum : Rect → Qc;
  width : Rect → Qc; height : Rect → Qc;
  invert : Rect → Rect;
  combineExtentWith : Rect → Rect → Rect;
  (* QgsBox3D *)
  QgsBox3D : Rect → Qc → Qc → Box;
  toRectangle : Box → Rect;
  is3D : Box → bool; box_isEmpty : Box → bool;
  bxMinimum : Box → Qc; byMinimum : Box → Qc; bzMinimum : Box → Qc;
  bxMaximum : Box → Qc; byMaximum : Box → Qc; bzMaximum : Box → Qc;
  (* QgsCoordinateReferenceSystem and QgsCoordinateTransform *)
  fromOgcWmsCrs : string → Crs;
  isValid : Crs → bool; authid : Crs → string; hasAxisInverted : Crs → bool;
  toOgcUri : Crs → string; toWkt : Crs → string;
  transformBoundingBox : Crs → Crs → option Project → Rect → res Rect;
  (* QgsProject and QgsServerProjectUtils *)
  view : ProjectView Project;
  p_crs : Project → Crs; p_crs3D : Project → Crs;
  wmsExtent : Project → Rect;
  wmsOutputCrsList : Project → list string;
  wmsMaxWidth : Project → Z;
  elevationRange : Project → option (option (Qc * Qc));
  temporalRange : Project → option QgsDateTimeRange;
  layerTree : Project → option (list (string * bool));
  p_metadata : Project → ProjectMd;
  owsServiceTitle : Project → string; owsServiceAbstract : Project → string;
  owsServiceKeywords : Project → list string;
  owsServiceContactOrganization : Project → string;
  (* QgsMapLayer *)
  l_extent : Layer → Rect; l_extent3D : Layer → Box;
  l_crs : Layer → Crs; l_crs3D : Layer → Crs;
  dataProvider : Layer → option (Provider Box Crs);
  l_project : Layer → option Project;
  serverProperties : Layer → option ServerProperties;
  scales : Layer → option (Qc * Qc);
  l_styles : Layer → option (list string);
  l_legendUrl : Layer → string; l_legendUrlFormat : Layer → string;
  versionInt : Z;
}.
Arguments Rect {_} _.
Arguments Box {_} _.
Arguments Crs {_} _.
Arguments QgsRectangle {_} _.
Arguments isEmpty {_} _ _.
Arguments xMinimum {_} _ _.
Arguments yMinimum {_} _ _.
Arguments xMaximum {_} _ _.
Arguments yMaximum {_} _ _.
Arguments width {_} _ _.
Arguments height {_} _ _.
Arguments invert {_} _ _.
Arguments combineExtentWith {_} _ _ _.
Arguments QgsBox3D {_} _ _ _ _.
Arguments toRectangle {_} _ _.
Arguments is3D {_} _ _.
Arguments box_isEmpty {_} _ _.
Arguments bxMinimum {_} _ _.
Arguments byMinimum {_} _ _.
Arguments bzMinimum {_} _ _.
Arguments bxMaximum {_} _ _.
Arguments byMaximum {_} _ _.
Arguments bzMaximum {_} _ _.
Arguments fromOgcWmsCrs {_} _ _.
Arguments isValid {_} _ _.
Arguments authid {_} _ _.
Arguments hasAxisInverted {_} _ _.
Arguments toOgcUri {_} _ _.
Arguments toWkt {_} _ _.
Arguments transformBoundingBox {_} _ _ _ _ _.
Arguments view {_} _.
Arguments p_crs {_} _ _.
Arguments p_crs3D {_} _ _.
Arguments wmsExtent {_} _ _.
Arguments wmsOutputCrsList {_} _ _.
Arguments wmsMaxWidth {_} _ _.
Arguments elevationRange {_} _ _.
Arguments temporalRange {_} _ _.
Arguments layerTree {_} _ _.
Arguments p_metadata {_} _ _.
Arguments owsServiceTitle {_} _ _.
Arguments owsServiceAbstract {_} _ _.
Arguments owsServiceKeywords {_} _ _.
Arguments owsServiceContactOrganization {_} _ _.
Arguments l_extent {_} _ _.
Arguments l_extent3D {_} _ _.
Arguments l_crs {_} _ _.
Arguments l_crs3D {_} _ _.
Arguments dataProvider {_} _ _.
Arguments l_project {_} _ _.
Arguments serverProperties {_} _ _.
Arguments scales {_} _ _.
Arguments l_styles {_} _ _.
Arguments l_legendUrl {_} _ _.
Arguments l_legendUrlFormat {_} _ _.
Arguments versionInt {_} _.

(** ** core/crs.py *)

(** [CrsRef.from_authority]; a reference is its url *)
Definition from_authority (name code : string) (version : option string) (url_prefix : string) : string :=
  if ostr_truth version
  then url_prefix +:+ "/def/crs/" +:+ name +:+ "/" +:+ default "" version +:+ "/" +:+ code
  else url_prefix +:+ "/def/crs/" +:+ name +:+ "/" +:+ code.
Definition from_epsg_code (code : string) : string :=
  from_authority "EPSG" code None "https://www.opengis.net".

(** [CrsRef.to_ogc_urn] *)
Definition to_ogc_urn (ref : string) : string :=
  "urn:ogc" +:+
  str_map (fun a => if decide (a = "/"%char) then ":"%char else a)
    (match urlsplit ref with Ok u => u_path u | Raise _ => "" end).

Definition CRS84 : string := from_authority "OGC" "CRS84" (Some "1.3") "https://www.opengis.net".
Definition CRS84h : string := from_authority "OGC" "CRS84h" (Some "0") "https://www.opengis.net".

Example crs84_urn : to_ogc_urn CRS84 = "urn:ogc:def:crs:OGC:1.3:CRS84".
Proof. reflexivity. Qed.

(** A reference system in a description: a reference or its definition. *)
Inductive CrsDef : Type := CrsRef (uri : string) | CrsWkt (wkt : string).

Section extent.
Context {Project : Type} (q : Qgis Project).

(** ** crs.py *)

(** [CrsRef.from_qgis], [to_qgis], [default] *)
Definition crs_from_qgis (c : Crs q) : option string :=
  if isValid q c then if str_truth (toOgcUri q c) then Some (toOgcUri q c) else None else None.
Definition to_qgis (ref : string) : Crs q := fromOgcWmsCrs q (to_ogc_urn ref).
Definition default_crs : string := CRS84.

(** [Crs], [Crs3D] *)
Definition crs_def (c : Crs q) : CrsDef :=
  if isValid q c then
    match crs_from_qgis c with Some uri => CrsRef uri | None => CrsWkt (toWkt q c) end
  else CrsRef default_crs.

(** ** extent.py *)
Definition parse_bbox (r : Rect q) (invert_axis : bool) : list Qc :=
  if invert_axis then [yMinimum q r; xMinimum q r; yMaximum q r; xMaximum q r]
  else [xMinimum q r; yMinimum q r; xMaximum q r; yMaximum q r].

Definition parse_bbox3d (r : Box q) (invert_axis : bool) : list Qc :=
  if invert_axis
  then [bxMinimum q r; byMinimum q r; bzMinimum q r; bxMaximum q r; byMaximum q r; bzMaximum q r]
  else [byMinimum q r; bxMinimum q r; bzMinimum q r; byMaximum q r; bxMaximum q r; bzMaximum q r].

(** [QgsRectangle | QgsBox3D] *)
Inductive AnyExtent : Type := ERect (r : Rect q) | EBox (b : Box q).

Definition parse_extent (x : AnyExtent) (invert_axis : bool) : list Qc :=
  match x with
  | ERect r => parse_bbox r invert_axis
  | EBox b => if is3D q b then parse_bbox3d b invert_axis
              else parse_bbox (toRectangle q b) invert_axis
  end.

(** [extend_bbox_3d]: [r.insert(2, zmin); r.append(zmax)] *)
Definition extend_bbox_3d (r : list Qc) (zmin zmax : Qc) : list Qc :=
  take 2 r ++ zmin :: drop 2 r ++ [zmax].

(** [transform_extent] *)
Definition transform_extent (r : Rect q) (from_crs dest_crs : Crs q) (p : option Project) : res (Rect q) :=
  transformBoundingBox q from_crs dest_crs p r.

(** [compute_extent_from_layers] *)
Fixpoint combine_layers (p : Project) (dest_crs : Crs q) (layer_names : option (list string))
    (ls : list Layer) (extent : Rect q) : res (Rect q) :=
  match ls with
  | [] => Ok extent
  | l :: ls =>
      if match layer_names with Some names => negb (bool_decide (l_name l ∈ names)) | None => false end
      then combine_layers p dest_crs layer_names ls extent
      else if isEmpty q (l_extent q l) then combine_layers p dest_crs layer_names ls extent
      else
        r ← transform_extent (l_extent q l) (l_crs q l) dest_crs (Some p);
        combine_layers p dest_crs layer_names ls (combineExtentWith q extent r)
  end.
Definition compute_extent_from_layers (p : Project) (dest_crs : option (Crs q))
    (layers : option (list string)) : res (Rect q) :=
  combine_layers p (default (p_crs q p) dest_crs)
    (match layers with Some (_ :: _) => layers | _ => None end)
    (accessor_layers (view q) p) (QgsRectangle q).

(** [layer_extents_from_metadata], consumed to its end *)
Fixpoint layer_extents_from_metadata (xts : list (Box q * Crs q)) (storage_crs : Crs q)
    (p : option Project) : res (list (Box q)) :=
  match xts with
  | [] => Ok []
  | (box, xt_crs) :: xts =>
      let r := toRectangle q box in
      if isEmpty q r then layer_extents_from_metadata xts storage_crs p
      else if isValid q xt_crs then
        transform_extent r xt_crs storage_crs p ≫= (fun _ =>
        layer_extents_from_metadata xts storage_crs p)
      else
        boxes ← layer_extents_from_metadata xts storage_crs p; Ok (box :: boxes)
  end.

(** [SpatialExtent] *)
Record SpatialExtent : Type := MkSpatial {
  bbox : list (list Qc);
  se_crs : string;
  storage_crs_bbox : list (list Qc);
}.

(** [SpatialExtent.from_project] *)
Definition spatial_from_project (p : Project) (layers : option (list string)) :
    res (option SpatialExtent) :=
  extent ← (if isEmpty q (wmsExtent q p) then compute_extent_from_layers p None layers
            else Ok (wmsExtent q p));
  if isEmpty q extent then Ok None
  else
    let default_crs_qgis := to_qgis default_crs in
    r ← transform_extent extent (p_crs3D q p) default_crs_qgis (Some p);
    let bbox := parse_extent (ERect r) (hasAxisInverted q default_crs_qgis) in
    let sbbox := parse_extent (ERect extent) (hasAxisInverted q (p_crs q p)) in
    Ok (Some (match elevationRange q p with
              | Some (Some (zmin, zmax)) =>
                  MkSpatial [extend_bbox_3d bbox zmin zmax] default_crs [extend_bbox_3d sbbox zmin zmax]
              | _ => MkSpatial [bbox] default_crs [sbbox]
              end)).

(** [bbox_extents] inside [SpatialExtent.from_layer] *)
Fixpoint bbox_extents (xs : list AnyExtent) (storage_crs dest : Crs q) (p : option Project) :
    res (list AnyExtent) :=
  match xs with
  | [] => Ok []
  | x :: xs =>
      y ← match x with
          | EBox b =>
              r ← transform_extent (toRectangle q b) storage_crs dest p;
              Ok (if is3D q b then EBox (QgsBox3D q r (bzMinimum q b) (bzMaximum q b)) else ERect r)
          | ERect r => r ← transform_extent r storage_crs dest p; Ok (ERect r)
          end;
      ys ← bbox_extents xs storage_crs dest p;
      Ok (y :: ys)
  end.

(** [SpatialExtent.from_layer] *)
Definition spatial_from_layer (l : Layer) : res (option SpatialExtent) :=
  match dataProvider q l with
  | None => Ok None
  | Some provider =>
      let storage_crs := pr_crs provider in
      let p := l_project q l in
      boxes ← layer_extents_from_metadata (pr_spatialExtents provider) storage_crs p;
      let storage_extents :=
        match boxes with
        | _ :: _ => EBox <$> boxes
        | [] =>
            if is3D q (l_extent3D q l)
            then if box_isEmpty q (l_extent3D q l) then [] else [EBox (l_extent3D q l)]
            else if isEmpty q (l_extent q l) then [] else [ERect (l_extent q l)]
        end in
      match storage_extents with
      | [] => Ok None
      | _ =>
          let dest := to_qgis default_crs in
          xs ← bbox_extents storage_extents storage_crs dest p;
          Ok (Some (MkSpatial ((fun b => parse_extent b (hasAxisInverted q dest)) <$> xs)
                      default_crs
                      ((fun b => parse_extent b (hasAxisInverted q storage_crs)) <$> storage_extents)))
      end
  end.

(** [TemporalExtent.from_range], [from_project], [from_layer] *)
Definition TemporalExtent : Type := list (QDateTime * QDateTime).
Definition temporal_from_range (tr : QgsDateTimeRange) : option TemporalExtent :=
  if dr_isEmpty tr then None else Some [(dr_begin tr, dr_end tr)].
Definition temporal_from_project (p : Project) : option TemporalExtent :=
  tr ← temporalRange q p; temporal_from_range tr.
Definition temporal_from_layer (l : Layer) : option TemporalExtent :=
  if match l_kind l with VectorLayer => negb (l_spatial l) | _ => false end then None
  else
    provider ← dataProvider q l;
    match (fun tr => (dr_begin tr, dr_end tr)) <$>
          filter (fun tr => dr_isEmpty tr = false) (pr_temporalExtents provider) with
    | [] => None
    | interval => Some interval
    end.

(** [Extent.from_project], [from_layer] *)
Record Extent : Type := MkExtent {
  spatial : option SpatialExtent;
  temporal : option TemporalExtent;
}.
Definition extent_from_project (p : Project) : res Extent :=
  s ← spatial_from_project p None; Ok (MkExtent s (temporal_from_project p)).
Definition extent_from_layer (l : Layer) : res Extent :=
  s ← spatial_from_layer l; Ok (MkExtent s (temporal_from_layer l)).
End extent.

(** ** Properties *)
Section properties.
Context {Project : Type} (q : Qgis Project).

(** The coordinates of a box are those of its rectangle. *)
Definition box_rect (b : Box q) : Prop :=
  xMinimum q (toRectangle q b) = bxMinimum q b ∧ yMinimum q (toRectangle q b) = byMinimum q b ∧
  xMaximum q (toRectangle q b) = bxMaximum q b ∧ yMaximum q (toRectangle q b) = byMaximum q b.

(** The axes of a box with heights come in the order opposite to that of its
    rectangle in the same reference system. *)
Theorem bbox3d_axes_swapped b inverted :
  box_rect b →
  parse_bbox3d q b inverted =
  extend_bbox_3d (parse_bbox q (toRectangle q b) (negb inverted)) (bzMinimum q b) (bzMaximum q b).
Proof. intros (H1 & H2 & H3 & H4). destruct inverted; by rw /parse_bbox /= H1 H2 H3 H4. Qed.

(** The extents that the metadata of a layer give in a reference system of
    their own are dropped: the ones that are left are those without one. *)
Theorem metadata_extents_left xts storage_crs p boxes :
  layer_extents_from_metadata q xts storage_crs p = Ok boxes →
  boxes = (filter (fun x => isEmpty q (toRectangle q x.1) = false ∧ isValid q x.2 = false) xts).*1.
Proof.
  revert boxes. induction xts as [|[b c] xts IH]; intros boxes; simpl; [by intros [= <-]|].
  destruct (isEmpty q (toRectangle q b)) eqn:He.
  { intros H. rw filter_cons_False; [by simpl; rw He; intros []|]. by apply IH. }
  destruct (isValid q c) eqn:Hv; py_unfold.
  - destruct (transform_extent _ _ _ _ _); [|done]. intros H.
    rw filter_cons_False; [by simpl; rw Hv; intros []|]. by apply IH.
  - destruct (layer_extents_from_metadata _ _ _ _) as [bs|]; [|done]. intros [= <-].
    rw filter_cons_True //=. f_equal. by apply IH.
Qed.

(** What QGIS promises of the union of two rectangles. *)
Class RectUnion (covers : Rect q → Rect q → Prop) : Prop := {
  covers_preorder :: PreOrder covers;
  union_left : ∀ r s, covers (combineExtentWith q r s) r;
  union_right : ∀ r s, covers (combineExtentWith q r s) s;
}.

(** A layer that counts for the extent of its project. *)
Definition counted (layers : option (list string)) (l : Layer) : Prop :=
  isEmpty q (l_extent q l) = false ∧
  match layers with Some (n :: ns) => l_name l ∈ n :: ns | _ => True end.

Lemma combine_layers_covers (covers : Rect q → Rect q → Prop) `{!RectUnion covers} p dest names ls e r :
  combine_layers q p dest names ls e = Ok r →
  covers r e ∧
  ∀ l, l ∈ ls → isEmpty q (l_extent q l) = false →
    match names with Some ns => l_name l ∈ ns | None => True end →
    ∃ x, transform_extent q (l_extent q l) (l_crs q l) dest (Some p) = Ok x ∧ covers r x.
Proof.
  revert e. induction ls as [|l0 ls IH]; intros e; simpl.
  { intros [= <-]. split; [done|]. intros ? []%not_elem_of_nil. }
  assert (∀ e', combine_layers q p dest names ls e' = Ok r → covers e' e →
    (isEmpty q (l_extent q l0) = false → match names with Some ns => l_name l0 ∈ ns | None => True end →
     ∃ x, transform_extent q (l_extent q l0) (l_crs q l0) dest (Some p) = Ok x ∧ covers e' x) →
    covers r e ∧ ∀ l, l ∈ l0 :: ls → isEmpty q (l_extent q l) = false →
      match names with Some ns => l_name l ∈ ns | None => True end →
      ∃ x, transform_extent q (l_extent q l) (l_crs q l) dest (Some p) = Ok x ∧ covers r x) as Hgo.
  { intros e' H He Hl. destruct (IH e' H) as [Hre Hall]. split; [by etrans|].
    intros l [->|Hin]%elem_of_cons Hx Hn; [|by apply Hall].
    destruct (Hl Hx Hn) as (x & Ht & Hc). exists x. split; [done|by etrans]. }
  destruct (match names with Some ns => _ | None => _ end) eqn:Hn.
  { intros H. apply (Hgo e H); [done|]. intros _ Hin. destruct names; [|done].
    apply negb_true_iff, bool_decide_eq_false in Hn. done. }
  destruct (isEmpty q (l_extent q l0)) eqn:Hem; [intros H; by apply (Hgo e)|].
  py_unfold. destruct (transform_extent q (l_extent q l0) (l_crs q l0) dest (Some p)) as [x|] eqn:Ht;
    [|done].
  intros H. apply (Hgo _ H); [apply union_left|]. intros _ _. exists x. split; [done|apply union_right].
Qed.

(** The extent computed for a project covers the extent, in the reference system
    asked for, of every published layer that counts. *)
Theorem compute_extent_covers (covers : Rect q → Rect q → Prop) `{!RectUnion covers} p dest layers r l :
  compute_extent_from_layers q p dest layers = Ok r →
  l ∈ pv_layers (view q) p → l_name l ∉ wmsRestrictedLayers (view q) p → counted layers l →
  ∃ x, transform_extent q (l_extent q l) (l_crs q l) (default (p_crs q p) dest) (Some p) = Ok x ∧
       covers r x.
Proof.
  intros H Hl Hr [He Hn]. apply (combine_layers_covers covers) in H as [_ H].
  apply H; [by apply list_elem_of_filter|done|]. by destruct layers as [[|]|].
Qed.
End properties.

(** ** A concrete QGIS for the examples

    Rectangles are their four coordinates; the reference systems are the two
    orders of the axes, and a transformation exchanges the axes when the orders
    differ. *)
Module QgisDemo.
Definition rect : Type := Qc * Qc * Qc * Qc.
Definition mk (a b c d : Z) : rect := (Qc_of_Z a, Qc_of_Z b, Qc_of_Z c, Qc_of_Z d).
Definition flip (r : rect) : rect := let '(a, b, c, d) := r in (b, a, d, c).
Definition empty_rect (r : rect) : bool :=
  let '(a, b, c, d) := r in bool_decide (c ≤ a)%Qc || bool_decide (d ≤ b)%Qc.
Definition qmin (a b : Qc) : Qc := if decide (a ≤ b)%Qc then a else b.
Definition qmax (a b : Qc) : Qc := if decide (a ≤ b)%Qc then b else a.
Definition union (r s : rect) : rect :=
  if empty_rect r then s
  else let '(a, b, c, d) := r in let '(a', b', c', d') := s in
       (qmin a a', qmin b b', qmax c c', qmax d d').

Definition pv : ProjectView string := {|
  pv_layers p := [MkLayer "l1" "roads" (Some "") VectorLayer true;
                  MkLayer "l2" "dem" None RasterLayer true];
  pv_valid_layers p := [];
  wmsUseLayerIds _ := false; wmsRestrictedLayers _ := []; wfsLayerIds _ := ["l1"];
  wcsLayerIds _ := []; saved_version _ := Some (3, 28)%Z; mapLayersByShortName _ _ := [];
|}.

(** [ext] gives the advertised extent of a project. *)
Definition qgis (ext : rect) : Qgis string := {|
  Rect := rect; Box := rect * Qc * Qc; Crs := bool;
  QgsRectangle := mk 0 0 0 0; isEmpty := empty_rect;
  xMinimum r := r.1.1.1; yMinimum r := r.1.1.2; xMaximum r := r.1.2; yMaximum r := r.2;
  width r := (r.1.2 - r.1.1.1)%Qc; height r := (r.2 - r.1.1.2)%Qc;
  invert := flip; combineExtentWith := union;
  QgsBox3D r a b := (r, a, b); toRectangle b := b.1.1;
  is3D b := bool_decide (b.1.2 < b.2)%Qc; box_isEmpty b := empty_rect b.1.1;
  bxMinimum b := b.1.1.1.1.1; byMinimum b := b.1.1.1.1.2; bzMinimum b := b.1.2;
  bxMaximum b := b.1.1.1.2; byMaximum b := b.1.1.2; bzMaximum b := b.2;
  fromOgcWmsCrs s := bool_decide (s = "EPSG:4326"); isValid _ := true;
  authid c := if c then "EPSG:4326" else "OGC:CRS84"; hasAxisInverted c := c;
  toOgcUri c := if c then from_epsg_code "4326" else CRS84; toWkt _ := "";
  transformBoundingBox a b _ r := Ok r;
  view := pv; p_crs _ := false; p_crs3D _ := false; wmsExtent _ := ext;
  wmsOutputCrsList _ := []; wmsMaxWidth _ := (-1)%Z;
  elevationRange _ := None; temporalRange _ := None;
  layerTree _ := Some [("roads", true); ("dem", false)];
  p_metadata _ := MkProjectMd "" "" [] [] None None None;
  owsServiceTitle p := p; owsServiceAbstract _ := ""; owsServiceKeywords _ := [];
  owsServiceContactOrganization _ := "";
  l_extent _ := mk 1 2 3 4; l_extent3D _ := (mk 1 2 3 4, Qc_of_Z 0, Qc_of_Z 5);
  l_crs _ := false; l_crs3D _ := false; dataProvider _ := None; l_project _ := None;
  serverProperties _ := None; scales l := if l_spatial l then Some (Qc_of_Z 10, Qc_of_Z 1) else None;
  l_styles _ := None; l_legendUrl _ := ""; l_legendUrlFormat _ := ""; versionInt := 34400;
|}.

(** The order of the union: every point of the second is in the first. *)
Definition inside (r s : rect) : Prop :=
  let '(a, b, c, d) := r in let '(a', b', c', d') := s in
  (a ≤ a')%Qc ∧ (b ≤ b')%Qc ∧ (c' ≤ c)%Qc ∧ (d' ≤ d)%Qc.
Definition covers (r s : rect) : Prop := empty_rect s = true ∨ inside r s.

Lemma inside_trans r s t : inside r s → inside s t → inside r t.
Proof.
  destruct r as [[[??]?]?], s as [[[??]?]?], t as [[[??]?]?].
  intros (?&?&?&?) (?&?&?&?). split_and!; by eapply Qcle_trans.
Qed.

Lemma inside_empty r s : inside r s → empty_rect r = true → empty_rect s = true.
Proof.
  destruct r as [[[a b] c] d], s as [[[a' b'] c'] d']. intros (?&?&?&?). simpl.
  rw !orb_true_iff !bool_decide_eq_true. intros [?|?]; [left|right];
    (eapply Qcle_trans; [eassumption|]); by eapply Qcle_trans.
Qed.

Lemma qmin_l a b : (qmin a b ≤ a)%Qc.
Proof. rw /qmin. case_decide; [apply Qcle_refl|]. by apply Qclt_le_weak, Qcnot_le_lt. Qed.
Lemma qmin_r a b : (qmin a b ≤ b)%Qc.
Proof. rw /qmin. by case_decide; [|apply Qcle_refl]. Qed.
Lemma qmax_l a b : (a ≤ qmax a b)%Qc.
Proof. rw /qmax. by case_decide; [|apply Qcle_refl]. Qed.
Lemma qmax_r a b : (b ≤ qmax a b)%Qc.
Proof. rw /qmax. case_decide; [apply Qcle_refl|]. by apply Qclt_le_weak, Qcnot_le_lt. Qed.

#[global] Instance demo_union ext : RectUnion (qgis ext) covers.
Proof.
  split.
  - split.
    + intros [[[a b] c] d]. right. split_and!; apply Qcle_refl.
    + intros r s t [Hs|Hrs] [Ht|Hst]; [by left| |by left|right; by eapply inside_trans].
      left. by eapply inside_empty.
  - intros [[[a b] c] d] [[[a' b'] c'] d']. change (covers (union (a, b, c, d) (a', b', c', d')) (a, b, c, d)).
    rw /covers /union. destruct (empty_rect (a, b, c, d)); [by left|right].
    split_and!; [apply qmin_l|apply qmin_l|apply qmax_l|apply qmax_l].
  - intros [[[a b] c] d] [[[a' b'] c'] d'].
    change (covers (union (a, b, c, d) (a', b', c', d')) (a', b', c', d')). rw /covers /union. right.
    destruct (empty_rect (a, b, c, d)); [split_and!; apply Qcle_refl|].
    split_and!; [apply qmin_r|apply qmin_r|apply qmax_r|apply qmax_r].
Qed.
End QgisDemo.

Lemma bbox3d_axes_swapped_witness :
  let q := QgisDemo.qgis (QgisDemo.mk 0 0 4 2) in
  let b : Box q := (QgisDemo.mk 1 2 3 4, Qc_of_Z 0, Qc_of_Z 9) in
  parse_bbox3d q b false =
  extend_bbox_3d (parse_bbox q (toRectangle q b) (negb false)) (bzMinimum q b) (bzMaximum q b).
Proof. intros q b. apply (bbox3d_axes_swapped q b false). split_and!; reflexivity. Defined.

Lemma metadata_extents_left_witness :
  let q := QgisDemo.qgis (QgisDemo.mk 0 0 4 2) in
  ([] : list (Box q)) =
  (filter (fun x => isEmpty q (toRectangle q x.1) = false ∧ isValid q x.2 = false)
     [((QgisDemo.mk 1 2 3 4, Qc_of_Z 0, Qc_of_Z 9), true)]).*1.
Proof.
  intros q. apply (metadata_extents_left q [((QgisDemo.mk 1 2 3 4, Qc_of_Z 0, Qc_of_Z 9), true)]
    false None []). reflexivity.
Defined.

Lemma compute_extent_covers_witness :
  let q := QgisDemo.qgis (QgisDemo.mk 0 0 0 0) in
  let l := MkLayer "l1" "roads" (Some "") VectorLayer true in
  ∃ x, transform_extent q (l_extent q l) (l_crs q l) (default (p_crs q "p") None) (Some "p") = Ok x ∧
       QgisDemo.covers (QgisDemo.union (QgisDemo.mk 1 2 3 4) (QgisDemo.mk 1 2 3 4)) x.
Proof.
  intros q l. eapply (compute_extent_covers q QgisDemo.covers "p" None None).
  - reflexivity.
  - left.
  - apply not_elem_of_nil.
  - split; [reflexivity|done].
Defined.
