(* ===== verification/Collections.v ===== *)
(** * Descriptions of projects and layers

    [qjazz_ogc/project.py], [qjazz_ogc/metadata.py] and the models it fills
    ([core/collections.py], [stac/collection.py], [stac/catalog.py],
    [stac/links.py]): what the catalog publishes of a project or of a
    layer. *)
From S2P Require Import Prelude PyStd Layers Extent.

(** [links.Link]; the fields that are never set are left out *)
Record Link : Type := MkLink {
  href : string; rel : string; media_type : option string;
  lnk_title : option string; lnk_description : option string;
}.

(** [Collection] *)
Record Collection : Type := MkCollection {
  c_id : string; c_title : string; c_description : string;
  c_attribution : option string; c_licence : string;
  c_extent : Extent;
  c_datetime : QDateTime; c_updated : QDateTime; c_created : QDateTime;
  c_crs : option (list CrsDef); c_storage_crs : option CrsDef;
  c_keywords : list string; c_links : list Link;
  c_min_scale : option Qc; c_max_scale : option Qc;
  c_copyrights : option (list string); c_styles : option (list string);
  c_legend_url : option string; c_legend_format : option string;
}.

#[global] Instance Collection_inhabited : Inhabited Collection :=
  populate (MkCollection "" "" "" None "" (MkExtent None None) None None None None None [] [] None None
              None None None None).

(** [s or None] *)
Definition str_none (s : string) : option string := if str_truth s then Some s else None.

(** [max], [min] of Python: the first argument unless the second is beyond *)
Definition py_max (a b : Qc) : Qc := if decide (a < b)%Qc then b else a.
Definition py_min (a b : Qc) : Qc := if decide (b < a)%Qc then b else a.

Section collections.
Context {Project : Type} (q : Qgis Project).

(** What pydantic makes of a url: the url, or a ValidationError. *)
Context (HttpUrl : string → res string).

(** [Links] *)
Fixpoint Links (ls : list QgsLink) : res (list Link) :=
  match ls with
  | [] => Ok []
  | l :: ls =>
      u ← HttpUrl (lk_url l);
      r ← Links ls;
      Ok (MkLink u "related" (Some (lk_mimeType l)) (Some (lk_name l)) (Some (lk_description l)) :: r)
  end.

(** [output_crs_list] *)
Definition output_crs_list (p : Project) : list CrsDef :=
  omap (fun crsdef => CrsRef <$> crs_from_qgis q (fromOgcWmsCrs q crsdef)) (wmsOutputCrsList q p).

(** [scale_denominators] *)
Definition widen (sc : option (Qc * Qc)) (l : Layer) : option (Qc * Qc) :=
  match scales q l with
  | None => sc
  | Some (lo, hi) =>
      match sc with
      | None => Some (lo, hi)
      | Some (a, b) => Some (py_max lo a, py_min hi b)
      end
  end.
Definition scale_denominators (p : Project) : option Qc * option Qc :=
  match foldl widen None (accessor_layers (view q) p) with
  | Some (a, b) => (Some a, Some b)
  | None => (None, None)
  end.

(** [Collection.from_project] *)
Definition from_project (ident : string) (p : Project) : res Collection :=
  let md := p_metadata q p in
  let title := owsServiceTitle q p in
  let title := if bool_decide (title ∈ [""; "Untitled"]) then str_or (pm_title md) "Untitled" else title in
  let abstract := str_or (owsServiceAbstract q p) (pm_abstract md) in
  let keywords := match owsServiceKeywords q p with [] => pm_categories md | k => k end in
  let attribution := str_none (owsServiceContactOrganization q p) in
  let '(min_scale, max_scale) := scale_denominators p in
  extent ← extent_from_project q p;
  links ← Links (pm_links md);
  Ok {|
    c_id := ident; c_title := title; c_description := abstract; c_attribution := attribution;
    c_licence := "other"; c_extent := extent;
    c_datetime := pm_published md; c_updated := pm_revised md; c_created := pm_created md;
    c_crs := Some (output_crs_list p); c_storage_crs := Some (crs_def q (p_crs3D q p));
    c_keywords := keywords; c_links := links;
    c_min_scale := min_scale; c_max_scale := max_scale;
    c_copyrights := None; c_styles := None; c_legend_url := None; c_legend_format := None;
  |}.

Definition opt_url (s : string) : res (option string) :=
  if str_truth s then u ← HttpUrl s; Ok (Some u) else Ok None.

(** [Collection.from_layer] *)
Definition from_layer (l : Layer) (parent : Collection) : res (option Collection) :=
  match dataProvider q l with
  | None => Ok None
  | Some provider =>
      let licence := str_or (join " AND " (pr_licenses provider)) "other" in
      match serverProperties q l with
      | None => Raise (AssertionError "Unexpected None value")
      | Some props =>
          extent ← extent_from_layer q l;
          let is_spatial := match spatial extent with Some _ => true | None => false end in
          let sc := if is_spatial then scales q l else None in
          let styles := match l_styles q l with
                        | Some (s1 :: s2 :: ss) => Some (s1 :: s2 :: ss)
                        | _ => None
                        end in
          let '(legend_url, legend_format) :=
            if (versionInt q <? 34400)%Z
            then (l_legendUrl q l, l_legendUrlFormat q l)
            else (sp_legendUrl props, sp_legendUrlFormat props) in
          links ← (if str_truth (sp_attributionUrl props)
                   then u ← HttpUrl (sp_attributionUrl props);
                        Ok [MkLink u "external" None (Some "Attribution url") None]
                   else Ok []);
          legend ← opt_url legend_url;
          Ok (Some {|
            c_id := l_name l; c_title := sp_title props; c_description := sp_abstract props;
            c_attribution := Some (sp_attribution props); c_licence := licence;
            c_extent := extent;
            c_datetime := pr_dataTimestamp provider; c_updated := None; c_created := None;
            c_crs := if is_spatial then c_crs parent else None;
            c_storage_crs := if is_spatial then Some (crs_def q (l_crs3D q l)) else None;
            c_keywords := filter (fun kw => kw ≠ "") (split "," (sp_keywordList props));
            c_links := links;
            c_min_scale := fst <$> sc; c_max_scale := snd <$> sc;
            c_copyrights := Some (pr_rights provider);
            c_styles := styles;
            c_legend_url := legend; c_legend_format := str_none legend_format;
          |})
      end
  end.
End collections.

(** ** Properties *)
Section properties.
Context {Project : Type} (q : Qgis Project) (HttpUrl : string → res string).

Lemma py_max_ge a b : (a ≤ py_max a b)%Qc ∧ (b ≤ py_max a b)%Qc ∧ (py_max a b = a ∨ py_max a b = b).
Proof.
  rw /py_max. case_decide as H.
  - split_and!; [by apply Qclt_le_weak|apply Qcle_refl|by right].
  - split_and!; [apply Qcle_refl|by apply Qcnot_lt_le|by left].
Qed.

Lemma py_min_le a b : (py_min a b ≤ a)%Qc ∧ (py_min a b ≤ b)%Qc ∧ (py_min a b = a ∨ py_min a b = b).
Proof.
  rw /py_min. case_decide as H.
  - split_and!; [by apply Qclt_le_weak|apply Qcle_refl|by right].
  - split_and!; [apply Qcle_refl|by apply Qcnot_lt_le|by left].
Qed.

(** What a range says of a set of layers: it contains each of theirs, and its
    ends are taken. *)
Definition range_of (ls : list Layer) (sc : option (Qc * Qc)) : Prop :=
  match sc with
  | None => ∀ l, l ∈ ls → scales q l = None
  | Some (a, b) =>
      (∀ l lo hi, l ∈ ls → scales q l = Some (lo, hi) → (lo ≤ a)%Qc ∧ (b ≤ hi)%Qc) ∧
      (∃ l hi, l ∈ ls ∧ scales q l = Some (a, hi)) ∧ (∃ l lo, l ∈ ls ∧ scales q l = Some (lo, b))
  end.

Lemma widen_range ls sc l : range_of ls sc → range_of (ls ++ [l]) (widen q sc l).
Proof.
  rw /widen. destruct (scales q l) as [[lo hi]|] eqn:El.
  - destruct sc as [[a b]|]; simpl.
    + intros (Hall & (la & ha & Hla & Ha) & (lb & hb & Hlb & Hb)).
      destruct (py_max_ge lo a) as (M1 & M2 & M3), (py_min_le hi b) as (N1 & N2 & N3).
      split_and!.
      * intros l' lo' hi'. rw elem_of_app list_elem_of_singleton. intros [Hin| ->] Hs.
        -- destruct (Hall _ _ _ Hin Hs). split; by eapply Qcle_trans.
        -- by rw Hs in El; simplify_eq.
      * destruct M3 as [-> | ->]; [exists l, hi|exists la, ha]; (split; [set_solver|done]).
      * destruct N3 as [-> | ->]; [exists l, lo|exists lb, hb]; (split; [set_solver|done]).
    + intros Hall. split_and!.
      * intros l' lo' hi'. rw elem_of_app list_elem_of_singleton. intros [Hin| ->] Hs.
        -- by rw Hall in Hs.
        -- rw Hs in El. simplify_eq. split; apply Qcle_refl.
      * exists l, hi. set_solver.
      * exists l, lo. set_solver.
  - destruct sc as [[a b]|]; simpl.
    + intros (Hall & (la & ha & Hla & Ha) & (lb & hb & Hlb & Hb)). split_and!.
      * intros l' lo' hi'. rw elem_of_app list_elem_of_singleton. intros [Hin| ->] Hs; [by eapply Hall|].
        by rw Hs in El.
      * exists la, ha. set_solver.
      * exists lb, hb. set_solver.
    + intros Hall l'. rw elem_of_app list_elem_of_singleton. intros [?| ->]; auto.
Qed.

(** The scale range of a project: the largest of the minimum scales and the
    smallest of the maximum scales of its published layers, and no range when
    none of them has one. *)
Theorem scale_denominators_range p :
  ∃ sc, scale_denominators q p = (fst <$> sc, snd <$> sc) ∧
        range_of (accessor_layers (view q) p) sc.
Proof.
  rw /scale_denominators.
  assert (∀ ls done_ sc, range_of done_ sc → range_of (done_ ++ ls) (foldl (widen q) sc ls)) as H.
  { induction ls as [|l ls IH]; intros done_ sc Hr; simpl; [by rw app_nil_r|].
    replace (done_ ++ l :: ls) with ((done_ ++ [l]) ++ ls) by by rw -app_assoc.
    by apply IH, widen_range. }
  specialize (H (accessor_layers (view q) p) [] None (fun l Hl => match not_elem_of_nil l Hl with end)).
  eexists. split; [|exact H]. by destruct (foldl _ _ _) as [[a b]|].
Qed.

(** A project that advertises no reference system is described with an empty
    list of them. *)
Theorem from_project_no_crs ident p c :
  wmsOutputCrsList q p = [] → from_project q HttpUrl ident p = Ok c → c_crs c = Some [].
Proof.
  intros Hn. rw /from_project. destruct (scale_denominators q p) as [a b]. py_unfold.
  destruct (extent_from_project q p); [|done]. destruct (Links _ _); [|done].
  intros [= <-]. simpl. by rw /output_crs_list Hn.
Qed.
End properties.

