(* ===== verification/CacheManager.v ===== *)
(** * The project cache

    [qjazz_cache/cachemanager.py] with its data ([common.py], [status.py]) and
    the eviction of [extras.py].  The protocol handlers a cache manager calls
    are a record of operations, read from the component manager by scheme; the
    [QgsProject] a handler loads is a parameter. *)
From S2P Require Import Prelude PyDict PyStd Routes.

(** ** status.py *)
Inductive CheckoutStatus : Type :=
| UNCHANGED | NEEDUPDATE | REMOVED | NOTFOUND | NEW | UPDATED.

#[global] Instance CheckoutStatus_eq_dec : EqDecision CheckoutStatus.
Proof. solve_decision. Defined.

Definition status_value (s : CheckoutStatus) : Z :=
  match s with
  | UNCHANGED => 0 | NEEDUPDATE => 1 | REMOVED => 2
  | NOTFOUND => 3 | NEW => 4 | UPDATED => 5
  end.

(** ** common.py *)

(** Times are the seconds of the clock; the rationals hold every value a
    float can have. *)
Record ProjectMetadata : Type := Metadata {
  uri : string;
  name : string;
  md_scheme : string;
  storage : option string;
  last_modified : Qc;
}.

Definition Qc_gtb (x y : Qc) : bool := bool_decide (y < x)%Qc.
Arguments Qc_gtb : simpl never.

Record DebugMetadata : Type := Debug {
  load_memory_bytes : option Z;
  load_time_ms : Z;
}.

(** [int(x)]: truncation towards zero *)
Definition Qc_int (x : Qc) : Z :=
  Z.quot (QArith_base.Qnum (this x)) (Z.pos (QArith_base.Qden (this x))).

Section project.
Context {Project : Type}.

(** [ProtocolHandler]: what the cache manager calls.  [h_projects] is a
    generator: the metadata it yields, then the exception that ends it. *)
Record ProtocolHandler : Type := Handler {
  h_project_metadata : Url → res ProjectMetadata;
  h_project_metadata_md : ProjectMetadata → res ProjectMetadata;
  h_project : ProjectMetadata → res Project;
  h_projects : Url → list ProjectMetadata * option exn;
  h_public_path : string → string → Url → res string;
}.

(** ** cachemanager.py *)
Record CacheEntry : Type := Entry {
  md : ProjectMetadata;
  project : Project;
  timestamp : Qc;
  debug_meta : DebugMetadata;
  last_hit : Qc;
  hits : Z;
  pinned : bool;
}.

(** [CacheEntry.hit_me] *)
Definition hit_me (now : Qc) (e : CacheEntry) : CacheEntry :=
  Entry (md e) (project e) (timestamp e) (debug_meta e) now (hits e + 1) (pinned e).

(** [CacheEntry.pin] *)
Definition pin (e : CacheEntry) : CacheEntry :=
  Entry (md e) (project e) (timestamp e) (debug_meta e) (last_hit e) (hits e) true.

(** [CacheManager.__init__]: the cache, and the calls made so far to
    [removeConfigCacheEntry] of the server interface. *)
Record CacheManager : Type := CM {
  _cache : pydict string CacheEntry;
  removed_config : list string;
}.
Definition new_cache_manager : CacheManager := CM PyDict.empty [].

Definition set_cache (c : pydict string CacheEntry) (cm : CacheManager) : CacheManager :=
  CM c (removed_config cm).

(** What an operation sees of its surroundings: the handlers registered in
    the component manager, the file name of a project, the presence of a
    [QgsServer], and the readings of the clock and of the memory around the
    loading of a project. *)
Record Env : Type := {
  get_protocol_handler : string → res ProtocolHandler;
  fileName : Project → string;
  has_server : bool;
  t_start : Qc; t_loaded : Qc; t_end : Qc;
  rss : option (Z * Z);
}.

Context (env : Env).

(** What [checkout] found. *)
Inductive Found : Type :=
| FoundMetadata (m : ProjectMetadata)
| FoundEntry (e : CacheEntry).

Definition out_of_date (m : ProjectMetadata) (e : CacheEntry) : bool :=
  Qc_gtb (last_modified m) (last_modified (md e)).

(** [CacheManager.checkout] *)
Definition checkout (url : Url) : M CacheManager (option Found * CheckoutStatus) :=
  handler ← pure (get_protocol_handler env (scheme url));
  cache ← gets _cache;
  match h_project_metadata handler url with
  | Ok m =>
      match lookup (uri m) cache with
      | Some e =>
          if out_of_date m e then mret (Some (FoundEntry e), NEEDUPDATE)
          else mret (Some (FoundEntry e), UNCHANGED)
      | None => mret (Some (FoundMetadata m), NEW)
      end
  | Raise (FileNotFoundError u) =>
      match lookup u cache with
      | Some e => mret (Some (FoundEntry e), REMOVED)
      | None => mret (None, NOTFOUND)
      end
  | Raise e => raise e
  end.

(** [CacheManager.checkout_entry] *)
Definition checkout_entry (entry : CacheEntry) : res (CacheEntry * CheckoutStatus) :=
  handler ← get_protocol_handler env (md_scheme (md entry));
  match (url ← validate_url (uri (md entry)); h_project_metadata handler url) with
  | Ok m => Ok (entry, if out_of_date m entry then NEEDUPDATE else UNCHANGED)
  | Raise (FileNotFoundError _) => Ok (entry, REMOVED)
  | Raise e => Raise e
  end.

(** [CacheManager._new_cache_entry] *)
Definition _new_cache_entry (m : ProjectMetadata) (handler : ProtocolHandler) :
    res CacheEntry :=
  p ← h_project handler m;
  Ok (Entry m p (t_loaded env)
        (Debug ((fun '(s, e) => e - s)%Z <$> rss env)
           (Qc_int ((t_end env - t_start env) * Qc_of_Z 1000)%Qc))
        (Qc_of_Z 0) 0 false).

(** [CacheManager._delete_cache_entry] *)
Definition _delete_cache_entry (m : ProjectMetadata) : M CacheManager CacheEntry :=
  cm ← get;
  match pop (uri m) (_cache cm) with
  | None => raise (KeyError (uri m))
  | Some (entry, c) =>
      modify (fun _ => CM c (if has_server env
                             then removed_config cm ++ [fileName env (project entry)]
                             else removed_config cm));;
      mret entry
  end.

Definition store_entry (e : CacheEntry) (u : string) : M CacheManager unit :=
  modify (fun cm => set_cache (insert u e (_cache cm)) cm).

(** [CacheManager.update] *)
Definition update (m : ProjectMetadata) (status : CheckoutStatus)
    (handler : option ProtocolHandler) : M CacheManager (CacheEntry * CheckoutStatus) :=
  let get_handler : res ProtocolHandler :=
    match handler with
    | Some h => Ok h
    | None => get_protocol_handler env (md_scheme m)
    end in
  match status with
  | NEW =>
      handler ← pure get_handler;
      entry ← pure (_new_cache_entry m handler);
      store_entry entry (uri m);;
      mret (entry, status)
  | NEEDUPDATE =>
      handler ← pure get_handler;
      _delete_cache_entry m;;
      entry ← pure (_new_cache_entry m handler);
      store_entry entry (uri m);;
      mret (entry, UPDATED)
  | UNCHANGED | UPDATED =>
      cache ← gets _cache;
      match lookup (uri m) cache with
      | Some e => mret (e, status)
      | None => raise (KeyError (uri m))
      end
  | REMOVED =>
      entry ← _delete_cache_entry m;
      mret (entry, status)
  | NOTFOUND => raise (ValueError "Invalid CheckoutStatus value for update()")
  end.

(** The body of the loop of [CacheManager.update_cache]; what it yields is
    the value of the body. *)
Definition update_cache_body (e : CacheEntry) : M CacheManager (CacheEntry * CheckoutStatus) :=
  handler ← pure (get_protocol_handler env (md_scheme (md e)));
  try_except
    (m ← pure (h_project_metadata_md handler (md e));
     if out_of_date m e then update m NEEDUPDATE (Some handler)
     else mret (e, UNCHANGED))
    (fun x => match x with
              | FileNotFoundError _ => Some (update (md e) REMOVED (Some handler))
              | _ => None
              end).

(** [CacheManager.update_cache], consumed to its end *)
Definition update_cache : Gen CacheManager (CacheEntry * CheckoutStatus) :=
  for_each_value _cache update_cache_body.

(** [CacheManager.clear] *)
Definition clear : M CacheManager unit :=
  modify (fun cm =>
    CM PyDict.empty
       (if has_server env
        then removed_config cm ++ (fileName env ∘ project <$> values (_cache cm))
        else removed_config cm)).

(** [CacheManager.iter], [__len__] *)
Definition iter (cm : CacheManager) : list CacheEntry := values (_cache cm).
Definition cm_len (cm : CacheManager) : nat := dlen (_cache cm).

(** [CacheManager.checkout_iter], consumed to its end *)
Definition checkout_iter : Gen CacheManager (CacheEntry * CheckoutStatus) :=
  for_each_value _cache (fun e => pure (checkout_entry e)).

(** [CacheManager.collect_projects_ex]: the metadata and public path of every
    project of the search paths; a location that fails is logged and
    skipped from the point of failure on. *)
Fixpoint yield_public (handler : ProtocolHandler) (location : string) (url : Url)
    (mds : list ProjectMetadata) :
    list (ProjectMetadata * string * ProtocolHandler * ppath) :=
  match mds with
  | [] => []
  | m :: mds =>
      match h_public_path handler (uri m) location url with
      | Ok p => (m, p, handler, path_of location) :: yield_public handler location url mds
      | Raise _ => []
      end
  end.
Definition collect_location (lu : string * Url) :
    list (ProjectMetadata * string * ProtocolHandler * ppath) :=
  match get_protocol_handler env (scheme lu.2) with
  | Ok handler => yield_public handler lu.1 lu.2 (h_projects handler lu.2).1
  | Raise _ => []
  end.
Definition collect_projects_ex (routes : Routes) (search_location : option string) :
    res (list (ProjectMetadata * string * ProtocolHandler * ppath)) :=
  locs ← locations routes search_location;
  Ok (locs ≫= collect_location).

(** [CacheManager.collect_projects] *)
Definition collect_projects (routes : Routes) (location : option string) :
    res (list (ProjectMetadata * string)) :=
  l ← collect_projects_ex routes location;
  Ok (map (fun x => (x.1.1.1, x.1.1.2)) l).

(** ** extras.py *)

(** [e.hits / (now - e.timestamp)] *)
Definition popularity (now : Qc) (e : CacheEntry) : res Qc :=
  if decide ((now - timestamp e)%Qc = Qc_of_Z 0) then Raise ZeroDivisionError
  else Ok (Qc_of_Z (hits e) / (now - timestamp e))%Qc.

(** [min(..., default=None, key=...)]: the first entry whose key is least *)
Fixpoint min_by (key : CacheEntry → res Qc) (best : option (CacheEntry * Qc))
    (l : list CacheEntry) : res (option CacheEntry) :=
  match l with
  | [] => Ok (fst <$> best)
  | e :: l =>
      k ← key e;
      match best with
      | None => min_by key (Some (e, k)) l
      | Some (b, kb) =>
          if decide (k < kb)%Qc then min_by key (Some (e, k)) l
          else min_by key (Some (b, kb)) l
      end
  end.

(** [evict_by_popularity] *)
Definition evict_by_popularity (now : Qc) : M CacheManager (option CacheEntry) :=
  cm ← get;
  candidate ← pure (min_by (popularity now) None
                      (filter (fun e => pinned e = false) (iter cm)));
  match candidate with
  | Some e => update (md e) REMOVED None;; mret (Some e)
  | None => mret None
  end.
End project.

Arguments ProtocolHandler : clear implicits.
Arguments CacheEntry : clear implicits.
Arguments CacheManager : clear implicits.
Arguments Env : clear implicits.
Arguments Found : clear implicits.

(** ** The invariant of the cache

    Every entry is stored under the uri of its own metadata, and no uri
    twice. *)
Section invariant.
Context {Project : Type}.
Implicit Types (cm : CacheManager Project) (e : CacheEntry Project) (env : Env Project).

Definition cm_inv cm : Prop :=
  wf (_cache cm) ∧ ∀ k e, lookup k (_cache cm) = Some e → uri (md e) = k.

Lemma cm_inv_new : cm_inv new_cache_manager.
Proof. split; [apply wf_empty|done]. Qed.

Lemma cm_inv_insert cm c r e k :
  cm_inv cm → c = insert k e (_cache cm) → uri (md e) = k → cm_inv (CM c r).
Proof.
  intros [Hwf Hk] -> Hu. split; simpl; [by apply wf_insert|].
  intros k' e'. destruct (decide (k = k')) as [->|].
  - rw lookup_insert_eq //. by intros [= <-].
  - rw lookup_insert_ne //. apply Hk.
Qed.

Lemma cm_inv_delete cm r k : cm_inv cm → cm_inv (CM (delete k (_cache cm)) r).
Proof.
  intros [Hwf Hk]. split; simpl; [by apply wf_delete|].
  intros k' e'. destruct (decide (k = k')) as [->|].
  - by rw lookup_delete_eq.
  - rw lookup_delete_ne //. apply Hk.
Qed.

Lemma cm_inv_alter cm r f k :
  cm_inv cm → (∀ e, md (f e) = md e) → cm_inv (CM (alter f k (_cache cm)) r).
Proof.
  intros [Hwf Hk] Hf. split; simpl; [by apply wf_alter|]. intros k' e'.
  rw lookup_alter //. case_decide; [|apply Hk]. subst.
  destruct (lookup k' (_cache cm)) as [e|] eqn:E; [|done].
  simpl. intros [= <-]. rw Hf. by apply Hk.
Qed.

Lemma delete_entry_ok env m cm e cm' :
  _delete_cache_entry env m cm = (Ok e, cm') →
  lookup (uri m) (_cache cm) = Some e ∧ _cache cm' = delete (uri m) (_cache cm).
Proof.
  rw /_delete_cache_entry. py_unfold. rw /pop.
  destruct (lookup (uri m) (_cache cm)); by intros [= <- <-].
Qed.

Lemma delete_entry_present env m cm e :
  lookup (uri m) (_cache cm) = Some e →
  ∃ r, _delete_cache_entry env m cm = (Ok e, CM (delete (uri m) (_cache cm)) r).
Proof. intros He. rw /_delete_cache_entry. py_unfold. rw /pop He. eauto. Qed.

Lemma preserves_delete env m : preserves cm_inv (_delete_cache_entry env m).
Proof.
  intros cm Hi. rw /_delete_cache_entry. py_unfold. rw /pop.
  destruct (lookup (uri m) (_cache cm)); simpl; [by apply cm_inv_delete|done].
Qed.

Lemma new_entry_md env m h e : _new_cache_entry env m h = Ok e → md e = m.
Proof. rw /_new_cache_entry. py_unfold. destruct (h_project h m); by intros [= <-]. Qed.

Lemma preserves_load env m h (st : CheckoutStatus) :
  preserves cm_inv (entry ← pure (_new_cache_entry env m h);
                    store_entry entry (uri m);; mret (entry, st)).
Proof.
  intros cm Hi. rw /store_entry. py_unfold.
  destruct (_new_cache_entry env m h) as [e|] eqn:E; simpl; [|done].
  apply new_entry_md in E. eapply cm_inv_insert; [done..|]. by rw E.
Qed.

Lemma preserves_update env m st h : preserves cm_inv (update env m st h).
Proof.
  destruct st; simpl.
  4: apply preserves_raise.
  3: (apply preserves_bind; [apply preserves_delete|intros; apply preserves_ret]).
  all: apply preserves_bind; [apply preserves_pure || apply preserves_gets|intros x].
  - destruct (lookup _ _); auto with py.
  - apply preserves_bind; [apply preserves_delete|intros _]. apply preserves_load.
  - apply preserves_load.
  - destruct (lookup _ _); auto with py.
Qed.

Lemma preserves_update_cache_body env e : preserves cm_inv (update_cache_body env e).
Proof.
  rw /update_cache_body. apply preserves_bind; [apply preserves_pure|intros h].
  apply preserves_try.
  - apply preserves_bind; [apply preserves_pure|intros m].
    destruct (out_of_date m e); [apply preserves_update|apply preserves_ret].
  - intros x k Hx. destruct x; simplify_eq. apply (preserves_update env (md e) REMOVED).
Qed.

Lemma for_values_preserves {S Y} (P : S → Prop) (get_dict : S → pydict string (CacheEntry Project))
    (body : CacheEntry Project → M S Y) used n pos s :
  (∀ v, preserves P (body v)) → P s → P (for_values get_dict body used n pos s).2.
Proof.
  intros Hb. revert pos s. induction n as [|n IH]; intros pos s Hs; simpl.
  all: case_decide; [|done]; destruct (next_live _ _) as [[pos' v]|]; [|done..].
  - done.
  - pose proof (Hb v s Hs) as Hv. destruct (body v s) as [[y|e] s']; simpl in *; [|done].
    specialize (IH pos' s' Hv).
    by destruct (for_values get_dict body used n pos' s') as [[ys oe] s''].
Qed.

Lemma cm_inv_update_cache env cm : cm_inv cm → cm_inv (update_cache env cm).2.
Proof. apply for_values_preserves. intros. apply preserves_update_cache_body. Qed.

Lemma preserves_evict env now : preserves cm_inv (evict_by_popularity env now).
Proof.
  rw /evict_by_popularity. apply preserves_bind; [by intros s|intros cm].
  apply preserves_bind; [apply preserves_pure|intros [e|]; [|apply preserves_ret]].
  apply preserves_bind; [apply preserves_update|intros; apply preserves_ret].
Qed.

(** ** The cache as a state machine

    One step per call of an operation that writes the cache, by any caller,
    with any surroundings, whether the call returns or raises. *)
Inductive cm_step cm : CacheManager Project → Prop :=
| step_update env m st h : cm_step cm (update env m st h cm).2
| step_update_cache env : cm_step cm (update_cache env cm).2
| step_clear env : cm_step cm (clear env cm).2
| step_evict env now : cm_step cm (evict_by_popularity env now cm).2
| step_hit k now : cm_step cm (CM (alter (hit_me now) k (_cache cm)) (removed_config cm))
| step_pin k : cm_step cm (CM (alter pin k (_cache cm)) (removed_config cm)).

Lemma cm_step_inv cm cm' : cm_step cm cm' → cm_inv cm → cm_inv cm'.
Proof.
  intros [] Hi.
  - by apply preserves_update.
  - by apply cm_inv_update_cache.
  - apply cm_inv_new.
  - by apply preserves_evict.
  - by apply cm_inv_alter.
  - by apply cm_inv_alter.
Qed.

(** C3. In every state that calls of the cache operations can reach, failed
    calls included, each entry is stored under the uri of its own metadata
    and no uri is stored twice. *)
Theorem cache_invariant cm : rtc cm_step new_cache_manager cm → cm_inv cm.
Proof.
  intros Hr. assert (∀ c, rtc cm_step c cm → cm_inv c → cm_inv cm) as H.
  { induction 1; [done|]. intros. eauto using cm_step_inv. }
  apply (H _ Hr), cm_inv_new.
Qed.
End invariant.

#[export] Hint Resolve preserves_update preserves_delete preserves_evict : py.

(** ** Functional behaviour *)
Section behaviour.
Context {Project : Type}.
Implicit Types (cm : CacheManager Project) (e : CacheEntry Project) (env : Env Project)
  (h : ProtocolHandler Project).

(** What each answer of [checkout] says of the storage and of the cache. *)
Definition checkout_spec env cm (url : Url) (r : option (Found Project) * CheckoutStatus) : Prop :=
  ∃ h, get_protocol_handler env (scheme url) = Ok h ∧
  match r with
  | (Some (FoundMetadata m), NEW) =>
      h_project_metadata h url = Ok m ∧ lookup (uri m) (_cache cm) = None
  | (Some (FoundEntry e), UNCHANGED) =>
      ∃ m, h_project_metadata h url = Ok m ∧ lookup (uri m) (_cache cm) = Some e ∧
           (last_modified m ≤ last_modified (md e))%Qc
  | (Some (FoundEntry e), NEEDUPDATE) =>
      ∃ m, h_project_metadata h url = Ok m ∧ lookup (uri m) (_cache cm) = Some e ∧
           (last_modified (md e) < last_modified m)%Qc
  | (Some (FoundEntry e), REMOVED) =>
      ∃ u, h_project_metadata h url = Raise (FileNotFoundError u) ∧
           lookup u (_cache cm) = Some e
  | (None, NOTFOUND) =>
      ∃ u, h_project_metadata h url = Raise (FileNotFoundError u) ∧
           lookup u (_cache cm) = None
  | _ => False
  end.

Lemma out_of_date_true m e :
  out_of_date m e = true ↔ (last_modified (md e) < last_modified m)%Qc.
Proof. apply bool_decide_eq_true. Qed.

Lemma out_of_date_false m e :
  out_of_date m e = false ↔ (last_modified m ≤ last_modified (md e))%Qc.
Proof. rw /out_of_date /Qc_gtb bool_decide_eq_false. split; [apply Qcnot_lt_le|apply Qcle_not_lt]. Qed.

Lemma checkout_pure env url cm r cm' : checkout (Project := Project) env url cm = (r, cm') → cm' = cm.
Proof.
  rw /checkout. py_unfold. destruct (get_protocol_handler env (scheme url)) as [h|]; [|by intros [= _ <-]].
  simpl. destruct (h_project_metadata h url) as [m|[]]; repeat case_match; by intros [= _ <-].
Qed.

Lemma checkout_sound env url cm r cm' :
  checkout env url cm = (Ok r, cm') → cm' = cm ∧ checkout_spec env cm url r.
Proof.
  rw /checkout /checkout_spec. py_unfold.
  destruct (get_protocol_handler env (scheme url)) as [h|]; [|done]. simpl.
  destruct (h_project_metadata h url) as [m|x] eqn:Hm.
  - destruct (lookup (uri m) (_cache cm)) as [e|] eqn:He; [|by intros [= <- <-]; eauto].
    destruct (out_of_date m e) eqn:Ho; intros [= <- <-]; split; [done| |done|].
    + apply out_of_date_true in Ho. eauto 10.
    + apply out_of_date_false in Ho. eauto 10.
  - destruct x; try done. destruct (lookup _ _) eqn:?; intros [= <- <-]; eauto 10.
Qed.


(** The uri under which an operation stores what it loads. *)
Lemma update_load_lookup env m st oh cm e st' cm' :
  cm_inv cm → st = NEW ∨ st = NEEDUPDATE →
  update env m st oh cm = (Ok (e, st'), cm') →
  md e = m ∧ lookup (uri m) (_cache cm') = Some e ∧
  ∀ u, u ≠ uri m → lookup u (_cache cm') = lookup u (_cache cm).
Proof.
  intros [Hwf _] Hst. destruct Hst as [-> | ->]; simpl.
  - intros (h & s1 & Hh & Hu)%bind_ok_inv. injection Hh as _ <-.
    apply bind_ok_inv in Hu as (e1 & s1 & He & Hu). injection He as He <-.
    apply new_entry_md in He. revert Hu. rw /store_entry. py_unfold.
    intros [= <- _ <-]. simpl. rw lookup_insert_eq //. split_and!; [done..|].
    intros u Hu. by rw lookup_insert_ne.
  - intros (h & s1 & Hh & Hu)%bind_ok_inv. injection Hh as _ <-.
    apply bind_ok_inv in Hu as (e0 & s1 & Hd & Hu).
    apply delete_entry_ok in Hd as [_ Hd].
    apply bind_ok_inv in Hu as (e1 & s2 & He & Hu). injection He as He <-.
    apply new_entry_md in He. revert Hu. rw /store_entry. py_unfold.
    intros [= <- _ <-]. simpl. rw Hd. rw lookup_insert_eq; [by apply wf_delete|].
    split_and!; [done..|]. intros u Hu.
    rw lookup_insert_ne //; [by apply wf_delete|]. by rw lookup_delete_ne.
Qed.

(** C5. Loading what a checkout reported makes the project current: after an
    update with the metadata the storage gives, as [NEW] or [NEEDUPDATE], the
    next checkout answers [UNCHANGED] with the loaded entry, and the entries
    of other projects are as before. *)
Theorem update_then_checkout env url h m st oh cm e st' cm' :
  cm_inv cm → get_protocol_handler env (scheme url) = Ok h →
  h_project_metadata h url = Ok m → st = NEW ∨ st = NEEDUPDATE →
  update env m st oh cm = (Ok (e, st'), cm') →
  checkout env url cm' = (Ok (Some (FoundEntry e), UNCHANGED), cm') ∧
  ∀ u, u ≠ uri m → lookup u (_cache cm') = lookup u (_cache cm).
Proof.
  intros Hi Hh Hm Hst (Hmd & Hl & Hother)%update_load_lookup; [|done..].
  split; [|done]. rw /checkout. py_unfold. rw Hh Hm Hl. simpl.
  assert (out_of_date m e = false) as ->; [|done].
  apply out_of_date_false. rw Hmd. apply Qcle_refl.
Qed.

(** Updating with the metadata of the cached entry leaves it out of date. *)
Lemma update_stale_checkout env url h m e0 oh cm e st' cm' :
  cm_inv cm → get_protocol_handler env (scheme url) = Ok h →
  h_project_metadata h url = Ok m → uri m = uri (md e0) → out_of_date m e0 = true →
  update env (md e0) NEEDUPDATE oh cm = (Ok (e, st'), cm') →
  checkout env url cm' = (Ok (Some (FoundEntry e), NEEDUPDATE), cm').
Proof.
  intros Hi Hh Hm Hu Ho (Hmd & Hl & _)%update_load_lookup; [|auto..].
  rw /checkout. py_unfold. rw Hh Hm Hu Hl /=.
  rw /out_of_date Hmd in Ho |- *. by rw Ho.
Qed.

(** A reload that fails has already dropped the old entry: when the
    handler cannot load an out of date project that is in the cache, the
    exception leaves the cache without it. *)
Theorem update_reload_failure env m h cm e0 x :
  cm_inv cm → lookup (uri m) (_cache cm) = Some e0 →
  h_project h m = Raise x →
  ∃ cm', update env m NEEDUPDATE (Some h) cm = (Raise x, cm') ∧
         lookup (uri m) (_cache cm') = None ∧ S (cm_len cm') = cm_len cm.
Proof.
  intros [Hwf _] He Hx. destruct (delete_entry_present env m cm e0 He) as [r Hd].
  eexists. split_and!.
  - simpl. erewrite bind_ok by done. erewrite bind_ok by done.
    apply bind_raise. rw /pure /_new_cache_entry. py_unfold. by rw Hx.
  - by apply lookup_delete_eq.
  - apply dlen_delete; eauto.
Qed.

Lemma update_removed env m oh cm e :
  lookup (uri m) (_cache cm) = Some e →
  ∃ r, update env m REMOVED oh cm =
       (Ok (e, REMOVED), CM (delete (uri m) (_cache cm)) r).
Proof.
  intros He. destruct (delete_entry_present env m cm e He) as [r Hd].
  exists r. simpl. by erewrite bind_ok by done.
Qed.

(** *** Eviction *)

Lemma min_by_spec (key : CacheEntry Project → res Qc) best l r :
  (∀ b kb, best = Some (b, kb) → key b = Ok kb) →
  min_by key best l = Ok r →
  match r with
  | None => best = None ∧ l = []
  | Some c => (c ∈ l ∨ fst <$> best = Some c) ∧
      ∃ kc, key c = Ok kc ∧
        (∀ b kb, best = Some (b, kb) → (kc ≤ kb)%Qc) ∧
        ∀ e, e ∈ l → ∃ ke, key e = Ok ke ∧ (kc ≤ ke)%Qc
  end.
Proof.
  revert best. induction l as [|e l IH]; intros best Hb; simpl.
  { intros [= <-]. destruct best as [[b kb]|]; simpl; [|done]. split; [by right|].
    exists kb. split_and!; [by apply Hb| |by intros ? []%not_elem_of_nil].
    intros ? ? [= -> ->]. apply Qcle_refl. }
  py_unfold. destruct (key e) as [k|] eqn:Hk; [|done].
  assert (∀ b kb, Some (e, k) = Some (b, kb) → key b = Ok kb) as Hb'.
  { by intros ? ? [= <- <-]. }
  destruct best as [[b kb]|]; [|intros Hr; pose proof (IH _ Hb' Hr) as Hs].
  - case_decide as Hlt; intros Hr.
    + pose proof (IH _ Hb' Hr) as Hs. destruct r as [c|]; [|by destruct Hs].
      destruct Hs as (Hin & kc & Hc & Hle & Hall). split.
      { left. simpl in Hin. destruct Hin as [|[= ->]]; set_solver. }
      exists kc. pose proof (Hle _ _ eq_refl) as Hke. split_and!; [done| |].
      * intros ? ? [= <- <-]. eapply Qcle_trans; [done|by apply Qclt_le_weak].
      * intros e' [->|?]%elem_of_cons; eauto.
    + pose proof (IH _ Hb Hr) as Hs. destruct r as [c|]; [|by destruct Hs].
      destruct Hs as (Hin & kc & Hc & Hle & Hall). split; [set_solver|].
      exists kc. split_and!; [done..|].
      intros e' [->|?]%elem_of_cons; eauto. exists k. split; [done|].
      eapply Qcle_trans; [by eapply Hle|]. by apply Qcnot_lt_le.
  - destruct r as [c|]; [|by destruct Hs].
    destruct Hs as (Hin & kc & Hc & Hle & Hall). split.
    { left. simpl in Hin. destruct Hin as [|[= ->]]; set_solver. }
    exists kc. split_and!; [done|done|]. intros e' [->|?]%elem_of_cons; eauto.
Qed.

Lemma iter_lookup cm e :
  cm_inv cm → e ∈ iter cm → lookup (uri (md e)) (_cache cm) = Some e.
Proof.
  intros [Hwf Hk]. rw /iter /values list_elem_of_fmap. intros ([k e'] & -> & Hin).
  apply lookup_items in Hin; [|done]. simpl. by rw (Hk k e').
Qed.

(** What eviction does; each entry keeps its place but the one removed. *)
Lemma evict_spec env now cm r cm' :
  cm_inv cm → evict_by_popularity env now cm = (Ok r, cm') →
  match r with
  | None => cm' = cm ∧ ∀ e, e ∈ iter cm → pinned e = true
  | Some c =>
      c ∈ iter cm ∧ pinned c = false ∧ lookup (uri (md c)) (_cache cm) = Some c ∧
      _cache cm' = delete (uri (md c)) (_cache cm) ∧
      ∃ kc, popularity now c = Ok kc ∧
        ∀ e, e ∈ iter cm → pinned e = false →
          ∃ ke, popularity now e = Ok ke ∧ (kc ≤ ke)%Qc
  end.
Proof.
  intros Hi. rw /evict_by_popularity.
  intros (cm1 & s1 & Hg & H)%bind_ok_inv. injection Hg as <- <-.
  apply bind_ok_inv in H as (c & s1 & Hmin & H). injection Hmin as Hmin <-.
  apply min_by_spec in Hmin; [|done]. destruct c as [c|].
  - destruct Hmin as (Hin & kc & Hc & _ & Hall).
    destruct Hin as [[Hp Hin]%list_elem_of_filter|]; [|done].
    pose proof (iter_lookup _ _ Hi Hin) as Hl.
    destruct (update_removed env (md c) None cm c Hl) as [rm Hu].
    rw (bind_ok _ _ _ _ _ Hu) in H. injection H as <- <-.
    split_and!; [done..|].
    exists kc. split; [done|]. intros e He Hpe. apply Hall.
    by apply list_elem_of_filter.
  - injection H as <- <-. split; [done|]. destruct Hmin as [_ Hnil].
    intros e He. destruct (pinned e) eqn:Hpe; [done|].
    assert (e ∈ filter (fun e => pinned e = false) (iter cm)) as Hf.
    { by apply list_elem_of_filter. }
    rw Hnil in Hf. by apply not_elem_of_nil in Hf.
Qed.

Lemma evict_len env now cm c cm' :
  cm_inv cm → evict_by_popularity env now cm = (Ok (Some c), cm') → S (cm_len cm') = cm_len cm.
Proof.
  intros Hi (_ & _ & Hl & Hc & _)%evict_spec; [|done]. rw /cm_len Hc.
  apply dlen_delete; [apply Hi|eauto].
Qed.

(** C26. Eviction removes exactly one entry, an unpinned one whose number of
    hits per second in the cache is least among the unpinned entries, and
    answers it; it answers none and leaves the cache as it is only when
    every entry is pinned. *)
Theorem evict_correct env now cm r cm' :
  cm_inv cm → evict_by_popularity env now cm = (Ok r, cm') →
  match r with
  | None => cm' = cm ∧ ∀ e, e ∈ iter cm → pinned e = true
  | Some c =>
      c ∈ iter cm ∧ pinned c = false ∧
      lookup (uri (md c)) (_cache cm') = None ∧ S (cm_len cm') = cm_len cm ∧
      ∃ kc, popularity now c = Ok kc ∧
        ∀ e, e ∈ iter cm → pinned e = false →
          ∃ ke, popularity now e = Ok ke ∧ (kc ≤ ke)%Qc
  end.
Proof.
  intros Hi H. pose proof (evict_spec _ _ _ _ _ Hi H) as Hs. destruct r as [c|]; [|done].
  destruct Hs as (Hin & Hp & Hl & Hc & Hk). split_and!; [done..| |by eapply evict_len|done].
  rw Hc. apply lookup_delete_eq, Hi.
Qed.
End behaviour.

(** ** Refreshing the whole cache *)
Section refresh.
Context {Project : Type}.
Implicit Types (cm : CacheManager Project) (e : CacheEntry Project) (env : Env Project).

(** What the storage says of a cached entry. *)
Definition is_current env e : Prop :=
  ∃ h m, get_protocol_handler env (md_scheme (md e)) = Ok h ∧
         h_project_metadata_md h (md e) = Ok m ∧
         (last_modified m ≤ last_modified (md e))%Qc.
Definition is_gone env e : Prop :=
  ∃ h u, get_protocol_handler env (md_scheme (md e)) = Ok h ∧
         h_project_metadata_md h (md e) = Raise (FileNotFoundError u).

Lemma body_current env e cm :
  is_current env e → update_cache_body env e cm = (Ok (e, UNCHANGED), cm).
Proof.
  intros (h & m & Hh & Hm & Hle). rw /update_cache_body. py_unfold. rw Hh Hm.
  apply out_of_date_false in Hle. by rw Hle.
Qed.

Lemma body_gone env e cm :
  is_gone env e → lookup (uri (md e)) (_cache cm) = Some e →
  ∃ r, update_cache_body env e cm =
       (Ok (e, REMOVED), CM (delete (uri (md e)) (_cache cm)) r).
Proof.
  intros (h & u & Hh & Hm) Hl. destruct (update_removed env (md e) (Some h) cm e Hl) as [r Hr].
  exists r. rw /update_cache_body. py_unfold. by rw Hh Hm.
Qed.

(** Refreshing a cache whose entries are all current reports each of them
    as [UNCHANGED], in the order of the cache, and changes nothing. *)
Theorem update_cache_current env cm :
  (∀ e, e ∈ iter cm → is_current env e) →
  update_cache env cm = ((fun e => (e, UNCHANGED)) <$> iter cm, None, cm).
Proof. intros Hc. apply for_each_value_const. intros e He. by apply body_current, Hc. Qed.

(** Refreshing never gets past a project that was removed from the
    storage: the first one, in the order of the cache, is dropped and
    reported, then the iteration raises a RuntimeError, so that the entries
    after it are not refreshed. *)
Theorem update_cache_removed env cm l1 e l2 :
  cm_inv cm → iter cm = l1 ++ e :: l2 →
  (∀ w, w ∈ l1 → is_current env w) → is_gone env e →
  ∃ cm', update_cache env cm =
    (((fun w => (w, UNCHANGED)) <$> l1) ++ [(e, REMOVED)],
     Some (RuntimeError "dictionary changed size during iteration"), cm') ∧
    _cache cm' = delete (uri (md e)) (_cache cm).
Proof.
  intros Hi Hit Hc Hg. assert (lookup (uri (md e)) (_cache cm) = Some e) as Hl.
  { apply iter_lookup; [done|]. rw Hit. set_solver. }
  destruct (body_gone env e cm Hg Hl) as [r Hr].
  exists (CM (delete (uri (md e)) (_cache cm)) r). split; [|done].
  apply (for_each_value_resized _ _ _ _ l1 e l2); [done| |done|].
  - intros w Hw. by apply body_current, Hc.
  - simpl. destruct Hi as [Hwf _].
    pose proof (dlen_delete (uri (md e)) (_cache cm) Hwf (mk_is_Some _ _ Hl)). lia.
Qed.

(** Refreshing an out of date project ends in a RuntimeError too: with
    room left in the dict's array, every entry is reported once and the
    project is reloaded, but the reloaded entry, moved to the end of the
    dict, makes the iterator raise. *)
Theorem update_cache_reloaded env cm l1 e l2 h m e' st cm' u :
  cm_inv cm → usable (_cache cm) = S u → iter cm = l1 ++ e :: l2 →
  (∀ w, w ∈ l1 ++ l2 → is_current env w) →
  get_protocol_handler env (md_scheme (md e)) = Ok h →
  h_project_metadata_md h (md e) = Ok m → uri m = uri (md e) → out_of_date m e = true →
  update env m NEEDUPDATE (Some h) cm = (Ok (e', st), cm') →
  update_cache env cm =
    (((fun w => (w, UNCHANGED)) <$> l1) ++ (e', st) :: ((fun w => (w, UNCHANGED)) <$> l2),
     Some (RuntimeError "dictionary keys changed during iteration"), cm').
Proof.
  intros Hi Hus Hit Hc Hh Hm Hum Ho Hu.
  assert (lookup (uri m) (_cache cm) = Some e) as Hl.
  { rw Hum. apply iter_lookup; [done|]. rw Hit. set_solver. }
  apply (for_each_value_moved _ _ _ _ _ _ l1 e l2 _ (uri m) e' u); [apply Hi|done|done| | | | |].
  - intros k0 Hk0. apply lookup_items in Hk0; [|apply Hi].
    by rw -(proj2 Hi _ _ Hk0).
  - intros w Hw. apply body_current, Hc. set_solver.
  - by rw /update_cache_body /try_except /pure /mbind /M_bind Hh Hm Ho Hu.
  - revert Hu. simpl. destruct (delete_entry_present env m cm e Hl) as [r Hd].
    intros (h1 & s1 & Hh1 & Hu)%bind_ok_inv. injection Hh1 as -> <-.
    rw (bind_ok _ _ _ _ _ Hd) in Hu.
    apply bind_ok_inv in Hu as (e1 & s2 & He & Hu). injection He as He <-.
    revert Hu. rw /store_entry. py_unfold. by intros [= <- _ <-].
  - intros w Hw. apply body_current, Hc. set_solver.
Qed.
End refresh.

(** ** A storage to run the definitions on

    A handler over a table of uris with their modification time; a project is
    the uri it was loaded from, and one uri cannot be loaded. *)
Module Demo.
Definition demo_md (u : string) (t : Z) : ProjectMetadata :=
  Metadata u u "file" (Some "file") (Qc_of_Z t).
Definition table : Type := list (string * Z).
Definition stat (tbl : table) (u : string) : res ProjectMetadata :=
  match PyDict.assoc u tbl with
  | Some t => Ok (demo_md u t)
  | None => Raise (FileNotFoundError u)
  end.
Definition demo_handler (tbl : table) : ProtocolHandler string := {|
  h_project_metadata url := stat tbl (u_path url);
  h_project_metadata_md m := stat tbl (uri m);
  h_project m := if decide (uri m = "/bad") then Raise (UnreadableResource (uri m)) else Ok (uri m);
  h_projects _ := ((fun ut => demo_md ut.1 ut.2) <$> tbl, None);
  h_public_path u _ _ := Ok u;
|}.
Definition demo_env (tbl : table) : Env string := {|
  get_protocol_handler s :=
    if decide (s = "file") then Ok (demo_handler tbl) else Raise (FactoryNotFoundError s);
  fileName p := p;
  has_server := true;
  t_start := Qc_of_Z 10; t_loaded := Qc_of_Z 11; t_end := Qc_of_Z 12;
  rss := Some (5, 7)%Z;
|}.
Definition demo_url (u : string) : Url := SplitResult "file" "" u "" "".
(** The cache after the projects of a table were loaded in turn. *)
Definition loaded (tbl : table) : CacheManager string :=
  foldl (fun cm ut => (update (demo_env tbl) (demo_md ut.1 ut.2) NEW None cm).2)
    new_cache_manager tbl.
Definition demo_entry (u : string) (t : Z) : CacheEntry string :=
  Entry (demo_md u t) u (Qc_of_Z 11) (Debug (Some 2%Z) 2000) (Qc_of_Z 0) 0 false.

Lemma loaded_reachable tbl : rtc cm_step new_cache_manager (loaded tbl).
Proof.
  rw /loaded. assert (∀ l cm, rtc cm_step cm
    (foldl (fun cm ut => (update (demo_env tbl) (demo_md ut.1 ut.2) NEW None cm).2) cm l)) as H;
    [|apply H].
  induction l as [|ut l IH]; intros cm; [done|]. eapply rtc_l; [|apply IH].
  apply step_update.
Qed.
End Demo.
Import Demo.

Lemma cache_invariant_witness : cm_inv (loaded [("/a", 1); ("/b", 2)])%Z.
Proof. apply (cache_invariant (loaded [("/a", 1); ("/b", 2)]%Z)). apply loaded_reachable. Defined.

Lemma loaded_inv tbl : cm_inv (loaded tbl).
Proof.
  rw /loaded. generalize (@cm_inv_new string). generalize (@new_cache_manager string).
  assert (∀ l cm, cm_inv cm → cm_inv (foldl (fun cm ut =>
    (update (demo_env tbl) (demo_md ut.1 ut.2) NEW None cm).2) cm l)) as H; [|intros; by apply H].
  induction l as [|ut l IH]; intros cm Hi; [done|]. apply IH. by apply preserves_update.
Qed.


Lemma update_then_checkout_witness :
  checkout (demo_env [("/a", 2); ("/b", 1)]%Z) (demo_url "/a")
    (loaded [("/b", 1); ("/a", 2)]%Z)
  = (Ok (Some (FoundEntry (demo_entry "/a" 2)), UNCHANGED), loaded [("/b", 1); ("/a", 2)]%Z) ∧
  ∀ u, u ≠ uri (demo_md "/a" 2) →
    lookup u (_cache (loaded [("/b", 1); ("/a", 2)]%Z)) = lookup u (_cache (loaded [("/b", 1)]%Z)).
Proof.
  apply (update_then_checkout _ _ (demo_handler [("/a", 2); ("/b", 1)]%Z) _ NEW None
    (loaded [("/b", 1)]%Z) _ NEW); [apply loaded_inv|reflexivity|reflexivity|by left|].
  vm_compute. reflexivity.
Defined.

Lemma update_reload_failure_witness :
  let cm := CM (insert "/bad" (demo_entry "/bad" 1) PyDict.empty) [] in
  ∃ cm', update (demo_env [("/bad", 2)]%Z) (demo_md "/bad" 2) NEEDUPDATE
           (Some (demo_handler [("/bad", 2)]%Z)) cm = (Raise (UnreadableResource "/bad"), cm') ∧
         lookup "/bad" (_cache cm') = None ∧ S (cm_len cm') = cm_len cm.
Proof.
  intros cm. apply (update_reload_failure _ (demo_md "/bad" 2) _ cm (demo_entry "/bad" 1));
    [|reflexivity|reflexivity].
  eapply cm_inv_insert; [apply cm_inv_new|reflexivity|reflexivity].
Defined.

Lemma evict_correct_witness :
  let c := demo_entry "/a" 1 in let cm := loaded [("/a", 1); ("/b", 2)]%Z in
  c ∈ iter cm ∧ pinned c = false ∧
  lookup (uri (md c)) (_cache (evict_by_popularity (demo_env []) (Qc_of_Z 20) cm).2) = None ∧
  S (cm_len (evict_by_popularity (demo_env []) (Qc_of_Z 20) cm).2) = cm_len cm ∧
  ∃ kc, popularity (Qc_of_Z 20) c = Ok kc ∧
    ∀ e, e ∈ iter cm → pinned e = false →
      ∃ ke, popularity (Qc_of_Z 20) e = Ok ke ∧ (kc ≤ ke)%Qc.
Proof.
  intros c cm. apply (evict_correct (demo_env []) (Qc_of_Z 20) cm (Some c));
    [apply loaded_inv|vm_compute; reflexivity].
Defined.

Lemma update_cache_current_witness :
  update_cache (demo_env [("/a", 1)]%Z) (loaded [("/a", 1)]%Z) =
  ((fun e => (e, UNCHANGED)) <$> iter (loaded [("/a", 1)]%Z), None, loaded [("/a", 1)]%Z).
Proof.
  apply update_cache_current. intros e He.
  assert (e = demo_entry "/a" 1) as -> by (by apply list_elem_of_singleton in He).
  exists (demo_handler [("/a", 1)]%Z), (demo_md "/a" 1).
  split_and!; [reflexivity..|apply Qcle_refl].
Defined.

Lemma update_cache_removed_witness :
  ∃ cm', update_cache (demo_env [("/b", 2)]%Z) (loaded [("/a", 1); ("/b", 1)]%Z) =
    (((fun w => (w, UNCHANGED)) <$> []) ++ [(demo_entry "/a" 1, REMOVED)],
     Some (RuntimeError "dictionary changed size during iteration"), cm') ∧
    _cache cm' = delete (uri (md (demo_entry "/a" 1))) (_cache (loaded [("/a", 1); ("/b", 1)]%Z)).
Proof.
  apply (update_cache_removed _ _ [] (demo_entry "/a" 1) [demo_entry "/b" 1]).
  - apply loaded_inv.
  - vm_compute. reflexivity.
  - intros w []%not_elem_of_nil.
  - exists (demo_handler [("/b", 2)]%Z), "/a". split; reflexivity.
Defined.

Lemma update_cache_reloaded_witness :
  ∃ cm', update_cache (demo_env [("/a", 5)]%Z) (loaded [("/a", 1)]%Z) =
    (((fun w => (w, UNCHANGED)) <$> []) ++
       (demo_entry "/a" 5, UPDATED) :: ((fun w => (w, UNCHANGED)) <$> []),
     Some (RuntimeError "dictionary keys changed during iteration"), cm').
Proof.
  eexists. apply (update_cache_reloaded _ _ [] (demo_entry "/a" 1) []
    (demo_handler [("/a", 5)]%Z) (demo_md "/a" 5) _ _ _ 3).
  - apply loaded_inv.
  - reflexivity.
  - vm_compute. reflexivity.
  - intros w []%not_elem_of_nil.
  - reflexivity.
  - reflexivity.
  - reflexivity.
  - reflexivity.
  - vm_compute. reflexivity.
Defined.
