(* ===== verification/FileHandler.v ===== *)
(** * Projects on the file system

    [qjazz_cache/handlers/file.py]: the protocol handler for files, an instance
    of the record of operations the cache manager calls, and
    [qjazz_cache/storage.py]: how a project is read.  The file system and the
    reading of a project by QGIS are parameters. *)
From S2P Require Import Prelude PyDict PyStd Routes CacheManager.

(** ** pathlib: suffixes *)

(** What comes before and after the last dot of a name. *)
Fixpoint rsplit_dot (s : string) : option (string * string) :=
  match s with
  | "" => None
  | String a s =>
      match rsplit_dot s with
      | Some (l, r) => Some (String a l, r)
      | None => if decide (a = "."%char) then Some ("", s) else None
      end
  end.

Definition name_suffix (name : string) : string :=
  match rsplit_dot name with
  | Some (l, r) => if str_truth l && str_truth r then "." +:+ r else ""
  | None => ""
  end.
Definition name_stem (name : string) : string :=
  match rsplit_dot name with
  | Some (l, r) => if str_truth l && str_truth r then l else name
  | None => name
  end.

(** [p.name], [p.suffix], [p.stem], [p.with_suffix(sfx)] *)
Definition path_name (p : ppath) : string := default "" (last (p_parts p)).
Definition suffix (p : ppath) : string := name_suffix (path_name p).
Definition stem (p : ppath) : string := name_stem (path_name p).
Definition with_suffix (p : ppath) (sfx : string) : res ppath :=
  if str_truth (path_name p)
  then Ok (PPath (p_root p) (removelast (p_parts p) ++ [name_stem (path_name p) +:+ sfx]))
  else Raise (ValueError "has an empty name").

(** ** storage.py *)

(** [ProjectLoaderConfig] *)
Record ProjectLoaderConfig : Type := {
  trust_layer_metadata : bool; disable_getprint : bool; force_readonly_layers : bool;
  dont_resolve_layers : bool; disable_advertised_urls : bool; ignore_bad_layers : bool;
}.

Inductive ReadFlag : Type :=
| TrustLayerMetadata | ForceReadOnlyLayers | DontResolveLayers | DontLoadLayouts.

(** What QGIS does: reading a project with flags, which answers nothing when it
    fails, the names of the layers a project could not load, the layers it
    restricts, and [writeEntry], which sets an entry of the project. *)
Record QgisReader (Project : Type) : Type := {
  read : string → list ReadFlag → option Project;
  badLayerNames : Project → list string;
  restricted : Project → list string;
  writeEntry : string → string → string → Project → Project;
}.
Arguments read {_} _ _ _.
Arguments badLayerNames {_} _ _.
Arguments restricted {_} _ _.
Arguments writeEntry {_} _ _ _ _ _.

Section storage.
Context {Project : Type} (q : QgisReader Project).

Definition readflags (c : ProjectLoaderConfig) : list ReadFlag :=
  (if dont_resolve_layers c then [TrustLayerMetadata; ForceReadOnlyLayers; DontResolveLayers]
   else (if trust_layer_metadata c then [TrustLayerMetadata] else []) ++
        (if force_readonly_layers c then [ForceReadOnlyLayers] else [])) ++
  (if disable_getprint c then [DontLoadLayouts] else []).

(** [BadLayerHandler.validateLayers] *)
Definition validateLayers (p : Project) : bool :=
  bool_decide (badLayerNames q p ⊆ restricted q p).

(** [remove_advertised_urls] *)
Definition remove_advertised_urls (p : Project) : Project :=
  let p := writeEntry q "WMSUrl" "/" "" p in
  let p := writeEntry q "WFSUrl" "/" "" p in
  let p := writeEntry q "WCSUrl" "/" "" p in
  writeEntry q "WMTSUrl" "/" "" p.

(** [load_project_from_uri] *)
Definition load_project_from_uri (uri : string) (c : ProjectLoaderConfig) : res Project :=
  match read q uri (readflags c) with
  | None => Raise (UnreadableResource uri)
  | Some p =>
      if negb (dont_resolve_layers c) && negb (ignore_bad_layers c) && negb (validateLayers p)
      then Raise (StrictCheckingFailure uri)
      else Ok (if disable_advertised_urls c then remove_advertised_urls p else p)
  end.
End storage.

(** ** handlers/file.py *)

(** The file system: what [stat] says of a path, the files below a directory
    with a suffix, and the entries of a directory. *)
Inductive FileKind : Type := Regular | Directory | OtherFile.
Record StatResult : Type := MkStat { st_kind : FileKind; st_size : Z; st_mtime : Qc }.
Record FS : Type := {
  fs_stat : ppath → option StatResult;
  fs_glob : ppath → string → list ppath;
  fs_iterdir : ppath → list ppath;
}.

Definition PROJECT_SFX : list string := [".qgs"; ".qgz"].

Section file_handler.
Context {Project : Type} (q : QgisReader Project) (config : ProjectLoaderConfig) (fs : FS).

(** [file_metadata] *)
Definition file_metadata (p : ppath) : res ProjectMetadata :=
  match fs_stat fs p with
  | Some st => Ok (Metadata (path_str p) (stem p) "file" (Some "file") (st_mtime st))
  | None => Raise (FileNotFoundError (path_str p))
  end.

Definition is_file (p : ppath) : bool :=
  match fs_stat fs p with Some (MkStat Regular _ _) => true | _ => false end.
Definition is_dir (p : ppath) : bool :=
  match fs_stat fs p with Some (MkStat Directory _ _) => true | _ => false end.
Definition exists_ (p : ppath) : bool :=
  match fs_stat fs p with Some _ => true | None => false end.

(** [FileProtocolHandler._check_filepath] *)
Fixpoint try_suffixes (sfxs : list string) (p : ppath) : res ppath :=
  match sfxs with
  | [] => Ok p
  | sfx :: sfxs =>
      p ← with_suffix p sfx;
      if is_file p then Ok p else try_suffixes sfxs p
  end.
Definition _check_filepath (p : ppath) : res ppath :=
  if negb (str_truth (p_root p))
  then Raise (ResourceNotAllowed ("file path must be absolute not " +:+ path_str p))
  else if decide (suffix p ∈ PROJECT_SFX) then Ok p else try_suffixes PROJECT_SFX p.

(** [FileProtocolHandler.project_metadata], of a url and of a metadata *)
Definition metadata_at (p : ppath) : res ProjectMetadata :=
  if exists_ p then file_metadata p else Raise (FileNotFoundError (path_str p)).
Definition project_metadata (url : Url) : res ProjectMetadata :=
  p ← _check_filepath (path_of (u_path url)); metadata_at p.
Definition project_metadata_md (m : ProjectMetadata) : res ProjectMetadata :=
  metadata_at (path_of (uri m)).

(** [FileProtocolHandler.projects]; a file that vanishes between the listing
    and its [stat] ends the listing *)
Fixpoint metadata_of_all (l : list ppath) : list ProjectMetadata * option exn :=
  match l with
  | [] => ([], None)
  | p :: l =>
      match file_metadata p with
      | Ok m => let '(ms, e) := metadata_of_all l in (m :: ms, e)
      | Raise e => ([], Some e)
      end
  end.
Definition projects (url : Url) : list ProjectMetadata * option exn :=
  let p := path_of (u_path url) in
  if exists_ p then
    if is_dir p then metadata_of_all (fs_glob fs p ".qgs" ++ fs_glob fs p ".qgz")
    else metadata_of_all [p]
  else ([], None).

(** [FileProtocolHandler.public_path] of a uri *)
Definition public_path_of (u location : string) (rooturl : Url) : res string :=
  url ← urlsplit u;
  match file_public_path url location rooturl with
  | Some p => Ok p
  | None => Raise (ValueError "is not in the subpath")
  end.

(** [FileProtocolHandler], with [project] of [common.py] *)
Definition file_handler : ProtocolHandler Project := {|
  h_project_metadata := project_metadata;
  h_project_metadata_md := project_metadata_md;
  h_project m := load_project_from_uri q (uri m) config;
  h_projects := projects;
  h_public_path := public_path_of;
|}.

(** [FileProtocolHandler.get_resource]: the file a [ResourceReader] reads *)
Record ResourceReader : Type := MkReader {
  rd_file : ppath; rd_size : Z; rd_content_type : option string; rd_uri : string;
}.
Definition get_resource (u : Url) (name : option string) : res (option ResourceReader) :=
  let p := path_of (u_path u) in
  let p := if ostr_truth name then path_join p (path_of (default "" name)) else p in
  match fs_stat fs p with
  | None => Ok None
  | Some st =>
      match st_kind st with
      | Directory => Raise (OtherException "IsADirectoryError")
      | _ => Ok (Some (MkReader p (st_size st) None (urlunsplit u)))
      end
  end.

(** [FileProtocolHandler.list_resources], consumed to its end *)
Record ResourceObject : Type := MkResource {
  ro_name : string; ro_size : Z; ro_content_type : option string;
  ro_last_modified : Qc; ro_is_dir : bool;
}.
Fixpoint resources_of (root : ppath) (l : list ppath) : list ResourceObject * option exn :=
  match l with
  | [] => ([], None)
  | p :: l =>
      match fs_stat fs p with
      | None => ([], Some (FileNotFoundError (path_str p)))
      | Some st =>
          match path_relative_to p root with
          | None => ([], Some (ValueError "is not in the subpath"))
          | Some rel =>
              let '(rs, e) := resources_of root l in
              (MkResource (path_str rel) (st_size st) None (st_mtime st) (is_dir p) :: rs, e)
          end
      end
  end.
Definition list_resources (u : Url) (subpath : option string) : list ResourceObject * option exn :=
  let root := path_of (u_path u) in
  let p := if ostr_truth subpath then path_join root (path_of (default "" subpath)) else root in
  if is_dir p then resources_of root (fs_iterdir fs p) else ([], None).

(** [FileProtocolHandler.validate_rooturl] *)
Definition validate_rooturl (rooturl : Url) (is_dynamic : bool) : res unit :=
  if negb is_dynamic && negb (exists_ (path_of (u_path rooturl)))
  then Raise (InvalidCacheRootUrl (u_path rooturl +:+ " does not exists"))
  else Ok tt.
End file_handler.

(** ** Properties *)
Lemma rsplit_dot_app s x :
  rsplit_dot x = None → rsplit_dot (s +:+ String "." x) = Some (s, x).
Proof.
  intros Hx. induction s as [|a s IH]; [by rw /= Hx|].
  change (String a s +:+ String "." x) with (String a (s +:+ String "." x)). by rw /= IH.
Qed.

Lemma app_str_truth s x : str_truth s = true → str_truth (s +:+ x) = true.
Proof. by destruct s. Qed.

Section properties.
Context {Project : Type} (q : QgisReader Project) (config : ProjectLoaderConfig) (fs : FS).
Context (r : string) (d : list string) (n : string).

(** A resource named without a suffix, and the two files it may stand for. *)
Definition plain : ppath := PPath r (d ++ [n]).
Definition with_sfx (sfx : string) : ppath := PPath r (d ++ [n +:+ sfx]).

Hypothesis absolute : str_truth r = true.
Hypothesis named : str_truth n = true.
Hypothesis no_suffix : name_suffix n = "".

Lemma stem_plain : name_stem n = n.
Proof.
  revert no_suffix. rw /name_suffix /name_stem.
  destruct (rsplit_dot n) as [[l x]|]; [|done]. by destruct (str_truth l && str_truth x).
Qed.

Lemma with_suffix_plain sfx : with_suffix plain sfx = Ok (with_sfx sfx).
Proof.
  rw /with_suffix /path_name /plain /= last_snoc /= named stem_plain removelast_last //.
Qed.

Lemma with_suffix_qgs sfx : with_suffix (with_sfx ".qgs") sfx = Ok (with_sfx sfx).
Proof.
  rw /with_suffix /path_name /with_sfx /= last_snoc /= (app_str_truth _ _ named) removelast_last.
  rw /name_stem (rsplit_dot_app n "qgs") //= named //.
Qed.

Lemma check_plain :
  _check_filepath fs plain =
  Ok (if is_file fs (with_sfx ".qgs") then with_sfx ".qgs" else with_sfx ".qgz").
Proof.
  rw /_check_filepath absolute /=. rw decide_False.
  { rw /suffix /path_name /plain /= last_snoc /= no_suffix. set_solver. }
  rw with_suffix_plain. py_unfold. case_match; [done|].
  rw with_suffix_qgs. by case_match.
Qed.

(** A project named without its extension is found: the handler answers
    the metadata of the [.qgs] file when there is one, else that of the
    [.qgz], under the full name of the file. *)
Theorem metadata_of_plain url sfx size t :
  path_of (u_path url) = plain →
  (sfx = ".qgs" ∨ (sfx = ".qgz" ∧ is_file fs (with_sfx ".qgs") = false)) →
  fs_stat fs (with_sfx sfx) = Some (MkStat Regular size t) →
  project_metadata fs url =
    Ok (Metadata (path_str (with_sfx sfx)) n "file" (Some "file") t).
Proof.
  intros Hu Hsfx Hst. rw /project_metadata Hu check_plain. py_unfold.
  assert (name_stem (n +:+ sfx) = n) as Hstem.
  { rw /name_stem. destruct Hsfx as [-> | [-> _]];
      [rw (rsplit_dot_app n "qgs") //|rw (rsplit_dot_app n "qgz") //]; by rw /= named. }
  assert (metadata_at fs (with_sfx sfx) =
    Ok (Metadata (path_str (with_sfx sfx)) n "file" (Some "file") t)) as Hm.
  { rw /metadata_at /exists_ /file_metadata Hst /stem /path_name /with_sfx /= last_snoc /= Hstem //. }
  destruct Hsfx as [-> | [-> ->]]; [|done]. by rw /is_file Hst.
Qed.

(** The removal of a cached [.qgs] project is not seen when the project
    is asked for without its extension: the handler reports the [.qgz] name
    as missing, so that the checkout answers [NOTFOUND], not [REMOVED], and
    the entry stays in the cache. *)
Theorem removed_plain_not_found (env : Env Project) url cm e :
  path_of (u_path url) = plain →
  get_protocol_handler env (scheme url) = Ok (file_handler q config fs) →
  fs_stat fs (with_sfx ".qgs") = None → fs_stat fs (with_sfx ".qgz") = None →
  lookup (path_str (with_sfx ".qgs")) (_cache cm) = Some e →
  lookup (path_str (with_sfx ".qgz")) (_cache cm) = None →
  checkout env url cm = (Ok (None, NOTFOUND), cm).
Proof.
  intros Hu Hh H1 H2 He Hn. rw /checkout. py_unfold. rw Hh /=.
  assert (project_metadata fs url = Raise (FileNotFoundError (path_str (with_sfx ".qgz")))) as ->.
  { rw /project_metadata Hu check_plain. py_unfold. rw /is_file H1 /metadata_at /exists_ H2 //. }
  by rw Hn.
Qed.
End properties.

(** ** A file system with one project *)
Module FileDemo.
Definition reader : QgisReader string := {|
  read u _ := Some u; badLayerNames _ := []; restricted _ := []; writeEntry _ _ _ p := p;
|}.
Definition loader : ProjectLoaderConfig := Build_ProjectLoaderConfig true true true false false true.
Definition fs (present : bool) : FS := {|
  fs_stat p := if present && bool_decide (p = path_of "/data/a.qgs")
               then Some (MkStat Regular 100 (Qc_of_Z 7)) else None;
  fs_glob _ _ := []; fs_iterdir _ := [];
|}.
Definition env (present : bool) : Env string := {|
  get_protocol_handler _ := Ok (file_handler reader loader (fs present)); fileName p := p;
  has_server := false; t_start := Qc_of_Z 0; t_loaded := Qc_of_Z 0; t_end := Qc_of_Z 0; rss := None;
|}.
Definition url : Url := SplitResult "file" "" "/data/a" "" "".
Definition entry : CacheEntry string :=
  Entry (Metadata "/data/a.qgs" "a" "file" (Some "file") (Qc_of_Z 7)) "/data/a.qgs" (Qc_of_Z 0)
    (Debug None 0) (Qc_of_Z 0) 0 false.
(** The cache that has loaded it. *)
Definition cached : CacheManager string :=
  (update (env true) (md entry) NEW None new_cache_manager).2.
End FileDemo.

Lemma metadata_of_plain_witness :
  project_metadata (FileDemo.fs true) FileDemo.url =
    Ok (Metadata (path_str (with_sfx "/" ["data"] "a" ".qgs")) "a" "file" (Some "file") (Qc_of_Z 7)).
Proof.
  apply (metadata_of_plain (FileDemo.fs true) "/" ["data"] "a" eq_refl eq_refl eq_refl FileDemo.url
    ".qgs" 100 (Qc_of_Z 7)).
  - reflexivity.
  - left. reflexivity.
  - vm_compute. reflexivity.
Defined.

Lemma removed_plain_not_found_witness :
  lookup "/data/a.qgs" (_cache FileDemo.cached) = Some FileDemo.entry ∧
  checkout (FileDemo.env false) FileDemo.url FileDemo.cached = (Ok (None, NOTFOUND), FileDemo.cached).
Proof.
  split; [vm_compute; reflexivity|].
  apply (removed_plain_not_found FileDemo.reader FileDemo.loader (FileDemo.fs false) "/" ["data"] "a"
    eq_refl eq_refl eq_refl (FileDemo.env false) FileDemo.url FileDemo.cached FileDemo.entry).
  - reflexivity.
  - reflexivity.
  - reflexivity.
  - reflexivity.
  - vm_compute. reflexivity.
  - vm_compute. reflexivity.
Defined.
