(* ===== verification/StorageHandlers.v ===== *)
(** * Handlers of databases and object stores

    [cache/handlers/storage.py], [postgresql.py], [geopackage.py] and [s3.py]:
    the projects that QGIS stores in databases, by the uri of its storage, and
    those of an S3 bucket.  The QGIS storage, the S3 client and the reading of a
    project are parameters. *)
From S2P Require Import Prelude PyDict PyAssoc PyStd Json PyFloat Routes CacheManager FileHandler Web.
Import Paths.

(** ** storage.py *)

(** [QgsProjectStorage]; times are those of [datetime.timestamp] *)
Record QgsStorage : Type := MkQgsStorage {
  qs_type : string;
  isSupportedUri : string → bool;
  readProjectStorageMetadata : string → option (option string * Qc);
  listProjects : string → list string;
}.

Section qgis_storage.
Context {Project : Type} (st : QgsStorage).

(** [QgisStorageProtocolHandler._project_storage_metadata] *)
Definition _project_storage_metadata (uri scheme : string) : res ProjectMetadata :=
  match readProjectStorageMetadata st uri with
  | Some (name, t) => Ok (Metadata uri (default "" name) scheme (Some (qs_type st)) t)
  | None => Raise (FileNotFoundError uri)
  end.

(** [QgisStorageProtocolHandler.project_metadata], of a uri *)
Definition storage_metadata_of (uri scheme : string) : res ProjectMetadata :=
  if isSupportedUri st uri then _project_storage_metadata uri scheme
  else Raise (PreconditionError ("Invalide uri for storage '" +:+ qs_type st +:+ "': " +:+ uri)).

(** [QgisStorageProtocolHandler.projects] *)
Fixpoint metadata_of_uris (scheme : string) (uris : list string) : list ProjectMetadata * option exn :=
  match uris with
  | [] => ([], None)
  | u :: uris =>
      match _project_storage_metadata u scheme with
      | Ok m => let '(ms, e) := metadata_of_uris scheme uris in (m :: ms, e)
      | Raise e => ([], Some e)
      end
  end.
Definition storage_projects (url : Url) : list ProjectMetadata * option exn :=
  let uri := urlunsplit url in
  if isSupportedUri st uri then metadata_of_uris (scheme url) (listProjects st uri)
  else ([], Some (PreconditionError ("Unsupported " +:+ uri +:+ " for '" +:+ qs_type st +:+ "'"))).

(** The handler, from the operations that its subclasses define *)
Definition storage_handler (resolve_uri : Url → res string) (public_path : Url → string → Url → res string)
    (load : string → res Project) : ProtocolHandler Project := {|
  h_project_metadata url := uri ← resolve_uri url; storage_metadata_of uri (scheme url);
  h_project_metadata_md m := storage_metadata_of (uri m) (md_scheme m);
  h_project m := load (uri m);
  h_projects := storage_projects;
  h_public_path u location rooturl := url ← urlsplit u; public_path url location rooturl;
|}.
End qgis_storage.

(** ** Parameters of a uri *)

(** [_parameters] *)
Definition _parameters (url : Url) : list (string * string) := dict_extend [] (parse_qsl (query url)).

(** [Path(p).parts] *)
Definition all_parts (p : ppath) : list string :=
  if str_truth (p_root p) then p_root p :: p_parts p else p_parts p.

(** [urlencode(q)] of a dictionary of texts *)
Definition urlencode_dict (d : list (string * string)) : string :=
  urlencode ((fun kv => (kv.1, [kv.2])) <$> d).

(** ** postgresql.py *)
Section postgres.
(** The uri of the configuration *)
Context (conf : Url).

(** [PostgresHandler.validate_rooturl] *)
Definition postgres_validate_rooturl (rooturl : Url) : res unit :=
  if str_truth (netloc rooturl) && str_truth (netloc conf)
  then Raise (InvalidCacheRootUrl ("Netloc redefiniton in postgresql root url configuration: " +:+ urlunsplit rooturl))
  else Ok tt.

(** [PostgresHandler.resolve_uri], before [geturl()] *)
Definition postgres_resolve (url : Url) : res Url :=
  let q := dict_extend (_parameters conf) (_parameters url) in
  q ← match all_parts (path_of (u_path url)), ostr_truth (assoc "project" q) with
      | [p], false => Ok (dict_set "project" p q)
      | [], true => Ok q
      | _, _ => Raise (ResourceNotAllowed (u_path url))
      end;
  Ok (SplitResult (scheme conf) (str_or (netloc conf) (netloc url)) "" (urlencode_dict q) (fragment conf)).
Definition postgres_resolve_uri (url : Url) : res string := u ← postgres_resolve url; Ok (urlunsplit u).

(** [PostgresHandler.public_path], of a split url *)
Definition postgres_public_path (url : Url) (location : string) (rooturl : Url) : res string :=
  let q := dict_extend (_parameters conf) (_parameters rooturl) in
  if ostr_truth (assoc "project" q) then Ok (path_str (path_of location))
  else match assoc "project" (_parameters url) with
       | Some p => Ok (path_str (path_join (path_of location) (path_of p)))
       | None => Raise (KeyError "project")
       end.
End postgres.

(** ** geopackage.py *)
Section geopackage.
Context (conf_path : option ppath).

(** [GeoPackageHandler.validate_rooturl] *)
Definition geopackage_validate_rooturl (exists_path : ppath → bool) (rooturl : Url) (is_dynamic : bool) : res unit :=
  if str_truth (u_path rooturl) && bool_decide (is_Some conf_path)
  then Raise (InvalidCacheRootUrl ("Path redefiniton in geopackage root url configuration: " +:+ urlunsplit rooturl))
  else if negb is_dynamic && str_truth (u_path rooturl) && negb (exists_path (path_of (u_path rooturl)))
  then Raise (InvalidCacheRootUrl ("Geopackage " +:+ u_path rooturl +:+ " does not exists"))
  else match assoc "projectName" (_parameters rooturl) with
       | Some _ => Ok tt
       | None => Raise (InvalidCacheRootUrl "Missing 'projectName' parameter in geopackage root url")
       end.

(** [GeoPackageHandler.resolve_uri] *)
Definition geopackage_resolve_uri (url : Url) : res string :=
  match (if str_truth (u_path url) then Some (path_of (u_path url)) else conf_path) with
  | None => Raise (PostconditionError "No geopackage path defined !")
  | Some p =>
      match assoc "projectName" (_parameters url) with
      | Some n => Ok ("geopackage:" +:+ path_str p +:+ "?projectName=" +:+ n)
      | None => Raise (PostconditionError "No project name defined !")
      end
  end.

(** [GeoPackageHandler.public_path], of a split url *)
Definition geopackage_public_path (url : Url) (location : string) (rooturl : Url) : res string :=
  if decide (assoc "projectName" (_parameters rooturl) = Some "{path}") then
    match assoc "projectName" (_parameters url) with
    | Some n => Ok (path_str (path_join (path_of location) (path_of n)))
    | None => Raise (KeyError "projectName")
    end
  else Ok (path_str (path_of location)).
End geopackage.

(** ** s3.py *)

(** What the client answers: an [S3Error] by its code, or a response with a
    status, a body, its length and type; the objects of a listing *)
Record S3Response : Type := MkS3Response { s3_status : Z; s3_body : string; s3_length : Z; s3_type : option string }.
Record S3Object : Type := MkS3Object {
  so_name : string; so_size : Z; so_type : option string; so_last_modified : option Qc; so_is_dir : bool;
}.
Record S3Client : Type := MkS3Client {
  bucket_exists : string → bool;
  stat_object : string → string → string + option Qc;
  get_object : string → string → string + S3Response;
  list_objects : string → string → bool → list S3Object;
}.

Section s3.
Context {Project : Type} (client : S3Client) (config : ProjectLoaderConfig).

Definition is_slash (a : ascii) : bool := bool_decide (a = "/"%char).
Fixpoint rstrip_slashes (s : string) : string :=
  match s with
  | "" => ""
  | String a s => match rstrip_slashes s with
                  | "" => if is_slash a then "" else String a ""
                  | r => String a r
                  end
  end.
Definition strip_slashes (s : string) : string := rstrip_slashes (lstrip is_slash s).
Definition s3_suffix : string := ".qgz".
Definition S3Error (code : string) : exn := OtherException ("S3Error: " +:+ code).

(** [assert_precondition(bucket_name is not None)] *)
Definition bucket_of (url : Url) : res string :=
  match hostname url with Some b => Ok b | None => Raise (PreconditionError "") end.

(** [S3ProtocolHandler.validate_rooturl], with a GDAL that has options of paths:
    the prefix that is configured *)
Definition s3_validate_rooturl (rooturl : Url) (is_dynamic : bool) : res string :=
  let prefix := strip_slashes (u_path rooturl) in
  if negb (force_readonly_layers config)
  then Raise (InvalidCacheRootUrl "S3 handler does not support writable layers, use force_readonly_layers=True")
  else
    match hostname rooturl with
    | None => Raise (InvalidCacheRootUrl
                "Invalid S3 root url '{rooturl.geturl()}', expecting '{scheme}://{bucket}/[prefix/]'")
    | Some bucket =>
        if str_truth prefix && is_dynamic
        then Raise (InvalidCacheRootUrl ("Dynamic s3 root url does not support prefix: " +:+ urlunsplit rooturl))
        else Ok (if str_truth prefix then "/vsis3/" +:+ bucket +:+ "/" +:+ prefix else "/vsis3/" +:+ bucket)
    end.

(** [S3ProtocolHandler.public_path], of a split url *)
Definition s3_public_path (url : Url) (location : string) (rooturl : Url) : res string :=
  let prefix := strip_slashes (u_path rooturl) in
  match path_relative_to (path_of (u_path url)) (path_of (str_or prefix "/")) with
  | Some rel => Ok (path_str (path_join (path_of location) rel))
  | None => Raise (ValueError "is not in the subpath")
  end.

(** [S3ProtocolHandler.project_metadata] *)
Definition s3_metadata (url : Url) : res ProjectMetadata :=
  bucket ← bucket_of url;
  let object_name := if endswith s3_suffix (u_path url) then u_path url else u_path url +:+ s3_suffix in
  match stat_object client bucket object_name with
  | inl code =>
      Raise (if decide (code ∈ ["NoSuchBucket"; "NoSuchKey"]) then FileNotFoundError (urlunsplit url) else S3Error code)
  | inr None => Raise (PreconditionError "")
  | inr (Some t) =>
      Ok (Metadata (urlunsplit (SplitResult (scheme url) (netloc url) object_name (query url) (fragment url)))
            (stem (path_of (u_path url))) (scheme url) (Some "s3") (Qc_of_Z (Qc_int t)))
  end.
(** [S3ProtocolHandler.projects] *)
Fixpoint s3_projects_of (url : Url) (objs : list S3Object) : list ProjectMetadata * option exn :=
  match objs with
  | [] => ([], None)
  | o :: objs =>
      let p := path_of (so_name o) in
      if bool_decide (suffix p = s3_suffix) then
        match so_last_modified o with
        | None => ([], Some (PreconditionError ""))
        | Some t =>
            let '(ms, e) := s3_projects_of url objs in
            (Metadata (urlunsplit (SplitResult (scheme url) (netloc url) (path_str p) (query url) (fragment url)))
               (stem p) (scheme url) (Some "s3") (Qc_of_Z (Qc_int t)) :: ms, e)
        end
      else s3_projects_of url objs
  end.
Definition s3_projects (url : Url) : list ProjectMetadata * option exn :=
  match bucket_of url with
  | Ok bucket => s3_projects_of url (list_objects client bucket (lstrip is_slash (u_path url)) true)
  | Raise e => ([], Some e)
  end.

(** The conversion of the relative paths of the layers of a project *)
Definition to_vsis3 (prefix path : string) : string :=
  if startswith "./" path then "/vsis3/" +:+ prefix +:+ "/" +:+ removeprefix "./" path else path.

(** [S3ProtocolHandler.load_project]: the state is the download directories that
    are kept, by uri; [tmpdir] is the directory that is made, and [load] reads
    the project of a file, from its content, with a conversion of paths.  When
    the client raises, the response that is closed at the end has no value. *)
Definition s3_load (load : (string → string) → string → string → res Project) (tmpdir : ppath)
    (m : ProjectMetadata) : M (list (string * ppath)) Project :=
  u ← pure (urlsplit (uri m));
  bucket ← pure (bucket_of u);
  match get_object client bucket (u_path u) with
  | inl _ => raise (OtherException "UnboundLocalError: resp")
  | inr resp =>
      if decide (s3_status resp = 404)%Z then raise (FileNotFoundError (uri m))
      else if decide (200 < s3_status resp)%Z then
        raise (RuntimeError ("S3 error " +:+ uri m +:+ ": error " +:+ str_of_int (s3_status resp) +:+ ": " +:+ s3_body resp))
      else
        let object_path := path_join (path_of bucket) (path_of (strip_slashes (u_path u))) in
        let filename := path_join tmpdir (path_of (path_name object_path)) in
        modify (fun dirs => (uri m, tmpdir) :: List.filter (fun d => negb (bool_decide (d.1 = uri m))) dirs);;
        pure (load (to_vsis3 (path_str (PPath (p_root object_path) (removelast (p_parts object_path)))))
                (path_str filename) (s3_body resp))
  end.

(** [S3ProtocolHandler.get_resource] *)
Definition s3_get_resource (url : Url) (name : option string) : res (option S3Response) :=
  bucket ← bucket_of url;
  let object_name := if ostr_truth name then path_str (path_join (path_of (u_path url)) (path_of (default "" name)))
                     else u_path url in
  match get_object client bucket object_name with
  | inl code => Raise (S3Error code)
  | inr resp =>
      if decide (s3_status resp = 404)%Z then Ok None
      else if decide (200 < s3_status resp)%Z then
        Raise (RuntimeError ("S3 error " +:+ urlunsplit url +:+ ": error " +:+ str_of_int (s3_status resp) +:+ ": " +:+ s3_body resp))
      else Ok (Some resp)
  end.

(** [S3ProtocolHandler.list_resources]: the names of the objects, relative to the
    path of the uri *)
Fixpoint s3_resources_of (root : ppath) (objs : list S3Object) : list (string * S3Object) * option exn :=
  match objs with
  | [] => ([], None)
  | o :: objs =>
      match path_relative_to (path_of (so_name o)) root with
      | Some rel => let '(rs, e) := s3_resources_of root objs in ((path_str rel, o) :: rs, e)
      | None => ([], Some (ValueError "is not in the subpath"))
      end
  end.
Definition s3_list_resources (url : Url) (subpath : option string) : list (string * S3Object) * option exn :=
  let root := path_of (u_path url) in
  let p := if ostr_truth subpath then path_join root (path_of (default "" subpath)) else root in
  let prefix := removeprefix "/" (path_str p) in
  let prefix := if str_truth prefix && negb (endswith "/" prefix) then prefix +:+ "/" else "" in
  match bucket_of url with
  | Ok bucket => s3_resources_of root (list_objects client bucket prefix false)
  | Raise e => ([], Some e)
  end.

(** [S3ProtocolHandler] *)
Definition s3_handler (load : ProjectMetadata → res Project) : ProtocolHandler Project := {|
  h_project_metadata := s3_metadata;
  h_project_metadata_md m := u ← urlsplit (uri m); s3_metadata u;
  h_project := load;
  h_projects := s3_projects;
  h_public_path u location rooturl := url ← urlsplit u; s3_public_path url location rooturl;
|}.
End s3.

(** ** Properties *)

Section dicts.
Implicit Types (d l : list (string * string)).

(** Dictionaries of texts that are not empty, as queries give them. *)
Definition texts d : Prop := Forall (fun kv => str_truth kv.2 = true) d.

Lemma texts_set k v d : str_truth v = true → texts d → texts (dict_set k v d).
Proof.
  intros Hv. induction 1 as [|[k' v'] d Hv' Hd IH]; csimpl; [by repeat constructor|].
  case_decide; by constructor.
Qed.

Lemma texts_update d l : texts d → texts l → texts (dict_extend d l).
Proof.
  intros Hd Hl. revert d Hd. induction Hl as [|[k v] l Hv _ IH]; intros d Hd; [done|]. by apply IH, texts_set.
Qed.

Lemma urlencode_dict_inv d : texts d → NoDup d.*1 → dict_extend [] (parse_qsl (urlencode_dict d)) = d.
Proof.
  intros Ht Hd. rw /urlencode_dict parse_urlencode.
  { apply Forall_fmap. eapply Forall_impl; [exact Ht|]. intros kv Hv. by constructor. }
  assert ((((fun kv => (kv.1, [kv.2])) <$> d) ≫= fun kvs => (fun v => (kvs.1, v)) <$> kvs.2) = d) as ->.
  { clear. induction d as [|[k v] d IH]; [done|]. csimpl. by rw IH. }
  by rw (dict_extend_app []).
Qed.
End dicts.

Lemma unquote_truth s : str_truth s = true → str_truth (unquote_plus s) = true.
Proof. destruct s as [|a s]; [done|]. intros _. destruct a as [[] [] [] [] [] [] [] []]; simpl; repeat case_match; done. Qed.

Lemma parameters_texts url : texts (_parameters url).
Proof.
  apply texts_update; [constructor|]. apply Forall_forall. intros [k v].
  rw /parse_qsl list_elem_of_omap. intros (f & _ & Hf). move: Hf. rw /qs_field.
  repeat case_match; try done. intros [= <- <-]. by apply unquote_truth.
Qed.

Lemma parameters_nodup url : NoDup (_parameters url).*1.
Proof. apply dict_extend_nodup, NoDup_nil_2. Qed.

(** ** PostgreSQL *)
Section postgres.
Context (conf : Url).

(** The projects of a database are named by one component of a path.  A url whose
    path is absolute names none of them, so that a root url that has a host and
    a path does not resolve; the public path of a project that was resolved is
    its name below the location, as long as the root url does not choose the
    project itself. *)
Theorem postgres_public_path_inverse url rooturl location u :
  postgres_resolve conf url = Ok u → query rooturl = query url →
  ostr_truth (assoc "project" (dict_extend (_parameters conf) (_parameters rooturl))) = false →
  ∃ name, all_parts (path_of (u_path url)) = [name] ∧
    (p_root (path_of (u_path url)) = "" → path_of (u_path url) = PPath "" [name]) ∧
    postgres_public_path conf u location rooturl =
      Ok (path_str (path_join (path_of location) (path_of name))).
Proof.
  intros Hr Hq Hp. rw /postgres_resolve in Hr.
  assert (_parameters rooturl = _parameters url) as Hpar by by rw /_parameters Hq.
  rw Hpar in Hp. rw Hp in Hr. destruct (all_parts (path_of (u_path url))) as [|name [|y l]] eqn:Hparts; [done| |done].
  simpl in Hr. injection Hr as <-. exists name. split; [done|]. split.
  { intros Hroot. destruct (path_of (u_path url)) as [r l]. simpl in Hroot. subst r. by rw /all_parts /= in Hparts; subst. }
  rw /postgres_public_path Hpar Hp. rw {1}/_parameters /=. rw urlencode_dict_inv.
  - apply texts_set; [|apply texts_update; apply parameters_texts].
    pose proof (path_of_ok (u_path url)) as [_ Hok]. move: Hparts. rw /all_parts. case_match eqn:Ht.
    + by intros [= <- _].
    + intros Hl. rw Hl in Hok. inversion Hok as [|? ? (Hne & _) _]. by destruct name.
  - apply dict_set_nodup, dict_extend_nodup, parameters_nodup.
  - by rw dict_set_lookup.
Qed.

Lemma postgres_absolute_refused url :
  p_root (path_of (u_path url)) ≠ "" → p_parts (path_of (u_path url)) ≠ [] →
  postgres_resolve conf url = Raise (ResourceNotAllowed (u_path url)).
Proof.
  intros Hr Hp. rw /postgres_resolve /all_parts. destruct (path_of (u_path url)) as [r [|x l]]; [done|].
  simpl in *. by destruct r.
Qed.
End postgres.

(** ** S3 *)

Lemma path_of_root s : startswith "/" s = true → p_root (path_of s) ≠ "".
Proof. intros Hs. rw /path_of /path_root Hs /=. by case_match. Qed.

Lemma lstrip_start s : startswith "/" (lstrip is_slash s) = false.
Proof.
  induction s as [|a s IH]; [done|]. simpl. destruct (is_slash a) eqn:E; [done|].
  simpl. rw /is_slash in E. apply bool_decide_eq_false in E. rw bool_decide_false //.
Qed.

Lemma rstrip_start s : startswith "/" s = false → startswith "/" (rstrip_slashes s) = false.
Proof.
  destruct s as [|a s]; [done|]. simpl. intros H. destruct (rstrip_slashes s); [by destruct (is_slash a)|done].
Qed.

Lemma path_of_rel s : startswith "/" s = false → p_root (path_of s) = "".
Proof.
  intros Hs. assert (startswith "//" s = false) as E.
  { destruct s as [|a s]; [done|]. simpl in Hs |- *. destruct (bool_decide _); [by destruct s|done]. }
  by rw /path_of /path_root E Hs.
Qed.

Lemma strip_start s : startswith "/" (strip_slashes s) = false.
Proof. apply rstrip_start, lstrip_start. Qed.

(** The public path of a project of a bucket is its path below the location for a
    root url without a prefix.  With a prefix there is none: the paths of the
    uris are absolute, those of prefixes are not. *)
Theorem s3_public_path_prefix url location rooturl :
  startswith "/" (u_path url) = true → startswith "//" (u_path url) = false →
  s3_public_path url location rooturl =
    if str_truth (strip_slashes (u_path rooturl)) then Raise (ValueError "is not in the subpath")
    else Ok (path_str (path_join (path_of location) (PPath "" (p_parts (path_of (u_path url)))))).
Proof.
  intros Hs Hd. rw /s3_public_path /str_or.
  assert (p_root (path_of (u_path url)) = "/") as Hr by by rw /path_of /path_root Hs Hd.
  destruct (str_truth (strip_slashes (u_path rooturl))) eqn:E.
  - rw /path_relative_to (path_of_rel (strip_slashes (u_path rooturl))); [apply strip_start|]. by rw Hr.
  - by rw /path_relative_to Hr.
Qed.

(** The resources of a uri are never listed: their names are compared with its
    absolute path, and the first one raises. *)
Theorem s3_list_resources_fails client url subpath bucket :
  hostname url = Some bucket → startswith "/" (u_path url) = true →
  (∀ b p r o, o ∈ list_objects client b p r → startswith "/" (so_name o) = false) →
  s3_list_resources client url subpath = ([], None) ∨
  s3_list_resources client url subpath = ([], Some (ValueError "is not in the subpath")).
Proof.
  intros Hb Hs Hn. rw /s3_list_resources /bucket_of Hb. simpl.
  set (l := list_objects client bucket _ false). assert (∀ o, o ∈ l → startswith "/" (so_name o) = false) as Hl by apply Hn.
  destruct l as [|o l]; [by left|right]. simpl.
  rw /path_relative_to (path_of_rel (so_name o)); [apply Hl; left|].
  rw decide_False //. intros He. by apply (path_of_root (u_path url)).
Qed.

(** A project that is missing, or that the client fails to get, ends in the error
    of a variable without a value. *)
Lemma s3_load_unbound {Project} client (load : _ → _ → _ → res Project) tmp m u bucket code s :
  urlsplit (uri m) = Ok u → hostname u = Some bucket → get_object client bucket (u_path u) = inl code →
  s3_load client load tmp m s = (Raise (OtherException "UnboundLocalError: resp"), s).
Proof. intros Hu Hb Hg. rw /s3_load /bucket_of. py_unfold. by rw Hu /= Hb /= Hg. Qed.

(** ** Witnesses *)
Module StorageDemo.
Definition conf : Url := SplitResult "postgresql" "user@host" "" "dbname=gis" "".
Definition url : Url := SplitResult "pg" "" "roads & rails" "schema=public" "".
Definition root : Url := SplitResult "pg" "" "" "schema=public" "".
Definition resolved : Url :=
  SplitResult "postgresql" "user@host" "" "dbname=gis&schema=public&project=roads+%26+rails" "".
Definition bucket (prefix : string) : Url := SplitResult "s3" "bucket" prefix "" "".
Definition object : Url := SplitResult "s3" "bucket" "/maps/a.qgz" "" "".
End StorageDemo.

Lemma postgres_public_path_inverse_witness :
  postgres_resolve_uri StorageDemo.conf StorageDemo.url =
    Ok "postgresql://user@host?dbname=gis&schema=public&project=roads+%26+rails" ∧
  postgres_public_path StorageDemo.conf StorageDemo.resolved "/pub" StorageDemo.root = Ok "/pub/roads & rails".
Proof.
  split; [reflexivity|].
  destruct (postgres_public_path_inverse StorageDemo.conf StorageDemo.url StorageDemo.root "/pub"
    StorageDemo.resolved) as (name & Hn & _ & Hp); [reflexivity..|].
  rewrite Hp. vm_compute in Hn. injection Hn as <-. reflexivity.
Defined.

Lemma s3_public_path_prefix_witness :
  s3_public_path StorageDemo.object "/pub" (StorageDemo.bucket "") = Ok "/pub/maps/a.qgz" ∧
  s3_public_path StorageDemo.object "/pub" (StorageDemo.bucket "/maps") = Raise (ValueError "is not in the subpath").
Proof.
  split; [apply (s3_public_path_prefix StorageDemo.object "/pub" (StorageDemo.bucket "")); reflexivity|].
  apply (s3_public_path_prefix StorageDemo.object "/pub" (StorageDemo.bucket "/maps")); reflexivity.
Defined.
