(* ===== verification/Messages.v ===== *)
(** * Messages between the server and its worker processes

    [qjazz_rpc/messages.py]: the message and reply types and the functions that
    send them; [qjazz_rpc/connection.py]: the framing of messages on the pipe
    and the rendez-vous with the parent process. *)
From S2P Require Import Prelude PyStd.

(** ** messages.py: types *)
Inductive MsgType : Type :=
| PING | QUIT | OWSREQUEST | APIREQUEST | CHECKOUT_PROJECT | DROP_PROJECT
| CLEAR_CACHE | LIST_CACHE | UPDATE_CACHE | PROJECT_INFO | PLUGINS | CATALOG
| PUT_CONFIG | GET_CONFIG | ENV | STATS | SLEEP | COLLECTIONS.

Definition MsgType_value (t : MsgType) : Z :=
  match t with
  | PING => 1 | QUIT => 2 | OWSREQUEST => 4 | APIREQUEST => 5
  | CHECKOUT_PROJECT => 6 | DROP_PROJECT => 7 | CLEAR_CACHE => 8
  | LIST_CACHE => 9 | UPDATE_CACHE => 10 | PROJECT_INFO => 11 | PLUGINS => 12
  | CATALOG => 13 | PUT_CONFIG => 14 | GET_CONFIG => 15 | ENV => 16
  | STATS => 17 | SLEEP => 18 | COLLECTIONS => 19
  end.

Inductive HTTPMethod : Type :=
| GET | HEAD | POST | PUT | DELETE | CONNECT | OPTIONS | TRACE | PATCH.

#[global] Instance HTTPMethod_eq_dec : EqDecision HTTPMethod.
Proof. solve_decision. Defined.

(** The text of a method in a message, as the enumeration spells it. *)
Definition HTTPMethod_value (m : HTTPMethod) : string :=
  match m with
  | GET => "GET" | HEAD => "HEAD" | POST => "POST" | PUT => "PUT"
  | DELETE => "DELATE" | CONNECT => "CONNECT" | OPTIONS => "OPTIONS"
  | TRACE => "TRACE" | PATCH => "PATCH"
  end.

Definition all_methods : list HTTPMethod :=
  [GET; HEAD; POST; PUT; DELETE; CONNECT; OPTIONS; TRACE; PATCH].

(** [HTTPMethod(s)], the validation of the field of a message *)
Definition HTTPMethod_of (s : string) : option HTTPMethod :=
  snd <$> list_find (fun m => HTTPMethod_value m = s) all_methods.

Record OwsRequestMsg : Type := {
  ows_service : string; ows_request : string; ows_target : string;
  ows_url : option string; ows_version : option string; ows_direct : bool;
  ows_options : option string; ows_headers : list (string * string);
  ows_request_id : option string; ows_header_prefix : option string;
  ows_content_type : option string; ows_method : option HTTPMethod;
  ows_body : option (list Z); ows_send_report : bool;
}.

Record ApiRequestMsg : Type := {
  api_name : string; api_path : string; api_method : HTTPMethod; api_url : string;
  api_data : option (list Z); api_delegate : bool; api_target : option string;
  api_direct : bool; api_options : option string; api_headers : list (string * string);
  api_request_id : option string; api_header_prefix : option string;
  api_content_type : option string; api_send_report : bool;
}.

Record CollectionsMsg : Type := {
  c_location : option string; c_resource : option string; c_start : nat; c_end : nat;
}.

(** The tagged union [Message]. *)
Inductive Message : Type :=
| MOws (m : OwsRequestMsg)
| MApi (m : ApiRequestMsg)
| MCollections (m : CollectionsMsg)
| MPing (echo : option string)
| MQuit
| MCheckoutProject (uri : string) (pull : bool)
| MDropProject (uri : string)
| MClearCache
| MListCache
| MUpdateCache
| MPlugins
| MGetProjectInfo (uri : string)
| MGetConfig
| MPutConfig (config : option string)
| MCatalog (location : option string)
| MGetEnv
| MSleep (delay : Z).

(** The discriminator field. *)
Definition msg_id (m : Message) : MsgType :=
  match m with
  | MOws _ => OWSREQUEST | MApi _ => APIREQUEST | MCollections _ => COLLECTIONS
  | MPing _ => PING | MQuit => QUIT | MCheckoutProject _ _ => CHECKOUT_PROJECT
  | MDropProject _ => DROP_PROJECT | MClearCache => CLEAR_CACHE
  | MListCache => LIST_CACHE | MUpdateCache => UPDATE_CACHE | MPlugins => PLUGINS
  | MGetProjectInfo _ => PROJECT_INFO | MGetConfig => GET_CONFIG
  | MPutConfig _ => PUT_CONFIG | MCatalog _ => CATALOG | MGetEnv => ENV
  | MSleep _ => SLEEP
  end.

(** *** Replies *)
Record CacheInfo : Type := {
  ci_uri : string; ci_status : Z; ci_in_cache : bool; ci_cache_id : string;
  ci_timestamp : option Z; ci_name : option string; ci_storage : option string;
  ci_last_modified : option string; ci_saved_version : option string;
  ci_debug : option (option Z * Z); ci_last_hit : Z; ci_hits : Z; ci_pinned : bool;
}.

Record LayerInfo : Type := {
  li_layer_id : string; li_name : string; li_source : string; li_provider : string;
  li_layer_type : string; li_crs : string; li_is_valid : bool; li_is_spatial : bool;
}.

Record ProjectInfo : Type := {
  pi_status : Z; pi_uri : string; pi_filename : string; pi_crs : string;
  pi_last_modified : string; pi_storage : string; pi_has_bad_layers : bool;
  pi_layers : list LayerInfo; pi_cache_id : string;
}.

Record CatalogItemMsg : Type := {
  cat_uri : string; cat_name : string; cat_storage : string;
  cat_last_modified : string; cat_public_uri : string;
}.

Record CollectionsItem : Type := { co_name : string; co_json : string; co_endpoints : Z }.
Record CollectionsPage : Type := {
  cp_schema : string; cp_next : bool; cp_items : list CollectionsItem;
}.

Record RequestReply : Type := {
  rr_status_code : Z; rr_target : option string; rr_checkout_status : option Z;
  rr_headers : list (string * string); rr_cache_id : string;
}.
#[global] Instance RequestReply_inhabited : Inhabited RequestReply :=
  populate {| rr_status_code := 0; rr_target := None; rr_checkout_status := None;
              rr_headers := []; rr_cache_id := "" |}.

(** [monitor.Report] *)
Record Report : Type := {
  rep_req_id : string; rep_service : string; rep_request : string; rep_target : string;
  rep_target_hits : Z; rep_response_status : Z; rep_response_time : Z;
}.

(** What a reply carries: a [Response] model, a text, nothing, or a value the
    worker gets from elsewhere (configuration, environment, plugins). *)
Inductive Payload : Type :=
| PCacheInfo (i : CacheInfo)
| PProjectInfo (i : ProjectInfo)
| PCatalogItem (i : CatalogItemMsg)
| PCollections (p : CollectionsPage)
| PRequest (r : RequestReply)
| PReport (r : Report)
| PText (s : string)
| PNone
| PJson (s : string).

(** One call of [conn.send_bytes]: a packed envelope, a packed status, or raw
    bytes that follow a 206. *)
Inductive Frame : Type :=
| FReply (status : Z) (msg : Payload)
| FItem (status : Z) (msg : Payload)
| FStatus (status : Z)
| FBytes (data : list Z).

(** ** The sending side of a connection

    [Connection.send_bytes] drops everything once the request is cancelled. *)
Record Conn : Type := MkConn { cancelled : bool; out : list Frame }.

Definition send_frame (f : Frame) : M Conn unit :=
  modify (fun c => if cancelled c then c else MkConn (cancelled c) (out c ++ [f])).

(** [send_reply] *)
Definition send_reply (msg : Payload) (status : Z) : M Conn unit :=
  send_frame (FReply status msg).

(** [send_chunk] *)
Definition send_chunk (data : list Z) : M Conn unit :=
  if decide (0 < length data) then send_frame (FStatus 206);; send_frame (FBytes data)
  else send_frame (FStatus 204).

(** [stream_data], on a generator already run: its items, and the exception
    that ended it, which reaches the caller before the end of transmission is
    sent *)
Fixpoint stream_items (items : list Payload) : M Conn unit :=
  match items with
  | [] => mret tt
  | i :: items => send_frame (FItem 206 i);; stream_items items
  end.
Definition stream_data (stream : list Payload * option exn) : M Conn unit :=
  stream_items stream.1;;
  match stream.2 with
  | Some e => raise e
  | None => send_frame (FStatus 204)
  end.

(** [send_nodata] *)
Definition send_nodata : M Conn unit := send_frame (FStatus 204).

Lemma send_frame_open f c :
  cancelled c = false → send_frame f c = (Ok tt, MkConn false (out c ++ [f])).
Proof. rw /send_frame. py_unfold. destruct c as [[] o]; naive_solver. Qed.

(** ** connection.py: framing on the pipe *)
Module Framing.
Definition byte_ok (b : Z) : Prop := (0 ≤ b < 256)%Z.

(** [pack("!i", n)]: signed, four bytes, most significant first *)
Definition pack_i (n : Z) : res (list Z) :=
  if decide (-2147483648 ≤ n ≤ 2147483647)%Z then
    let u := (n `mod` 4294967296)%Z in
    Ok [u `div` 16777216; (u `div` 65536) `mod` 256; (u `div` 256) `mod` 256; u `mod` 256]%Z
  else Raise (OtherException "struct.error").

(** [unpack("!i", b)] *)
Definition unpack_i (b : list Z) : res Z :=
  match b with
  | [a; b; c; d] =>
      let u := (a * 16777216 + b * 65536 + c * 256 + d)%Z in
      Ok (if decide (u < 2147483648)%Z then u else (u - 4294967296)%Z)
  | _ => Raise (OtherException "struct.error")
  end.

Arguments unpack_i : simpl never.

(** The writing end of the pipe. [Connection.send_bytes]: the loop around
    [os.write] leaves, whatever each call accepts, the whole buffer written;
    [accepts] gives what the successive calls accept. *)
Fixpoint write_all (accepts : list nat) (data : list Z) (pipe : list Z) :
    option (list Z) :=
  match data with
  | [] => Some pipe
  | _ =>
      match accepts with
      | [] => None
      | k :: accepts => write_all accepts (drop k data) (pipe ++ take k data)
      end
  end.
Definition send_bytes (accepts : list nat) (data pipe : list Z) : res (option (list Z)) :=
  hd ← pack_i (Z.of_nat (length data));
  Ok (write_all accepts data (pipe ++ hd)).

(** The reading end. [os.read(fd, n)] answers at most [n] of the bytes in the
    pipe, at least one when there are any, and nothing at the end of file;
    [k] says how many it gives. *)
Definition os_read (n k : nat) (pipe : list Z) : list Z * list Z :=
  let j := Nat.min n (Nat.max 1 k) in (take j pipe, drop j pipe).

(** The loop of [Connection.recv] that completes a frame; [None] when the
    readings are exhausted and the loop still runs. *)
Fixpoint read_loop (reads : list nat) (remaining : nat) (buf pipe : list Z) :
    option (list Z * list Z) :=
  match remaining with
  | 0 => Some (buf, pipe)
  | _ =>
      match reads with
      | [] => None
      | k :: reads =>
          let '(chunk, pipe) := os_read remaining k pipe in
          read_loop reads (remaining - length chunk) (buf ++ chunk) pipe
      end
  end.

(** [Connection.recv] up to the unpacking of the message: the data of the
    next frame and what stays in the pipe. *)
Definition recv (k0 k1 : nat) (reads : list nat) (pipe : list Z) :
    res (option (list Z * list Z)) :=
  let '(b, pipe) := os_read 4 k0 pipe in
  match b with
  | [] => Raise (OtherException "SystemExit")
  | _ =>
      size ← unpack_i b;
      if decide (size < 0)%Z then Raise (OtherException "OSError")
      else
        let '(data, pipe) := os_read (Z.to_nat size) k1 pipe in
        if decide (length data < Z.to_nat size)
        then Ok (read_loop reads (Z.to_nat size - length data) data pipe)
        else Ok (Some (data, pipe))
  end.

Lemma pack_unpack n b : pack_i n = Ok b → unpack_i b = Ok n ∧ length b = 4.
Proof.
  rw /pack_i. destruct (decide _) as [Hn|]; [|done]. intros [= <-]. split; [|done].
  rw /unpack_i. f_equal.
  assert (∀ u, (0 ≤ u)%Z → (u `div` 16777216 * 16777216 + (u `div` 65536) `mod` 256 * 65536 +
    (u `div` 256) `mod` 256 * 256 + u `mod` 256 = u)%Z) as H.
  { intros u Hu. replace 16777216%Z with (65536 * 256)%Z by lia.
    rw -Z.div_div; [lia..|]. replace 65536%Z with (256 * 256)%Z by lia.
    rw -Z.div_div; [lia..|]. set (q := (u `div` 256)%Z). set (q2 := (q `div` 256)%Z).
    pose proof (Z.div_mod u 256). pose proof (Z.div_mod q 256).
    pose proof (Z.div_mod q2 256). lia. }
  pose proof (Z.mod_pos_bound n 4294967296 eq_refl).
  rw H; [lia|]. destruct (decide (0 ≤ n)%Z).
  - rw !Z.mod_small; [lia..|]. rw decide_True //. lia.
  - assert (n `mod` 4294967296 = n + 4294967296)%Z as ->.
    { symmetry. apply (Z.mod_unique n 4294967296 (-1)); lia. }
    rw decide_False; lia.
Qed.

Lemma write_all_done accepts data pipe :
  length data ≤ length accepts → Forall (fun k => 0 < k) accepts →
  write_all accepts data pipe = Some (pipe ++ data).
Proof.
  revert data pipe. induction accepts as [|k accepts IH]; intros data pipe Hl Hk.
  { destruct data; [|simpl in Hl; lia]. by rw /= app_nil_r. }
  apply Forall_cons in Hk as [Hk0 Hk].
  destruct data as [|x data]; [by rw /= app_nil_r|]. cbn [write_all].
  rw IH //.
  - rw length_drop /=. simpl in Hl. lia.
  - by rw -app_assoc take_drop.
Qed.

Lemma read_loop_done reads n buf data pipe :
  n = length data → n ≤ length reads →
  read_loop reads n buf (data ++ pipe) = Some (buf ++ data, pipe).
Proof.
  revert n buf data. induction reads as [|k reads IH]; intros n buf data Hn Hl.
  { destruct data; simplify_eq/=; [by rw app_nil_r|lia]. }
  destruct n as [|n]; [destruct data; [by rw /= app_nil_r|done]|].
  cbn [read_loop]. rw /os_read. set (j := Nat.min (S n) (Nat.max 1 k)).
  assert (1 ≤ j ≤ length data) as Hj by lia.
  rw take_app_le; [lia|]. rw drop_app_le; [lia|].
  rw IH; [rw length_take length_drop; lia|rw length_take; simpl in Hl; lia|].
  by rw -app_assoc take_drop.
Qed.
End Framing.
Import Framing.



(** C39. When the parent closes the pipe in the middle of a frame, [recv] never
    returns: the loop asks for the missing bytes again and again, however many
    reads it is given. *)
Theorem recv_truncated_spins k1 reads size data :
  0 < size → (Z.of_nat size ≤ 2147483647)%Z → length data < size →
  ∀ hd, pack_i (Z.of_nat size) = Ok hd →
  recv 4 k1 reads (hd ++ data) = Ok None.
Proof.
  intros H0 Hsz Hlt hd Hp. apply pack_unpack in Hp as [Hu Hl4].
  rw /recv /os_read. rw (take_app_length' hd _ (Nat.min 4 (Nat.max 1 4))) //.
  rw (drop_app_length' hd _ (Nat.min 4 (Nat.max 1 4))) //.
  destruct hd as [|b hd]; [done|]. py_unfold. rw Hu Nat2Z.id.
  rw decide_False; [lia|]. rw decide_True; [rw length_take; lia|]. f_equal.
  rw length_take. clear Hu Hl4.
  assert (∀ rds n buf pipe, length pipe < n → read_loop rds n buf pipe = None) as Hspin.
  { induction rds as [|k rs IH]; intros n buf pipe Hn;
      (destruct n as [|n]; [lia|]); [done|]. cbn [read_loop]. rw /os_read. apply IH.
    rw length_take length_drop. lia. }
  apply Hspin. rw length_drop. lia.
Qed.

Lemma recv_truncated_spins_witness :
  recv 4 2 [1; 1; 1; 1] ([0; 0; 0; 5] ++ [7; 8])%Z = Ok None.
Proof. apply (recv_truncated_spins 2 [1; 1; 1; 1] 5 [7; 8]%Z); [lia|lia|simpl; lia|reflexivity]. Defined.

(** ** connection.py: rendez-vous

    [RendezVous]: the state written last to the parent, and what was written. *)
Record RendezVous : Type := MkRdv { _busy : bool; rdv_out : list Z }.
Definition rendez_vous_init : RendezVous := MkRdv true [].
Definition busy (r : RendezVous) : RendezVous :=
  if _busy r then r else MkRdv true (rdv_out r ++ [1%Z]).
Definition done_ (r : RendezVous) : RendezVous :=
  if _busy r then MkRdv false (rdv_out r ++ [0%Z]) else r.

(** The bytes a parent sees alternate, starting with the one that says the
    worker waits. *)
Fixpoint alternates (next : Z) (l : list Z) : Prop :=
  match l with
  | [] => True
  | b :: l => b = next ∧ alternates (1 - next)%Z l
  end.

Definition rdv_ok (r : RendezVous) : Prop :=
  alternates 0 (rdv_out r) ∧
  _busy r = Nat.even (length (rdv_out r)).

#[local] Arguments Nat.even : simpl never.

Lemma alternates_snoc n l b :
  alternates n l → b = (if Nat.even (length l) then n else 1 - n)%Z → alternates n (l ++ [b]).
Proof.
  revert n. induction l as [|x l IH]; intros n; simpl; [done|].
  intros [-> Ha] ->. split; [done|]. apply IH; [done|].
  rw Nat.even_succ -Nat.negb_even. destruct (Nat.even (length l)); simpl; lia.
Qed.

(** Whatever the order in which the worker reports itself busy and done,
    the parent reads a strictly alternating sequence of states, the first of
    which says that the worker is waiting. *)
Theorem rendez_vous_alternates (calls : list bool) :
  rdv_ok (foldl (fun r (b : bool) => if b then busy r else done_ r) rendez_vous_init calls).
Proof.
  assert (∀ r, rdv_ok r → rdv_ok (foldl (fun r (b : bool) => if b then busy r else done_ r) r calls)) as H;
    [|by apply H].
  induction calls as [|b calls IH]; intros r Hr; [done|]. apply IH.
  destruct r as [bz o]. destruct Hr as [Ha Hb]. simpl in *.
  destruct b; rw /busy /done_ /=; destruct bz; try done.
  all: split; [apply alternates_snoc; [done|]|]; simpl.
  all: rw ?length_app ?Nat.add_1_r ?Nat.even_succ -?Nat.negb_even -?Hb; done.
Qed.
