(* ===== verification/Response.v ===== *)
(** * Streaming of responses

    [qjazz_rpc/requests.py]: the adaptor QGIS server writes its responses to,
    which sends them over the connection as a header, chunks of data and a
    final mark. *)
From stdpp Require Import pretty.
From S2P Require Import Prelude PyDict PyStd Messages.

(** [_to_qgis_method]; the methods of [QgsServerRequest] *)
Inductive QgsMethod : Type :=
| GetMethod | HeadMethod | PostMethod | PutMethod | DeleteMethod | PatchMethod.

Definition _to_qgis_method (m : HTTPMethod) : res QgsMethod :=
  match m with
  | GET => Ok GetMethod | HEAD => Ok HeadMethod | POST => Ok PostMethod
  | PUT => Ok PutMethod | DELETE => Ok DeleteMethod | PATCH => Ok PatchMethod
  | CONNECT => Raise (ValueError "CONNECT") | OPTIONS => Raise (ValueError "OPTIONS")
  | TRACE => Raise (ValueError "TRACE")
  end.

(** The value of a header: a text, or the list of texts that a map request puts
    there. *)
Inductive hvalue : Type := HStr (s : string) | HList (l : list string).

(** ** Response *)
Record Response : Type := MkResponse {
  _buffer : list Z;
  _finish : bool;
  _status_code : Z;
  _header_written : bool;
  _headers : pydict string hvalue;
  _co_status : option Z;
  _extra_headers : list (string * hvalue);
  _chunk_size : Z;
  _cache_id : string;
  _header_prefix : string;
  _target : option string;
}.

Definition dict_update (l : list (string * hvalue)) (d : pydict string hvalue) :
    pydict string hvalue := foldl (fun d kv => insert kv.1 kv.2 d) d l.

(** [Response.__init__] *)
Definition new_response (target : option string) (co_status : option Z)
    (headers : list (string * hvalue)) (chunk_size : Z) (cache_id : string)
    (header_prefix : option string) : Response :=
  MkResponse [] false 200 false PyDict.empty co_status headers chunk_size cache_id
    (default "" header_prefix) target.

(** The response with the connection it writes to. *)
Record RS : Type := MkRS { resp : Response; conn : Conn }.

Definition upd_resp (f : Response → Response) : M RS unit :=
  modify (fun s => MkRS (f (resp s)) (conn s)).
Definition on_conn {A} (m : M Conn A) : M RS A :=
  zoom conn (fun c s => MkRS (resp s) c) m.

Definition set_buffer (b : list Z) (r : Response) : Response :=
  MkResponse b (_finish r) (_status_code r) (_header_written r) (_headers r) (_co_status r)
    (_extra_headers r) (_chunk_size r) (_cache_id r) (_header_prefix r) (_target r).
Definition set_finish (r : Response) : Response :=
  MkResponse (_buffer r) true (_status_code r) (_header_written r) (_headers r) (_co_status r)
    (_extra_headers r) (_chunk_size r) (_cache_id r) (_header_prefix r) (_target r).
Definition set_status (c : Z) (r : Response) : Response :=
  MkResponse (_buffer r) (_finish r) c (_header_written r) (_headers r) (_co_status r)
    (_extra_headers r) (_chunk_size r) (_cache_id r) (_header_prefix r) (_target r).
Definition set_written (r : Response) : Response :=
  MkResponse (_buffer r) (_finish r) (_status_code r) true (_headers r) (_co_status r)
    (_extra_headers r) (_chunk_size r) (_cache_id r) (_header_prefix r) (_target r).
Definition set_headers (h : pydict string hvalue) (r : Response) : Response :=
  MkResponse (_buffer r) (_finish r) (_status_code r) (_header_written r) h (_co_status r)
    (_extra_headers r) (_chunk_size r) (_cache_id r) (_header_prefix r) (_target r).

(** [setStatusCode] *)
Definition setStatusCode (code : Z) : M RS unit :=
  upd_resp (fun r => if _header_written r then r else set_status code r).

(** [setHeader] *)
Definition setHeader (key value : string) : M RS unit :=
  upd_resp (fun r => if _header_written r then r
                     else set_headers (insert key (HStr value) (_headers r)) r).

(** [removeHeader] *)
Definition removeHeader (key : string) : M RS unit :=
  upd_resp (fun r => set_headers (delete key (_headers r)) r).

(** The reply [_send_response] sends, from the headers after they were updated
    with the extra ones.  The model of the reply wants texts, and refuses a
    header with another value. *)
Fixpoint header_texts (prefix : string) (l : list (string * hvalue)) : res (list (string * string)) :=
  match l with
  | [] => Ok []
  | (k, HStr v) :: l => hs ← header_texts prefix l; Ok ((prefix +:+ k, v) :: hs)
  | (_, HList _) :: _ => Raise (ValidationError "headers")
  end.
Definition reply_of (r : Response) : res RequestReply :=
  hs ← header_texts (_header_prefix r) (items (_headers r));
  Ok {|
    rr_status_code := _status_code r;
    rr_target := _target r;
    rr_checkout_status := _co_status r;
    rr_headers := hs;
    rr_cache_id := _cache_id r;
  |}.

(** [_send_response] *)
Definition _send_response : M RS unit :=
  upd_resp (fun r => set_headers (dict_update (_extra_headers r) (_headers r)) r);;
  r ← gets resp;
  reply ← pure (reply_of r);
  on_conn (send_reply (PRequest reply) 200);;
  upd_resp set_written.

(** [data[i : i + size] for i in range(0, len(data), size)]; [fuel] bounds the
    number of slices, and the length of the data is enough for it. *)
Fixpoint slices (fuel size : nat) (data : list Z) : list (list Z) :=
  match fuel, data with
  | S fuel, _ :: _ => take size data :: slices fuel size (drop size data)
  | _, _ => []
  end.
Definition chunks (size : Z) (data : list Z) : res (list (list Z)) :=
  if decide (size = 0)%Z then Raise (ValueError "range() arg 3 must not be zero")
  else if decide (size < 0)%Z then Ok []
  else Ok (slices (length data) (Z.to_nat size) data).

Fixpoint send_chunks (l : list (list Z)) : M Conn unit :=
  match l with
  | [] => mret tt
  | c :: l => send_chunk c;; send_chunks l
  end.

(** [flush] *)
Definition flush : M RS unit :=
  r ← gets resp;
  let bytes_avail := length (_buffer r) in
  (if _finish r && negb (bytes_avail =? 0) && negb (_header_written r)
   then upd_resp (fun r => set_headers
          (insert "Content-Length" (HStr (pretty (N.of_nat bytes_avail))) (_headers r)) r)
   else mret tt);;
  (if _header_written r then mret tt else _send_response);;
  cs ← pure (chunks (_chunk_size r) (_buffer r));
  on_conn (send_chunks cs);;
  (if _finish r then on_conn (send_chunk []) else mret tt);;
  upd_resp (set_buffer []).

(** [finish] *)
Definition finish : M RS unit :=
  r ← gets resp;
  if _finish r then mret tt else upd_resp set_finish;; flush.

(** A write of QGIS server to [io()] *)
Definition write (data : list Z) : M RS unit :=
  upd_resp (fun r => set_buffer (_buffer r ++ data) r).

(** [truncate], [clear] *)
Definition truncate : M RS unit := upd_resp (set_buffer []).
Definition clear : M RS unit := upd_resp (set_headers PyDict.empty);; truncate.

(** [sendError], on the encoded message; an exception inside is logged. *)
Definition sendError (code : Z) (message : list Z) : M RS unit :=
  try_except
    (r ← gets resp;
     if _header_written r then mret tt
     else upd_resp (set_status code);; truncate;; write message;; finish)
    (fun _ => Some (mret tt)).

(** ** Properties *)

Lemma on_conn_ok {A} (m : M Conn A) s a c :
  m (conn s) = (Ok a, c) → on_conn m s = (Ok a, MkRS (resp s) c).
Proof. rw /on_conn /zoom. by intros ->. Qed.

(** Headers that are texts are accepted. *)
Definition all_text (l : list (string * hvalue)) : Prop :=
  ∀ kv, kv ∈ l → ∃ s, kv.2 = HStr s.

Lemma header_texts_ok prefix l :
  all_text l → ∃ hs, header_texts prefix l = Ok hs ∧
    ∀ k v, (k, HStr v) ∈ l → (prefix +:+ k, v) ∈ hs.
Proof.
  induction l as [|[k v] l IH]; intros Hl.
  { exists []. split; [done|]. intros ?? []%not_elem_of_nil. }
  destruct (Hl (k, v)) as [s Hs]; [by left|]. simpl in Hs. subst v.
  destruct IH as (hs & Hh & Hin); [by intros kv ?; apply Hl; right|]. simpl. rw Hh.
  eexists. split; [done|]. intros k' v'. rw elem_of_cons. intros [[= -> ->]|?]; [by left|].
  right. auto.
Qed.

Lemma all_text_insert k s d :
  all_text (items d) → all_text (items (insert k (HStr s) d)).
Proof. intros Hd kv [->|?]%items_insert_elem; eauto. Qed.

Lemma all_text_delete k d : all_text (items d) → all_text (items (delete k d)).
Proof. intros Hd kv Hin%items_delete_elem. auto. Qed.

Lemma all_text_update l d : all_text l → all_text (items d) → all_text (items (dict_update l d)).
Proof.
  revert d. induction l as [|[k v] l IH]; intros d Hl Hd; [done|]. simpl.
  destruct (Hl (k, v)) as [s Hs]; [by left|]. simpl in Hs. subst v.
  apply IH; [by intros kv ?; apply Hl; right|]. by apply all_text_insert.
Qed.

(** The header of a response whose headers are texts can be sent. *)
Definition texts (r : Response) : Prop := all_text (items (_headers r)) ∧ all_text (_extra_headers r).

Lemma texts_sent r b :
  texts r → texts (set_buffer b (set_written (set_headers (dict_update (_extra_headers r) (_headers r)) r))).
Proof. intros [Hh Hx]. split; [by apply all_text_update|done]. Qed.

Lemma send_response_ok r c :
  texts r → cancelled c = false →
  ∃ hdr, _send_response (MkRS r c) =
    (Ok tt, MkRS (set_written (set_headers (dict_update (_extra_headers r) (_headers r)) r))
              (MkConn false (out c ++ [FReply 200 (PRequest hdr)]))) ∧
    ∀ k v, (k, HStr v) ∈ items (dict_update (_extra_headers r) (_headers r)) →
      (_header_prefix r +:+ k, v) ∈ rr_headers hdr.
Proof.
  intros [Hh Hx] Hc. destruct (header_texts_ok (_header_prefix r)
    (items (dict_update (_extra_headers r) (_headers r)))) as (hs & Hhs & Hin);
    [by apply all_text_update|].
  set (r1 := set_headers (dict_update (_extra_headers r) (_headers r)) r).
  assert (∃ hdr, reply_of r1 = Ok hdr ∧ rr_headers hdr = hs) as (hdr & Hr & Hhdr).
  { rw /reply_of /= Hhs. by eexists. }
  exists hdr. split; [|by rw Hhdr].
  rw /_send_response. erewrite bind_ok by reflexivity. erewrite bind_ok by reflexivity.
  rw (bind_ok _ _ _ hdr (MkRS r1 c)); [by rw /pure Hr|].
  erewrite bind_ok; last by apply on_conn_ok, send_frame_open. done.
Qed.

Lemma slices_spec fuel size data :
  0 < size → length data ≤ fuel →
  concat (slices fuel size data) = data ∧
  Forall (fun c => 0 < length c ≤ size) (slices fuel size data).
Proof.
  intros Hs. revert data. induction fuel as [|fuel IH]; intros data Hf.
  { destruct data; [done|simpl in Hf; lia]. }
  destruct data as [|x data]; [done|]. cbn [slices].
  destruct (IH (drop size (x :: data))) as [Hc Ha].
  { rw length_drop. simpl in *. lia. }
  split; [by rw /= Hc take_drop|]. constructor; [|done]. rw length_take /=. lia.
Qed.

(** The frames of a list of chunks. *)
Definition chunk_frames (l : list (list Z)) : list Frame :=
  l ≫= (fun d => [FStatus 206; FBytes d]).

Lemma send_chunks_open l c :
  cancelled c = false → Forall (fun d => 0 < length d) l →
  send_chunks l c = (Ok tt, MkConn false (out c ++ chunk_frames l)).
Proof.
  revert c. induction l as [|d l IH]; intros c Hc Hl.
  { rw /= app_nil_r. destruct c; simpl in *. by subst. }
  apply Forall_cons in Hl as [Hd Hl]. cbn [send_chunks].
  erewrite bind_ok; last first.
  { rw /send_chunk decide_True; [done|]. erewrite bind_ok by by apply send_frame_open.
    by apply send_frame_open. }
  rw IH //=. by rw -!app_assoc.
Qed.

(** How a response stands after [written] was written to it, on a connection
    that had sent [base]. *)
Definition streaming (base : list Frame) (size : Z) (written : list Z) (s : RS) : Prop :=
  cancelled (conn s) = false ∧ _finish (resp s) = false ∧ _chunk_size (resp s) = size ∧
  texts (resp s) ∧
  if _header_written (resp s) then
    ∃ hdr ds, out (conn s) = base ++ FReply 200 (PRequest hdr) :: chunk_frames ds ∧
      Forall (fun d => 0 < length d ≤ Z.to_nat size) ds ∧
      concat ds ++ _buffer (resp s) = written
  else out (conn s) = base ∧ _buffer (resp s) = written.

(** What QGIS server does with a response before it finishes it. *)
Inductive Op : Type :=
| OWrite (data : list Z) | OFlush | OSetHeader (k v : string)
| ORemoveHeader (k : string) | OSetStatus (c : Z).

Definition run_op (o : Op) : M RS unit :=
  match o with
  | OWrite d => write d
  | OFlush => flush
  | OSetHeader k v => setHeader k v
  | ORemoveHeader k => removeHeader k
  | OSetStatus c => setStatusCode c
  end.
Definition written_by (o : Op) : list Z := match o with OWrite d => d | _ => [] end.
Fixpoint run_ops (os : list Op) : M RS unit :=
  match os with [] => mret tt | o :: os => run_op o;; run_ops os end.

(** Sending the header when it is not there yet, then everything buffered. *)
Lemma flush_spec s fin :
  cancelled (conn s) = false → (0 < _chunk_size (resp s))%Z → _finish (resp s) = fin →
  texts (resp s) →
  ∃ s' ds, flush s = (Ok tt, s') ∧
    _buffer (resp s') = [] ∧ _finish (resp s') = fin ∧ _header_written (resp s') = true ∧
    _chunk_size (resp s') = _chunk_size (resp s) ∧ texts (resp s') ∧ cancelled (conn s') = false ∧
    concat ds = _buffer (resp s) ∧
    Forall (fun d => 0 < length d ≤ Z.to_nat (_chunk_size (resp s))) ds ∧
    (∃ hdr, out (conn s') =
      (if _header_written (resp s) then out (conn s) else out (conn s) ++ [FReply 200 (PRequest hdr)])
      ++ chunk_frames ds ++ if fin then [FStatus 204] else []).
Proof.
  intros Hc Hs Hf Ht. destruct s as [r c]; simpl in *.
  destruct (slices_spec (length (_buffer r)) (Z.to_nat (_chunk_size r)) (_buffer r)) as [Hcat Hall];
    [lia|done|].
  set (ds := slices (length (_buffer r)) (Z.to_nat (_chunk_size r)) (_buffer r)) in *.
  assert (chunks (_chunk_size r) (_buffer r) = Ok ds) as Hch.
  { rw /chunks decide_False; [lia|]. rw decide_False //. lia. }
  assert (Forall (fun d : list Z => 0 < length d) ds) as Hne.
  { eapply Forall_impl; [done|]. simpl. lia. }
  rw /flush. erewrite bind_ok by reflexivity. simpl.
  set (r1 := if _finish r && negb (length (_buffer r) =? 0) && negb (_header_written r)
    then set_headers (insert "Content-Length" (HStr (pretty (N.of_nat (length (_buffer r))))) (_headers r)) r
    else r).
  erewrite (bind_ok _ _ _ tt (MkRS r1 c)); last by rw /r1; case_match.
  assert (_header_written r1 = _header_written r ∧ _finish r1 = fin ∧
          _chunk_size r1 = _chunk_size r ∧ texts r1) as (Hw & Hf1 & Hs1 & Ht1).
  { destruct Ht as [Hh Hx]. rw /r1. case_match; split_and!; try done. split; [|done].
    by apply all_text_insert. }
  destruct (_header_written r) eqn:Hhw.
  - erewrite bind_ok by reflexivity. rw Hch. erewrite bind_ok by reflexivity.
    erewrite bind_ok; last first.
    { by apply on_conn_ok, send_chunks_open. }
    rw Hf. destruct fin; eexists _, ds; (split; [reflexivity|]); simpl.
    + split_and!; try done. exists inhabitant. by rw -app_assoc.
    + split_and!; try done. exists inhabitant. by rw app_nil_r.
  - destruct (send_response_ok r1 c Ht1 Hc) as (hdr & Hsr & _). rw (bind_ok _ _ _ _ _ Hsr).
    rw Hch. erewrite bind_ok by reflexivity. erewrite bind_ok; last first.
    { by apply on_conn_ok, send_chunks_open. }
    rw Hf. destruct fin; eexists _, ds; (split; [reflexivity|]); simpl.
    + split_and!; try done; [by apply texts_sent|]. exists hdr. by rw -!app_assoc.
    + split_and!; try done; [by apply texts_sent|]. exists hdr. by rw app_nil_r.
Qed.

Lemma streaming_op base size o w s :
  (0 < size)%Z → streaming base size w s →
  ∃ s', run_op o s = (Ok tt, s') ∧ streaming base size (w ++ written_by o) s'.
Proof.
  intros Hsize. destruct s as [r c]. intros (Hc & Hf & Hs & Ht & Hw). simpl in *.
  destruct o as [d| |k v|k|code]; simpl.
  - eexists. split; [reflexivity|]. split_and!; try done. simpl.
    destruct (_header_written r); simpl.
    + destruct Hw as (hdr & ds & ? & ? & <-). exists hdr, ds. by rw -app_assoc.
    + by destruct Hw as [? ->].
  - destruct (flush_spec (MkRS r c) false)
      as (s' & ds & -> & Hb & Hf' & Hw' & Hs' & Ht' & Hc' & Hcat & Hall & hdr & Ho);
      [done|simpl; lia|done|done|]. exists s'. split; [done|]. rw app_nil_r. simpl in *.
    split_and!; try done; [lia|]. rw Hw' Hb Ho app_nil_r. rw Hs in Hall.
    destruct (_header_written r).
    + destruct Hw as (hdr0 & ds0 & -> & Hall0 & <-). exists hdr0, (ds0 ++ ds).
      rw /chunk_frames bind_app app_nil_r concat_app Hcat -app_assoc. split_and!; [done| |done].
      by apply Forall_app.
    + destruct Hw as [-> <-]. exists hdr, ds. by rw -app_assoc !app_nil_r Hcat.
  - eexists. split; [reflexivity|]. rw app_nil_r. simpl.
    destruct (_header_written r) eqn:E; split_and!; simpl; rw ?E; try done.
    destruct Ht. split; [by apply all_text_insert|done].
  - eexists. split; [reflexivity|]. rw app_nil_r. split_and!; try done.
    destruct Ht. split; [by apply all_text_delete|done].
  - eexists. split; [reflexivity|]. rw app_nil_r. simpl.
    destruct (_header_written r) eqn:E; split_and!; simpl; rw ?E; done.
Qed.

Lemma streaming_ops base size os w s :
  (0 < size)%Z → streaming base size w s →
  ∃ s', run_ops os s = (Ok tt, s') ∧ streaming base size (w ++ (os ≫= written_by)) s'.
Proof.
  intros Hsize. revert w s. induction os as [|o os IH]; intros w s Hst; simpl.
  { exists s. by rw app_nil_r. }
  destruct (streaming_op base size o w s Hsize Hst) as (s1 & H1 & Hst1).
  destruct (IH _ _ Hst1) as (s2 & H2 & Hst2). exists s2.
  rw (bind_ok _ _ _ _ _ H1) app_assoc. done.
Qed.

(** The whole life of a response, on a connection that had sent [base]. *)
Lemma response_stream_from os r c :
  (0 < _chunk_size r)%Z → cancelled c = false →
  _finish r = false → _header_written r = false → _buffer r = [] → texts r →
  ∃ s hdr ds,
    (run_ops os;; finish) (MkRS r c) = (Ok tt, s) ∧ cancelled (conn s) = false ∧
    out (conn s) = out c ++ FReply 200 (PRequest hdr) :: chunk_frames ds ++ [FStatus 204] ∧
    concat ds = os ≫= written_by ∧
    Forall (fun d => 0 < length d ≤ Z.to_nat (_chunk_size r)) ds.
Proof.
  intros Hsize Hcc Hff Hhw Hbuf Ht.
  assert (streaming (out c) (_chunk_size r) [] (MkRS r c)) as H0 by (split_and!; simpl; by rw ?Hhw).
  destruct (streaming_ops _ _ os [] _ Hsize H0) as (s1 & H1 & Hc & Hf & Hs & Ht1 & Hw). simpl in Hw.
  rw (bind_ok _ _ _ _ _ H1) /finish. erewrite bind_ok by reflexivity. rw Hf.
  erewrite bind_ok by reflexivity. destruct s1 as [r1 c1]. simpl in *.
  destruct (flush_spec (MkRS (set_finish r1) c1) true)
    as (s' & ds & -> & _ & _ & _ & _ & _ & Hcl & Hcat & Hall & hdr & Ho); [done|simpl; lia|done|done|].
  simpl in *. rw Hs in Hall. exists s'. destruct (_header_written r1).
  - destruct Hw as (hdr0 & ds0 & Ho0 & Hall0 & <-). exists hdr0, (ds0 ++ ds).
    rw Ho Ho0 /chunk_frames bind_app concat_app Hcat -!app_assoc /=.
    split_and!; try done. by apply Forall_app.
  - destruct Hw as [Ho0 <-]. exists hdr, ds. rw Ho Ho0 -!app_assoc. by split_and!.
Qed.

(** C13. A response reaches the other side whole and in order: when the extra
    headers it was created with are texts, for any sequence of writes, header changes and flushes followed by [finish], what is sent is
    one header, then the chunks, none of them empty or larger than the chunk
    size, whose concatenation is everything that was written, then exactly one
    final mark. *)
Theorem response_stream os target co hdrs size cid prefix :
  (0 < size)%Z → all_text hdrs →
  ∃ s hdr ds,
    (run_ops os;; finish) (MkRS (new_response target co hdrs size cid prefix) (MkConn false []))
      = (Ok tt, s) ∧
    out (conn s) = FReply 200 (PRequest hdr) :: chunk_frames ds ++ [FStatus 204] ∧
    concat ds = os ≫= written_by ∧
    Forall (fun d => 0 < length d ≤ Z.to_nat size) ds.
Proof.
  intros Hsize Ht. set (r := new_response _ _ _ _ _ _).
  destruct (response_stream_from os r (MkConn false [])) as (s & hdr & ds & -> & _ & Ho & Hcat & Hall);
    [done..| |by exists s, hdr, ds].
  split; [|done]. intros kv []%not_elem_of_nil.
Qed.

Lemma response_stream_witness :
  let os := [OWrite [1; 2; 3]%Z; OSetHeader "a" "b"; OFlush; OWrite [4; 5]%Z] in
  ∃ s hdr ds,
    (run_ops os;; finish) (MkRS (new_response None None [] 2 "" None) (MkConn false [])) = (Ok tt, s) ∧
    out (conn s) = FReply 200 (PRequest hdr) :: chunk_frames ds ++ [FStatus 204] ∧
    concat ds = os ≫= written_by ∧ Forall (fun d => 0 < length d ≤ Z.to_nat 2) ds.
Proof.
  intros os. apply (response_stream os); [lia|]. intros kv []%not_elem_of_nil.
Defined.

(** ** Headers that are not texts *)

Lemma header_texts_total prefix l :
  all_text l ∨ ∃ k vs, (k, HList vs) ∈ l ∧ header_texts prefix l = Raise (ValidationError "headers").
Proof.
  induction l as [|[k [v|vs]] l IH].
  - left. intros kv []%not_elem_of_nil.
  - destruct IH as [IH|(k' & vs & Hin & Hr)].
    + left. intros kv [->|?]%elem_of_cons; [by eexists|auto].
    + right. exists k', vs. split; [by right|]. simpl. by rw Hr.
  - right. exists k, vs. split; [by left|done].
Qed.

Lemma header_texts_list prefix l k vs :
  (k, HList vs) ∈ l → header_texts prefix l = Raise (ValidationError "headers").
Proof.
  intros Hin. destruct (header_texts_total prefix l) as [Ht|(_ & _ & _ & ?)]; [|done].
  destruct (Ht _ Hin) as [s [=]].
Qed.

Lemma wf_update l d : wf d → wf (dict_update l d).
Proof. revert d. induction l as [|[k v] l IH]; intros d Hd; [done|]. by apply IH, wf_insert. Qed.

Lemma lookup_update_ne l k d :
  wf d → k ∉ l.*1 → lookup k (dict_update l d) = lookup k d.
Proof.
  revert d. induction l as [|[k' v] l IH]; intros d Hd Hk; [done|]. csimpl in Hk.
  apply not_elem_of_cons in Hk as [? Hk]. simpl. rw IH //; [by apply wf_insert|].
  by rw lookup_insert_ne.
Qed.

Lemma items_update_elem l d k v :
  wf d → NoDup l.*1 → (k, v) ∈ l → (k, v) ∈ items (dict_update l d).
Proof.
  intros Hd Hnd Hin. apply lookup_items; [by apply wf_update|].
  revert d Hd Hnd Hin. induction l as [|[k' w] l IH]; intros d Hd Hnd Hin;
    [by apply not_elem_of_nil in Hin|]. csimpl in Hnd. apply NoDup_cons in Hnd as [Hk Hnd].
  apply elem_of_cons in Hin as [[= <- <-]|Hin]; simpl.
  - by rw lookup_update_ne; [by apply wf_insert|done|rw lookup_insert_eq].
  - by apply IH; [apply wf_insert|..].
Qed.

(** A response whose header cannot be sent. *)
Definition unsendable (s : RS) : Prop :=
  _header_written (resp s) = false ∧ wf (_headers (resp s)) ∧
  NoDup (_extra_headers (resp s)).*1 ∧ ∃ k vs, (k, HList vs) ∈ _extra_headers (resp s).

Lemma flush_unsendable s :
  unsendable s → ∃ s', flush s = (Raise (ValidationError "headers"), s') ∧ conn s' = conn s.
Proof.
  destruct s as [r c]. intros (Hw & Hwf & Hnd & k & vs & Hin). simpl in *.
  rw /flush. erewrite bind_ok by reflexivity. simpl.
  set (r1 := if _finish r && negb (length (_buffer r) =? 0) && negb (_header_written r)
    then set_headers (insert "Content-Length" (HStr (pretty (N.of_nat (length (_buffer r))))) (_headers r)) r
    else r).
  erewrite (bind_ok _ _ _ tt (MkRS r1 c)); last by rw /r1; case_match. rw Hw.
  assert (wf (_headers r1) ∧ _extra_headers r1 = _extra_headers r) as [Hwf1 Hx].
  { rw /r1. case_match; [|done]. split; [by apply wf_insert|done]. }
  erewrite bind_raise; last first.
  { rw /_send_response. erewrite bind_ok by reflexivity. erewrite bind_ok by reflexivity.
    apply bind_raise. rw /pure /reply_of /mbind /res_bind (header_texts_list _ _ k vs); [|reflexivity].
    simpl. rw Hx. by apply items_update_elem. }
  eexists. done.
Qed.

Lemma run_ops_unsendable os s :
  unsendable s → ∃ r s', run_ops os s = (r, s') ∧ conn s' = conn s ∧
    match r with
    | Ok _ => unsendable s' ∧ _finish (resp s') = _finish (resp s)
    | Raise e => e = ValidationError "headers"
    end.
Proof.
  revert s. induction os as [|o os IH]; intros s Hu; [by eexists _, s|]. cbn [run_ops].
  assert (∀ s1, run_op o s = (Ok tt, s1) → conn s1 = conn s →
    _finish (resp s1) = _finish (resp s) → unsendable s1 →
    ∃ r s', (run_op o;; run_ops os) s = (r, s') ∧ conn s' = conn s ∧
      match r with
      | Ok _ => unsendable s' ∧ _finish (resp s') = _finish (resp s)
      | Raise e => e = ValidationError "headers"
      end) as Hgo.
  { intros s1 H1 Hc Hf Hu1. destruct (IH s1 Hu1) as (r & s' & Hr & Hc' & Hm). exists r, s'.
    rw (bind_ok _ _ _ _ _ H1). split_and!; [done|congruence|]. by rw -Hf. }
  pose proof Hu as (Hw & Hwf & Hnd & Hl). destruct o as [d| |k v|k|code].
  - by eapply Hgo.
  - destruct (flush_unsendable s Hu) as (s' & Hf & Hc). eexists _, s'.
    rw (bind_raise _ _ _ _ _ Hf). done.
  - eapply Hgo; [reflexivity|done|by rw /= Hw|]. simpl. rw Hw. split_and!; try done. by apply wf_insert.
  - eapply Hgo; [reflexivity|done..|]. split_and!; try done. by apply wf_delete.
  - eapply Hgo; [reflexivity|done|by rw /= Hw|]. simpl. by rw Hw.
Qed.

(** A response created with an extra header that is a list cannot be answered:
    whatever QGIS server does with it, an exception is raised before anything
    is sent. *)
Lemma unsendable_raises os r c :
  unsendable (MkRS r c) → _finish r = false →
  ∃ s, (run_ops os;; finish) (MkRS r c) = (Raise (ValidationError "headers"), s) ∧ conn s = c.
Proof.
  intros Hu Hf. destruct (run_ops_unsendable os _ Hu) as ([[]|e] & s' & Hr & Hc & Hm).
  - rw (bind_ok _ _ _ _ _ Hr) /finish. erewrite bind_ok by reflexivity.
    destruct Hm as [Hu' ->]. rw Hf. erewrite bind_ok by reflexivity.
    destruct (flush_unsendable (MkRS (set_finish (resp s')) (conn s'))) as (s2 & -> & Hc2); [done|].
    exists s2. split; [done|]. by rw Hc2.
  - subst e. exists s'. by rw (bind_raise _ _ _ _ _ Hr).
Qed.

(** Once the header is sent, the status code and the headers can no longer
    be changed by [setStatusCode], [setHeader] or [sendError], and [sendError]
    sends nothing. *)
Theorem header_sent_is_final s code err key value msg :
  _header_written (resp s) = true →
  setStatusCode code s = (Ok tt, s) ∧ setHeader key value s = (Ok tt, s) ∧
  sendError err msg s = (Ok tt, s).
Proof.
  destruct s as [r c]. simpl. intros Hw. rw /setStatusCode /setHeader /sendError /upd_resp.
  py_unfold. by rw Hw.
Qed.

Lemma header_sent_is_final_witness :
  let s := MkRS (set_written (new_response None None [] 2 "" None)) (MkConn false []) in
  setStatusCode 404 s = (Ok tt, s) ∧ setHeader "a" "b" s = (Ok tt, s) ∧ sendError 500 [] s = (Ok tt, s).
Proof. intros s. apply (header_sent_is_final s 404 500 "a" "b" []). reflexivity. Defined.

(** A response that is finished in one go announces its length: when
    nothing was sent before, [finish] sends a header whose [Content-Length] is
    the number of buffered bytes, unless the extra headers override it. *)
Theorem finish_content_length r c :
  _finish r = false → _header_written r = false → _buffer r ≠ [] →
  (0 < _chunk_size r)%Z → cancelled c = false → wf (_headers r) →
  "Content-Length" ∉ (_extra_headers r).*1 → texts r →
  ∃ s hdr rest, finish (MkRS r c) = (Ok tt, s) ∧
    out (conn s) = out c ++ FReply 200 (PRequest hdr) :: rest ∧
    (_header_prefix r +:+ "Content-Length", pretty (N.of_nat (length (_buffer r)))) ∈ rr_headers hdr.
Proof.
  intros Hf Hw Hb Hs Hc Hwf Hx Ht.
  destruct (slices_spec (length (_buffer r)) (Z.to_nat (_chunk_size r)) (_buffer r)) as [_ Hall];
    [lia|done|].
  rw /finish. erewrite bind_ok by reflexivity. rw Hf. erewrite bind_ok by reflexivity.
  rw /flush. erewrite bind_ok by reflexivity. simpl. rw Hw.
  assert (length (_buffer r) =? 0 = false) as -> by (apply Nat.eqb_neq; by destruct (_buffer r)).
  simpl. erewrite bind_ok by reflexivity. simpl.
  set (r1 := set_headers (insert "Content-Length" (HStr (pretty (N.of_nat (length (_buffer r))))) (_headers r))
               (set_finish r)).
  destruct (send_response_ok r1 c) as (hdr & Hsr & Hin);
    [destruct Ht; split; [by apply all_text_insert|done]|done|].
  rw (bind_ok _ _ _ _ _ Hsr).
  rw /chunks decide_False; [lia|]. rw decide_False; [lia|].
  erewrite bind_ok by reflexivity. erewrite bind_ok; last first.
  { apply on_conn_ok, send_chunks_open; [done|]. eapply Forall_impl; [done|]. simpl. lia. }
  eexists _, hdr, _. split_and!; [reflexivity|simpl; by rw -!app_assoc|].
  apply (Hin "Content-Length"). simpl.
  assert (∀ l (d : pydict string hvalue), wf d → "Content-Length" ∉ l.*1 →
    wf (dict_update l d) ∧ lookup "Content-Length" (dict_update l d) = lookup "Content-Length" d) as Hupd.
  { induction l as [|[k v] l IH]; intros d Hd Hl; [done|]. csimpl in Hl.
    apply not_elem_of_cons in Hl as [? Hl]. simpl. destruct (IH (insert k v d)) as [? ->]; [by apply wf_insert|done|].
    split; [done|]. by rw lookup_insert_ne. }
  destruct (Hupd (_extra_headers r) (insert "Content-Length" (HStr (pretty (N.of_nat (length (_buffer r))))) (_headers r)))
    as [Hwf' Hl]; [by apply wf_insert|done|].
  apply lookup_items; [done|]. by rw Hl lookup_insert_eq.
Qed.

Lemma finish_content_length_witness :
  let r := set_buffer [7; 8; 9]%Z (new_response None None [("x", HStr "y")] 2 "" (Some "p-")) in
  ∃ s hdr rest, finish (MkRS r (MkConn false [])) = (Ok tt, s) ∧
    out (conn s) = [] ++ FReply 200 (PRequest hdr) :: rest ∧
    ("p-" +:+ "Content-Length", pretty (N.of_nat 3)) ∈ rr_headers hdr.
Proof.
  intros r. apply (finish_content_length r (MkConn false [])); try done.
  - apply wf_empty.
  - simpl. set_solver.
  - split; [intros kv []%not_elem_of_nil|].
    intros kv [->|[]%not_elem_of_nil]%elem_of_cons. by eexists.
Defined.
