(* ===== verification/MapRequests.v ===== *)
(** * Map requests

    [qjazz_rpc/op_map.py]: an OGC API map request is completed into the
    parameters of a WMS [GetMap].  Numbers are rationals, which hold every
    value a float can have; [float_repr] is their text. *)
From stdpp Require Import pretty.
From S2P Require Import Prelude PyStd PyFloat Layers Extent CacheManager Messages Response.

(** [a / b] *)
Definition div (a b : Qc) : res Qc :=
  if decide (b = Qc_of_Z 0) then Raise ZeroDivisionError else Ok (a / b)%Qc.
Definition Qc_abs (a : Qc) : Qc := if decide (a < Qc_of_Z 0)%Qc then (- a)%Qc else a.

Fixpoint floats (l : list string) : res (list Qc) :=
  match l with
  | [] => Ok []
  | s :: l => x ← float_of s; xs ← floats l; Ok (x :: xs)
  end.

(** [bbox_inv_aspect_ratio], on the first value of the parameter *)
Definition bbox_inv_aspect_ratio (bbox : string) : res Qc :=
  c ← floats (split "," bbox);
  match c with
  | c0 :: c1 :: c2 :: c3 :: _ => div (Qc_abs (c3 - c2)) (Qc_abs (c1 - c0))
  | _ => Raise IndexError
  end.

Definition DEFAULT_WITH : Z := 1024.

Section map.
Context {Project : Type} (q : Qgis Project) (float_repr : Qc → string).

(** [get_crs] *)
Definition get_crs (p : Project) : Crs q :=
  match filter (fun c => isValid q c = true) (fromOgcWmsCrs q <$> wmsOutputCrsList q p) with
  | c :: _ => c
  | [] => to_qgis q default_crs
  end.

(** [visible_layers] *)
Definition visible_layers (p : Project) : res (list string) :=
  match layerTree q p with
  | None => Raise (AssertionError "Unexpected None value")
  | Some children => Ok (filter (fun c => c.2 = true) children).*1
  end.

(** [params.get(k)] *)
Definition param (k : string) (params : list (string * list string)) : option (list string) :=
  (fun x => x.2.2) <$> list_find (fun kv => kv.1 = k) params.

(** Lines 93-99: the crs of the answer, in the options and in a header *)
Definition map_crs (p : Project) (params : list (string * list string)) (options : string) :
    res (string * list (string * hvalue)) :=
  match param "crs" params with
  | None =>
      let content_crs := authid q (get_crs p) in
      Ok (options +:+ "&crs=" +:+ content_crs, [("Content-Crs", HStr ("[" +:+ content_crs +:+ "]"))])
  | Some _ => Raise (KeyError "0")
  end.

(** Lines 101-124: the box, in the options and in a header, and the inverse of
    its aspect ratio, which is computed when it is asked for *)
Definition map_bbox (p : Project) (params : list (string * list string)) (options : string) :
    res (string * hvalue * res Qc) :=
  match param "bbox" params with
  | None =>
      let output_crs := get_crs p in
      r ← (if isEmpty q (wmsExtent q p) then compute_extent_from_layers q p (Some output_crs) None
           else transform_extent q (wmsExtent q p) (p_crs q p) output_crs (Some p));
      let '(r, ratio) :=
        if hasAxisInverted q output_crs
        then let r := invert q r in (r, div (width q r) (height q r))
        else (r, div (height q r) (width q r)) in
      let content_bbox := float_repr (xMinimum q r) +:+ "," +:+ float_repr (yMinimum q r) +:+ "," +:+
                          float_repr (xMaximum q r) +:+ "," +:+ float_repr (yMaximum q r) in
      Ok (options +:+ "&bbox=" +:+ content_bbox, HStr content_bbox, ratio)
  | Some values => Ok (options, HList values, bbox_inv_aspect_ratio (default "" (head values)))
  end.

(** Lines 126-141: the size; a text times a float is a TypeError *)
Definition map_size (p : Project) (params : list (string * list string)) (options : string)
    (inv_aspect_ratio : res Qc) : res string :=
  match param "width" params, param "height" params with
  | None, None =>
      let w := wmsMaxWidth q p in
      let w := if (w <? 0)%Z then DEFAULT_WITH else w in
      ratio ← inv_aspect_ratio;
      Ok (options +:+ "&width=" +:+ pretty w +:+ "&height=" +:+ pretty (Qc_int (Qc_of_Z w * ratio)%Qc))
  | Some _, None | None, Some _ =>
      ratio ← inv_aspect_ratio; Raise (TypeError "unsupported operand type(s)")
  | Some _, Some _ => Ok options
  end.

(** Lines 143-148: the layers *)
Definition map_layers (p : Project) (params : list (string * list string)) (options : string) : res string :=
  match param "layers" params with
  | Some _ => Ok options
  | None =>
      ls ← visible_layers p;
      let layers := join "," ls in
      Ok (if str_truth layers then options +:+ "&layers=" +:+ layers else options)
  end.

(** [prepare_map_request] *)
Definition prepare_map_request (p : Project) (options : string) :
    res (string * list (string * hvalue)) :=
  let params := parse_qs options in
  '(options, headers) ← map_crs p params options;
  '(options, content_bbox, inv_aspect_ratio) ← map_bbox p params options;
  options ← map_size p params options inv_aspect_ratio;
  options ← map_layers p params options;
  Ok (options, headers ++ [("Content-Bbox", content_bbox)]).
End map.

(** ** Properties *)

(** A value that is one field of a query. *)
Definition plain (v : string) : Prop := str_truth v = true ∧ char_in "&" v = false.

Lemma plain_app a b : plain a → char_in "&" b = false → plain (a +:+ b).
Proof. intros [Ha Hn] Hb. split; [by destruct a|]. by rw char_in_app Hn Hb. Qed.

Lemma pretty_N_go_plain x s :
  char_in "&" s = false → (0 < x)%N ∨ str_truth s = true → plain (pretty_N_go x s).
Proof.
  revert s. induction (N.lt_wf_0 x) as [x _ IH]; intros s Hs Hx.
  destruct (decide (x = 0)%N) as [->|Hne]; [rw pretty_N_go_0; by destruct Hx|].
  rw pretty_N_go_step; [lia|]. apply IH; [apply N.div_lt; lia| |by right].
  simpl. rw Hs orb_false_r. apply bool_decide_eq_false. rw /pretty_N_char. by repeat case_match.
Qed.

Lemma pretty_Z_plain (z : Z) : plain (pretty z).
Proof.
  assert (∀ p : positive, plain (pretty p)) as Hp.
  { intros p. change (pretty p) with (pretty_N_go (Npos p) "").
    apply pretty_N_go_plain; [done|]. left. lia. }
  destruct z as [|p|p]; [done|apply Hp|]. apply (plain_app "-"); [done|]. apply Hp.
Qed.

(** The fields that are added to a query come after the ones it has. *)
Definition extends (o o' : string) : Prop := ∃ l, parse_qsl o' = parse_qsl o ++ l.
Definition has_field (k o : string) : Prop := k ∈ (parse_qsl o).*1.

#[global] Instance extends_preorder : PreOrder extends.
Proof.
  split; [by intros o; exists []; rw app_nil_r|].
  intros o1 o2 o3 [l1 H1] [l2 H2]. exists (l1 ++ l2). by rw H2 H1 app_assoc.
Qed.

#[global] Instance has_field_proper k : Proper (extends ==> impl) (has_field k).
Proof. intros o o' [l H] Hin. rw /has_field H fmap_app elem_of_app. by left. Qed.

Lemma add_field o f k v :
  parse_qsl f = [(k, v)] → extends o (o +:+ "&" +:+ f) ∧ has_field k (o +:+ "&" +:+ f).
Proof.
  intros Hf. rw /extends /has_field parse_qsl_and Hf. split; [by exists [(k, v)]|].
  rw fmap_app. set_solver.
Qed.

Lemma parse_field k v f :
  f = k +:+ "=" +:+ v → k ∈ ["crs"; "bbox"; "width"; "height"; "layers"] → plain v →
  parse_qsl f = [(k, unquote_plus v)].
Proof.
  intros -> Hk [Hv Hn]. rw parse_qsl_field.
  { rw !char_in_app Hn.
    by repeat (apply elem_of_cons in Hk as [->|Hk]; [done|]); apply not_elem_of_nil in Hk. }
  assert (partition "=" (k +:+ "=" +:+ v) = Some (k, v) ∧ unquote_plus k = k) as [Hp Hu].
  { by repeat (apply elem_of_cons in Hk as [->|Hk]; [done|]); apply not_elem_of_nil in Hk. }
  by rw /= /qs_field Hp Hv Hu.
Qed.

Lemma param_None k o : param k (parse_qs o) = None ↔ k ∉ (parse_qsl o).*1.
Proof.
  rw -parse_qs_keys /param fmap_None list_find_None Forall_forall. split.
  - intros H ([k' vs] & -> & Hin)%list_elem_of_fmap. by apply (H _ Hin).
  - intros H [k' vs] Hin <-. apply H. by apply (list_elem_of_fmap_2 fst) in Hin.
Qed.

Section properties.
Context {Project : Type} (q : Qgis Project) (float_repr : Qc → string).

Lemma param_has k o vs : param k (parse_qs o) = Some vs → has_field k o.
Proof.
  intros H. destruct (decide (k ∈ (parse_qsl o).*1)) as [|Hn]; [done|].
  apply param_None in Hn. congruence.
Qed.

Lemma map_crs_spec p params o o' h :
  plain (authid q (get_crs q p)) → map_crs q p params o = Ok (o', h) →
  param "crs" params = None ∧ extends o o' ∧ has_field "crs" o'.
Proof.
  intros Hc. rw /map_crs. destruct (param "crs" params); [done|]. intros [= <- _].
  split; [done|]. eapply (add_field o ("crs=" +:+ authid q (get_crs q p))).
  by apply (parse_field "crs"); [|set_solver|].
Qed.

Lemma map_bbox_spec p o0 o o' h ratio :
  (∀ x, plain (float_repr x)) → extends o0 o →
  map_bbox q float_repr p (parse_qs o0) o = Ok (o', h, ratio) →
  extends o o' ∧ has_field "bbox" o'.
Proof.
  intros Hf Ho. rw /map_bbox. destruct (param "bbox" (parse_qs o0)) as [vs|] eqn:E.
  - intros [= <- _ _]. split; [done|]. eapply has_field_proper; [done|]. by eapply param_has.
  - py_unfold. destruct (if isEmpty q _ then _ else _) as [r|]; [|done].
    set (r' := if hasAxisInverted q (get_crs q p) then invert q r else r).
    set (box := float_repr (xMinimum q r') +:+ "," +:+ float_repr (yMinimum q r') +:+ "," +:+
                float_repr (xMaximum q r') +:+ "," +:+ float_repr (yMaximum q r')).
    intros H. assert (o' = o +:+ "&" +:+ ("bbox=" +:+ box)) as ->.
    { rw /box /r'. by destruct (hasAxisInverted q (get_crs q p)); injection H as <- _ _. }
    eapply add_field. apply (parse_field "bbox"); [done|set_solver|].
    apply plain_app; [apply Hf|]. rw !char_in_app /=. by rw !(proj2 (Hf _)).
Qed.

Lemma map_size_spec p o0 o o' ratio :
  extends o0 o → map_size q p (parse_qs o0) o ratio = Ok o' →
  extends o o' ∧ has_field "width" o' ∧ has_field "height" o' ∧
  (has_field "width" o0 ↔ has_field "height" o0).
Proof.
  intros Ho. rw /map_size.
  destruct (param "width" (parse_qs o0)) as [ws|] eqn:Ew,
           (param "height" (parse_qs o0)) as [hs|] eqn:Eh; try by destruct ratio.
  - intros [= <-]. apply param_has in Ew, Eh.
    split_and!; [done|by eapply has_field_proper|by eapply has_field_proper|done].
  - py_unfold. destruct ratio as [x|]; [|done]. intros [= <-].
    apply param_None in Ew, Eh. set (w := if (_ <? 0)%Z then _ else _).
    set (hh := Qc_int _).
    destruct (add_field o ("width=" +:+ pretty w) "width" (unquote_plus (pretty w))) as [H1 H2];
      [apply (parse_field "width"); [done|set_solver|apply pretty_Z_plain]|].
    destruct (add_field (o +:+ "&" +:+ ("width=" +:+ pretty w)) ("height=" +:+ pretty hh) "height"
      (unquote_plus (pretty hh))) as [H3 H4];
      [apply (parse_field "height"); [done|set_solver|apply pretty_Z_plain]|].
    replace (o +:+ "&width=" +:+ pretty w +:+ "&height=" +:+ pretty hh)
      with ((o +:+ "&" +:+ ("width=" +:+ pretty w)) +:+ "&" +:+ ("height=" +:+ pretty hh))
      by (rw !str_app_assoc; reflexivity).
    split_and!; [by etrans|by apply (has_field_proper _ _ _ H3)|done|done].
Qed.

Lemma map_layers_spec p params o o' : map_layers q p params o = Ok o' → extends o o'.
Proof.
  rw /map_layers. destruct (param "layers" params); [by intros [= <-]|]. py_unfold.
  destruct (visible_layers q p) as [ls|]; [|done]. case_match; intros [= <-]; [|done].
  exists (parse_qsl ("layers=" +:+ join "," ls)). apply (parse_qsl_and o ("layers=" +:+ join "," ls)).
Qed.

(** A map request that is prepared without an exception keeps the parameters it
    came with, in their order, and has a crs, a box, a width and a height. *)
Theorem map_request_complete p options options' headers :
  plain (authid q (get_crs q p)) → (∀ x, plain (float_repr x)) →
  prepare_map_request q float_repr p options = Ok (options', headers) →
  extends options options' ∧
  ∀ k, k ∈ ["crs"; "bbox"; "width"; "height"] → has_field k options'.
Proof.
  intros Hc Hf. rw /prepare_map_request /mbind /res_bind.
  destruct (map_crs _ _ _ _) as [[o1 h1]|] eqn:E1; [|done].
  destruct (map_bbox _ _ _ _ _) as [[[o2 h2] r2]|] eqn:E2; [|done].
  destruct (map_size _ _ _ _ _) as [o3|] eqn:E3; [|done].
  destruct (map_layers _ _ _ _) as [o4|] eqn:E4; [|done]. intros [= <- _].
  apply map_crs_spec in E1 as (_ & X1 & F1); [|done].
  apply map_bbox_spec in E2 as [X2 F2]; [|done..].
  apply map_size_spec in E3 as (X3 & F3 & F4 & _); [|by etrans].
  apply map_layers_spec in E4. split; [by do 3 (etrans; [done|])|].
  intros k Hk. apply (has_field_proper k o3); [done|].
  rw !elem_of_cons in Hk. destruct Hk as [->|[->|[->|[->|[]%not_elem_of_nil]]]]; [| |done..].
  - apply (has_field_proper _ o1); [by etrans|done].
  - by apply (has_field_proper _ o2).
Qed.

(** A map request with a crs, or with only one of a width and a height, is
    never prepared: the first fails on a key that is not there, the second on
    the product of a text and a number. *)
Theorem map_request_refused p options :
  has_field "crs" options ∨ (has_field "width" options ∧ ¬ has_field "height" options) ∨
  (has_field "height" options ∧ ¬ has_field "width" options) →
  ∃ e, prepare_map_request q float_repr p options = Raise e ∧
       (has_field "crs" options → e = KeyError "0").
Proof.
  intros H. rw /prepare_map_request /mbind /res_bind /map_crs.
  destruct (param "crs" (parse_qs options)) as [vs|] eqn:Ec; [by eexists|].
  pose proof Ec as Hc%param_None. destruct H as [H|H]; [done|].
  set (o1 := options +:+ _). assert (extends options o1) as X1.
  { eexists. apply (parse_qsl_and options ("crs=" +:+ authid q (get_crs q p))). }
  destruct (map_bbox _ _ _ _ _) as [[[o2 h2] r2]|e] eqn:E2; [|by exists e].
  assert (∃ e, map_size q p (parse_qs options) o2 r2 = Raise e) as [e ->]; [|by exists e].
  rw /map_size.
  destruct (param "width" (parse_qs options)) as [ws|] eqn:Ew,
           (param "height" (parse_qs options)) as [hs|] eqn:Eh;
    try (by destruct r2; eexists); exfalso.
  - apply param_has in Ew, Eh. naive_solver.
  - apply param_None in Ew, Eh. rw /has_field in H. naive_solver.
Qed.

(** Exceptions other than the one that is answered to the client. *)
Definition not_invalid {A} (r : res A) : Prop := ∀ m, r ≠ Raise (InvalidMapRequest m).

Lemma not_invalid_bind {A B} (r : res A) (f : A → res B) :
  not_invalid r → (∀ a, not_invalid (f a)) → not_invalid (r ≫= f).
Proof. intros Hr Hf. destruct r as [a|e]; [apply Hf|]. intros m [= ->]. by apply (Hr m). Qed.

Lemma float_of_not_invalid s : not_invalid (float_of s).
Proof. intros m. rw /float_of. by repeat case_match. Qed.

Lemma bbox_ratio_not_invalid s : not_invalid (bbox_inv_aspect_ratio s).
Proof.
  apply not_invalid_bind.
  - induction (split "," s) as [|x l IH]; [done|]. simpl.
    apply not_invalid_bind; [apply float_of_not_invalid|]. intros y. by apply not_invalid_bind.
  - intros [|? [|? [|? [|? l]]]] m; try done. rw /div. by case_decide.
Qed.

Lemma map_size_not_invalid p params o r : not_invalid r → not_invalid (map_size q p params o r).
Proof.
  intros Hr. rw /map_size. repeat case_match; try done; (apply not_invalid_bind; [done|]); done.
Qed.

Lemma map_layers_not_invalid p params o : not_invalid (map_layers q p params o).
Proof.
  rw /map_layers. case_match; [done|]. apply not_invalid_bind; [|done].
  rw /visible_layers. by case_match.
Qed.

(** A box given by the client becomes a header that is a list, or the request
    fails in a way that is not reported as an invalid request. *)
Lemma map_request_bbox p options :
  has_field "bbox" options →
  match prepare_map_request q float_repr p options with
  | Ok (_, headers) => ∃ c vs, headers = [("Content-Crs", HStr c); ("Content-Bbox", HList vs)]
  | Raise x => ∀ m, x ≠ InvalidMapRequest m
  end.
Proof.
  intros Hb. rw /prepare_map_request /mbind /res_bind /map_crs.
  destruct (param "crs" (parse_qs options)); [done|]. rw /map_bbox.
  destruct (param "bbox" (parse_qs options)) as [vs|] eqn:Ev; [|by apply param_None in Ev].
  destruct (map_size _ _ _ _ _) as [o3|e] eqn:E3.
  - destruct (map_layers _ _ _ _) as [o4|e] eqn:E4; [by eexists _, vs|].
    intros m ->. by eapply map_layers_not_invalid.
  - intros m ->. eapply map_size_not_invalid; [apply bbox_ratio_not_invalid|done].
Qed.
End properties.

(** The aspect ratio of a box given as [xmin,ymin,xmax,ymax] compares the
    abscissa of a corner with its ordinate: it fails for every box with a
    corner on the diagonal, whatever its sides. *)
Lemma bbox_inv_aspect_ratio_diagonal bbox c0 c2 c3 :
  floats (split "," bbox) = Ok [c0; c0; c2; c3] →
  bbox_inv_aspect_ratio bbox = Raise ZeroDivisionError.
Proof.
  intros H. rw /bbox_inv_aspect_ratio /mbind /res_bind H /div decide_True //.
  replace (c0 - c0)%Qc with (Qc_of_Z 0).
  2:{ rw /Qcminus Qcplus_opp_r. by apply Qc_is_canon. }
  rw /Qc_abs. by case_decide.
Qed.

(** ** Examples *)
Module MapDemo.
Definition q : Qgis string := QgisDemo.qgis (QgisDemo.mk 0 0 4 2).
Definition repr (x : Qc) : string := pretty (Qc_int x).
End MapDemo.

Example map_request_ex :
  prepare_map_request MapDemo.q MapDemo.repr "p" "transparent=true" =
  Ok ("transparent=true&crs=OGC:CRS84&bbox=0,0,4,2&width=1024&height=512&layers=roads",
      [("Content-Crs", HStr "[OGC:CRS84]"); ("Content-Bbox", HStr "0,0,4,2")]).
Proof. vm_compute. reflexivity. Qed.

Lemma map_request_complete_witness :
  extends "transparent=true"
    "transparent=true&crs=OGC:CRS84&bbox=0,0,4,2&width=1024&height=512&layers=roads" ∧
  ∀ k, k ∈ ["crs"; "bbox"; "width"; "height"] →
    has_field k "transparent=true&crs=OGC:CRS84&bbox=0,0,4,2&width=1024&height=512&layers=roads".
Proof.
  apply (map_request_complete MapDemo.q MapDemo.repr "p" "transparent=true" _
    [("Content-Crs", HStr "[OGC:CRS84]"); ("Content-Bbox", HStr "0,0,4,2")]).
  - split; reflexivity.
  - intros x. apply pretty_Z_plain.
  - vm_compute. reflexivity.
Defined.

Lemma map_request_refused_witness :
  ∃ e, prepare_map_request MapDemo.q MapDemo.repr "p" "bbox=0,0,4,2&crs=EPSG:4326" = Raise e ∧
       (has_field "crs" "bbox=0,0,4,2&crs=EPSG:4326" → e = KeyError "0").
Proof.
  apply (map_request_refused MapDemo.q MapDemo.repr "p" "bbox=0,0,4,2&crs=EPSG:4326").
  left. vm_compute. right. left.
Defined.
