(* ===== verification/OpCache.v ===== *)
(** * Cache management requests

    [qjazz_rpc/op_cache.py]: the operations of a worker on its project cache,
    each of which ends by a reply on the connection, and the part of
    [qjazz_rpc/config.py] they read. *)
From S2P Require Import Prelude PyDict PyStd Utils Routes CacheManager Messages.

(** [QgisConfig], with the [ProjectsConfig] fields the cache manager reads *)
Record QgisConfig : Type := MkConf {
  max_projects : Z;
  load_project_on_request : bool;
  reload_outdated_project_on_request : bool;
  max_chunk_size : Z;
  ignore_interrupt_signal : bool;
  api_aliases : list (string * string);
  projects_routes : Routes;
  allow_direct_path_resolution : bool;
}.

(** What the operations read of a [QgsMapLayer] and of a [QgsProject]. *)
Record LayerView : Type := {
  lv_name : string; lv_source : string; lv_provider : string; lv_type : string;
  lv_crs : string; lv_valid : bool; lv_spatial : bool;
}.

Record ProjectOps (Project : Type) : Type := {
  lastSaveVersion : Project → string;
  crs_authid : Project → string;
  mapLayers : Project → list (string * LayerView);
}.
Arguments lastSaveVersion {_} _ _.
Arguments crs_authid {_} _ _.
Arguments mapLayers {_} _ _.

(** The state of a worker the operations write: its cache, its connection. *)
Record Srv (Project : Type) : Type := MkSrv { s_cm : CacheManager Project; s_conn : Conn }.
Arguments MkSrv {_} _ _.
Arguments s_cm {_} _.
Arguments s_conn {_} _.

Section ops.
Context {Project : Type} (ops : ProjectOps Project).
Context (env : Env Project) (now : Qc) (conf : QgisConfig).

Definition on_cm {A} (m : M (CacheManager Project) A) : M (Srv Project) A :=
  zoom s_cm (fun cm s => MkSrv cm (s_conn s)) m.
Definition on_conn {A} (m : M Conn A) : M (Srv Project) A :=
  zoom s_conn (fun c s => MkSrv (s_cm s) c) m.

(** [cm.resolve_path] *)
Definition cm_resolve_path (path : string) (allow_direct : bool) : M (Srv Project) Url :=
  pure (resolve_path (projects_routes conf) (allow_direct_path_resolution conf) path allow_direct).

(** [timestamp_to_iso]; no time at all when it is zero *)
Definition timestamp_to_iso (t : Qc) : option string :=
  if decide (t = Qc_of_Z 0) then None else Some (to_iso8601 t).

(** A [CacheInfo] with the defaults of its optional fields *)
Definition cache_info (uri : string) (status : CheckoutStatus) (cache_id : string)
    (storage last_modified saved_version : option string) : CacheInfo := {|
  ci_uri := uri; ci_status := status_value status; ci_in_cache := false;
  ci_cache_id := cache_id; ci_timestamp := None; ci_name := None; ci_storage := storage;
  ci_last_modified := last_modified; ci_saved_version := saved_version; ci_debug := None;
  ci_last_hit := 0; ci_hits := 0; ci_pinned := false;
|}.

(** [cache_info_from_entry] *)
Definition cache_info_from_entry (e : CacheEntry Project) (status : CheckoutStatus)
    (in_cache : bool) (cache_id : string) : CacheInfo := {|
  ci_uri := uri (md e); ci_status := status_value status; ci_in_cache := in_cache;
  ci_cache_id := cache_id; ci_timestamp := Some (Qc_int (timestamp e));
  ci_name := Some (name (md e)); ci_storage := storage (md e);
  ci_last_modified := timestamp_to_iso (last_modified (md e));
  ci_saved_version := Some (lastSaveVersion ops (project e));
  ci_debug := Some (load_memory_bytes (debug_meta e), load_time_ms (debug_meta e));
  ci_last_hit := Qc_int (last_hit e); ci_hits := hits e; ci_pinned := pinned e;
|}.

(** [evict_project_from_cache] *)
Definition evict_project_from_cache : M (CacheManager Project) bool :=
  evicted ← evict_by_popularity env now;
  mret (match evicted with Some _ => true | None => false end).

(** [config.max_projects <= len(cm) and not evict_project_from_cache(cm)] *)
Definition cache_full : M (CacheManager Project) bool :=
  cm ← get;
  if decide (max_projects conf ≤ Z.of_nat (cm_len cm))%Z
  then evicted ← evict_project_from_cache; mret (negb evicted)
  else mret false.

(** [e.pin()] on an entry that the cache holds under its uri: the cache and
    the caller share it *)
Definition pin_entry (e : CacheEntry Project) : M (CacheManager Project) (CacheEntry Project) :=
  modify (fun cm => set_cache (alter pin (uri (md e)) (_cache cm)) cm);;
  mret (pin e).

(** [drop_project] *)
Definition drop_reply (uri_ cache_id : string)
    (found : option (Found Project) * CheckoutStatus) : M (Srv Project) CacheInfo :=
  match found with
  | (Some (FoundEntry e), (NEEDUPDATE | UNCHANGED | REMOVED)) =>
      r ← on_cm (update env (md e) REMOVED None);
      mret (cache_info (uri (md e)) r.2 cache_id None
              (timestamp_to_iso (last_modified (md e)))
              (Some (lastSaveVersion ops (project e))))
  | _ => mret (cache_info uri_ found.2 cache_id None None None)
  end.

Definition drop_project (uri_ cache_id : string) : M (Srv Project) unit :=
  url ← cm_resolve_path uri_ true;
  found ← on_cm (checkout env url);
  reply ← drop_reply uri_ cache_id found;
  on_conn (send_reply (PCacheInfo reply) 200).

(** The two tables of [checkout_project]; [None] is the reply already sent
    when the cache is full. *)
Definition storage_or_none (s : option string) : option string :=
  if ostr_truth s then s else None.

Definition checkout_reply (url : Url) (cache_id : string)
    (found : option (Found Project) * CheckoutStatus) : res CacheInfo :=
  match found with
  | (Some (FoundMetadata m), NEW) =>
      Ok (cache_info (uri m) NEW cache_id (storage_or_none (storage m))
            (timestamp_to_iso (last_modified m)) None)
  | (Some (FoundEntry e), (NEEDUPDATE | UNCHANGED | REMOVED | UPDATED)) =>
      Ok (cache_info_from_entry e found.2 true cache_id)
  | (_, NOTFOUND) => Ok (cache_info (urlunsplit url) NOTFOUND cache_id None None None)
  | _ => Raise (AssertionError "Expected unreachable code")
  end.

Definition pull_reply (url : Url) (cache_id : string)
    (found : option (Found Project) * CheckoutStatus) : M (Srv Project) (option CacheInfo) :=
  match found with
  | (Some (FoundMetadata m), NEW) =>
      full ← on_cm cache_full;
      if (full : bool) then
        on_conn (send_reply (PText "Max object reached on server") 403);;
        mret None
      else
        r ← on_cm (update env m NEW None);
        e ← on_cm (pin_entry r.1);
        mret (Some (cache_info_from_entry e r.2 true cache_id))
  | (Some (FoundEntry e), (UNCHANGED | UPDATED)) =>
      e ← on_cm (pin_entry e);
      mret (Some (cache_info_from_entry e found.2 true cache_id))
  | (Some (FoundEntry e), NEEDUPDATE) =>
      r ← on_cm (update env (md e) NEEDUPDATE None);
      e ← on_cm (pin_entry r.1);
      mret (Some (cache_info_from_entry e r.2 true cache_id))
  | (Some (FoundEntry e), REMOVED) =>
      r ← on_cm (update env (md e) REMOVED None);
      mret (Some (cache_info_from_entry r.1 r.2 false cache_id))
  | (_, NOTFOUND) => mret (Some (cache_info (urlunsplit url) NOTFOUND cache_id None None None))
  | _ => raise (AssertionError "Expected unreachable code")
  end.

(** [checkout_project] *)
Definition checkout_project (uri : string) (pull : bool) (cache_id : string) :
    M (Srv Project) unit :=
  try_except
    (url ← cm_resolve_path uri true;
     found ← on_cm (checkout env url);
     reply ← (if pull then pull_reply url cache_id found
              else r ← pure (checkout_reply url cache_id found); mret (Some r));
     match reply with
     | Some r => on_conn (send_reply (PCacheInfo r) 200)
     | None => mret tt
     end)
    (fun x => match x with
              | ResourceNotAllowed msg => Some (on_conn (send_reply (PText msg) 403))
              | StrictCheckingFailure msg => Some (on_conn (send_reply (PText msg) 500))
              | _ => None
              end).

(** A generator of replies of which the connection is cancelled when
    [cancel] items were taken: the loop stops at the next item, and what is
    sent from then on is dropped. *)
Definition stream_until (cancel : option nat) (g : list Payload * option exn) : M Conn unit :=
  c ← get;
  if cancelled c then stream_data ([], None)
  else match cancel with
       | Some k => if decide (k < length g.1)
                   then stream_items (take k g.1);;
                        modify (fun c => MkConn true (out c));;
                        stream_data ([], None)
                   else stream_data g
       | None => stream_data g
       end.

(** [send_cache_list] *)
Definition send_cache_list (cache_id : string) (cancel : option nat) : M (Srv Project) unit :=
  cm ← gets s_cm;
  let '(items, err, _) := checkout_iter env cm in
  on_conn (stream_until cancel
    ((fun es => PCacheInfo (cache_info_from_entry es.1 es.2 true cache_id)) <$> items, err)).

(** [send_project_info] *)
Definition layer_info (idl : string * LayerView) : LayerInfo := {|
  li_layer_id := idl.1; li_name := lv_name idl.2; li_source := lv_source idl.2;
  li_provider := lv_provider idl.2; li_layer_type := lv_type idl.2; li_crs := lv_crs idl.2;
  li_is_valid := lv_valid idl.2; li_is_spatial := lv_spatial idl.2;
|}.

Definition project_info (e : CacheEntry Project) (status : CheckoutStatus) (cache_id : string) :
    ProjectInfo :=
  let layers := layer_info <$> mapLayers ops (project e) in {|
  pi_status := status_value status; pi_uri := uri (md e);
  pi_filename := fileName env (project e); pi_crs := crs_authid ops (project e);
  pi_last_modified := to_iso8601 (last_modified (md e));
  pi_storage := default "<none>" (storage_or_none (storage (md e)));
  pi_has_bad_layers := existsb (fun l => negb (li_is_valid l)) layers;
  pi_layers := layers; pi_cache_id := cache_id;
|}.

Definition send_project_info (uri cache_id : string) : M (Srv Project) unit :=
  try_except
    (url ← cm_resolve_path uri true;
     found ← on_cm (checkout env url);
     match found with
     | (Some (FoundEntry e), (NEEDUPDATE | UNCHANGED | REMOVED)) =>
         on_conn (send_reply (PProjectInfo (project_info e found.2 cache_id)) 200)
     | _ => on_conn (send_reply
              (PText ("Resource not available in cache: " +:+ urlunsplit url)) 404)
     end)
    (fun x => match x with
              | ResourceNotAllowed msg => Some (on_conn (send_reply (PText msg) 403))
              | _ => None
              end).

(** [send_catalog] *)
Definition catalog_item (mp : ProjectMetadata * string) : CatalogItemMsg := {|
  cat_uri := uri mp.1; cat_name := name mp.1;
  cat_storage := default "<none>" (storage_or_none (storage mp.1));
  cat_last_modified := to_iso8601 (last_modified mp.1); cat_public_uri := mp.2;
|}.

Definition send_catalog (location : option string) (cancel : option nat) : M (Srv Project) unit :=
  on_conn (stream_until cancel
    match collect_projects env (projects_routes conf) location with
    | Ok l => (PCatalogItem ∘ catalog_item <$> l, None)
    | Raise e => ([], Some e)
    end).
End ops.

(** ** The size of the cache

    [max_projects] bounds the cache: an operation that finds it full evicts a
    project before it loads another. *)
Section bounded.
Context {Project : Type}.
Implicit Types (cm : CacheManager Project) (e : CacheEntry Project) (env : Env Project).

Definition cm_bounded (B : Z) cm : Prop := cm_inv cm ∧ (Z.of_nat (cm_len cm) ≤ B)%Z.

Lemma bounded_delete B env m : preserves (cm_bounded B) (_delete_cache_entry env m).
Proof.
  intros cm [Hi Hb]. split; [by apply preserves_delete|]. revert Hb.
  rw /_delete_cache_entry. py_unfold. rw /pop /cm_len.
  destruct (lookup (uri m) (_cache cm)) as [e|] eqn:E; simpl; [|done].
  pose proof (dlen_delete (uri m) (_cache cm) (proj1 Hi) (mk_is_Some _ _ E)). lia.
Qed.

(** A load makes room for itself or needs a free place. *)
Lemma bounded_load B env m h (st : CheckoutStatus) cm :
  cm_inv cm → (Z.of_nat (cm_len cm) < B)%Z →
  cm_bounded B ((entry ← pure (_new_cache_entry env m h);
                 store_entry entry (uri m);; mret (entry, st)) cm).2.
Proof.
  intros Hi Hb. split; [by apply preserves_load|]. revert Hb.
  rw /store_entry. py_unfold. destruct (_new_cache_entry env m h) as [e|]; simpl; [|lia].
  rw /cm_len /=. destruct (lookup (uri m) (_cache cm)) eqn:E.
  - rw dlen_insert_old; [apply Hi|eauto|lia].
  - rw dlen_insert_new //. lia.
Qed.

Lemma bounded_update_new B env m oh cm :
  cm_inv cm → (Z.of_nat (cm_len cm) < B)%Z → cm_bounded B (update env m NEW oh cm).2.
Proof.
  intros Hi Hb. simpl. destruct (match oh with Some h => Ok h | None => _ end) as [h|x] eqn:Hh.
  - erewrite bind_ok by reflexivity. by apply bounded_load.
  - erewrite bind_raise by reflexivity. split; [done|simpl; lia].
Qed.

Lemma bounded_update B env m st oh :
  st ≠ NEW → preserves (cm_bounded B) (update env m st oh).
Proof.
  destruct st; simpl; intros Hst; try done; auto with py.
  - apply preserves_bind; [auto with py|]. intros c. case_match; auto with py.
  - apply preserves_bind; [auto with py|]. intros h cm [Hi Hb].
    destruct (_delete_cache_entry env m cm) as [[e|x] cm1] eqn:Hd.
    + erewrite bind_ok by done. pose proof (preserves_delete env m cm Hi) as Hi1. rw Hd in Hi1.
      apply delete_entry_ok in Hd as [He Hc]. apply bounded_load; [done|]. revert Hb.
      rw /cm_len Hc. pose proof (dlen_delete (uri m) (_cache cm) (proj1 Hi) (mk_is_Some _ _ He)). lia.
    + erewrite bind_raise by done. pose proof (bounded_delete B env m cm (conj Hi Hb)) as H. by rw Hd in H.
  - apply preserves_bind; [apply bounded_delete|auto with py].
  - apply preserves_bind; [auto with py|]. intros c. case_match; auto with py.
Qed.

Lemma bounded_update_cache B env cm : cm_bounded B cm → cm_bounded B (update_cache env cm).2.
Proof.
  apply for_values_preserves. intros e. rw /update_cache_body.
  apply preserves_bind; [auto with py|intros h]. apply preserves_try.
  - apply preserves_bind; [auto with py|intros m].
    destruct (out_of_date m e); [by apply bounded_update|auto with py].
  - intros [] k [= <-]. by apply (bounded_update B env (md e) REMOVED (Some h)).
Qed.

Lemma bounded_alter B f k cm :
  (∀ e, md (f e) = md e) → cm_bounded B cm → cm_bounded B (set_cache (alter f k (_cache cm)) cm).
Proof.
  intros Hf [Hi Hb]. split; [by apply cm_inv_alter|]. rw /cm_len /=. rw dlen_alter //. apply Hi.
Qed.

Lemma bounded_pin B e : preserves (cm_bounded B) (pin_entry e).
Proof. intros cm Hb. by apply bounded_alter. Qed.

Lemma bounded_evict B env now : preserves (cm_bounded B) (evict_by_popularity env now).
Proof.
  rw /evict_by_popularity. apply preserves_bind; [by intros s|intros cm].
  apply preserves_bind; [auto with py|intros [e|]; [|auto with py]].
  apply preserves_bind; [by apply bounded_update|auto with py].
Qed.

(** The guard of a load leaves a free place or refuses. *)
Lemma cache_full_spec B env now conf cm :
  (max_projects conf ≤ B)%Z → cm_bounded B cm →
  cm_bounded B (cache_full env now conf cm).2 ∧
  ∀ cm', cache_full env now conf cm = (Ok false, cm') → (Z.of_nat (cm_len cm') < B)%Z.
Proof.
  intros HB Hb. split.
  { revert cm Hb. change (preserves (cm_bounded B) (cache_full env now conf)).
    apply preserves_bind; [by intros s|intros cm]. case_decide; [|auto with py].
    apply preserves_bind; [|auto with py]. apply preserves_bind; [apply bounded_evict|auto with py]. }
  rw /cache_full. intros cm'. erewrite bind_ok by reflexivity. case_decide; [|intros [= <-]; lia].
  intros (b & c1 & H1 & [= Hneg <-])%bind_ok_inv. destruct b; [|done].
  apply bind_ok_inv in H1 as (r & c2 & H1 & [= Hr <-]). destruct r as [c|]; [|done].
  destruct Hb as [Hi Hb]. apply evict_len in H1; [lia|done].
Qed.
End bounded.

(** ** The operations on the state of a worker *)
#[export] Hint Resolve bounded_update bounded_pin bounded_delete bounded_evict : py.
Arguments update : simpl never.

Section srv.
Context {Project : Type}.
Implicit Types (s : Srv Project) (cm : CacheManager Project).

Definition srv_bounded (B : Z) : Srv Project → Prop := cm_bounded B ∘ s_cm.

Lemma preserves_on_cm {A} (P : CacheManager Project → Prop) (m : M (CacheManager Project) A) :
  preserves P m → preserves (P ∘ s_cm) (on_cm m).
Proof. intros Hm s Hs. specialize (Hm _ Hs). rw /on_cm /zoom. by destruct (m (s_cm s)). Qed.

Lemma preserves_on_conn {A} (P : CacheManager Project → Prop) (m : M Conn A) :
  preserves (P ∘ s_cm) (on_conn m).
Proof. intros s Hs. rw /on_conn /zoom. by destruct (m (s_conn s)). Qed.

Lemma on_cm_inv {A} (m : M (CacheManager Project) A) s r s' :
  on_cm m s = (r, s') → ∃ cm', m (s_cm s) = (r, cm') ∧ s' = MkSrv cm' (s_conn s).
Proof. rw /on_cm /zoom. destruct (m (s_cm s)). intros [= <- <-]. eauto. Qed.

Lemma on_cm_ok {A} (m : M (CacheManager Project) A) s r cm' :
  m (s_cm s) = (r, cm') → on_cm m s = (r, MkSrv cm' (s_conn s)).
Proof. rw /on_cm /zoom. by intros ->. Qed.

Lemma send_open (p : Payload) (status : Z) s :
  cancelled (s_conn s) = false →
  on_conn (send_reply p status) s =
    (Ok tt, MkSrv (s_cm s) (MkConn false (out (s_conn s) ++ [FReply status p]))).
Proof. intros Hc. by rw /on_conn /zoom /send_reply send_frame_open. Qed.

(** The two loads behind the guard. *)
Lemma bounded_admit B env now conf m s :
  (max_projects conf ≤ B)%Z → srv_bounded B s →
  srv_bounded B (on_cm (cache_full env now conf) s).2 ∧
  ∀ s', on_cm (cache_full env now conf) s = (Ok false, s') →
    srv_bounded B (on_cm (update env m NEW None) s').2.
Proof.
  intros HB Hs. destruct (cache_full_spec B env now conf (s_cm s) HB Hs) as [H1 H2]. split.
  - rw /on_cm /zoom. by destruct (cache_full env now conf (s_cm s)).
  - intros s' (cm' & Hf & ->)%on_cm_inv. rw Hf in H1. simpl in H1.
    pose proof (bounded_update_new B env m None cm' (proj1 H1) (H2 _ Hf)) as Hu.
    rw /on_cm /zoom. cbn [s_cm]. by destruct (update env m NEW None cm').
Qed.

Lemma bounded_checkout B env url : preserves (srv_bounded B) (on_cm (Project := Project) (checkout env url)).
Proof.
  apply preserves_on_cm. intros cm Hc. destruct (checkout env url cm) as [r cm'] eqn:E.
  by rw (checkout_pure _ _ _ _ _ E).
Qed.

Lemma bounded_pull_reply B ops env now conf url cache_id found :
  (max_projects conf ≤ B)%Z →
  preserves (srv_bounded B) (pull_reply (Project := Project) ops env now conf url cache_id found).
Proof.
  intros HB. destruct found as [[[m|e]|] st]; destruct st; simpl; auto with py.
  { intros s Hs. destruct (bounded_admit B env now conf m s HB Hs) as [H1 H2].
    destruct (on_cm (cache_full env now conf) s) as [[[]|x] s1] eqn:E; simpl in H1.
    - erewrite bind_ok by done. exact H1.
    - erewrite bind_ok by done. specialize (H2 _ eq_refl).
      destruct (on_cm (update env m NEW None) s1) as [[r|x] s2] eqn:E2; simpl in H2.
      + erewrite bind_ok by done. revert H2.
        apply (preserves_bind _ (on_cm _)); [apply preserves_on_cm, bounded_pin|auto with py].
      + by erewrite bind_raise by done.
    - by erewrite bind_raise by done. }
  all: repeat (apply preserves_bind;
    [apply preserves_on_cm; first [by apply bounded_update|apply bounded_pin]|intros ?]);
    auto with py.
Qed.

Lemma bounded_checkout_project B ops env now conf uri pull cache_id :
  (max_projects conf ≤ B)%Z →
  preserves (srv_bounded B) (checkout_project (Project := Project) ops env now conf uri pull cache_id).
Proof.
  intros HB. apply preserves_try.
  - apply preserves_bind; [apply preserves_pure|intros url].
    apply preserves_bind; [apply bounded_checkout|intros found].
    apply preserves_bind.
    + destruct pull; [by apply bounded_pull_reply|].
      apply preserves_bind; auto with py.
    + intros [r|]; [apply preserves_on_conn|auto with py].
  - intros [] k [= <-]; apply preserves_on_conn.
Qed.

Lemma bounded_drop_project B ops env conf uri cache_id :
  preserves (srv_bounded B) (drop_project (Project := Project) ops env conf uri cache_id).
Proof.
  apply preserves_bind; [apply preserves_pure|intros url].
  apply preserves_bind; [apply bounded_checkout|intros found].
  apply preserves_bind; [rw /drop_reply|intros; apply preserves_on_conn].
  destruct found as [[[m|e]|] []]; auto with py.
  all: apply preserves_bind; [by apply preserves_on_cm, bounded_update|auto with py].
Qed.

Lemma bounded_send_project_info B ops env conf uri cache_id :
  preserves (srv_bounded B) (send_project_info (Project := Project) ops env conf uri cache_id).
Proof.
  apply preserves_try.
  - apply preserves_bind; [apply preserves_pure|intros url].
    apply preserves_bind; [apply bounded_checkout|intros found].
    destruct found as [[[m|e]|] []]; apply preserves_on_conn.
  - intros [] k [= <-]; apply preserves_on_conn.
Qed.
End srv.

(** ** What the requests do *)
Section requests.
Context {Project : Type}.
Implicit Types (s : Srv Project) (cm : CacheManager Project) (e : CacheEntry Project)
  (env : Env Project) (ops : ProjectOps Project).

Lemma pin_entry_spec e cm :
  cm_inv cm → lookup (uri (md e)) (_cache cm) = Some e →
  ∃ cm', pin_entry e cm = (Ok (pin e), cm') ∧ cm_inv cm' ∧
         lookup (uri (md e)) (_cache cm') = Some (pin e).
Proof.
  intros Hi He. eexists. split_and!; [reflexivity|by apply cm_inv_alter|]. simpl.
  rw lookup_alter; [apply Hi|]. by rw decide_True // He.
Qed.

Lemma pinned_not_evicted env now cm r cm' k e :
  cm_inv cm → lookup k (_cache cm) = Some e → pinned e = true →
  evict_by_popularity env now cm = (Ok r, cm') → lookup k (_cache cm') = Some e.
Proof.
  intros Hi He Hp H. apply evict_spec in H; [|done]. destruct r as [c|]; [|by destruct H as [-> _]].
  destruct H as (_ & Hc & Hl & -> & _). destruct (decide (k = uri (md c))) as [->|]; [congruence|].
  rw lookup_delete_ne //. apply Hi.
Qed.

(** A checked out entry is the one the cache holds under its uri. *)
Lemma checkout_found env url cm e st cm' :
  cm_inv cm → checkout env url cm = (Ok (Some (FoundEntry e), st), cm') →
  cm' = cm ∧ lookup (uri (md e)) (_cache cm) = Some e.
Proof.
  intros [_ Hk] (-> & h & _ & Hs)%checkout_sound. split; [done|].
  destruct st; try done; [destruct Hs as (x & _ & Hl & _)..|destruct Hs as (x & _ & Hl)];
    by rw (Hk _ _ Hl).
Qed.

Lemma pull_reply_pinned ops env now conf url cid found s s' i :
  cm_inv (s_cm s) →
  (∀ e, found.1 = Some (FoundEntry e) → lookup (uri (md e)) (_cache (s_cm s)) = Some e) →
  pull_reply ops env now conf url cid found s = (Ok (Some i), s') →
  ci_in_cache i = true →
  s_conn s' = s_conn s ∧ cm_inv (s_cm s') ∧
  ∃ e, lookup (ci_uri i) (_cache (s_cm s')) = Some e ∧ pinned e = true.
Proof.
  assert (∀ e st c t, cm_inv (s_cm t) → lookup (uri (md e)) (_cache (s_cm t)) = Some e →
    (e0 ← on_cm (pin_entry e); mret (Some (cache_info_from_entry ops e0 st true cid)))
      t = (Ok (Some i), c) →
    s_conn c = s_conn t ∧ cm_inv (s_cm c) ∧
    ∃ e, lookup (ci_uri i) (_cache (s_cm c)) = Some e ∧ pinned e = true) as Hpin.
  { intros e st c t Hi He. destruct (pin_entry_spec e (s_cm t) Hi He) as (cm' & Hp & Hi' & Hl).
    erewrite bind_ok by (by apply on_cm_ok). intros [= <- <-]. eauto. }
  intros Hi Hf. destruct found as [[[m|e]|] st]; destruct st; simpl; try done;
    try by intros [= <- <-].
  - intros (full & s1 & Hfull & H)%bind_ok_inv.
    apply on_cm_inv in Hfull as (cm1 & Hfull & ->).
    destruct full; [by apply bind_ok_inv in H as (? & ? & _ & [=])|].
    apply bind_ok_inv in H as (r & s2 & Hu & H). apply on_cm_inv in Hu as (cm2 & Hu & ->).
    destruct r as [e st]. assert (cm_inv cm1) as Hi1.
    { pose proof (cache_full_spec _ env now conf (s_cm s) (Z.le_max_l _ _)
        (conj Hi (Z.le_max_r (max_projects conf) _))) as [[? _] _]. by rw Hfull in H0. }
    assert (cm_inv cm2) as Hi2.
    { pose proof (preserves_update env m NEW None cm1 Hi1) as H2. by rw Hu in H2. }
    apply update_load_lookup in Hu as (Hmd & Hl & _); [|by auto..].
    eapply Hpin in H; [done|done|]. simpl. by rw Hmd.
  - intros H _. eapply Hpin in H; [done|done|]. by apply Hf.
  - intros (r & s2 & Hu & H)%bind_ok_inv. apply on_cm_inv in Hu as (cm2 & Hu & ->).
    destruct r as [e' st]. assert (cm_inv cm2) as Hi2.
    { pose proof (preserves_update env (md e) NEEDUPDATE None _ Hi) as H2. by rw Hu in H2. }
    apply update_load_lookup in Hu as (Hmd & Hl & _); [|by auto..].
    eapply Hpin in H; [done|done|]. simpl. by rw Hmd.
  - by intros (r & s2 & Hu & [= <- <-])%bind_ok_inv.
  - intros H _. eapply Hpin in H; [done|done|]. by apply Hf.
Qed.

(** The connection stays open through an operation. *)
Definition conn_open s : Prop := cancelled (s_conn s) = false.

Lemma open_on_cm {A} (m : M (CacheManager Project) A) : preserves conn_open (on_cm m).
Proof. intros s Hs. rw /on_cm /zoom. by destruct (m (s_cm s)). Qed.

Lemma open_send (p : Payload) (status : Z) : preserves conn_open (on_conn (send_reply p status)).
Proof. intros s Hs. by rw send_open. Qed.

Lemma open_pull_reply ops env now conf url cid found :
  preserves conn_open (pull_reply ops env now conf url cid found).
Proof.
  destruct found as [[[m|e]|] []]; simpl; auto with py;
    repeat (apply preserves_bind; [apply open_on_cm|intros ?]); auto with py.
  case_match; [|repeat (apply preserves_bind; [apply open_on_cm|intros ?]); auto with py].
  apply preserves_bind; [apply open_send|auto with py].
Qed.

(** What a pull that answers with a [CacheInfo] went through. *)
Lemma pull_answered ops env now conf uri cid s s' i :
  conn_open s → checkout_project ops env now conf uri true cid s = (Ok tt, s') →
  out (s_conn s') = out (s_conn s) ++ [FReply 200 (PCacheInfo i)] →
  ∃ url found s1, resolve_path (projects_routes conf) (allow_direct_path_resolution conf) uri true = Ok url ∧
    checkout env url (s_cm s) = (Ok found, s_cm s) ∧
    pull_reply ops env now conf url cid found s = (Ok (Some i), s1) ∧ s_cm s' = s_cm s1.
Proof.
  intros Hc Hrun Hout. rw /checkout_project /try_except in Hrun.
  match type of Hrun with (match ?b ?t with _ => _ end) = _ => set (body := b) in Hrun end.
  assert (preserves conn_open body) as Hb.
  { apply preserves_bind; [apply preserves_pure|intros url].
    apply preserves_bind; [apply open_on_cm|intros found].
    apply preserves_bind; [apply open_pull_reply|]. intros [r|]; [apply open_send|auto with py]. }
  destruct (body s) as [[[]|x] s1] eqn:Hm; last first.
  { pose proof (preserves_run _ _ _ _ _ Hb Hc Hm) as Hc1.
    destruct x; simplify_eq; rw send_open // in Hrun; injection Hrun as <-; simpl in Hout;
      by apply app_inj_2 in Hout as [_ [=]]. }
  injection Hrun as <-. apply bind_ok_inv in Hm as (url & s1' & [= Hr <-] & Hm).
  apply bind_ok_inv in Hm as (found & s1' & Hf & Hm). apply on_cm_inv in Hf as (cm1 & Hf & ->).
  pose proof (checkout_pure _ _ _ _ _ Hf) as ->.
  replace (MkSrv (s_cm s) (s_conn s)) with s in Hm by (by destruct s).
  apply bind_ok_inv in Hm as (reply & s2 & Hp & Hm).
  pose proof (preserves_run _ _ _ _ _ (open_pull_reply ops env now conf url cid found) Hc Hp) as Hc2.
  destruct reply as [r|].
  - rw send_open // in Hm. injection Hm as <-. simpl in Hout.
    apply app_inj_2 in Hout as [_ [= ->]]; [|done]. exists url, found, s2. done.
  - injection Hm as <-. destruct found as [[[m|e]|] []]; simpl in Hp; try done;
      repeat (apply bind_ok_inv in Hp as (? & ? & ? & Hp)); try done.
    case_match; [|repeat (apply bind_ok_inv in Hp as (? & ? & ? & Hp)); done].
    apply bind_ok_inv in Hp as (? & s3 & Hsend & [= <-]).
    match goal with H : on_cm _ s = (_, ?t) |- _ =>
      pose proof (preserves_run _ _ _ _ _ (open_on_cm _) Hc H) as Hc3 end.
    rw send_open // in Hsend. injection Hsend as _ <-. simpl in Hout.
    by apply app_inj_2 in Hout as [_ [=]].
Qed.

(** A project pulled into the cache stays there: when a pull answers that
    the project is in the cache, the entry is stored under the uri it answers
    and pinned, and no eviction, at any time, removes it. *)
Theorem pull_project_pinned ops env now conf uri cid s s' i :
  cm_inv (s_cm s) → cancelled (s_conn s) = false →
  checkout_project ops env now conf uri true cid s = (Ok tt, s') →
  out (s_conn s') = out (s_conn s) ++ [FReply 200 (PCacheInfo i)] → ci_in_cache i = true →
  ∃ e, lookup (ci_uri i) (_cache (s_cm s')) = Some e ∧ pinned e = true ∧
    ∀ env' now' r cm', evict_by_popularity env' now' (s_cm s') = (Ok r, cm') →
      lookup (ci_uri i) (_cache cm') = Some e.
Proof.
  intros Hi Hc Hrun Hout Hin.
  destruct (pull_answered _ _ _ _ _ _ _ _ _ Hc Hrun Hout) as (url & found & s1 & _ & Hf & Hp & ->).
  apply pull_reply_pinned in Hp as (_ & Hi1 & e & He & Hpin); [|done| |done].
  - exists e. split_and!; [done..|]. intros. by eapply pinned_not_evicted.
  - intros e He. destruct found as [f st]. simpl in He. subst f.
    by apply checkout_found in Hf as [_ ?].
Qed.

(** A resource whose entry was deleted is not found in the cache any more. *)
Lemma checkout_deleted env url cm e st cm' r :
  cm_inv cm → checkout env url cm = (Ok (Some (FoundEntry e), st), cm') →
  ∃ f st', checkout env url (CM (delete (uri (md e)) (_cache cm)) r)
           = (Ok (f, st'), CM (delete (uri (md e)) (_cache cm)) r) ∧ (st' = NEW ∨ st' = NOTFOUND).
Proof.
  intros [Hwf Hk] (_ & h & Hh & Hs)%checkout_sound.
  assert (∀ m, h_project_metadata h url = Ok m → lookup (uri m) (_cache cm) = Some e →
    ∃ f st', checkout env url (CM (delete (uri (md e)) (_cache cm)) r)
           = (Ok (f, st'), CM (delete (uri (md e)) (_cache cm)) r) ∧ (st' = NEW ∨ st' = NOTFOUND)) as Hn.
  { intros m Hm Hl. eexists _, _. split; [|by left]. rw /checkout. py_unfold. rw Hh Hm (Hk _ _ Hl).
    by rw lookup_delete_eq. }
  destruct st; try done; [destruct Hs as (m & Hm & Hl & _); by eapply Hn..|].
  destruct Hs as (u & Hm & Hl). eexists _, _. split; [|by right].
  rw /checkout. py_unfold. rw Hh Hm (Hk _ _ Hl). by rw lookup_delete_eq.
Qed.

Lemma drop_reply_spec ops env url uri cid found s s' i :
  cm_inv (s_cm s) → checkout env url (s_cm s) = (Ok found, s_cm s) →
  drop_reply ops env uri cid found s = (Ok i, s') →
  ci_in_cache i = false ∧ s_conn s' = s_conn s ∧
  (∃ f st, checkout env url (s_cm s') = (Ok (f, st), s_cm s') ∧ (st = NEW ∨ st = NOTFOUND)) ∧
  ∃ k, ∀ u, u ≠ k → lookup u (_cache (s_cm s')) = lookup u (_cache (s_cm s)).
Proof.
  intros Hi Hf. destruct (checkout_sound _ _ _ _ _ Hf) as [_ (h & _ & Hs)].
  assert (∀ e st, found = (Some (FoundEntry e), st) →
    (r ← on_cm (update env (md e) REMOVED None);
     mret (cache_info (CacheManager.uri (md e)) r.2 cid None
       (timestamp_to_iso (last_modified (md e))) (Some (lastSaveVersion ops (project e))))) s
      = (Ok i, s') →
    ci_in_cache i = false ∧ s_conn s' = s_conn s ∧
    (∃ f st, checkout env url (s_cm s') = (Ok (f, st), s_cm s') ∧ (st = NEW ∨ st = NOTFOUND)) ∧
    ∃ k, ∀ u, u ≠ k → lookup u (_cache (s_cm s')) = lookup u (_cache (s_cm s))) as Hdel.
  { intros e st -> (r & s3 & Hu & [= <- <-])%bind_ok_inv.
    apply on_cm_inv in Hu as (cm3 & Hu & ->). pose proof (checkout_found _ _ _ _ _ _ Hi Hf) as [_ Hl].
    destruct (update_removed env (md e) None (s_cm s) e Hl) as [rm Hu'].
    rw Hu' in Hu. injection Hu as <- <-. simpl. split_and!; [done..|by eapply checkout_deleted|].
    exists (CacheManager.uri (md e)). intros u Hu. rw lookup_delete_ne //. apply Hi. }
  destruct found as [[[m|e]|] []]; simpl in Hs; try done; [|by eapply Hdel..|];
    intros [= <- <-]; split_and!; try done; [by eauto|by exists ""|by eauto|by exists ""].
Qed.

(** Dropping takes the project out of the cache and nothing else: after a
    successful drop the same resource checks out as [NEW] or [NOTFOUND], every
    entry under another uri is as before, and one reply was sent, which says
    that the project is not in the cache. *)
Theorem drop_project_drops ops env conf uri cid s s' :
  cm_inv (s_cm s) → cancelled (s_conn s) = false →
  drop_project ops env conf uri cid s = (Ok tt, s') →
  ∃ url k i, resolve_path (projects_routes conf) (allow_direct_path_resolution conf) uri true = Ok url ∧
    (∃ f st, checkout env url (s_cm s') = (Ok (f, st), s_cm s') ∧ (st = NEW ∨ st = NOTFOUND)) ∧
    (∀ u, u ≠ k → lookup u (_cache (s_cm s')) = lookup u (_cache (s_cm s))) ∧
    out (s_conn s') = out (s_conn s) ++ [FReply 200 (PCacheInfo i)] ∧ ci_in_cache i = false.
Proof.
  intros Hi Hc Hrun. apply bind_ok_inv in Hrun as (url & s1' & [= Hr <-] & Hrun).
  apply bind_ok_inv in Hrun as (found & s1' & Hf & Hm). apply on_cm_inv in Hf as (cm1 & Hf & ->).
  pose proof (checkout_pure _ _ _ _ _ Hf) as ->.
  replace (MkSrv (s_cm s) (s_conn s)) with s in Hm by (by destruct s).
  apply bind_ok_inv in Hm as (i & s2 & Hd & Hm).
  apply (drop_reply_spec _ _ url) in Hd as (Hin & Hc2 & Hco & k & Hk); [|done..].
  rw send_open in Hm; [by rw Hc2|]. injection Hm as <-. exists url, k, i. simpl. by rw Hc2.
Qed.

(** Pulling an out of date project does not bring it up to date: the
    reload stores the project with the metadata of the old entry, so that the
    pull answers [UPDATED] but the next checkout still says [NEEDUPDATE]. *)
Theorem pull_outdated_stays_outdated ops env now conf path cid s s' i url h m e0 :
  cm_inv (s_cm s) → cancelled (s_conn s) = false →
  resolve_path (projects_routes conf) (allow_direct_path_resolution conf) path true = Ok url →
  get_protocol_handler env (scheme url) = Ok h → h_project_metadata h url = Ok m →
  lookup (uri m) (_cache (s_cm s)) = Some e0 → out_of_date m e0 = true →
  checkout_project ops env now conf path true cid s = (Ok tt, s') →
  out (s_conn s') = out (s_conn s) ++ [FReply 200 (PCacheInfo i)] →
  ci_status i = status_value UPDATED ∧
  ∃ e, checkout env url (s_cm s') = (Ok (Some (FoundEntry e), NEEDUPDATE), s_cm s').
Proof.
  intros Hi Hc Hr Hh Hm He0 Ho Hrun Hout.
  destruct (pull_answered _ _ _ _ _ _ _ _ _ Hc Hrun Hout) as (url' & found & s1 & Hr' & Hf & Hp & ->).
  rw Hr in Hr'. injection Hr' as <-. revert Hf. rw /checkout. py_unfold. rw Hh Hm He0 Ho.
  intros [= <-]. simpl in Hp. pose proof (proj2 Hi _ _ He0) as Hu0.
  apply bind_ok_inv in Hp as ([e st] & s2 & Hu & Hp). apply on_cm_inv in Hu as (cm2 & Hu & ->).
  assert (st = UPDATED) as ->.
  { revert Hu. rw /update. intros (? & ? & _ & Hu)%bind_ok_inv.
    do 3 apply bind_ok_inv in Hu as (? & ? & _ & Hu). by injection Hu. }
  assert (cm_inv cm2) as Hi2.
  { apply (preserves_run cm_inv _ _ _ _ (preserves_update env (md e0) NEEDUPDATE None) Hi Hu). }
  apply update_load_lookup in Hu as (Hmd & Hl & _); [|by auto..]. rw -Hmd in Hl.
  destruct (pin_entry_spec e cm2 Hi2 Hl) as (cm3 & Hpin & _ & Hl3).
  erewrite bind_ok in Hp by (by apply on_cm_ok). injection Hp as <- <-. split; [done|].
  exists (pin e). simpl. rw -Hu0 -Hmd Hl3 /=.
  rw /out_of_date in Ho |- *. simpl. by rw Hmd Ho.
Qed.
End requests.

(** ** On the storage of [Demo] *)
Import Demo.
Module CacheDemo.
Definition ops : ProjectOps string := {|
  lastSaveVersion _ := "3.34"; crs_authid _ := "EPSG:4326";
  mapLayers _ := [];
|}.
(** All paths below [/] are served from the directory of the same name. *)
Definition routes : Routes :=
  match build_routes (fun _ => None) [("/", "file:///")] with Ok r => r | Raise _ => [] end.
Definition conf : QgisConfig := MkConf 2 true true 1024 true [] routes false.
Definition srv (cm : CacheManager string) : Srv string := MkSrv cm (MkConn false []).
Definition pull (tbl : table) (u : string) (cm : CacheManager string) : res unit * Srv string :=
  checkout_project ops (demo_env tbl) (Qc_of_Z 20) conf u true "w" (srv cm).
End CacheDemo.
Import CacheDemo.

Lemma pull_project_pinned_witness :
  let s' := (pull [("/a", 1); ("/b", 1)]%Z "/b" (loaded [("/a", 1)]%Z)).2 in
  ∃ e, lookup "/b" (_cache (s_cm s')) = Some e ∧ pinned e = true ∧
    ∀ env' now' r cm', evict_by_popularity env' now' (s_cm s') = (Ok r, cm') →
      lookup "/b" (_cache cm') = Some e.
Proof.
  intros s'.
  apply (pull_project_pinned ops (demo_env [("/a", 1); ("/b", 1)]%Z) (Qc_of_Z 20) conf "/b" "w"
    (srv (loaded [("/a", 1)]%Z)) s'
    (cache_info_from_entry ops (pin (demo_entry "/b" 1)) NEW true "w")).
  - apply loaded_inv.
  - reflexivity.
  - vm_compute. reflexivity.
  - vm_compute. reflexivity.
  - reflexivity.
Defined.

Lemma drop_project_drops_witness :
  let s := srv (loaded [("/a", 1); ("/b", 1)]%Z) in
  let s' := (drop_project ops (demo_env [("/a", 1)]%Z) conf "/b" "w" s).2 in
  ∃ url k i, resolve_path (projects_routes conf) false "/b" true = Ok url ∧
    (∃ f st, checkout (demo_env [("/a", 1)]%Z) url (s_cm s') = (Ok (f, st), s_cm s') ∧
             (st = NEW ∨ st = NOTFOUND)) ∧
    (∀ u, u ≠ k → lookup u (_cache (s_cm s')) = lookup u (_cache (s_cm s))) ∧
    out (s_conn s') = out (s_conn s) ++ [FReply 200 (PCacheInfo i)] ∧ ci_in_cache i = false.
Proof.
  intros s s'. apply (drop_project_drops ops (demo_env [("/a", 1)]%Z) conf "/b" "w" s s').
  - apply loaded_inv.
  - reflexivity.
  - vm_compute. reflexivity.
Defined.

Lemma pull_outdated_stays_outdated_witness :
  let s' := (pull [("/a", 2)]%Z "/a" (loaded [("/a", 1)]%Z)).2 in
  status_value UPDATED = status_value UPDATED ∧
  ∃ e, checkout (demo_env [("/a", 2)]%Z) (SplitResult "file" "" "/a" "" "") (s_cm s')
    = (Ok (Some (FoundEntry e), NEEDUPDATE), s_cm s').
Proof.
  intros s'.
  apply (pull_outdated_stays_outdated ops (demo_env [("/a", 2)]%Z) (Qc_of_Z 20) conf "/a" "w"
    (srv (loaded [("/a", 1)]%Z)) s'
    (cache_info_from_entry ops (pin (demo_entry "/a" 1)) UPDATED true "w")
    (SplitResult "file" "" "/a" "" "") (demo_handler [("/a", 2)]%Z) (demo_md "/a" 2)
    (demo_entry "/a" 1)).
  - apply loaded_inv.
  - reflexivity.
  - vm_compute. reflexivity.
  - reflexivity.
  - reflexivity.
  - vm_compute. reflexivity.
  - vm_compute. reflexivity.
  - vm_compute. reflexivity.
  - vm_compute. reflexivity.
Defined.
