(* ===== verification/OpRequests.v ===== *)
(** * Requests to the QGIS server

    [qjazz_rpc/op_requests.py]: how a worker gets the project of a request from
    its cache, rebuilds the url for the QGIS server and answers, with the report
    of [qjazz_rpc/monitor.py] and [ROOT_DELEGATE] of [qjazz_rpc/delegate.py].
    The QGIS server itself is a parameter. *)
From S2P Require Import Prelude PyDict PyStd Utils Routes Extent CacheManager Messages Response MapRequests OpCache.

Definition ROOT_DELEGATE : string := "/__delegate__".

(** [requests.Request] *)
Record Request : Type := MkRequest {
  req_url : string;
  req_method : QgsMethod;
  req_headers : list (string * string);
  req_data : list Z;
}.

(** ** The url of a request *)

(** [tuple(k.upper() for k in parse_qs(options))] *)
Definition param_names (options : string) : list string := upper ∘ fst <$> parse_qs options.

(** Lines 99-113 of [handle_ows_request] *)
Definition ows_query (service request : string) (version : option string) (options : string) : string :=
  let options := removeprefix "?" options in
  let params := param_names options in
  let options := if decide ("SERVICE" ∈ params) then options
                 else "SERVICE=" +:+ str_or service "WMS" +:+ "&" +:+ options in
  let options := if negb (str_in "REQUEST" options) && str_truth request
                 then "REQUEST=" +:+ request +:+ "&" +:+ options else options in
  if negb (str_in "VERSION" options) && ostr_truth version
  then "VERSION=" +:+ default "" version +:+ "&" +:+ options else options.

Definition ows_url_of (url : option string) (service request : string) (version : option string)
    (options : option string) : string :=
  if ostr_truth options
  then default "" url +:+ "?" +:+ ows_query service request version (default "" options)
  else default "" url +:+ "?SERVICE=" +:+ str_or service "WMS" +:+ "&REQUEST=" +:+ request +:+
       (if ostr_truth version then "&VERSION=" +:+ default "" version else "").

(** Lines 187-204 of [handle_api_request]: the url, the headers and the name of
    the api *)
Definition api_url_of (aliases : list (string * string)) (msg : ApiRequestMsg) :
    string * list (string * string) * string :=
  let '(url, headers, name) :=
    if api_delegate msg then
      (removesuffix "/" (api_url msg) +:+ ROOT_DELEGATE +:+ "/" +:+ removeprefix "/" (api_path msg),
       api_headers msg ++ [("x-qgis-api", api_name msg)], "API Delegate")
    else
      ((if str_truth (api_path msg)
        then removesuffix "/" (api_url msg) +:+ "/" +:+ removeprefix "/" (api_path msg)
        else api_url msg +:+ "/"),
       api_headers msg,
       default (api_name msg) (assoc (upper (api_name msg)) aliases)) in
  (url +:+ (if ostr_truth (api_options msg) then "?" +:+ default "" (api_options msg) else ""),
   headers, name).

Section requests.
Context {Project : Type}.
Context (env : Env Project) (now_evict now_hit : Qc) (conf : QgisConfig).

(** [entry.hit_me()] on the entry the cache holds *)
Definition hit_entry (e : CacheEntry Project) : M (CacheManager Project) (CacheEntry Project) :=
  modify (fun cm => set_cache (alter (hit_me now_hit) (uri (md e)) (_cache cm)) cm);;
  mret (hit_me now_hit e).

(** The table of [request_project_from_cache] *)
Definition request_found (target : string) (url : Url)
    (found : option (Found Project) * CheckoutStatus) :
    M (Srv Project) (CheckoutStatus * option (CacheEntry Project)) :=
  match found with
  | (Some (FoundEntry e), NEEDUPDATE) =>
      if reload_outdated_project_on_request conf
      then r ← on_cm (update env (md e) NEEDUPDATE None); mret (r.2, Some r.1)
      else mret (NEEDUPDATE, Some e)
  | (Some (FoundEntry e), (UNCHANGED | UPDATED)) => mret (found.2, Some e)
  | (Some (FoundMetadata m), NEW) =>
      if load_project_on_request conf then
        full ← on_cm (cache_full env now_evict conf);
        if (full : bool)
        then on_conn (send_reply (PText "Max object reached on server") 409);; mret (NEW, None)
        else r ← on_cm (update env m NEW None); mret (r.2, Some r.1)
      else on_conn (send_reply (PText ("Resource not found: " +:+ target)) 404);; mret (NEW, None)
  | (Some (FoundEntry e), REMOVED) =>
      on_conn (send_reply (PText target) 410);; mret (REMOVED, Some e)
  | (_, NOTFOUND) =>
      on_conn (send_reply (PText ("Resource not found: " +:+ target)) 404);; mret (NOTFOUND, None)
  | _ => raise (AssertionError "Expected code to be unreachable")
  end.

(** [request_project_from_cache] *)
Definition request_project_from_cache (target : string) (allow_direct : bool) :
    M (Srv Project) (CheckoutStatus * option (CacheEntry Project)) :=
  try_except
    (url ← cm_resolve_path conf target allow_direct;
     found ← on_cm (checkout env url);
     request_found target url found)
    (fun x => match x with
              | ResourceNotAllowed msg =>
                  Some (on_conn (send_reply (PText msg) 403);; mret (NOTFOUND, None))
              | StrictCheckingFailure msg =>
                  Some (on_conn (send_reply (PText msg) 500);; mret (NOTFOUND, None))
              | _ => None
              end).

(** [get_project] *)
Definition get_project (target : string) (allow_direct : bool) :
    M (Srv Project) (option (CacheEntry Project) * CheckoutStatus) :=
  let target := if startswith "/" target then target else "/" +:+ target in
  r ← request_project_from_cache target allow_direct;
  match r with
  | (REMOVED, _) | (_, None) => mret (None, r.1)
  | (st, Some e) => e ← on_cm (hit_entry e); mret (Some e, st)
  end.

(** ** Answering *)

(** The QGIS server: what it does of a request, for a project and an api, on
    the response it is given; [elapsed] is the reading of the monitor's clock,
    [project_file] the [QGIS_PROJECT_FILE] variable. *)
Context (handle_request : Request → option Project → option string → M RS unit).
Context (q : Qgis Project) (float_repr : Qc → string).
Context (elapsed : Z) (project_file : string) (cache_id : string).

(** [Response.header] names and [x-qgis-cache] *)
Definition cache_header (st : CheckoutStatus) : string :=
  match st with NEW | UPDATED => "MISS" | _ => "HIT" end.

(** [handle_generic_request] *)
Definition request_headers (headers : list (string * string)) (content_type : option string) :
    list (string * string) :=
  let hdrs := foldl (fun d kv => insert (capwords_dash kv.1) kv.2 d) (PyDict.empty (V := string))
                (filter (fun kv => startswith "grpc-" kv.1 = false) headers) in
  items (if ostr_truth content_type
         then insert "Content-Type" (default "" content_type) hdrs else hdrs).

Definition handle_generic_request (url : string)
    (entry : option (CacheEntry Project * CheckoutStatus)) (data : option (list Z))
    (method : QgsMethod) (headers : list (string * string)) (target : string)
    (header_prefix content_type : option string) (resp_hdrs : list (string * hvalue)) :
    Request * Response * option Project :=
  let response :=
    match entry with
    | Some (e, st) =>
        let hdrs := dict_update [("x-qgis-last-modified", HStr (to_rfc822 (last_modified (md e))));
                                 ("x-qgis-cache", HStr (cache_header st))]
                      (dict_update resp_hdrs PyDict.empty) in
        new_response (Some target) (Some (status_value st)) (items hdrs) (max_chunk_size conf)
          cache_id header_prefix
    | None => new_response None None [] (max_chunk_size conf) cache_id header_prefix
    end in
  (MkRequest url method (request_headers headers content_type) (default [] data),
   response, project ∘ fst <$> entry).

(** [server.handle_request(req, resp, ...)]: the response as it is left *)
Definition serve (rq : Request * Response * option Project) (api : option string) :
    M (Srv Project) Response :=
  fun s => let '(r, rs) := handle_request rq.1.1 rq.2 api (MkRS rq.1.2 (s_conn s)) in
           (match r with Ok _ => Ok (resp rs) | Raise e => Raise e end,
            MkSrv (s_cm s) (conn rs)).

(** [Monitor.log] *)
Definition monitor_log (send_report : bool) (req_id service request target : string)
    (r : Response) (hits : Z) : M (Srv Project) unit :=
  if send_report then
    on_conn (send_reply (PReport {|
      rep_req_id := req_id; rep_service := service; rep_request := request;
      rep_target := target; rep_target_hits := hits; rep_response_status := _status_code r;
      rep_response_time := elapsed |}) 200)
  else mret tt.

(** Lines 70-97: the method and, for a map request, the service, the request,
    the options and the headers; [None] is a reply already sent *)
Definition ows_prepare (msg : OwsRequestMsg) (e : CacheEntry Project) :
    M (Srv Project) (option (QgsMethod * string * string * option string * list (string * hvalue))) :=
  if decide (ows_request msg = "qjazz-request-map") then
    match ows_options msg with
    | None => raise (PreconditionError "Pre condition failed")
    | Some options =>
        match prepare_map_request q float_repr (project e) options with
        | Ok (options, hdrs) => mret (Some (GetMethod, "WMS", "GetMap", Some options, hdrs))
        | Raise (InvalidMapRequest err) =>
            on_conn (send_reply (PText ("Invalid request: " +:+ err)) 400);; mret None
        | Raise x => raise x
        end
    end
  else
    match ows_method msg with
    | Some m =>
        match _to_qgis_method m with
        | Ok method => mret (Some (method, ows_service msg, ows_request msg, ows_options msg, []))
        | Raise (ValueError _) =>
            on_conn (send_reply (PText "HTTP Method not supported") 405);; mret None
        | Raise x => raise x
        end
    | None => mret (Some (GetMethod, ows_service msg, ows_request msg, ows_options msg, []))
    end.

(** [handle_ows_request] *)
Definition handle_ows_request (msg : OwsRequestMsg) : M (Srv Project) unit :=
  let target := str_or (ows_target msg) project_file in
  if negb (str_truth target) then on_conn (send_reply (PText "Missing project") 400)
  else
    r ← get_project target (ows_direct msg);
    match r with
    | (None, _) => mret tt
    | (Some e, st) =>
        prepared ← ows_prepare msg e;
        match prepared with
        | None => mret tt
        | Some (method, service, request, options, hdrs) =>
            let url := ows_url_of (ows_url msg) service request (ows_version msg) options in
            let rq := handle_generic_request url (Some (e, st)) (ows_body msg) method
                        (ows_headers msg) target (ows_header_prefix msg)
                        (ows_content_type msg) hdrs in
            resp ← serve rq None;
            monitor_log (ows_send_report msg) (str_or (default "" (ows_request_id msg)) "-")
              (str_or service "<UNKN>") (str_or request "<UNKN>") target resp (hits e)
        end
    end.

(** [handle_api_request] *)
Definition handle_api_request (msg : ApiRequestMsg) : M (Srv Project) unit :=
  let target := str_or (default "" (api_target msg)) project_file in
  found ← (if str_truth target
           then r ← get_project target (api_direct msg);
                mret (match r with (Some e, st) => Some (Some (e, st)) | (None, _) => None end)
           else mret (Some None));
  match found with
  | None => mret tt
  | Some entry =>
      match _to_qgis_method (api_method msg) with
      | Raise (ValueError _) => on_conn (send_reply (PText "HTTP Method not supported") 405)
      | Raise x => raise x
      | Ok method =>
          let '(url, headers, name) := api_url_of (api_aliases conf) msg in
          let rq := handle_generic_request url entry (api_data msg) method headers target
                      (api_header_prefix msg) (api_content_type msg) [] in
          resp ← serve rq (Some name);
          monitor_log (api_send_report msg) (str_or (default "" (api_request_id msg)) "-")
            (api_name msg) "OAPI" target resp (match entry with Some (e, _) => hits e | None => 0 end)
      end
  end.
End requests.

(** ** Getting the project of a request *)
Section get_project.
Context {Project : Type} (env : Env Project) (now_evict now_hit : Qc) (conf : QgisConfig).
Implicit Types (s : Srv Project) (e : CacheEntry Project).

Lemma cache_full_inv s full cm' :
  cm_inv (s_cm s) → cache_full env now_evict conf (s_cm s) = (Ok full, cm') → cm_inv cm'.
Proof.
  intros Hi Hf. pose proof (cache_full_spec _ env now_evict conf (s_cm s) (Z.le_max_l _ _)
    (conj Hi (Z.le_max_r (max_projects conf) _))) as [[H _] _]. by rw Hf in H.
Qed.

(** One error reply. *)
Definition refused s s' : Prop :=
  ∃ code txt, out (s_conn s') = out (s_conn s) ++ [FReply code (PText txt)] ∧
              code ∈ [403; 404; 409; 410; 500]%Z.

Lemma refuse {A} (a : A) s s' t code txt b :
  conn_open s → s_conn s = s_conn t → code ∈ [403; 404; 409; 410; 500]%Z →
  (on_conn (send_reply (PText txt) code);; mret a) s = (Ok b, s') → a = b ∧ refused t s'.
Proof.
  intros Hc Ht Hcode H. erewrite bind_ok in H by (by apply send_open). injection H as <- <-.
  split; [done|]. exists code, txt. simpl. by rw Ht.
Qed.

(** The project is served from the cache. *)
Definition served s s' (st : CheckoutStatus) e : Prop :=
  s_conn s' = s_conn s ∧ cm_inv (s_cm s') ∧ lookup (uri (md e)) (_cache (s_cm s')) = Some e ∧
  st ∈ [UNCHANGED; NEEDUPDATE; NEW; UPDATED] ∧
  (st = NEEDUPDATE → reload_outdated_project_on_request conf = false).

(** A load answers [NEW] or [UPDATED] and the entry is in the cache. *)
Lemma update_served m st s r s' :
  cm_inv (s_cm s) → st = NEW ∨ st = NEEDUPDATE →
  on_cm (update env m st None) s = (Ok r, s') → served s s' r.2 r.1.
Proof.
  intros Hi Hst (cm' & Hu & ->)%on_cm_inv. destruct r as [e st'].
  assert (st' = NEW ∨ st' = UPDATED) as Hst'.
  { revert Hu. destruct Hst as [-> | ->]; rw /update; intros (? & ? & _ & Hu)%bind_ok_inv;
      repeat apply bind_ok_inv in Hu as (? & ? & _ & Hu); injection Hu; auto. }
  pose proof (preserves_run cm_inv _ _ _ _ (preserves_update env m st None) Hi Hu) as Hi'.
  apply update_load_lookup in Hu as (<- & Hl & _); [|done..].
  split_and!; [done..| |]; destruct Hst' as [-> | ->]; set_solver.
Qed.

Lemma request_found_spec target url found s st oe s' :
  cm_inv (s_cm s) → conn_open s → checkout env url (s_cm s) = (Ok found, s_cm s) →
  request_found env now_evict conf target url found s = (Ok (st, oe), s') →
  (∃ e, oe = Some e ∧ served s s' st e) ∨ ((oe = None ∨ st = REMOVED) ∧ refused s s').
Proof.
  intros Hi Hc Hf. destruct (checkout_sound _ _ _ _ _ Hf) as [_ (h & _ & Hs)].
  assert (∀ e, found.1 = Some (FoundEntry e) → lookup (uri (md e)) (_cache (s_cm s)) = Some e) as Hfe.
  { intros e He. destruct found as [f st0]. simpl in He. subst f. by apply checkout_found in Hf as [_ ?]. }
  destruct found as [[[m|e]|] []]; simpl in Hs; try done; simpl; intros H.
  - destruct (load_project_on_request conf).
    + apply bind_ok_inv in H as (full & s1 & H1 & H). apply on_cm_inv in H1 as (cm1 & H1 & ->).
      destruct full.
      * apply (refuse _ _ _ s) in H as [[= <- <-] ?]; [by eauto|done|done|set_solver].
      * left. apply bind_ok_inv in H as (r & s2 & Hu & [= <- <- <-]).
        apply update_served in Hu as (? & ? & ? & ?); [|by eapply cache_full_inv|by left].
        exists r.1. by split_and!.
    + apply (refuse _ _ _ s) in H as [[= <- <-] ?]; [by eauto|done|done|set_solver].
  - left. injection H as <- <- <-. exists e. split; [done|]. split_and!; auto; set_solver.
  - left. destruct (reload_outdated_project_on_request conf) eqn:Hr.
    + apply bind_ok_inv in H as (r & s2 & Hu & [= <- <- <-]).
      exists r.1. split; [done|]. eapply update_served; [done|by right|done].
    + injection H as <- <- <-. exists e. split; [done|]. split_and!; auto; set_solver.
  - apply (refuse _ _ _ s) in H as [[= <- <-] ?]; [by eauto|done|done|set_solver].
  - apply (refuse _ _ _ s) in H as [[= <- <-] ?]; [by eauto|done|done|set_solver].
Qed.

Lemma bounded_request_project B target direct :
  (max_projects conf ≤ B)%Z →
  preserves (srv_bounded B) (request_project_from_cache env now_evict conf target direct).
Proof.
  intros HB. apply preserves_try.
  - apply preserves_bind; [apply preserves_pure|intros url].
    apply preserves_bind; [apply bounded_checkout|intros found].
    assert (∀ m st, st ≠ NEW → preserves (srv_bounded B)
      (r ← on_cm (update env m st None); mret (r.2, Some r.1))) as Hu.
    { intros m st Hst. apply preserves_bind; [by apply preserves_on_cm, bounded_update|auto with py]. }
    assert (∀ p code (r : CheckoutStatus * option (CacheEntry Project)),
      preserves (srv_bounded (Project := Project) B) (on_conn (send_reply p code);; mret r)) as Hsend.
    { intros. apply preserves_bind; [apply preserves_on_conn|auto with py]. }
    destruct found as [[[m|e]|] []]; simpl; auto with py; [|by case_match; auto with py].
    case_match; [|auto]. intros s Hs.
    destruct (bounded_admit B env now_evict conf m s HB Hs) as [H1 H2].
    destruct (on_cm (cache_full env now_evict conf) s) as [[[]|x] s1] eqn:E; simpl in H1.
    + erewrite bind_ok by done. exact (Hsend _ _ _ _ H1).
    + erewrite bind_ok by done. specialize (H2 _ eq_refl).
      destruct (on_cm (update env m NEW None) s1) as [[r|x] s2] eqn:E2; simpl in H2.
      * by erewrite bind_ok by done.
      * by erewrite bind_raise by done.
    + by erewrite bind_raise by done.
  - intros [] k [= <-]; (apply preserves_bind; [apply preserves_on_conn|auto with py]).
Qed.

Lemma on_cm_conn {A} (m : M (CacheManager Project) A) s r s' :
  on_cm m s = (r, s') → s_conn s' = s_conn s.
Proof. by intros (cm' & _ & ->)%on_cm_inv. Qed.

(** When it raises, nothing was sent. *)
Lemma request_found_raise target url found s x s' :
  request_found env now_evict conf target url found s = (Raise x, s') → s_conn s' = s_conn s.
Proof.
  assert (∀ {A} (f : A) p code t, (on_conn (send_reply p code);; mret f) t = (Raise x, s') → False) as Hsend.
  { intros A f p code t [(? & ? & _ & [=])|(? & H & _)]%bind_inv. revert H.
    rw /on_conn /zoom /send_reply /send_frame. by py_unfold. }
  assert (∀ m st t, (r ← on_cm (update env m st None); mret (r.2, Some r.1)) t = (Raise x, s') →
    s_conn s' = s_conn t) as Hup.
  { intros m st t [(? & ? & _ & [=])|(? & H & _)]%bind_inv. by apply on_cm_conn in H. }
  destruct found as [[[m|e]|] []]; simpl; repeat case_match; try by intros [= _ <-].
  all: try (by intros ?%Hsend); try (by intros ?%Hup).
  intros [(full & s1 & H1 & H2)|(? & H1 & _)]%bind_inv; apply on_cm_conn in H1; [|done].
  destruct full; [by apply Hsend in H2|]. apply Hup in H2. by rw H2.
Qed.

Lemma request_project_inv target direct s r s' :
  cm_inv (s_cm s) → request_project_from_cache env now_evict conf target direct s = (r, s') →
  cm_inv (s_cm s').
Proof.
  intros Hi Hr.
  assert (srv_bounded (max_projects conf `max` Z.of_nat (cm_len (s_cm s))) s) as Hb.
  { split; [done|]. lia. }
  apply (preserves_run _ _ _ _ _ (bounded_request_project _ target direct (Z.le_max_l _ _)) Hb) in Hr.
  apply Hr.
Qed.

Lemma request_project_spec target direct s st oe s' :
  cm_inv (s_cm s) → conn_open s →
  request_project_from_cache env now_evict conf target direct s = (Ok (st, oe), s') →
  (∃ e, oe = Some e ∧ served s s' st e) ∨ ((oe = None ∨ st = REMOVED) ∧ refused s s').
Proof.
  intros Hi Hc. rw /request_project_from_cache /try_except.
  match goal with |- (match ?b ?t with _ => _ end) = _ → _ => destruct (b t) as [[[st1 oe1]|x] s1] eqn:Hm end.
  - intros [= <- <- <-]. apply bind_ok_inv in Hm as (url & ? & [= Hr <-] & Hm).
    apply bind_ok_inv in Hm as (found & ? & Hf & Hm). apply on_cm_inv in Hf as (cm1 & Hf & ->).
    pose proof (checkout_pure _ _ _ _ _ Hf) as ->.
    replace (MkSrv (s_cm s) (s_conn s)) with s in Hm by (by destruct s).
    by eapply request_found_spec.
  - assert (s_conn s1 = s_conn s) as Hs1.
    { apply bind_inv in Hm as [(url & ? & [= Hr <-] & Hm)|(? & [= _ <-] & _)]; [|done].
      apply bind_inv in Hm as [(found & s2 & Hf & Hm)|(? & Hf & _)]; apply on_cm_conn in Hf; [|done].
      apply request_found_raise in Hm. congruence. }
    destruct x; try done; intros H;
      (apply (refuse _ _ _ s) in H as [[= <- <-] ?]; [by eauto|by rw /conn_open Hs1|done|set_solver]).
Qed.

Lemma hit_entry_spec e cm :
  cm_inv cm → lookup (uri (md e)) (_cache cm) = Some e →
  ∃ cm', hit_entry now_hit e cm = (Ok (hit_me now_hit e), cm') ∧ cm_inv cm' ∧
         lookup (uri (md e)) (_cache cm') = Some (hit_me now_hit e).
Proof.
  intros Hi He. eexists. split_and!; [reflexivity|by apply cm_inv_alter|]. simpl.
  rw lookup_alter; [apply Hi|]. by rw decide_True // He.
Qed.

(** What [get_project] answers. *)
Lemma get_project_gets target direct s oe st s' :
  cm_inv (s_cm s) → cancelled (s_conn s) = false →
  get_project env now_evict now_hit conf target direct s = (Ok (oe, st), s') →
  cm_inv (s_cm s') ∧
  match oe with
  | Some e => s_conn s' = s_conn s ∧ lookup (uri (md e)) (_cache (s_cm s')) = Some e ∧
      last_hit e = now_hit ∧ st ∈ [UNCHANGED; NEEDUPDATE; NEW; UPDATED] ∧
      (st = NEEDUPDATE → reload_outdated_project_on_request conf = false)
  | None => refused s s'
  end.
Proof.
  intros Hi Hc H. rw /get_project in H. apply bind_ok_inv in H as ([st1 oe1] & s1 & Hr & H).
  pose proof (request_project_inv _ _ _ _ _ Hi Hr) as Hi1.
  apply request_project_spec in Hr as [(e & -> & Hc1 & _ & Hl & Hst & Ho)|[Hn Href]]; [| |done..].
  - destruct (hit_entry_spec e (s_cm s1) Hi1 Hl) as (cm' & Hh & Hi' & Hl').
    assert ((e0 ← on_cm (hit_entry now_hit e); mret (Some e0, st1)) s1 = (Ok (oe, st), s')) as H'.
    { destruct st1; try done. exfalso. set_solver. }
    erewrite bind_ok in H' by (by apply on_cm_ok). injection H' as <- <- <-. by split_and!.
  - assert (s' = s1 ∧ oe = None) as [-> ->]; [|done].
    destruct Hn as [-> | ->]; [by destruct st1; injection H|by injection H].
Qed.

End get_project.

(** ** Answering a request *)
Section answers.
Context {Project : Type} (env : Env Project) (now_evict now_hit : Qc) (conf : QgisConfig).
Context (handle_request : Request → option Project → option string → M RS unit).
Context (q : Qgis Project) (float_repr : Qc → string).
Context (elapsed : Z) (project_file : string) (cache_id : string).
Implicit Types (s : Srv Project) (e : CacheEntry Project).

Abbreviation ows := (handle_ows_request env now_evict now_hit conf handle_request
  q float_repr elapsed project_file cache_id).
Abbreviation api := (handle_api_request env now_evict now_hit conf handle_request
  elapsed project_file cache_id).
Abbreviation getp := (get_project env now_evict now_hit conf).

(** The size of the cache stays bounded: QGIS does not touch it. *)
Lemma bounded_get_project B target direct :
  (max_projects conf ≤ B)%Z → preserves (srv_bounded B) (getp target direct).
Proof.
  intros HB. apply preserves_bind; [by apply bounded_request_project|]. intros [st [e|]];
    [|by destruct st; auto with py].
  assert (preserves (srv_bounded (Project := Project) B) (on_cm (hit_entry now_hit e))) as Hh.
  { apply preserves_on_cm. intros cm Hcm. by apply bounded_alter. }
  destruct st; auto with py; (apply preserves_bind; [done|auto with py]).
Qed.

Lemma bounded_serve B rq name : preserves (srv_bounded B) (serve handle_request rq name).
Proof. intros s Hs. rw /serve. by destruct (handle_request _ _ _ _) as [[]]. Qed.

Lemma bounded_monitor B rep i sv r t rs h :
  preserves (srv_bounded (Project := Project) B) (monitor_log elapsed rep i sv r t rs h).
Proof. rw /monitor_log. case_match; [apply preserves_on_conn|auto with py]. Qed.

Lemma bounded_ows_prepare B msg e :
  preserves (srv_bounded B) (ows_prepare q float_repr msg e).
Proof.
  rw /ows_prepare. repeat case_match; auto with py;
    (apply preserves_bind; [apply preserves_on_conn|auto with py]).
Qed.

Lemma bounded_ows B msg : (max_projects conf ≤ B)%Z → preserves (srv_bounded B) (ows msg).
Proof.
  intros HB. rw /handle_ows_request. case_match; [apply preserves_on_conn|].
  apply preserves_bind; [by apply bounded_get_project|]. intros [[e|] st]; [|auto with py].
  apply preserves_bind; [apply bounded_ows_prepare|].
  intros [[[[[method service] request] options] hdrs]|]; [|auto with py].
  apply preserves_bind; [apply bounded_serve|intros; apply bounded_monitor].
Qed.

Lemma bounded_api B msg : (max_projects conf ≤ B)%Z → preserves (srv_bounded B) (api msg).
Proof.
  intros HB. rw /handle_api_request. apply preserves_bind.
  - case_match; [|auto with py]. apply preserves_bind; [by apply bounded_get_project|auto with py].
  - intros [entry|]; [|auto with py]. case_match.
    + destruct (api_url_of _ _) as [[url headers] name].
      apply preserves_bind; [apply bounded_serve|intros; apply bounded_monitor].
    + case_match; first [apply preserves_on_conn|auto with py].
Qed.

(** A complete answer: one error, or a header, chunks and the final mark, and
    then the report when one was asked for. *)
Definition answered (report : bool) s s' : Prop :=
  (∃ code txt, out (s_conn s') = out (s_conn s) ++ [FReply code (PText txt)]) ∨
  (∃ hdr ds tail, out (s_conn s') = out (s_conn s) ++
     FReply 200 (PRequest hdr) :: chunk_frames ds ++ FStatus 204 :: tail ∧
     if report then ∃ rep, tail = [FReply 200 (PReport rep)] else tail = []).

Hypothesis chunk_size_pos : (0 < max_chunk_size conf)%Z.

(** The QGIS server writes to the response, then finishes it. *)
Hypothesis qgis_finishes : ∀ rq p name, ∃ os, handle_request rq p name = (run_ops os;; finish).

(** The extra headers of a response are the items of a dict. *)
Lemma generic_request_unsendable url entry data method headers target prefix ctype hdrs c k vs :
  let r := (handle_generic_request (Project := Project) conf cache_id url entry data
              method headers target prefix ctype hdrs).1.2 in
  (k, HList vs) ∈ _extra_headers r → unsendable (MkRS r c).
Proof.
  destruct entry as [[e st]|]; simpl; intros Hin; (split_and!; [done|apply wf_empty| |eauto]); simpl.
  - eapply wf_insert, wf_insert, wf_update, wf_empty.
  - constructor.
Qed.

Lemma serve_answers report url entry data method headers target prefix ctype hdrs name i sv r h s s' :
  conn_open s →
  (resp ← serve handle_request (handle_generic_request conf cache_id url entry data method
             headers target prefix ctype hdrs) name;
   monitor_log elapsed report i sv r target resp h) s = (Ok tt, s') →
  answered report s s'.
Proof.
  intros Hc. set (rq := handle_generic_request _ _ _ _ _ _ _ _ _ _ _).
  destruct (qgis_finishes rq.1.1 rq.2 name) as [os Hos].
  intros (rsp & s1 & Hs & H)%bind_ok_inv. rw /serve Hos in Hs.
  destruct (header_texts_total "" (_extra_headers rq.1.2)) as [Ht|(k & vs & Hin & _)]; last first.
  { destruct (unsendable_raises os rq.1.2 (s_conn s)) as (rs & Hrun & _); [|by destruct entry as [[]|]|].
    - by eapply generic_request_unsendable.
    - by rw Hrun in Hs. }
  destruct (response_stream_from os rq.1.2 (s_conn s))
    as (rs & hdr & ds & Hrun & Hcl & Ho & _ & _); [by destruct entry as [[]|]..| |].
  { split; [|done]. destruct entry as [[]|]; intros kv []%not_elem_of_nil. }
  rw Hrun in Hs. injection Hs as _ <-.
  right. rw /monitor_log in H. destruct report.
  - rw send_open // in H. injection H as <-. simpl. rw Ho. eexists _, _, _.
    split; [by rw -!app_assoc /= -!app_assoc|eauto].
  - injection H as <-. eexists _, _, []. split; [|done]. simpl. by rw Ho.
Qed.

Lemma refused_answered report s s1 s' : refused s s1 → s' = s1 → answered report s s'.
Proof. intros (code & txt & Ho & _) ->. left. eauto. Qed.

Lemma send_answers report p code s s1 s' :
  conn_open s → s_conn s = s_conn s1 →
  on_conn (send_reply (PText p) code) s = (Ok tt, s') → answered report s1 s'.
Proof. intros Hc Hs1 H. rw send_open // in H. injection H as <-. left. eexists _, _. simpl. by rw Hs1. Qed.

(** A preparation that stops the request has sent the reply. *)
Lemma ows_prepare_spec msg e s o s' :
  conn_open s → ows_prepare q float_repr msg e s = (Ok o, s') →
  match o with
  | Some _ => s' = s
  | None => ∃ code txt, out (s_conn s') = out (s_conn s) ++ [FReply code (PText txt)]
  end.
Proof.
  intros Hc. rw /ows_prepare. repeat case_match; try done.
  all: try (intros [=]; subst; done).
  all: intros H'; erewrite bind_ok in H' by (by apply send_open); injection H' as <-.
  all: simpl; eauto.
Qed.

(** A map request whose options have a box is never answered with a map: once
    its project is there the handler raises, before anything is sent. *)
Theorem map_bbox_unanswered s msg target options e st s1 :
  target = str_or (ows_target msg) project_file → str_truth target = true →
  ows_request msg = "qjazz-request-map" → ows_options msg = Some options →
  has_field "bbox" options →
  getp target (ows_direct msg) s = (Ok (Some e, st), s1) →
  ∃ x s', ows msg s = (Raise x, s') ∧ s_conn s' = s_conn s1.
Proof.
  intros Htg Ht Hr Ho Hb Hg. rw /handle_ows_request -Htg Ht. cbn [negb]. rw (bind_ok _ _ _ _ _ Hg).
  pose proof (map_request_bbox q float_repr (project e) options Hb) as Hm.
  destruct (prepare_map_request _ _ _ _) as [[options' hdrs]|x] eqn:Em.
  - destruct Hm as (c & vs & ->). erewrite bind_ok; last first.
    { by rw /ows_prepare decide_True // Ho Em. }
    cbn iota beta. erewrite bind_raise; last first.
    { rw /serve. set (rq := handle_generic_request _ _ _ _ _ _ _ _ _ _ _).
      destruct (qgis_finishes rq.1.1 rq.2 None) as [os ->].
      destruct (unsendable_raises os rq.1.2 (s_conn s1)) as (rs & -> & Hrs); [|done|by rw Hrs].
      apply (generic_request_unsendable _ _ _ _ _ _ _ _ _ _ "Content-Bbox" vs). simpl.
      apply lookup_items; [eapply wf_insert, wf_insert, wf_insert, wf_insert, wf_empty|].
      reflexivity. }
    eexists _, _. split; [done|]. done.
  - exists x, s1. split; [|done]. apply bind_raise. rw /ows_prepare decide_True // Ho Em.
    destruct x; try done. by destruct (Hm msg0).
Qed.
End answers.

(** ** The query of a request *)
Lemma param_names_elem o p : p ∈ param_names o ↔ ∃ k, p = upper k ∧ k ∈ (parse_qsl o).*1.
Proof.
  rw /param_names list_elem_of_fmap. setoid_rewrite <-parse_qs_keys. split.
  - intros ([k v] & -> & Hin). exists k. split; [done|]. by apply (list_elem_of_fmap_2 fst) in Hin.
  - intros (k & -> & ([k' v] & -> & Hin)%list_elem_of_fmap). by exists (k', v).
Qed.

Lemma param_names_and a b p :
  p ∈ param_names (a +:+ "&" +:+ b) ↔ p ∈ param_names a ∨ p ∈ param_names b.
Proof.
  rw !param_names_elem /parse_qsl. change ("&" +:+ b) with (String "&" b).
  rw split_at_sep omap_app fmap_app. setoid_rewrite elem_of_app. naive_solver.
Qed.

Lemma str_or_truth a b : str_truth b = true → str_truth (str_or a b) = true.
Proof. rw /str_or. by destruct (str_truth a) eqn:E. Qed.

Lemma service_field v :
  char_in "&" v = false → str_truth v = true → "SERVICE" ∈ param_names ("SERVICE=" +:+ v).
Proof.
  intros Hv Ht. apply param_names_elem. exists "SERVICE". split; [done|].
  rw /parse_qsl split_single; [done|]. csimpl. rw /qs_field /= Ht. csimpl. set_solver.
Qed.

(** The QGIS server always gets a [SERVICE] parameter: whatever the options
    of an OWS message are, the query it is rebuilt to has one, in some case, as
    soon as the name of the service has no separator in it. *)
Theorem ows_query_service service request version options :
  char_in "&" service = false →
  "SERVICE" ∈ param_names (ows_query service request version options).
Proof.
  intros Hs. rw /ows_query. set (o := removeprefix "?" options).
  assert (char_in "&" (str_or service "WMS") = false) as Hs'.
  { rw /str_or. by destruct (str_truth service). }
  set (o1 := if decide ("SERVICE" ∈ param_names o) then _ else _).
  assert ("SERVICE" ∈ param_names o1) as H1.
  { rw /o1. case_decide; [done|]. rw -str_app_assoc param_names_and. left.
    apply service_field; [done|]. by apply str_or_truth. }
  set (o2 := if negb (str_in "REQUEST" o1) && str_truth request then _ else _).
  assert ("SERVICE" ∈ param_names o2) as H2.
  { rw /o2. case_match; [|done]. rw -str_app_assoc param_names_and. by right. }
  case_match; [|done]. rw -str_app_assoc param_names_and. by right.
Qed.

Lemma ows_query_service_witness :
  "SERVICE" ∈ param_names (ows_query "WFS" "GetFeature" (Some "1.1.0") "?map=a&typename=b").
Proof. apply (ows_query_service "WFS" "GetFeature" (Some "1.1.0") "?map=a&typename=b"). reflexivity. Defined.

(** The request of a message is looked for anywhere in the text of the options,
    not among the names of the parameters: a value that contains the word hides
    it, and the QGIS server gets no request at all. *)
Lemma ows_query_request_lost :
  ows_query "WMS" "GetMap" None "SERVICE=WMS&LAYERS=REQUESTS" = "SERVICE=WMS&LAYERS=REQUESTS" ∧
  "REQUEST" ∉ param_names (ows_query "WMS" "GetMap" None "SERVICE=WMS&LAYERS=REQUESTS").
Proof. split; [reflexivity|]. vm_compute. set_solver. Qed.

(** ** On the storage of [Demo] *)
Import Demo CacheDemo.


(** A QGIS server that writes the length of the url it is asked for. *)
Definition demo_server (rq : Request) (_ : option string) (_ : option string) : M RS unit :=
  run_ops [OSetStatus 200; OWrite [Z.of_nat (String.length (req_url rq))]];; finish.


Lemma map_bbox_unanswered_witness :
  let env := demo_env [("/a", 1)]%Z in
  let s := srv (loaded [("/a", 1)]%Z) in
  let s1 := (get_project env (Qc_of_Z 20) (Qc_of_Z 21) conf "/a" false s).2 in
  let msg := Build_OwsRequestMsg "WMS" "qjazz-request-map" "/a" None None false
               (Some "bbox=0,0,4,2&width=4&height=2") [] None None None (Some GET) None true in
  ∃ x s', handle_ows_request env (Qc_of_Z 20) (Qc_of_Z 21) conf demo_server
    (QgisDemo.qgis (QgisDemo.mk 0 0 4 2)) (fun _ => "0") 3 "" "w" msg s = (Raise x, s') ∧
    s_conn s' = s_conn s1.
Proof.
  intros env s s1 msg.
  apply (map_bbox_unanswered env (Qc_of_Z 20) (Qc_of_Z 21) conf demo_server
    (QgisDemo.qgis (QgisDemo.mk 0 0 4 2)) (fun _ => "0") 3 "" "w"
    ltac:(intros rq p name; eexists; reflexivity) s msg "/a" "bbox=0,0,4,2&width=4&height=2"
    (hit_me (Qc_of_Z 21) (demo_entry "/a" 1)) UNCHANGED s1).
  - reflexivity.
  - reflexivity.
  - reflexivity.
  - reflexivity.
  - vm_compute. left.
  - vm_compute. reflexivity.
Defined.
