(* ===== verification/Delegate.v ===== *)
(** * Delegated apis

    [qjazz_rpc/delegate.py]: the api that stands for the others at a path of the
    request, and [qjazz_core/qgis/no_binding.py]: the server that dispatches
    requests with its own registry.  The urls of Qt, the registry of QGIS and its
    apis are parameters. *)
From S2P Require Import Prelude PyDict PyStd Routes Extent CacheManager Messages Response MapRequests OpCache OpRequests.

(** [s.index(p)] *)
Fixpoint str_index (p s : string) : option nat :=
  if startswith p s then Some 0
  else match s with "" => None | String _ s => S <$> str_index p s end.
(** [s[n:]] *)
Definition str_drop (n : nat) (s : string) : string := String.substring n (String.length s - n) s.

(** [API_ALIASES], for a version of QGIS *)
Definition API_ALIASES (qgis3 : bool) : list (string * string) :=
  [("WFS3", if qgis3 then "OGC WFS3 (Draft)" else "OAPIF"); ("LIZMAP", "Lizmap")].

(** ** The delegate *)
Record ApiDelegate : Type := MkDelegate { _rootpath : option string; _extra_path : string }.

(** [__init__] *)
Definition new_delegate : ApiDelegate := MkDelegate None "".

Definition rootPath (d : ApiDelegate) : string :=
  if ostr_truth (_rootpath d) then default "" (_rootpath d) else "/".

(** [accept], on the path of the url *)
Definition accept (path : string) : M ApiDelegate bool :=
  match str_index ROOT_DELEGATE path with
  | None => mret false
  | Some index =>
      modify (fun _ => MkDelegate (Some (String.substring 0 index path))
                         (str_drop (index + String.length ROOT_DELEGATE) path));;
      mret true
  end.

Section delegate.
(** A [QUrl], its path, and the change of its path; the registry of apis; the
    execution of an api for a root path *)
Context {U Api : Type} (qurl : string → U) (qurl_path : U → string) (setPath : string → U → U).
Context (getApi : string → option Api).

(** A [QgsServerRequest]: its url and its headers, whose names are looked up as
    they are written *)
Record ServerRequest : Type := MkServerRequest { sr_url : U; sr_request : Request }.
Definition server_request (r : Request) : ServerRequest := MkServerRequest (qurl (req_url r)) r.
Definition header (name : string) (r : ServerRequest) : string :=
  default "" (assoc name (req_headers (sr_request r))).
Definition set_url (u : U) (r : ServerRequest) : ServerRequest := MkServerRequest u (sr_request r).

Context (run_api : Api → option string → ServerRequest → M RS unit).

(** The request and the response of a context *)
Record Context_ : Type := MkContext { cx_request : ServerRequest; cx_rs : RS }.
Definition on_response {A} (m : M RS A) : M Context_ A :=
  zoom cx_rs (fun rs c => MkContext (cx_request c) rs) m.
Definition refuse (code : Z) : M Context_ unit := on_response (clear;; setStatusCode code).

(** The path the request is given: a root path that was never set is written
    [None] *)
Definition delegated_path (d : ApiDelegate) : string := default "None" (_rootpath d) +:+ _extra_path d.

(** [executeRequest] *)
Definition delegated_api (qgis3 : bool) (r : ServerRequest) : option Api :=
  let api := header "X-Qgis-Api" r in
  let api := default api (assoc (upper api) (API_ALIASES qgis3)) in
  if str_truth api then getApi api else None.
Definition executeRequest (qgis3 : bool) (d : ApiDelegate) : M Context_ unit :=
  r ← gets cx_request;
  match delegated_api qgis3 r with
  | None => refuse 403
  | Some api =>
      let r := set_url (setPath (delegated_path d) (sr_url r)) r in
      modify (fun c => MkContext r (cx_rs c));;
      try_except (on_response (run_api api (_rootpath d) r)) (fun _ => Some (refuse 500))
  end.

(** [ServerWrapper.handle_request]; [inner] is the QGIS server *)
Definition wrapper_handle_request {Project : Type} (inner : Request → option Project → M RS unit)
    (request : Request) (project : option Project) (api : option string) : M RS unit :=
  (if ostr_truth api
   then match getApi (default "" api) with
        | None => raise (ApiNotFoundError (default "" api))
        | Some _ => mret tt
        end
   else match project with None => raise (ProjectRequired "") | Some _ => mret tt end);;
  inner request project.
End delegate.

(** ** Splitting a path *)
Lemma str_drop_app p s n : n = String.length p → str_drop n (p +:+ s) = s.
Proof.
  intros ->. rw /str_drop. induction p as [|a p IH]; simpl; [|done].
  by rw Nat.sub_0_r substring_0.
Qed.

Lemma str_length_app a b : String.length (a +:+ b) = (String.length a + String.length b)%nat.
Proof. induction a as [|c a IH]; simpl; [done|by rw IH]. Qed.

Lemma substring_app p s : String.substring 0 (String.length p) (p +:+ s) = p.
Proof. induction p as [|a p IH]; simpl; [by destruct s|by rw IH]. Qed.

(** A prefix whose first character is nowhere else in it does not start in what
    comes before it. *)
Lemma startswith_border q c r t :
  char_in c q = false → startswith q (r +:+ String c t) = true → startswith q r = true.
Proof.
  revert r. induction q as [|a q IH]; intros r; [done|]. cbn [char_in].
  rw orb_false_iff bool_decide_eq_false. intros [Ha Hq]. destruct r as [|b r]; simpl.
  - by rw bool_decide_eq_false_2.
  - rw !andb_true_iff. intros [? ?]. auto.
Qed.

Lemma str_index_app c q s t :
  char_in c q = false → str_in (String c q) s = false →
  str_index (String c q) (s +:+ String c q +:+ t) = Some (String.length s).
Proof.
  intros Hq. induction s as [|a s IH]; intros Hs.
  - change (str_index (String c q) (String c q +:+ t) = Some 0).
    destruct (String c q +:+ t) eqn:E; [done|]. cbn [str_index]. by rw -E startswith_app.
  - cbn [str_in] in Hs. apply orb_false_iff in Hs as [Hp Hs].
    change (str_index ?p (String a s +:+ ?r)) with
      (if startswith p (String a (s +:+ r)) then Some 0 else S <$> str_index p (s +:+ r)).
    destruct (startswith (String c q) (String a (s +:+ String c q +:+ t))) eqn:E; [|by rw IH].
    exfalso. cbn [startswith] in Hp, E. apply andb_true_iff in E as [E1 E2].
    rw E1 in Hp. by rw (startswith_border q c s (q +:+ t)) in Hp.
Qed.

(** ** Delegation *)

(** The name of the api is the last header of the request, after those of the
    client. *)
Lemma wf_foldl_insert {A} (f : A → string * string) (l : list A) (d : pydict string string) :
  wf d → wf (foldl (fun d a => insert (f a).1 (f a).2 d) d l).
Proof. revert d. induction l as [|a l IH]; intros d Hd; [done|]. by apply IH, wf_insert. Qed.

Lemma api_header hs name ct :
  assoc "X-Qgis-Api" (request_headers (hs ++ [("x-qgis-api", name)]) ct) = Some name.
Proof.
  rw /request_headers filter_app foldl_app /=.
  set (d := foldl _ _ _).
  assert (wf d) as Hd
    by exact (wf_foldl_insert (fun kv => (capwords_dash kv.1, kv.2)) _ _ wf_empty).
  change (capwords_dash "x-qgis-api") with "X-Qgis-Api".
  assert (lookup "X-Qgis-Api" (insert "X-Qgis-Api" name d) = Some name) as Hl by by apply lookup_insert_eq.
  destruct (ostr_truth ct); [|done].
  change (lookup "X-Qgis-Api" (insert "Content-Type" (default "" ct) (insert "X-Qgis-Api" name d)) = Some name).
  by rw lookup_insert_ne; [apply wf_insert|..].
Qed.

Lemma accept_root root rest d :
  str_in ROOT_DELEGATE root = false →
  accept (root +:+ ROOT_DELEGATE +:+ rest) d = (Ok true, MkDelegate (Some root) rest).
Proof.
  intros Hr. rw /accept. change ROOT_DELEGATE with (String "/" "__delegate__") in *.
  rw str_index_app // substring_app -str_app_assoc (str_drop_app (root +:+ String "/" "__delegate__")) //.
  by rw str_length_app.
Qed.

(** The request of a delegated message reaches the api it names, at the path it
    would have without delegation and with the path of the service as its root:
    [root] is the path of the url of the message. *)
Section delegated.
Context {U Api Project : Type} (qurl : string → U) (qurl_path : U → string) (setPath : string → U → U).
Context (getApi : string → option Api) (run_api : Api → option string → ServerRequest (U := U) → M RS unit).
Context (path_set : ∀ p u, qurl_path (setPath p u) = p).

Definition named_api (qgis3 : bool) (name : string) : option Api :=
  getApi (default name (assoc (upper name) (API_ALIASES qgis3))).

Lemma delegated_api_named qgis3 rq name hs ct :
  str_truth name = true → req_headers rq = request_headers (hs ++ [("x-qgis-api", name)]) ct →
  delegated_api getApi qgis3 (server_request qurl rq) = named_api qgis3 name.
Proof.
  intros Hn Hh. rw /delegated_api /header /= Hh api_header /=.
  rw /named_api /API_ALIASES /=. repeat (case_decide; [by destruct qgis3|]). by rw /= Hn.
Qed.

(** What is left of a response by an api that raised: an error, unless its header
    was sent. *)
Definition api_outcome (r : res unit * RS) : RS :=
  match r with (Ok _, rs) => rs | (Raise _, rs) => ((clear;; setStatusCode 500) rs).2 end.

End delegated.

(** ** A service with a delegated api *)
Module DelegateDemo.
Definition qurl (s : string) : Url := match urlsplit s with Ok u => u | Raise _ => SplitResult "" "" "" "" "" end.
Definition setPath (p : string) (u : Url) : Url := SplitResult (scheme u) (netloc u) p (query u) (fragment u).
Definition getApi (name : string) : option Z := if decide (name = "OGC WFS3 (Draft)") then Some 3%Z else None.
Definition run_api (api : Z) (root : option string) (r : ServerRequest (U := Url)) : M RS unit :=
  write [api; Z.of_nat (String.length (default "" root)); Z.of_nat (String.length (u_path (sr_url r)))].
Definition msg : ApiRequestMsg := {|
  api_name := "wfs3"; api_path := "/collections"; api_method := GET; api_url := "http://localhost/features/";
  api_data := None; api_delegate := true; api_target := None; api_direct := false;
  api_options := Some "f=json"; api_headers := [("X-Qgis-Api", "Lizmap")]; api_request_id := None;
  api_header_prefix := None; api_content_type := None; api_send_report := false |}.
Definition rs : RS := MkRS (new_response None None [] 1024 "" None) (MkConn false []).
Definition rq : ServerRequest := server_request qurl (handle_generic_request (Project := unit) CacheDemo.conf ""
  (api_url_of [] msg).1.1 None None GetMethod (api_url_of [] msg).1.2 "" None None []).1.1.

(** The path of the request, with its options. *)
Example delegated : accept (u_path (sr_url rq)) new_delegate = (Ok true, MkDelegate (Some "/features") "/collections").
Proof. reflexivity. Qed.

(** A delegate that accepted no path gives the api the path [None]. *)
Example never_accepted :
  u_path (sr_url (cx_request (executeRequest setPath getApi run_api true new_delegate (MkContext rq rs)).2)) = "None".
Proof. reflexivity. Qed.

(** The aliases of the configuration are not those of the delegate: an api that
    requests name by an alias is not found when it is delegated. *)
Example alias_ignored :
  api_url_of [("FEATURES", "OGC WFS3 (Draft)")]
    {| api_name := "features"; api_path := ""; api_method := GET; api_url := "http://localhost"; api_data := None;
       api_delegate := false; api_target := None; api_direct := false; api_options := None; api_headers := [];
       api_request_id := None; api_header_prefix := None; api_content_type := None; api_send_report := false |}
  = ("http://localhost/", [], "OGC WFS3 (Draft)") ∧ named_api getApi true "features" = None.
Proof. done. Qed.

End DelegateDemo.
