(* ===== verification/Settings.v ===== *)
(** * Settings of QGIS

    The settings that the services give to QGIS: their validation
    ([qjazz_rpc/config.py], [qjazz_processes/processing/config.py]), their
    loading when the application starts ([qjazz_core/qgis/qgis_init.py]) and the
    policies of its network requests ([qgis_network.py]); and the places where
    configurations are looked for ([qjazz_processes/worker/config.py],
    [qjazz_map/resolver.py]).  The files, the environment and QGIS are
    parameters. *)
From S2P Require Import Prelude PyDict PyAssoc PyStd Json Plugins Delegate.

(** ** Validation *)

(** [_validate_qgis_setting]: a boolean is an integer, so that its own case is
    not reached *)
Definition _validate_qgis_setting (value : JsonValue) : res string :=
  match value with
  | JStr s => Ok s
  | JFloat _ | JInt _ | JBool _ => Ok (json_str value)
  | _ => Raise (ValueError ("Unsupported type for '" +:+ json_str value +:+ "'"))
  end.

Section validation.
Context (environ : list (string * string)).

(** [validate_qgis_settings]: the cache of the network, from the environment *)
Definition validate_qgis_settings (settings : list (string * string)) : res (list (string * string)) :=
  let dir := getenv environ "QGIS_NETWORK_CACHE_DIRECTORY" in
  let settings := if ostr_truth dir then dict_set "cache/directory" (default "" dir) settings else settings in
  let size := getenv environ "QGIS_NETWORK_CACHE_SIZE_KB" in
  if ostr_truth size
  then n ← int_of_str (default "" size);
       Ok (dict_set "cache/size-bytes" (str_of_int (n * 1024)) settings)
  else Ok settings.
End validation.

(** [static_api_aliases] *)
Definition static_api_aliases (qgis3 : bool) (aliases : list (string * string)) : list (string * string) :=
  dict_extend (API_ALIASES qgis3) ((fun kv => (upper kv.1, kv.2)) <$> aliases).

(** [ProcessingConfig]: the fields that make its settings *)
Record ProcessingConfig : Type := MkProcessing {
  qgis_settings : list (string * string);
  plugin_paths : list ppath;
  default_vector_file_ext : option string;
  default_raster_file_ext : option string;
}.

Definition PREFER_FILENAME : list (string * string) :=
  [("qgis/configuration/prefer-filename-as-layer-name", "false");
   ("Processing/Configuration/PREFER_FILENAME_AS_LAYER_NAME", "false")].

(** [settings]; [is_dir] is the file system *)
Definition set_if (k v : string) (d : list (string * string)) : list (string * string) :=
  if str_truth v then dict_set k v d else d.
Definition folders (is_dir : ppath → bool) (name : string) (paths : list ppath) : string :=
  join ";" (path_str <$> filter (fun p => is_dir p = true) ((fun p => path_join p (path_of name)) <$> paths)).
Definition settings (is_dir : ppath → bool) (c : ProcessingConfig) : list (string * string) :=
  set_if "qgis/configuration/default-output-raster-ext" (default "" (default_raster_file_ext c))
    (set_if "qgis/configuration/default-output-vector-ext" (default "" (default_vector_file_ext c))
      (set_if "Processing/Configuration/MODELS_FOLDER" (folders is_dir "models" (plugin_paths c))
        (set_if "Processing/Configuration/SCRIPTS_FOLDERS" (folders is_dir "scripts" (plugin_paths c))
          (dict_extend (qgis_settings c) PREFER_FILENAME)))).

(** ** The application *)

(** The process: its environment, the directories, the values of [QgsSettings]
    that it sets, where they are read from, and whether the application was
    started *)
Record Proc : Type := MkProc {
  pr_environ : list (string * string);
  pr_dirs : list ppath;
  pr_settings : list (string * string);
  pr_settings_path : option ppath;
  pr_application : bool;
}.
Definition set_environ (k v : string) : M Proc unit :=
  modify (fun p => MkProc (dict_set k v (pr_environ p)) (pr_dirs p) (pr_settings p) (pr_settings_path p) (pr_application p)).
Definition mkdir_parents (d : ppath) : M Proc unit :=
  modify (fun p => MkProc (pr_environ p) (d :: pr_dirs p) (pr_settings p) (pr_settings_path p) (pr_application p)).
Definition set_path (d : ppath) : M Proc unit :=
  modify (fun p => MkProc (pr_environ p) (pr_dirs p) (pr_settings p) (Some d) (pr_application p)).
Definition set_values (l : list (string * string)) : M Proc unit :=
  modify (fun p => MkProc (pr_environ p) (pr_dirs p) (dict_extend (pr_settings p) l) (pr_settings_path p) (pr_application p)).
Definition start_application : M Proc unit :=
  modify (fun p => MkProc (pr_environ p) (pr_dirs p) (pr_settings p) (pr_settings_path p) true).

Definition EMBEDDED : string := "qgis/enablePythonEmbedded".

(** The directory of the settings and the path of the options *)
Definition find_settings (cwd : ppath) : M Proc (string * ppath) :=
  p ← get;
  let options := getenv (pr_environ p) "QGIS_CUSTOM_CONFIG_PATH" in
  let profile path := path_join path (path_of "profiles/default") in
  if ostr_truth options
  then let settings_path := profile (path_of (default "" options)) in
       if bool_decide (settings_path ∈ pr_dirs p) then mret (default "" options, settings_path)
       else raise (FileNotFoundError (path_str settings_path))
  else let path := path_join cwd (path_of ".qjazz-settings") in
       mkdir_parents (profile path);;
       set_environ "QGIS_CUSTOM_CONFIG_PATH" (path_str path);;
       set_environ "QGIS_OPTIONS_PATH" (path_str path);;
       mret (path_str path, profile path).

(** [load_qgis_settings] *)
Definition load_qgis_settings (cwd : ppath) (settings : list (string * string))
    (server_settings allow_python_embedded : bool) : M Proc string :=
  found ← find_settings cwd;
  options_path ← (if server_settings
                  then set_environ "QGIS_CUSTOM_CONFIG_PATH" (path_str found.2);;
                       set_environ "QGIS_OPTIONS_PATH" (path_str found.2);;
                       mret (path_str found.2)
                  else mret found.1);
  set_path found.2;;
  set_values settings;;
  (if allow_python_embedded then mret tt else set_values [(EMBEDDED, "Never")]);;
  mret options_path.

(** The name of the semaphore of [semaphore] *)
Definition semaphore_name (name : string) : string :=
  str_map (fun a => if bool_decide (a = "/"%char ∨ a = "."%char) then "_"%char else a) (removeprefix "/" name).

(** [setup_qgis_application], for a version of QGIS; the search path of its
    plugins and the hook of its log are left out *)
Definition QGIS_MINIMUM_VERSION_INT : Z := 34000.
Definition setup_qgis_application (version : Z) (cwd : ppath) (settings : list (string * string))
    (server_settings allow_python_embedded : bool) : M Proc string :=
  p ← get;
  if pr_application p then raise (PreconditionError "Qgis application already initialized")
  else
    set_environ "QGIS_NO_OVERRIDE_IMPORT" "1";;
    set_environ "QGIS_DISABLE_MESSAGE_HOOKS" "1";;
    if (version <? QGIS_MINIMUM_VERSION_INT)%Z then raise (RuntimeError "You need QGIS 3.40 minimum")
    else
      (match getenv (pr_environ p) "DISPLAY" with
       | None => set_environ "QT_QPA_PLATFORM" "offscreen"
       | Some _ => mret tt
       end);;
      set_environ "QGIS_PREFIX_PATH" (default "/usr" (getenv (pr_environ p) "QGIS3_HOME"));;
      options_path ← load_qgis_settings cwd settings server_settings allow_python_embedded;
      start_application;;
      mret options_path.

(** The name that [set_proxy_configuration] gives to a type of proxy: the name of
    the last two is given for the same key *)
Inductive ProxyType : Type := DefaultProxy | Socks5Proxy | NoProxy | HttpProxy | HttpCachingProxy | FtpCachingProxy.
Definition proxy_type_name (t : ProxyType) : option string :=
  match t with
  | NoProxy => None
  | DefaultProxy => Some "DefaultProxy" | Socks5Proxy => Some "Socks5Proxy" | HttpProxy => Some "HttpProxy"
  | HttpCachingProxy => Some "FtpCachingProxy"
  | FtpCachingProxy => Some "Undetermined"
  end.

(** ** The network *)
Inductive CachePolicy : Type := always_network | prefer_network | prefer_cache | always_cache.
Inductive CacheLoadControl : Type := AlwaysNetwork | PreferNetwork | PreferCache | AlwaysCache.
Definition cache_policy_to_load_control (policy : CachePolicy) : CacheLoadControl :=
  match policy with
  | always_network => AlwaysNetwork | prefer_network => PreferNetwork
  | prefer_cache => PreferCache | always_cache => AlwaysCache
  end.

(** A [QNetworkRequest]: the host of its url, and the attributes that are set *)
Record NetworkRequest : Type := MkNetworkRequest {
  nr_host : string; nr_load_control : option CacheLoadControl; nr_transfer_timeout : option Z;
}.
Definition set_request_cache_policy (policy : CachePolicy) (r : NetworkRequest) : NetworkRequest :=
  MkNetworkRequest (nr_host r) (Some (cache_policy_to_load_control policy)) (nr_transfer_timeout r).

(** [RequestPolicy] *)
Record RequestPolicy : Type := MkPolicy { rp_cache_policy : option CachePolicy; rp_transfer_timeout : option Z }.
Definition policy_process_request (p : RequestPolicy) (r : NetworkRequest) : NetworkRequest :=
  let r := match rp_transfer_timeout p with
           | Some t => MkNetworkRequest (nr_host r) (nr_load_control r) (Some t)
           | None => r
           end in
  match rp_cache_policy p with Some c => set_request_cache_policy c r | None => r end.

(** [QgisNetworkConfig] *)
Record QgisNetworkConfig : Type := MkNetworkConfig {
  nc_transfer_timeout : Z; nc_cache_policy : option CachePolicy; nc_domain_policy : list (string * RequestPolicy);
}.
Definition process_request (c : QgisNetworkConfig) (r : NetworkRequest) : NetworkRequest :=
  match nc_domain_policy c with
  | [] => match nc_cache_policy c with Some p => set_request_cache_policy p r | None => r end
  | policies => match assoc (nr_host r) policies with Some p => policy_process_request p r | None => r end
  end.

(** The network manager: its timeout and what it does of a request before it is
    sent; [configure_network] *)
Record NetworkManager : Type := MkManager {
  nm_transfer_timeout : Z; nm_preprocessor : option (NetworkRequest → NetworkRequest);
}.
Definition configure_network (c : QgisNetworkConfig) (nm : NetworkManager) : NetworkManager :=
  MkManager (nc_transfer_timeout c)
    (match nc_cache_policy c, nc_domain_policy c with
     | None, [] => nm_preprocessor nm
     | _, _ => Some (process_request c)
     end).

(** ** Where configurations are *)

(** [lookup_config_path]; [expanduser] and [exists_] are the file system *)
Definition CONFIG_ENV_PATH : string := "QJAZZ_PROCESSES_CONFIG".
Definition search_paths : list string :=
  ["/etc/qjazz/processes/service.toml"; "~/.qjazz/processes/service.toml"; "~/.config/qjazz/processes/service.toml"].
Definition lookup_config_path (environ : list (string * string)) (expanduser : string → ppath)
    (exists_ : ppath → bool) : res (option ppath) :=
  let var := getenv environ CONFIG_ENV_PATH in
  if ostr_truth var
  then let p := expanduser (default "" var) in
       if exists_ p then Ok (Some p) else Raise (PreconditionError ("File not found " +:+ path_str p))
  else Ok (head (filter (fun p => exists_ p = true) (expanduser <$> search_paths))).

(** [_validate_route] of a channel *)
Definition _validate_route (r : JsonValue) : res ppath :=
  match r with
  | JStr r =>
      if startswith "/" r then Ok (path_of (if bool_decide (r = "/") then r else removesuffix "/" r))
      else Raise (ValueError "Route must starts with a '/'")
  | _ => Raise (ValueError "Expecting string")
  end.

(** ** What is set *)
Lemma dict_set_assoc {V} (k k' : string) (v : V) d : assoc k' (dict_set k v d) = if decide (k = k') then Some v else assoc k' d.
Proof. case_decide as E; [subst; apply dict_set_lookup|by apply dict_set_lookup_ne]. Qed.

Lemma set_if_ne k k' v d : k ≠ k' → assoc k' (set_if k v d) = assoc k' d.
Proof. intros Hk. rw /set_if. case_match; [by apply dict_set_lookup_ne|done]. Qed.

Lemma set_if_nodup k v d : NoDup d.*1 → NoDup (set_if k v d).*1.
Proof. rw /set_if. case_match; [apply dict_set_nodup|done]. Qed.

(** The settings that the services compute. *)
Definition reserved : list string :=
  ["Processing/Configuration/SCRIPTS_FOLDERS"; "Processing/Configuration/MODELS_FOLDER";
   "qgis/configuration/default-output-vector-ext"; "qgis/configuration/default-output-raster-ext"].

Lemma settings_nodup is_dir c : NoDup (qgis_settings c).*1 → NoDup (settings is_dir c).*1.
Proof. intros. by do 4 apply set_if_nodup; apply dict_extend_nodup. Qed.

Lemma settings_lookup is_dir c k :
  k ∉ reserved →
  assoc k (settings is_dir c) =
    match assoc k PREFER_FILENAME with Some v => Some v | None => assoc k (qgis_settings c) end.
Proof.
  rw /reserved !not_elem_of_cons. intros (? & ? & ? & ? & _). rw /settings !set_if_ne //.
  apply dict_extend_lookup. by apply (bool_decide_unpack _).
Qed.

(** Where the settings were loaded from, and the path of the options that every
    library of the process is told. *)
Definition options_told (p : Proc) (options : string) : Prop :=
  getenv (pr_environ p) "QGIS_CUSTOM_CONFIG_PATH" = Some options ∧
  ∃ d, pr_settings_path p = Some d ∧ d ∈ pr_dirs p.

Lemma find_settings_spec cwd p options d p' :
  find_settings cwd p = (Ok (options, d), p') →
  getenv (pr_environ p') "QGIS_CUSTOM_CONFIG_PATH" = Some options ∧ d ∈ pr_dirs p' ∧
  pr_settings p' = pr_settings p ∧ pr_application p' = pr_application p.
Proof.
  rw /find_settings. rw /get. erewrite bind_ok by reflexivity.
  destruct (getenv (pr_environ p) "QGIS_CUSTOM_CONFIG_PATH") as [o|] eqn:Ho; simpl.
  destruct (str_truth o); [case_bool_decide as Hd; [|done]|]; try (by intros [= <- <- <-]).
  all: intros [= <- <- <-]; csimpl; split_and!; try done; [|by left].
  all: by rw /getenv dict_set_lookup_ne ?dict_set_lookup.
Qed.

Lemma load_settings_spec cwd l server embedded p options p' :
  NoDup l.*1 → load_qgis_settings cwd l server embedded p = (Ok options, p') →
  options_told p' options ∧ pr_application p' = pr_application p ∧
  (embedded = false → assoc EMBEDDED (pr_settings p') = Some "Never") ∧
  ∀ k v, assoc k l = Some v → (k = EMBEDDED → embedded = true) → assoc k (pr_settings p') = Some v.
Proof.
  intros Hl. rw /load_qgis_settings. intros ([o d] & p1 & Hf & H)%bind_ok_inv.
  apply find_settings_spec in Hf as (Ho & Hd & Hs & Ha).
  apply bind_ok_inv in H as (o' & p2 & H2 & H).
  assert (pr_dirs p2 = pr_dirs p1 ∧ pr_settings p2 = pr_settings p1 ∧ pr_application p2 = pr_application p1 ∧
          getenv (pr_environ p2) "QGIS_CUSTOM_CONFIG_PATH" = Some o') as (Hd2 & Hs2 & Ha2 & Ho2).
  { destruct server; injection H2 as <- <-; [|done]. split_and!; try done. simpl.
    by rw /getenv dict_set_lookup_ne ?dict_set_lookup. }
  destruct embedded; injection H as <- <-; (split; [split; [done|]|split; [by rw /= Ha2|]]).
  all: try (exists d; simpl; by rw Hd2).
  - split; [done|]. intros k v Hk _. simpl. by rw dict_extend_lookup // Hk.
  - simpl. split; [intros _; apply dict_set_lookup|]. intros k v Hk He.
    rw dict_set_lookup_ne; [|by rw dict_extend_lookup // Hk]. intros <-. by discriminate He.
Qed.

(** C24. An application starts once, and QGIS reads from then on: the settings that
    the services force, never those of the user for them; the settings of the
    user that the services do not compute, as they were validated; and no Python
    of the projects, unless it is allowed, whatever the user set. *)
Theorem settings_applied version cwd is_dir c server embedded p options p' :
  NoDup (qgis_settings c).*1 →
  setup_qgis_application version cwd (settings is_dir c) server embedded p = (Ok options, p') →
  pr_application p = false ∧ pr_application p' = true ∧ options_told p' options ∧
  (∀ k v, assoc k PREFER_FILENAME = Some v → assoc k (pr_settings p') = Some v) ∧
  (embedded = false → assoc EMBEDDED (pr_settings p') = Some "Never") ∧
  (∀ k v, assoc k (qgis_settings c) = Some v → k ∉ reserved → k ∉ PREFER_FILENAME.*1 →
     (k = EMBEDDED → embedded = true) → assoc k (pr_settings p') = Some v).
Proof.
  intros Hc. rw /setup_qgis_application. erewrite bind_ok by reflexivity.
  destruct (pr_application p) eqn:Ha; [done|]. erewrite bind_ok by reflexivity. erewrite bind_ok by reflexivity.
  destruct (version <? QGIS_MINIMUM_VERSION_INT)%Z; [done|]. intros (u & p1 & H1 & H)%bind_ok_inv.
  assert (pr_application p1 = false) as Ha1 by (destruct (getenv (pr_environ p) "DISPLAY"); by injection H1 as <- <-).
  erewrite bind_ok in H by reflexivity.
  apply bind_ok_inv in H as (o & p2 & Hl & [= <- <-]).
  apply load_settings_spec in Hl as (Ht & _ & He & Hk); [|by apply settings_nodup].
  split_and!; try done.
  - intros k v Hp. apply Hk.
    + rw settings_lookup ?Hp //. apply assoc_Some in Hp. rw /PREFER_FILENAME in Hp. rw /reserved. set_solver.
    + intros ->. by apply assoc_Some in Hp; set_solver.
  - intros k v Hu Hr Hp. apply Hk. rw settings_lookup //. by apply assoc_None in Hp as ->.
Qed.

(** ** Settings of a worker *)
Module SettingsDemo.
Definition conf : ProcessingConfig :=
  MkProcessing [("cache/directory", "/tmp"); (EMBEDDED, "Always");
                ("qgis/configuration/prefer-filename-as-layer-name", "true")]
    [path_of "/plugins"; path_of "/more"] (Some "fgb") None.
Definition is_dir (p : ppath) : bool := bool_decide (path_str p ∈ ["/plugins/scripts"; "/more/scripts"; "/more/models"]).
Definition before : Proc := MkProc [("DISPLAY", ":0")] [] [] None false.
Definition started : res string * Proc :=
  setup_qgis_application 34002 (path_of "/srv") (settings is_dir conf) true false before.

Example options : started.1 = Ok "/srv/.qjazz-settings/profiles/default".
Proof. reflexivity. Qed.
Example scripts : assoc "Processing/Configuration/SCRIPTS_FOLDERS" (pr_settings started.2) = Some "/plugins/scripts;/more/scripts".
Proof. reflexivity. Qed.

(** The text of a boolean is that of Python and not the one of the settings. *)
Example boolean_setting : _validate_qgis_setting (JBool true) = Ok "True".
Proof. reflexivity. Qed.

(** The global policy is not applied as soon as a domain has one. *)
Example global_policy_ignored :
  process_request (MkNetworkConfig 10000 (Some always_cache) [("a.org", MkPolicy None (Some 5%Z))])
    (MkNetworkRequest "b.org" None None) = MkNetworkRequest "b.org" None None.
Proof. reflexivity. Qed.

Lemma settings_applied_witness :
  pr_application started.2 = true ∧ assoc EMBEDDED (pr_settings started.2) = Some "Never" ∧
  assoc "qgis/configuration/prefer-filename-as-layer-name" (pr_settings started.2) = Some "false" ∧
  assoc "cache/directory" (pr_settings started.2) = Some "/tmp".
Proof.
  assert (NoDup (qgis_settings conf).*1) as Hn.
  { by apply (bool_decide_unpack _). }
  assert (setup_qgis_application 34002 (path_of "/srv") (settings is_dir conf) true false before
          = (Ok "/srv/.qjazz-settings/profiles/default", started.2)) as Hs by (by vm_compute).
  destruct (settings_applied _ _ _ _ _ _ _ _ _ Hn Hs) as (_ & Ha & _ & Hf & He & Hu).
  split; [done|]. split; [by apply He|]. split; [by apply Hf|].
  apply Hu; [done|by apply (bool_decide_unpack _)..|done].
Defined.
End SettingsDemo.
