(* ===== verification/Startup.v ===== *)
(** * The start of the workers

    What a worker of the map server ([qjazz_rpc/worker.py], [core/qgis/qgis_server.py])
    and a worker of processes ([qjazz_processes/worker/context.py]) set up before
    their first message: the environment of QGIS, its application with its
    settings, the network, the protocol handlers and the services.  The levels
    of the log ([core/logger.py]), and the interface the server of processes
    listens to ([core/config/_models.py], [qjazz_processes/server/server.py]). *)
From S2P Require Import Prelude PyDict PyAssoc PyStd Json RouteTemplates Routes Components Plugins Delegate Settings.

(** ** core/logger.py *)
Inductive LogLevel : Type := NOTSET | TRACE | DEBUG | INFO | REQ | RREQ | WARNING | ERROR | CRITICAL | NOTICE.
#[global] Instance log_level_eq_dec : EqDecision LogLevel.
Proof. solve_decision. Defined.
Definition level_value (l : LogLevel) : Z :=
  match l with
  | NOTSET => 0 | TRACE => 9 | DEBUG => 10 | INFO => 20 | REQ => 21 | RREQ => 22
  | WARNING => 30 | ERROR => 40 | CRITICAL => 50 | NOTICE => 51
  end.
Definition log_levels : list (string * LogLevel) :=
  [("NOTSET", NOTSET); ("TRACE", TRACE); ("DEBUG", DEBUG); ("INFO", INFO); ("REQ", REQ); ("RREQ", RREQ);
   ("WARNING", WARNING); ("ERROR", ERROR); ("CRITICAL", CRITICAL); ("NOTICE", NOTICE)].
(** [_validate_log_level] *)
Definition _validate_log_level (v : string + LogLevel) : res LogLevel :=
  match v with
  | inl s => match assoc (upper s) log_levels with
             | Some l => Ok l
             | None => Raise (ValueError ("Invalid log level value '" +:+ s +:+ "'"))
             end
  | inr l => Ok l
  end.
(** [logging.Logger.isEnabledFor] of the level that is set *)
Definition is_enabled_for (current level : LogLevel) : bool :=
  if decide (current = NOTSET) then true else (level_value current <=? level_value level)%Z.
(** [writelogmessage] of the hook of the log of QGIS: the level of a message *)
Inductive MessageLevel : Type := MsgInfo | MsgWarning | MsgCritical | MsgSuccess | MsgNoLevel.
Definition message_log_level (l : MessageLevel) : LogLevel :=
  match l with MsgWarning => WARNING | MsgCritical => ERROR | _ => DEBUG end.

(** ** The set up *)
Section setup.
(** The objects of the component manager; the handlers of projects. *)
Context {T C : Type} (validate_rooturl : T → Url → bool → res unit) (dh : DefaultHandlers T).
Context (version : Z) (cwd : ppath) (binding : bool).

(** The configuration that is read. *)
Record SetupConfig : Type := MkSetupConfig {
  sc_trust_layer_metadata : bool; sc_disable_getprint : bool;
  sc_qgis_settings : list (string * string); sc_enable_python_embedded : bool;
  sc_use_default_server_handler : bool; sc_network : QgisNetworkConfig;
  sc_handlers : list (string * HandlerConfig T C); sc_search_paths : Routes;
}.

(** The process, its network manager and its component manager. *)
Record Setup : Type := MkSetup {
  su_proc : Proc; su_network : NetworkManager; su_components : Components T;
}.
Definition on_proc {A} (m : M Proc A) : M Setup A :=
  zoom su_proc (fun p s => MkSetup p (su_network s) (su_components s)) m.
Definition on_components {A} (m : M (Components T) A) : M Setup A :=
  zoom su_components (fun c s => MkSetup (su_proc s) (su_network s) c) m.
Definition set_network (c : QgisNetworkConfig) : M Setup unit :=
  modify (fun s => MkSetup (su_proc s) (configure_network c (su_network s)) (su_components s)).

Definition when (b : bool) (m : M Setup unit) : M Setup unit := if b then m else mret tt.
Definition environ (k v : string) : M Setup unit := on_proc (set_environ k v).

(** The server that answers requests: that of the binding, with what it does of
    requests, or the wrapper of the one of QGIS *)
Inductive Server : Type := BindingServer (use_default_handler : bool) | ServerWrapper.
(** [Server.new] of [init_qgis_server]: Python in projects is not asked for *)
Definition init_qgis_server (settings : list (string * string)) : M Setup unit :=
  on_proc (setup_qgis_application version cwd settings true false);; mret tt.
Definition server_new (settings : list (string * string)) : M Setup Server :=
  init_qgis_server settings;;
  mret (if binding then BindingServer false else ServerWrapper).
(** [server.use_default_handler = ...], when it has this attribute *)
Definition with_handler (use_default : bool) (s : Server) : Server :=
  match s with BindingServer _ => BindingServer use_default | ServerWrapper => ServerWrapper end.

Definition CATALOG_CONTRACTID : string := "@3liz.org/catalog;1".
Definition CACHE_MANAGER_CONTRACTID : string := "@3liz.org/cache-manager;1".
Definition QGIS_PLUGIN_SERVICE_CONTRACTID : string := "@3liz.org/qgis-plugin-service;1".

(** The environment that QGIS server reads *)
Definition server_environ (debug : bool) (conf : SetupConfig) : M Setup unit :=
  when debug (environ "QGIS_SERVER_LOG_LEVEL" "0";; environ "QGIS_DEBUG" "1");;
  when (sc_trust_layer_metadata conf) (environ "QGIS_SERVER_TRUST_LAYER_METADATA" "yes");;
  when (sc_disable_getprint conf) (environ "QGIS_SERVER_DISABLE_GETPRINT" "yes");;
  environ "QGIS_SERVER_PROJECT_CACHE_STRATEGY" "off".

(** [setup_server], when the log is at a level *)
Definition setup_server (level : LogLevel) (conf : SetupConfig) (catalog : T) : M Setup Server :=
  server_environ (is_enabled_for level DEBUG) conf;;
  server ← server_new (sc_qgis_settings conf);
  set_network (sc_network conf);;
  on_components (initialize_handlers validate_rooturl dh (sc_handlers conf) (sc_search_paths conf));;
  on_components (register_service CATALOG_CONTRACTID (Some catalog));;
  mret (with_handler (sc_use_default_server_handler conf) server).

(** The beginning of [qgis_server_run]: the services; plugins are loaded between
    the two ([Plugins]) *)
Definition run_services (cm plugins : T) : M Setup unit :=
  on_components (register_service CACHE_MANAGER_CONTRACTID (Some cm));;
  on_components (register_service QGIS_PLUGIN_SERVICE_CONTRACTID (Some plugins)).

(** [init_qgis_application] *)
Definition init_qgis_application (settings : list (string * string)) : M Setup unit :=
  on_proc (setup_qgis_application version cwd settings false false);; mret tt.

(** [QgisContext.setup]; its settings are those of the configuration of processes *)
Definition context_setup (level : LogLevel) (conf : SetupConfig) (cm : T) : M Setup unit :=
  when (is_enabled_for level DEBUG) (environ "QGIS_DEBUG" "1");;
  init_qgis_application (sc_qgis_settings conf);;
  set_network (sc_network conf);;
  on_components (initialize_handlers validate_rooturl dh (sc_handlers conf) (sc_search_paths conf));;
  on_components (register_service CACHE_MANAGER_CONTRACTID (Some cm)).

(** [QgisServerContext.setup]: the network is left as it is *)
Definition server_context_setup (level : LogLevel) (conf : SetupConfig) (cm : T) : M Setup unit :=
  server_environ (is_enabled_for level DEBUG) conf;;
  init_qgis_server (sc_qgis_settings conf);;
  on_components (initialize_handlers validate_rooturl dh (sc_handlers conf) (sc_search_paths conf));;
  on_components (register_service CACHE_MANAGER_CONTRACTID (Some cm)).

(** [qgis_initialized], [exit_qgis_application] *)
Definition qgis_initialized : M Setup bool := gets (fun s => pr_application (su_proc s)).
Definition exit_qgis_application : M Setup unit :=
  on_proc (modify (fun p => MkProc (pr_environ p) (pr_dirs p) (pr_settings p) (pr_settings_path p) false)).
End setup.

Arguments SetupConfig : clear implicits.
Arguments Setup : clear implicits.

(** ** Listening *)

(** [NetInterface]: a text, or an address and a port *)
Inductive NetInterface : Type := Socket (s : string) | Interface (address : string) (port : Z).

(** [ipaddress.ip_address]: its family *)
Definition hex_digits (s : string) : bool := str_forall (fun a => match hex_digit a with Some _ => true | None => false end) s.
Definition octet (s : string) : bool :=
  str_truth s && str_forall is_digit s && (String.length s <=? 3)%nat &&
  (bool_decide (s = "0") || negb (startswith "0" s)) &&
  match int_of_str s with Ok n => (n <=? 255)%Z | Raise _ => false end.
Definition is_ipv4 (s : string) : bool :=
  negb (char_in "/" s) &&
  match split "." s with
  | [a; b; c; d] => octet a && octet b && octet c && octet d
  | _ => false
  end.
(** The groups of an address: an IPv4 at the end counts for two *)
Definition hextet (s : string) : bool := str_truth s && hex_digits s && (String.length s <=? 4)%nat.
Definition groups (s : string) : option (list string) :=
  let parts := split ":" s in
  if (length parts <? 3)%nat then None
  else match last parts with
       | Some p => if char_in "." p then if is_ipv4 p then Some (take (length parts - 1) parts ++ ["0"; "0"]) else None
                   else Some parts
       | None => None
       end.
(** The groups at both ends of the one that is left out *)
Definition compressed (parts : list string) : bool :=
  let inner := take (length parts - 2) (drop 1 parts) in
  match list_find (fun p => p = "") inner with
  | None =>
      (length parts =? 8)%nat && forallb hextet parts
  | Some (i, _) =>
      let hi := take (S i) parts in
      let lo := drop (S (S i)) parts in
      let hi' := match hi with "" :: hi => hi | hi => hi end in
      let lo' := match last lo with Some "" => take (length lo - 1) lo | _ => lo end in
      bool_decide ("" ∉ drop (S i) inner) &&
      (bool_decide (hi' = hi) || bool_decide (hi' = [])) && (bool_decide (lo' = lo) || bool_decide (lo' = [])) &&
      (length hi' + length lo' <? 8)%nat && forallb hextet (hi' ++ lo')
  end.
Definition is_ipv6 (s : string) : bool :=
  negb (char_in "/" s) &&
  match partition "%" s with
  | Some (s, scope) => str_truth scope && negb (char_in "%" scope) &&
                       match groups s with Some ps => (length ps <=? 9)%nat && compressed ps | None => false end
  | None => match groups s with Some ps => (length ps <=? 9)%nat && compressed ps | None => false end
  end.

(** [s.strip("[]")] *)
Definition is_bracket (a : ascii) : bool := char_in a "[]".
Fixpoint rstrip (f : ascii → bool) (s : string) : string :=
  match s with
  | "" => ""
  | String a s => match rstrip f s with
                  | "" => if f a then "" else String a ""
                  | t => String a t
                  end
  end.
Definition strip_brackets (s : string) : string := rstrip is_bracket (lstrip is_bracket s).

(** [_validate_netinterface] *)
Definition _validate_netinterface (v : NetInterface) : res NetInterface :=
  match v with
  | Socket s => if startswith "unix:" s then Ok v else Raise (ValueError "Invalid socket address")
  | Interface address port =>
      let addr := strip_brackets address in
      if is_ipv4 addr then Ok v
      else if is_ipv6 addr then Ok (Interface ("[" +:+ addr +:+ "]") port)
      else Raise (ValueError (addr +:+ " does not appear to be an IPv4 or IPv6 address"))
  end.

(** [_validate_absolute_path] *)
Definition _validate_absolute_path (p : ppath) : res ppath :=
  if str_truth (p_root p) then Ok p else Raise (ValueError ("Path " +:+ path_str p +:+ " must be absolute")).

(** [format_interface] *)
Definition format_interface (listen : NetInterface) : string :=
  match listen with Interface address port => address +:+ ":" +:+ str_of_int port | Socket s => s end.

(** [create_site] *)
Inductive Site : Type := TCPSite (host : string) (port : Z) (tls : bool) | UnixSite (path : string) (tls : bool).
Definition create_site (listen : NetInterface) (use_tls : bool) : Site :=
  match listen with
  | Interface address port => TCPSite (strip_brackets address) port use_tls
  | Socket s => UnixSite (String.substring 5 (String.length s - 5) s) use_tls
  end.

(** ** Properties *)

(** *** The environment *)
Definition setup_variables : list string :=
  ["QGIS_NO_OVERRIDE_IMPORT"; "QGIS_DISABLE_MESSAGE_HOOKS"; "QT_QPA_PLATFORM"; "QGIS_PREFIX_PATH";
   "QGIS_CUSTOM_CONFIG_PATH"; "QGIS_OPTIONS_PATH"].

(** What the application sets of the environment *)
Definition keeps_environ {A} (m : M Proc A) : Prop :=
  ∀ k p, k ∉ setup_variables → assoc k (pr_environ (m p).2) = assoc k (pr_environ p).
Lemma keeps_bind {A B} (m : M Proc A) (f : A → M Proc B) :
  keeps_environ m → (∀ a, keeps_environ (f a)) → keeps_environ (m ≫= f).
Proof.
  intros Hm Hf k p Hk. specialize (Hm k p Hk). rw /mbind /M_bind. destruct (m p) as [[a|e] p1]; [|done].
  rw Hf //.
Qed.
Lemma keeps_set k v : k ∈ setup_variables → keeps_environ (set_environ k v).
Proof. intros Hk k' p Hk'. rw /set_environ /modify /=. apply dict_set_lookup_ne. by intros ->. Qed.

Lemma keeps_setup version cwd settings server embedded :
  keeps_environ (setup_qgis_application version cwd settings server embedded).
Proof.
  rw /setup_qgis_application. apply keeps_bind; [done|intros p]. destruct (pr_application p); [done|].
  repeat (apply keeps_bind; [apply keeps_set; set_solver|intros _]).
  destruct (version <? QGIS_MINIMUM_VERSION_INT)%Z; [done|].
  apply keeps_bind; [destruct (getenv _ _); [done|apply keeps_set; set_solver]|intros _].
  apply keeps_bind; [apply keeps_set; set_solver|intros _].
  apply keeps_bind; [|done].
  rw /load_qgis_settings. apply keeps_bind.
  { rw /find_settings. apply keeps_bind; [done|intros q]. destruct (ostr_truth _).
    - by case_bool_decide.
    - apply keeps_bind; [done|intros _]. repeat (apply keeps_bind; [apply keeps_set; set_solver|intros _]). done. }
  intros found. apply keeps_bind.
  { destruct server; [|done]. repeat (apply keeps_bind; [apply keeps_set; set_solver|intros _]). done. }
  intros o. repeat (apply keeps_bind; [done|intros _]). apply keeps_bind; [by destruct embedded|done].
Qed.

Lemma setup_spec version cwd settings server p o p' :
  NoDup settings.*1 → setup_qgis_application version cwd settings server false p = (Ok o, p') →
  pr_application p = false ∧ pr_application p' = true ∧
  assoc EMBEDDED (pr_settings p') = Some "Never" ∧
  ∀ k v, assoc k settings = Some v → k ≠ EMBEDDED → assoc k (pr_settings p') = Some v.
Proof.
  intros Hnd. rw /setup_qgis_application. erewrite bind_ok by reflexivity.
  destruct (pr_application p) eqn:Ha; [done|]. erewrite bind_ok by reflexivity. erewrite bind_ok by reflexivity.
  destruct (version <? QGIS_MINIMUM_VERSION_INT)%Z; [done|]. intros (u & p1 & H1 & H)%bind_ok_inv.
  erewrite bind_ok in H by reflexivity.
  apply bind_ok_inv in H as (o' & p2 & Hl & [= <- <-]).
  apply load_settings_spec in Hl as (_ & _ & He & Hk); [|done].
  split_and!; [done|done|by apply He|]. intros k v Hv Hne. by apply Hk.
Qed.

(** *** The whole set up *)
Section started.
Context {T C : Type} (validate_rooturl : T → Url → bool → res unit) (dh : DefaultHandlers T).
Context (version : Z) (cwd : ppath) (binding : bool).
Implicit Types (s : Setup T) (conf : SetupConfig T C).
Notation env s k := (assoc k (pr_environ (su_proc s))).

Lemma server_environ_spec debug conf s :
  ∃ p, server_environ debug conf s = (Ok tt, MkSetup p (su_network s) (su_components s)) ∧
    pr_application p = pr_application (su_proc s) ∧
    let env' k := assoc k (pr_environ p) in
    env' "QGIS_SERVER_PROJECT_CACHE_STRATEGY" = Some "off" ∧
    env' "QGIS_SERVER_TRUST_LAYER_METADATA" =
      (if sc_trust_layer_metadata conf then Some "yes" else env s "QGIS_SERVER_TRUST_LAYER_METADATA") ∧
    env' "QGIS_SERVER_DISABLE_GETPRINT" =
      (if sc_disable_getprint conf then Some "yes" else env s "QGIS_SERVER_DISABLE_GETPRINT") ∧
    env' "QGIS_DEBUG" = (if debug then Some "1" else env s "QGIS_DEBUG").
Proof.
  destruct s as [p nm cs]. rw /server_environ.
  destruct debug, (sc_trust_layer_metadata conf), (sc_disable_getprint conf); eexists.
  all: split; [reflexivity|]; split; [reflexivity|]; simpl; split_and!.
  all: repeat (rewrite dict_set_lookup_ne; [done|]); by rewrite ?dict_set_lookup.
Qed.

Lemma ready_kept c c' (o : option T) (h : T) (cs : Components T) :
  cwf cs → c' ≠ c → get_service c cs = (Ok (Some h), cs) →
  get_service c (register_service c' o cs).2 = (Ok (Some h), (register_service c' o cs).2).
Proof.
  intros Hw Hne Hg. apply get_service_bound, set_entry_bound_ne; [done..|]. by eapply get_service_binds.
Qed.

Lemma validate_routes_cwf routes (cs : Components T) :
  cwf cs → cwf (validate_routes validate_rooturl routes cs).2.
Proof.
  revert cs. induction routes as [|r routes IH]; intros cs Hs; [done|]. simpl.
  destruct (cannonical r) as [loc url]. rw /get_protocol_handler.
  pose proof (get_service_cwf (handler_contract (str_or (scheme url) "file")) cs Hs) as Hs1.
  destruct (get_service _ cs) as [[[h1|]|e] s1] eqn:E; simpl in *; rw /mbind /M_bind E; [|done..].
  rw /pure. destruct (validate_rooturl h1 url (is_dynamic r)); [by apply IH|done].
Qed.

Lemma initialize_handlers_cwf (handlers : list (string * HandlerConfig T C)) routes (cs cs' : Components T) :
  cwf cs → NoDup handlers.*1 → initialize_handlers validate_rooturl dh handlers routes cs = (Ok tt, cs') → cwf cs'.
Proof.
  intros Hs Hnd H. apply bind_ok_inv in H as ([] & s1 & H1 & H).
  apply bind_ok_inv in H as ([] & s2 & H2 & H3).
  apply register_default_handlers_cwf in H1; [|done].
  destruct (register_handlers_bound handlers s1 s2 H1 Hnd H2) as (Hs2 & _ & _).
  pose proof (validate_routes_cwf routes.*2 s2 Hs2) as Hw. by rw H3 in Hw.
Qed.

(** C25. When the set up of a server succeeds, its application was not started before,
    and is.  QGIS finds no cache strategy of its own, trusts the metadata of
    layers and disables the printing of layouts as it is configured, or as the
    environment had it, and is verbose with the log.  It reads the settings of the
    configuration, but Python of the projects is disabled whatever the
    configuration says.  The network is configured, each search path has a
    handler that accepts it, each configured scheme the handler of its
    configuration, and the catalog is a service. *)
Theorem server_set_up level conf catalog s server s' :
  cwf (su_components s) → NoDup (sc_handlers conf).*1 → NoDup (sc_qgis_settings conf).*1 →
  setup_server validate_rooturl dh version cwd binding level conf catalog s = (Ok server, s') →
  pr_application (su_proc s) = false ∧ pr_application (su_proc s') = true ∧
  env s' "QGIS_SERVER_PROJECT_CACHE_STRATEGY" = Some "off" ∧
  env s' "QGIS_SERVER_TRUST_LAYER_METADATA" =
    (if sc_trust_layer_metadata conf then Some "yes" else env s "QGIS_SERVER_TRUST_LAYER_METADATA") ∧
  env s' "QGIS_SERVER_DISABLE_GETPRINT" =
    (if sc_disable_getprint conf then Some "yes" else env s "QGIS_SERVER_DISABLE_GETPRINT") ∧
  env s' "QGIS_DEBUG" = (if is_enabled_for level DEBUG then Some "1" else env s "QGIS_DEBUG") ∧
  assoc EMBEDDED (pr_settings (su_proc s')) = Some "Never" ∧
  (∀ k v, assoc k (sc_qgis_settings conf) = Some v → k ≠ EMBEDDED → assoc k (pr_settings (su_proc s')) = Some v) ∧
  su_network s' = configure_network (sc_network conf) (su_network s) ∧
  (∀ r, r ∈ (sc_search_paths conf).*2 → ∃ h,
     get_protocol_handler (scheme (cannonical r).2) (su_components s') = (Ok (Some h), su_components s') ∧
     validate_rooturl h (cannonical r).2 (is_dynamic r) = Ok tt) ∧
  (∀ scheme hc, (scheme, hc) ∈ sc_handlers conf → scheme ≠ "" → ∃ h n,
     hc_create_instance hc n = Ok h ∧
     get_protocol_handler scheme (su_components s') = (Ok (Some h), su_components s')) ∧
  get_service CATALOG_CONTRACTID (su_components s') = (Ok (Some catalog), su_components s').
Proof.
  intros Hw Hnd Hns. rw /setup_server.
  destruct (server_environ_spec (is_enabled_for level DEBUG) conf s) as (p1 & E1 & Ha1 & He1 & He2 & He3 & He4).
  erewrite bind_ok by exact E1. intros H. apply bind_ok_inv in H as (srv & s2 & H2 & H).
  rw /server_new /init_qgis_server /on_proc /zoom in H2. cbn [su_proc su_network su_components] in H2.
  apply bind_ok_inv in H2 as (u0 & s20 & H2 & H2').
  apply bind_ok_inv in H2 as (o & s21 & H2 & [= <- <-]).
  cbn [su_proc] in H2.
  destruct (setup_qgis_application version cwd (sc_qgis_settings conf) true false p1) as [r2 p2] eqn:Ep.
  injection H2 as -> <-. injection H2' as _ <-.
  pose proof (keeps_setup version cwd (sc_qgis_settings conf) true false) as Hk.
  destruct (setup_spec version cwd (sc_qgis_settings conf) true p1 o p2 Hns Ep) as (Hp1 & Hp2 & Hp3 & Hp4).
  erewrite bind_ok in H by reflexivity. apply bind_ok_inv in H as ([] & s3 & H3 & H).
  rw /on_components /zoom in H3. cbn [su_components su_proc su_network] in H3.
  destruct (initialize_handlers validate_rooturl dh (sc_handlers conf) (sc_search_paths conf) (su_components s))
    as [r3 cs3] eqn:Ec. injection H3 as -> <-.
  erewrite bind_ok in H by reflexivity. injection H as <- <-. cbn [su_components su_proc su_network].
  assert (∀ k, k ∉ setup_variables → assoc k (pr_environ p2) = assoc k (pr_environ p1)) as Henv.
  { intros k Hkk. specialize (Hk k p1 Hkk). by rw Ep in Hk. }
  pose proof (initialize_handlers_cwf _ _ _ _ Hw Hnd Ec) as Hw3.
  destruct (initialize_handlers_ready validate_rooturl dh _ _ _ _ Hw Hnd Ec) as [Hr Hh].
  split_and!; try done.
  - by rw -Ha1.
  - rw Henv; [by apply (bool_decide_unpack _)|done].
  - rw Henv; [by apply (bool_decide_unpack _)|done].
  - rw Henv; [by apply (bool_decide_unpack _)|done].
  - rw Henv; [by apply (bool_decide_unpack _)|done].
  - intros r Hin. destruct (Hr r Hin) as (h & Hg & Hv). exists h. split; [|done]. by apply ready_kept.
  - intros sch hc Hin Hne. destruct (Hh sch hc Hin Hne) as (h & n & Hi & Hg). exists h, n. split; [done|].
    by apply ready_kept.
  - by apply get_service_bound, set_entry_bound_eq.
Qed.
End started.

(** An example: a worker whose configuration allows Python in projects *)
Module StartupDemo.
Definition conf : SetupConfig nat nat :=
  MkSetupConfig true false [("cache/directory", "/tmp"); (EMBEDDED, "Always")] true true
    (MkNetworkConfig 10000 None []) ComponentsDemo.handlers ComponentsDemo.routes.
Definition before : Setup nat :=
  MkSetup (MkProc [("DISPLAY", ":0")] [] [] None false) (MkManager 0 None) new_components.
Definition started : res Server * Setup nat :=
  setup_server ComponentsDemo.accept ComponentsDemo.dh 34002 (path_of "/srv") true WARNING conf 7 before.
End StartupDemo.

Lemma server_set_up_witness :
  assoc EMBEDDED (pr_settings (su_proc StartupDemo.started.2)) = Some "Never" ∧
  assoc "QGIS_SERVER_TRUST_LAYER_METADATA" (pr_environ (su_proc StartupDemo.started.2)) = Some "yes" ∧
  assoc "QGIS_DEBUG" (pr_environ (su_proc StartupDemo.started.2)) = None ∧
  get_service CATALOG_CONTRACTID (su_components StartupDemo.started.2) =
    (Ok (Some 7), su_components StartupDemo.started.2).
Proof.
  destruct (server_set_up ComponentsDemo.accept ComponentsDemo.dh 34002 (path_of "/srv") true WARNING StartupDemo.conf 7
    StartupDemo.before (BindingServer true) StartupDemo.started.2)
    as (_ & _ & _ & H1 & _ & H2 & H3 & _ & _ & _ & _ & H4).
  - apply wf_empty.
  - by apply (bool_decide_unpack _).
  - by apply (bool_decide_unpack _).
  - vm_compute. reflexivity.
  - split; [exact H3|]. split; [exact H1|]. split; [exact H2|exact H4].
Defined.

(** *** The interface *)
Lemma strip_brackets_wrapped s : strip_brackets s = s → strip_brackets ("[" +:+ s +:+ "]") = s.
Proof.
  rw /strip_brackets. intros Hs.
  assert (∀ t, rstrip is_bracket (t +:+ "]") = rstrip is_bracket t) as Hr.
  { induction t as [|a t IH]; [done|].
    change (rstrip is_bracket (String a (t +:+ "]")) = rstrip is_bracket (String a t)). cbn [rstrip]. by rewrite IH. }
  destruct s as [|a s]; [done|].
  assert (is_bracket a = false) as Ha.
  { destruct (is_bracket a) eqn:E; [|done]. exfalso. cbn [lstrip] in Hs. rw E in Hs.
    assert (∀ f t, (String.length (rstrip f t) <= String.length t)%nat) as H1.
    { intros f t. induction t as [|b t IH]; [done|]. cbn [rstrip]. destruct (rstrip f t); simpl in *; [destruct (f b); simpl|]; lia. }
    assert (∀ f t, (String.length (lstrip f t) <= String.length t)%nat) as H2.
    { intros f t. induction t as [|b t IH]; [done|]. cbn [lstrip]. destruct (f b); simpl; lia. }
    pose proof (H1 is_bracket (lstrip is_bracket s)) as H3. rw Hs in H3. pose proof (H2 is_bracket s). simpl in H3. lia. }
  cbn [lstrip] in Hs. rw Ha in Hs.
  change (rstrip is_bracket (if is_bracket a then lstrip is_bracket (s +:+ "]") else String a (s +:+ "]")) = String a s).
  rw Ha. exact (eq_trans (Hr (String a s)) Hs).
Qed.

Lemma lstrip_idem f s : lstrip f (lstrip f s) = lstrip f s.
Proof. induction s as [|a s IH]; [done|]. cbn [lstrip]. destruct (f a) eqn:E; [done|]. cbn [lstrip]. by rw E. Qed.
Lemma rstrip_idem f s : rstrip f (rstrip f s) = rstrip f s.
Proof.
  induction s as [|a s IH]; [done|]. cbn [rstrip]. destruct (rstrip f s) as [|b t] eqn:E.
  - destruct (f a) eqn:Ea; [done|]. cbn [rstrip]. by rw Ea.
  - change (match rstrip f (String b t) with "" => if f a then "" else String a "" | t => String a t end = String a (String b t)).
    by rw IH.
Qed.
Lemma strip_brackets_idem s : strip_brackets (strip_brackets s) = strip_brackets s.
Proof.
  rw /strip_brackets. set (t := lstrip is_bracket s).
  assert (lstrip is_bracket (rstrip is_bracket t) = rstrip is_bracket t) as ->; [|apply rstrip_idem].
  assert (lstrip is_bracket t = t) as Ht by apply lstrip_idem.
  destruct t as [|a t]; [done|]. cbn [lstrip] in Ht.
  destruct (is_bracket a) eqn:Ea.
  - exfalso. assert (∀ f u, (String.length (lstrip f u) <= String.length u)%nat) as H2.
    { intros f u. induction u as [|b u IH]; [done|]. cbn [lstrip]. destruct (f b); simpl; lia. }
    pose proof (H2 is_bracket t). rw Ht in H. simpl in H. lia.
  - cbn [rstrip]. destruct (rstrip is_bracket t); [by rw Ea; cbn [lstrip]; rw Ea|by cbn [lstrip]; rw Ea].
Qed.

Lemma startswith_split p s : startswith p s = true → ∃ t, s = p +:+ t.
Proof.
  revert s. induction p as [|a p IH]; intros s; [by exists s|]. destruct s as [|b s]; [done|].
  cbn [startswith]. intros [->%bool_decide_eq_true Hs]%andb_true_iff. destruct (IH s Hs) as [t ->]. by exists t.
Qed.

(** A validated interface is validated again to itself, and the server listens to
    it: on the address without brackets, which is valid, or on the path of the
    socket. *)
Theorem interface_listened v v' tls :
  _validate_netinterface v = Ok v' →
  _validate_netinterface v' = Ok v' ∧
  match create_site v' tls with
  | TCPSite host port t =>
      t = tls ∧ (is_ipv4 host || is_ipv6 host) = true ∧
      v' = Interface (if is_ipv4 host then match v with Interface a _ => a | _ => "" end else "[" +:+ host +:+ "]") port
  | UnixSite path t => t = tls ∧ v' = Socket ("unix:" +:+ path)
  end.
Proof.
  destruct v as [s|addr port]; cbn [_validate_netinterface].
  - destruct (startswith "unix:" s) eqn:Es; [|done]. intros [= <-]. cbn [_validate_netinterface create_site]. rw Es.
    split_and!; [done|done|]. destruct (startswith_split _ _ Es) as [path ->].
    pose proof (removeprefix_app "unix:" path) as Hr. rw /removeprefix startswith_app in Hr. by rw Hr.
  - destruct (is_ipv4 (strip_brackets addr)) eqn:E4; [|destruct (is_ipv6 (strip_brackets addr)) eqn:E6; [|done]].
    + intros [= <-]. cbn [_validate_netinterface create_site]. by rw E4.
    + intros [= <-]. cbn [_validate_netinterface create_site].
      rw strip_brackets_wrapped; [apply strip_brackets_idem|]. by rw E4 E6.
Qed.

Lemma interface_listened_witness :
  _validate_netinterface (Interface "[2001:db8::1]" 9180) = Ok (Interface "[2001:db8::1]" 9180) ∧
  true = true ∧ (is_ipv4 "2001:db8::1" || is_ipv6 "2001:db8::1") = true ∧
  Interface "[2001:db8::1]" 9180 = Interface "[2001:db8::1]" 9180.
Proof. apply (interface_listened (Interface "2001:db8::1" 9180) (Interface "[2001:db8::1]" 9180) true). reflexivity. Defined.
