(* ===== verification/Providers.v ===== *)
(** * Processing providers

    [qjazz_core/qgis/processing.py]: the providers of algorithms that a service
    exposes, registered while the plugins are initialized, and the part of
    [QgisPluginService] ([qgis_plugins.py]) that asks for them.  The registry of
    QGIS, which tells the loader of each provider that is added to it, is a list
    of names; what a plugin adds when it is initialized is a parameter. *)
From S2P Require Import Prelude PyDict PyAssoc PyStd Json.

(** [ProcessesConfig]: the text of [processes.toml] *)
Record ProcessesConfig : Type := MkProcessesConfig {
  discard : list string;
  styles : option (list (string * list (string * string)));
}.

(** [ProcessesLoader], the registry, and the styles of the renderer *)
Record ProcessesLoader : Type := MkLoader {
  _discard : list string; _providers : list string; _register : bool;
}.
Record Registry : Type := MkRegistry {
  rg_providers : list string; rg_loader : ProcessesLoader; rg_styles : list (string * list (string * string));
}.
Definition upd_loader (f : ProcessesLoader → ProcessesLoader) : M Registry unit :=
  modify (fun r => MkRegistry (rg_providers r) (f (rg_loader r)) (rg_styles r)).
Definition set_register (b : bool) : M Registry unit :=
  upd_loader (fun l => MkLoader (_discard l) (_providers l) b).

(** [_registerProvider], the slot that is called when a provider is added *)
Definition _registerProvider (id_ : string) : M Registry unit :=
  upd_loader (fun l => if _register l && negb (bool_decide (id_ ∈ _discard l))
                       then MkLoader (_discard l) (_providers l ++ [id_]) (_register l) else l).

(** [addProvider] of the registry: a name is registered once *)
Definition addProvider (id_ : string) : M Registry unit :=
  r ← get;
  if bool_decide (id_ ∈ rg_providers r) then mret tt
  else modify (fun r => MkRegistry (rg_providers r ++ [id_]) (rg_loader r) (rg_styles r));;
       _registerProvider id_.
Fixpoint addProviders (ids : list string) : M Registry unit :=
  match ids with
  | [] => mret tt
  | i :: ids => addProvider i;; addProviders ids
  end.

(** [__init__]: models, and scripts when they are allowed *)
Definition new_loader (registry providers : list string) (allow_scripts : bool) : ProcessesLoader :=
  MkLoader [] (providers ++ filter (fun i => i ∈ registry) (if allow_scripts then ["model"; "script"] else ["model"])) false.

(** [load_builtin_providers]; [provider] imports the class of a provider *)
Fixpoint load_builtins (provider : string → res string) (extras : list string) : M Registry (list string) :=
  match extras with
  | [] => mret []
  | n :: extras =>
      p ← try_except (p ← pure (provider n); addProvider p;; mret [p]) (fun _ => Some (mret []));
      ps ← load_builtins provider extras;
      mret (p ++ ps)
  end.
Definition load_builtin_providers (provider : string → res string) (extras : list string) : M Registry (list string) :=
  set_register false;;
  load_builtins provider extras.

(** The styles of an algorithm whose files exist *)
Definition found_styles (exists_ : string → bool) (package : ppath) (keys : list (string * string)) :
    list (string * string) :=
  dict_extend [] (omap (fun kv : string * string =>
    let qml := path_str (path_join package (path_of kv.2)) in
    if exists_ qml then Some (kv.1, qml) else None) keys).

(** [read_configuration]: [conf] is the content of the file, when there is one.
    The discarded providers are put in a new set, which is not kept. *)
Definition read_configuration (exists_ : string → bool) (conf : option (res ProcessesConfig)) (package : ppath) :
    M Registry unit :=
  match conf with
  | None => mret tt
  | Some conf =>
      c ← pure conf;
      match styles c with
      | None | Some [] => mret tt
      | Some l =>
          let new := (fun ak : string * list (string * string) => (ak.1, found_styles exists_ package ak.2)) <$> l in
          modify (fun r => MkRegistry (rg_providers r) (rg_loader r) (dict_extend (rg_styles r) new))
      end
  end.

(** A package: its directory, with what its configuration file holds, the
    providers that its initialization adds and how it ends *)
Record Package : Type := MkPackage {
  pk_dir : option (ppath * option (res ProcessesConfig)); pk_adds : list string; pk_result : res unit;
}.

(** [init_processing] *)
Definition init_processing (exists_ : string → bool) (package : Package) : M Registry unit := fun r =>
  let body : M Registry unit :=
    match pk_dir package with
    | Some (path, conf) => read_configuration exists_ conf path
    | None => mret tt
    end;;
    addProviders (pk_adds package);;
    pure (pk_result package) in
  let '(out, r) := (set_register true;; body) r in
  (out, (set_register false r).2).

(** [load_plugins] for processing plugins: the builtins, then the packages that
    were found, each in the order of its path; a plugin that fails ends it *)
Fixpoint init_packages (exists_ : string → bool) (packages : list Package) : M Registry unit :=
  match packages with
  | [] => mret tt
  | p :: ps => init_processing exists_ p;; init_packages exists_ ps
  end.
Fixpoint init_paths (exists_ : string → bool) (paths : list (ppath * option (res ProcessesConfig) * list Package)) :
    M Registry unit :=
  match paths with
  | [] => mret tt
  | (path, conf, packages) :: paths =>
      read_configuration exists_ conf path;;
      init_packages exists_ packages;;
      init_paths exists_ paths
  end.
Definition load_processing (provider : string → res string) (extras : list string) (exists_ : string → bool)
    (paths : list (ppath * option (res ProcessesConfig) * list Package)) : M Registry unit :=
  match extras with
  | [] => mret tt
  | _ => load_builtin_providers provider extras;; mret tt
  end;;
  init_paths exists_ paths.

(** [QgisPluginService.providers]: the names that are in the registry *)
Definition providers (r : Registry) : list string :=
  filter (fun i => i ∈ rg_providers r) (_providers (rg_loader r)).

(** ** What is exposed *)

(** A registry that was given new names, of which the loader exposes all or
    none. *)
Definition grown (b : bool) (r r' : Registry) (added : list string) : Prop :=
  rg_providers r' = rg_providers r ++ added ∧
  rg_loader r' = MkLoader [] (_providers (rg_loader r) ++ if b then added else []) b.
Definition loading (b : bool) (r : Registry) : Prop := rg_loader r = MkLoader [] (_providers (rg_loader r)) b.

Lemma grown_loading b r r' l : grown b r r' l → loading b r'.
Proof. intros [_ H]. by rw /loading H. Qed.
Lemma grown_none b r : loading b r → grown b r r [].
Proof. intros H. split; [by rw app_nil_r|]. rw H. simpl. destruct b; by rw app_nil_r. Qed.
Lemma grown_trans b r1 r2 r3 l l' : grown b r1 r2 l → grown b r2 r3 l' → grown b r1 r3 (l ++ l').
Proof.
  intros [H1 H2] [H3 H4]. rw /grown H3 H1 H4 H2 /= -!app_assoc. by destruct b.
Qed.

Lemma add_grown b r i out r' : loading b r → addProvider i r = (out, r') →
  ∃ l, grown b r r' l ∧ l ⊆ [i] ∧ out = Ok tt ∧ i ∈ rg_providers r'.
Proof.
  intros Hl. rw /addProvider. erewrite bind_ok by reflexivity. case_bool_decide as Hi.
  - intros [= <- <-]. exists []. by split_and!; [apply grown_none|apply list_subseteq_nil|..].
  - intros [= <- <-]. exists [i]. split_and!; [split; [done|]|done|done|simpl; set_solver].
    simpl. rw Hl. by destruct b; rw /= ?app_nil_r.
Qed.

Lemma adds_grown b ids r out r' : loading b r → addProviders ids r = (out, r') →
  ∃ l, grown b r r' l ∧ l ⊆ ids ∧ out = Ok tt ∧ ids ⊆ rg_providers r'.
Proof.
  revert r. induction ids as [|i ids IH]; intros r Hl.
  { intros [= <- <-]. exists []. split_and!; [by apply grown_none|set_solver..]. }
  cbn [addProviders]. destruct (addProvider i r) as [o r1] eqn:E.
  apply (add_grown b) in E as E1; [|done]. destruct E1 as (l1 & G1 & S1 & -> & I1).
  rw (bind_ok _ _ _ _ _ E). intros H.
  apply IH in H as (l2 & G2 & S2 & -> & I2); [|by eapply grown_loading].
  exists (l1 ++ l2). split_and!; [by eapply grown_trans|set_solver|done|].
  intros x [->|Hx]%elem_of_cons; [|by apply I2]. destruct G2 as [-> _]. set_solver.
Qed.

(** Reading a configuration changes neither the names nor what is exposed, and
    leaves the discarded names empty. *)
Lemma read_configuration_same exists_ conf path b r out r' : loading b r →
  read_configuration exists_ conf path r = (out, r') → grown b r r' [].
Proof.
  intros Hl. rw /read_configuration. destruct conf as [[c|e]|]; [|by intros [= <- <-]; apply grown_none..].
  erewrite bind_ok by reflexivity.
  destruct (styles c) as [[|s l]|]; intros [= <- <-]; exact (grown_none b r Hl).
Qed.

Lemma loading_register b b' r : loading b r → loading b' (set_register b' r).2.
Proof. rw /loading. intros H. by rw /= H. Qed.
Lemma grown_register b b' r : loading b r → rg_providers (set_register b' r).2 = rg_providers r ∧
  rg_loader (set_register b' r).2 = MkLoader [] (_providers (rg_loader r)) b'.
Proof. rw /loading. intros H. by rw /= H. Qed.

(** A package exposes what it registers, whatever its configuration discards. *)
Lemma init_processing_spec exists_ p r out r' : loading false r → init_processing exists_ p r = (out, r') →
  ∃ l, rg_providers r' = rg_providers r ++ l ∧ _providers (rg_loader r') = _providers (rg_loader r) ++ l ∧
    loading false r' ∧ l ⊆ pk_adds p ∧ (out = Ok tt → pk_adds p ⊆ rg_providers r').
Proof.
  intros Hl. rw /init_processing. set (r0 := (set_register true r).2).
  destruct (grown_register false true r Hl) as [Hr0 Hp0].
  assert (loading true r0) as Hl0 by by eapply loading_register.
  rw (bind_ok _ _ _ tt r0) //.
  assert (∀ m : M Registry unit, (∀ o r1, m r0 = (o, r1) → grown true r0 r1 []) →
    let '(o, r1) := (m;; addProviders (pk_adds p);; pure (pk_result p)) r0 in
    ∃ l, grown true r0 r1 l ∧ l ⊆ pk_adds p ∧ (o = Ok tt → pk_adds p ⊆ rg_providers r1)) as Hm.
  { intros m Hm. destruct (m r0) as [[[]|e] r1] eqn:E.
    - rw (bind_ok _ _ _ _ _ E). specialize (Hm _ _ eq_refl).
      destruct (addProviders (pk_adds p) r1) as [o r2] eqn:E2.
      apply adds_grown with (b := true) in E2 as E3; [|by eapply grown_loading].
      destruct E3 as (l & G & S & -> & I). rw (bind_ok _ _ _ _ _ E2) /pure.
      exists l. split_and!; [|done..]. exact (grown_trans _ _ _ _ _ _ Hm G).
    - rw (bind_raise _ _ _ _ _ E). exists []. split_and!; [by eapply Hm|set_solver|done]. }
  set (m := match pk_dir p with Some (path, conf) => read_configuration exists_ conf path | None => mret tt end).
  specialize (Hm m). cbv zeta. fold m.
  destruct ((m;; addProviders (pk_adds p);; pure (pk_result p)) r0) as [o r1] eqn:E.
  intros [= <- <-]. destruct Hm as (l & [G1 G2] & S & I).
  { intros o' r2. rw /m. destruct (pk_dir p) as [[path conf]|]; [by apply read_configuration_same|].
    intros [= <- <-]. by apply grown_none. }
  exists l. simpl. rw G1 Hr0 G2 Hp0 /=. split_and!; try done. intros Ho. rw -Hr0 -G1. by apply I.
Qed.

(** A run of the loader: it registers [builtins] without exposing them, then
    [added], which it exposes. *)
Definition exposed (r r' : Registry) (added : list string) : Prop :=
  rg_providers r' = rg_providers r ++ added ∧ _providers (rg_loader r') = _providers (rg_loader r) ++ added ∧
  loading false r'.

Lemma exposed_trans r1 r2 r3 l l' : exposed r1 r2 l → exposed r2 r3 l' → exposed r1 r3 (l ++ l').
Proof. intros (H1 & H2 & _) (H3 & H4 & ?). by rw /exposed H3 H4 H1 H2 !app_assoc. Qed.

Lemma init_packages_spec exists_ ps r out r' : loading false r → init_packages exists_ ps r = (out, r') →
  ∃ l, exposed r r' l ∧ (∀ i, i ∈ l → ∃ p, p ∈ ps ∧ i ∈ pk_adds p) ∧
    (out = Ok tt → ∀ p, p ∈ ps → pk_adds p ⊆ rg_providers r').
Proof.
  revert r. induction ps as [|p ps IH]; intros r Hl.
  { intros [= <- <-]. exists []. rw /exposed !app_nil_r. split_and!; try done; [|intros _]; by intros ? ?%not_elem_of_nil. }
  cbn [init_packages]. destruct (init_processing exists_ p r) as [o r1] eqn:E.
  apply init_processing_spec in E as E1; [|done]. destruct E1 as (l1 & R1 & P1 & L1 & S1 & I1).
  assert (∀ i, i ∈ l1 → ∃ q, q ∈ p :: ps ∧ i ∈ pk_adds q) as Hin by (intros i ?; exists p; split; [by left|by apply S1]).
  destruct o as [[]|e].
  - rw (bind_ok _ _ _ _ _ E). intros H. apply IH in H as (l2 & G2 & S2 & I2); [|done].
    exists (l1 ++ l2). split_and!; [by eapply exposed_trans| |].
    + intros i [?|(q & ? & ?)%S2]%elem_of_app; [by auto|]. exists q. split; [by right|done].
    + intros Ho q [->|Hq]%elem_of_cons; [|by apply I2]. destruct G2 as [-> _]. etrans; [by apply I1|set_solver].
  - rw (bind_raise _ _ _ _ _ E). intros [= <- <-]. by exists l1.
Qed.

Lemma init_paths_spec exists_ paths r out r' : loading false r → init_paths exists_ paths r = (out, r') →
  ∃ l, exposed r r' l ∧ (∀ i, i ∈ l → ∃ x p, x ∈ paths ∧ p ∈ x.2 ∧ i ∈ pk_adds p) ∧
    (out = Ok tt → ∀ x p, x ∈ paths → p ∈ x.2 → pk_adds p ⊆ rg_providers r').
Proof.
  revert r. induction paths as [|[[path conf] ps] paths IH]; intros r Hl.
  { intros [= <- <-]. exists []. rw /exposed !app_nil_r. split_and!; try done; [|intros _ ?]; by intros ? ?%not_elem_of_nil. }
  cbn [init_paths]. destruct (read_configuration exists_ conf path r) as [o r1] eqn:E.
  apply (read_configuration_same _ _ _ false) in E as G1; [|done].
  assert (exposed r r1 []) as X1.
  { split_and!; [apply G1| |by eapply grown_loading]. by destruct G1 as [_ ->]. }
  destruct o as [[]|e]; last first.
  { rw (bind_raise _ _ _ _ _ E). intros [= <- <-]. exists []. split_and!; try done. by intros ? ?%not_elem_of_nil. }
  rw (bind_ok _ _ _ _ _ E). destruct (init_packages exists_ ps r1) as [o r2] eqn:E2.
  apply init_packages_spec in E2 as H2; [|apply X1]. destruct H2 as (l1 & G2 & S2 & I2).
  assert (∀ i, i ∈ l1 → ∃ x p, x ∈ (path, conf, ps) :: paths ∧ p ∈ x.2 ∧ i ∈ pk_adds p) as Hin.
  { intros i (p & ? & ?)%S2. exists (path, conf, ps), p. split; [by left|done]. }
  destruct o as [[]|e].
  - rw (bind_ok _ _ _ _ _ E2). intros H. apply IH in H as (l2 & G3 & S3 & I3); [|apply G2].
    exists (l1 ++ l2). split_and!; [by eapply (exposed_trans _ _ _ [] _ X1), exposed_trans| |].
    + intros i [?|(x & p & ? & ?)%S3]%elem_of_app; [by auto|]. exists x, p. split; [by right|done].
    + intros Ho x p [->|Hx]%elem_of_cons Hp; [|by eapply I3]. destruct G3 as [-> _].
      etrans; [by apply I2|set_solver].
  - rw (bind_raise _ _ _ _ _ E2). intros [= <- <-]. exists l1. by split_and!; [exact (exposed_trans _ _ _ [] _ X1 G2)|..].
Qed.

Lemma load_builtins_spec provider extras r : loading false r →
  ∃ ps r', load_builtins provider extras r = (Ok ps, r') ∧
    ∃ l, grown false r r' l ∧ ∀ i, i ∈ l → ∃ n, n ∈ extras ∧ provider n = Ok i.
Proof.
  revert r. induction extras as [|n extras IH]; intros r Hl.
  { exists [], r. split; [done|]. exists []. split; [by apply grown_none|]. by intros ? ?%not_elem_of_nil. }
  cbn [load_builtins].
  assert (∃ p r1 l, try_except (p ← pure (provider n); addProvider p;; mret [p]) (fun _ => Some (mret [])) r = (Ok p, r1) ∧
            grown false r r1 l ∧ ∀ i, i ∈ l → provider n = Ok i) as (p & r1 & l1 & E & G1 & S1).
  { rw /try_except. destruct (provider n) as [p|e] eqn:Hp; last first.
    { exists [], r, []. split; [done|]. split; [by apply grown_none|]. by intros ? ?%not_elem_of_nil. }
    destruct (addProvider p r) as [o r1] eqn:E. apply (add_grown false) in E as E1; [|done].
    destruct E1 as (l & G & S & -> & _). exists [p], r1, l.
    split; [|split; [done|]; intros i Hi; apply S in Hi; by apply list_elem_of_singleton in Hi as ->].
    by rw (bind_ok (pure (Ok p)) _ r p r) // (bind_ok _ _ _ _ _ E). }
  rw (bind_ok _ _ _ _ _ E). destruct (IH r1) as (ps & r2 & E2 & l2 & G2 & S2); [by eapply grown_loading|].
  rw (bind_ok _ _ _ _ _ E2). eexists _, _. split; [done|]. exists (l1 ++ l2).
  split; [by eapply grown_trans|]. intros i [?|(m & ? & ?)%S2]%elem_of_app.
  - exists n. split; [by left|auto].
  - exists m. split; [by right|done].
Qed.

(** C29. A service exposes every provider that its plugins register, whatever the
    configurations of the plugins discard, and none of the builtin providers of
    QGIS that it is asked to load. *)
Theorem plugins_providers_exposed provider extras exists_ paths scripts own r out r' :
  rg_loader r = new_loader (rg_providers r) own scripts →
  load_processing provider extras exists_ paths r = (out, r') →
  ∃ builtins added,
    rg_providers r' = rg_providers r ++ builtins ++ added ∧
    _providers (rg_loader r') = _providers (rg_loader r) ++ added ∧
    (∀ i, i ∈ builtins → ∃ n, n ∈ extras ∧ provider n = Ok i) ∧
    (∀ i, i ∈ added → ∃ x p, x ∈ paths ∧ p ∈ x.2 ∧ i ∈ pk_adds p) ∧
    (out = Ok tt → ∀ x p i, x ∈ paths → p ∈ x.2 → i ∈ pk_adds p →
       i ∈ rg_providers r ++ builtins ∨ i ∈ providers r').
Proof.
  intros Hnew. assert (loading false r) as Hl by by rw /loading Hnew.
  assert (∃ r1 b, (match extras with [] => mret tt | _ => load_builtin_providers provider extras;; mret tt end) r = (Ok tt, r1) ∧
            grown false r r1 b ∧ ∀ i, i ∈ b → ∃ n, n ∈ extras ∧ provider n = Ok i) as (r1 & b & E & G & S).
  { destruct extras as [|n extras].
    { exists r, []. split; [done|]. split; [by apply grown_none|]. by intros ? ?%not_elem_of_nil. }
    destruct (grown_register false false r Hl) as [Hr Hp].
    destruct (load_builtins_spec provider (n :: extras) (set_register false r).2) as (ps & r1 & E & l & G & S).
    { by eapply loading_register. }
    exists r1, l. split; [|split; [|done]].
    - rw (bind_ok (load_builtin_providers provider (n :: extras)) _ r ps r1) //.
    - destruct G as [G1 G2]. by rw /grown G1 G2 Hr Hp. }
  rw /load_processing (bind_ok _ _ _ _ _ E). intros H.
  apply init_paths_spec in H as (l & (R & P & L) & Hin & Hall); [|by eapply grown_loading].
  destruct G as [G1 G2]. rw G1 in R. rw G2 /= app_nil_r in P.
  exists b, l. split_and!; [by rw R -app_assoc|done|done|done|].
  intros Ho x p i Hx Hp Hi. apply (Hall Ho x p Hx Hp) in Hi.
  rw R in Hi. apply elem_of_app in Hi as [Hi|Hi]; [by left|right].
  rw /providers list_elem_of_filter R P. split; [by apply elem_of_app; right|by apply elem_of_app; right].
Qed.

(** ** A service with a discarded provider *)
Module ProvidersDemo.
Definition package : Package :=
  MkPackage (Some (path_of "/plugins/p", Some (Ok (MkProcessesConfig ["secret"] None)))) ["public"; "secret"] (Ok tt).
Definition start : Registry := MkRegistry ["native"; "model"] (new_loader ["native"; "model"] [] true) [].
Definition builtin (n : string) : res string := if bool_decide (n = "otb") then Raise (RuntimeError n) else Ok n.
Definition final : res unit * Registry :=
  load_processing builtin ["grass"; "otb"] (fun _ => true) [(path_of "/plugins", None, [package])] start.

(** A provider that the configuration discards is exposed. *)
Example discarded : providers final.2 = ["model"; "public"; "secret"].
Proof. reflexivity. Qed.

Lemma plugins_providers_exposed_witness :
  ∃ builtins added, rg_providers final.2 = rg_providers start ++ builtins ++ added ∧
    ("secret" ∈ rg_providers start ++ builtins ∨ "secret" ∈ providers final.2).
Proof.
  assert (load_processing builtin ["grass"; "otb"] (fun _ => true) [(path_of "/plugins", None, [package])] start
          = (Ok tt, final.2)) as H by (by vm_compute).
  destruct (plugins_providers_exposed builtin ["grass"; "otb"] (fun _ => true)
    [(path_of "/plugins", None, [package])] true [] start _ _ eq_refl H) as (b & l & R & _ & _ & _ & Hall).
  exists b, l. split; [exact R|].
  apply (Hall eq_refl (path_of "/plugins", None, [package]) package "secret"); [by left|by left|by right; left].
Defined.
End ProvidersDemo.
