(* ===== verification/Catalog.v ===== *)
(** * The catalog of projects

    [qjazz_ogc/catalog.py]: the items a worker keeps for the projects of its
    search paths; [qjazz_rpc/op_collections.py]: the requests on them.  What
    QGIS says of a project or a layer is a parameter. *)
From S2P Require Import Prelude PyDict PyStd Routes CacheManager Messages OpCache OpRequests Layers Extent Collections.

(** ** Endpoints *)
Module OgcEndpoints.
Definition NONE : Z := 0.
Definition MAP : Z := 1.
Definition FEATURES : Z := 2.
Definition COVERAGE : Z := 4.
Definition TILE : Z := 8.
End OgcEndpoints.

(** Pairs are compared as Python tuples. *)
Definition tuple_ltb (a b : Z * Z) : bool :=
  (a.1 <? b.1)%Z || ((a.1 =? b.1)%Z && (a.2 <? b.2)%Z).

Section accessor.
Context {Project : Type} (pv : ProjectView Project).

(** [collect_layers] *)
Definition endpoints (p : Project) (l : Layer) : Z :=
  match l_kind l with
  | VectorLayer =>
      Z.lor (if decide (l_id l ∈ wfsLayerIds pv p) then OgcEndpoints.FEATURES else OgcEndpoints.NONE)
            (if l_spatial l then OgcEndpoints.MAP else OgcEndpoints.NONE)
  | RasterLayer =>
      Z.lor OgcEndpoints.MAP
            (if decide (l_id l ∈ wcsLayerIds pv p) then OgcEndpoints.COVERAGE else OgcEndpoints.NONE)
  | OtherLayer => OgcEndpoints.NONE
  end.

Definition collect_layers (p : Project) : list (string * Z) :=
  (fun l => (layer_name pv p l, endpoints p l)) <$> accessor_layers pv p.

(** [check_project_version] *)
Definition check_project_version (m : ProjectMetadata) (p : Project) (minimum : Z * Z) : res unit :=
  match saved_version pv p with
  | Some v => if tuple_ltb v minimum then Raise (ProjectTooOld (uri m)) else Ok tt
  | None => Ok tt
  end.
End accessor.

(** ** The catalog *)
Section catalog.
Context {Project : Type} (q : Qgis Project) (HttpUrl : string → res string).

Record CatalogItem : Type := MkItem {
  public_path : string;
  i_md : ProjectMetadata;
  layers : pydict string Z;
  coll : Collection;
  location : ppath;
}.
Definition Catalog : Type := pydict string CatalogItem.

(** The readings an operation takes: the surroundings of the cache, and how a
    handler loads a project with the [FastLoaderConfig]. *)
Context (env : Env Project) (fast_project : ProtocolHandler Project → ProjectMetadata → res Project).
Context (conf : QgisConfig) (minimum_qgis_version : Z * Z).

(** [get_pinned_project] *)
Definition get_pinned_project (m : ProjectMetadata) (cm : CacheManager Project) :
    res (option (CacheEntry Project)) :=
  url ← urlsplit (uri m);
  found ← (checkout env url cm).1;
  match found with
  | (Some (FoundEntry e), (UNCHANGED | UPDATED | NEEDUPDATE)) =>
      Ok (if pinned e then Some e else None)
  | _ => Ok None
  end.

(** [new_catalog_item] *)
Definition new_catalog_item (m : ProjectMetadata) (path : string)
    (handler : ProtocolHandler Project) (loc : ppath) : res CatalogItem :=
  p ← fast_project handler m;
  _ ← check_project_version (view q) m p minimum_qgis_version;
  c ← from_project q HttpUrl path p;
  Ok (MkItem path m
        (foldl (fun d kv => PyDict.insert kv.1 kv.2 d) PyDict.empty (collect_layers (view q) p)) c loc).

(** The body of the loop of [Catalog.update_items]; [None] is a project that is
    skipped *)
Definition strip_public (path : string) : string :=
  removesuffix ".qgz" (removesuffix ".qgs" path).

Definition update_item (cat : Catalog) (cm : CacheManager Project) (pinned : bool)
    (x : ProjectMetadata * string * ProtocolHandler Project * ppath) : res (option CatalogItem) :=
  let '(m, path, handler, loc) := x in
  entry ← (if pinned then get_pinned_project m cm else Ok None);
  if pinned && negb (match entry with Some _ => true | None => false end) then Ok None
  else
    let path := strip_public path in
    let load := match new_catalog_item m path handler loc with
                | Ok item => Some item
                | Raise _ => None
                end in
    Ok (match lookup path cat with
        | Some item => if Qc_gtb (last_modified m) (last_modified (i_md item)) then load else Some item
        | None => load
        end).

Fixpoint update_items (cat : Catalog) (cm : CacheManager Project) (pinned : bool)
    (l : list (ProjectMetadata * string * ProtocolHandler Project * ppath)) : res (list CatalogItem) :=
  match l with
  | [] => Ok []
  | x :: l =>
      o ← update_item cat cm pinned x;
      items ← update_items cat cm pinned l;
      Ok (match o with Some i => i :: items | None => items end)
  end.

(** [Catalog.update] *)
Definition catalog_update (cm : CacheManager Project) (pinned : bool) (prefix : option string) :
    M Catalog unit :=
  cat ← get;
  l ← pure (collect_projects_ex env (projects_routes conf) prefix);
  items ← pure (update_items cat cm pinned l);
  modify (fun _ => foldl (fun d i => PyDict.insert (public_path i) i d) PyDict.empty items).

(** The end of [Catalog.get_and_update] *)
Definition reload_item (ident : string) (m : ProjectMetadata) (loc : ppath) :
    M Catalog (option CatalogItem) :=
  match (handler ← get_protocol_handler env (md_scheme m); new_catalog_item m ident handler loc) with
  | Ok item => modify (PyDict.insert ident item);; mret (Some item)
  | Raise _ => mret None
  end.

(** [Catalog.get_and_update] *)
Definition get_and_update (cm : CacheManager Project) (ident : string) (pinned_ : bool) :
    M Catalog (option CatalogItem) :=
  cat ← get;
  match lookup ident cat with
  | None =>
      match resolve_path (projects_routes conf) (allow_direct_path_resolution conf) ident false with
      | Raise (ResourceNotAllowed _) => mret None
      | Raise x => raise x
      | Ok url =>
          loc ← pure (find_location (projects_routes conf) ident);
          match loc with
          | None => raise (OtherException "PostconditionError")
          | Some loc =>
              found ← pure (checkout env url cm).1;
              match found with
              | (Some (FoundEntry e), (UNCHANGED | UPDATED | NEEDUPDATE)) =>
                  if pinned_ && negb (pinned e) then mret None else reload_item ident (md e) loc
              | (_, (REMOVED | NOTFOUND)) => mret None
              | (Some (FoundMetadata m), NEW) => reload_item ident m loc
              | _ => raise (AssertionError "Expected unreachable code")
              end
          end
      end
  | Some item =>
      url ← pure (urlsplit (uri (i_md item)));
      found ← pure (checkout env url cm).1;
      m ← match found.1 with
          | Some (FoundMetadata m) => mret m
          | Some (FoundEntry e) => mret (md e)
          | None => raise (AssertionError "Expected unreachable code")
          end;
      if negb (Qc_gtb (last_modified m) (last_modified (i_md item))) then mret (Some item)
      else reload_item ident m (location item)
  end.

(** [Catalog.iter] *)
Definition catalog_iter (cat : Catalog) (prefix : option string) : list CatalogItem :=
  if ostr_truth prefix
  then filter (fun i => path_is_relative_to (location i) (path_of (default "" prefix)) = true)
         (values cat)
  else values cat.
End catalog.


(** ** Requests on the catalog *)
Record CSrv (Project : Type) : Type := MkCSrv {
  cs_srv : Srv Project;
  cs_cat : Catalog;
}.
Arguments MkCSrv {_} _ _.
Arguments cs_srv {_} _.
Arguments cs_cat {_} _.

(** [itertools.islice(it, start, end)] *)
Definition islice {A} (l : list A) (start end_ : nat) : list A := take (end_ - start) (drop start l).

Section collections.
Context {Project : Type} (q : Qgis Project) (HttpUrl : string → res string).
(** [model_dump_json] of a collection, [CatalogA.dump_json], which keeps the
    fields of a [CatalogBase], and [Collection.model_json_schema] *)
Context (coll_json base_json : Collection → string) (schema : string).
Context (env : Env Project) (fast_project : ProtocolHandler Project → ProjectMetadata → res Project).
Context (conf : QgisConfig) (minimum_qgis_version : Z * Z) (now_evict now_hit : Qc).

Definition on_srv {A} (m : M (Srv Project) A) : M (CSrv Project) A :=
  zoom cs_srv (fun s c => MkCSrv s (cs_cat c)) m.
Definition on_cat {A} (m : M (Catalog) A) : M (CSrv Project) A :=
  zoom cs_cat (fun k c => MkCSrv (cs_srv c) k) m.

Definition reply_page (items : list CollectionsItem) (next : bool) : M (CSrv Project) unit :=
  on_srv (on_conn (send_reply (PCollections
    {| cp_schema := schema; cp_next := next; cp_items := items |}) 200)).

Definition project_item (json : Collection → string) (i : CatalogItem) : CollectionsItem :=
  {| co_name := public_path i; co_json := json (coll i); co_endpoints := OgcEndpoints.MAP |}.

(** [handle_catalog] *)
Definition handle_catalog (msg : CollectionsMsg) : M (CSrv Project) unit :=
  cm ← gets (s_cm ∘ cs_srv);
  items ← (if ostr_truth (c_resource msg) then
             item ← on_cat (get_and_update q HttpUrl env fast_project conf
                      minimum_qgis_version cm (default "" (c_resource msg)) false);
             mret (match item with Some i => [project_item coll_json i] | None => [] end)
           else
             on_cat (catalog_update q HttpUrl env fast_project conf minimum_qgis_version cm
               (negb (load_project_on_request conf)) (c_location msg));;
             cat ← gets cs_cat;
             mret (project_item base_json <$> islice (catalog_iter cat (c_location msg)) (c_start msg) (c_end msg)));
  cat ← gets cs_cat;
  reply_page items (bool_decide (c_end msg < dlen cat)).

(** [iter_layers] *)
Definition iter_layers (p : Project) (item : CatalogItem) : list Layer :=
  filter (fun l => contains (layer_name (view q) p l) (layers item) = true)
    (pv_valid_layers (view q) p).

(** The item of a layer, if a collection can be made of it *)
Definition layer_item (name : string) (item : CatalogItem) (l : Layer) : res (option CollectionsItem) :=
  c ← from_layer q HttpUrl l (coll item);
  match c with
  | None => Ok None
  | Some c =>
      match lookup name (layers item) with
      | Some ep => Ok (Some {| co_name := name; co_json := coll_json c; co_endpoints := ep |})
      | None => Raise (KeyError name)
      end
  end.
Fixpoint layer_items (p : Project) (item : CatalogItem) (ls : list Layer) : res (list CollectionsItem) :=
  match ls with
  | [] => Ok []
  | l :: ls =>
      i ← layer_item (layer_name (view q) p l) item l;
      is_ ← layer_items p item ls;
      Ok (match i with Some i => i :: is_ | None => is_ end)
  end.

(** [handle_layers] *)
Definition handle_layers (msg : CollectionsMsg) : M (CSrv Project) unit :=
  let loc := default "" (c_location msg) in
  if negb (str_truth loc) then on_srv (on_conn (send_reply (PText "Missing location") 500))
  else
    cm ← gets (s_cm ∘ cs_srv);
    on_cat (catalog_update q HttpUrl env fast_project conf minimum_qgis_version cm
      (negb (load_project_on_request conf)) None);;
    parent ← on_cat (get_and_update q HttpUrl env fast_project conf minimum_qgis_version cm loc false);
    match parent with
    | None => on_srv (on_conn (send_reply (PText ("Resource not found: " +:+ loc)) 404))
    | Some parent =>
        entry ← on_srv (get_project env now_evict now_hit conf (public_path parent) false);
        match entry.1 with
        | None => mret tt
        | Some e =>
            let p := project e in
            items ← pure (
              if ostr_truth (c_resource msg) then
                let name := default "" (c_resource msg) in
                if contains name (layers parent)
                then match layer_by_name (view q) p name with
                     | Some l =>
                         i ← layer_item name parent l;
                         Ok (match i with Some i => [i] | None => [] end)
                     | None => Ok []
                     end
                else Ok []
              else layer_items p parent (islice (iter_layers p parent) (c_start msg) (c_end msg)));
            reply_page items (bool_decide (c_end msg < dlen (layers parent)))
        end
    end.

(** [handle_collection] *)
Definition handle_collection (msg : CollectionsMsg) : M (CSrv Project) unit :=
  match c_location msg with
  | Some l => if endswith "/" l then handle_catalog msg else handle_layers msg
  | None => handle_catalog msg
  end.
End collections.

(** ** Properties of the catalog *)
Section properties.
Context {Project : Type} (q : Qgis Project) (HttpUrl : string → res string).
Context (env : Env Project) (fast_project : ProtocolHandler Project → ProjectMetadata → res Project).
Context (conf : QgisConfig) (minimum_qgis_version : Z * Z).
Implicit Types (cat : Catalog) (cm : CacheManager Project).

Abbreviation new_item := (new_catalog_item q HttpUrl fast_project minimum_qgis_version).
Abbreviation upd := (catalog_update q HttpUrl env fast_project conf minimum_qgis_version).
Abbreviation upd_item := (update_item q HttpUrl env fast_project minimum_qgis_version).
Abbreviation upd_items := (update_items q HttpUrl env fast_project minimum_qgis_version).

(** Every item is stored under its public path. *)
Definition cat_inv cat : Prop :=
  wf cat ∧ ∀ k i, lookup k cat = Some i → public_path i = k.

Lemma new_item_path m path h loc i :
  new_item m path h loc = Ok i → public_path i = path ∧ i_md i = m.
Proof.
  rw /new_catalog_item. py_unfold. destruct (fast_project h m) as [p|]; [|done].
  destruct (check_project_version _ _ _ _); [|done].
  by destruct (from_project q HttpUrl path p) as [c|]; [intros [= <-]|].
Qed.

(** What an item of an update is, against what the storage says. *)
Definition item_of cat (x : ProjectMetadata * string * ProtocolHandler Project * ppath)
    (i : CatalogItem) : Prop :=
  let '(m, path, h, loc) := x in
  public_path i = strip_public path ∧ (last_modified m ≤ last_modified (i_md i))%Qc ∧
  (lookup (strip_public path) cat = Some i ∨ new_item m (strip_public path) h loc = Ok i).

Lemma update_item_spec cat cm pin x i :
  cat_inv cat → upd_item cat cm pin x = Ok (Some i) → item_of cat x i.
Proof.
  intros [_ Hk]. destruct x as [[[m path] h] loc]. rw /update_item /item_of.
  intros H. assert (∃ b, b = Ok (Some i) ∧ b = Ok
    (match lookup (strip_public path) cat with
     | Some item => if Qc_gtb (last_modified m) (last_modified (i_md item))
                    then match new_item m (strip_public path) h loc with Ok i => Some i | Raise _ => None end
                    else Some item
     | None => match new_item m (strip_public path) h loc with Ok i => Some i | Raise _ => None end
     end)) as (b & -> & Hb).
  { revert H. py_unfold. destruct (if pin then _ else _) as [oe|]; [|done].
    case_match; [done|]. intros [= H']. exists (Ok (Some i)). split; [done|]. by rw -H'. }
  injection Hb as Hb. clear H.
  assert (∀ i', new_item m (strip_public path) h loc = Ok i' →
    public_path i' = strip_public path ∧ (last_modified m ≤ last_modified (i_md i'))%Qc) as Hnew.
  { intros i' [? ->]%new_item_path. split; [done|apply Qcle_refl]. }
  destruct (lookup (strip_public path) cat) as [old|] eqn:Hl.
  - destruct (Qc_gtb _ _) eqn:Hgt.
    + destruct (new_item _ _ _ _) as [i'|] eqn:Hn; [|done]. injection Hb as ->.
      destruct (Hnew i' eq_refl). auto.
    + injection Hb as ->. split_and!; [by apply Hk| |by left].
      apply bool_decide_eq_false in Hgt. by apply Qcnot_lt_le.
  - destruct (new_item _ _ _ _) as [i'|] eqn:Hn; [|done]. injection Hb as ->.
    destruct (Hnew i' eq_refl). auto.
Qed.

Lemma update_items_spec cat cm pin l items :
  cat_inv cat → upd_items cat cm pin l = Ok items →
  (∀ i, i ∈ items → ∃ x, x ∈ l ∧ item_of cat x i) ∧
  (∀ x i, x ∈ l → upd_item cat cm pin x = Ok (Some i) → i ∈ items).
Proof.
  intros Hi. revert items. induction l as [|x l IH]; intros items; simpl.
  { intros [= <-]. split; [by intros ? ?%not_elem_of_nil|by intros ? ? ?%not_elem_of_nil]. }
  py_unfold. destruct (upd_item cat cm pin x) as [o|] eqn:Hx; [|done].
  destruct (upd_items cat cm pin l) as [its|]; [|done]. intros [= <-].
  destruct (IH its eq_refl) as [IH1 IH2]. split.
  - intros i Hin. destruct o as [i'|].
    + apply elem_of_cons in Hin as [->|Hin].
      * exists x. split; [set_solver|by eapply update_item_spec].
      * destruct (IH1 i Hin) as (y & Hy & ?). exists y. set_solver.
    + destruct (IH1 i Hin) as (y & Hy & ?). exists y. set_solver.
  - intros y i [->|Hy]%elem_of_cons Hupd.
    + rw Hx in Hupd. injection Hupd as ->. set_solver.
    + specialize (IH2 y i Hy Hupd). destruct o; set_solver.
Qed.

(** The dict of a list of items: the last item of a path is kept. *)
Lemma dict_of_items (items : list (CatalogItem)) cat :
  wf cat → let cat' := foldl (fun d i => PyDict.insert (public_path i) i d) cat items in
  wf cat' ∧
  (∀ k i, lookup k cat' = Some i → lookup k cat = Some i ∨ (i ∈ items ∧ public_path i = k)) ∧
  (∀ k, is_Some (lookup k cat) ∨ k ∈ public_path <$> items → is_Some (lookup k cat')).
Proof.
  revert cat. induction items as [|i items IH]; intros cat Hwf; simpl.
  { split_and!; [done|by left|]. intros k [?|[]%not_elem_of_nil]; done. }
  destruct (IH (PyDict.insert (public_path i) i cat)) as (Hwf' & H1 & H2); [by apply wf_insert|].
  split_and!; [done| |].
  - intros k j Hj. destruct (H1 k j Hj) as [Hl|[? ?]]; [|set_solver].
    destruct (decide (public_path i = k)) as [<-|].
    + rw lookup_insert_eq // in Hl. injection Hl as <-. set_solver.
    + rw lookup_insert_ne // in Hl. by left.
  - intros k Hk. apply H2. destruct (decide (public_path i = k)) as [<-|].
    + left. rw lookup_insert_eq //.
    + rw lookup_insert_ne //. set_solver.
Qed.

Lemma cat_inv_update cm pin prefix cat : cat_inv cat → cat_inv (upd cm pin prefix cat).2.
Proof.
  intros Hi. rw /catalog_update. py_unfold.
  destruct (collect_projects_ex _ _ _) as [l|]; [|done]. simpl.
  destruct (upd_items cat cm pin l) as [items|]; [|done]. simpl.
  destruct (dict_of_items items PyDict.empty) as (Hwf & H1 & _); [apply wf_empty|].
  split; [done|]. intros k i Hl. by destruct (H1 k i Hl) as [|[]].
Qed.

(** C40. Updating the catalog mirrors the storage: every item is then at the
    public path, less its extension, of a project of the search paths and not
    older than that project's file, an item that was current is kept as it
    was, and every such project that can be loaded has an item. *)
Theorem catalog_update_mirrors cm pin prefix cat cat' :
  cat_inv cat → upd cm pin prefix cat = (Ok tt, cat') →
  ∃ l, collect_projects_ex env (projects_routes conf) prefix = Ok l ∧ cat_inv cat' ∧
    (∀ k i, lookup k cat' = Some i → ∃ x, x ∈ l ∧ item_of cat x i) ∧
    (∀ m path h loc i, pin = false → (m, path, h, loc) ∈ l →
       new_item m (strip_public path) h loc = Ok i → is_Some (lookup (strip_public path) cat')).
Proof.
  intros Hi H. pose proof (cat_inv_update cm pin prefix cat Hi) as Hi'. rw H in Hi'.
  revert H. rw /catalog_update. py_unfold.
  destruct (collect_projects_ex _ _ _) as [l|]; [|done]. simpl.
  destruct (upd_items cat cm pin l) as [items|] eqn:Hup; [|done]. intros [= <-].
  destruct (update_items_spec _ _ _ _ _ Hi Hup) as [U1 U2].
  destruct (dict_of_items items PyDict.empty) as (Hwf & H1 & H2); [apply wf_empty|].
  exists l. split_and!; [done..| |].
  - intros k i Hl. destruct (H1 k i Hl) as [|[Hin _]]; [done|auto].
  - intros m path h loc i -> Hin Hn. apply H2. right.
    assert (∃ i', upd_item cat cm false (m, path, h, loc) = Ok (Some i')) as [i' Hi''].
    { rw /update_item. py_unfold. rw Hn. repeat case_match; eauto. }
    pose proof (update_item_spec _ _ _ _ _ Hi Hi'') as [Hp _].
    apply list_elem_of_fmap. exists i'. split; [done|]. by eapply U2.
Qed.

(** A project that left the storage is not taken out of the catalog: when
    its item is asked for, the request fails with an AssertionError if the
    project is not in the cache, and answers the item as it was if it is. *)
Theorem get_and_update_removed cm ident pin cat item url h u :
  lookup ident cat = Some item → urlsplit (uri (i_md item)) = Ok url →
  get_protocol_handler env (scheme url) = Ok h →
  h_project_metadata h url = Raise (FileNotFoundError u) →
  get_and_update q HttpUrl env fast_project conf minimum_qgis_version cm ident pin cat =
  match lookup u (_cache cm) with
  | None => (Raise (AssertionError "Expected unreachable code"), cat)
  | Some e => if Qc_gtb (last_modified (md e)) (last_modified (i_md item))
              then reload_item q HttpUrl env fast_project minimum_qgis_version ident (md e)
                     (location item) cat
              else (Ok (Some item), cat)
  end.
Proof.
  intros Hl Hu Hh Hm. rw /get_and_update. erewrite bind_ok by reflexivity. rw Hl.
  rw /checkout. py_unfold. rw Hu Hh Hm. destruct (lookup u (_cache cm)) as [e|]; simpl; [|done].
  by destruct (Qc_gtb _ _).
Qed.
End properties.

(** ** Properties of the requests *)
Section pages.
Context {Project : Type} (q : Qgis Project) (HttpUrl : string → res string).
(** [model_dump_json] of a collection, [CatalogA.dump_json], which keeps the
    fields of a [CatalogBase], and [Collection.model_json_schema] *)
Context (coll_json base_json : Collection → string) (schema : string).
Context (env : Env Project) (fast_project : ProtocolHandler Project → ProjectMetadata → res Project).
Context (conf : QgisConfig) (minimum_qgis_version : Z * Z) (now_evict now_hit : Qc).
Implicit Types (s : CSrv Project).

Abbreviation hcatalog := (handle_catalog q HttpUrl coll_json base_json schema env fast_project conf
  minimum_qgis_version).
Abbreviation hlayers := (handle_layers q HttpUrl coll_json schema env fast_project
  conf minimum_qgis_version now_evict now_hit).
Abbreviation hcollection := (handle_collection q HttpUrl coll_json base_json schema env
  fast_project conf minimum_qgis_version now_evict now_hit).

Definition cs_bounded (B : Z) : CSrv Project → Prop := srv_bounded B ∘ cs_srv.

Lemma preserves_on_srv {A} P (m : M (Srv Project) A) :
  preserves P m → preserves (P ∘ cs_srv) (on_srv m).
Proof. intros Hm s Hs. specialize (Hm _ Hs). rw /on_srv /zoom. by destruct (m (cs_srv s)). Qed.

Lemma preserves_on_cat {A} P (m : M (Catalog) A) :
  preserves (P ∘ cs_srv) (on_cat (Project := Project) m).
Proof. intros s Hs. rw /on_cat /zoom. by destruct (m (cs_cat s)). Qed.

Lemma preserves_send P p code :
  preserves ((P ∘ s_cm) ∘ cs_srv) (on_srv (on_conn (Project := Project) (send_reply p code))).
Proof. apply preserves_on_srv, preserves_on_conn. Qed.

Lemma bounded_collection B msg :
  (max_projects conf ≤ B)%Z → preserves (cs_bounded B) (hcollection msg).
Proof.
  intros HB.
  assert (preserves (cs_bounded B) (hcatalog msg)) as Hcat.
  { rw /handle_catalog. apply preserves_bind; [auto with py|intros cm].
    apply preserves_bind; [|intros; apply preserves_bind; [auto with py|intros; apply (preserves_send (cm_bounded B))]].
    case_match; (apply preserves_bind; [apply preserves_on_cat|intros ?]); auto with py.
    apply preserves_bind; auto with py. }
  assert (preserves (cs_bounded B) (hlayers msg)) as Hlay.
  { rw /handle_layers. case_match; [apply (preserves_send (cm_bounded B))|].
    apply preserves_bind; [auto with py|intros cm].
    do 2 (apply preserves_bind; [apply preserves_on_cat|intros ?]).
    case_match; [|apply (preserves_send (cm_bounded B))].
    apply preserves_bind; [by apply preserves_on_srv, bounded_get_project|].
    intros [[e|] st]; [|apply preserves_ret].
    apply preserves_bind; [auto with py|intros; apply (preserves_send (cm_bounded B))]. }
  rw /handle_collection. destruct (c_location msg); [case_match|]; done.
Qed.

(** A page of the catalog is the window of the current items that was
    asked for, and it announces a next page exactly when items remain after
    the window; nothing but the page is sent. *)
Theorem catalog_page msg s s' :
  cancelled (s_conn (cs_srv s)) = false →
  c_location msg = None → ostr_truth (c_resource msg) = false →
  hcollection msg s = (Ok tt, s') →
  let items := values (cs_cat s') in
  ∃ page, out (s_conn (cs_srv s')) = out (s_conn (cs_srv s)) ++ [FReply 200 (PCollections page)] ∧
    cp_items page = project_item base_json <$> take (c_end msg - c_start msg) (drop (c_start msg) items) ∧
    (cp_next page = true ↔ drop (c_end msg) items ≠ []).
Proof.
  intros Hc Hl Hr. rw /handle_collection Hl /handle_catalog Hr.
  intros (cm & s1 & [= <- <-] & H)%bind_ok_inv. apply bind_ok_inv in H as (items & s2 & Hu & H).
  apply bind_ok_inv in Hu as ([] & s3 & Hu & H3).
  apply bind_ok_inv in H3 as (cat & s4 & [= <- <-] & [= <- <-]).
  assert (s_conn (cs_srv s3) = s_conn (cs_srv s)) as Hs3.
  { revert Hu. rw /on_cat /zoom. destruct (catalog_update _ _ _ _ _ _ _ _ _ _) as [r k].
    by intros [= _ <-]. }
  apply bind_ok_inv in H as (cat & s4 & [= <- <-] & H).
  revert H. rw /reply_page /on_srv {1}/zoom send_open; [by rw Hs3|].
  intros [= <-]. simpl. eexists. split; [by rw Hs3|]. simpl. rw Hl. split; [done|].
  rw bool_decide_eq_true -length_zero_iff_nil length_drop /values length_fmap /dlen. lia.
Qed.
End pages.

(** ** On the storage of [Demo] *)
Import Demo CacheDemo.
Module CatalogDemo.
Definition q : Qgis string := QgisDemo.qgis (QgisDemo.mk 0 0 4 2).
Definition url (s : string) : res string := Ok s.
Definition fast (h : ProtocolHandler string) (m : ProjectMetadata) : res string := h_project h m.
Definition update_with (tbl : table) (cat : Catalog) : res unit * Catalog :=
  catalog_update q url (demo_env tbl) fast conf (3, 0)%Z new_cache_manager false None cat.
(** The catalog of a table. *)
Definition catalog_of (tbl : table) : Catalog := (update_with tbl PyDict.empty).2.
(** The surroundings where one storage serves every scheme. *)
Definition any_env (tbl : table) : Env string := {|
  get_protocol_handler _ := Ok (demo_handler tbl); fileName p := p; has_server := false;
  t_start := Qc_of_Z 0; t_loaded := Qc_of_Z 0; t_end := Qc_of_Z 0; rss := None;
|}.
Definition item : CatalogItem :=
  MkItem "/a" (demo_md "/a.qgs" 1)
    (foldl (fun d kv => PyDict.insert kv.1 kv.2 d) PyDict.empty (collect_layers QgisDemo.pv "/a.qgs"))
    (match from_project q url "/a" "/a.qgs" with Ok c => c | Raise _ => inhabitant end) (path_of "/").
End CatalogDemo.
Import CatalogDemo.

Lemma catalog_of_inv tbl : cat_inv (catalog_of tbl).
Proof. rw /catalog_of /update_with. apply cat_inv_update. split; [apply wf_empty|done]. Qed.

Lemma catalog_update_mirrors_witness :
  let tbl := [("/a.qgs", 2); ("/b.qgz", 1)]%Z in
  let cat := catalog_of [("/a.qgs", 1)]%Z in
  let cat' := (update_with tbl cat).2 in
  ∃ l, collect_projects_ex (demo_env tbl) (projects_routes conf) None = Ok l ∧ cat_inv cat' ∧
    (∀ k i, lookup k cat' = Some i → ∃ x, x ∈ l ∧ item_of q url fast (3, 0)%Z cat x i) ∧
    (∀ m path h loc i, false = false → (m, path, h, loc) ∈ l →
       new_catalog_item q url fast (3, 0)%Z m (strip_public path) h loc = Ok i →
       is_Some (lookup (strip_public path) cat')).
Proof.
  intros tbl cat cat'.
  apply (catalog_update_mirrors q url (demo_env tbl) fast conf (3, 0)%Z new_cache_manager
    false None cat cat').
  - apply catalog_of_inv.
  - vm_compute. reflexivity.
Defined.

Lemma get_and_update_removed_witness :
  let cat := catalog_of [("/a.qgs", 1)]%Z in
  get_and_update q url (any_env []) fast conf (3, 0)%Z new_cache_manager "/a" false cat =
  (Raise (AssertionError "Expected unreachable code"), cat).
Proof.
  intros cat.
  apply (get_and_update_removed q url (any_env []) fast conf (3, 0)%Z new_cache_manager "/a"
    false cat item (SplitResult "" "" "/a.qgs" "" "") (demo_handler []) "/a.qgs").
  - vm_compute. reflexivity.
  - vm_compute. reflexivity.
  - reflexivity.
  - reflexivity.
Defined.

Lemma catalog_page_witness :
  let env := demo_env [("/a", 1); ("/b", 1); ("/c", 1)]%Z in
  let msg := {| c_location := None; c_resource := None; c_start := 0; c_end := 2 |} in
  let s := MkCSrv (srv new_cache_manager) PyDict.empty in
  let s' := (handle_collection q url c_id c_title "schema" env fast conf (3, 0)%Z
               (Qc_of_Z 20) (Qc_of_Z 21) msg s).2 in
  let items := values (cs_cat s') in
  ∃ page, out (s_conn (cs_srv s')) = out (s_conn (cs_srv s)) ++ [FReply 200 (PCollections page)] ∧
    cp_items page = project_item c_title <$> take (c_end msg - c_start msg) (drop (c_start msg) items) ∧
    (cp_next page = true ↔ drop (c_end msg) items ≠ []).
Proof.
  intros env msg s s'.
  apply (catalog_page q url c_id c_title "schema" env fast conf (3, 0)%Z
    (Qc_of_Z 20) (Qc_of_Z 21) msg s s').
  - reflexivity.
  - reflexivity.
  - reflexivity.
  - vm_compute. reflexivity.
Defined.
