(* ===== verification/Worker.v ===== *)
(** * The message loop of a worker

    [qjazz_rpc/worker.py]: the process that receives messages one at a time,
    dispatches them to the operations and answers, and what it does of the
    exceptions they raise; [qjazz_rpc/op_plugins.py]. *)
From S2P Require Import Prelude PyDict PyStd Routes CacheManager Messages Response OpCache OpRequests Layers Extent Collections Catalog.

Section worker.
Context {Project : Type}.

(** What surrounds a worker: QGIS, the configuration service, the plugins.
    None of these changes while the process runs. *)
Record World : Type := {
  w_ops : ProjectOps Project;
  w_qgis : Qgis Project;
  w_HttpUrl : string → res string;
  w_coll_json : Collection → string;
  w_base_json : Collection → string;
  w_schema : string;
  w_fast_project : ProtocolHandler Project → ProjectMetadata → res Project;
  w_min_version : Z * Z;
  w_handle_request : Request → option Project → option string → M RS unit;
  w_float_repr : Qc → string;
  w_project_file : string;
  w_name : string;
  w_is_proxy : bool;
  w_update_config : QgisConfig → option string → res QgisConfig;
  w_config_json : QgisConfig → string;
  w_env_json : string;
  w_plugins : list Payload;
}.

(** What the handling of one message reads: the storage and the clocks, how
    many items a stream yields before the parent cancels it, and whether the
    sleep was cancelled. *)
Record Readings : Type := {
  r_env : Env Project;
  r_evict : Qc; r_hit : Qc; r_elapsed : Z;
  r_cancel : option nat;
  r_canceled_sleep : bool;
}.

Record W : Type := MkW {
  w_c : CSrv Project;
  w_conf : QgisConfig;
  w_rdv : RendezVous;
}.

Definition w_srv (w : W) : Srv Project := cs_srv (w_c w).
Definition w_conn (w : W) : Conn := s_conn (w_srv w).

Context (world : World).

Definition on_c {A} (m : M (CSrv Project) A) : M W A :=
  zoom w_c (fun c w => MkW c (w_conf w) (w_rdv w)) m.
Definition on_s {A} (m : M (Srv Project) A) : M W A := on_c (on_srv m).
Definition reply (p : Payload) (status : Z) : M W unit := on_s (on_conn (send_reply p status)).

(** [load_default_project] *)
Definition load_default_project (env : Env Project) : M W unit :=
  conf ← gets w_conf;
  if str_truth (w_project_file world) then
    url ← on_s (cm_resolve_path conf (w_project_file world) true);
    found ← on_s (on_cm (checkout env url));
    match found with
    | (Some (FoundMetadata m), NEW) => on_s (on_cm (update env m NEW None));; mret tt
    | _ => mret tt
    end
  else mret tt.

(** [do_sleep] *)
Definition do_sleep (rd : Readings) : M W unit :=
  if r_canceled_sleep rd then mret tt else on_s (on_conn send_nodata).

(** [for _ in cm.update_cache(): pass] *)
Definition consume_update_cache (rd : Readings) : M (Srv Project) unit :=
  fun s => let '(_, err, cm) := update_cache (r_env rd) (s_cm s) in
           (match err with Some e => Raise e | None => Ok tt end, MkSrv cm (s_conn s)).

(** The [match] of [qgis_server_run] on a message, [QuitMsg] aside *)
Definition dispatch (rd : Readings) (msg : Message) : M W unit :=
  conf ← gets w_conf;
  let name := w_name world in
  match msg with
  | MOws m => on_s (handle_ows_request (r_env rd) (r_evict rd) (r_hit rd) conf
                (w_handle_request world) (w_qgis world) (w_float_repr world)
                (r_elapsed rd) (w_project_file world) name m)
  | MApi m => on_s (handle_api_request (r_env rd) (r_evict rd) (r_hit rd) conf
                (w_handle_request world)
                (r_elapsed rd) (w_project_file world) name m)
  | MCollections m => on_c (handle_collection (w_qgis world) (w_HttpUrl world)
                (w_coll_json world) (w_base_json world) (w_schema world) (r_env rd)
                (w_fast_project world) conf (w_min_version world) (r_evict rd) (r_hit rd) m)
  | MPing echo => reply (match echo with Some e => PText e | None => PNone end) 200
  | MQuit => reply PNone 200
  | MCheckoutProject uri pull =>
      on_s (checkout_project (w_ops world) (r_env rd) (r_evict rd) conf uri pull name)
  | MDropProject uri => on_s (drop_project (w_ops world) (r_env rd) conf uri name)
  | MClearCache => on_s (on_cm (CacheManager.clear (r_env rd)));; reply PNone 200
  | MListCache => on_s (send_cache_list (w_ops world) (r_env rd) name (r_cancel rd))
  | MUpdateCache => on_s (consume_update_cache rd);; reply PNone 200
  | MGetProjectInfo uri => on_s (send_project_info (w_ops world) (r_env rd) conf uri name)
  | MCatalog location => on_s (send_catalog (r_env rd) conf location (r_cancel rd))
  | MPlugins => on_s (on_conn (stream_data (w_plugins world, None)))
  | MPutConfig config =>
      if w_is_proxy world then
        new ← pure (w_update_config world conf config);
        modify (fun w => MkW (w_c w) new (w_rdv w));;
        reply PNone 200
      else reply (PText "") 403
  | MGetConfig => reply (PJson (w_config_json world conf)) 200
  | MGetEnv => reply (PJson (w_env_json world)) 200
  | MSleep _ => do_sleep rd
  end.

(** One turn of the loop: what [conn.recv()] does. *)
Inductive Event : Type :=
| Received (rd : Readings) (msg : Message)
| RecvError (e : exn)
| Interrupted
| ParentClosed.

Inductive Outcome : Type := Continue | Exit | Crashed (e : exn).

Definition set_rdv (f : RendezVous → RendezVous) (w : W) : W := MkW (w_c w) (w_conf w) (f (w_rdv w)).
(** [recv] resets the cancelled flag of the connection. *)
Definition reset_conn (w : W) : W :=
  MkW (MkCSrv (MkSrv (s_cm (w_srv w)) (MkConn false (out (w_conn w)))) (cs_cat (w_c w)))
      (w_conf w) (w_rdv w).

(** The handler of exceptions of a turn. *)
Definition on_exception (w : W) : W :=
  (reply (PText "Internal error") 500 (set_rdv busy w)).2.

(** The body of the [while] loop *)
Definition turn (ev : Event) (w : W) : Outcome * W :=
  let w := reset_conn (set_rdv done_ w) in
  match ev with
  | Received rd msg =>
      let w := set_rdv busy w in
      match dispatch rd msg w with
      | (Ok _, w) => (match msg with MQuit => Exit | _ => Continue end, w)
      | (Raise _, w) => (Continue, on_exception w)
      end
  | RecvError e => (Crashed e, on_exception w)
  | Interrupted => (if ignore_interrupt_signal (w_conf w) then Continue else Exit, w)
  | ParentClosed => (Crashed (OtherException "SystemExit"), w)
  end.

(** The loop on the events of the process, to the first that ends it. *)
Fixpoint serve_loop (evs : list Event) (w : W) : Outcome * W :=
  match evs with
  | [] => (Continue, w)
  | ev :: evs =>
      match turn ev w with
      | (Continue, w) => serve_loop evs w
      | r => r
      end
  end.

(** [qgis_server_run], on a new connection *)
Definition qgis_server_run (env : Env Project) (conf : QgisConfig) (evs : list Event) : Outcome * W :=
  let w := MkW (MkCSrv (MkSrv new_cache_manager (MkConn false [])) PyDict.empty) conf rendez_vous_init in
  match load_default_project env w with
  | (Ok _, w) => serve_loop evs w
  | (Raise e, w) => (Crashed e, w)
  end.
End worker.

Arguments World : clear implicits.
Arguments Readings : clear implicits.
Arguments W : clear implicits.
Arguments Event : clear implicits.

(** ** The cache of a worker stays bounded *)
Section bounded.
Context {Project : Type} (world : World Project) (B : Z).
Implicit Types (w : W Project) (rd : Readings Project) (ev : Event Project).

Definition w_bounded w : Prop := cs_bounded B (w_c w) ∧ (max_projects (w_conf w) ≤ B)%Z.

Hypothesis config_bounded :
  ∀ c s c', w_update_config world c s = Ok c' → (max_projects c' ≤ B)%Z.

Lemma bounded_on_c {A} (m : M (CSrv Project) A) :
  preserves (cs_bounded B) m → preserves w_bounded (on_c m).
Proof.
  intros Hm w [Hw Hc]. specialize (Hm _ Hw). rw /on_c /zoom. by destruct (m (w_c w)).
Qed.

Lemma bounded_on_s {A} (m : M (Srv Project) A) :
  preserves (srv_bounded B) m → preserves w_bounded (on_s m).
Proof. intros Hm. apply bounded_on_c. by apply preserves_on_srv. Qed.

Lemma bounded_on_conn {A} (m : M Conn A) :
  preserves w_bounded (on_s (on_conn (Project := Project) m)).
Proof. apply bounded_on_s, preserves_on_conn. Qed.

Lemma bounded_reply p code : preserves w_bounded (reply p code).
Proof. apply bounded_on_conn. Qed.

Lemma bounded_consume rd : preserves (srv_bounded B) (consume_update_cache rd).
Proof.
  intros s Hs. rw /consume_update_cache.
  pose proof (bounded_update_cache B (r_env rd) (s_cm s) Hs) as H.
  by destruct (update_cache (r_env rd) (s_cm s)) as [[items err] cm].
Qed.

Lemma bounded_clear env :
  (0 ≤ B)%Z → preserves (cm_bounded (Project := Project) B) (CacheManager.clear env).
Proof. intros HB cm _. split; [apply cm_inv_new|done]. Qed.

(** A computation run with the configuration of the worker. *)
Lemma bounded_with_conf {A} (f : QgisConfig → M (W Project) A) :
  (∀ conf, (max_projects conf ≤ B)%Z → preserves w_bounded (f conf)) →
  preserves w_bounded (conf ← gets w_conf; f conf).
Proof.
  intros Hf w Hw. erewrite bind_ok by reflexivity. apply Hf; [apply Hw|done].
Qed.

Lemma bounded_dispatch rd msg : (0 ≤ B)%Z → preserves w_bounded (dispatch world rd msg).
Proof.
  intros HB. apply bounded_with_conf. intros conf Hconf.
  destruct msg; try simple apply bounded_reply.
  - by apply bounded_on_s, bounded_ows.
  - by apply bounded_on_s, bounded_api.
  - by apply bounded_on_c, bounded_collection.
  - by apply bounded_on_s, bounded_checkout_project.
  - by apply bounded_on_s, bounded_drop_project.
  - apply preserves_bind; [|intros; apply bounded_reply].
    by apply bounded_on_s, preserves_on_cm, bounded_clear.
  - apply bounded_on_s. rw /send_cache_list. apply preserves_bind; [auto with py|intros cm].
    destruct (checkout_iter (r_env rd) cm) as [[items err] cm']. apply preserves_on_conn.
  - apply preserves_bind; [|intros; apply bounded_reply]. apply bounded_on_s, bounded_consume.
  - apply bounded_on_conn.
  - apply bounded_on_s, bounded_send_project_info.
  - case_match; [|apply bounded_reply]. intros w Hw.
    destruct (w_update_config world conf config) as [new|x] eqn:E.
    + erewrite bind_ok by reflexivity. erewrite bind_ok by reflexivity.
      apply bounded_reply. split; [apply Hw|]. by eapply config_bounded.
    + by erewrite bind_raise by reflexivity.
  - apply bounded_on_conn.
  - rw /= /do_sleep. case_match; [apply preserves_ret|apply bounded_on_conn].
Qed.

Lemma bounded_exception w : w_bounded w → w_bounded (on_exception w).
Proof. intros Hw. apply bounded_reply. by destruct Hw. Qed.

Lemma bounded_turn ev w : (0 ≤ B)%Z → w_bounded w → w_bounded (turn world ev w).2.
Proof.
  intros HB Hw. rw /turn. set (w0 := reset_conn (set_rdv done_ w)).
  assert (w_bounded w0) as H0 by (by destruct Hw).
  destruct ev as [rd msg|e| |]; simpl; [|by apply bounded_exception|done|done].
  pose proof (bounded_dispatch rd msg HB (set_rdv busy w0)) as Hd.
  destruct (dispatch world rd msg (set_rdv busy w0)) as [[[]|x] w1]; simpl in *.
  - apply Hd. by destruct H0.
  - apply bounded_exception, Hd. by destruct H0.
Qed.

Lemma bounded_loop evs w : (0 ≤ B)%Z → w_bounded w → w_bounded (serve_loop world evs w).2.
Proof.
  intros HB. revert w. induction evs as [|ev evs IH]; intros w Hw; [done|]. simpl.
  pose proof (bounded_turn ev w HB Hw) as Ht.
  destruct (turn world ev w) as [[] w1]; [by apply IH|done|done].
Qed.

Lemma cm_len_new : cm_len (new_cache_manager (Project := Project)) = 0.
Proof. done. Qed.

Lemma bounded_default env w :
  (1 ≤ B)%Z → s_cm (cs_srv (w_c w)) = new_cache_manager → (max_projects (w_conf w) ≤ B)%Z →
  w_bounded (load_default_project world env w).2.
Proof.
  intros HB Hn Hc. assert (w_bounded w) as Hw.
  { split; [|done]. rw /cs_bounded /srv_bounded /= Hn. split; [apply cm_inv_new|rw cm_len_new; lia]. }
  rw /load_default_project. erewrite bind_ok by reflexivity. case_match; [|done].
  destruct (resolve_path (projects_routes (w_conf w)) (allow_direct_path_resolution (w_conf w))
    (w_project_file world) true) as [url|x] eqn:Hr; last first.
  { erewrite bind_raise; [done|]. rw /on_s /on_c /on_srv /cm_resolve_path /pure /zoom Hr.
    by destruct w as [[]]. }
  erewrite bind_ok; last first.
  { rw /on_s /on_c /on_srv /cm_resolve_path /pure /zoom Hr. by destruct w as [[]]. }
  simpl. destruct w as [[[cm c] cat] conf rdv]. simpl in *. subst cm.
  destruct (checkout env url new_cache_manager) as [[found|x] cm'] eqn:Hco;
    pose proof (checkout_pure _ _ _ _ _ Hco) as ->.
  - erewrite bind_ok; last first.
    { rw /on_s /on_c /on_srv /on_cm /zoom /=. by rw Hco. }
    destruct found as [[[m|e]|] []]; try done. simpl.
    pose proof (bounded_update_new B env m None new_cache_manager cm_inv_new ltac:(rw cm_len_new; lia)) as Hu.
    rw /mbind /M_bind /on_s /on_c /on_srv /on_cm /zoom. cbn [w_c cs_srv s_cm].
    by destruct (update env m NEW None new_cache_manager) as [[]].
  - erewrite bind_raise; [done|]. rw /on_s /on_c /on_srv /on_cm /zoom /=. by rw Hco.
Qed.

End bounded.

Arguments turn : simpl never.

(** ** The protocol with the parent process *)
Section protocol.
Context {Project : Type} (world : World Project).
Implicit Types (w : W Project) (rd : Readings Project) (ev : Event Project).


Definition same_rdv (r : RendezVous) w : Prop := w_rdv w = r.

Lemma rdv_on_c {A} r (m : M (CSrv Project) A) : preserves (same_rdv r) (on_c m).
Proof. intros w Hw. rw /on_c /zoom. by destruct (m (w_c w)). Qed.

Lemma rdv_dispatch r rd msg : preserves (same_rdv r) (dispatch world rd msg).
Proof.
  apply preserves_bind; [apply preserves_gets|intros conf].
  destruct msg; try apply rdv_on_c; try (apply preserves_bind; [apply rdv_on_c|intros; apply rdv_on_c]).
  - case_match; [|apply rdv_on_c]. apply preserves_bind; [auto with py|intros new].
    apply preserves_bind; [by intros w|intros; apply rdv_on_c].
  - rw /= /do_sleep. case_match; [auto with py|apply rdv_on_c].
Qed.

Lemma rdv_exception w : w_rdv (on_exception w) = busy (w_rdv w).
Proof. exact (rdv_on_c (busy (w_rdv w)) _ (set_rdv busy w) eq_refl). Qed.

Lemma turn_rdv rd msg w :
  w_rdv (turn world (Received rd msg) w).2 = busy (busy (done_ (w_rdv w))).
Proof.
  assert (∀ r, busy (busy r) = busy r) as Hb by (by intros [[] ?]).
  rw Hb /turn. set (w0 := set_rdv busy (reset_conn (set_rdv done_ w))).
  pose proof (rdv_dispatch (w_rdv w0) rd msg w0 eq_refl) as Hd. rw /same_rdv in Hd.
  destruct (dispatch world rd msg w0) as [[[]|x] w1]; cbn [snd] in *; [done|].
  by rw rdv_exception Hd /= Hb.
Qed.

(** C38. The parent can follow the worker from its signals alone: over any
    sequence of messages the worker has handled, it signalled, for each of
    them and in this order, that it was waiting and that it was busy. *)
Theorem rendez_vous_per_message (msgs : list (Readings Project * Message)) w w' :
  _busy (w_rdv w) = true →
  serve_loop world ((fun rm => Received rm.1 rm.2) <$> msgs) w = (Continue, w') →
  rdv_out (w_rdv w') = rdv_out (w_rdv w) ++ (msgs ≫= fun _ => [0; 1]%Z).
Proof.
  revert w. induction msgs as [|[rd msg] msgs IH]; intros w Hb; csimpl.
  { intros [= ->]. by rw app_nil_r. }
  pose proof (turn_rdv rd msg w) as Ht. destruct (turn world (Received rd msg) w) as [o w1].
  simpl in Ht. destruct (w_rdv w) as [b l] eqn:E. simpl in Hb. subst b.
  assert (w_rdv w1 = MkRdv true (l ++ [0; 1]%Z)) as Ht1.
  { by rw Ht /busy /done_ /= -app_assoc. }
  destruct o; [|done|done]. intros H. rw (IH w1); [by rw Ht1|done|]. by rw Ht1 /= -app_assoc.
Qed.
End protocol.

(** ** A worker on the storage of [Demo] *)
Import Demo CacheDemo CatalogDemo.
Module WorkerDemo.
Definition world : World string := {|
  w_ops := ops; w_qgis := q; w_HttpUrl := url; w_coll_json := c_id; w_base_json := c_id; w_schema := "";
  w_float_repr _ := "0"; w_fast_project := fast; w_min_version := (3, 0)%Z;
  w_handle_request := demo_server;
  w_project_file := "/a"; w_name := "w"; w_is_proxy := true;
  w_update_config _ _ := Ok conf; w_config_json _ := ""; w_env_json := ""; w_plugins := [];
|}.
Definition readings (tbl : table) (t : Z) : Readings string := {|
  r_env := demo_env tbl; r_evict := Qc_of_Z t; r_hit := Qc_of_Z t; r_elapsed := 1;
  r_cancel := None; r_canceled_sleep := false;
|}.
Definition w0 : W string :=
  MkW (MkCSrv (srv new_cache_manager) PyDict.empty) conf rendez_vous_init.
End WorkerDemo.

Import WorkerDemo.



Lemma rendez_vous_per_message_witness :
  let msgs := [(readings [("/a", 1)]%Z 20, MCheckoutProject "/a" true);
               (readings [] 20, MUpdateCache); (readings [] 20, MPing None)] in
  let w' := (serve_loop world ((fun rm => Received rm.1 rm.2) <$> msgs) w0).2 in
  rdv_out (w_rdv w') = rdv_out (w_rdv w0) ++ (msgs ≫= fun _ => [0; 1]%Z).
Proof.
  intros msgs w'. apply (rendez_vous_per_message world msgs w0 w'); [reflexivity|].
  vm_compute. reflexivity.
Defined.
