(* ===== verification/Registry.v ===== *)
(** * The registry of jobs

    [qjazz_processes/worker/registry.py]: the records that servers and workers
    share, in Redis, about the jobs that were sent.  The Redis server is a class
    of operations with the part of its documented behaviour the registry relies
    on. *)
From S2P Require Import Prelude PyStd Json.

(** ** Redis *)

(** Characters that are themselves in a pattern. *)
Definition glob_special (a : ascii) : bool :=
  bool_decide (a ∈ ["*"; "?"; "["; "\"]%char).
Definition plain_text (s : string) : bool := str_forall (negb ∘ glob_special) s.

(** The commands the registry uses; [keys] lists the keys that match a pattern,
    in any order, [hset] writes fields of a hash, [hgetall] reads a hash (empty
    when there is no such key), [del] deletes keys, [expireat] sets the time at
    which a key is deleted.  [r_now] is the clock of the server; [r_lock] says
    whether the lock of a name can be taken in the time given. *)
Class Redis (R : Type) : Type := {
  r_now : R → Z;
  r_lock : string → R → bool;
  glob : string → string → bool;
  r_has : string → R → bool;
  r_keys : string → R → list string;
  r_hgetall : string → R → list (string * string);
  r_hset : string → list (string * string) → R → R;
  r_del : list string → R → R;
  r_expireat : string → Z → R → R;
}.

(** Reading a field of a hash that was written field by field. *)
Fixpoint hget (f : string) (h : list (string * string)) : option string :=
  match h with
  | [] => None
  | (g, v) :: h => if decide (f = g) then Some v else hget f h
  end.

(** What Redis documents of them: a pattern of plain text and stars, the keys
    answered, and the effect of the writes.  A hash is written with fields of
    different names, one at least; an expiration in the future has no effect
    yet, one in the past deletes the key. *)
Class RedisLaws (R : Type) `{!Redis R} : Prop := {
  glob_nil k : glob "" k = true ↔ k = "";
  glob_text p q k : plain_text p = true →
    glob (p +:+ q) k = true ↔ ∃ rest, k = p +:+ rest ∧ glob q rest = true;
  glob_star q k : glob (String "*" q) k = true ↔ ∃ a b, k = a +:+ b ∧ glob q b = true;
  keys_spec p s k : k ∈ r_keys p s ↔ r_has k s = true ∧ glob p k = true;
  now_hset k m s : r_now (r_hset k m s) = r_now s;
  has_hset k k' m s : m ≠ [] → r_has k' (r_hset k m s) = bool_decide (k' = k) || r_has k' s;
  has_del ks k s : r_has k (r_del ks s) = r_has k s && bool_decide (k ∉ ks);
  has_expireat k t k' s : r_has k' (r_expireat k t s) =
    r_has k' s && bool_decide (k' = k → (r_now s < t)%Z);
  hget_hset k m s f : NoDup m.*1 → hget f (r_hgetall k (r_hset k m s)) =
    match hget f m with Some v => Some v | None => hget f (r_hgetall k s) end;
  hget_hset_ne k k' m s : k ≠ k' → r_hgetall k' (r_hset k m s) = r_hgetall k' s;
  hgetall_expireat k t k' s : (r_now s < t)%Z → r_hgetall k' (r_expireat k t s) = r_hgetall k' s;
  hgetall_expireat_ne k t k' s : k' ≠ k → r_hgetall k' (r_expireat k t s) = r_hgetall k' s;
  hgetall_del ks k s : k ∉ ks → r_hgetall k (r_del ks s) = r_hgetall k s;
}.

(** ** registry.py *)

(** [TaskInfo] *)
Record TaskInfo : Type := MkTaskInfo {
  job_id : string; created : Z; service : string; realm : string; process_id : string;
  dismissed : Z; pending_timeout : Z; expires : Z; tag : string;
}.

(** The part of a [JobStatus] that is registered. *)
Record JobEntry : Type := MkJobEntry {
  js_job_id : string; js_created : Z; js_process_id : string; js_tag : option string;
}.

(** [f"{realm}"] of an optional realm *)
Definition fmt_opt (r : option string) : string := default "None" r.

Definition job_key (id service : string) (realm : option string) : string :=
  "qjazz::" +:+ id +:+ "::" +:+ service +:+ "::" +:+ fmt_opt realm.

(** [x or '*'] *)
Definition or_star (x : option string) : string := str_or (default "" x) "*".

Section registry.
Context {R : Type} `{!Redis R}.

(** The fields of a record. *)
Definition job_fields (service : string) (realm : option string) (st : JobEntry)
    (expires pending_timeout : Z) : list (string * string) :=
  [("job_id", js_job_id st); ("created", str_of_int (js_created st)); ("service", service);
   ("realm", default "" realm); ("process_id", js_process_id st); ("dismissed", "0");
   ("pending_timeout", str_of_int pending_timeout); ("expires", str_of_int expires);
   ("tag", default "" (js_tag st))].

(** [register] *)
Definition register (service : string) (realm : option string) (st : JobEntry)
    (expires pending_timeout : Z) (s : R) : R :=
  let key := job_key (js_job_id st) service realm in
  r_expireat key (js_created st + expires + pending_timeout)
    (r_hset key (job_fields service realm st expires pending_timeout) s).

(** [_decode] *)
Definition field (f : string) (h : list (string * string)) : res string :=
  match hget f h with Some v => Ok v | None => Raise (KeyError f) end.
Definition int_field (f : string) (h : list (string * string)) : res Z :=
  v ← field f h; int_of_str v.
Definition _decode (h : list (string * string)) : res TaskInfo :=
  id ← field "job_id" h; cr ← int_field "created" h; sv ← field "service" h;
  rl ← field "realm" h; pid ← field "process_id" h; di ← int_field "dismissed" h;
  pt ← int_field "pending_timeout" h; ex ← int_field "expires" h; tg ← field "tag" h;
  Ok (MkTaskInfo id cr sv rl pid di pt ex tg).

Definition job_pattern (id : string) (realm : option string) : string :=
  "qjazz::" +:+ id +:+ "::*::" +:+ or_star realm.

(** [find_job] *)
Definition find_job (id : string) (realm : option string) (s : R) : res (option TaskInfo) :=
  match r_keys (job_pattern id realm) s with
  | [] => Ok None
  | k :: _ => t ← _decode (r_hgetall k s); Ok (Some t)
  end.

(** [key.split("::")[1:4]] *)
Fixpoint split_sep (s : string) : list string :=
  match s with
  | String ":" (String ":" s) => "" :: split_sep s
  | String a s =>
      match split_sep s with
      | w :: ws => String a w :: ws
      | [] => [String a ""]
      end
  | "" => [""]
  end.
Definition key_parts (k : string) : list string := take 3 (drop 1 (split_sep k)).

(** [find_key], [find_keys], [iter_jobs] *)
Definition find_key (id : string) (realm : option string) (s : R) : option (list string) :=
  key_parts <$> head (r_keys (job_pattern id realm) s).
Definition service_pattern (service realm : option string) : string :=
  "qjazz::*::" +:+ or_star service +:+ "::" +:+ or_star realm.
Definition find_keys (service realm : option string) (s : R) : list (list string) :=
  key_parts <$> r_keys (service_pattern service realm) s.
Fixpoint decode_all (ks : list string) (s : R) : res (list TaskInfo) :=
  match ks with
  | [] => Ok []
  | k :: ks => t ← _decode (r_hgetall k s); ts ← decode_all ks s; Ok (t :: ts)
  end.
Definition iter_jobs (service realm : option string) (s : R) : res (list TaskInfo) :=
  decode_all (r_keys (service_pattern service realm) s) s.

Definition id_pattern (id : string) : string := "qjazz::" +:+ id +:+ "::*".

(** [dismiss] *)
Definition dismiss (id : string) (reset : bool) (s : R) : bool * R :=
  match r_keys (id_pattern id) s with
  | k :: _ => (true, r_hset k [("dismissed", if reset then "0" else "1")] s)
  | [] => (false, s)
  end.

(** [delete] *)
Definition delete (id : string) (s : R) : Z * R :=
  match r_keys (id_pattern id) s with
  | [] => (0%Z, s)
  | ks => (1%Z, r_del ks s)
  end.

(** [lock]: taken by a [with] statement, which raises when it has to wait longer
    than the timeout, and released at its end *)
Definition lock (name : string) (s : R) : res unit :=
  if r_lock ("lock:" +:+ name) s then Ok tt
  else Raise (LockError "Unable to acquire lock within the time specified").

(** [exists] *)
Definition exists_ (id : string) (service : option string) (s : R) : bool :=
  negb (bool_decide (r_keys ("qjazz::" +:+ id +:+ "::" +:+ or_star service) s = [])).
End registry.

(** ** Properties *)

Section laws.
Context {R : Type} `{!Redis R, !RedisLaws R}.
Implicit Types (s : R) (st : JobEntry).

(** The keys of a job. *)
Definition key_of (id k : string) : Prop := ∃ rest, k = "qjazz::" +:+ id +:+ "::" +:+ rest.

Lemma glob_prefix id q k :
  plain_text id = true →
  glob ("qjazz::" +:+ id +:+ "::" +:+ q) k = true ↔
  ∃ rest, k = "qjazz::" +:+ id +:+ "::" +:+ rest ∧ glob q rest = true.
Proof.
  intros Hid. rw glob_text //. split.
  - intros (r1 & -> & H). rw glob_text // in H. destruct H as (r2 & -> & H).
    rw glob_text // in H. destruct H as (r3 & -> & H). eauto.
  - intros (r & -> & H). eexists. split; [done|]. rw glob_text //. eexists. split; [done|].
    rw glob_text //. eauto.
Qed.

Lemma glob_star_all k : glob "*" k = true.
Proof.
  apply glob_star. exists k, "". rw str_app_nil_r. split; [done|]. by apply glob_nil.
Qed.

Lemma glob_literal p k : plain_text p = true → glob p k = true ↔ k = p.
Proof.
  intros Hp. rw -{1}(str_app_nil_r p) glob_text //. split.
  - intros (r & -> & ->%glob_nil). by rw str_app_nil_r.
  - intros ->. exists "". rw str_app_nil_r. split; [done|]. by apply glob_nil.
Qed.

Lemma id_pattern_spec id k : plain_text id = true → glob (id_pattern id) k = true ↔ key_of id k.
Proof.
  intros Hid. rw /id_pattern. change "::*" with ("::" +:+ "*"). rw glob_prefix //. split.
  - intros (r & -> & _). by exists r.
  - intros (r & ->). exists r. split; [done|]. apply glob_star_all.
Qed.

Lemma job_pattern_spec id rl k :
  plain_text id = true →
  glob (job_pattern id rl) k = true ↔
  ∃ a b, k = "qjazz::" +:+ id +:+ "::" +:+ a +:+ "::" +:+ b ∧ glob (or_star rl) b = true.
Proof.
  intros Hid. rw /job_pattern.
  change ("::*::" +:+ or_star rl) with ("::" +:+ String "*" ("::" +:+ or_star rl)).
  rw glob_prefix //. split.
  - intros (r & -> & (a & b & -> & H)%glob_star). rw glob_text // in H.
    destruct H as (c & -> & H). eauto.
  - intros (a & b & -> & H). eexists. split; [done|]. apply glob_star.
    exists a, ("::" +:+ b). split; [done|]. rw glob_text //. eauto.
Qed.

(** The job does not expire before it is registered. *)
Definition not_expired st (ex pt : Z) s : Prop := (r_now s < js_created st + ex + pt)%Z.

Lemma decode_fields sv rl st ex pt s :
  let key := job_key (js_job_id st) sv rl in
  not_expired st ex pt s →
  _decode (r_hgetall key (register sv rl st ex pt s)) =
  Ok (MkTaskInfo (js_job_id st) (js_created st) sv (default "" rl) (js_process_id st) 0 pt ex
        (default "" (js_tag st))).
Proof.
  intros key Hne. rw /register hgetall_expireat; [by rw now_hset|].
  assert (∀ f v, hget f (job_fields sv rl st ex pt) = Some v →
    field f (r_hgetall key (r_hset key (job_fields sv rl st ex pt) s)) = Ok v) as Hf.
  { intros f v Hv. rw /field hget_hset; [|by rw Hv].
    by apply (bool_decide_unpack _). }
  rw /_decode /int_field. py_unfold.
  do 9 (erewrite Hf by reflexivity; rw ?int_of_str_of_int /=). done.
Qed.

Lemma keys_of_register sv rl st ex pt s p k :
  k ∈ r_keys p (register sv rl st ex pt s) ↔
  ((k = job_key (js_job_id st) sv rl ∨ r_has k s = true) ∧ glob p k = true) ∧
  (k = job_key (js_job_id st) sv rl → not_expired st ex pt s).
Proof.
  rw keys_spec /register has_expireat has_hset // now_hset andb_true_iff orb_true_iff.
  rw !bool_decide_eq_true /not_expired. tauto.
Qed.

Lemma job_key_of sv rl st : key_of (js_job_id st) (job_key (js_job_id st) sv rl).
Proof. rw /key_of /job_key. eauto. Qed.

(** Every key [job_pattern] can match is a key of the job. *)
Lemma job_pattern_key id rl k :
  plain_text id = true → glob (job_pattern id rl) k = true → key_of id k.
Proof. intros Hid (a & b & -> & _)%job_pattern_spec; [|done]. rw /key_of. eauto. Qed.

(** A registered job is found by its id. *)
Lemma find_registered sv rl st ex pt q s :
  plain_text (js_job_id st) = true →
  (∀ k, r_has k s = true → ~ key_of (js_job_id st) k) →
  (q = None ∨ ∃ r, q = Some r ∧ rl = Some r ∧ plain_text r = true) →
  not_expired st ex pt s →
  find_job (js_job_id st) q (register sv rl st ex pt s) =
  Ok (Some (MkTaskInfo (js_job_id st) (js_created st) sv (default "" rl) (js_process_id st) 0 pt ex
        (default "" (js_tag st)))).
Proof.
  intros Hid Hnew Hq Hexp. rw /find_job. set (key := job_key (js_job_id st) sv rl).
  assert (∀ k, k ∈ r_keys (job_pattern (js_job_id st) q) (register sv rl st ex pt s) ↔ k = key) as Hkeys.
  { intros k. rw keys_of_register. split.
    - intros [[[->|Hh] Hg] _]; [done|]. apply job_pattern_key in Hg; [|done]. by destruct (Hnew k Hh).
    - intros ->. split; [|done]. split; [by left|]. apply job_pattern_spec; [done|].
      exists sv, (fmt_opt rl). split; [done|]. destruct Hq as [->|(r & -> & -> & Hr)].
      + apply glob_star_all.
      + rw /or_star /str_or /=. destruct (str_truth r); [by apply glob_literal|apply glob_star_all]. }
  destruct (r_keys _ _) as [|k ks] eqn:E.
  - destruct (not_elem_of_nil key). by apply Hkeys.
  - assert (k = key) as -> by (apply Hkeys; set_solver). by rw /key decode_fields.
Qed.

(** A job that is registered is found again, with what was registered:
    when no other record has its id and it has not expired, looking it up by id
    alone, or by id and realm, answers its fields. *)
Theorem register_find_job sv rl st ex pt q s :
  plain_text (js_job_id st) = true →
  (∀ k, r_has k s = true → ~ key_of (js_job_id st) k) →
  (q = None ∨ ∃ r, q = Some r ∧ rl = Some r ∧ plain_text r = true) →
  not_expired st ex pt s →
  find_job (js_job_id st) q (register sv rl st ex pt s) =
  Ok (Some (MkTaskInfo (js_job_id st) (js_created st) sv (default "" rl) (js_process_id st) 0 pt ex
        (default "" (js_tag st)))).
Proof. apply find_registered. Qed.

(** A realm hides its jobs from the others: a job registered in one
    realm is not found from another, whose name does not end its key. *)
Theorem find_job_other_realm sv rl st ex pt r s :
  plain_text (js_job_id st) = true → plain_text r = true → str_truth r = true →
  (∀ k, r_has k s = true → ~ key_of (js_job_id st) k) →
  (∀ a, sv +:+ "::" +:+ fmt_opt rl ≠ a +:+ "::" +:+ r) →
  find_job (js_job_id st) (Some r) (register sv rl st ex pt s) = Ok None.
Proof.
  intros Hid Hr Ht Hnew Hne. rw /find_job.
  destruct (r_keys _ _) as [|k ks] eqn:E; [done|].
  assert (k ∈ r_keys (job_pattern (js_job_id st) (Some r)) (register sv rl st ex pt s)) as Hk.
  { rw E. set_solver. }
  apply keys_of_register in Hk as [[[->|Hh] Hg] _].
  - apply job_pattern_spec in Hg as (a & b & Hk & Hb); [|done].
    rw /or_star /str_or /= Ht in Hb. apply glob_literal in Hb as ->; [|done].
    rw /job_key in Hk. apply str_app_inj, str_app_inj, str_app_inj in Hk. by destruct (Hne a).
  - apply job_pattern_key in Hg; [|done]. by destruct (Hnew k Hh).
Qed.

Lemma has_delete id k s :
  r_has k (delete id s).2 = r_has k s && bool_decide (k ∉ r_keys (id_pattern id) s).
Proof.
  rw /delete. destruct (r_keys (id_pattern id) s) as [|x ks]; [|apply has_del].
  rw bool_decide_true; [set_solver|]. by rw andb_true_r.
Qed.

Lemma delete_plain id k s :
  plain_text id = true → r_has k (delete id s).2 = true ↔ r_has k s = true ∧ ~ key_of id k.
Proof.
  intros Hid. rw has_delete andb_true_iff bool_decide_eq_true keys_spec id_pattern_spec //. tauto.
Qed.

(** Deleting by a plain id removes the records of that job and no other;
    deleting by the id [*], which is a pattern, removes every job. *)
Theorem delete_records id k s :
  (plain_text id = true →
     r_has k (delete id s).2 = true ↔ r_has k s = true ∧ ~ key_of id k) ∧
  (∀ i, key_of i k → r_has k (delete "*" s).2 = false).
Proof.
  split; [apply delete_plain|].
  intros i (rest & ->). rw has_delete andb_false_iff. destruct (r_has _ s) eqn:Hh; [right|by left].
    rw bool_decide_eq_false. intros Hn. apply Hn, keys_spec. split; [done|]. rw /id_pattern.
    rw glob_text //. eexists. split; [done|]. apply glob_star. exists i, ("::" +:+ rest).
    split; [done|]. change "::*" with ("::" +:+ "*"). rw glob_text //. exists rest.
    split; [done|]. apply glob_star_all.
Qed.

(** A service never has a registered job: the keys end with the realm, which
    the pattern of [exists] leaves out. *)
Lemma exists_service_misses sv rl st ex pt s :
  plain_text (js_job_id st) = true → plain_text sv = true → str_truth sv = true →
  (∀ k, r_has k s = true → ~ key_of (js_job_id st) k) →
  exists_ (js_job_id st) (Some sv) (register sv rl st ex pt s) = false.
Proof.
  intros Hid Hsv Ht Hnew. rw /exists_ negb_false_iff bool_decide_eq_true.
  destruct (r_keys _ _) as [|k ks] eqn:E; [done|].
  assert (k ∈ k :: ks) as Hk by set_solver. rw -E in Hk.
  apply keys_of_register in Hk as [[Hk Hg] _].
  apply glob_prefix in Hg as (rest & -> & Hg); [|done].
  rw /or_star /str_or /= Ht in Hg. apply glob_literal in Hg as ->; [|done].
  destruct Hk as [Hk|Hk]; [|destruct (Hnew _ Hk); rw /key_of; eauto].
  rw /job_key in Hk. apply str_app_inj, str_app_inj, str_app_inj in Hk.
  exfalso. revert Hk. rw -{1}(str_app_nil_r sv). by intros ?%str_app_inj.
Qed.
End laws.

(** ** A Redis server to run the definitions on

    Keys in the order of their creation, patterns of plain text and stars. *)
Module RedisDemo.
(** The clock stays at zero. *)
Definition hash : Type := list (string * string).
Definition store : Type := list (string * hash).

Fixpoint match_ (p k : string) : bool :=
  match p with
  | "" => bool_decide (k = "")
  | String "*" p =>
      (fix star k := match_ p k || match k with "" => false | String _ k => star k end) k
  | String a p => match k with String b k => bool_decide (a = b) && match_ p k | "" => false end
  end.

Fixpoint find (k : string) (s : store) : option hash :=
  match s with [] => None | (k', h) :: s => if decide (k = k') then Some h else find k s end.
Fixpoint put (k : string) (m : hash) (s : store) : store :=
  match s with
  | [] => [(k, m)]
  | (k', h) :: s => if decide (k = k') then (k', m ++ h) :: s else (k', h) :: put k m s
  end.

#[global] Instance redis : Redis store := {|
  r_now _ := 0%Z;
  r_lock _ _ := true;
  glob := match_;
  r_has k s := bool_decide (k ∈ s.*1);
  r_keys p s := filter (fun k => match_ p k = true) s.*1;
  r_hgetall k s := default [] (find k s);
  r_hset := put;
  r_del ks s := filter (fun kh => kh.1 ∉ ks) s;
  r_expireat k t s := if decide (0 < t)%Z then s else filter (fun kh => kh.1 ≠ k) s;
|}.

Lemma match_text p q k :
  plain_text p = true →
  match_ (p +:+ q) k = true ↔ ∃ rest, k = p +:+ rest ∧ match_ q rest = true.
Proof.
  revert k. induction p as [|a p IH]; intros k Hp.
  { split; [by exists k|]. by intros (? & -> & ?). }
  simpl in Hp. apply andb_true_iff in Hp as [Ha Hp].
  change (String a p +:+ q) with (String a (p +:+ q)).
  assert (match_ (String a (p +:+ q)) k =
    match k with String b k => bool_decide (a = b) && match_ (p +:+ q) k | "" => false end) as ->.
  { assert (a ≠ "*"%char) as Hs by (by intros ->).
    simpl. destruct a as [[] [] [] [] [] [] [] []]; try done. }
  destruct k as [|b k]; [by split; [|intros (? & [=] & _)]|].
  rw andb_true_iff bool_decide_eq_true IH //. split.
  - intros [-> (rest & -> & H)]. by exists rest.
  - intros (rest & Hk & H). injection Hk as -> ->. split; [done|]. by exists rest.
Qed.

Lemma match_star q k :
  match_ (String "*" q) k = true ↔ ∃ a b, k = a +:+ b ∧ match_ q b = true.
Proof.
  change (match_ (String "*" q) k) with
    ((fix star k := match_ q k || match k with "" => false | String _ k => star k end) k).
  induction k as [|c k IH].
  - rw orb_false_r. split; [by exists "", ""|]. intros ([|c a] & b & Hk & H); [|done].
    by change ("" +:+ b) with b in Hk; subst b.
  - rw orb_true_iff IH. split.
    + intros [H|(a & b & -> & H)]; [by exists "", (String c k)|by exists (String c a), b].
    + intros ([|c0 a] & b & Hk & H); [change ("" +:+ b) with b in Hk; subst b; by left|].
      injection Hk as <- ->. right. by exists a, b.
Qed.

Lemma put_keys k m s k' : k' ∈ (put k m s).*1 ↔ k' = k ∨ k' ∈ s.*1.
Proof.
  induction s as [|[k1 h] s IH]; simpl; [set_solver|].
  case_decide; subst; csimpl; rw !elem_of_cons; [set_solver|]. rw IH. set_solver.
Qed.

Lemma find_put k m s k' :
  find k' (put k m s) = if decide (k' = k) then Some (m ++ default [] (find k s)) else find k' s.
Proof.
  induction s as [|[k1 h] s IH]; simpl; [by repeat case_decide; simplify_eq/=; rw ?app_nil_r|].
  repeat (case_decide; simplify_eq/=; try done).
Qed.

Lemma find_filter (P : string * hash → Prop) `{!∀ kh, Decision (P kh)} (s : store) k :
  (∀ h, P (k, h)) → find k (filter P s) = find k s.
Proof.
  intros Hk. induction s as [|[k1 h] s IH]; [done|].
  rw filter_cons /=. case_decide as HP; simpl; [by rw IH|].
  rw decide_False; [|done]. intros ->. by destruct HP.
Qed.

Lemma hget_app f (m h : hash) :
  hget f (m ++ h) = match hget f m with Some v => Some v | None => hget f h end.
Proof. induction m as [|[g v] m IH]; simpl; [done|]. by case_decide. Qed.

Lemma bool_decide_ext_or (P Q S : Prop) `{Decision P, Decision Q, Decision S} :
  (P ↔ Q ∨ S) → bool_decide P = bool_decide Q || bool_decide S.
Proof. intros HP. apply eq_true_iff_eq. rw orb_true_iff !bool_decide_eq_true. done. Qed.

#[global] Instance redis_laws : RedisLaws store.
Proof.
  split.
  - intros k. apply bool_decide_eq_true.
  - apply match_text.
  - apply match_star.
  - intros p s k. simpl. rw list_elem_of_filter bool_decide_eq_true. tauto.
  - done.
  - intros k k' m s _. simpl. apply bool_decide_ext_or. apply put_keys.
  - intros ks k s. simpl. apply eq_true_iff_eq.
    rw andb_true_iff !bool_decide_eq_true !list_elem_of_fmap. setoid_rewrite list_elem_of_filter.
    naive_solver.
  - intros k t k' s. simpl. apply eq_true_iff_eq. rw andb_true_iff !bool_decide_eq_true.
    case_decide; [tauto|]. rw !list_elem_of_fmap. setoid_rewrite list_elem_of_filter. naive_solver.
  - intros k m s f _. simpl. rw find_put decide_True //= hget_app //.
  - intros k k' m s Hne. simpl. rw find_put decide_False //.
  - intros k t k' s Ht. simpl. by rw decide_True.
  - intros k t k' s Hne. simpl. case_decide; [done|]. f_equal. by apply find_filter.
  - intros ks k s Hk. simpl. f_equal. by apply find_filter.
Qed.
End RedisDemo.

Import RedisDemo.

Fixpoint last_char (s : string) : option ascii :=
  match s with "" => None | String a "" => Some a | String _ s => last_char s end.

Lemma last_char_app a c b : last_char (a +:+ String c b) = last_char (String c b).
Proof.
  induction a as [|x a IH]; [done|].
  change (String x a +:+ String c b) with (String x (a +:+ String c b)). rw -IH. by destruct a.
Qed.

Definition demo_job : JobEntry := MkJobEntry "6f1c-22" 1000 "buffer" (Some "t").

Lemma key_of_other : ∀ k, r_has k ([("qjazz::other::s::r", [])] : store) = true → ~ key_of "6f1c-22" k.
Proof.
  intros k Hk (rest & ->). apply bool_decide_eq_true, list_elem_of_singleton in Hk. by injection Hk.
Qed.

Lemma register_find_job_witness :
  let s : store := register "svc" (Some "r1") demo_job 60 10 [("qjazz::other::s::r", [])] in
  find_job "6f1c-22" (Some "r1") s =
  Ok (Some (MkTaskInfo "6f1c-22" 1000 "svc" "r1" "buffer" 0 10 60 "t")).
Proof.
  intros s. apply (register_find_job "svc" (Some "r1") demo_job 60 10 (Some "r1")).
  - reflexivity.
  - apply key_of_other.
  - right. exists "r1". done.
  - reflexivity.
Defined.

Lemma find_job_other_realm_witness :
  let s : store := register "svc" (Some "r1") demo_job 60 10 [("qjazz::other::s::r", [])] in
  find_job "6f1c-22" (Some "r2") s = Ok None.
Proof.
  intros s. apply (find_job_other_realm "svc" (Some "r1") demo_job 60 10 "r2").
  - reflexivity.
  - reflexivity.
  - reflexivity.
  - apply key_of_other.
  - intros a Ha. apply (f_equal last_char) in Ha. by rw (last_char_app a) in Ha.
Defined.

Lemma delete_records_witness :
  let s : store := register "svc" (Some "r1") demo_job 60 10 [("qjazz::other::s::r", [])] in
  r_has "qjazz::other::s::r" (delete "*" s).2 = false ∧
  plain_text "6f1c-22" = true.
Proof.
  intros s. split; [|reflexivity].
  apply (proj2 (delete_records "6f1c-22" "qjazz::other::s::r" s) "other"). by exists "s::r".
Defined.
