(* ===== verification/Executor.v ===== *)
(** * Sending, following and dismissing jobs

    [qjazz_processes/executor/processes.py], the services of
    [qjazz_processes/executor/executor.py] and the commands to workers
    ([qjazz_processes/executor/commands.py]), over the registry of jobs; and the
    check a worker makes before it starts a task
    ([qjazz_processes/worker/worker.py]).  The Celery application (its backend,
    its control channel, its queues) is a record of operations. *)
From S2P Require Import Prelude PyDict PyStd Json Registry.

(** ** Services *)

(** [PresenceDetails]; its links are given by their urls and relations *)
Record Presence : Type := MkPresence {
  pr_service : string; pr_result_expires : Z; pr_entrypoint : option string; pr_online_since : Z;
  pr_title : string; pr_description : string; pr_links : list (string * string);
  pr_qgis_version_info : option Z; pr_versions : list string; pr_callbacks : list string;
}.
Definition ServiceDict : Type := pydict string (list string * Presence).

(** [ExecutorBase.get_services] of the presences by destination; the list under
    a service is shared while it grows *)
Definition add_presence (services : ServiceDict) (dp : string * Presence) : ServiceDict :=
  let '(dest, pr) := dp in
  match lookup (pr_service pr) services with
  | Some (dests, pr0) => PyDict.insert (pr_service pr) (dests ++ [dest], pr0) services
  | None => PyDict.insert (pr_service pr) ([dest], pr) services
  end.
Definition get_services (presences : list (string * Presence)) : ServiceDict :=
  foldl add_presence PyDict.empty presences.

(** [ExecutorBase.presences]: the replies validated, one for each worker, the
    last one when a worker replied twice *)
Fixpoint presences (validate : JsonValue → res Presence) (rows : list (string * JsonValue))
    (acc : pydict string Presence) : res (pydict string Presence) :=
  match rows with
  | [] => Ok acc
  | (k, v) :: rows => pr ← validate v; presences validate rows (PyDict.insert k pr acc)
  end.

(** [ExecutorBase.get_destinations], [ensure_destinations] *)
Definition get_destinations (service : string) (services : ServiceDict) : option (list string) :=
  fst <$> lookup service services.
Definition ensure_destinations (service : string) (services : ServiceDict) : res (list string) :=
  match get_destinations service services with
  | None | Some [] => Raise (ServiceNotAvailable service)
  | Some l => Ok l
  end.

(** ** Celery *)
Inductive TaskState : Type :=
| STATE_PENDING | STATE_STARTED | STATE_FAILURE | STATE_SUCCESS | STATE_REVOKED | STATE_UPDATED
| STATE_OTHER (s : string).

#[global] Instance TaskState_eq_dec : EqDecision TaskState.
Proof. solve_decision. Defined.

(** [JobMeta] *)
Record JobMeta : Type := MkMeta {
  m_created : string; m_realm : option string; m_service : string; m_process_id : string;
  m_expires : Z; m_tag : option string; m_started : option string;
}.

(** The keyword arguments of a task, as far as a status reads them. *)
Record Kwargs : Type := MkKwargs { kw_meta : option JobMeta; kw_request : option JsonValue }.

(** What the [result] of a task holds. *)
Inductive TaskResult : Type :=
| ResInputValueError (msg : string)
| ResDismissedTaskError
| ResRunProcessException
| ResProcessesException (msg : string)
| ResException
| ResProgress (progress : option Z) (message updated : option string)
| ResResults (results : list (string * JsonValue))
| ResOther (value : string).

Record TaskMeta : Type := MkTaskMeta {
  tm_status : TaskState; tm_result : TaskResult; tm_date_done : option string;
  tm_kwargs : option Kwargs;
}.

(** The arguments of a run: the process, the request and the project. *)
Record RunConfig : Type := MkRunConfig {
  rc_ident : string; rc_request : JsonValue; rc_project_path : option string;
}.

(** A message on a queue. *)
Record Send : Type := MkSend {
  sd_task : string; sd_queue : string; sd_priority : Z; sd_expires : Z; sd_countdown : option Z;
  sd_meta : JobMeta; sd_context : list (string * JsonValue); sd_run_config : RunConfig;
}.

(** A command to workers. *)
Record Command : Type := MkCommand {
  cmd_name : string; cmd_destination : option (list string); cmd_reply : bool;
  cmd_arguments : list (string * JsonValue);
}.

(** The replies of the workers to a query about a task: for each of them the
    states of the tasks it knows. *)
Definition QueryReply : Type := list (string * list (string * (string * Kwargs))).

(** The application: its state [C], and its operations.  [broadcast] gives the
    reply of each worker; [get_result] waits for the result of a task, at most
    the seconds given, and raises what the task raised. *)
Record Celery (C : Type) : Type := {
  get_task_meta : string → C → TaskMeta;
  query_task : string → option (list string) → C → QueryReply;
  revoke : string → list string → C → res unit * C;
  send_task : Send → C → string * C;
  broadcast : Command → C → list (string * JsonValue) * C;
  get_result : string → option Z → C → res (list (string * JsonValue));
}.
Arguments get_task_meta {_} _ _ _.
Arguments query_task {_} _ _ _ _.
Arguments revoke {_} _ _ _ _.
Arguments send_task {_} _ _ _.
Arguments broadcast {_} _ _ _.
Arguments get_result {_} _ _ _ _.

(** ** Job status *)
Inductive JobStatusCode : Type := PENDING | ACCEPTED | RUNNING | SUCCESS | FAILED | DISMISSED.

#[global] Instance JobStatusCode_eq_dec : EqDecision JobStatusCode.
Proof. solve_decision. Defined.

Definition code_str (c : JobStatusCode) : string :=
  match c with
  | PENDING => "pending" | ACCEPTED => "accepted" | RUNNING => "running"
  | SUCCESS => "successful" | FAILED => "failed" | DISMISSED => "dismissed"
  end.

Record JobStatus : Type := MkStatus {
  st_job_id : string; st_status : JobStatusCode; st_process_id : string; st_created : string;
  st_started : option string; st_finished : option string; st_updated : option string;
  st_progress : option Z; st_message : option string; st_tag : option string;
  st_run_config : option JsonValue; st_expires_at : option string;
}.

Section executor.
Context {R : Type} `{!Redis R} {C : Type} (cel : Celery C).
(** [to_utc_datetime], the timestamp of a date, and the clock. *)
Context (utc : Z → string) (timestamp_of : string → Z) (now : Z).

Record Ex : Type := MkEx { ex_redis : R; ex_cel : C }.

Definition on_redis {A} (f : R → A * R) : M Ex A :=
  fun s => let '(a, r) := f (ex_redis s) in (Ok a, MkEx r (ex_cel s)).

(** [Processes._query_task] *)
Definition _query_task (id : string) (dests : option (list string)) (c : C) :
    option (string * Kwargs) :=
  match query_task cel id dests c with
  | [] => None
  | (_, tasks) :: _ => assoc id tasks
  end.

(** [Processes._job_status_pending] *)
Definition _job_status_pending (ti : TaskInfo) : option JobStatus :=
  if bool_decide (dismissed ti = 0)%Z && bool_decide (now < created ti + pending_timeout ti)%Z
  then Some (MkStatus (job_id ti) PENDING (process_id ti) (utc (created ti)) None None None None
               (Some "Task pending") (Some (tag ti)) None None)
  else None.

(** The table of [Processes._job_status]: the status, the date it finished, the
    progress, the date of the update, the message and the arguments; [None] is
    a task nobody knows *)
Definition status_of (id : string) (dests : option (list string)) (c : C) :
    res (option (JobStatusCode * option string * option Z * option string * option string * option Kwargs)) :=
  let state := get_task_meta cel id c in
  let kw := tm_kwargs state in
  match tm_status state with
  | STATE_PENDING =>
      match _query_task id dests c with
      | None => Ok None
      | Some (status, kwargs) =>
          let '(code, msg) :=
            if decide (status = "active") then (RUNNING, "Task running")
            else if decide (status = "scheduled" ∨ status = "reserved") then (ACCEPTED, "Task accepted")
            else if decide (status = "revoked") then (DISMISSED, "Task dismissed")
            else (PENDING, "Task pending") in
          Ok (Some (code, None, None, None, Some msg, Some kwargs))
      end
  | STATE_STARTED => Ok (Some (RUNNING, None, None, None, Some "Task started", kw))
  | STATE_FAILURE =>
      let '(code, msg) :=
        match tm_result state with
        | ResInputValueError m | ResProcessesException m => (FAILED, m)
        | ResDismissedTaskError => (DISMISSED, "Dismissed task")
        | ResRunProcessException => (FAILED, "Internal processing error")
        | ResException => (FAILED, "Internal worker error")
        | ResProgress _ _ _ | ResResults _ => (FAILED, "")
        | ResOther m => (FAILED, m)
        end in
      Ok (Some (code, tm_date_done state, Some 100%Z, None, Some msg, kw))
  | STATE_SUCCESS => Ok (Some (SUCCESS, tm_date_done state, Some 100%Z, None, Some "Task finished", kw))
  | STATE_REVOKED => Ok (Some (DISMISSED, tm_date_done state, None, None, Some "Task dismissed", kw))
  | STATE_UPDATED =>
      match tm_result state with
      | ResProgress progress message updated => Ok (Some (RUNNING, None, progress, updated, message, kw))
      | ResResults _ => Ok (Some (RUNNING, None, None, None, None, kw))
      | _ => Raise (OtherException "AttributeError")
      end
  | STATE_OTHER s => Raise (RuntimeError ("Unhandled celery task state: " +:+ s))
  end.

(** The constraints of [JobStatus] that the fields may break: the message is a
    text and the progress a percentage *)
Definition valid_status (state : TaskMeta) (progress : option Z) : bool :=
  match tm_status state, tm_result state with
  | STATE_FAILURE, (ResProgress _ _ _ | ResResults _) => false
  | _, _ => match progress with Some p => (0 <=? p)%Z && (p <=? 100)%Z | None => true end
  end.

(** [Processes._job_status] *)
Definition _job_status (id : string) (dests : option (list string)) (with_details : bool) (c : C) :
    res (option JobStatus) :=
  found ← status_of id dests c;
  match found with
  | None => Ok None
  | Some (code, finished, progress, updated, message, kw) =>
      match kw with
      | None => Raise (KeyError "kwargs")
      | Some kw =>
          match kw_meta kw with
          | None => Raise (KeyError (if with_details && ostr_truth finished then "expires" else "process_id"))
          | Some meta =>
              if negb (valid_status (get_task_meta cel id c) progress)
              then Raise (ValidationError "JobStatus")
              else Ok (Some (MkStatus id code (m_process_id meta) (m_created meta) (m_started meta) finished
                updated progress message (m_tag meta)
                (if with_details then kw_request kw else None)
                (if with_details && ostr_truth finished
                 then (fun f => utc (m_expires meta + timestamp_of f)) <$> finished else None)))
          end
      end
  end.

(** [Processes._job_status_ext] *)
Definition _job_status_ext (id : string) (services : ServiceDict) (realm : option string)
    (with_details : bool) (s : Ex) : res (option JobStatus) :=
  ti ← find_job id realm (ex_redis s);
  match ti with
  | None => Ok None
  | Some ti =>
      st ← _job_status id (get_destinations (service ti) services) with_details (ex_cel s);
      Ok (match st with Some st => Some st | None => _job_status_pending ti end)
  end.

(** [Processes._job_results] *)
Definition _job_results (id : string) (realm : option string) (s : Ex) : option TaskResult :=
  if ostr_truth realm && match find_key id realm (ex_redis s) with Some _ => false | None => true end
  then None
  else let state := get_task_meta cel id (ex_cel s) in
       if decide (tm_status state = STATE_SUCCESS) then Some (tm_result state) else None.

(** [Processes._jobs]: the generator, run as far as [islice] pulls it *)
Fixpoint pull (limit : nat) (dests : option (list string)) (by_service : bool) (services : ServiceDict)
    (with_details : bool) (ids : list string) (s : Ex) : res (list JobStatus) :=
  match limit, ids with
  | O, _ | _, [] => Ok []
  | S n, id :: ids =>
      ti ← find_job id None (ex_redis s);
      match ti with
      | None => pull limit dests by_service services with_details ids s
      | Some ti =>
          let d := if by_service then dests else get_destinations (service ti) services in
          st ← _job_status (job_id ti) d with_details (ex_cel s);
          match (match st with Some st => Some st | None => _job_status_pending ti end) with
          | None => pull limit dests by_service services with_details ids s
          | Some st => sts ← pull n dests by_service services with_details ids s; Ok (st :: sts)
          end
      end
  end.
Definition _jobs (services : ServiceDict) (service realm : option string) (cursor limit : nat)
    (with_details : bool) (s : Ex) : res (list JobStatus) :=
  let ids := (fun k => default "" (head k)) <$> find_keys service realm (ex_redis s) in
  sts ← pull (cursor + limit) (get_destinations (default "" service) services)
          (ostr_truth service) services with_details ids s;
  Ok (drop cursor sts).

(** ** Dismissing *)

(** The state of a job that is being dismissed. *)
Inductive DismissState : Type := D_PENDING | D_ACTIVE | D_DONE.

Definition dismiss_state (id : string) (dests : list string) (ti : TaskInfo) (c : C) : res DismissState :=
  match tm_status (get_task_meta cel id c) with
  | STATE_PENDING =>
      match _query_task id (Some dests) c with
      | None => Ok (if decide (now < created ti + pending_timeout ti)%Z then D_PENDING else D_DONE)
      | Some (st, _) =>
          if decide (st ∈ ["active"; "scheduled"; "reserved"]) then Ok D_ACTIVE
          else if decide (st = "revoked") then Ok D_DONE else Ok D_PENDING
      end
  | STATE_UPDATED | STATE_STARTED => Ok D_ACTIVE
  | STATE_FAILURE | STATE_SUCCESS | STATE_REVOKED => Ok D_DONE
  | STATE_OTHER s => Raise (RuntimeError ("Unhandled celery task state: " +:+ s))
  end.

Definition revoke_task (id : string) (dests : list string) : M Ex unit :=
  fun s => let '(r, c) := revoke cel id dests (ex_cel s) in (r, MkEx (ex_redis s) c).

(** [Processes._dismiss] *)
Definition _dismiss (id : string) (services : ServiceDict) (realm : option string) :
    M Ex (option JobStatus) :=
  s ← get;
  pure (lock ("job:" +:+ id) (ex_redis s));;
  ti ← pure (find_job id realm (ex_redis s));
  match ti with
  | None => mret None
  | Some ti =>
      if decide (dismissed ti ≠ 0)%Z then raise (DismissedTaskError (job_id ti))
      else
        dests ← pure (ensure_destinations (service ti) services);
        on_redis (dismiss id false);;
        s ← get;
        state ← pure (dismiss_state id dests ti (ex_cel s));
        try_except
          (match state with
           | D_ACTIVE => revoke_task id dests
           | D_DONE | D_PENDING => mret tt
           end;;
           on_redis (Registry.delete id);;
           mret (Some (MkStatus (job_id ti) DISMISSED (process_id ti) (utc (created ti))
                         None None None None None None None None)))
          (fun e => Some (on_redis (dismiss id true);; raise e))
  end.

(** ** Executing *)

(** [Processes.JobBuilder.__init__]; [created] is the date and its timestamp *)
Record JobBuilder : Type := MkBuilder {
  jb_created : Z; jb_meta : JobMeta; jb_expires : Z; jb_pending_timeout : Z; jb_entrypoint : string;
}.
Definition job_builder (services : ServiceDict) (default_timeout : Z) (created_at : string * Z)
    (service ident : string) (pending : option Z) (realm tag : option string) (countdown : option Z) :
    res JobBuilder :=
  match lookup service services with
  | None => Raise (KeyError service)
  | Some (_, details) =>
      let expires := pr_result_expires details in
      let pending := (match pending with Some p => if decide (p = 0)%Z then default_timeout else p
                      | None => default_timeout end + default 0 countdown)%Z in
      Ok (MkBuilder created_at.2 (MkMeta created_at.1 realm service ident expires tag None)
            expires pending (str_or (default "" (pr_entrypoint details)) ident))
  end.

(** [Processes._execute_task]; [context or {}] is [context] itself *)
Definition _execute_task (service task : string) (run_config : RunConfig) (pending : Z) (meta : JobMeta)
    (context : option (list (string * JsonValue))) (priority : Z) (countdown : option Z) : M Ex string :=
  fun s => let '(id, c) := send_task cel (MkSend (service +:+ "." +:+ task) ("qjazz." +:+ service)
                             priority pending countdown meta (default [] context) run_config) (ex_cel s) in
           (Ok id, MkEx (ex_redis s) c).

(** [JobBuilder.register] *)
Definition builder_register (b : JobBuilder) (id : string) : M Ex JobStatus :=
  let meta := jb_meta b in
  modify (fun s => MkEx (register (m_service meta) (m_realm meta)
    (MkJobEntry id (jb_created b) (m_process_id meta) (m_tag meta))
    (jb_expires b) (jb_pending_timeout b) (ex_redis s)) (ex_cel s));;
  mret (MkStatus id PENDING (m_process_id meta) (m_created meta) None None None None None
          (m_tag meta) None None).

(** What [Processes._execute] is asked. *)
Record ExecArgs : Type := MkExecArgs {
  xa_service : string; xa_ident : string; xa_request : JsonValue; xa_project : option string;
  xa_context : option (list (string * JsonValue)); xa_realm : option string;
  xa_pending_timeout : option Z; xa_tag : option string; xa_priority : Z; xa_countdown : option Z;
}.

(** [Processes._execute]: the task is sent, then the job is registered; the
    priority is not passed on.  The answer is the id of the job and the status
    it was registered with. *)
Definition _execute (services : ServiceDict) (default_timeout : Z) (created_at : string * Z)
    (a : ExecArgs) : M Ex (string * JobStatus) :=
  b ← pure (job_builder services default_timeout created_at (xa_service a) (xa_ident a)
              (xa_pending_timeout a) (xa_realm a) (xa_tag a) (xa_countdown a));
  id ← _execute_task (xa_service a) (jb_entrypoint b)
         (MkRunConfig (xa_ident a) (xa_request a) (xa_project a))
         (jb_pending_timeout b) (jb_meta b) (xa_context a) 0 (xa_countdown a);
  status ← builder_register b id;
  mret (id, status).

(** The functions [_execute] answers with the id: the status of the job, or the
    one it was registered with, and its result *)
Definition _get_status (services : ServiceDict) (service id : string) (status : JobStatus) (s : Ex) :
    res JobStatus :=
  st ← _job_status id (get_destinations service services) false (ex_cel s);
  Ok (default status st).
Definition _get_result (id : string) (timeout : option Z) (s : Ex) : res (list (string * JsonValue)) :=
  get_result cel id timeout (ex_cel s).

(** ** Commands *)

Definition send_command (cmd : Command) : M Ex (list (string * JsonValue)) :=
  fun s => let '(rows, c) := broadcast cel cmd (ex_cel s) in (Ok rows, MkEx (ex_redis s) c).

(** The worker a command goes to: [rnd] is the number drawn, which is taken
    between the bounds of [randint] *)
Definition pick_destination (rnd : nat) (dests : list string) : res (list string) :=
  match dests !! (rnd mod length dests) with
  | Some d => Ok [d]
  | None => Raise (ValueError "empty range for randrange()")
  end.

(** [Commands.command] *)
Definition command (rnd : nat) (name : string) (dests : list string) (to_all reply : bool)
    (arguments : list (string * JsonValue)) : M Ex JsonValue :=
  dests ← pure (if to_all then Ok dests else pick_destination rnd dests);
  resp ← send_command (MkCommand name (Some dests) reply arguments);
  if reply then
    match resp with
    | [] => raise (UnreachableDestination (join "," dests))
    | (_, v) :: _ => mret (if to_all then JObj resp else v)
    end
  else mret JNull.

(** [AsyncExecutor.update_services] *)
Definition update_services (validate : JsonValue → res Presence) : M Ex ServiceDict :=
  rows ← send_command (MkCommand "presence" None true []);
  prs ← pure (presences validate rows PyDict.empty);
  mret (get_services (items prs)).

(** [Processes._job_command] *)
Definition _job_command (rnd : nat) (name id : string) (services : ServiceDict) (realm : option string)
    (arguments : list (string * JsonValue)) : M Ex JsonValue :=
  s ← get;
  ti ← pure (find_job id realm (ex_redis s));
  match ti with
  | None => mret JNull
  | Some ti =>
      dests ← pure (ensure_destinations (service ti) services);
      command rnd name dests false true (("job_id", JStr id) :: arguments)
  end.

(** The error a worker answers. *)
Definition error_of (j : JsonValue) : option JsonValue :=
  match j with JObj fields => assoc "error" fields | _ => None end.

(** What the replies of the workers are validated to: pydantic's
    [model_validate] of [ProcessLog], [ProcessFiles] and [Link] *)
Record ProcessLog : Type := MkProcessLog { pl_timestamp : string; pl_log : string }.
Record FileLink : Type := MkFileLink {
  fl_href : string; fl_mime_type : option string; fl_title : string; fl_length : option Z;
}.
Record Validators : Type := MkValidators {
  validate_log : JsonValue → res ProcessLog;
  validate_files : JsonValue → res (list FileLink);
  validate_link : JsonValue → res FileLink;
}.

(** [Processes._log_details], [_files], [_download_url] *)
Definition _log_details (v : Validators) (rnd : nat) (id : string) (services : ServiceDict)
    (realm : option string) : M Ex (option ProcessLog) :=
  response ← _job_command rnd "job_log" id services realm [];
  match error_of response with
  | Some msg => raise (RuntimeError ("Command 'process_log' failed with msg: " +:+ json_str msg))
  | None => l ← pure (validate_log v response); mret (Some l)
  end.
Definition opt_json (s : option string) : JsonValue := match s with Some s => JStr s | None => JNull end.
Definition _files (v : Validators) (rnd : nat) (id : string) (services : ServiceDict)
    (public_url realm : option string) : M Ex (option (list FileLink)) :=
  response ← _job_command rnd "job_files" id services realm [("public_url", opt_json public_url)];
  match error_of response with
  | Some msg => raise (RuntimeError ("Command 'job_files' failed with msg: " +:+ json_str msg))
  | None => l ← pure (validate_files v response); mret (Some l)
  end.
Definition _download_url (v : Validators) (rnd : nat) (id : string) (services : ServiceDict)
    (resource : string) (expiration : Z) (realm : option string) : M Ex (option FileLink) :=
  response ← _job_command rnd "download_url" id services realm
               [("resource", JStr resource); ("expiration", JInt expiration)];
  match error_of response with
  | Some msg => raise (RuntimeError ("Command 'process_files' failed with msg: " +:+ json_str msg))
  | None => match response with
            | JNull => mret None
            | j => l ← pure (validate_link v j); mret (Some l)
            end
  end.

(** [QgisProcessJob.before_start] of a worker *)
Definition before_start (task_id : string) (r : R) : res unit :=
  ti ← find_job task_id None r;
  match ti with
  | None => Raise (DismissedTaskError task_id)
  | Some ti => if decide (dismissed ti ≠ 0)%Z then Raise (DismissedTaskError task_id) else Ok tt
  end.
End executor.

Arguments Ex : clear implicits.

(** ** Properties *)
Section services.
Lemma add_presence_destinations (acc : ServiceDict) d0 p0 sv d :
  wf acc → wf (add_presence acc (d0, p0)) ∧
  (d ∈ default [] (get_destinations sv (add_presence acc (d0, p0))) ↔
   d ∈ default [] (get_destinations sv acc) ∨ (d = d0 ∧ pr_service p0 = sv)).
Proof.
  intros Hwf. rw /add_presence /get_destinations.
  destruct (lookup (pr_service p0) acc) as [[ds pr]|] eqn:E; (split; [by apply wf_insert|]).
  all: destruct (decide (pr_service p0 = sv)) as [<-|];
    [rw lookup_insert_eq // E /=|rw lookup_insert_ne //]; set_solver.
Qed.

(** The destinations of a service are exactly the workers that announced
    themselves for it. *)
Theorem get_services_destinations (presences : list (string * Presence)) (sv d : string) :
  d ∈ default [] (get_destinations sv (get_services presences)) ↔
  ∃ pr, (d, pr) ∈ presences ∧ pr_service pr = sv.
Proof.
  assert (∀ l (acc : ServiceDict), wf acc →
    d ∈ default [] (get_destinations sv (foldl add_presence acc l)) ↔
    d ∈ default [] (get_destinations sv acc) ∨ ∃ pr, (d, pr) ∈ l ∧ pr_service pr = sv) as H.
  { induction l as [|[d0 p0] l IH]; intros acc Hwf; cbn [foldl]; [set_solver|].
    destruct (add_presence_destinations acc d0 p0 sv d Hwf) as [Hwf' Hd]. rw IH // Hd. split.
    - intros [[?|[-> ?]]|(pr & ? & ?)]; [by left|right; exists p0; set_solver|right; exists pr; set_solver].
    - intros [?|(pr & [[= -> ->]|?]%elem_of_cons & ?)]; eauto. }
  rw H; [apply wf_empty|]. set_solver.
Qed.
End services.

Section jobs.
Context {R : Type} `{!Redis R, !RedisLaws R} {C : Type} (cel : Celery C).
Context (utc : Z → string) (now : Z).
Implicit Types (s : Ex R C).

(** Marking a job changes no key. *)
Lemma has_dismiss id b k (r : R) : r_has k (dismiss id b r).2 = r_has k r.
Proof.
  rw /dismiss. destruct (r_keys (id_pattern id) r) as [|k0 ks] eqn:E; [done|]. simpl.
  rw has_hset //. destruct (decide (k = k0)) as [->|]; [|by rw bool_decide_false].
  rw bool_decide_true //. assert (k0 ∈ r_keys (id_pattern id) r) as Hk by (rw E; set_solver).
  apply keys_spec in Hk as [-> _]. done.
Qed.

(** The first steps of [_dismiss]: the lock, then the record of the job. *)
Ltac enter_dismiss Hl Hf :=
  erewrite bind_ok by reflexivity; erewrite bind_ok by (rw /pure Hl; reflexivity);
  erewrite bind_ok by (rw /pure Hf; reflexivity).

(** A dismissal that succeeds. *)
Lemma dismiss_success id services rl s st s' :
  plain_text id = true → _dismiss cel utc now id services rl s = (Ok (Some st), s') →
  st_status st = DISMISSED ∧
  ∀ k, r_has k (ex_redis s') = true ↔ r_has k (ex_redis s) = true ∧ ~ key_of id k.
Proof.
  intros Hid. rw /_dismiss. intros (s0 & s1 & [= <- <-] & H)%bind_ok_inv.
  apply bind_ok_inv in H as ([] & s1 & [= _ <-] & H).
  apply bind_ok_inv in H as ([ti|] & s1 & [= Hf <-] & H); [|done].
  destruct (decide (dismissed ti ≠ 0)%Z); [done|].
  apply bind_ok_inv in H as (dests & s1 & [= Hdst <-] & H).
  apply bind_ok_inv in H as (b & s1 & Hdis & H).
  assert (ex_redis s1 = (dismiss id false (ex_redis s)).2) as Hr1.
  { revert Hdis. rw /on_redis. destruct (dismiss id false (ex_redis s)). by intros [= _ <-]. }
  apply bind_ok_inv in H as (s2 & s3 & [= <- <-] & H).
  apply bind_ok_inv in H as (state & s4 & [= _ <-] & H). rw /try_except in H.
  match type of H with (match ?b with _ => _ end) = _ => destruct b as [[o|x] s5] eqn:Hb end.
  - injection H as -> <-. apply bind_ok_inv in Hb as ([] & s6 & Hrev & Hb).
    assert (ex_redis s6 = ex_redis s1) as Hr6.
    { destruct state; [by injection Hrev as <-| |by injection Hrev as <-].
      revert Hrev. rw /revoke_task. destruct (revoke _ _ _ _). by intros [= _ <-]. }
    apply bind_ok_inv in Hb as (cnt & s7 & Hdel & [= <- <-]). split; [done|]. intros k.
    assert (ex_redis s7 = (Registry.delete id (ex_redis s6)).2) as ->.
    { revert Hdel. rw /on_redis. destruct (Registry.delete id (ex_redis s6)). by intros [= _ <-]. }
    rw delete_plain // Hr6 Hr1 has_dismiss. done.
  - apply bind_ok_inv in H as (? & ? & _ & [=]).
Qed.

(** C17. Dismissing a job: when the lock of the job is not obtained nothing
    changes; under the lock, a job that is not registered in the realm, or that
    is already dismissed, or whose service is offline, is left as it is; when
    it succeeds, it answers the status [DISMISSED], the records of the job are
    gone and those of the other jobs are all there. *)
Theorem dismiss_spec id services rl s :
  plain_text id = true →
  (∀ e, lock ("job:" +:+ id) (ex_redis s) = Raise e →
     _dismiss cel utc now id services rl s = (Raise e, s)) ∧
  (lock ("job:" +:+ id) (ex_redis s) = Ok tt → find_job id rl (ex_redis s) = Ok None →
     _dismiss cel utc now id services rl s = (Ok None, s)) ∧
  (∀ ti, lock ("job:" +:+ id) (ex_redis s) = Ok tt →
     find_job id rl (ex_redis s) = Ok (Some ti) → dismissed ti ≠ 0%Z →
     _dismiss cel utc now id services rl s = (Raise (DismissedTaskError (job_id ti)), s)) ∧
  (∀ ti, lock ("job:" +:+ id) (ex_redis s) = Ok tt →
     find_job id rl (ex_redis s) = Ok (Some ti) → dismissed ti = 0%Z →
     get_destinations (service ti) services = None →
     _dismiss cel utc now id services rl s = (Raise (ServiceNotAvailable (service ti)), s)) ∧
  (∀ st s', _dismiss cel utc now id services rl s = (Ok (Some st), s') →
     st_status st = DISMISSED ∧
     ∀ k, r_has k (ex_redis s') = true ↔ r_has k (ex_redis s) = true ∧ ~ key_of id k).
Proof.
  intros Hid. split_and!.
  - intros e Hl. rw /_dismiss. erewrite bind_ok by reflexivity. apply bind_raise. by rw /pure Hl.
  - intros Hl Hf. rw /_dismiss. enter_dismiss Hl Hf. done.
  - intros ti Hl Hf Hd. rw /_dismiss. enter_dismiss Hl Hf. by rw decide_True.
  - intros ti Hl Hf Hd Hn. rw /_dismiss. enter_dismiss Hl Hf.
    rw decide_False; [by intros []|]. apply bind_raise. by rw /pure /ensure_destinations Hn.
  - intros st s' H. by eapply dismiss_success.
Qed.
End jobs.

Section starting.
Context {R : Type} `{!Redis R, !RedisLaws R} {C : Type} (cel : Celery C).
Implicit Types (s : Ex R C).

Lemma find_job_absent id rl (r : R) :
  plain_text id = true → (∀ k, r_has k r = true → ~ key_of id k) → find_job id rl r = Ok None.
Proof.
  intros Hid Hnew. rw /find_job. destruct (r_keys _ _) as [|k ks] eqn:E; [done|].
  assert (k ∈ r_keys (job_pattern id rl) r) as Hk by (rw E; set_solver).
  apply keys_spec in Hk as [Hh Hg]. apply job_pattern_key in Hg; [|done]. by destruct (Hnew k Hh).
Qed.

(** The record that [_execute] leaves. *)
Lemma execute_registers services timeout cr a s id st s' :
  (∀ k, r_has k (ex_redis s) = true → ~ key_of id k) → plain_text id = true →
  (∀ b, job_builder services timeout cr (xa_service a) (xa_ident a) (xa_pending_timeout a)
          (xa_realm a) (xa_tag a) (xa_countdown a) = Ok b →
        (r_now (ex_redis s) < jb_created b + jb_expires b + jb_pending_timeout b)%Z) →
  _execute cel services timeout cr a s = (Ok (id, st), s') →
  ∃ ti, find_job id None (ex_redis s') = Ok (Some ti) ∧ dismissed ti = 0%Z ∧ job_id ti = id ∧
    service ti = xa_service a ∧ process_id ti = xa_ident a.
Proof.
  intros Hnew Hid Hexp Hrun. rw /_execute in Hrun. apply bind_ok_inv in Hrun as (b & s1 & [= Hb <-] & H).
  apply bind_ok_inv in H as (id' & s2 & Hsend & H).
  apply bind_ok_inv in H as (st' & s3 & Hreg & [= -> -> <-]). injection Hreg as _ <-.
  assert (ex_redis s2 = ex_redis s) as Hr.
  { revert Hsend. rw /_execute_task. destruct (send_task _ _ _). by intros [= _ <-]. }
  cbn [ex_redis]. rw Hr.
  pose proof (find_registered (m_service (jb_meta b)) (m_realm (jb_meta b))
    (MkJobEntry id (jb_created b) (m_process_id (jb_meta b)) (m_tag (jb_meta b)))
    (jb_expires b) (jb_pending_timeout b) None (ex_redis s) Hid Hnew (or_introl eq_refl) (Hexp b Hb)) as Hfound.
  cbn [js_job_id] in Hfound. rw Hfound. eexists. split; [done|]. simpl.
  revert Hb. rw /job_builder. by destruct (lookup _ services) as [[]|]; [intros [= <-]|].
Qed.

(** A job is sent before it is registered: a worker that starts the task
    in between refuses it as dismissed, although nobody dismissed it; once
    [_execute] has returned, the same check passes. *)
Theorem execute_then_start services timeout cr a s id st s' :
  (∀ k, r_has k (ex_redis s) = true → ~ key_of id k) → plain_text id = true →
  (∀ b, job_builder services timeout cr (xa_service a) (xa_ident a) (xa_pending_timeout a)
          (xa_realm a) (xa_tag a) (xa_countdown a) = Ok b →
        (r_now (ex_redis s) < jb_created b + jb_expires b + jb_pending_timeout b)%Z) →
  _execute cel services timeout cr a s = (Ok (id, st), s') →
  before_start id (ex_redis s) = Raise (DismissedTaskError id) ∧
  before_start id (ex_redis s') = Ok tt.
Proof.
  intros Hnew Hid Hexp Hrun. split.
  - rw /before_start. assert (find_job id None (ex_redis s) = Ok None) as ->; [|done].
    by apply find_job_absent.
  - apply (execute_registers services timeout cr) in Hrun as (ti & Hf & Hd & _); [|done..].
    rw /before_start Hf. py_unfold. by rw Hd.
Qed.
End starting.

(** A command leaves the registry as it is. *)
Lemma command_redis {R C} (cel : Celery C) rnd name dests to_all reply args (s : Ex R C) r s' :
  command cel rnd name dests to_all reply args s = (r, s') → ex_redis s' = ex_redis s.
Proof.
  intros H. apply (preserves_run (fun t => ex_redis t = ex_redis s)
    (command cel rnd name dests to_all reply args) s r s'); [|done..].
  rw /command. apply preserves_bind; [auto with py|intros ds].
  apply preserves_bind; [|intros resp; repeat case_match; auto with py].
  intros t Ht. rw /send_command. by destruct (broadcast _ _ _).
Qed.

(** A pending task that runs on the second of two workers is not seen: only the
    reply of the first one is looked at. *)
Lemma query_task_first_reply_only {C} (cel : Celery C) c id dests d1 d2 st kw :
  query_task cel id dests c = [(d1, []); (d2, [(id, (st, kw))])] →
  _query_task cel id dests c = None.
Proof. intros H. by rw /_query_task H. Qed.

(** ** A Celery application where no worker ever takes a task *)
Module CeleryDemo.
Definition app : Celery nat := {|
  get_task_meta _ _ := MkTaskMeta STATE_PENDING (ResOther "") None None;
  query_task _ _ _ := [];
  revoke _ _ c := (Ok tt, c);
  send_task _ c := ("job-1", S c);
  broadcast _ c := ([], c);
  get_result _ _ _ := Raise CeleryTimeoutError;
|}.
Definition services : ServiceDict := get_services [("w1", MkPresence "svc" 60 None 0 "" "" [] None [] [])].
Definition s0 : Ex RedisDemo.store nat := MkEx [("qjazz::other::s::r", [])] 0.
Definition args : ExecArgs :=
  MkExecArgs "svc" "buffer" (JObj []) None None (Some "r1") None None 5 None.
Definition sent : res (string * JobStatus) * Ex RedisDemo.store nat :=
  _execute app services 30 ("2024-01-01", 1000)%Z args s0.
End CeleryDemo.
Import CeleryDemo.

Lemma dismiss_spec_witness :
  let s := sent.2 in
  ∃ st, (_dismiss app (fun _ => "") 1010 "job-1" services (Some "r1") s).1 = Ok (Some st) ∧
    st_status st = DISMISSED ∧
    ∀ k, r_has k (ex_redis (_dismiss app (fun _ => "") 1010 "job-1" services (Some "r1") s).2) = true ↔
         r_has k (ex_redis s) = true ∧ ~ key_of "job-1" k.
Proof.
  intros s. set (st := MkStatus "job-1" DISMISSED "buffer" "" None None None None None None None None).
  exists st. split; [vm_compute; reflexivity|].
  apply (proj2 (proj2 (proj2 (proj2 (dismiss_spec app (fun _ => "") 1010 "job-1" services (Some "r1") s eq_refl))))).
  vm_compute. reflexivity.
Defined.

Lemma execute_then_start_witness :
  before_start "job-1" (ex_redis s0) = Raise (DismissedTaskError "job-1") ∧
  before_start "job-1" (ex_redis sent.2) = Ok tt.
Proof.
  apply (execute_then_start app services 30 ("2024-01-01", 1000)%Z args s0 "job-1"
    (MkStatus "job-1" PENDING "buffer" "2024-01-01" None None None None None None None None) sent.2).
  - intros k Hk (rest & ->). apply bool_decide_eq_true, list_elem_of_singleton in Hk. by injection Hk.
  - reflexivity.
  - intros b [= <-]. reflexivity.
  - vm_compute. reflexivity.
Defined.
