(* ===== verification/Executors.v ===== *)
(** * The two executors

    [qjazz_processes/executor/executor.py] and [executor/blocking.py]: what an
    executor keeps, and its methods, that wait for the operations of [Executor]
    ([BlockingExecutor]) or run them in a thread ([AsyncExecutor]); the commands
    to the workers of a service ([executor/commands.py]).  The connection to
    Celery and the registry is the state of [Executor]; a process is validated
    by pydantic to the types that are given. *)
From S2P Require Import Prelude PyDict PyStd Json Registry Executor.

(** [ExecutorBase]: the services it was told of, when, and how long a message
    may wait *)
Record Client (R C : Type) : Type := MkClient {
  cl_ex : Ex R C; cl_services : ServiceDict; cl_last_updated : Z; cl_timeout : Z;
}.
Arguments MkClient {_ _} _ _ _ _.
Arguments cl_ex {_ _} _.
Arguments cl_services {_ _} _.
Arguments cl_last_updated {_ _} _.
Arguments cl_timeout {_ _} _.

Section base.
Context {R : Type} `{!Redis R} {C : Type} (cel : Celery C).
Context (utc : Z → string) (timestamp_of : string → Z) (now : Z) (rnd : nat).
(** What the replies are validated to. *)
Context {Summary Description : Type} (validate_presence : JsonValue → res Presence).
Context (validate_summaries : JsonValue → res (list Summary)).
Context (validate_description : JsonValue → res Description).
Context (v : Validators).
Notation Client := (Client R C).

(** ** ExecutorBase *)
Definition __init__ (ex : Ex R C) (message_expiration_timeout : option Z) : Client :=
  MkClient ex PyDict.empty 0 (default 600%Z message_expiration_timeout).

Definition on_conn {A} (m : M (Ex R C) A) : M Client A :=
  zoom cl_ex (fun e s => MkClient e (cl_services s) (cl_last_updated s) (cl_timeout s)) m.
(** A method that reads the connection and the services. *)
Definition asks {A} (f : ServiceDict → Ex R C → res A) : M Client A :=
  s ← get; pure (f (cl_services s) (cl_ex s)).

Definition known_service (name : string) : M Client bool :=
  gets (fun s => match lookup name (cl_services s) with Some _ => true | None => false end).
Definition services : M Client (list Presence) := gets (fun s => (fun kv => kv.2.2) <$> items (cl_services s)).
Definition num_services : M Client nat := gets (fun s => length (items (cl_services s))).
Definition last_updated : M Client Z := gets cl_last_updated.
Definition destinations (service : string) : M Client (option (list string)) :=
  gets (fun s => get_destinations service (cl_services s)).
Definition ensure (service : string) : M Client (list string) :=
  s ← get; pure (ensure_destinations service (cl_services s)).

(** [get_services]: the services that answer now *)
Definition base_get_services : M Client ServiceDict :=
  on_conn (Executor.update_services cel validate_presence).
Definition _update_services (services : ServiceDict) : M Client ServiceDict :=
  modify (fun s => MkClient (cl_ex s) services now (cl_timeout s));;
  mret services.

(** ** Commands *)

(** [_dests] *)
Definition _dests (service : string) : M Client (list string) := ensure service.

(** [control.pool_restart], [control.ping] and [control.shutdown] are messages to
    the destinations, that give the reply of each one. *)
Definition control (name : string) (dests : list string) (reply : bool) : M Client JsonValue :=
  rows ← on_conn (send_command cel (MkCommand name (Some dests) reply []));
  mret (if reply then JArr ((fun kv => JObj [kv]) <$> rows) else JNull).
Definition restart_pool (service : string) : M Client JsonValue :=
  d ← _dests service; control "pool_restart" d true.
Definition ping (service : string) : M Client JsonValue := d ← _dests service; control "ping" d true.
Definition shutdown (service : string) (reply : bool) : M Client JsonValue :=
  d ← _dests service; control "shutdown" d reply.

(** A command to a service nobody announced is not sent. *)
Lemma control_unknown (m : list string → M Client JsonValue) service s :
  get_destinations service (cl_services s) = None →
  (d ← _dests service; m d) s = (Raise (ServiceNotAvailable service), s).
Proof.
  intros H. apply bind_raise. rw /_dests /ensure. py_unfold. by rw /ensure_destinations H.
Qed.
(** ** processes.py: [_describe], [_processes] *)
Definition _describe (dests : list string) (ident : string) (project : option string) :
    M (Ex R C) (option Description) :=
  r ← command cel rnd "describe_process" dests false true
        [("ident", JStr ident); ("project_path", opt_json project)];
  if json_truth r then d ← pure (validate_description r); mret (Some d) else mret None.
Definition _processes (dests : list string) : M (Ex R C) (list Summary) :=
  r ← command cel rnd "list_processes" dests false true [];
  pure (validate_summaries r).

(** [Result]: the id of the job, its results and its status *)
Record Result : Type := MkResult {
  result_job_id : string;
  result_get : option Z → M Client (list (string * JsonValue));
  result_status : M Client JobStatus;
}.
Definition job_result (service : string) (ids : string * JobStatus) : Result :=
  MkResult ids.1
    (fun timeout => asks (fun _ ex => _get_result cel ids.1 timeout ex))
    (asks (fun services ex => _get_status cel utc timestamp_of services service ids.1 ids.2 ex)).

(** [_execute] of the services that are known *)
Definition client_execute (created_at : string * Z) (a : ExecArgs) : M Client (string * JobStatus) :=
  s ← get; on_conn (_execute cel (cl_services s) (cl_timeout s) created_at a).

End base.


(** ** executor/blocking.py *)
Module Blocking.
Section blocking.
Context {R : Type} `{!Redis R} {C : Type} (cel : Celery C).
Context (utc : Z → string) (timestamp_of : string → Z) (now : Z) (rnd : nat).
Context {Summary Description : Type} (validate_presence : JsonValue → res Presence).
Context (validate_summaries : JsonValue → res (list Summary)).
Context (validate_description : JsonValue → res Description).
Context (v : Validators).
Notation Client := (Client R C).
Definition update_services : M Client ServiceDict := s ← base_get_services cel validate_presence; _update_services now s.
Definition describe (service ident : string) (project : option string) : M Client (option Description) :=
  d ← ensure service; on_conn (_describe cel rnd validate_description d ident project).
Definition processes (service : string) : M Client (list Summary) :=
  d ← ensure service; on_conn (_processes cel rnd validate_summaries d).
Definition execute (created_at : string * Z) (a : ExecArgs) : M Client (Result (R:=R) (C:=C)) :=
  ids ← client_execute cel created_at a; mret (job_result cel utc timestamp_of (xa_service a) ids).
Definition dismiss (id : string) (realm : option string) : M Client (option JobStatus) :=
  s ← get; on_conn (_dismiss cel utc now id (cl_services s) realm).
Definition job_status (id : string) (realm : option string) (with_details : bool) :
    M Client (option JobStatus) :=
  asks (fun services => _job_status_ext cel utc timestamp_of now id services realm with_details).
Definition job_results (id : string) (realm : option string) : M Client (option TaskResult) :=
  asks (fun _ ex => Ok (_job_results cel id realm ex)).
Definition jobs (service realm : option string) (cursor limit : nat) (with_details : bool) :
    M Client (list JobStatus) :=
  asks (fun services => _jobs cel utc timestamp_of now services service realm cursor limit with_details).
Definition log_details (id : string) (realm : option string) : M Client (option ProcessLog) :=
  s ← get; on_conn (_log_details cel v rnd id (cl_services s) realm).
Definition files (id : string) (public_url realm : option string) : M Client (option (list FileLink)) :=
  s ← get; on_conn (_files cel v rnd id (cl_services s) public_url realm).
Definition download_url (id resource : string) (expiration : Z) (realm : option string) :
    M Client (option FileLink) :=
  s ← get; on_conn (_download_url cel v rnd id (cl_services s) resource expiration realm).
End blocking.
End Blocking.

(** ** executor/executor.py

    [asyncio.to_thread(f, ...)] awaits what [f] returns or raises; the services
    are read, and their destinations checked, before the thread starts. *)
Module Async.
Section async.
Context {R : Type} `{!Redis R} {C : Type} (cel : Celery C).
Context (utc : Z → string) (timestamp_of : string → Z) (now : Z) (rnd : nat).
Context {Summary Description : Type} (validate_presence : JsonValue → res Presence).
Context (validate_summaries : JsonValue → res (list Summary)).
Context (validate_description : JsonValue → res Description).
Context (v : Validators).
Notation Client := (Client R C).
Definition to_thread {A} (m : M Client A) : M Client A := m.
Definition update_services : M Client ServiceDict := s ← to_thread (base_get_services cel validate_presence); _update_services now s.
Definition describe (service ident : string) (project : option string) : M Client (option Description) :=
  d ← ensure service; to_thread (on_conn (_describe cel rnd validate_description d ident project)).
Definition processes (service : string) : M Client (list Summary) :=
  d ← ensure service; to_thread (on_conn (_processes cel rnd validate_summaries d)).
Definition execute (created_at : string * Z) (a : ExecArgs) : M Client (Result (R:=R) (C:=C)) :=
  ids ← client_execute cel created_at a;
  let r := job_result cel utc timestamp_of (xa_service a) ids in
  mret (MkResult (result_job_id r) (fun timeout => to_thread (result_get r timeout)) (to_thread (result_status r))).
Definition dismiss (id : string) (realm : option string) : M Client (option JobStatus) :=
  s ← get; to_thread (on_conn (_dismiss cel utc now id (cl_services s) realm)).
Definition job_status (id : string) (realm : option string) (with_details : bool) :
    M Client (option JobStatus) :=
  to_thread (asks (fun services => _job_status_ext cel utc timestamp_of now id services realm with_details)).
Definition job_results (id : string) (realm : option string) : M Client (option TaskResult) :=
  to_thread (asks (fun _ ex => Ok (_job_results cel id realm ex))).
(** The statuses without their details. *)
Definition jobs (service realm : option string) (cursor limit : nat) : M Client (list JobStatus) :=
  to_thread (asks (fun services =>
    _jobs cel utc timestamp_of now services service realm cursor limit false)).
Definition log_details (id : string) (realm : option string) : M Client (option ProcessLog) :=
  s ← get; to_thread (on_conn (_log_details cel v rnd id (cl_services s) realm)).
Definition files (id : string) (public_url realm : option string) : M Client (option (list FileLink)) :=
  s ← get; to_thread (on_conn (_files cel v rnd id (cl_services s) public_url realm)).
Definition download_url (id resource : string) (expiration : Z) (realm : option string) :
    M Client (option FileLink) :=
  s ← get; to_thread (on_conn (_download_url cel v rnd id (cl_services s) resource expiration realm)).
End async.
End Async.

