(* ===== verification/JobsApi.v ===== *)
(** * The HTTP side of jobs

    [qjazz_processes/server]: the realm of a client ([jobrealm.py]), the choice
    of a service ([policies/default.py]), the job handlers ([_handlers/jobs.py])
    and the access control of callbacks ([callbacks/accesscontrol.py]).  An
    HTTP error is an exception with its status. *)
From S2P Require Import Prelude PyDict PyStd Json Web Registry Executor.

(** ** jobrealm.py *)
Module JobRealm.
Definition JOB_REALM_HEADER : string := "X-Job-Realm".

Record JobRealmConfig : Type := MkRealmConfig { enabled : bool; admin_tokens : list string }.

(** [^[a-zA-Z0-9][a-zA-Z0-9_\-]+$] with at least eight characters *)
Definition alnum (a : ascii) : bool := is_alpha a || is_digit a.
Definition realm_char (a : ascii) : bool :=
  alnum a || bool_decide (a = "_"%char) || bool_decide (a = "-"%char).
Definition is_realm_token (s : string) : bool :=
  match s with
  | String a rest => alnum a && str_forall realm_char rest && (8 <=? String.length s)%nat
  | "" => false
  end.

Definition is_admin (c : JobRealmConfig) (realm : option string) : bool :=
  match realm with None => true | Some r => bool_decide (r ∈ admin_tokens c) end.

Definition validate_realm (realm : string) : res string :=
  if is_realm_token realm then Ok realm else Raise (HTTPException 401 "Invalid job realm").

(** [get_job_realm]; [uuid] is the new identifier *)
Definition get_job_realm (c : JobRealmConfig) (rq : WebRequest) (uuid : string) : res (option string) :=
  if enabled c then
    match header JOB_REALM_HEADER (wr_headers rq) with
    | Some realm => if str_truth realm then r ← validate_realm realm; Ok (Some r) else Ok (Some uuid)
    | None => Ok (Some uuid)
    end
  else Ok None.

(** [job_realm] *)
Definition job_realm (c : JobRealmConfig) (rq : WebRequest) : res (option string) :=
  if enabled c then
    let realm := assoc JOB_REALM_HEADER (wr_items rq) in
    if ostr_truth realm
    then Ok (if is_admin c realm then None else realm)
    else Raise (HTTPException 401 "Unauthorized")
  else Ok None.
End JobRealm.

(** ** policies/default.py *)
Definition first_known (services : ServiceDict) (order : list string) : option string :=
  snd <$> list_find (fun s => contains s services = true) order.

(** [DefaultAccessPolicy.get_service] *)
Definition policy_get_service (order : list string) (services : ServiceDict) (rq : WebRequest) : res string :=
  let service := default "" (assoc "service" (wr_query rq)) in
  if str_truth service then Ok service
  else match first_known services order with
       | Some s => Ok s
       | None =>
           match values services with
           | [] => Raise (HTTPException 503 "No service available")
           | [(_, pr)] => Ok (pr_service pr)
           | _ => Raise (HTTPException 400 "Service required")
           end
       end.

(** [DefaultAccessPolicy.get_project] *)
Definition policy_get_project (rq : WebRequest) : option string :=
  let m := assoc "map" (wr_query rq) in
  if ostr_truth m then m else assoc "MAP" (wr_query rq).

(** [DefaultAccessPolicy.format_path] *)
Definition format_path (path : string) (service project query : option string) : string :=
  let fields := filter (fun x => str_truth x = true)
    [default "" query;
     if ostr_truth service then "service=" +:+ default "" service else "";
     if ostr_truth project then "map=" +:+ default "" project else ""] in
  let q := join "&" fields in
  if str_truth q then path +:+ "?" +:+ q else path.

(** [Handler.get_project]: a project path starts with a slash *)
Definition get_project (rq : WebRequest) : option string :=
  (fun p => if str_truth p && negb (startswith "/" p) then "/" +:+ p else p) <$> policy_get_project rq.

(** ** What pydantic validates *)
Record Pydantic : Type := MkPydantic {
  int_validate : string → option Z;
  bool_validate : string → option bool;
  HttpUrl : string → res string;
}.

(** [validate_param]: the default is valid *)
Definition validate_param {A} (validate : string → option A) (rq : WebRequest) (name : string) (dflt : A) :
    res A :=
  match assoc name (wr_query rq) with
  | None => Ok dflt
  | Some v => match validate v with Some a => Ok a | None => Raise (HTTPException 400 name) end
  end.

(** ** _handlers/jobs.py *)

(** [LimitParam], [PageParam] *)
Definition LimitParam (py : Pydantic) (v : string) : option Z :=
  l ← int_validate py v; if decide (1 ≤ l < 1000)%Z then Some l else None.
Definition PageParam (py : Pydantic) (v : string) : option Z :=
  p ← int_validate py v; if decide (1 ≤ p)%Z then Some p else None.

Definition RESULTS_REL : string := "http://www.opengis.net/def/rel/ogc/1.0/results".

(** The links of a status in a list *)
Definition list_links (py : Pydantic) (rq : WebRequest) (st : JobStatus) : res (list Link) :=
  let location := format_path ("/jobs/" +:+ st_job_id st) None None None in
  seq_res (make_link (HttpUrl py) rq "related" location "Job details" ::
    if decide (st_status st = SUCCESS)
    then [make_link (HttpUrl py) rq RESULTS_REL
            (format_path ("/jobs/" +:+ st_job_id st +:+ "/results") None None None +:+ "/results")
            "Job results"]
    else []).

(** The links of a single status *)
Definition status_links (py : Pydantic) (rq : WebRequest) (id : string) (st : JobStatus) : res (list Link) :=
  let location := format_path ("/jobs/" +:+ id) None None None in
  seq_res ((if decide (st_status st = SUCCESS)
    then [make_link (HttpUrl py) rq RESULTS_REL (location +:+ "/results") "Job results"] else []) ++
    [make_link (HttpUrl py) rq "related" (location +:+ "/log") "Job execution logs";
     make_link (HttpUrl py) rq "related" (location +:+ "/files") "Job files";
     make_link (HttpUrl py) rq "self" location "Job status"]).

(** The filters of [list_jobs] *)
Definition job_selected (process_ids statuses : list string) (st : JobStatus) : bool :=
  (bool_decide (process_ids = []) || bool_decide (st_process_id st ∈ process_ids)) &&
  (bool_decide (statuses = []) || bool_decide (code_str (st_status st) ∈ statuses)).

(** The statuses with their links, and the links of the list. *)
Record JobList : Type := MkJobList {
  jl_jobs : list (JobStatus * list Link); jl_links : list Link;
}.

(** The path of a page of the list, with the parameters of the request. *)
Definition page_params (rq : WebRequest) (limit page : Z) : list (string * list string) :=
  let service := default "" (assoc "service" (wr_query rq)) in
  [("processID", getall "processID" (wr_query rq)); ("status", getall "status" (wr_query rq));
   ("limit", [str_of_int limit]); ("service", if str_truth service then [service] else []);
   ("page", [str_of_int page])].
Definition page_path (rq : WebRequest) (limit page : Z) : string :=
  format_path "/jobs/" None None (Some (urlencode (page_params rq limit page))).

Section handlers.
Context {R : Type} `{!Redis R} {C : Type} (cel : Celery C) (py : Pydantic) (v : Validators).
Context (utc : Z → string) (timestamp_of : string → Z) (now : Z).
Context (services : ServiceDict) (realms : JobRealm.JobRealmConfig).

(** [Jobs.list_jobs] *)
Definition list_jobs (rq : WebRequest) (s : Ex R C) : res (Response JobList) :=
  limit ← validate_param (LimitParam py) rq "limit" 10%Z;
  page ← validate_param (PageParam py) rq "page" 1%Z;
  let process_ids := getall "processID" (wr_query rq) in
  let statuses := getall "status" (wr_query rq) in
  realm ← JobRealm.job_realm realms rq;
  jobs ← _jobs cel utc timestamp_of now services (assoc "service" (wr_query rq)) realm
           (Z.to_nat ((page - 1) * limit)) (Z.to_nat limit) false s;
  let jobs := filter (fun st => job_selected process_ids statuses st = true) jobs in
  jobs_links ← seq_res ((fun st => l ← list_links py rq st; Ok (st, l)) <$> jobs);
  let page_link rel p := make_link (HttpUrl py) rq rel (page_path rq limit p) "Job list" in
  links ← seq_res (page_link "self" page ::
    (if decide (limit ≤ Z.of_nat (length jobs))%Z then [page_link "next" (page + 1)%Z] else []) ++
    (if decide (1 < page)%Z then [page_link "prev" (page - 1)%Z] else []));
  Ok (json_response (MkJobList jobs_links links)).

(** [Jobs.job_status] *)
Definition job_status (rq : WebRequest) (s : Ex R C) : res (Response (JobStatus * list Link)) :=
  id ← match_info "JobId" rq;
  details ← validate_param (bool_validate py) rq "details" false;
  st ← _job_status_ext cel utc timestamp_of now id services None details s;
  match st with
  | None => Ok (error_response 404 "Job not found" [("jobId", id)])
  | Some st =>
      links ← status_links py rq id st;
      location ← href rq (format_path ("/jobs/" +:+ id) None None None);
      Ok (MkResponse 200 [("Location", location)] (BModel (st, links)))
  end.

(** [Jobs.job_results]: no result, or an empty one *)
Definition results_truth (r : TaskResult) : bool :=
  match r with ResResults [] => false | ResOther s => str_truth s | _ => true end.
Definition job_results (rq : WebRequest) (s : Ex R C) : res (Response TaskResult) :=
  id ← match_info "JobId" rq;
  Ok (match _job_results cel id None s with
      | Some r => if results_truth r then json_response r
                  else error_response 404 "No results" [("jobId", id)]
      | None => error_response 404 "No results" [("jobId", id)]
      end).

(** [Jobs.dismiss_job] *)
Definition dismiss_job (rq : WebRequest) : M (Ex R C) (Response JobStatus) :=
  id ← pure (match_info "JobId" rq);
  st ← _dismiss cel utc now id services None;
  mret (match st with
        | None => error_response 404 "Job not found" [("jobId", id)]
        | Some st => json_response st
        end).

(** [Jobs.job_log]: the log and its link *)
Definition job_log (rnd : nat) (rq : WebRequest) : M (Ex R C) (Response (ProcessLog * list Link)) :=
  id ← pure (match_info "JobId" rq);
  realm ← pure (JobRealm.job_realm realms rq);
  log_d ← _log_details cel v rnd id services realm;
  match log_d with
  | None => mret (error_response 404 "Job not found" [("jobId", id)])
  | Some log =>
      l ← pure (make_link (HttpUrl py) rq "self"
                  (format_path ("/jobs/" +:+ id +:+ "/log") None None None) "Job execution log");
      mret (json_response (log, [l]))
  end.

(** ** _handlers/storage.py *)

(** [FileLink.from_link]; [human_readable] is the text of a size *)
Definition from_link (human_readable : Z → string) (l : FileLink) : res (FileLink * string) :=
  match fl_length l with
  | Some size => Ok (MkFileLink (fl_href l) (fl_mime_type l) (fl_title l) (Some size), human_readable size)
  | None => Raise (TypeError "int() argument must be a string, a bytes-like object or a real number")
  end.

(** [Storage.job_files] *)
Definition job_files (human_readable : Z → string) (rnd : nat) (rq : WebRequest) :
    M (Ex R C) (Response (list (FileLink * string) * list Link)) :=
  id ← pure (match_info "JobId" rq);
  realm ← pure (JobRealm.job_realm realms rq);
  public ← pure (public_url rq "");
  files ← _files cel v rnd id services (Some public) realm;
  match files with
  | None => mret (error_response 404 "Job not found" [("jobId", id)])
  | Some files =>
      l ← pure (make_link (HttpUrl py) rq "self"
                  (format_path ("/jobs/" +:+ id +:+ "/files") None None None) "Job execution log");
      files ← pure (seq_res (from_link human_readable <$> files));
      mret (json_response (files, [l]))
  end.

(** [StorageConfig] *)
Record StorageConfig : Type := MkStorageConfig {
  allow_insecure_connection : bool; download_url_expiration : Z; chunksize : nat;
}.

(** The chunks a file is read in. *)
Fixpoint read_chunks (fuel n : nat) (s : string) : list string :=
  match fuel with
  | O => []
  | S fuel => if str_truth s
              then String.substring 0 n s :: read_chunks fuel n (String.substring n (String.length s) s)
              else []
  end.

(** Where the data come from: the scheme and the path of a url, the contents of
    a local file, and the status and the chunks of a remote answer. *)
Record Sources : Type := MkSources {
  any_url : string → res (string * string);
  local_file : string → option string;
  remote : string → Z * list string;
}.

(** [stream_from] *)
Definition stream_from (src : Sources) (url : string) : res (list string) :=
  let '(status, chunks) := remote src url in
  if decide (status = 200 ∨ status = 206)%Z then Ok chunks else Raise (HTTPException 502 "Bad Gateway").

(** [Storage.job_download]: the chunks that are streamed *)
Definition download_data (sc : StorageConfig) (src : Sources) (url : string) : res (list string) :=
  sp ← any_url src url;
  let '(scheme, path) := sp : string * string in
  if decide (scheme = "file") then
    match local_file src path with
    | Some data => Ok (read_chunks (String.length data) (chunksize sc) data)
    | None => Raise (PreconditionError "path.is_file()")
    end
  else if decide (scheme = "http") then
    if allow_insecure_connection sc then stream_from src url else Raise (HTTPException 403 "Forbidden")
  else if decide (scheme = "https") then stream_from src url
  else Raise (HTTPException 502 "Bad Gateway").

Definition job_download (sc : StorageConfig) (src : Sources) (rnd : nat) (rq : WebRequest) :
    M (Ex R C) (Response (list string)) :=
  id ← pure (match_info "JobId" rq);
  resource ← pure (match_info "Resource" rq);
  link ← _download_url cel v rnd id services resource (download_url_expiration sc) None;
  match link with
  | None => mret (error_response 404 "Job or resource not found" [("jobId", id); ("resource", resource)])
  | Some link =>
      let headers := [("Content-Length", match fl_length link with Some n => str_of_int n | None => "None" end)] in
      if decide (wr_method rq = "HEAD") then mret (MkResponse 200 headers BEmpty)
      else data ← pure (download_data sc src (fl_href link));
           mret (MkResponse 200 headers (BModel data))
  end.
End handlers.

(** ** callbacks/accesscontrol.py *)
Module AccessControl.
(** Addresses by their value, networks by their first address and the size of
    their prefix. *)
Inductive Address : Type := IPv4Address (a : Z) | IPv6Address (a : Z).
Inductive HostFilter : Type :=
| FAddress (a : Address)
| FNetwork4 (base : Z) (prefix : nat)
| FNetwork6 (base : Z) (prefix : nat)
| FHost (s : string).

#[global] Instance Address_eq_dec : EqDecision Address.
Proof. solve_decision. Defined.

(** [_validate_filter] *)
Definition _validate_filter (v : HostFilter) : HostFilter :=
  match v with
  | FHost s => FHost (if startswith "*." s then removeprefix "*" s else s)
  | v => v
  end.

(** [ip in network] *)
Definition in_network (bits : nat) (base : Z) (prefix : nat) (a : Z) : bool :=
  bool_decide (Z.shiftr a (Z.of_nat (bits - prefix)) = Z.shiftr base (Z.of_nat (bits - prefix))).

(** [match_ip]; an [IPv6Address] filter has no case *)
Definition match_ip (ip : Address) (f : HostFilter) (hostname : option string) : bool :=
  match f with
  | FAddress (IPv4Address a) => bool_decide (ip = IPv4Address a)
  | FAddress (IPv6Address _) => false
  | FNetwork4 base prefix =>
      match ip with IPv4Address a => in_network 32 base prefix a | IPv6Address _ => false end
  | FNetwork6 base prefix =>
      match ip with IPv6Address a => in_network 128 base prefix a | IPv4Address _ => false end
  | FHost s =>
      match hostname with
      | Some h => if str_truth h
                  then if startswith "." s then endswith s h else bool_decide (s = h)
                  else false
      | None => false
      end
  end.

Inductive Order : Type := OAllow | ODeny.
Record Config : Type := MkConfig { order : Order; allow : list HostFilter; deny : list HostFilter }.

Definition allow_ip (c : Config) (ip : Address) (h : option string) : bool :=
  existsb (fun f => match_ip ip f h) (allow c).
Definition deny_ip (c : Config) (ip : Address) (h : option string) : bool :=
  existsb (fun f => match_ip ip f h) (deny c).

(** [check_ip] *)
Definition check_ip (c : Config) (ip : Address) (h : option string) : bool :=
  match order c with
  | OAllow => negb (deny_ip c ip h) || allow_ip c ip h
  | ODeny => allow_ip c ip h && negb (deny_ip c ip h)
  end.

(** [check_hostname]: of an address, or of a name and the addresses it resolves to *)
Definition check_hostname (c : Config) (host : Address + string) (resolved : list Address) : bool :=
  match host with
  | inl ip => check_ip c ip None
  | inr name => existsb (fun ip => check_ip c ip (Some name)) resolved
  end.
End AccessControl.

(** ** Properties *)
Section listing.
Context {R : Type} `{!Redis R} {C : Type} (cel : Celery C) (py : Pydantic).
Context (utc : Z → string) (timestamp_of : string → Z) (now : Z).
Context (services : ServiceDict) (realms : JobRealm.JobRealmConfig).

Abbreviation pull_ := (pull cel utc timestamp_of now).
Abbreviation jobs_ := (_jobs cel utc timestamp_of now services).
Abbreviation list_ := (list_jobs cel py utc timestamp_of now services realms).

(** Pulling less gives a prefix. *)
Lemma pull_take m n dests b wd ids (s : Ex R C) l :
  m ≤ n → pull_ n dests b services wd ids s = Ok l →
  pull_ m dests b services wd ids s = Ok (take m l).
Proof.
  revert m n l. induction ids as [|id ids IH]; intros m n l Hmn.
  { destruct m, n; simpl; intros [= <-]; by rw ?take_nil. }
  destruct m as [|m]; [done|]. destruct n as [|n]; [lia|]. simpl. py_unfold.
  destruct (find_job id None (ex_redis s)) as [[ti|]|]; [| |done]; [|by apply IH].
  destruct (_job_status _ _ _ _ _ _ _) as [st|]; [|done].
  destruct (match st with Some st => Some st | None => _ end) as [st'|]; [|by apply IH].
  destruct (pull_ n dests b services wd ids s) as [sts|] eqn:E; [|done]. intros [= <-].
  by rw (IH m n sts ltac:(lia) E).
Qed.

(** A window of the jobs is the window of the whole list. *)
Lemma jobs_window sv rl cursor limit total wd (s : Ex R C) all :
  cursor + limit ≤ total → jobs_ sv rl 0 total wd s = Ok all →
  jobs_ sv rl cursor limit wd s = Ok (take limit (drop cursor all)).
Proof.
  rw /_jobs. py_unfold. intros Hle.
  destruct (pull_ total _ _ _ _ _ _) as [l|] eqn:E; [|done]. intros [= <-].
  erewrite pull_take; [| |exact E]; [|lia]. by rw drop_0 take_drop_commute.
Qed.

Lemma job_selected_all st : job_selected [] [] st = true.
Proof. done. Qed.

(** The numbers of a page are within their bounds. *)
Lemma limit_bounds rq l : validate_param (LimitParam py) rq "limit" 10%Z = Ok l → (1 ≤ l < 1000)%Z.
Proof.
  rw /validate_param /LimitParam. destruct (assoc _ _) as [v|]; [|intros [= <-]; lia].
  destruct (int_validate py v) as [z|]; simpl; [|done]. case_decide; [by intros [= <-]|done].
Qed.

Lemma page_bounds rq p : validate_param (PageParam py) rq "page" 1%Z = Ok p → (1 ≤ p)%Z.
Proof.
  rw /validate_param /PageParam. destruct (assoc _ _) as [v|]; [|intros [= <-]; lia].
  destruct (int_validate py v) as [z|]; simpl; [|done]. case_decide; [by intros [= <-]|done].
Qed.

(** The links of a request whose public url is well formed. *)
Definition links_ok (rq : WebRequest) (base : string) : Prop :=
  assoc "public_url" (wr_items rq) = Some base ∧ ∀ path, ∃ u, HttpUrl py (base +:+ path) = Ok u.

Lemma make_link_ok rq base rel path title :
  links_ok rq base → ∃ u, HttpUrl py (base +:+ path) = Ok u ∧
    make_link (HttpUrl py) rq rel path title = Ok (MkLink u rel "application/json" title).
Proof.
  intros [Hb Hu]. destruct (Hu path) as [u Hp]. exists u. split; [done|].
  rw /make_link /make_link_as /href /public_url Hb. py_unfold. by rw Hp.
Qed.

Lemma list_links_ok rq base st : links_ok rq base → ∃ l, list_links py rq st = Ok l.
Proof.
  intros Hl. rw /list_links.
  destruct (make_link_ok rq base "related" (format_path ("/jobs/" +:+ st_job_id st) None None None)
    "Job details" Hl) as (u & _ & H1).
  case_decide.
  - destruct (make_link_ok rq base RESULTS_REL
      (format_path ("/jobs/" +:+ st_job_id st +:+ "/results") None None None +:+ "/results")
      "Job results" Hl) as (u2 & _ & H2).
    rw /seq_res H1 H2. py_unfold. eauto.
  - rw /seq_res H1. py_unfold. eauto.
Qed.

Lemma seq_res_map {A B} (f : A → res B) (l : list A) :
  (∀ x, x ∈ l → ∃ y, f x = Ok y) →
  ∃ ys, seq_res ((fun x => y ← f x; Ok (x, y)) <$> l) = Ok ys ∧ ys.*1 = l.
Proof.
  induction l as [|x l IH]; intros Hf; [by exists []|].
  destruct (Hf x) as [y Hy]; [set_solver|]. destruct IH as (ys & Hys & Hl); [set_solver|].
  exists ((x, y) :: ys). csimpl. py_unfold. rw Hy Hys. py_unfold. by rw Hl.
Qed.

(** The pages of the job list are consecutive windows of one list: without
    filters, page [p] holds the jobs from [(p - 1) * limit] on, at most
    [limit] of them; it links to itself, to a next page exactly when it is full
    and to a previous one exactly when it is not the first. *)
Theorem list_jobs_page rq base limit page rl total (s : Ex R C) all :
  validate_param (LimitParam py) rq "limit" 10%Z = Ok limit →
  validate_param (PageParam py) rq "page" 1%Z = Ok page →
  getall "processID" (wr_query rq) = [] → getall "status" (wr_query rq) = [] →
  JobRealm.job_realm realms rq = Ok rl → links_ok rq base →
  Z.to_nat (page * limit) ≤ total →
  jobs_ (assoc "service" (wr_query rq)) rl 0 total false s = Ok all →
  let path p := base +:+ page_path rq limit p in
  ∃ jl self next prev, list_ rq s = Ok (json_response jl) ∧
    (jl_jobs jl).*1 = take (Z.to_nat limit) (drop (Z.to_nat ((page - 1) * limit)) all) ∧
    HttpUrl py (path page) = Ok self ∧ HttpUrl py (path (page + 1)%Z) = Ok next ∧
    HttpUrl py (path (page - 1)%Z) = Ok prev ∧
    jl_links jl = MkLink self "self" "application/json" "Job list" ::
      (if decide (Z.to_nat (page * limit) ≤ length all)
       then [MkLink next "next" "application/json" "Job list"] else []) ++
      (if decide (1 < page)%Z then [MkLink prev "prev" "application/json" "Job list"] else []).
Proof.
  intros Hlim Hpage Hpid Hst Hrl Hlinks Htot Hall path.
  pose proof (limit_bounds _ _ Hlim) as Hl. pose proof (page_bounds _ _ Hpage) as Hp.
  assert (Z.to_nat (page * limit) = Z.to_nat ((page - 1) * limit) + Z.to_nat limit) as Hsum by nia.
  set (win := take (Z.to_nat limit) (drop (Z.to_nat ((page - 1) * limit)) all)).
  destruct (seq_res_map (list_links py rq) win) as (ls & Hls & Hwin).
  { intros st _. by eapply list_links_ok. }
  destruct (make_link_ok rq base "self" (page_path rq limit page) "Job list" Hlinks) as (us & Hus & Hself).
  destruct (make_link_ok rq base "next" (page_path rq limit (page + 1)) "Job list" Hlinks) as (un & Hun & Hnext).
  destruct (make_link_ok rq base "prev" (page_path rq limit (page - 1)) "Job list" Hlinks) as (up & Hup & Hprev).
  eexists (MkJobList ls _), us, un, up. split; [|split_and!; done].
  rw /list_jobs Hlim Hpage Hrl Hpid Hst. py_unfold.
  erewrite jobs_window; [| |exact Hall]; [|lia]. fold win. rw (filter_id _ win) // Hls.
  rw (decide_ext (limit ≤ Z.of_nat (length win))%Z (Z.to_nat (page * limit) ≤ length all)).
  { rw /win length_take length_drop. lia. }
  rw Hself Hnext Hprev. by repeat case_decide.
Qed.

Lemma assoc_same_ne (k k' : string) (l : list string) r :
  k ≠ k' → assoc k (((fun v => (k', v)) <$> l) ++ r) = assoc k r.
Proof. intros Hk. induction l as [|x l IH]; [done|]. csimpl. by rw decide_False. Qed.

Lemma getall_app k l r : getall k (l ++ r) = getall k l ++ getall k r.
Proof. by rw /getall filter_app fmap_app. Qed.

Lemma getall_same k k' (l : list string) :
  getall k ((fun v => (k', v)) <$> l) = if decide (k' = k) then l else [].
Proof.
  rw /getall. induction l as [|x l IH]; [by case_decide|]. csimpl. rw filter_cons /=.
  case_decide; csimpl; by rw IH.
Qed.

(** Following the link of a page asks for that page: the query of its path gives
    back the numbers, the filters and the service. *)
Theorem page_query_roundtrip rq rq' limit page :
  (∀ z, int_validate py (str_of_int z) = Some z) →
  Forall (fun x => str_truth x = true) (getall "processID" (wr_query rq)) →
  Forall (fun x => str_truth x = true) (getall "status" (wr_query rq)) →
  (1 ≤ limit < 1000)%Z → (1 ≤ page)%Z →
  wr_query rq' = parse_qsl (urlencode (page_params rq limit page)) →
  validate_param (LimitParam py) rq' "limit" 10%Z = Ok limit ∧
  validate_param (PageParam py) rq' "page" 1%Z = Ok page ∧
  getall "processID" (wr_query rq') = getall "processID" (wr_query rq) ∧
  getall "status" (wr_query rq') = getall "status" (wr_query rq) ∧
  default "" (assoc "service" (wr_query rq')) = default "" (assoc "service" (wr_query rq)).
Proof.
  intros Hint Hpid Hst Hl Hp Hq. rw /validate_param /LimitParam /PageParam Hq parse_urlencode.
  { rw /page_params. repeat apply Forall_cons_2; simpl; try done.
    - apply str_of_int_truth.
    - destruct (str_truth _) eqn:E; by repeat constructor.
    - apply str_of_int_truth. }
  rw /page_params. csimpl. rw !assoc_same_ne // !getall_app !getall_same.
  set (sv := default "" _). destruct (str_truth sv) eqn:Hsv; simpl; rw !Hint /=.
  all: rw !decide_True // !app_nil_r. split_and!; try done. by destruct sv.
Qed.

(** The realm of a client is never read: with realms enabled, listing jobs
    is refused with status 401 whatever the headers of the request are, because
    the realm is looked for in the mapping of the request instead of its
    headers. *)
Theorem list_jobs_unauthorized rq limit page (s : Ex R C) :
  JobRealm.enabled realms = true → assoc JobRealm.JOB_REALM_HEADER (wr_items rq) = None →
  validate_param (LimitParam py) rq "limit" 10%Z = Ok limit →
  validate_param (PageParam py) rq "page" 1%Z = Ok page →
  list_ rq s = Raise (HTTPException 401 "Unauthorized").
Proof.
  intros He Hi Hl Hp. rw /list_jobs Hl Hp. py_unfold. rw /JobRealm.job_realm He Hi //.
Qed.
End listing.

Section logs.
Context {R : Type} `{!Redis R} {C : Type} (cel : Celery C) (py : Pydantic) (v : Validators).
Context (services : ServiceDict) (realms : JobRealm.JobRealmConfig).

(** The log of a job that is not registered is not answered with the status 404
    the handler has for it: the missing answer is validated as a log, and the
    [ValidationError] this raises leaves the handler. *)
Theorem job_log_unknown rnd rq id rl msg (s : Ex R C) :
  match_info "JobId" rq = Ok id → JobRealm.job_realm realms rq = Ok rl →
  find_job id rl (ex_redis s) = Ok None → validate_log v JNull = Raise (ValidationError msg) →
  job_log cel py v services realms rnd rq s = (Raise (ValidationError msg), s).
Proof.
  intros Hid Hrl Hf Hv. rw /job_log /_log_details /_job_command. py_unfold.
  rw Hid Hrl Hf /=. by rw Hv.
Qed.
End logs.

(** A filter that is an IPv6 address is without effect: whatever it denies
    or allows, taking it out of both lists changes no decision. *)
Theorem ipv6_filters_ignored (o : AccessControl.Order) (al de : list AccessControl.HostFilter)
    (ip : AccessControl.Address) (h : option string) :
  let not_v6 f := match f with AccessControl.FAddress (AccessControl.IPv6Address _) => false | _ => true end in
  let keep := List.filter not_v6 in
  AccessControl.check_ip (AccessControl.MkConfig o al de) ip h =
  AccessControl.check_ip (AccessControl.MkConfig o (keep al) (keep de)) ip h.
Proof.
  intros not_v6 keep.
  assert (∀ l, existsb (fun f => AccessControl.match_ip ip f h) (keep l) =
    existsb (fun f => AccessControl.match_ip ip f h) l) as Hk.
  { induction l as [|f l IH]; [done|]. simpl. rw -IH. by destruct f as [[]| | |]. }
  by rw /AccessControl.check_ip /AccessControl.allow_ip /AccessControl.deny_ip /= !Hk.
Qed.

(** ** Witnesses *)
Import CeleryDemo.

Module JobsDemo.
Definition py : Pydantic :=
  MkPydantic (fun v => match int_of_str v with Ok z => Some z | Raise _ => None end)
    (fun v => Some (bool_decide (v = "true"))) (fun u => Ok u).
Definition no_realm : JobRealm.JobRealmConfig := JobRealm.MkRealmConfig false [].
Definition request (headers query : list (string * string)) : WebRequest :=
  MkWebRequest "GET" "http" "localhost" "/jobs/" None headers query
    [("public_url", "http://localhost")] [("JobId", "no-job")] [] "".
Definition refuse {A} (j : JsonValue) : res A := Raise (ValidationError "model").
Definition validators : Validators := MkValidators refuse refuse refuse.
Definition pending : JobStatus :=
  MkStatus "job-1" PENDING "buffer" "" None None None None (Some "Task pending") (Some "") None None.
Definition state : Ex RedisDemo.store nat := MkEx (drop 1 (ex_redis sent.2)) 0.
End JobsDemo.
Import JobsDemo.

Lemma list_jobs_page_witness :
  let path p := "http://localhost" +:+ page_path (request [] [("limit", "1")]) 1 p in
  ∃ jl self next prev,
    list_jobs app py (fun _ => "") (fun _ => 0%Z) 1010 services no_realm (request [] [("limit", "1")]) state
      = Ok (json_response jl) ∧
    (jl_jobs jl).*1 = take (Z.to_nat 1) (drop (Z.to_nat ((1 - 1) * 1)) [pending]) ∧
    HttpUrl py (path 1%Z) = Ok self ∧ HttpUrl py (path (1 + 1)%Z) = Ok next ∧
    HttpUrl py (path (1 - 1)%Z) = Ok prev ∧
    jl_links jl = MkLink self "self" "application/json" "Job list" ::
      (if decide (Z.to_nat (1 * 1) ≤ length [pending])
       then [MkLink next "next" "application/json" "Job list"] else []) ++
      (if decide (1 < 1)%Z then [MkLink prev "prev" "application/json" "Job list"] else []).
Proof.
  apply (list_jobs_page app py (fun _ => "") (fun _ => 0%Z) 1010 services no_realm
    (request [] [("limit", "1")]) "http://localhost" 1 1 None 5 state [pending]).
  - reflexivity.
  - reflexivity.
  - reflexivity.
  - reflexivity.
  - reflexivity.
  - split; [reflexivity|]. intros path. by eexists.
  - vm_compute. lia.
  - vm_compute. reflexivity.
Defined.

Lemma page_query_roundtrip_witness :
  let rq := request [] [("processID", "a b&c"); ("service", "svc")] in
  let rq' := request [] (parse_qsl (urlencode (page_params rq 10 3))) in
  validate_param (LimitParam py) rq' "limit" 10%Z = Ok 10%Z ∧
  validate_param (PageParam py) rq' "page" 1%Z = Ok 3%Z ∧
  getall "processID" (wr_query rq') = ["a b&c"] ∧
  getall "status" (wr_query rq') = [] ∧ default "" (assoc "service" (wr_query rq')) = "svc".
Proof.
  intros rq rq'. apply (page_query_roundtrip py rq rq' 10 3).
  - intros z. simpl. by rw int_of_str_of_int.
  - by repeat constructor.
  - by repeat constructor.
  - lia.
  - lia.
  - reflexivity.
Defined.

Lemma list_jobs_unauthorized_witness :
  list_jobs app py (fun _ => "") (fun _ => 0%Z) 1010 services (JobRealm.MkRealmConfig true ["admin-token"])
    (request [("X-Job-Realm", "admin-token")] []) sent.2 = Raise (HTTPException 401 "Unauthorized").
Proof.
  apply (list_jobs_unauthorized app py (fun _ => "") (fun _ => 0%Z) 1010 services
    (JobRealm.MkRealmConfig true ["admin-token"]) (request [("X-Job-Realm", "admin-token")] []) 10 1 sent.2).
  - reflexivity.
  - reflexivity.
  - reflexivity.
  - reflexivity.
Defined.

Lemma job_log_unknown_witness :
  job_log app py validators services no_realm 0 (request [] []) sent.2 =
  (Raise (ValidationError "model"), sent.2).
Proof.
  apply (job_log_unknown app py validators services no_realm 0 (request [] []) "no-job" None "model" sent.2).
  - reflexivity.
  - reflexivity.
  - vm_compute. reflexivity.
  - reflexivity.
Defined.
