(* ===== verification/ProcessesApi.v ===== *)
(** * Publishing and executing processes

    [qjazz_processes/server]: the cache of process summaries of the executor of
    the server ([executor.py]), the handlers of processes
    ([_handlers/processes.py]), services ([_handlers/services.py]) and of the
    landing page ([_handlers/landingpage.py]), and the task that keeps the list
    of services up to date ([cache.py]).  The summaries are shared by the cache
    and by the handlers that write their links. *)
From S2P Require Import Prelude PyDict PyStd Json Web Registry Executor JobsApi.

(** ** Data *)

(** [MetadataLink], [MetadataValue] *)
Inductive Metadata : Type :=
| MdLink (role : option string) (href title : string)
| MdValue (role title : option string) (value : JsonValue).

(** [ProcessSummary] *)
Record ProcessSummary : Type := MkSummary {
  ps_id : string; ps_title : string; ps_metadata : list Metadata;
  ps_job_control_options : list string; ps_links : list Link;
}.
Definition set_links (l : list Link) (p : ProcessSummary) : ProcessSummary :=
  MkSummary (ps_id p) (ps_title p) (ps_metadata p) (ps_job_control_options p) l.

(** [get_annotation] *)
Fixpoint get_annotation_in (role : string) (mds : list Metadata) : bool :=
  match mds with
  | [] => false
  | MdValue (Some r) _ v :: mds => if decide (r = role) then json_truth v else get_annotation_in role mds
  | _ :: mds => get_annotation_in role mds
  end.
Definition get_annotation (role : string) (p : ProcessSummary) : bool :=
  get_annotation_in role (ps_metadata p).

(** ** executor.py *)

(** [ProcessCache] *)
Record ProcessCache : Type := MkProcessCache { pc_timestamp : Z; pc_processes : list ProcessSummary }.
Definition pc_get (ident : string) (c : ProcessCache) : option ProcessSummary :=
  snd <$> list_find (fun p => ps_id p = ident) (pc_processes c).

(** The state of the executor: the connections, the services it was told of and
    when, and the summaries by service. *)
Record Sv (R C : Type) : Type := MkSv {
  sv_ex : Ex R C; sv_services : ServiceDict; sv_last_updated : Z;
  sv_cache : pydict string ProcessCache;
}.
Arguments MkSv {_ _} _ _ _ _.
Arguments sv_ex {_ _} _.
Arguments sv_services {_ _} _.
Arguments sv_last_updated {_ _} _.
Arguments sv_cache {_ _} _.

(** What the replies about processes are validated to. *)
Record ProcessValidators : Type := MkProcessValidators {
  validate_summaries : JsonValue → res (list ProcessSummary);
  validate_description : JsonValue → res ProcessSummary;
  validate_presence : JsonValue → res Presence;
  validate_request : string → res JsonValue;
}.

(** The access policy of the server: an interface that deployments implement. *)
Record AccessPolicy : Type := MkPolicy {
  service_permission : WebRequest → string → bool;
  execute_permission : WebRequest → string → string → option string → bool;
  pol_get_service : ServiceDict → WebRequest → res string;
  pol_get_project : WebRequest → option string;
}.

(** [DefaultAccessPolicy] *)
Definition DefaultAccessPolicy (service_order : list string) : AccessPolicy := {|
  service_permission _ _ := true;
  execute_permission _ _ _ _ := true;
  pol_get_service := policy_get_service service_order;
  pol_get_project := policy_get_project;
|}.

(** ** Preferences *)
Definition is_space (a : ascii) : bool :=
  let n := N_of_ascii a in ((9 <=? n) && (n <=? 13) || (28 <=? n) && (n <=? 32))%N.
Fixpoint rstrip (s : string) : string :=
  match s with
  | "" => ""
  | String a s => match rstrip s with
                  | "" => if is_space a then "" else String a ""
                  | s => String a s
                  end
  end.
Definition strip (s : string) : string := rstrip (lstrip is_space s).

(** [ExecutePrefs] *)
Record ExecutePrefs : Type := MkPrefs {
  execute_async : bool; wait : option Z; priority : option Z; delay : option Z;
}.
Definition execute_sync (p : ExecutePrefs) : bool :=
  bool_decide (delay p = None) && (negb (execute_async p) || bool_decide (wait p ≠ None)).

Section prefs.
Context (int_validate : string → option Z).
Definition as_seconds (s : string) : option Z :=
  z ← int_validate s; if decide (0 < z)%Z then Some z else None.
Definition as_priority (s : string) : option Z :=
  z ← int_validate s; if decide (0 ≤ z < 10)%Z then Some z else None.

(** One preference; an invalid value is logged and ignored *)
Definition add_pref (p : ExecutePrefs) (pref : string) : ExecutePrefs :=
  if decide (pref = "respond-async") then MkPrefs true (wait p) (priority p) (delay p)
  else if startswith "wait=" pref then
    match as_seconds (removeprefix "wait=" pref) with
    | Some z => MkPrefs (execute_async p) (Some z) (priority p) (delay p) | None => p end
  else if startswith "priority=" pref then
    match as_priority (removeprefix "priority=" pref) with
    | Some z => MkPrefs (execute_async p) (wait p) (Some z) (delay p) | None => p end
  else if startswith "delay=" pref then
    match as_seconds (removeprefix "delay=" pref) with
    | Some z => MkPrefs (execute_async p) (wait p) (priority p) (Some z) | None => p end
  else p.

(** [ExecutePrefs.__init__] *)
Definition execute_prefs (rq : WebRequest) : ExecutePrefs :=
  foldl add_pref (MkPrefs false None None None)
    (headers_getall "Prefer" (wr_headers rq) ≫= fun h => (fun p => lower (strip p)) <$> split "," h).
End prefs.

(** [TagParam] *)
Definition TagParam (v : string) : option (option string) :=
  if (String.length v <=? 36)%nat then Some (Some v) else None.

Definition QJAZZ_IDENTITY_HEADER : string := "X-QJazz-Identity".
Definition JOB_ID_HEADER : string := "X-Job-Id".
Definition PROCESSES_REL : string := "http://www.opengis.net/def/rel/ogc/1.0/processes".

(** What an execution answers: its results, or the status of its job. *)
Inductive ExecBody : Type :=
| EResults (results : list (string * JsonValue))
| EStatus (st : JobStatus) (links : list Link).

(** [StoreConfig], as far as its credentials are read *)
Record StoreConfig : Type := MkStoreConfig {
  st_endpoint : string; st_access_key : string; st_secret_key : string; st_access_ttl : Z;
  st_enable_tls : bool; st_check_certificat : bool; st_region : option string;
}.
(** [StoreCreds] *)
Record StoreCreds : Type := MkCreds {
  cr_endpoint : string; cr_access_key : string; cr_secret_key : string;
  cr_region : option string; cr_secure : bool; cr_cert_check : bool;
}.

(** [Store.store_creds] *)
Definition store_creds (store : option StoreConfig) : res StoreCreds :=
  match store with
  | None => error_raises 409 "Store not configured on server"
  | Some c => Ok (MkCreds (st_endpoint c) (st_access_key c) (st_secret_key c) (st_region c)
                    (st_enable_tls c) (st_check_certificat c))
  end.

(** [Processes.get_identity] *)
Definition get_identity (rq : WebRequest) : res string :=
  let identity := default "" (header QJAZZ_IDENTITY_HEADER (wr_headers rq)) in
  if str_truth identity then Ok identity else error_raises 401 "Identity required".

Section handlers.
Context {R : Type} `{!Redis R} {C : Type} (cel : Celery C) (py : Pydantic) (pv : ProcessValidators).
Context (utc : Z → string) (timestamp_of : string → Z) (now : Z) (created_at : string * Z).
Context (pol : AccessPolicy) (realms : JobRealm.JobRealmConfig) (store : option StoreConfig).
Context (timeout default_timeout : Z) (rnd : nat) (uuid : string).

Definition on_ex {A} (m : M (Ex R C) A) : M (Sv R C) A :=
  zoom sv_ex (fun e s => MkSv e (sv_services s) (sv_last_updated s) (sv_cache s)) m.

Definition set_cache (c : pydict string ProcessCache) : M (Sv R C) unit :=
  modify (fun s => MkSv (sv_ex s) (sv_services s) (sv_last_updated s) c).

(** [AsyncExecutor.update_services], [ExecutorBase._update_services] *)
Definition sv_update_services : M (Sv R C) ServiceDict :=
  services ← on_ex (update_services cel (validate_presence pv));
  modify (fun s => MkSv (sv_ex s) services now (sv_cache s));;
  mret services.

(** [Processes._processes], [AsyncExecutor.processes] *)
Definition fetch_processes (service : string) : M (Sv R C) (list ProcessSummary) :=
  s ← get;
  dests ← pure (ensure_destinations service (sv_services s));
  r ← on_ex (command cel rnd "list_processes" dests false true []);
  pure (validate_summaries pv r).

(** [Processes._describe], [AsyncExecutor.describe] *)
Definition describe (service ident : string) (project : option string) :
    M (Sv R C) (option ProcessSummary) :=
  s ← get;
  dests ← pure (ensure_destinations service (sv_services s));
  r ← on_ex (command cel rnd "describe_process" dests false true
               [("ident", JStr ident); ("project_path", opt_json project)]);
  if json_truth r then td ← pure (validate_description pv r); mret (Some td) else mret None.

(** [Executor._update_processes_cache] *)
Definition _update_processes_cache (service : string) : M (Sv R C) ProcessCache :=
  ps ← fetch_processes service;
  let cache := MkProcessCache now ps in
  s ← get;
  set_cache (PyDict.insert service cache (sv_cache s));;
  mret cache.

(** [Executor.processes] *)
Definition processes (service : string) : M (Sv R C) (list ProcessSummary) :=
  s ← get;
  match lookup service (sv_services s) with
  | None => raise (ServiceNotAvailable service)
  | Some (_, pr) =>
      match lookup service (sv_cache s) with
      | Some cached =>
          if decide (pc_timestamp cached < pr_online_since pr)%Z
          then c ← _update_processes_cache service; mret (pc_processes c)
          else mret (pc_processes cached)
      | None => c ← _update_processes_cache service; mret (pc_processes c)
      end
  end.

(** [Executor.get_process_summary] *)
Definition get_process_summary (service ident : string) : M (Sv R C) (option ProcessSummary) :=
  processes service;;
  s ← get;
  mret (c ← lookup service (sv_cache s); pc_get ident c).

(** ** _handlers/processes.py *)

Definition self_link (rq : WebRequest) (rel path title : string) : res Link :=
  make_link (HttpUrl py) rq rel path title.

(** [_process_filter] of [list_processes] on one summary: the link it writes in
    the summary that the cache holds, if it is listed *)
Definition process_filter (rq : WebRequest) (service : string) (td : ProcessSummary) :
    res (option ProcessSummary) :=
  if execute_permission pol rq service (ps_id td) None then
    l ← self_link rq PROCESSES_REL
          (format_path ("/processes/" +:+ ps_id td) (Some service) None None) "Process description";
    Ok (Some (set_links (l :: ps_links td) td))
  else Ok None.

(** The summaries after the filter: those that were written, in place, and the
    error that stopped it if one did; and the ones that are listed *)
Fixpoint filter_processes (rq : WebRequest) (service : string) (tds : list ProcessSummary) :
    list ProcessSummary * res (list ProcessSummary) :=
  match tds with
  | [] => ([], Ok [])
  | td :: tds =>
      match process_filter rq service td with
      | Raise e => (td :: tds, Raise e)
      | Ok o =>
          let '(stored, r) := filter_processes rq service tds in
          (default td o :: stored, l ← r; Ok (match o with Some p => p :: l | None => l end))
      end
  end.

(** [Processes.list_processes] *)
Definition list_processes (rq : WebRequest) : M (Sv R C) (Response (list ProcessSummary * list Link)) :=
  s ← get;
  service ← pure (pol_get_service pol (sv_services s) rq);
  tds ← try_except (processes service)
    (fun e => match e with
              | CeleryTimeoutError => Some (pure (error_raises 503 "Service is not available"))
              | _ => None
              end);
  s ← get;
  let '(stored, listed) := filter_processes rq service tds in
  match lookup service (sv_cache s) with
  | Some c => set_cache (PyDict.insert service (MkProcessCache (pc_timestamp c) stored) (sv_cache s))
  | None => mret tt
  end;;
  listed ← pure listed;
  l ← pure (self_link rq "self" (format_path "/processes/" (Some service) None None) "Processes list");
  mret (json_response (listed, [l])).

(** [Processes.check_process_permission] *)
Definition check_process_permission (rq : WebRequest) (service process_id : string) (project : option string) :
    res unit :=
  if execute_permission pol rq service process_id project then Ok tt
  else error_raises 403 ("Process " +:+ process_id +:+ " not available").

(** [Handler.get_project] *)
Definition handler_get_project (rq : WebRequest) : option string :=
  (fun p => if str_truth p && negb (startswith "/" p) then "/" +:+ p else p) <$> pol_get_project pol rq.

(** [Processes.describe_process] *)
Definition describe_process (rq : WebRequest) : M (Sv R C) (Response (ProcessSummary * list Link)) :=
  s ← get;
  service ← pure (pol_get_service pol (sv_services s) rq);
  let project := handler_get_project rq in
  process_id ← pure (match_info "Ident" rq);
  pure (check_process_permission rq service process_id project);;
  td ← try_except (describe service process_id project)
    (fun e => match e with
              | CeleryTimeoutError =>
                  Some (pure (error_raises 503 ("Service " +:+ service +:+ " is not available")))
              | ServiceNotAvailable _ => Some (pure (error_raises 403 "Service not available"))
              | _ => None
              end);
  match td with
  | None => raise (HTTPException 403 (process_id +:+ " not available"))
  | Some td =>
      links ← pure (seq_res
        [self_link rq "self"
           (format_path ("/processes/" +:+ process_id) (Some service) project None) "Process description";
         self_link rq (PROCESSES_REL +:+ "]")
           (format_path ("/processes/" +:+ process_id +:+ "/execution") (Some service) project None)
           "Execute process"]);
      mret (json_response (td, links ++ ps_links td))
  end.

(** [Processes.create_run_context]; the configuration of the store has no
    attribute of the name that is read, [acces_ttl] *)
Definition create_run_context (process : ProcessSummary) (rq : WebRequest) :
    res (list (string * JsonValue)) :=
  public ← public_url rq "";
  if get_annotation "RequireStore" process then
    creds ← store_creds store;
    identity ← get_identity rq;
    Raise (OtherException "AttributeError: acces_ttl")
  else Ok [("public_url", JStr public)].

(** The links of the status of a new job, and its location *)
Definition execution_links (rq : WebRequest) (service : string) (project : option string) (st : JobStatus) :
    res (list Link * string) :=
  let location := format_path ("/jobs/" +:+ st_job_id st) None None None in
  let results := format_path ("/jobs/" +:+ st_job_id st +:+ "/results") None None None in
  links ← seq_res
    ([self_link rq "http://www.opengis.net/def/rel/iana/1.0/status" location "job status";
      self_link rq "self"
        (format_path ("/processes/" +:+ st_process_id st +:+ "/execution") (Some service) project None)
        "job execution"] ++
     (if decide (st_status st = SUCCESS) then [self_link rq RESULTS_REL results ""] else []));
  Ok (links, if decide (st_status st = SUCCESS) then results else location).

Definition realm_headers (realm : option string) : list (string * string) :=
  match realm with
  | Some r => if str_truth r then [(JobRealm.JOB_REALM_HEADER, r)] else []
  | None => []
  end.

(** The answer to a job that goes on *)
Definition accepted (rq : WebRequest) (service : string) (project realm : option string)
    (id : string) (status : JobStatus) : M (Sv R C) (Response ExecBody) :=
  s ← get;
  st ← pure (_get_status cel utc timestamp_of (sv_services s) service id status (sv_ex s));
  ll ← pure (execution_links rq service project st);
  location ← pure (href rq ll.2);
  mret (MkResponse 202 (("Location", location) :: realm_headers realm) (BModel (EStatus st ll.1))).

(** The wait for the result of a synchronous execution; [None] is to go on with
    an asynchronous answer *)
Definition wait_result (process_id : string) (realm : option string) (prefer : ExecutePrefs) (id : string) :
    M (Sv R C) (option (Response ExecBody)) :=
  s ← get;
  match _get_result cel id (Some (match wait prefer with Some w => w | None => timeout end)) (sv_ex s) with
  | Ok results =>
      mret (Some (MkResponse 200 ((JOB_ID_HEADER, id) :: realm_headers realm) (BModel (EResults results))))
  | Raise CeleryTimeoutError =>
      if execute_async prefer then mret None
      else on_ex (_dismiss cel utc now id (sv_services s) None);;
           raise (HTTPException 504 "Gateway Timeout")
  | Raise (InputValueError response) => raise (HTTPException 400 response)
  | Raise (RunProcessException _) =>
      mret (Some (error_response 500 "Internal processing error" [("jobId", id)]))
  | Raise (ProcessNotFound _) => raise (HTTPException 404 (process_id +:+ " not found"))
  | Raise (ProjectRequired _) => raise (HTTPException 400 (process_id +:+ " require a project"))
  | Raise e => raise e
  end.

(** The arguments of the execution. *)
Definition exec_args (service process_id : string) (request : JsonValue) (project : option string)
    (context : list (string * JsonValue)) (realm tag : option string) (prefer : ExecutePrefs) (sync : bool) :
    ExecArgs :=
  MkExecArgs service process_id request project (Some context) realm (wait prefer) tag
    (match priority prefer with
     | Some p => if JobRealm.is_admin realms realm then p else 0%Z
     | None => 0%Z
     end)
    (if sync then None else delay prefer).

(** [Processes.execute_process] *)
Definition execute_process (rq : WebRequest) : M (Sv R C) (Response ExecBody) :=
  tag ← pure (validate_param TagParam rq "tag" None);
  s ← get;
  service ← pure (pol_get_service pol (sv_services s) rq);
  let project := handler_get_project rq in
  process_id ← pure (match_info "Ident" rq);
  pure (check_process_permission rq service process_id project);;
  request ← try_except (pure (validate_request pv (wr_text rq)))
    (fun e => match e with ValidationError m => Some (raise (HTTPException 400 m)) | _ => None end);
  let prefer := execute_prefs (int_validate py) rq in
  realm ← pure (JobRealm.get_job_realm realms rq uuid);
  process ← get_process_summary service process_id;
  match process with
  | None => mret (error_response 404 "Process not found" [("processId", process_id)])
  | Some process =>
      let sync := execute_sync prefer &&
                  bool_decide ("sync-execute" ∈ ps_job_control_options process) in
      context ← pure (create_run_context process rq);
      s ← get;
      ids ← on_ex (_execute cel (sv_services s) default_timeout created_at
        (exec_args service process_id request project context realm tag prefer sync));
      if sync then
        r ← wait_result process_id realm prefer ids.1;
        match r with
        | Some r => mret r
        | None => accepted rq service project realm ids.1 ids.2
        end
      else accepted rq service project realm ids.1 ids.2
  end.
End handlers.

(** ** _handlers/services.py *)

(** [ServiceItem] *)
Record ServiceItem : Type := MkServiceItem {
  si_name : string; si_title : string; si_description : string; si_qgis_version_info : Z;
  si_version_details : list string; si_callbacks : list string; si_links : list Link;
}.

Section services.
Context (py : Pydantic) (pol : AccessPolicy).
Definition JOB_LIST_REL : string := "http://www.opengis.net/def/rel/ogc/1.0/job-list".

(** [ServiceItem.from_details]; a worker that has no version of QGIS is refused
    by the model *)
Definition from_details (rq : WebRequest) (d : Presence) : res ServiceItem :=
  links ← seq_res
    [make_link (HttpUrl py) rq PROCESSES_REL
       (format_path "/processes/" (Some (pr_service d)) None None) "Services processes";
     make_link (HttpUrl py) rq JOB_LIST_REL
       (format_path "/jobs/" (Some (pr_service d)) None None) "Job list"];
  match pr_qgis_version_info d with
  | Some v => Ok (MkServiceItem (pr_service d) (pr_title d) (pr_description d) v (pr_versions d)
                    (pr_callbacks d)
                    (((fun l => MkLink l.1 l.2 "" "") <$> pr_links d) ++ links))
  | None => Raise (ValidationError "qgis_version_info")
  end.

(** [Services.list_services] *)
Definition list_services (services : ServiceDict) (rq : WebRequest) : res (Response (list ServiceItem)) :=
  items ← seq_res (from_details rq <$>
    filter (fun d => service_permission pol rq (pr_service d) = true) (snd <$> values services));
  Ok (json_response items).

(** ** _handlers/landingpage.py *)
Definition landing_page (rq : WebRequest) : res (Response (list Link)) :=
  let path p := format_path p None None None in
  links ← seq_res
    [make_link (HttpUrl py) rq "api-catalog" (path "/services") "Available services";
     make_link (HttpUrl py) rq "service-desc" (path "/api") "Api description";
     make_link_as (HttpUrl py) "text/html" rq "service-desc" (path "/api.html")
       "Swagger interface for api description";
     make_link (HttpUrl py) rq "http://www.opengis.net/def/rel/ogc/1.0/conformance" (path "/conformance")
       "Conformance classes";
     make_link (HttpUrl py) rq "self" (path "/") "Landing page";
     make_link (HttpUrl py) rq JOB_LIST_REL (path "/jobs/") "Job list"];
  Ok (json_response links).
End services.

(** ** cache.py *)

(** [update_services] of the task that follows the services: the names it saw
    last, and whether there are new ones *)
Definition note_services (service_names : gset string) (r : res ServiceDict) : gset string * bool :=
  match r with
  | Ok services =>
      let current := list_to_set (items services).*1 in
      if decide (current ≠ service_names)
      then (current, match items services with [] => false | _ => true end)
      else (service_names, false)
  | Raise _ => (service_names, false)
  end.

(** [update_cache]: the seconds it sleeps before each update *)
Definition first_interval (update_interval : Z) (ok : bool) : Z := if ok then update_interval else 2%Z.
Definition next_interval (update_interval interval : Z) (ok : bool) : Z :=
  if ok then update_interval else Z.min (2 * interval)%Z update_interval.
Fixpoint intervals (update_interval interval : Z) (oks : list bool) : list Z :=
  interval :: match oks with
              | [] => []
              | ok :: oks => intervals update_interval (next_interval update_interval interval ok) oks
              end.

(** ** Properties *)

(** C30. The task that follows the services never sleeps less than two seconds nor
    more than the interval of the configuration; without any service from the
    start on, the intervals double up to it. *)
Theorem update_intervals upd ok oks :
  (1 < upd)%Z →
  Forall (fun i => 2 ≤ i ≤ upd)%Z (intervals upd (first_interval upd ok) oks) ∧
  ∀ n k, k ≤ n →
    intervals upd (first_interval upd false) (replicate n false) !! k = Some (Z.min (2 ^ (Z.of_nat k + 1)) upd).
Proof.
  intros Hu. split.
  - assert (∀ i, (2 ≤ i ≤ upd)%Z → Forall (fun i => 2 ≤ i ≤ upd)%Z (intervals upd i oks)) as H.
    { induction oks as [|b oks IH]; intros i Hi; simpl; (constructor; [done|]); [constructor|].
      apply IH. rw /next_interval. destruct b; lia. }
    apply H. rw /first_interval. destruct ok; lia.
  - assert (∀ n k i, k ≤ n → (0 ≤ i)%Z →
      intervals upd (Z.min i upd) (replicate n false) !! k = Some (Z.min (i * 2 ^ Z.of_nat k) upd)) as H.
    { induction n as [|n IH]; intros k i Hk Hi; destruct k as [|k]; try lia;
        [by simpl; rw Z.mul_1_r..|].
      change (intervals upd (next_interval upd (Z.min i upd) false) (replicate n false) !! k =
        Some (Z.min (i * 2 ^ Z.of_nat (S k)) upd)).
      assert (next_interval upd (Z.min i upd) false = Z.min (2 * i) upd) as -> by (rw /next_interval; lia).
      rw IH; [lia..|]. do 2 f_equal. rw Nat2Z.inj_succ Z.pow_succ_r; lia. }
    intros n k Hk. replace (first_interval upd false) with (Z.min 2 upd) by (rw /first_interval; lia).
    rw H; [lia..|]. do 2 f_equal. rw Z.pow_add_r; lia.
Qed.

Lemma update_intervals_witness :
  Forall (fun i => 2 ≤ i ≤ 30)%Z (intervals 30 (first_interval 30 false) [false; false; true; false]) ∧
  intervals 30 2 [false; false; false; false; false] !! 4 = Some 30%Z.
Proof.
  split; [apply (update_intervals 30 false [false; false; true; false]); lia|].
  apply (proj2 (update_intervals 30 false [] ltac:(lia)) 5 4). lia.
Defined.

Section cached.
Context {R : Type} `{!Redis R} {C : Type} (cel : Celery C) (pv : ProcessValidators).
Implicit Types (s : Sv R C).

Lemma update_cache_spec now rnd service s c s' :
  wf (sv_cache s) → _update_processes_cache cel pv now rnd service s = (Ok c, s') →
  sv_services s' = sv_services s ∧ lookup service (sv_cache s') = Some c ∧ pc_timestamp c = now ∧
  wf (sv_cache s') ∧ ex_redis (sv_ex s') = ex_redis (sv_ex s).
Proof.
  intros Hwf. rw /_update_processes_cache /fetch_processes.
  intros (ps & s1 & Hf & H)%bind_ok_inv.
  apply bind_ok_inv in Hf as (s0 & s2 & [= <- <-] & Hf).
  apply bind_ok_inv in Hf as (dests & s2 & [= Hd <-] & Hf).
  apply bind_ok_inv in Hf as (r & s2 & Hc & [= Hv <-]).
  assert (sv_services s2 = sv_services s ∧ sv_cache s2 = sv_cache s ∧
    ex_redis (sv_ex s2) = ex_redis (sv_ex s)) as (Hs & Hca & Hr).
  { revert Hc. rw /on_ex /zoom. destruct (command _ _ _ _ _ _ _ _) as [r0 e] eqn:E.
    intros [= -> <-]. simpl. split_and!; [done..|]. by eapply command_redis. }
  apply bind_ok_inv in H as (s3 & s4 & [= <- <-] & H). injection H as <- <-. simpl.
  rw Hca lookup_insert_eq //. split_and!; try done. by apply wf_insert.
Qed.

Lemma processes_hit now rnd service s dests pr c :
  lookup service (sv_services s) = Some (dests, pr) → lookup service (sv_cache s) = Some c →
  (pr_online_since pr ≤ pc_timestamp c)%Z →
  processes cel pv now rnd service s = (Ok (pc_processes c), s).
Proof.
  intros Hs Hc Ht. rw /processes. py_unfold. rw Hs Hc decide_False //. lia.
Qed.

(** What [processes] leaves: a cache at least as recent as the service. *)
Lemma processes_leaves now rnd service s l s' dests pr :
  wf (sv_cache s) → lookup service (sv_services s) = Some (dests, pr) →
  (pr_online_since pr ≤ now)%Z → processes cel pv now rnd service s = (Ok l, s') →
  ∃ c, lookup service (sv_cache s') = Some c ∧ pc_processes c = l ∧
    (pr_online_since pr ≤ pc_timestamp c)%Z ∧ sv_services s' = sv_services s ∧
    wf (sv_cache s') ∧ ex_redis (sv_ex s') = ex_redis (sv_ex s).
Proof.
  intros Hwf Hs Hn. rw /processes. intros (s0 & s1 & [= <- <-] & H)%bind_ok_inv. rw Hs in H.
  assert ((c ← _update_processes_cache cel pv now rnd service; mret (pc_processes c)) s = (Ok l, s') →
    ∃ c, lookup service (sv_cache s') = Some c ∧ pc_processes c = l ∧
      (pr_online_since pr ≤ pc_timestamp c)%Z ∧ sv_services s' = sv_services s ∧
      wf (sv_cache s') ∧ ex_redis (sv_ex s') = ex_redis (sv_ex s)) as Hu.
  { intros (c & s2 & Hu & [= <- <-])%bind_ok_inv.
    apply update_cache_spec in Hu as (? & ? & ? & ? & ?); [|done]. exists c. split_and!; try done. lia. }
  destruct (lookup service (sv_cache s)) as [c|] eqn:Hc; [|by apply Hu].
  case_decide; [by apply Hu|]. injection H as <- <-. exists c. split_and!; try done. lia.
Qed.

(** The summaries of a service are asked once to a worker of the service, then
    served from the cache, without any effect, as long as no worker of the
    service came online since. *)
Theorem processes_cached now rnd service s l s' dests pr :
  wf (sv_cache s) → lookup service (sv_services s) = Some (dests, pr) →
  (pr_online_since pr ≤ now)%Z → processes cel pv now rnd service s = (Ok l, s') →
  ∀ now' rnd', processes cel pv now' rnd' service s' = (Ok l, s').
Proof.
  intros Hwf Hs Hn H now' rnd'.
  eapply processes_leaves in H as (c & Hc & <- & Ht & Hs' & _); [|done..].
  eapply processes_hit; [by rw Hs'|done..].
Qed.
End cached.

(** ** The links of summaries *)
Section links.
Context {R : Type} `{!Redis R} {C : Type} (cel : Celery C) (py : Pydantic) (pv : ProcessValidators).
Context (now : Z) (pol : AccessPolicy) (rnd : nat).
Implicit Types (s : Sv R C).

(** [n] requests one after the other *)
Fixpoint times {A} (n : nat) (m : M (Sv R C) A) : M (Sv R C) unit :=
  match n with O => mret tt | S n => m;; times n m end.

Lemma filter_all rq base service tds :
  links_ok py rq base → (∀ id, execute_permission pol rq service id None = true) →
  ∃ l, filter_processes py pol rq service tds = (l, Ok l) ∧
    (fun p => length (ps_links p)) <$> l = (fun p => S (length (ps_links p))) <$> tds.
Proof.
  intros Hl Hp. induction tds as [|td tds (l & IH & Hlen)]; [by exists []|].
  edestruct (make_link_ok py rq base PROCESSES_REL
    (format_path ("/processes/" +:+ ps_id td) (Some service) None None) "Process description" Hl)
    as (u & _ & Hm).
  eexists (_ :: l). simpl. rw /process_filter Hp /self_link Hm IH. py_unfold.
  split; [done|]. csimpl. by rw Hlen.
Qed.

Lemma list_processes_once rq base service s dests pr c :
  links_ok py rq base → (∀ id, execute_permission pol rq service id None = true) →
  (∀ sv, pol_get_service pol sv rq = Ok service) →
  wf (sv_cache s) → lookup service (sv_services s) = Some (dests, pr) →
  lookup service (sv_cache s) = Some c → (pr_online_since pr ≤ pc_timestamp c)%Z →
  ∃ l links s' c', list_processes cel py pv now pol rnd rq s = (Ok (json_response (l, links)), s') ∧
    sv_services s' = sv_services s ∧ wf (sv_cache s') ∧ lookup service (sv_cache s') = Some c' ∧
    pc_timestamp c' = pc_timestamp c ∧ pc_processes c' = l ∧
    (fun p => length (ps_links p)) <$> l = (fun p => S (length (ps_links p))) <$> pc_processes c.
Proof.
  intros Hl Hp Hg Hwf Hs Hc Ht. destruct (filter_all rq base service (pc_processes c) Hl Hp) as (l & Hf & Hlen).
  destruct (make_link_ok py rq base "self" (format_path "/processes/" (Some service) None None)
    "Processes list" Hl) as (u & _ & Hm).
  eexists l, _, _, _. split.
  { rw /list_processes. erewrite bind_ok by reflexivity.
    erewrite bind_ok by (rw /pure Hg; reflexivity).
    erewrite bind_ok by (rw /try_except (processes_hit cel pv now rnd service s dests pr c) //).
    erewrite bind_ok by reflexivity. rw Hf Hc. erewrite bind_ok by reflexivity.
    erewrite bind_ok by reflexivity. rw /self_link Hm. reflexivity. }
  simpl. split_and!; [done|by apply wf_insert|by apply lookup_insert_eq|done..].
Qed.

(** Listing the processes changes the summaries of the cache: each request
    writes one more link in each of them, so that the answers grow with the
    number of requests. *)
Theorem list_processes_links_grow n rq base service s dests pr c :
  links_ok py rq base → (∀ id, execute_permission pol rq service id None = true) →
  (∀ sv, pol_get_service pol sv rq = Ok service) →
  wf (sv_cache s) → lookup service (sv_services s) = Some (dests, pr) →
  lookup service (sv_cache s) = Some c → (pr_online_since pr ≤ pc_timestamp c)%Z →
  ∃ s' c', times n (list_processes cel py pv now pol rnd rq) s = (Ok tt, s') ∧
    lookup service (sv_cache s') = Some c' ∧
    (fun p => length (ps_links p)) <$> pc_processes c' =
      (fun p => n + length (ps_links p)) <$> pc_processes c.
Proof.
  intros Hl Hp Hg. revert s c. induction n as [|n IH]; intros s c Hwf Hs Hc Ht; [by eexists s, c|].
  destruct (list_processes_once rq base service s dests pr c)
    as (l & links & s1 & c1 & H1 & Hs1 & Hwf1 & Hc1 & Ht1 & Hl1 & Hlen); [done..|].
  destruct (IH s1 c1) as (s' & c' & Hn & Hc' & Hlen'); [done|by rw Hs1|done|lia|].
  exists s', c'. split; [|split; [done|]].
  - simpl. by erewrite bind_ok by exact H1.
  - rw Hlen' Hl1. transitivity ((fun k => n + k) <$> ((fun p => length (ps_links p)) <$> l)).
    + by rw -list_fmap_compose.
    + rw Hlen -list_fmap_compose. apply list_fmap_ext. intros i p _. simpl. lia.
Qed.
End links.

(** ** Execution *)

(** The preferences that count seconds are positive. *)
Definition prefs_positive (p : ExecutePrefs) : Prop :=
  (∀ w, wait p = Some w → (0 < w)%Z) ∧ (∀ d, delay p = Some d → (0 < d)%Z) ∧
  (∀ n, priority p = Some n → (0 ≤ n < 10)%Z).

Lemma execute_prefs_positive int_validate rq : prefs_positive (execute_prefs int_validate rq).
Proof.
  rw /execute_prefs. set (l := _ ≫= _). clearbody l.
  assert (∀ p, prefs_positive p → prefs_positive (foldl (add_pref int_validate) p l)) as H; [|by apply H].
  induction l as [|x l IH]; intros p Hp; [done|]. apply IH. destruct Hp as (Hw & Hd & Hn).
  rw /add_pref /as_seconds /as_priority. repeat case_decide; [done|].
  repeat (case_match; [destruct (int_validate _); simpl; [case_decide; simpl|];
    split_and!; simpl; try done; by intros ? [= <-]|]). done.
Qed.

Section execution.
Context {R : Type} `{!Redis R, !RedisLaws R} {C : Type} (cel : Celery C) (py : Pydantic)
  (pv : ProcessValidators).
Context (utc : Z → string) (timestamp_of : string → Z) (now : Z) (created_at : string * Z).
Context (pol : AccessPolicy) (realms : JobRealm.JobRealmConfig) (store : option StoreConfig).
Context (timeout default_timeout : Z) (rnd : nat) (uuid : string).
Implicit Types (s : Sv R C).

(** What reading summaries leaves alone. *)
Definition same_jobs s0 s : Prop :=
  sv_services s = sv_services s0 ∧ ex_redis (sv_ex s) = ex_redis (sv_ex s0).

Lemma same_jobs_summary s0 service ident :
  preserves (same_jobs s0) (get_process_summary cel pv now rnd service ident).
Proof.
  rw /get_process_summary. apply preserves_bind; [|intros _; apply preserves_bind; [by intros s|auto with py]].
  rw /processes. apply preserves_bind; [by intros s|intros s1].
  assert (preserves (same_jobs s0) (_update_processes_cache cel pv now rnd service)) as Hu.
  { rw /_update_processes_cache /fetch_processes. apply preserves_bind; [|intros ps].
    - apply preserves_bind; [by intros s|intros s2]. apply preserves_bind; [auto with py|intros ds].
      apply preserves_bind; [|auto with py]. intros s [H1 H2]. rw /on_ex /zoom.
      destruct (command _ _ _ _ _ _ _ _) as [r e] eqn:E. apply command_redis in E.
      split; simpl; congruence.
    - apply preserves_bind; [by intros s|intros s2]. apply preserves_bind; [by intros s|auto with py]. }
  case_match; [|auto with py]. case_match. case_match; [case_decide|]; auto with py;
    by (apply preserves_bind; [done|auto with py]).
Qed.

Lemma job_status_id id dests wd c st :
  _job_status cel utc timestamp_of id dests wd c = Ok (Some st) → st_job_id st = id.
Proof.
  rw /_job_status. py_unfold. destruct (status_of cel id dests c) as [[[[[[[]]]]]|]|]; simpl; try done.
  repeat case_match; by intros [= <-].
Qed.

Lemma get_status_id services service id st (s : Ex R C) st' :
  st_job_id st = id → _get_status cel utc timestamp_of services service id st s = Ok st' → st_job_id st' = id.
Proof.
  intros Hst. rw /_get_status. py_unfold.
  destruct (_job_status _ _ _ _ _ _ _) as [[st1|]|] eqn:E; simpl; [|by intros [= <-]|done].
  intros [= <-]. by apply job_status_id in E.
Qed.

Lemma accepted_spec rq base service project realm id status s r s' :
  assoc "public_url" (wr_items rq) = Some base → st_job_id status = id →
  accepted cel py utc timestamp_of rq service project realm id status s = (Ok r, s') →
  s' = s ∧ ∃ st links, rs_status r = 202%Z ∧ rs_body r = BModel (EStatus st links) ∧ st_job_id st = id ∧
    header "Location" (rs_headers r) = Some (base +:+ "/jobs/" +:+ id +:+
      if decide (st_status st = SUCCESS) then "/results" else "").
Proof.
  intros Hb Hst. rw /accepted. intros (s0 & s1 & [= <- <-] & H)%bind_ok_inv.
  apply bind_ok_inv in H as (st & s1 & [= Hg <-] & H).
  apply bind_ok_inv in H as (ll & s1 & [= Hl <-] & H).
  apply bind_ok_inv in H as (loc & s1 & [= Hh <-] & [= <- <-]).
  apply get_status_id in Hg; [|done]. split; [done|]. exists st, ll.1. split_and!; [done..|]. simpl.
  apply res_bind_inv in Hl as (links & _ & [= <-]). revert Hh.
  rw /href /public_url Hb Hg. intros [= <-]. simpl. case_decide; [done|].
  by rw !str_app_nil_r.
Qed.

(** The jobs that an execution can register do not expire at once. *)
Lemma builder_not_expired services service ident prefer realm tag (sync : bool) b (t : Z) :
  (t ≤ created_at.2)%Z → (0 < default_timeout)%Z →
  (∀ sv dests pr, lookup sv services = Some (dests, pr) → (0 ≤ pr_result_expires pr)%Z) →
  prefs_positive prefer →
  job_builder services default_timeout created_at service ident (wait prefer) realm tag
    (if sync then None else delay prefer) = Ok b →
  (t < jb_created b + jb_expires b + jb_pending_timeout b)%Z.
Proof.
  intros Ht Hd Hr (Hw & Hdl & _). rw /job_builder. destruct (lookup service services) as [[ds pr]|] eqn:E; [|done].
  intros [= <-]. simpl. specialize (Hr _ _ _ E).
  assert (0 ≤ default 0 (if sync then None else delay prefer))%Z.
  { destruct sync; [simpl; lia|]. destruct (delay prefer) as [d|]; [|simpl; lia]. specialize (Hdl d eq_refl). simpl. lia. }
  destruct (wait prefer) as [w|]; [specialize (Hw w eq_refl); case_decide|]; lia.
Qed.

Lemma wait_result_ok process_id realm prefer id s r s' :
  wait_result cel utc now timeout process_id realm prefer id s = (Ok r, s') →
  s' = s ∧ ∀ resp b, r = Some resp → rs_body resp = BModel b →
    rs_status resp = 200%Z ∧ (∃ l, b = EResults l) ∧ header JOB_ID_HEADER (rs_headers resp) = Some id.
Proof.
  rw /wait_result. intros (s0 & s1 & [= <- <-] & H)%bind_ok_inv.
  destruct (_get_result _ _ _ _) as [l|[]]; try done.
  - injection H as <- <-. split; [done|]. intros resp b [= <-] [= <-]. simpl. eauto.
  - destruct (execute_async prefer).
    + by injection H as <- <-.
    + by apply bind_ok_inv in H as (? & ? & _ & [=]).
  - injection H as <- <-. split; [done|]. by intros resp b [= <-].
Qed.

Lemma execute_id services cr a (e : Ex R C) id st e' :
  _execute cel services default_timeout cr a e = (Ok (id, st), e') →
  st_job_id st = id ∧ ∃ snd c, id = (send_task cel snd c).1.
Proof.
  rw /_execute. intros (b0 & ? & [= _ <-] & H)%bind_ok_inv.
  apply bind_ok_inv in H as (id' & ? & Hsend & H). revert Hsend. rw /_execute_task.
  destruct (send_task cel _ _) as [i c] eqn:Es. intros [= <- <-].
  apply bind_ok_inv in H as (st1 & ? & [= <- <-] & [= <- <- _]). split; [done|].
  eexists _, _. symmetry. exact (f_equal fst Es).
Qed.

(** C11. An execution that is answered by results or by the status of a job has
    registered that job, not dismissed, for its service and process; a status
    comes with status 202 and the path of the job as its location, results with
    status 200 and the id of the job in a header. *)
Theorem execute_registers_job rq base s r b s' :
  assoc "public_url" (wr_items rq) = Some base →
  (∀ snd c, plain_text (send_task cel snd c).1 = true ∧
     ∀ k, r_has k (ex_redis (sv_ex s)) = true → ~ key_of (send_task cel snd c).1 k) →
  (r_now (ex_redis (sv_ex s)) ≤ created_at.2)%Z → (0 < default_timeout)%Z →
  (∀ sv dests pr, lookup sv (sv_services s) = Some (dests, pr) → (0 ≤ pr_result_expires pr)%Z) →
  execute_process cel py pv utc timestamp_of now created_at pol realms store timeout default_timeout
    rnd uuid rq s = (Ok r, s') →
  rs_body r = BModel b →
  ∃ id ti, find_job id None (ex_redis (sv_ex s')) = Ok (Some ti) ∧ job_id ti = id ∧ dismissed ti = 0%Z ∧
    match_info "Ident" rq = Ok (process_id ti) ∧
    pol_get_service pol (sv_services s) rq = Ok (service ti) ∧
    match b with
    | EResults _ => rs_status r = 200%Z ∧ header JOB_ID_HEADER (rs_headers r) = Some id
    | EStatus st _ => rs_status r = 202%Z ∧ st_job_id st = id ∧
        header "Location" (rs_headers r) = Some (base +:+ "/jobs/" +:+ id +:+
          if decide (st_status st = SUCCESS) then "/results" else "")
    end.
Proof.
  intros Hb Hids Hclk Hdef Hexp Hrun Hbody. rw /execute_process in Hrun.
  apply bind_ok_inv in Hrun as (tag & s1 & [= Htag <-] & H).
  apply bind_ok_inv in H as (s0 & s1 & [= <- <-] & H).
  apply bind_ok_inv in H as (sv & s1 & [= Hsv <-] & H).
  apply bind_ok_inv in H as (ident & s1 & [= Hident <-] & H).
  apply bind_ok_inv in H as (? & s1 & [= _ <-] & H).
  apply bind_ok_inv in H as (req & s1 & Hreq & H).
  assert (s1 = s) as ->.
  { revert Hreq. rw /try_except /pure. destruct (validate_request pv (wr_text rq)) as [?|[]]; try done;
      by intros [= _ <-]. }
  apply bind_ok_inv in H as (realm & s1 & [= Hrealm <-] & H).
  apply bind_ok_inv in H as (proc & s1 & Hproc & H).
  pose proof (preserves_run _ _ _ _ _ (same_jobs_summary s sv ident) (conj eq_refl eq_refl) Hproc) as [Hs1 Hr1].
  destruct proc as [proc|]; [|by injection H as <- _].
  set (prefer := execute_prefs (int_validate py) rq) in H.
  set (sync := execute_sync prefer && _) in H.
  apply bind_ok_inv in H as (ctx & s2 & [= Hctx <-] & H).
  apply bind_ok_inv in H as (s2 & s3 & [= <- <-] & H).
  apply bind_ok_inv in H as ([id st0] & s3 & Hex & H).
  set (a := exec_args _ _ _ _ _ _ _ _ _ _) in Hex.
  revert Hex. rw /on_ex /zoom. destruct (_execute _ _ _ _ _ _) as [[ids|] e] eqn:Hex; [|done].
  intros [= -> <-].
  destruct (execute_id _ _ _ _ _ _ _ Hex) as (Hst0 & snd & c & Hid).
  destruct (Hids snd c) as [Hplain Hnew]. rw -Hid in Hplain Hnew.
  eapply (execute_registers cel) in Hex as (ti & Hf & Hd & Hji & Hsvc & Hpid); [|by rw Hr1|done|].
  2: { intros b0 Hb0. rw Hr1. apply (builder_not_expired (sv_services s1) sv ident prefer realm tag sync);
       [done..|by rw Hs1|apply execute_prefs_positive|exact Hb0]. }
  exists id, ti. rw Hsv Hident Hpid Hsvc.
  assert (∀ s3 r, ex_redis (sv_ex s3) = ex_redis e → rs_body r = BModel b →
    accepted cel py utc timestamp_of rq sv (handler_get_project pol rq) realm id st0 s3 = (Ok r, s') →
    find_job id None (ex_redis (sv_ex s')) = Ok (Some ti) ∧
    ∃ st l, b = EStatus st l ∧ rs_status r = 202%Z ∧ st_job_id st = id ∧
        header "Location" (rs_headers r) = Some (base +:+ "/jobs/" +:+ id +:+
          if decide (st_status st = SUCCESS) then "/results" else "")) as Hacc.
  { intros s4 r0 Hs4 Hb0 Ha. eapply accepted_spec in Ha as (-> & st & l & Hst & Hbd & Hi & Hh); [|done..].
    rw Hs4. split; [done|]. exists st, l. split_and!; try done. congruence. }
  destruct sync.
  - apply bind_ok_inv in H as (w & s4 & Hw & H). apply wait_result_ok in Hw as [-> Hw].
    destruct w as [resp|].
    + injection H as -> <-. destruct (Hw _ _ eq_refl Hbody) as (Hst & [l ->] & Hh). by split_and!.
    + eapply Hacc in H as (Hf' & st & l & -> & ? & ? & ?); [|done..]. by split_and!.
  - eapply Hacc in H as (Hf' & st & l & -> & ? & ? & ?); [|done..]. by split_and!.
Qed.
(** A synchronous execution that takes too long: when the client accepts an
    asynchronous answer the job goes on, otherwise it is dismissed, the client
    is answered the status 504 and the records of the job, and of no other job,
    are gone. *)
Theorem wait_result_timeout process_id realm prefer id s :
  plain_text id = true →
  _get_result cel id (Some (default timeout (wait prefer))) (sv_ex s) = Raise CeleryTimeoutError →
  (execute_async prefer = true →
     wait_result cel utc now timeout process_id realm prefer id s = (Ok None, s)) ∧
  (∀ st e, execute_async prefer = false →
     _dismiss cel utc now id (sv_services s) None (sv_ex s) = (Ok (Some st), e) →
     wait_result cel utc now timeout process_id realm prefer id s =
       (Raise (HTTPException 504 "Gateway Timeout"), MkSv e (sv_services s) (sv_last_updated s) (sv_cache s)) ∧
     ∀ k, r_has k (ex_redis e) = true ↔ r_has k (ex_redis (sv_ex s)) = true ∧ ~ key_of id k).
Proof.
  intros Hid Hg. rw /wait_result.
  assert (match wait prefer with Some w => w | None => timeout end = default timeout (wait prefer)) as Hw
    by (by destruct (wait prefer)).
  split.
  - intros Ha. erewrite bind_ok by reflexivity. by rw Hw Hg Ha.
  - intros st e Ha Hd. split; [|by eapply dismiss_success].
    erewrite bind_ok by reflexivity. rw Hw Hg Ha /on_ex. by erewrite bind_ok by (rw /zoom Hd; reflexivity).
Qed.

(** A process that requires a store is never executed: the attribute that is
    read of the configuration of the store does not exist, so that the request
    fails before any task is sent or registered. *)
Theorem require_store_fails rq service ident process s s1 r s' :
  pol_get_service pol (sv_services s) rq = Ok service → match_info "Ident" rq = Ok ident →
  get_process_summary cel pv now rnd service ident s = (Ok (Some process), s1) →
  get_annotation "RequireStore" process = true →
  execute_process cel py pv utc timestamp_of now created_at pol realms store timeout default_timeout
    rnd uuid rq s = (r, s') →
  (∃ e, r = Raise e) ∧ same_jobs s s'.
Proof.
  intros Hsv Hid Hp Ha. rw /execute_process.
  assert (∀ e, (Raise e, s) = (r, s') → (∃ e, r = Raise e) ∧ same_jobs s s') as Hsame.
  { intros e [= <- <-]. split; [by exists e|done]. }
  pose proof (preserves_run _ _ _ _ _ (same_jobs_summary s service ident) (conj eq_refl eq_refl) Hp) as Hs1.
  intros [(tag & s2 & [= _ <-] & H)|(e & [= He <-] & ->)]%bind_inv; [|by apply (Hsame e)].
  apply bind_inv in H as [(s0 & s2 & [= <- <-] & H)|(e & [=] & _)].
  apply bind_inv in H as [(sv & s2 & [= Hsv' <-] & H)|(e & [= Hsv' <-] & ->)]; [|by apply (Hsame e)].
  apply bind_inv in H as [(i & s2 & [= Hid' <-] & H)|(e & [= Hid' <-] & ->)]; [|by apply (Hsame e)].
  assert (sv = service) as -> by congruence. assert (i = ident) as -> by congruence.
  apply bind_inv in H as [(? & s2 & [= _ <-] & H)|(e & [= _ <-] & ->)]; [|by apply (Hsame e)].
  destruct (validate_request pv (wr_text rq)) as [req|err];
    [|by destruct err; erewrite bind_raise in H by reflexivity; apply Hsame in H].
  erewrite bind_ok in H by reflexivity.
  apply bind_inv in H as [(realm & s2 & [= _ <-] & H)|(e & [= _ <-] & ->)]; [|by apply (Hsame e)].
  erewrite bind_ok in H by exact Hp.
  assert (∃ e, create_run_context store process rq = Raise e) as [e Hctx].
  { rw /create_run_context Ha. py_unfold. repeat case_match; eauto. }
  cbv zeta beta iota in H. erewrite bind_raise in H by (rw /pure Hctx; reflexivity). injection H as <- <-. split; [by eauto|done].
Qed.
End execution.

(** ** A service with one process and one worker *)
Module ProcDemo.
Definition summary (store : bool) : ProcessSummary :=
  MkSummary "buffer" "" [MdValue (Some "RequireStore") None (JBool store)] ["sync-execute"; "async-execute"] [].
Definition cel : Celery nat := {|
  get_task_meta _ _ := MkTaskMeta STATE_PENDING (ResOther "") None None;
  query_task _ _ _ := [];
  revoke _ _ c := (Ok tt, c);
  send_task _ c := ("job-1", S c);
  broadcast _ c := ([("w1", JArr [])], c);
  get_result _ _ _ := Raise CeleryTimeoutError;
|}.
Definition pv (store : bool) : ProcessValidators :=
  MkProcessValidators (fun _ => Ok [summary store]) (fun _ => Ok (summary store))
    (fun _ => Raise (ValidationError "presence")) (fun _ => Ok (JObj [])).
Definition pol : AccessPolicy := DefaultAccessPolicy [].
(** A policy that always chooses the same service. *)
Definition pol1 : AccessPolicy :=
  MkPolicy (fun _ _ => true) (fun _ _ _ _ => true) (fun _ _ => Ok "svc") (fun _ => None).
Definition request (headers : list (string * string)) : WebRequest :=
  MkWebRequest "POST" "http" "localhost" "/processes/buffer/execution" None headers []
    [("public_url", "http://localhost")] [("Ident", "buffer")] [] "{}".
Definition sv : Sv RedisDemo.store nat := MkSv (MkEx [] 0) CeleryDemo.services 0 PyDict.empty.
Definition cached : Sv RedisDemo.store nat :=
  MkSv (MkEx [] 0) CeleryDemo.services 0 (PyDict.insert "svc" (MkProcessCache 5 [summary false]) PyDict.empty).
Definition run (store : bool) (headers : list (string * string)) :=
  execute_process cel JobsDemo.py (pv store) (fun _ => "") (fun _ => 0%Z) 10 ("2024", 10%Z) pol
    JobsDemo.no_realm None 20 600 0 "uuid" (request headers) sv.
Definition prefer : ExecutePrefs := MkPrefs false None None None.
(** The state once a job was sent. *)
Definition sent : Sv RedisDemo.store nat := MkSv (CeleryDemo.sent.2) CeleryDemo.services 0 PyDict.empty.
End ProcDemo.

Lemma processes_cached_witness :
  let s' := (processes ProcDemo.cel (ProcDemo.pv false) 10 0 "svc" ProcDemo.sv).2 in
  processes ProcDemo.cel (ProcDemo.pv false) 99 1 "svc" s' = (Ok [ProcDemo.summary false], s').
Proof.
  intros s'.
  apply (processes_cached ProcDemo.cel (ProcDemo.pv false) 10 0 "svc" ProcDemo.sv [ProcDemo.summary false] s'
    ["w1"] (MkPresence "svc" 60 None 0 "" "" [] None [] [])).
  - apply wf_empty.
  - reflexivity.
  - simpl. lia.
  - reflexivity.
Defined.

Lemma list_processes_links_grow_witness :
  ∃ s' c', times 3 (list_processes ProcDemo.cel JobsDemo.py (ProcDemo.pv false) 10 ProcDemo.pol1 0
      (ProcDemo.request [])) ProcDemo.cached = (Ok tt, s') ∧
    lookup "svc" (sv_cache s') = Some c' ∧
    (fun p => length (ps_links p)) <$> pc_processes c' = [3].
Proof.
  apply (list_processes_links_grow ProcDemo.cel JobsDemo.py (ProcDemo.pv false) 10
    ProcDemo.pol1 0 3 (ProcDemo.request []) "http://localhost" "svc" ProcDemo.cached
    ["w1"] (MkPresence "svc" 60 None 0 "" "" [] None [] []) (MkProcessCache 5 [ProcDemo.summary false])).
  - split; [reflexivity|]. intros path. by eexists.
  - reflexivity.
  - reflexivity.
  - apply wf_insert, wf_empty.
  - reflexivity.
  - reflexivity.
  - simpl. lia.
Defined.

Lemma execute_registers_job_witness :
  ∃ r st l s', ProcDemo.run false [("Prefer", "respond-async")] = (Ok r, s') ∧ rs_body r = BModel (EStatus st l) ∧
  ∃ id ti, find_job id None (ex_redis (sv_ex s')) = Ok (Some ti) ∧ job_id ti = id ∧ dismissed ti = 0%Z ∧
    match_info "Ident" (ProcDemo.request [("Prefer", "respond-async")]) = Ok (process_id ti) ∧
    pol_get_service ProcDemo.pol (sv_services ProcDemo.sv) (ProcDemo.request [("Prefer", "respond-async")])
      = Ok (service ti) ∧
    rs_status r = 202%Z ∧ st_job_id st = id ∧
    header "Location" (rs_headers r) = Some ("http://localhost" +:+ "/jobs/" +:+ id +:+
      if decide (st_status st = SUCCESS) then "/results" else "").
Proof.
  eexists _, _, _, _. split; [vm_compute; reflexivity|]. split; [reflexivity|].
  eapply (execute_registers_job ProcDemo.cel JobsDemo.py (ProcDemo.pv false) (fun _ => "") (fun _ => 0%Z) 10
    ("2024", 10%Z) ProcDemo.pol JobsDemo.no_realm None 20 600 0 "uuid"
    (ProcDemo.request [("Prefer", "respond-async")]) "http://localhost" ProcDemo.sv _ (EStatus _ _)).
  - reflexivity.
  - intros snd c. split; [reflexivity|]. intros k Hk. discriminate Hk.
  - simpl. lia.
  - lia.
  - intros sv dests pr H. apply assoc_Some, list_elem_of_singleton in H. injection H as _ _ ->. simpl. lia.
  - vm_compute. reflexivity.
  - reflexivity.
Defined.

Lemma wait_result_timeout_witness :
  let '(r, s') := wait_result ProcDemo.cel (fun _ => "") 1010 20 "buffer" None ProcDemo.prefer "job-1" ProcDemo.sent in
  r = Raise (HTTPException 504 "Gateway Timeout") ∧
  ∀ k, r_has k (ex_redis (sv_ex s')) = true ↔ r_has k (ex_redis (sv_ex ProcDemo.sent)) = true ∧ ~ key_of "job-1" k.
Proof.
  split; [vm_compute; reflexivity|].
  refine (proj2 (proj2 (wait_result_timeout ProcDemo.cel (fun _ => "") 1010 20 "buffer" None ProcDemo.prefer
    "job-1" ProcDemo.sent eq_refl eq_refl) _ _ eq_refl _)).
  vm_compute. reflexivity.
Defined.

Lemma require_store_fails_witness :
  ∃ e, (ProcDemo.run true []).1 = Raise e ∧ same_jobs ProcDemo.sv (ProcDemo.run true []).2.
Proof.
  destruct (require_store_fails ProcDemo.cel JobsDemo.py (ProcDemo.pv true) (fun _ => "") (fun _ => 0%Z) 10
    ("2024", 10%Z) ProcDemo.pol JobsDemo.no_realm None 20 600 0 "uuid" (ProcDemo.request []) "svc" "buffer"
    (ProcDemo.summary true) ProcDemo.sv
    (get_process_summary ProcDemo.cel (ProcDemo.pv true) 10 0 "svc" "buffer" ProcDemo.sv).2
    (ProcDemo.run true []).1 (ProcDemo.run true []).2) as [[e He] Hs]; try reflexivity.
  exists e. done.
Defined.
