(* ===== verification/Terminal.v ===== *)
(** * Terminals

    What the command lines of the program print and read: the widths of formatted
    texts, [textwrap.indent], and the state of a command. *)
From S2P Require Import Prelude PyStd Json Web Registry Executor JobsApi ProcessesApi.

(** ** Text *)

(** The width of a format specification, [{x:<n}] and [{x:>n}] *)
Fixpoint spaces (n : nat) : string := match n with O => "" | S n => String " " (spaces n) end.
Definition ljust (n : nat) (s : string) : string := s +:+ spaces (n - String.length s).
Definition rjust (n : nat) (s : string) : string := spaces (n - String.length s) +:+ s.

(** [str.splitlines(True)]: the lines with their ends *)
Definition line_end (a : ascii) : bool :=
  let n := N_of_ascii a in ((10 <=? n) && (n <=? 13) || (28 <=? n) && (n <=? 30))%N.
Fixpoint splitlines (s : string) : list string :=
  match s with
  | "" => []
  | String a s' =>
      let rest := splitlines s' in
      if line_end a then
        match rest with
        | String b w :: ws =>
            if bool_decide (N_of_ascii a = 13%N ∧ N_of_ascii b = 10%N) then String a (String b w) :: ws
            else String a "" :: rest
        | _ => String a "" :: rest
        end
      else match rest with
           | w :: ws => String a w :: ws
           | [] => [String a ""]
           end
  end.
(** [textwrap.indent]: lines of white space are left as they are *)
Definition indent (prefix s : string) : string :=
  String.concat "" ((fun l => if str_truth (strip l) then prefix +:+ l else l) <$> splitlines s).

(** [click.style] *)
Record Style : Type := MkStyle { fg : option string; bold : bool; italic : bool }.
Definition plain : Style := MkStyle None false false.
Definition colour (c : string) : Style := MkStyle (Some c) false false.

(** ** The terminal

    What a command works on, what it printed, and what is left to read. *)
Inductive Out : Type := Echo (s : string) | Prompt (s : string).
Record Cli (S : Type) : Type := MkCli {
  cli_exec : S; cli_out : list Out; cli_err : list string; cli_in : list string;
}.
Arguments MkCli {_} _ _ _ _.
Arguments cli_exec {_} _.
Arguments cli_out {_} _.
Arguments cli_err {_} _.
Arguments cli_in {_} _.

Section terminal.
Context {S : Type}.
Notation Cli := (Cli S).

Definition on_exec {A} (m : M S A) : M Cli A :=
  zoom cli_exec (fun c s => MkCli c (cli_out s) (cli_err s) (cli_in s)) m.
Definition write (o : Out) : M Cli unit :=
  modify (fun s => MkCli (cli_exec s) (cli_out s ++ [o]) (cli_err s) (cli_in s)).
(** [echo(s)], [echo(s, nl=False)], [echo(s, err=True)] *)
Definition newline : string := String (ascii_of_N 10) "".
Definition echo_n (s : string) : M Cli unit := write (Echo s).
Definition echo (s : string) : M Cli unit := write (Echo (s +:+ newline)).
Definition echo_err (s : string) : M Cli unit :=
  modify (fun s' => MkCli (cli_exec s') (cli_out s') (cli_err s' ++ [s]) (cli_in s')).
Fixpoint each {A} (f : A → M Cli unit) (l : list A) : M Cli unit :=
  match l with [] => mret tt | x :: l => f x;; each f l end.

(** The texts that were printed, prompts apart. *)
Definition echoes (s : Cli) : list string := omap (fun o => match o with Echo t => Some t | Prompt _ => None end) (cli_out s).

Lemma each_echo {A} (f : A → string) (l : list A) (s : Cli) :
  each (fun x => echo (f x)) l s =
  (Ok tt, MkCli (cli_exec s) (cli_out s ++ ((fun x => Echo (f x +:+ newline)) <$> l)) (cli_err s) (cli_in s)).
Proof.
  revert s. induction l as [|x l IH]; intros s; csimpl; [by rw app_nil_r; destruct s|].
  erewrite bind_ok by reflexivity. rw IH /=. by rw -app_assoc.
Qed.

Lemma on_exec_io {A} (m : M S A) (s s1 : Cli) r :
  on_exec m s = (r, s1) → cli_out s1 = cli_out s ∧ cli_in s1 = cli_in s.
Proof. rw /on_exec /zoom. destruct (m (cli_exec s)). by intros [= _ <-]. Qed.

Lemma omap_echo {A} (f : A → string) (l : list A) :
  omap (fun o => match o with Echo t => Some t | Prompt _ => None end) ((fun j => Echo (f j)) <$> l) = f <$> l.
Proof. induction l as [|j l IH]; [done|]. csimpl. by rw IH. Qed.
End terminal.
