(* ===== verification/Commands.v ===== *)
(** * The command line of the processes

    [qjazz_processes/__main__.py]: the commands on services, processes and jobs,
    over a blocking executor and a terminal.  [click] parses the options, styles
    and prints; pydantic dumps models; [textwrap.shorten] cuts titles. *)
From S2P Require Import Prelude PyDict PyStd Json Web Registry Executor JobsApi ProcessesApi Executors Terminal.

(** ** Schemas *)
Definition get_key (k : string) (j : JsonValue) : res JsonValue :=
  match j with
  | JObj l => Ok (default JNull (assoc k l))
  | _ => Raise (OtherException "AttributeError: get")
  end.
(** [x or y] on values *)
Definition json_or (x y : JsonValue) : JsonValue := if json_truth x then x else y.

(** [get_type] *)
Definition get_type (schema : JsonValue) : res JsonValue :=
  f ← get_key "format" schema; m ← get_key "contentMediaType" schema; t ← get_key "type" schema;
  Ok (json_or f (json_or m t)).

(** The types of the alternatives, and ["|".join] of them, which must be strings *)
Fixpoint types_of (l : list JsonValue) : res (list JsonValue) :=
  match l with
  | [] => Ok []
  | t :: l => if json_truth t then v ← get_type t; vs ← types_of l; Ok (v :: vs) else types_of l
  end.
Fixpoint str_items (l : list JsonValue) : res (list string) :=
  match l with
  | [] => Ok []
  | JStr s :: l => ss ← str_items l; Ok (s :: ss)
  | _ => Raise (TypeError "sequence item: expected str instance")
  end.

(** [format_type] *)
Definition format_type (schema : list (string * JsonValue)) : res JsonValue :=
  let item k := default JNull (assoc k schema) in
  if json_truth (item "oneOf") then
    match item "oneOf" with
    | JArr l => ts ← types_of l; ss ← str_items ts; Ok (JStr ("(" +:+ join "|" ss +:+ ")"))
    | JObj _ | JStr _ => Raise (OtherException "AttributeError: get")
    | _ => Raise (TypeError "not iterable")
    end
  else if json_truth (item "type") then
    match item "type" with
    | JStr "array" =>
        match assoc "items" schema with
        | None => Raise (KeyError "items")
        | Some items =>
            t ← get_key "type" items; Ok (JStr ("[" +:+ json_str (json_or t (JStr "...")) +:+ "]"))
        end
    | other => Ok other
    end
  else Ok (JStr "...").

(** The format of a value to a width: lists, dicts and [None] refuse one. *)
Definition format_width (n : nat) (j : JsonValue) : res string :=
  match j with
  | JStr s => Ok (ljust n s)
  | JInt z => Ok (ljust n (str_of_int z))
  | JFloat r => Ok (ljust n r)
  | JBool b => Ok (ljust n (if b then "1" else "0"))
  | JArr _ | JObj _ | JNull => Raise (TypeError "unsupported format string")
  end.

(** [ProcessSummary], [ProcessDescription] and the description of an input, as
    far as they are printed *)
Record IoDescription : Type := MkIo {
  io_title : string; io_description : option string; io_schema : list (string * JsonValue);
}.
Record CliSummary : Type := MkCliSummary {
  cs_id : string; cs_title : string; cs_description : option string; cs_metadata : list Metadata;
}.
Record CliProcess : Type := MkCliProcess {
  cp_summary : CliSummary; cp_inputs : list (string * IoDescription); cp_outputs : list (string * IoDescription);
}.

(** [{m.role: m.value for m in p.metadata}]: a link has no value *)
Fixpoint metadata_dict (mds : list Metadata) : res (list (option string * JsonValue)) :=
  match mds with
  | [] => Ok []
  | MdLink _ _ _ :: _ => Raise (OtherException "AttributeError: value")
  | MdValue r _ v :: mds => d ← metadata_dict mds; Ok ((r, v) :: d)
  end.
(** [md.get(role)]: the last value of a role is kept *)
Definition md_flag (role : string) (d : list (option string * JsonValue)) : bool :=
  match last (filter (fun kv => kv.1 = Some role) d) with Some (_, v) => json_truth v | None => false end.

(** [status_color] *)
Definition status_color (status : string) : option string :=
  if decide (status = "failed") then Some "red"
  else if decide (status = "successful") then Some "green"
  else if decide (status = "started") then Some "yellow"
  else None.

Section commands.
Context {R : Type} `{!Redis R} {C : Type} (cel : Celery C).
Context (utc : Z → string) (timestamp_of : string → Z) (now : Z) (rnd : nat).
(** click, textwrap and pydantic. *)
Context (style : Style → string → string) (shorten : nat → string → string).
Context (validate_presence : JsonValue → res Presence).
Context (validate_summaries : JsonValue → res (list CliSummary)).
Context (validate_description : JsonValue → res CliProcess).
Context (validate_json : string → res JsonValue).
Context (job_execute : JsonValue → JsonValue → res JsonValue).
Context (dump_services : ServiceDict → string) (dump_summaries : list CliSummary → string).
Context (dump_description : CliProcess → string) (dump_value : JsonValue → string).
Context (dump_results : list (string * JsonValue) → string).
Context (dump_status : nat → JobStatus → string) (fields_of : bool → JobStatus → list (string * JsonValue)).
Context (exn_str : exn → string).
Notation Cli := (Cli (Client R C)).

(** [error_exit] *)
Definition SystemExit : exn := OtherException "SystemExit: 1".
Definition error_exit {A} (msg : string) : M Cli A :=
  echo_err (style (colour "red") ("ERR: " +:+ msg));; raise SystemExit.
Definition update_services : M Cli ServiceDict := on_exec (Blocking.update_services cel now validate_presence).

(** ** service *)

(** [list_services] *)
Definition list_services (json_format long_format : bool) : M Cli unit :=
  services ← on_exec (base_get_services cel validate_presence);
  if json_format then echo (dump_services services)
  else each (fun kv =>
    let s := kv.2.2 in
    echo_n (style (colour "green") (ljust 15 (pr_service s)));;
    if long_format then
      echo (style (MkStyle None true false) (pr_title s));;
      echo (style (MkStyle None false true) (indent "    " (pr_description s)))
    else
      echo_n (style (MkStyle None true false) (ljust 20 (shorten 20 (pr_title s))));;
      echo (style (MkStyle None false true) (shorten 50 (pr_description s)))) (items services).

(** [reload_service], [shutdown_service], [ping_service]: pinging again and again
    has no end, it is given a number of turns *)
Definition reload_service (service : string) : M Cli unit :=
  update_services;; r ← on_exec (restart_pool cel service); echo (dump_value r).
Definition shutdown_service (service : string) : M Cli unit :=
  update_services;; r ← on_exec (shutdown cel service true); echo (dump_value r).
Definition _ping (service : string) : M Cli unit := r ← on_exec (ping cel service); echo (dump_value r).
Fixpoint ping_loop (turns : nat) (service : string) : M Cli unit :=
  match turns with O => mret tt | S n => _ping service;; ping_loop n service end.
Definition ping_service (turns : nat) (service : string) (repeat : Z) : M Cli unit :=
  update_services;; if (0 <? repeat)%Z then ping_loop turns service else _ping service.

(** ** process *)

(** [except ServiceNotAvailable: error_exit("Service not available")] *)
Definition service_errors (m : M Cli unit) : M Cli unit :=
  try_except m (fun e => match e with
                         | ServiceNotAvailable _ => Some (error_exit "Service not available")
                         | _ => None end).

(** [list_processes] *)
Definition list_processes (service : string) (json_format : bool) : M Cli unit :=
  update_services;;
  service_errors
    (processes ← on_exec (Blocking.processes cel rnd validate_summaries service);
     if json_format then echo (dump_summaries processes)
     else
       echo (style plain "P = Require project, D = Deprecated, I = Known Issues");;
       each (fun p =>
         md ← pure (metadata_dict (cs_metadata p));
         let flag role c := if md_flag role md then c else " " in
         echo_n (style (colour "yellow")
           (" " +:+ flag "Deprecated" "D" +:+ flag "RequiresProject" "P" +:+ flag "KnownIssues" "I" +:+ " "));;
         echo_n (style (colour "green") (ljust 45 (cs_id p)));;
         echo (style (MkStyle None true false) (shorten 50 (cs_title p)));;
         match cs_description p with
         | Some d => if str_truth d then echo (style (MkStyle None false true) (indent "    " d)) else mret tt
         | None => mret tt
         end) processes).

(** [format_description] *)
Definition format_description (name : string) (inp : IoDescription) : M Cli unit :=
  echo_n (style (MkStyle None true false) ("  " +:+ ljust 15 name +:+ " "));;
  fmt ← pure (format_type (io_schema inp));
  w ← pure (format_width 15 fmt);
  echo_n (w +:+ " " +:+ io_title inp);;
  let dflt := default JNull (assoc "default" (io_schema inp)) in
  (if json_truth dflt then echo_n (" --  default:  " +:+ json_str dflt) else mret tt);;
  echo "";;
  match io_description inp with
  | Some d => if str_truth d then
                each (fun line => echo (style (MkStyle None false true) ("    " +:+ line)))
                  (split (ascii_of_N 10) d)
              else mret tt
  | None => mret tt
  end.

(** The flags of a process. *)
Definition flags_of (md : list (option string * JsonValue)) : string :=
  join ", " ((if md_flag "Deprecated" md then ["Deprecated"] else []) ++
             (if md_flag "KnownIssues" md then ["Known issues"] else []) ++
             (if md_flag "RequiresProject" md then ["Requires project"] else [])).

(** [describe_process] *)
Definition describe_process (service ident : string) (project : option string) (json_format : bool) :
    M Cli unit :=
  update_services;;
  service_errors
    (found ← on_exec (Blocking.describe cel rnd validate_description service ident project);
     match found with
     | None => error_exit ("Process '" +:+ ident +:+ "' not found for service '" +:+ service +:+ "'")
     | Some p =>
         if json_format then echo (dump_description p)
         else
           md ← pure (metadata_dict (cs_metadata (cp_summary p)));
           let flags := flags_of md in
           echo "";;
           echo_n (style (MkStyle None true false) (cs_id (cp_summary p)));;
           (if str_truth flags then echo (" [" +:+ flags +:+ "]") else echo "");;
           echo (" -- " +:+ cs_title (cp_summary p));;
           match cs_description (cp_summary p) with
           | Some d => if str_truth d then echo (style (MkStyle None false true) (indent "    " d)) else mret tt
           | None => mret tt
           end;;
           echo (newline +:+ "Inputs:");;
           each (fun kv => format_description kv.1 kv.2) (cp_inputs p);;
           echo (newline +:+ "Outputs:");;
           each (fun kv => format_description kv.1 kv.2) (cp_outputs p);;
           echo ""
     end).

(** [kv]: an argument of [execute] *)
Definition kv (s : string) : M Cli (string * JsonValue) :=
  match partition "=" s with
  | None => error_exit ("Missing value for " +:+ s)
  | Some (k, value) =>
      if startswith "[" value then
        if negb (endswith "]" value) then error_exit ("Missing ']' for " +:+ k)
        else mret (k, JArr (JStr <$> split "," (String.substring 1 (String.length value - 2) value)))
      else if startswith "{" value then
        match validate_json value with
        | Ok j => mret (k, j)
        | Raise e => error_exit (exn_str e)
        end
      else mret (k, JStr value)
  end.
Fixpoint kv_dict (inputs : list string) (acc : pydict string JsonValue) : M Cli (pydict string JsonValue) :=
  match inputs with
  | [] => mret acc
  | s :: inputs => p ← kv s; kv_dict inputs (PyDict.insert p.1 p.2 acc)
  end.

(** The options of [execute]. *)
Record ExecuteOptions : Type := MkExecuteOptions {
  eo_project : option string; eo_tag : option string; eo_realm : option string;
  eo_timeout : option Z; eo_priority : Z; eo_nowait : bool; eo_outputs : option string;
}.

(** The inputs: JSON from the standard input, or arguments *)
Definition parse_inputs (inputs : list string) : M Cli JsonValue :=
  match inputs with
  | "-" :: _ =>
      s ← get;
      modify (fun s => MkCli (cli_exec s) (cli_out s) (cli_err s) []);;
      pure (validate_json (String.concat "" (cli_in s)))
  | _ => d ← kv_dict inputs PyDict.empty; mret (JObj (items d))
  end.

(** [execute_process] *)
Definition execute_process (created_at : string * Z) (service ident : string) (inputs : list string)
    (o : ExecuteOptions) : M Cli unit :=
  update_services;;
  inps ← parse_inputs inputs;
  outs ← pure (match eo_outputs o with
               | Some text => if str_truth text then validate_json text else Ok (JObj [])
               | None => Ok (JObj [])
               end);
  service_errors
    (request ← pure (job_execute inps outs);
     result ← on_exec (Blocking.execute cel utc timestamp_of created_at
       (MkExecArgs service ident request (eo_project o) (Some []) (eo_realm o) (eo_timeout o) (eo_tag o)
          (eo_priority o) None));
     if negb (eo_nowait o) then
       results ← try_except (on_exec (result_get result (eo_timeout o)))
         (fun e => Some (st ← on_exec (result_status result);
                         error_exit (exn_str e +:+ ": " +:+ dump_status 0 st)));
       echo (dump_results results)
     else
       st ← on_exec (result_status result); echo (dump_status 0 st)).

(** ** jobs *)

(** [dump_json] *)
Definition dump_json (j : JsonValue) : string := lstrip is_space (indent "    " (dump_value j)).

(** The pieces of a job and of its results. *)
Definition echo_output (name : string) (output : JsonValue) : M Cli unit :=
  echo_n (style (MkStyle None true false) ("  " +:+ ljust 15 name));;
  match output with
  | JArr _ => echo (style (colour "green") (dump_json output))
  | JObj l =>
      echo "";;
      each (fun kv => echo ("    " +:+ style (colour "blue") kv.1 +:+ ": " +:+
                            style (colour "green") (dump_json kv.2))) l
  | _ => echo (style (colour "green") (json_str output))
  end.

(** [jobs_status] *)
Definition jobs_status (job_id : string) (json_format : bool) : M Cli unit :=
  job ← on_exec (Blocking.job_status cel utc timestamp_of now job_id None true);
  match job with
  | None => echo_err "No job"
  | Some job =>
      if json_format then echo (dump_status 4 job)
      else
        echo newline;;
        echo (style (MkStyle None true false) ("Job " +:+ job_id));;
        each (fun kv => echo_output kv.1 kv.2) (fields_of true job)
  end.

(** [jobs_results] *)
Definition jobs_results (job_id : string) (json_format : bool) : M Cli unit :=
  results ← on_exec (Blocking.job_results cel job_id None);
  match results with
  | None | Some (ResResults []) => echo_err "No results"
  | Some (ResResults l) =>
      if json_format then echo (dump_json (JObj l))
      else
        echo newline;;
        echo (style (MkStyle None true false) ("Job " +:+ job_id));;
        each (fun kv => echo_output kv.1 kv.2) l
  | Some _ => raise (OtherException "AttributeError: items")
  end.

(** The options of [list_jobs]; the page size and the index are not negative. *)
Record ListOptions : Type := MkListOptions {
  lo_service : option string; lo_realm : option string; lo_json : bool; lo_short : bool;
  lo_limit : nat; lo_status : list string; lo_tags : list string;
}.

(** [pred] *)
Definition pred (o : ListOptions) (job : JobStatus) : bool :=
  (bool_decide (lo_tags o = []) || match st_tag job with Some t => bool_decide (t ∈ lo_tags o) | None => false end) &&
  (bool_decide (lo_status o = []) || bool_decide (code_str (st_status job) ∈ lo_status o)).

(** A job in the short display. *)
Definition echo_short (n : nat) (p : JobStatus) : M Cli unit :=
  let status := code_str (st_status p) in
  let c := MkStyle (status_color status) false false in
  sub ← pure (match st_run_config p with
              | Some rc => if json_truth rc then v ← get_key "subscriber" rc; Ok (json_truth v) else Ok false
              | None => Ok false
              end);
  echo_n ((if sub : bool then "S" else " ") +:+ " ");;
  echo_n (rjust 4 (str_of_int (Z.of_nat n)) +:+ " ");;
  echo_n (style c (ljust 40 (st_job_id p)));;
  echo_n (style (colour "blue") (ljust 40 (st_process_id p)));;
  echo (style (MkStyle (fg c) true false) (upper (String.substring 0 4 status) +:+ " "));;
  match st_tag p with
  | Some t => if str_truth t then
                echo (style (MkStyle None false true)
                  ("       " +:+ (String (ascii_of_N 226) (String (ascii_of_N 172) (String (ascii_of_N 145) ""))) +:+
                   " " +:+ t))
              else mret tt
  | None => mret tt
  end.
Fixpoint echo_shorts (n : nat) (l : list JobStatus) : M Cli unit :=
  match l with [] => mret tt | p :: l => echo_short n p;; echo_shorts (S n) l end.

(** A job in the long one. *)
Definition echo_long (p : JobStatus) : M Cli unit :=
  each (fun kv => if decide (kv.1 = "links") then mret tt
                  else echo (ljust 25 (style (colour "blue") kv.1) +:+ style (colour "green") (json_str kv.2)))
    (fields_of false p);;
  echo "-----------------------------------------------".

(** A page: the jobs that are kept *)
Definition echo_page (o : ListOptions) (index : nat) (jobs : list JobStatus) : M Cli unit :=
  let filtered := filter (fun j => pred o j = true) jobs in
  if lo_json o then each (fun job => echo (dump_status 4 job)) filtered
  else if lo_short o then echo_shorts (index + 1) filtered
  else each echo_long filtered.

(** The loop of [list_jobs]: a page that is full is followed by another one, when
    a line is read before the end of the input *)
Fixpoint list_pages (o : ListOptions) (lines : list string) (index : nat) : M Cli unit :=
  jobs ← on_exec (Blocking.jobs cel utc timestamp_of now (lo_service o) (lo_realm o) index (lo_limit o) true);
  echo_page o index jobs;;
  modify (fun s => MkCli (cli_exec s) (cli_out s) (cli_err s) lines);;
  if bool_decide (lo_limit o <= length jobs)%nat then
    write (Prompt "Press Enter to continue...");;
    match lines with
    | [] => mret tt
    | _ :: lines => list_pages o lines (index + lo_limit o)
    end
  else mret tt.

(** [list_jobs] *)
Definition list_jobs (o : ListOptions) (index : nat) : M Cli unit :=
  update_services;;
  (if lo_json o then mret tt
   else match lo_service o with
        | Some sv => if str_truth sv
                     then echo (style (MkStyle None true false) (newline +:+ "Jobs for service " +:+ sv +:+ ":" +:+ newline))
                     else echo (style (MkStyle None true false) (newline +:+ "Jobs for all services" +:+ newline))
        | None => echo (style (MkStyle None true false) (newline +:+ "Jobs for all services" +:+ newline))
        end);;
  s ← get;
  list_pages o (cli_in s) index.
End commands.

(** ** Properties *)
Section listing.
Context {R : Type} `{!Redis R} {C : Type} (cel : Celery C).
Context (utc : Z → string) (timestamp_of : string → Z) (now : Z).

(** Pulling the first jobs is the beginning of pulling them all. *)
Lemma pull_prefix dests by_service services details ids s n m L :
  (length ids <= m)%nat → pull cel utc timestamp_of now m dests by_service services details ids s = Ok L →
  pull cel utc timestamp_of now n dests by_service services details ids s = Ok (take n L).
Proof.
  revert n m L. induction ids as [|id ids IH]; intros n m L Hm.
  { destruct m, n; simpl; intros [= <-]; by rw ?take_nil. }
  destruct m as [|m]; simpl in Hm; [lia|]. destruct n as [|n]; [done|]. simpl.
  destruct (find_job id None (ex_redis s)) as [[ti|]|]; simpl; [|apply (IH (S n) (S m)); lia|done].
  destruct (_job_status _ _ _ _ _ _ _) as [[st|]|]; simpl; [| |done].
  - intros (L' & Hp & [= <-])%res_bind_inv. rw (IH n m L' ltac:(lia) Hp) //.
  - destruct (_job_status_pending _ _ _) as [st|].
    + intros (L' & Hp & [= <-])%res_bind_inv. rw (IH n m L' ltac:(lia) Hp) //.
    + apply (IH (S n) (S m)). lia.
Qed.

(** All the jobs of a listing. *)
Definition all_jobs (o : ListOptions) (services : ServiceDict) (s : Ex R C) : res (list JobStatus) :=
  let ids := find_keys (lo_service o) (lo_realm o) (ex_redis s) in
  _jobs cel utc timestamp_of now services (lo_service o) (lo_realm o) 0 (length ids) true s.

Lemma jobs_page o services s L cursor limit :
  all_jobs o services s = Ok L →
  _jobs cel utc timestamp_of now services (lo_service o) (lo_realm o) cursor limit true s =
  Ok (take limit (drop cursor L)).
Proof.
  rw /all_jobs /_jobs. intros (L' & Hp & [= <-])%res_bind_inv. rw Nat.add_0_l in Hp.
  erewrite pull_prefix; [|by rw length_fmap|exact Hp]. simpl. rw drop_0 skipn_firstn_comm.
  do 2 f_equal. lia.
Qed.
End listing.

Section printing.
Context {R : Type} `{!Redis R} {C : Type} (cel : Celery C).
Context (utc : Z → string) (timestamp_of : string → Z) (now : Z) (style : Style → string → string).
Context (dump_value : JsonValue → string) (dump_status : nat → JobStatus → string).
Context (fields_of : bool → JobStatus → list (string * JsonValue)).
Notation Cli := (Cli (Client R C)).
Notation list_pages := (list_pages cel utc timestamp_of now style dump_status fields_of).

(** How many lines the loop reads. *)
Definition pages (limit : nat) (lines : list string) (n : nat) : nat := Nat.min (length lines) (n / limit).

(** One page of the loop. *)
Lemma list_pages_page o lines index (s : Cli) L :
  all_jobs cel utc timestamp_of now o (cl_services (cli_exec s)) (cl_ex (cli_exec s)) = Ok L →
  lo_json o = true →
  let page := take (lo_limit o) (drop index L) in
  let s1 := MkCli (cli_exec s) (cli_out s ++ ((fun j => Echo (dump_status 4 j +:+ newline)) <$>
              filter (fun j => pred o j = true) page)) (cli_err s) lines in
  list_pages o lines index s =
  (if bool_decide (lo_limit o <= length page)%nat then
     write (Prompt "Press Enter to continue...");;
     match lines with [] => mret tt | _ :: lines => list_pages o lines (index + lo_limit o) end
   else mret tt) s1.
Proof.
  intros HL Hj page s1.
  assert (on_exec (Blocking.jobs cel utc timestamp_of now (lo_service o) (lo_realm o) index (lo_limit o) true) s =
    (Ok page, s)) as Hp.
  { rw /on_exec /zoom /Blocking.jobs /asks. py_unfold. rw (jobs_page cel utc timestamp_of now o _ _ L) //.
    by destruct s. }
  destruct lines as [|line lines]; simpl; (erewrite bind_ok by exact Hp); rw /echo_page Hj;
    (erewrite bind_ok by apply each_echo); by erewrite bind_ok by reflexivity.
Qed.

(** The pages of a listing in JSON: with a positive page size, the jobs that are
    kept are printed in order and each once, page after page, as far as lines
    are read; and all of them when enough lines are, after which the loop
    stops, and no more lines are read. *)
Lemma list_pages_json o lines index s L :
  lo_json o = true → (0 < lo_limit o)%nat →
  all_jobs cel utc timestamp_of now o (cl_services (cli_exec s)) (cl_ex (cli_exec s)) = Ok L →
  ∃ s', list_pages o lines index s = (Ok tt, s') ∧ cli_exec s' = cli_exec s ∧
    echoes s' = echoes s ++ ((fun j => dump_status 4 j +:+ newline) <$>
      filter (fun j => pred o j = true) (take (S (length lines) * lo_limit o) (drop index L))) ∧
    cli_in s' = drop (pages (lo_limit o) lines (length L - index)) lines.
Proof.
  intros Hj Hl. revert index s. induction lines as [|line lines IH]; intros index s HL.
  all: set (X := drop index L).
  all: assert (length X = length L - index)%nat as HX by (by rw length_drop).
  all: set (s1 := MkCli (cli_exec s) (cli_out s ++ ((fun j => Echo (dump_status 4 j +:+ newline)) <$>
         filter (fun j => pred o j = true) (take (lo_limit o) X))) (cli_err s)).
  all: rw (list_pages_page o _ index s L HL Hj) -/X -/s1 /pages -HX.
  - exists (if bool_decide (lo_limit o <= length (take (lo_limit o) X))%nat then
      (write (Prompt "Press Enter to continue...") (s1 [])).2 else s1 []).
    split; [by case_bool_decide|]. split; [by case_bool_decide|]. split.
    + rw Nat.mul_1_l. case_bool_decide; rw /echoes /= ?omap_app omap_echo ?app_nil_r //.
    + rw drop_nil. by case_bool_decide.
  - case_bool_decide as Hn; rw length_take in Hn.
    + destruct (IH (index + lo_limit o)%nat (MkCli (cli_exec s) (cli_out (s1 []) ++ [Prompt "Press Enter to continue..."])
        (cli_err s) (line :: lines)) HL) as (s' & H1 & H2 & H3 & H4).
      exists s'. rw H2 H3 H4. split; [exact H1|]. split; [done|]. split.
      * rw /echoes /= !omap_app omap_echo /= app_nil_r -app_assoc. f_equal.
        rw -fmap_app -filter_app. do 2 f_equal.
        assert (drop (index + lo_limit o) L = drop (lo_limit o) X) as -> by (rw /X drop_drop //).
        apply take_take_drop.
      * rw /pages. assert (length X / lo_limit o = S ((length L - (index + lo_limit o)) / lo_limit o))%nat as ->.
        { assert (length L - (index + lo_limit o) = length X - 1 * lo_limit o)%nat as -> by lia.
          assert (length X = (length X - 1 * lo_limit o) + 1 * lo_limit o)%nat as E by lia.
          rewrite {1}E Nat.div_add; lia. }
        by rw -Nat.succ_min_distr.
    + exists (s1 (line :: lines)). split_and!; [done|done| |].
      * rw /echoes /= omap_app omap_echo. do 3 f_equal. rw !take_ge //; [lia|]. simpl. lia.
      * rw (Nat.div_small (length X)); [lia|]. by rw Nat.min_0_r.
Qed.

(** With an empty page, every page is full: nothing is printed, and the loop only
    ends with the input. *)
Lemma list_pages_empty o lines index s L :
  lo_json o = true → lo_limit o = 0%nat →
  all_jobs cel utc timestamp_of now o (cl_services (cli_exec s)) (cl_ex (cli_exec s)) = Ok L →
  ∃ s', list_pages o lines index s = (Ok tt, s') ∧ echoes s' = echoes s ∧ cli_in s' = [].
Proof.
  intros Hj Hl. revert index s. induction lines as [|line lines IH]; intros index s HL;
    rw (list_pages_page o _ index s L HL Hj) Hl /= app_nil_r.
  - eexists. split; [reflexivity|]. by rw /echoes /= omap_app app_nil_r.
  - destruct (IH index (MkCli (cli_exec s) (cli_out s ++ [Prompt "Press Enter to continue..."])
      (cli_err s) (line :: lines)) HL) as (s' & H1 & H2 & H3).
    exists s'. rw H2 H3. split; [by rw Nat.add_0_r|]. by rw /echoes /= omap_app app_nil_r.
Qed.
End printing.

Section command.
Context {R : Type} `{!Redis R} {C : Type} (cel : Celery C).
Context (utc : Z → string) (timestamp_of : string → Z) (now : Z) (style : Style → string → string).
Context (validate_presence : JsonValue → res Presence).
Context (dump_status : nat → JobStatus → string) (fields_of : bool → JobStatus → list (string * JsonValue)).

End command.

(** ** An example: one job on pages of one *)
Module CliDemo.
Definition ex : Ex RedisDemo.store nat :=
  (_execute CeleryDemo.app CeleryDemo.services 30 ("2024-01-01", 1000)%Z CeleryDemo.args (MkEx [] 0)).2.
Definition term : Cli (Client RedisDemo.store nat) :=
  MkCli (MkClient ex PyDict.empty 0 600) [] [] ["first"; "second"].
Definition options : ListOptions := MkListOptions None None true false 1 [] [].
Definition style (_ : Style) (s : string) : string := s.
Definition dump (_ : nat) (j : JobStatus) : string := st_job_id j.
End CliDemo.

