(* ===== verification/RpcClient.v ===== *)
(** * The client of the RPC service

    [qjazz_rpc/client.py]: the commands that are sent to a server of workers, and
    what they print of its replies.  The messages and the stubs are generated
    and gRPC carries them: a server is a function that answers the replies of a
    request, in order, and the error that ended them if one did. *)
From S2P Require Import Prelude PyDict PyStd Json Web Registry Executor JobsApi ProcessesApi Terminal.

(** The messages that the commands send. *)
Inductive Request : Type :=
| OwsRequest (service request target url options : string)
| ApiRequest (name path method url : string) (target : option string) (options : string)
| CheckoutRequest (uri : string) (pull : bool)
| DropRequest (uri : string)
| ClearCache | ListCache | UpdateCache
| ProjectRequest (uri : string)
| CatalogRequest (location : option string)
| DumpCache | ListPlugins | GetConfig
| SetConfig (json : string)
| GetEnv
| SetServerServingStatus (serving : bool)
| PingRequest (server : bool) (echo : string)
| HealthCheck (watch : bool) (service : string)
| Stats
| SleepRequest (delay : Z)
| Reload.

(** What is read of the replies. *)
Inductive Reply : Type :=
| Chunk (bytes : string)
| Item (fields : list (string * JsonValue))
| PluginInfo (name path plugin_type metadata : string)
| JsonConfig (json : string)
| PingReply (echo : string)
| HealthStatus (name : string)
| Empty.

(** [grpc.RpcError] *)
Record RpcError : Type := MkRpcError {
  rpc_code : string; rpc_details : string;
  rpc_initial_metadata : list (string * string); rpc_trailing_metadata : list (string * string);
}.

(** [os.getenv("CONF_GRPC_USE_TLS", "").lower() in (1, "yes", "true")]: a text is
    never the number *)
Definition use_tls (value : option string) : bool :=
  bool_decide (lower (default "" value) ∈ ["yes"; "true"]).

(** [TLSConfig] of the environment *)
Record ClientTls : Type := MkClientTls { tls_key : option string; tls_cert : option string; tls_ca : option string }.
Definition client_ssl (getenv : string → option string) : option ClientTls :=
  if use_tls (getenv "CONF_GRPC_USE_TLS")
  then Some (MkClientTls (getenv "CONF_GRPC_TLS_KEYFILE") (getenv "CONF_GRPC_TLS_CERTFILE")
               (getenv "CONF_GRPC_TLS_CAFILE"))
  else None.
Definition client_address (getenv : string → option string) : string :=
  default "localhost:23456" (getenv "QGIS_GRPC_HOST").

(** [str.title]: a letter after what is not one is upper case, the others lower *)
Fixpoint title_from (inside : bool) (s : string) : string :=
  match s with
  | "" => ""
  | String a s => String (if is_alpha a then if inside then to_lower a else to_upper a else a)
                    (title_from (is_alpha a) s)
  end.
Definition str_title (s : string) : string := title_from false s.

Section client.
(** The server, with its state and the files of the client. *)
Context {W : Type} (call : Request → W → (list Reply * option RpcError) * W).
Context (initial_metadata : Request → list (string * string)).
Context (message_json : list (string * JsonValue) → string) (json_loads : string → res JsonValue).
Context (json_dumps : Z → JsonValue → string) (read_text : string → res string).
Context (elapsed_ms : Z) (exn_str : exn → string).
Record State : Type := MkState { st_server : W; st_files : list (string * string) }.
Notation Cli := (Cli State).

(** ** Metadata and errors *)

(** [print_metadata]: the headers, then the status code *)
Fixpoint print_headers (status_code : string) (metadata : list (string * string)) : M Cli string :=
  match metadata with
  | [] => mret status_code
  | (k, v) :: metadata =>
      if decide (k = "x-reply-status-code") then print_headers v metadata
      else
        (if startswith "x-reply-header-" k
         then echo_err (str_title (removeprefix "x-reply-header-" k) +:+ " : " +:+ v)
         else if startswith "x-" k then echo_err (k +:+ " : " +:+ v) else mret tt);;
        print_headers status_code metadata
  end.
Definition print_metadata (metadata : list (string * string)) : M Cli unit :=
  status_code ← print_headers "" metadata;
  if str_truth status_code then echo_err ("Return code: " +:+ status_code) else mret tt.

(** What a block of commands answers: the error that ended it. *)
Definition Block : Type := M Cli (option RpcError).

(** [sys.exit(1)] *)
Definition Exit1 : exn := OtherException "SystemExit: 1".

(** [connect]: an error is reported, and the command exits if it is asked to *)
Definition connect (exit_on_error : bool) (block : Block) : M Cli unit :=
  r ← block;
  match r with
  | None => mret tt
  | Some e =>
      echo_err ("RPC ERROR: " +:+ rpc_code e +:+ " " +:+ rpc_details e);;
      print_metadata (rpc_initial_metadata e);;
      print_metadata (rpc_trailing_metadata e);;
      if exit_on_error then raise Exit1 else mret tt
  end.

(** A request, its replies in order, and what follows when no error ended them. *)
Definition send (req : Request) : M Cli (list Reply * option RpcError) :=
  fun s => let '(r, w) := call req (st_server (cli_exec s)) in
           (Ok r, MkCli (MkState w (st_files (cli_exec s))) (cli_out s) (cli_err s) (cli_in s)).
Definition stream (req : Request) (f : Reply → M Cli unit) (after : Block) : Block :=
  r ← send req; each f r.1;;
  match r.2 with Some e => mret (Some e) | None => after end.
Definition done : Block := mret None.
(** A call that has one reply. *)
Definition unary (req : Request) (f : Reply → M Cli unit) : Block :=
  r ← send req;
  match r.2, r.1 with
  | Some e, _ => mret (Some e)
  | None, x :: _ => f x;; done
  | None, [] => done
  end.
Definition echo_item (x : Reply) : M Cli unit :=
  match x with Item fields => echo (message_json fields) | _ => mret tt end.

(** ** request *)

(** The chunks, to a file or to the standard output *)
Definition put_file (path bytes : string) : M Cli unit :=
  modify (fun s =>
    let st := cli_exec s in
    let old := match assoc path (st_files st) with Some t => t | None => "" end in
    MkCli (MkState (st_server st) ((path, old +:+ bytes) :: filter (fun kv => kv.1 ≠ path) (st_files st)))
      (cli_out s) (cli_err s) (cli_in s)).
Definition open_file (path : string) : M Cli unit :=
  modify (fun s =>
    let st := cli_exec s in
    MkCli (MkState (st_server st) ((path, "") :: filter (fun kv => kv.1 ≠ path) (st_files st)))
      (cli_out s) (cli_err s) (cli_in s)).
Definition write_chunk (output : option string) (x : Reply) : M Cli unit :=
  match x, output with
  | Chunk b, Some path => put_file path b
  | Chunk b, None => echo_n b
  | _, _ => mret tt
  end.

(** [ows_request], [api_request]: the first chunk is awaited before the output is
    opened *)
Definition qgis_request (req : Request) (headers : bool) (output : option string) : Block :=
  r ← send req;
  match r.1, r.2 with
  | [], Some e => mret (Some e)
  | [], None => raise (OtherException "StopIteration")
  | chunks, err =>
      match output with
      | Some path => if str_truth path then open_file path else mret tt
      | None => mret tt
      end;;
      each (write_chunk (match output with Some p => if str_truth p then Some p else None | None => None end)) chunks;;
      match err with
      | Some e => mret (Some e)
      | None =>
          (if headers then print_metadata (initial_metadata req) else mret tt);;
          echo_err ("First chunk returned in " +:+ str_of_int elapsed_ms +:+ " ms");;
          done
      end
  end.
Definition ows_request (project service request : string) (param : list string) (headers : bool)
    (output url : option string) : M Cli unit :=
  connect true (qgis_request (OwsRequest service request project (str_or (default "" url) "") (join "&" param))
                  headers output).
Definition api_request (name path : string) (target : option string) (param : list string) (headers : bool)
    (output url : option string) : M Cli unit :=
  connect true (qgis_request (ApiRequest name path "GET" (str_or (default "" url) "") target (join "&" param))
                  headers output).

(** ** cache *)
Definition checkout_project (project : string) (pull : bool) : M Cli unit :=
  connect true (unary (CheckoutRequest project pull) echo_item).
Definition drop_project (project : string) : M Cli unit := connect true (unary (DropRequest project) echo_item).
Definition clear_cache : M Cli unit := connect true (unary ClearCache (fun _ => mret tt)).

(** The number of items is printed last; [list_cache] and [update_cache] never
    count them. *)
Definition returned (count : nat) : M Cli unit :=
  echo_err ("Returned " +:+ str_of_int (Z.of_nat count) +:+ " items").
Definition list_cache : M Cli unit := connect true (stream ListCache echo_item done);; returned 0.
Definition update_cache : M Cli unit := connect true (stream UpdateCache echo_item done);; returned 0.

(** The items with their number, inside the block or after it. *)
Definition counting (req : Request) (f : Reply → M Cli unit) : M Cli (nat * option RpcError) :=
  r ← send req; each f r.1;; mret (length r.1, r.2).
Definition project_info (project : string) : M Cli unit :=
  r ← counting (ProjectRequest project) echo_item;
  connect true (mret r.2);; returned r.1.
Definition catalog (location : option string) : M Cli unit :=
  connect true (r ← counting (CatalogRequest location) echo_item;
                match r.2 with Some e => mret (Some e) | None => returned r.1;; done end).
(** [dump_cache]: the configuration of each worker is JSON in a text *)
Definition dump_item (x : Reply) : M Cli unit :=
  match x with
  | Item fields =>
      config ← pure (match assoc "config" fields with
                     | Some (JStr text) => json_loads text
                     | Some _ => Raise (TypeError "the JSON object must be str, bytes or bytearray")
                     | None => Raise (KeyError "config")
                     end);
      echo (json_dumps 2 (JObj ((fun kv => if decide (kv.1 = "config") then (kv.1, config) else kv) <$> fields)))
  | _ => mret tt
  end.
Definition dump_cache : M Cli unit :=
  r ← counting DumpCache dump_item;
  connect true (mret r.2);; returned r.1.

(** ** plugin, config, state *)
Definition echo_plugin (x : Reply) : M Cli unit :=
  match x with
  | PluginInfo name path plugin_type metadata =>
      md ← pure (json_loads metadata);
      echo (json_dumps 4 (JObj [("name", JStr name); ("path", JStr path); ("pluginType", JStr plugin_type);
                                ("metadata", md)]))
  | _ => mret tt
  end.
Definition list_plugins : M Cli unit := connect true (stream ListPlugins echo_plugin done).
Definition echo_config (x : Reply) : M Cli unit := match x with JsonConfig j => echo j | _ => mret tt end.
Definition get_config : M Cli unit := connect true (unary GetConfig echo_config).

(** [set_config]: the configuration is checked before it is sent *)
Definition set_config (config : string) : M Cli unit :=
  connect true
    (config ← pure (if startswith "@" config then read_text (removeprefix "@" config) else Ok config);
     match json_loads config with
     | Raise e => echo_err (exn_str e);; done
     | Ok _ => unary (SetConfig config) (fun _ => mret tt)
     end).
Definition set_loglevel (level : string) : M Cli unit :=
  connect true (unary (SetConfig (json_dumps (-1) (JObj [("logging", JObj [("level", JStr level)])])))
                  (fun _ => mret tt)).
Definition get_status_env : M Cli unit := connect true (unary GetEnv echo_config).
Definition disable_server : M Cli unit := connect true (unary (SetServerServingStatus false) (fun _ => mret tt)).
Definition enable_server : M Cli unit := connect true (unary (SetServerServingStatus true) (fun _ => mret tt)).

(** ** ping, healthcheck, stats, sleep, reload *)
Fixpoint pings (count n : nat) (server : bool) : Block :=
  match count with
  | O => done
  | S count =>
      r ← send (PingRequest server (str_of_int (Z.of_nat n)));
      match r.2, r.1 with
      | Some e, _ => mret (Some e)
      | None, PingReply echoed :: _ =>
          echo ("(" +:+ (if server then "server" else "admin") +:+ ") seq=" +:+ ljust 5 (str_of_int (Z.of_nat n)) +:+
                " resp=" +:+ ljust 5 echoed +:+ " time=" +:+ str_of_int elapsed_ms +:+ " ms");;
          pings count (n + 1) server
      | None, _ => raise (OtherException "AttributeError: echo")
      end
  end.
Definition ping (count : nat) (server : bool) : M Cli unit := connect true (pings count 0 server).

Definition echo_health (x : Reply) : M Cli unit :=
  match x with HealthStatus name => echo ("=: " +:+ name) | _ => mret tt end.
(** The status that is tested is the last one that came *)
Definition healthcheck_status (watch set_error : bool) : M Cli unit :=
  connect (negb watch)
    (r ← send (HealthCheck watch "qjazz.QgisServer");
     let replies := if watch then r.1 else take 1 r.1 in
     match r.2, watch with
     | Some e, false => mret (Some e)
     | err, _ =>
         each echo_health replies;;
         match err with
         | Some e => mret (Some e)
         | None =>
             if set_error then
               match last replies with
               | Some (HealthStatus name) => if decide (name = "SERVING") then done else raise Exit1
               | _ => raise (OtherException "UnboundLocalError: resp")
               end
             else done
         end
     end).

(** [display_stats]: with [watch], the statistics are displayed twice *)
Definition display_stats (watch : bool) : M Cli unit :=
  connect true
    (r ← send Stats;
     match r.2 with
     | Some e => mret (Some e)
     | None => each echo_item (take 1 r.1);; if watch then unary Stats echo_item else done
     end).
(** [sleep_request], when the user does not interrupt it *)
Definition sleep_request (delay : Z) : M Cli unit := connect true (unary (SleepRequest delay) echo_item).
Definition reload : M Cli unit := connect true (unary Reload (fun _ => mret tt)).
End client.

(** ** Streamed commands

    What [print_metadata] prints, without its loop: the headers in their order,
    then the last status code. *)
Definition header_line (kv : string * string) : option string :=
  if decide (kv.1 = "x-reply-status-code") then None
  else if startswith "x-reply-header-" kv.1
       then Some (str_title (removeprefix "x-reply-header-" kv.1) +:+ " : " +:+ kv.2)
       else if startswith "x-" kv.1 then Some (kv.1 +:+ " : " +:+ kv.2) else None.
Definition status_line (metadata : list (string * string)) : list string :=
  match last (filter (fun kv => kv.1 = "x-reply-status-code") metadata) with
  | Some (_, code) => if str_truth code then ["Return code: " +:+ code] else []
  | None => []
  end.
Definition metadata_lines (metadata : list (string * string)) : list string :=
  omap header_line metadata ++ status_line metadata.
(** The lines of items. *)
Definition item_lines (message_json : list (string * JsonValue) → string) (replies : list Reply) : list Out :=
  omap (fun x => match x with Item fields => Some (Echo (message_json fields +:+ newline)) | _ => None end) replies.
(** The lines of an error. *)
Definition error_lines (e : RpcError) : list string :=
  ("RPC ERROR: " +:+ rpc_code e +:+ " " +:+ rpc_details e)
  :: metadata_lines (rpc_initial_metadata e) ++ metadata_lines (rpc_trailing_metadata e).

Section streamed.
Context {W : Type} (call : Request → W → (list Reply * option RpcError) * W).
Context (message_json : list (string * JsonValue) → string).
Notation S := (State (W:=W)).

Lemma print_headers_cons code kv metadata :
  print_headers (W:=W) code (kv :: metadata) =
  if decide (kv.1 = "x-reply-status-code") then print_headers kv.2 metadata
  else
    (match header_line kv with Some l => echo_err l | None => mret tt end);;
    print_headers code metadata.
Proof.
  destruct kv as [k v]. cbn [print_headers header_line fst snd]. unfold header_line. cbn [fst snd].
  destruct (decide (k = "x-reply-status-code")); [done|].
  destruct (startswith "x-reply-header-" k); [done|].
  by destruct (startswith "x-" k).
Qed.

Lemma print_headers_lines code metadata (s : Cli S) :
  print_headers code metadata s =
  (Ok (from_option snd code (last (filter (fun kv => kv.1 = "x-reply-status-code") metadata))),
   MkCli (cli_exec s) (cli_out s) (cli_err s ++ omap header_line metadata) (cli_in s)).
Proof.
  revert code s. induction metadata as [|kv md IH]; intros code s.
  { csimpl. rw app_nil_r. by destruct s. }
  rw print_headers_cons filter_cons. cbn [omap list_omap].
  destruct (decide (kv.1 = "x-reply-status-code")) as [Hk|Hk].
  - rw IH. replace (header_line kv) with (@None string) by (by rw /header_line decide_True).
    rw last_cons. by destruct (last _).
  - destruct (header_line kv); erewrite bind_ok by reflexivity; rw IH /= -?app_assoc //.
Qed.

Lemma print_metadata_lines metadata (s : Cli S) :
  print_metadata metadata s =
  (Ok tt, MkCli (cli_exec s) (cli_out s) (cli_err s ++ metadata_lines metadata) (cli_in s)).
Proof.
  rw /print_metadata /metadata_lines /status_line.
  erewrite bind_ok by apply print_headers_lines.
  destruct (last _) as [[k code]|]; csimpl; last by rw app_nil_r.
  destruct (str_truth code); rw ?app_nil_r //. by rw /echo_err /modify /= app_assoc.
Qed.

(** A block that is ended by an error *)
Lemma connect_error (block : Block) e (s s1 : Cli S) :
  block s = (Ok (Some e), s1) →
  connect true block s =
  (Raise Exit1, MkCli (cli_exec s1) (cli_out s1) (cli_err s1 ++ error_lines e) (cli_in s1)).
Proof.
  intros Hb. rw /connect. erewrite bind_ok by exact Hb.
  cbv beta match. erewrite bind_ok by reflexivity.
  erewrite bind_ok by apply print_metadata_lines.
  erewrite bind_ok by apply print_metadata_lines.
  rw /raise /error_lines /=. by rw -!app_assoc.
Qed.

Lemma each_item replies (s : Cli S) :
  each (echo_item message_json) replies s =
  (Ok tt, MkCli (cli_exec s) (cli_out s ++ item_lines message_json replies) (cli_err s) (cli_in s)).
Proof.
  rw /item_lines. revert s. induction replies as [|x l IH]; intros s; [by csimpl; rw app_nil_r; destruct s|].
  cbn [each]. destruct x; erewrite bind_ok by reflexivity; rw IH; csimpl; rw -?app_assoc //.
Qed.

(** What a command that lists the items of a request leaves: the items in their
    order, then their number, or the error that ended them and the exit. *)
Definition listed (count : list Reply → nat) (req : Request) (s : Cli S) : res unit * Cli S :=
  let '((replies, err), w) := call req (st_server (cli_exec s)) in
  let exec := MkState w (st_files (cli_exec s)) in
  let out := cli_out s ++ item_lines message_json replies in
  match err with
  | Some e => (Raise Exit1, MkCli exec out (cli_err s ++ error_lines e) (cli_in s))
  | None =>
      (Ok tt, MkCli exec out
                (cli_err s ++ ["Returned " +:+ str_of_int (Z.of_nat (count replies)) +:+ " items"]) (cli_in s))
  end.

Lemma stream_listed req (s : Cli S) :
  (connect true (stream call req (echo_item message_json) done);; returned 0) s = listed (fun _ => 0) req s.
Proof.
  rw /listed. destruct (call req (st_server (cli_exec s))) as [[replies err] w] eqn:Hc.
  have Hb : stream call req (echo_item message_json) done s =
    (Ok err, MkCli (MkState w (st_files (cli_exec s))) (cli_out s ++ item_lines message_json replies)
               (cli_err s) (cli_in s)).
  { rw /stream /send. unfold mbind, M_bind. rw Hc. cbn [fst snd]. rw each_item. by destruct err. }
  destruct err as [e|].
  - erewrite bind_raise by (by apply connect_error). done.
  - erewrite bind_ok by (rw /connect; erewrite bind_ok by exact Hb; reflexivity). done.
Qed.

Lemma counting_listed req (s : Cli S) replies err w :
  call req (st_server (cli_exec s)) = (replies, err, w) →
  counting call req (echo_item message_json) s =
  (Ok (length replies, err),
   MkCli (MkState w (st_files (cli_exec s))) (cli_out s ++ item_lines message_json replies)
     (cli_err s) (cli_in s)).
Proof.
  intros Hc. rw /counting /send. unfold mbind, M_bind. rw Hc. cbn [fst snd]. by rw each_item.
Qed.

End streamed.
