(* ===== verification/Store.v ===== *)
(** * The object store

    [qjazz_store]: resources of a service and an identity in a bucket
    ([store.py], [writer.py], [reader.py], [models.py], [access.py]), the
    handlers that serve them ([qjazz_processes/server/_handlers/store.py]) and
    the store of a job ([qjazz_processes/worker/store.py]).  The Minio client is
    a record of operations on a state; it raises [MinioError], with a status
    when the error comes from the server ([S3Error]). *)
From S2P Require Import Prelude PyDict PyStd Json Utils Routes Web Registry Executor JobsApi ProcessesApi.
Import Paths.

(** ** The client *)

(** [minio.datatypes.Object] *)
Record StoredObject : Type := MkStored {
  so_name : string; so_is_dir : bool; so_size : option Z; so_content_type : option string;
  so_last_modified : option Qc; so_version : option string;
  so_metadata : list (string * string);
}.

Record WriteResult : Type := MkWrite { wr_last_modified : option Qc; wr_version : option string }.

Record Minio (S : Type) : Type := {
  bucket_exists : string → M S bool;
  make_bucket : string → option string → M S unit;
  set_bucket_lifecycle : string → Z → M S unit;
  list_objects : string → string → bool → M S (list StoredObject);
  stat_object : string → string → M S StoredObject;
  remove_object : string → string → option string → M S unit;
  get_object : string → string → M S string;
  put_object : string → string → string → Z → string → list (string * string) → M S WriteResult;
  add_service_account : string → string → string → string → M S unit;
}.
Arguments bucket_exists {_} _ _ _.
Arguments make_bucket {_} _ _ _ _.
Arguments set_bucket_lifecycle {_} _ _ _ _.
Arguments list_objects {_} _ _ _ _ _.
Arguments stat_object {_} _ _ _ _.
Arguments remove_object {_} _ _ _ _ _.
Arguments get_object {_} _ _ _ _.
Arguments put_object {_} _ _ _ _ _ _ _ _.
Arguments add_service_account {_} _ _ _ _ _ _.

(** The size of the chunks that objects are read in. *)
Definition CHUNK_SIZE : nat := Z.to_nat (1024 * 1024).
Lemma CHUNK_SIZE_pos : (0 < CHUNK_SIZE)%nat.
Proof. rw /CHUNK_SIZE. lia. Qed.
#[global] Arguments CHUNK_SIZE : simpl never.
#[global] Strategy opaque [CHUNK_SIZE].

(** ** writer.py *)

(** [Object] *)
Record Object : Type := MkObject {
  ob_name : string; ob_size : option Z; ob_content_type : option string;
}.

(** [_Reader]: what is left of a chunk, and the queue, which ends by an empty
    chunk *)
Record Reader : Type := MkReader { rd_eof : bool; rd_left : string; rd_queue : list string }.
Definition new_reader (stream : list string) : Reader := MkReader false "" (stream ++ [""]).

(** [_Reader.read] *)
Definition read (size : Z) (r : Reader) : string * Reader :=
  if rd_eof r then ("", r)
  else if str_truth (rd_left r) then (rd_left r, MkReader false "" (rd_queue r))
  else match rd_queue r with
       | [] => ("", r)
       | b :: q =>
           let sz := String.length b in
           let eof := bool_decide (sz = 0) in
           if decide (size ≤ 0 ∨ Z.of_nat sz ≤ size)%Z then (b, MkReader eof "" q)
           else let n := Z.to_nat size in
                (String.substring 0 n b,
                 MkReader eof (String.substring n (sz - n) b) q)
       end.

(** What is read until an empty answer. *)
Fixpoint drain (fuel : nat) (size : Z) (r : Reader) : string :=
  match fuel with
  | O => ""
  | S fuel => let '(b, r) := read size r in
              if str_truth b then b +:+ drain fuel size r else ""
  end.
Definition DEFAULT_PART_SIZE : Z := 10 * 1024 * 1024.
Definition MIN_PART_SIZE : Z := 5 * 1024 * 1024.
Definition part_size : Z := Z.max MIN_PART_SIZE DEFAULT_PART_SIZE.

(** The name of an object: [str(PurePosixPath(prefix, name)) if prefix else name] *)
Definition object_name (prefix name : string) : string :=
  if str_truth prefix then path_str (path_join (path_of prefix) (path_of name)) else name.

(** ** models.py *)
Inductive Resource : Type :=
| DirResource (name : string)
| FileResource (name : string) (size : option Z) (content_type : option string)
    (last_modified : option Qc) (encrypted : bool) (version : option string).
Definition res_name (r : Resource) : string :=
  match r with DirResource n => n | FileResource n _ _ _ _ _ => n end.

(** The validation of a [FileResource]: [encrypted] has no default *)
Definition make_file (name : string) (size : option Z) (content_type : option string)
    (last_modified : option Qc) (encrypted : option bool) (version : option string) : res Resource :=
  match encrypted with
  | Some e => Ok (FileResource name size content_type last_modified e version)
  | None => Raise (ValidationError "encrypted")
  end.

Section store.
Context {S : Type} (mn : Minio S).

(** ** store.py *)

(** [store_error] *)
Definition store_error {A} (m : M S A) : M S A :=
  try_except m (fun e => match e with
                         | MinioError (Some st) msg => Some (raise (StoreError st msg))
                         | MinioError None msg => Some (raise (StoreError 500 msg))
                         | _ => None
                         end).

(** [_create_store]: a new bucket expires its objects after a day *)
Definition create_store (service : string) (location : option string) : M S unit :=
  b ← bucket_exists mn service;
  if (b : bool) then mret tt
  else make_bucket mn service location;; set_bucket_lifecycle mn service 1.

(** [bucket_destination], [put_object_from_stream], [push_object] *)
Definition push_object (service identity : string) (obj : Object) (stream : list string)
    (metadata : list (string * string)) : M S WriteResult :=
  if str_truth (ob_name obj) then
    put_object mn service (object_name identity (ob_name obj))
      (drain (2 * length stream + 1) part_size (new_reader stream))
      (match ob_size obj with Some z => if decide (z < 0)%Z then -1 else z | None => -1 end)%Z
      (str_or (default "" (ob_content_type obj)) "application/octet-stream") metadata
  else raise (PreconditionError "Object must have a valid name").

(** [put_store]: writing one object *)
Definition put_store (service identity : string) (obj : Object) (stream : list string)
    (metadata : list (string * string)) : M S Resource :=
  store_error
    (result ← push_object service identity obj stream metadata;
     size ← pure (match assoc "content-size" metadata with
                  | Some v => z ← int_of_str v; Ok (Some z) | None => Ok (ob_size obj) end);
     pure (make_file (ob_name obj) size (ob_content_type obj) (wr_last_modified result) None
             (wr_version result))).

(** [to_resource] *)
Definition META_PREFIX : string := "x-amz-meta-".
Definition to_resource (root : string) (obj : StoredObject) : res Resource :=
  let name := removeprefix root (so_name obj) in
  if so_is_dir obj then Ok (DirResource name)
  else
    let md := so_metadata obj in
    let meta := default "" (assoc (META_PREFIX +:+ "content-size") md) in
    size ← (if str_truth meta then z ← int_of_str meta; Ok (Some z) else Ok (so_size obj));
    make_file name size (so_content_type obj) (so_last_modified obj)
      (Some (bool_decide (assoc (META_PREFIX +:+ "encrypted") md = Some "yes"))) (so_version obj).

(** [list_store] *)
Definition list_store (service identity : string) (prefix : option string) (recurse : bool) :
    M S (list Resource) :=
  let root := identity +:+ "/" in
  store_error
    (objs ← list_objects mn service (root +:+ default "" prefix) recurse;
     pure (seq_res (to_resource root <$> filter (fun o => str_truth (so_name o) = true) objs))).

(** [stat_store] *)
Definition stat_store (name service identity : string) : M S Resource :=
  let root := identity +:+ "/" in
  obj ← store_error (stat_object mn service (root +:+ name));
  pure (to_resource root obj).

(** [delete_store] *)
Definition delete_store (name service identity : string) (version_id : option string) : M S unit :=
  store_error (remove_object mn service (identity +:+ "/" +:+ name) version_id).

(** [get_store]: the chunks of one object *)
Definition get_store (name service identity : string) (size : nat) : M S (list string) :=
  store_error
    (if str_truth name then
       data ← get_object mn service (object_name identity name);
       mret (read_chunks (String.length data) size data)
     else raise (PreconditionError "Object must have a valid name")).

(** ** access.py *)

(** [_read_policy]: [Template.substitute] in [templates/store-policy.json], the
    resources of its statements *)
Definition policy_resources (service identity : string) : list string :=
  ["arn:aws:s3:::*"; "arn:aws:s3:::" +:+ service; "arn:aws:s3:::" +:+ service;
   "arn:aws:s3:::" +:+ service +:+ "/" +:+ identity +:+ "/*"].

(** [_setup_store]; [access_key] and [secret_key] are the hexadecimal texts of
    ten and twenty random bytes, and the expiration is a time in seconds *)
Definition access_expiration (now ttl : Z) : Z := now + Z.max ttl 960.
Definition _setup_store (creds : StoreCreds) (access_key secret_key : string) (iso : Z → string) (now : Z)
    (service identity : string) (ttl : Z) (location : option string) : M S (string * string * string) :=
  create_store service location;;
  let expiration := iso (access_expiration now ttl) in
  add_service_account mn access_key secret_key
    (join " " (policy_resources service identity)) expiration;;
  mret (access_key, secret_key, expiration).

(** ** _handlers/store.py *)
Context (py : Pydantic) (pol : AccessPolicy) (services : ServiceDict) (store : option StoreConfig).

(** [handle_store_error] around the body of a handler *)
Definition handle_store_error {B} (rq : WebRequest) (m : M S (Response B)) : M S (Response B) :=
  try_except m (fun e => match e with
    | StoreError st _ =>
        Some (if decide (st = 404)%Z
              then mret (error_response 404 "Store resource not found" [("details", wr_path rq)])
              else raise (HTTPException 502 "Store backend error"))
    | _ => None
    end).

Definition resource_path (service identity name : string) : string :=
  format_path ("/store/" +:+ identity +:+ "/" +:+ name) (Some service) None None.

(** [Store.list_store] *)
Definition handle_list_store (rq : WebRequest) : M S (Response (list (Resource * list Link) * list Link)) :=
  service ← pure (pol_get_service pol services rq);
  identity ← pure (get_identity rq);
  recurse ← pure (validate_param (bool_validate py) rq "recurse" false);
  pure (store_creds store);;
  handle_store_error rq
    (resources ← list_store service identity (assoc "prefix" (wr_query rq)) recurse;
     rls ← pure (seq_res ((fun r =>
       l ← make_link (HttpUrl py) rq "resource" (resource_path service identity (res_name r)) "Get resource";
       Ok (r, [l])) <$> resources));
     l ← pure (make_link (HttpUrl py) rq "self" (resource_path service identity "") "Resource list");
     mret (json_response (rls, [l]))).

(** [Store.get_store]: the chunks that are streamed *)
Definition resource_headers (r : Resource) : list (string * string) :=
  match r with
  | DirResource _ => []
  | FileResource _ size ct mtime encrypted _ =>
      (if ostr_truth ct then [("Content-Type", default "" ct)] else []) ++
      (match size with Some z => if decide (z = 0)%Z then [] else [("Content-Length", str_of_int z)]
       | None => [] end) ++
      (match mtime with Some t => [("Last-Modified", to_rfc822 t)] | None => [] end) ++
      [("QJazz-Store-Type", if encrypted then "encrypted" else "plain")]
  end.
Definition is_encrypted (r : Resource) : bool :=
  match r with FileResource _ _ _ _ e _ => e | DirResource _ => false end.

Definition handle_get_store (rq : WebRequest) : M S (Response (list string)) :=
  service ← pure (pol_get_service pol services rq);
  identity ← pure (get_identity rq);
  name ← pure (match_info "Name" rq);
  pure (store_creds store);;
  r ← stat_store name service identity;
  handle_store_error rq
    (if is_encrypted r then raise (HTTPException 403 "Forbidden resource")
     else if decide (wr_method rq = "HEAD") then mret (MkResponse 200 (resource_headers r) BEmpty)
     else chunks ← get_store name service identity CHUNK_SIZE;
          mret (MkResponse 200 (resource_headers r) (BModel chunks))).

(** [Store.put_store]; [sha256] is the digest of the data *)
Definition handle_put_store (sha256 : string → string) (rq : WebRequest) (stream : list string) :
    M S (Response (Resource * string * list Link)) :=
  service ← pure (pol_get_service pol services rq);
  identity ← pure (get_identity rq);
  name ← pure (match_info "Name" rq);
  pure (validate_param (bool_validate py) rq "encrypt" false);;
  let length := default "" (header "Content-Length" (wr_headers rq)) in
  size ← pure (if str_truth length then z ← int_of_str length; Ok (Some z) else Ok None);
  pure (store_creds store);;
  handle_store_error rq
    (create_store service None;;
     r ← put_store service identity (MkObject name size (header "Content-Type" (wr_headers rq))) stream [];
     let digest := "sha256:" +:+ sha256 (join "" stream) in
     l ← pure (make_link (HttpUrl py) rq "resource" (resource_path service identity (res_name r)) "");
     mret (MkResponse 200 [("Digest", digest); ("Location", link_href l)] (BModel (r, digest, [l])))).

(** [Store.delete_store] *)
Definition handle_delete_store (rq : WebRequest) : M S (Response (string * string * string)) :=
  service ← pure (pol_get_service pol services rq);
  identity ← pure (get_identity rq);
  name ← pure (match_info "Name" rq);
  pure (store_creds store);;
  handle_store_error rq
    (delete_store name service identity (assoc "version_id" (wr_query rq));;
     mret (json_response (name, service, identity))).

(** ** worker/store.py: the store of a job *)
Definition job_store_stat (name service identity : string) : M S Resource := stat_store name service identity.
Definition job_store_read (name service identity : string) : M S string :=
  chunks ← get_store name service identity CHUNK_SIZE;
  mret (join "" chunks).
Definition job_store_write (name service identity data : string) (content_type : option string)
    (content_length : option Z) : M S Resource :=
  put_store service identity (MkObject name content_length content_type)
    (read_chunks (String.length data) CHUNK_SIZE data) [].
End store.

(** ** Chunks *)
Lemma substring_split n s :
  String.substring 0 n s +:+ String.substring n (String.length s - n) s = s.
Proof.
  revert n. induction s as [|a s IH]; intros [|n]; simpl; try done.
  - change ("" +:+ ?x) with x. by rw substring_0.
  - change (String a (String.substring 0 n s +:+ String.substring n (String.length s - n) s) = String a s).
    by rw IH.
Qed.

Lemma substring_tail n s :
  String.substring n (String.length s) s = String.substring n (String.length s - n) s.
Proof.
  assert (∀ s n m, (String.length s - n <= m)%nat →
    String.substring n m s = String.substring n (String.length s - n) s) as H; [|apply H; lia].
  clear. induction s as [|a s IH]; intros [|n] m Hm; simpl in *; try by destruct m.
  - destruct m as [|m]; [lia|]. by rw !substring_0; [lia..|].
  - by apply IH.
Qed.

Lemma substring_length n m s :
  String.length (String.substring n m s) = Nat.min m (String.length s - n).
Proof.
  revert n m. induction s as [|a s IH]; intros [|n] [|m]; simpl; rw ?IH ?Nat.sub_0_r //.
Qed.

Lemma join_cons_empty b l : join "" (b :: l) = b +:+ join "" l.
Proof. destruct l; [by rw str_app_nil_r|done]. Qed.

(** Reading in chunks gives all the data, in chunks that are not empty. *)
Lemma read_chunks_spec n fuel s :
  (0 < n)%nat → (String.length s <= fuel)%nat →
  join "" (read_chunks fuel n s) = s ∧ Forall (fun b => str_truth b = true) (read_chunks fuel n s).
Proof.
  intros Hn. revert s. induction fuel as [|fuel IH]; intros s Hs.
  { destruct s; [done|simpl in Hs; lia]. }
  simpl. destruct (str_truth s) eqn:E; [|by destruct s].
  destruct (IH (String.substring n (String.length s) s)) as [H1 H2].
  { rw substring_length. destruct s as [|a s]; [done|]. cbn [String.length] in *. lia. }
  split.
  - rw join_cons_empty H1 substring_tail. apply substring_split.
  - constructor; [|done]. destruct s; [done|]. by destruct n; [lia|].
Qed.

(** ** The reader of a stream *)
Lemma drain_all fuel size left q :
  Forall (fun b => str_truth b = true) q →
  (2 * length q + (if str_truth left then 1 else 0) + 1 <= fuel)%nat →
  drain fuel size (MkReader false left (q ++ [""])) = left +:+ join "" q.
Proof.
  revert left q. induction fuel as [|fuel IH]; intros left q Hq Hf; [lia|]. cbn [drain].
  rw /read. cbn [rd_eof rd_left rd_queue]. destruct (str_truth left) eqn:El.
  { rw El. f_equal. rw IH //. simpl. lia. }
  destruct left; [|done]. change ("" +:+ ?x) with x. destruct q as [|b q].
  { simpl. case_decide; [done|lia]. }
  apply Forall_cons in Hq as [Hb Hq]. cbn [length] in Hf. rw -app_comm_cons. cbv zeta.
  assert (bool_decide (String.length b = 0) = false) as -> by (by destruct b).
  case_decide as Hsz.
  - rw Hb join_cons_empty. f_equal. rw IH //. simpl. lia.
  - assert (0 < Z.to_nat size < String.length b)%nat by lia.
    set (hd := String.substring 0 (Z.to_nat size) b).
    assert (str_truth hd = true) as Hh.
    { destruct hd eqn:E; [|done]. apply (f_equal String.length) in E.
      rw /hd substring_length in E. simpl in E. lia. }
    rw Hh IH //; [case_match; lia|]. rw join_cons_empty -str_app_assoc. f_equal. apply substring_split.
Qed.

(** A read may answer more than it was asked: what is left of a chunk is given
    at once. *)
Lemma read_more_than_asked :
  let r := new_reader ["abcdefg"] in
  (read 2 r).1 = "ab" ∧ (read 2 (read 2 r).2).1 = "cdefg".
Proof. done. Qed.

Lemma join_app_sep l k : l ≠ [] → k ≠ [] → join "/" (l ++ k) = join "/" l +:+ "/" +:+ join "/" k.
Proof.
  induction l as [|x l IH]; [done|]. intros _ Hk. destruct l as [|y l].
  - destruct k; [done|]. reflexivity.
  - change (join "/" ((x :: y :: l) ++ k)) with (x +:+ "/" +:+ join "/" ((y :: l) ++ k)).
    rw IH //. change (join "/" (x :: y :: l)) with (x +:+ "/" +:+ join "/" (y :: l)).
    by rw !str_app_assoc.
Qed.

(** A name as parsing leaves it: components that are not empty, without dots. *)
Definition plain_name (s : string) : Prop := ∃ l, l ≠ [] ∧ Forall part_ok l ∧ s = join "/" l.

Lemma plain_name_truth s : plain_name s → str_truth s = true.
Proof.
  intros (l & Hl & Hlo & ->). destruct l as [|x l]; [done|].
  apply Forall_cons in Hlo as [(Hx & _) _]. destruct x; [done|]. by destruct l.
Qed.

Lemma object_name_plain identity name :
  plain_name identity → plain_name name → object_name identity name = identity +:+ "/" +:+ name.
Proof.
  intros Hid. rw /object_name plain_name_truth //.
  destruct Hid as (l & Hl & Hlo & ->). intros (k & Hk & Hko & ->).
  destruct (path_root_spec _ (join_head l Hlo)) as (Hl0 & _).
  destruct (path_root_spec _ (join_head k Hko)) as (Hk0 & _).
  rw /path_of /path_join /path_str /= Hk0 Hl0 !parts_join //=.
  rw -join_app_sep //. by destruct (l ++ k) eqn:E; [apply app_eq_nil in E as [-> _]|].
Qed.

Section requests.
Context {S : Type} (mn : Minio S).
Implicit Types (s : S).

Lemma push_object_plain service identity name size ct stream md :
  plain_name identity → plain_name name → Forall (fun b => str_truth b = true) stream →
  push_object mn service identity (MkObject name size ct) stream md =
  put_object mn service (identity +:+ "/" +:+ name) (join "" stream)
    (match size with Some z => if decide (z < 0)%Z then -1 else z | None => -1 end)%Z
    (str_or (default "" ct) "application/octet-stream") md.
Proof.
  intros Hid Hn Hs. rw /push_object /= object_name_plain // /new_reader drain_all //; [simpl; lia|].
  by rw plain_name_truth.
Qed.

Lemma get_store_plain name service identity n s data s' :
  plain_name identity → plain_name name →
  get_object mn service (identity +:+ "/" +:+ name) s = (Ok data, s') →
  get_store mn name service identity n s = (Ok (read_chunks (String.length data) n data), s').
Proof.
  intros Hid Hn Hg. rw /get_store /store_error /try_except object_name_plain //.
  rw plain_name_truth //. by erewrite bind_ok by exact Hg.
Qed.


(** A resource that is not there is not answered by the status 404 that the
    handler has for it: its description is read outside of the block that
    handles the errors of the store. *)
Lemma get_store_missing pol services store rq service identity name c msg s s' :
  pol_get_service pol services rq = Ok service → get_identity rq = Ok identity →
  match_info "Name" rq = Ok name → store_creds store = Ok c →
  stat_object mn service (identity +:+ "/" +:+ name) s = (Raise (MinioError (Some 404%Z) msg), s') →
  handle_get_store mn pol services store rq s = (Raise (StoreError 404 msg), s').
Proof.
  intros Hsv Hid Hn Hc Hst. rw /handle_get_store.
  erewrite bind_ok by (rw /pure Hsv; reflexivity). erewrite bind_ok by (rw /pure Hid; reflexivity).
  erewrite bind_ok by (rw /pure Hn; reflexivity). erewrite bind_ok by (rw /pure Hc; reflexivity).
  apply bind_raise. rw /stat_store. apply bind_raise. rw /store_error /try_except str_app_assoc Hst. done.
Qed.

(** The link of a listed resource does not lead to it: its path has the
    identity, which is added once more when the link is followed. *)
Lemma resource_link_doubled service identity name :
  resolve_route (routes "" true) "GET" ("/store/" +:+ identity +:+ "/" +:+ name) =
    Some ("get_store", [("Name", identity +:+ "/" +:+ name)]) ∧
  stat_store mn (identity +:+ "/" +:+ name) service identity =
    (obj ← store_error (stat_object mn service (identity +:+ "/" +:+ identity +:+ "/" +:+ name));
     pure (to_resource (identity +:+ "/") obj)).
Proof.
  split; [|by rw /stat_store str_app_assoc]. by destruct identity.
Qed.

(** An object whose name is an absolute path is not written below its identity. *)
Lemma absolute_name_escapes identity name :
  str_truth identity = true → plain_name name → object_name identity ("/" +:+ name) = "/" +:+ name.
Proof.
  intros Hid (k & Hk & Hko & ->). rw /object_name Hid.
  destruct (path_root_spec _ (join_head k Hko)) as (_ & Hk1 & _).
  change ("/" +:+ join "/" k) with (String "/" (join "/" k)).
  rw /path_of /path_join /path_str /= Hk1 parts_slash parts_join //.
Qed.
End requests.

(** ** A store in memory *)
Module StoreDemo.
Definition client : Minio (list (string * string)) := {|
  bucket_exists _ := mret true;
  make_bucket _ _ := mret tt;
  set_bucket_lifecycle _ _ := mret tt;
  list_objects _ _ _ := mret [];
  stat_object _ _ := raise (MinioError (Some 404%Z) "NoSuchKey");
  remove_object _ _ _ := mret tt;
  get_object _ k := fun s => (match assoc k s with
                              | Some d => Ok d | None => Raise (MinioError (Some 404%Z) "NoSuchKey") end, s);
  put_object _ k d _ _ _ := fun s => (Ok (MkWrite None None), (k, d) :: s);
  add_service_account _ _ _ _ := mret tt;
|}.
End StoreDemo.


