(* ===== verification/WorkerCache.v ===== *)
(** * The process cache of a worker

    [qjazz_processes/worker/cache.py]: a child process that computes the
    descriptions of processes, asked over a pipe by the worker, which keeps the
    answers; [threads.py] and [watch.py]: the periodic tasks that reload it.
    How far the child is when the worker stops waiting is an argument of each
    request: the number of messages it handled in the time of the poll. *)
From S2P Require Import Prelude PyDict PyStd Json Web Registry Executor JobsApi ProcessesApi.

(** ** The pipe *)

(** [MsgType], with the data that is sent *)
Inductive Msg : Type :=
| QUIT
| UPDATE
| DESCRIBE (ident : string) (project : option string)
| READY.

Section cache.
(** [D] is a description and its dump; [C] the state of the child, which an
    update may change. *)
Context {D C : Type} (model_dump : D → JsonValue).
Context (_describe : C → string → option string → res D) (_update : C → res (list ProcessSummary) * C).

(** What comes back on the pipe; nothing says which request it answers. *)
Inductive Reply : Type := RDescription (d : D) | RSummaries (l : list ProcessSummary) | RReady.

(** [ProcessCache], with the two ends of its pipe and its child *)
Record WorkerCache : Type := MkCache {
  wc_descriptions : pydict string Reply;
  wc_processes : Reply;
  wc_known_processes : gset string;
  wc_sent : list Msg;
  wc_received : list Reply;
  wc_child : option C;
}.

Definition set_pipe (sent : list Msg) (received : list Reply) (child : option C) (w : WorkerCache) :
    WorkerCache :=
  MkCache (wc_descriptions w) (wc_processes w) (wc_known_processes w) sent received child.

(** [ProcessCache.run]: one turn of the loop of the child; an exception is
    logged and nothing is sent *)
Definition child_turn (w : WorkerCache) : WorkerCache :=
  match wc_child w, wc_sent w with
  | Some c, msg :: sent =>
      match msg with
      | QUIT => set_pipe sent (wc_received w) None w
      | UPDATE => let '(r, c) := _update c in
                  set_pipe sent (wc_received w ++ match r with Ok l => [RSummaries l] | Raise _ => [] end)
                    (Some c) w
      | DESCRIBE ident project =>
          set_pipe sent
            (wc_received w ++ match _describe c ident project with Ok d => [RDescription d] | Raise _ => [] end)
            (Some c) w
      | READY => set_pipe sent (wc_received w ++ [RReady]) (Some c) w
      end
  | _, _ => w
  end.
Fixpoint child_turns (n : nat) (w : WorkerCache) : WorkerCache :=
  match n with O => w | S n => child_turns n (child_turn w) end.

(** [sender.send(msg)], then [sender.poll(timeout)] and [sender.recv()]: [None]
    when the time is over before the child answers *)
Definition ask (n : nat) (msg : Msg) : M WorkerCache (option Reply) := fun w =>
  let w := child_turns n (set_pipe (wc_sent w ++ [msg]) (wc_received w) (wc_child w) w) in
  match wc_received w with
  | r :: rs => (Ok (Some r), set_pipe (wc_sent w) rs (wc_child w) w)
  | [] => (Ok None, w)
  end.

(** ** cache.py *)

Definition is_alive (w : WorkerCache) : bool := match wc_child w with Some _ => true | None => false end.

(** The key of a description: [f"{ident}@{project}"] *)
Definition cache_key (ident : string) (project : option string) : string :=
  ident +:+ "@" +:+ default "None" project.

Definition reply_truth (r : Reply) : bool := match r with RSummaries [] => false | _ => true end.

Definition set_description (k : string) (r : Reply) : M WorkerCache unit :=
  modify (fun w => MkCache (PyDict.insert k r (wc_descriptions w)) (wc_processes w) (wc_known_processes w)
                     (wc_sent w) (wc_received w) (wc_child w)).

(** [ProcessCache.describe] *)
Definition dump_reply (r : Reply) : res (option JsonValue) :=
  match r with
  | RDescription d => Ok (Some (model_dump d))
  | _ => Raise (OtherException "AttributeError: model_dump")
  end.
Definition cache_describe (n : nat) (ident : string) (project : option string) :
    M WorkerCache (option JsonValue) :=
  w ← get;
  if is_alive w then
    if decide (ident ∈ wc_known_processes w) then
      let key := cache_key ident project in
      match (r ← lookup key (wc_descriptions w); if reply_truth r then Some r else None) with
      | Some r => pure (dump_reply r)
      | None => r ← ask n (DESCRIBE ident project);
                match r with
                | Some r => set_description key r;; pure (dump_reply r)
                | None => raise (RuntimeError "Failed to get process description")
                end
      end
    else mret None
  else mret None.

(** The identifiers of what came back, which is taken for summaries *)
Definition reply_ids (r : Reply) : res (gset string) :=
  match r with
  | RSummaries l => Ok (list_to_set (ps_id <$> l))
  | RDescription _ => Raise (OtherException "AttributeError: id_")
  | RReady => Raise (TypeError "'bool' object is not iterable")
  end.

(** [ProcessCache.update] *)
Definition cache_update (n : nat) : M WorkerCache Reply :=
  w ← get;
  if is_alive w then
    r ← ask n UPDATE;
    match r with
    | Some r =>
        modify (fun w => MkCache PyDict.empty r (wc_known_processes w) (wc_sent w) (wc_received w) (wc_child w));;
        known ← pure (reply_ids r);
        modify (fun w => MkCache (wc_descriptions w) (wc_processes w) known (wc_sent w) (wc_received w)
                           (wc_child w));;
        mret r
    | None => raise (RuntimeError "Failed to update process descriptions")
    end
  else mret (RSummaries []).

(** [ProcessCache.start]: the child starts in the state that [initialize]
    leaves *)
Definition cache_start (n : nat) (c0 : C) : M WorkerCache unit :=
  modify (fun w => set_pipe (wc_sent w) (wc_received w) (Some c0) w);;
  r ← ask n READY;
  match r with Some _ => mret tt | None => raise (RuntimeError "Failed to start process cache") end.

(** [ProcessCache.stop] *)
Definition cache_stop (n : nat) : M WorkerCache unit :=
  w ← get;
  if is_alive w
  then modify (fun w => child_turns n (set_pipe (wc_sent w ++ [QUIT]) (wc_received w) (wc_child w) w))
  else mret tt.

(** ** What the cache promises *)

(** The processes as the child knows them, asked directly. *)
Record Processes : Type := MkProcesses { sp_child : C; sp_known : gset string }.
Inductive Request : Type := AskDescribe (ident : string) (project : option string) | AskUpdate.

Definition spec_describe (ident : string) (project : option string) (p : Processes) : res (option JsonValue) :=
  if decide (ident ∈ sp_known p) then
    match _describe (sp_child p) ident project with
    | Ok d => Ok (Some (model_dump d))
    | Raise _ => Raise (RuntimeError "Failed to get process description")
    end
  else Ok None.
Definition spec_update (p : Processes) : res Reply * Processes :=
  let '(r, c) := _update (sp_child p) in
  match r with
  | Ok l => (Ok (RSummaries l), MkProcesses c (list_to_set (ps_id <$> l)))
  | Raise _ => (Raise (RuntimeError "Failed to update process descriptions"), MkProcesses c (sp_known p))
  end.

(** The answer to a request, from the cache and from the specification. *)
Inductive Answer : Type := ADescription (r : res (option JsonValue)) | AUpdate (r : res Reply).
Definition serve_cache (n : nat) (rq : Request) (w : WorkerCache) : Answer * WorkerCache :=
  match rq with
  | AskDescribe ident project => let '(r, w) := cache_describe n ident project w in (ADescription r, w)
  | AskUpdate => let '(r, w) := cache_update n w in (AUpdate r, w)
  end.
Definition serve_spec (rq : Request) (p : Processes) : Answer * Processes :=
  match rq with
  | AskDescribe ident project => (ADescription (spec_describe ident project p), p)
  | AskUpdate => let '(r, p) := spec_update p in (AUpdate r, p)
  end.
Fixpoint run_cache (rqs : list (nat * Request)) (w : WorkerCache) : list Answer :=
  match rqs with
  | [] => []
  | (n, rq) :: rqs => let '(a, w) := serve_cache n rq w in a :: run_cache rqs w
  end.
Fixpoint run_spec (rqs : list (nat * Request)) (p : Processes) : list Answer :=
  match rqs with
  | [] => []
  | (_, rq) :: rqs => let '(a, p) := serve_spec rq p in a :: run_spec rqs p
  end.
End cache.
Arguments Reply : clear implicits.
Arguments WorkerCache : clear implicits.
Arguments Answer : clear implicits.
Arguments Processes : clear implicits.

(** ** threads.py *)

(** [PeriodicTask.run]: [waits] says for each wait whether the event was set;
    the result is whether the task has stopped *)
Fixpoint periodic_run {S} (target : M S unit) (waits : list bool) : M S bool :=
  match waits with
  | [] => mret false
  | true :: _ => mret true
  | false :: waits => try_except target (fun _ => Some (mret tt));; periodic_run target waits
  end.

(** ** watch.py *)

(** [WatchFile]: the last modification time seen; [mtime] is that of the file
    if it exists *)
Definition new_watch (mtime : option Qc) : Qc := default (Q2Qc (QArith_base.Qmake 0 1)) mtime.
Definition Qc_lt (x y : Qc) : bool := bool_decide (x < y)%Qc.
Definition watch_call {S} (target : M S unit) (mtime : option Qc) : M (Qc * S) unit := fun st =>
  match mtime with
  | Some m => if Qc_lt st.1 m then let '(r, s) := target st.2 in (r, (m, s)) else (Ok tt, st)
  | None => (Ok tt, st)
  end.

(** ** Properties *)

(** Identifiers and projects whose keys are not ambiguous. *)
Definition plain_request (ident : string) (project : option string) : Prop :=
  char_in "@" ident = false ∧ project ≠ Some "None".

Lemma app_at_inj a b c d :
  char_in "@" a = false → char_in "@" b = false → a +:+ "@" +:+ c = b +:+ "@" +:+ d → a = b ∧ c = d.
Proof.
  intros Ha Hb H.
  assert (∀ x y, char_in "@" x = false → partition "@" (x +:+ "@" +:+ y) = Some (x, y)) as Hp.
  { intros x y Hx. by apply partition_first. }
  pose proof (Hp a c Ha) as H1. rw H (Hp b d Hb) in H1. by simplify_eq.
Qed.

Lemma cache_key_inj i p j q :
  plain_request i p → plain_request j q → cache_key i p = cache_key j q → i = j ∧ p = q.
Proof.
  intros [Hi Hp] [Hj Hq] [-> H]%app_at_inj; [|done..]. split; [done|].
  destruct p as [p|], q as [q|]; simpl in H; congruence.
Qed.

Section refinement.
Context {D C : Type} (model_dump : D → JsonValue).
Context (_describe : C → string → option string → res D) (_update : C → res (list ProcessSummary) * C).
(** An update that fails leaves the child as it was. *)
Context (update_atomic : ∀ c e c', _update c = (Raise e, c') → c' = c).

(** The worker and its child wait for nothing, and what is cached is what the
    child answers. *)
Definition in_sync (w : WorkerCache D C) (p : Processes C) : Prop :=
  wc_sent w = [] ∧ wc_received w = [] ∧ wc_child w = Some (sp_child p) ∧
  wc_known_processes w = sp_known p ∧ wf (wc_descriptions w) ∧
  ∀ ident project r, plain_request ident project →
    lookup (cache_key ident project) (wc_descriptions w) = Some r →
    ∃ d, r = RDescription d ∧ _describe (sp_child p) ident project = Ok d.

Lemma child_turns_idle n (w : WorkerCache D C) :
  wc_sent w = [] → child_turns _describe _update n w = w.
Proof.
  intros Hs. induction n as [|n IH]; [done|]. simpl.
  assert (child_turn _describe _update w = w) as ->; [|done].
  rw /child_turn Hs. by destruct (wc_child w).
Qed.

Lemma child_turns_S n (w : WorkerCache D C) :
  child_turns _describe _update (S n) w = child_turns _describe _update n (child_turn _describe _update w).
Proof. done. Qed.

(** The child only adds to what it has sent. *)
Lemma child_turns_keeps n (w : WorkerCache D C) :
  (∃ l, wc_received (child_turns _describe _update n w) = wc_received w ++ l) ∧
  wc_descriptions (child_turns _describe _update n w) = wc_descriptions w.
Proof.
  revert w. induction n as [|n IH]; intros w; [split; [exists []; by rw app_nil_r|done]|].
  rw child_turns_S. destruct (IH (child_turn _describe _update w)) as [[l ->] ->].
  rw /child_turn /set_pipe. destruct (wc_child w) as [c|]; [|by split; [exists l|]].
  destruct (wc_sent w) as [|[] ?]; simpl; try (by split; [exists l|]).
  - destruct (_update c) as [[] ?]; simpl; (split; [|done]); eexists; by rw -app_assoc.
  - split; [|done]. eexists. by rw -app_assoc.
  - split; [|done]. eexists. by rw -app_assoc.
Qed.

(** A request to a child that waits. *)
Lemma ask_idle n msg (w : WorkerCache D C) :
  1 ≤ n →
  let w1 := child_turn _describe _update (set_pipe (wc_sent w ++ [msg]) (wc_received w) (wc_child w) w) in
  wc_sent w1 = [] →
  ask _describe _update n msg w =
    match wc_received w1 with
    | r :: rs => (Ok (Some r), set_pipe (wc_sent w1) rs (wc_child w1) w1)
    | [] => (Ok None, w1)
    end.
Proof. intros Hn w1 Hs. destruct n as [|n]; [lia|]. by rw /ask child_turns_S child_turns_idle. Qed.

Lemma ask_describe n w p ident project :
  in_sync w p → 1 ≤ n →
  ask _describe _update n (DESCRIBE ident project) w =
    (Ok match _describe (sp_child p) ident project with Ok d => Some (RDescription d) | Raise _ => None end, w).
Proof.
  intros (Hs & Hr & Hc & _) Hn. destruct w as [ds ps kn st rc ch]. simpl in *. subst.
  rw ask_idle //= /child_turn /set_pipe /=. by destruct (_describe _ _ _).
Qed.

Lemma describe_refines n w p ident project :
  in_sync w p → 1 ≤ n → plain_request ident project →
  let '(r, w') := cache_describe model_dump _describe _update n ident project w in
  r = spec_describe model_dump _describe ident project p ∧ in_sync w' p.
Proof.
  intros Hsync Hn Hp. pose proof Hsync as (Hs & Hr & Hc & Hk & Hw & Hd).
  rw /cache_describe /spec_describe. py_unfold. rw /is_alive Hc Hk.
  case_decide as Hin; [|by split]. destruct (lookup _ (wc_descriptions w)) as [r|] eqn:Hl; simpl.
  - destruct (Hd ident project r Hp Hl) as (d & -> & ->). by split.
  - rw (ask_describe n w p) //. destruct (_describe (sp_child p) ident project) as [d|] eqn:Ed; [|by split].
    simpl. split; [done|]. split_and!; try done; simpl; [by apply wf_insert|].
    intros i q r Hq. destruct (decide (cache_key i q = cache_key ident project)) as [He|Hne].
    + rw He lookup_insert_eq //. apply cache_key_inj in He as [-> ->]; [|done..].
      intros [= <-]. by exists d.
    + rw lookup_insert_ne //. by apply Hd.
Qed.

Lemma update_refines n w p :
  in_sync w p → 1 ≤ n →
  let '(r, w') := cache_update _describe _update n w in
  let '(r', p') := spec_update _update p in r = r' ∧ in_sync w' p'.
Proof.
  intros Hsync Hn. pose proof Hsync as (Hs & Hr & Hc & Hk & Hw & Hd).
  destruct w as [ds ps kn st rc ch]. simpl in *. subst.
  rw /cache_update /spec_update. py_unfold. rw /is_alive /= ask_idle //= /child_turn /set_pipe /=; [by destruct (_update _)|].
  destruct (_update (sp_child p)) as [[l|e] c] eqn:Eu; simpl.
  - split; [done|]. by split_and!; try apply wf_empty.
  - apply update_atomic in Eu as ->. split; [done|]. by split_and!.
Qed.


(** When the child is too late for one request, its answer is taken for that of
    the next: the description of another process is given, and kept, for the
    one that is asked. *)
Theorem late_reply_misattributed n w p i q d j r :
  in_sync w p → i ∈ sp_known p → j ∈ sp_known p → 1 ≤ n →
  lookup (cache_key i q) (wc_descriptions w) = None → lookup (cache_key j r) (wc_descriptions w) = None →
  _describe (sp_child p) i q = Ok d →
  ∃ w1 w2,
    cache_describe model_dump _describe _update 0 i q w =
      (Raise (RuntimeError "Failed to get process description"), w1) ∧
    cache_describe model_dump _describe _update n j r w1 = (Ok (Some (model_dump d)), w2) ∧
    lookup (cache_key j r) (wc_descriptions w2) = Some (RDescription d).
Proof.
  intros (Hs & Hr & Hc & Hk & Hw & _) Hi Hj Hn Hli Hlj Hd.
  destruct w as [ds ps kn st rc ch]. simpl in *. subst.
  set (w0 := MkCache ds ps (sp_known p) [] [] (Some (sp_child p))).
  exists (set_pipe [DESCRIBE i q] [] (Some (sp_child p)) w0).
  assert (∃ w', ask _describe _update n (DESCRIBE j r) (set_pipe [DESCRIBE i q] [] (Some (sp_child p)) w0) =
    (Ok (Some (RDescription d)), w') ∧ wc_descriptions w' = ds) as (w' & Ha & Hds).
  { destruct n as [|n]; [lia|]. rw /ask child_turns_S.
    match goal with |- context [child_turns _ _ n ?x] => set (w1 := x) end.
    assert (wc_received w1 = [RDescription d] ∧ wc_descriptions w1 = ds) as [Hw1 Hw2].
    { rw /w1 /child_turn /set_pipe /= Hd. done. }
    destruct (child_turns_keeps n w1) as [[l Hl] Hds]. rw Hl Hw1 /=. eexists. split; [reflexivity|].
    by rw /set_pipe /= Hds. }
  eexists. split; [|split].
  - rw /cache_describe. py_unfold. by rw /is_alive /= decide_True // Hli.
  - rw /cache_describe. py_unfold. rw /is_alive /= decide_True // Hlj /= Ha /=. reflexivity.
  - simpl. rw Hds lookup_insert_eq //.
Qed.
End refinement.

(** A reload that fails is not tried again until the file changes once more. *)
Lemma watch_not_retried {S} (target : M S unit) last m s e s' :
  Qc_lt last m = true → target s = (Raise e, s') →
  periodic_run (watch_call target (Some m)) [false; false] (last, s) = (Ok false, (m, s')).
Proof.
  intros Hl Ht. assert (Qc_lt m m = false) as Hm.
  { apply bool_decide_eq_false. intros H. by apply Qclt_not_eq in H. }
  rw /periodic_run /watch_call. py_unfold. rw /try_except. simpl. rw Hl Ht. simpl. by rw Hm.
Qed.

(** ** An example: a child that describes processes by their names *)
Module WorkerCacheDemo.
Definition describe (c : nat) (ident : string) (project : option string) : res string :=
  if decide (ident = "broken") then Raise (ValueError ident) else Ok (ident +:+ str_of_int (Z.of_nat c)).
Definition update (c : nat) : res (list ProcessSummary) * nat :=
  (Ok ((fun i => MkSummary i i [] [] []) <$> ["buffer"; "clip"; "broken"]), S c).
Definition idle : WorkerCache string nat :=
  MkCache PyDict.empty (RSummaries []) (list_to_set ["buffer"; "clip"]) [] [] (Some 0).
Definition start : Processes nat := MkProcesses 0 (list_to_set ["buffer"; "clip"]).
Definition requests : list (nat * Request) :=
  [(1, AskDescribe "buffer" None); (2, AskUpdate); (1, AskDescribe "buffer" None);
   (1, AskDescribe "broken" (Some "/p")); (3, AskDescribe "clip" None)].
End WorkerCacheDemo.


Lemma late_reply_misattributed_witness :
  ∃ w1 w2,
    cache_describe JStr WorkerCacheDemo.describe WorkerCacheDemo.update 0 "buffer" None WorkerCacheDemo.idle =
      (Raise (RuntimeError "Failed to get process description"), w1) ∧
    cache_describe JStr WorkerCacheDemo.describe WorkerCacheDemo.update 1 "clip" None w1 =
      (Ok (Some (JStr "buffer0")), w2) ∧
    lookup "clip@None" (wc_descriptions w2) = Some (RDescription "buffer0").
Proof.
  apply (late_reply_misattributed JStr WorkerCacheDemo.describe WorkerCacheDemo.update 1 WorkerCacheDemo.idle
    WorkerCacheDemo.start "buffer" None "buffer0" "clip" None); try reflexivity;
    [by split_and!; try apply wf_empty|set_solver..].
Defined.
