(* ===== verification/Callbacks.v ===== *)
(** * Notifications of jobs

    [qjazz_processes/callbacks]: the handlers of the schemes of a configuration
    and their calls ([callbacks.py]), the HTTP requests ([handlers/http.py]) and
    the mails ([handlers/mailto.py]) they send.  The network is a parameter: the
    validation of hosts, urls and addresses, the resolution of names, the post
    of a request and the session with a mail server. *)
From S2P Require Import Prelude PyDict PyStd PyTemplate Json Web Registry Executor JobsApi ProcessesApi.

Definition JobResults : Type := list (string * JsonValue).

(** [try]/[finally]: an exception of the last part replaces the first one *)
Definition try_finally {S A} (m : M S A) (f : M S unit) : M S A := fun s =>
  let '(r, s) := m s in
  match f s with
  | (Ok _, s) => (r, s)
  | (Raise e, s) => (Raise e, s)
  end.

(** ** The network *)

(** A request, the mail of a session, and what the handlers need of the
    outside: [host_of] is the validation of a host, [getaddrinfo] its
    addresses. *)
Record HttpPost : Type := MkPost {
  po_url : string; po_json : option JobResults; po_headers : list (string * string);
  po_timeout : Z; po_verify : option string;
}.
Record Mail : Type := MkMail {
  ma_subject : string; ma_from : string; ma_to : string; ma_cc : string;
  ma_body : string; ma_format : string; ma_attachment : option (string * JobResults);
}.
Record Network (S : Type) : Type := MkNetwork {
  host_of : option string → res (AccessControl.Address + string);
  getaddrinfo : string → res (list AccessControl.Address);
  any_http_url : string → res unit;
  email_of : string → res string;
  post : HttpPost → M S Z;
  smtp_connect : string → Z → M S unit;
  smtp_starttls : M S unit;
  smtp_login : string → string → M S unit;
  smtp_sendmail : string → list string → Mail → M S unit;
  smtp_quit : M S unit;
}.
Arguments MkNetwork {_} _ _ _ _ _ _ _ _ _ _.
Arguments host_of {_} _ _.
Arguments getaddrinfo {_} _ _.
Arguments any_http_url {_} _ _.
Arguments email_of {_} _ _.
Arguments post {_} _ _ _.
Arguments smtp_connect {_} _ _ _ _.
Arguments smtp_starttls {_} _ _.
Arguments smtp_login {_} _ _ _ _.
Arguments smtp_sendmail {_} _ _ _ _ _.
Arguments smtp_quit {_} _ _.

(** ** callbacks.py *)

(** [CallbackHandler] *)
Record CallbackHandler (S : Type) : Type := MkHandler {
  on_success : Url → string → JobMeta → JobResults → M S unit;
  on_failure : Url → string → JobMeta → M S unit;
  in_progress : Url → string → JobMeta → M S unit;
}.
Arguments MkHandler {_} _ _ _.
Arguments on_success {_} _ _ _ _ _ _.
Arguments on_failure {_} _ _ _ _ _.
Arguments in_progress {_} _ _ _ _ _.

(** [_handler_aliases] *)
Definition _handler_aliases : list (string * string) :=
  [("qjazz_processes.callbacks.Test", "qjazz_processes.callbacks.handlers.test.TestCallback");
   ("qjazz_processes.callbacks.Http", "qjazz_processes.callbacks.handlers.http.HttpCallback");
   ("qjazz_processes.callbacks.MailTo", "qjazz_processes.callbacks.handlers.mailto.MailToCallback")].
Definition handler_name (s : string) : string := default s (assoc s _handler_aliases).

(** [HttpCallbackConfig] *)
Record HttpCallbackConfig : Type := MkHttpConf {
  hc_ca_cert : option string; hc_user_agent : string; hc_timeout : Z; hc_acl : AccessControl.Config;
}.
(** [MailContent], [MailToCallbackConfig]; a password that is not given is the
    empty text and no [SecretStr] *)
Record MailContent : Type := MkContent { mc_subject : string; mc_body : string }.
Record MailToCallbackConfig : Type := MkMailConf {
  smtp_host : string; smtp_port : Z; smtp_login_ : option string; smtp_password : option string;
  smtp_tls : bool; mail_from : string; body_format : string; send_results_as_attachment : bool;
  content_success : MailContent; content_failed : MailContent; content_in_progress : MailContent;
  mc_acl : AccessControl.Config;
}.

(** [MailContent]: the templates are checked *)
Definition _validate_template (v : string) : res string :=
  if is_valid v then Ok v else Raise (ValueError "Invalid template").
Definition mail_content (subject body : string) : res MailContent :=
  s ← _validate_template subject; b ← _validate_template body; Ok (MkContent s b).

Section callbacks.
Context {S : Type} (net : Network S).

(** [AccessControlConfig.check_hostname], with its resolution *)
Definition check_host (acl : AccessControl.Config) (name : option string) : res bool :=
  host ← host_of net name;
  addrs ← match host with inl _ => Ok [] | inr h => getaddrinfo net h end;
  Ok (AccessControl.check_hostname acl host addrs).

(** *** handlers/http.py *)

(** [HttpCallback.send_request] *)
Definition http_send_request (conf : HttpCallbackConfig) (url : Url) (job_id : string)
    (data : option JobResults) : M S Z :=
  pure (any_http_url net (urlunsplit url));;
  allowed ← pure (check_host (hc_acl conf) (hostname url));
  if (allowed : bool) then
    urlstr ← pure (format_map [("job_id", job_id)] (urlunsplit url) None);
    post net (MkPost urlstr data [("x-job-id", job_id); ("user-agent", hc_user_agent conf)]
                (hc_timeout conf) (hc_ca_cert conf))
  else raise (ValueError "Host not allowed in HTTP callback").

(** [HttpCallback] *)
Definition HttpCallback (schemes : list string) (conf : HttpCallbackConfig) : res (CallbackHandler S) :=
  if decide (Forall (fun s => s = "http" ∨ s = "https") schemes) then
    Ok (MkHandler
          (fun url id _ results => http_send_request conf url id (Some results);; mret tt)
          (fun url id _ => http_send_request conf url id None;; mret tt)
          (fun url id _ => http_send_request conf url id None;; mret tt))
  else Raise (ValueError "Http callback: unsupported scheme").

(** *** handlers/mailto.py *)

(** [_get_recipients] *)
Definition _get_recipients (p : string) (url : Url) (params : list (string * list string)) : list string :=
  (if decide (p = "to") then if str_truth (u_path url) then [u_path url] else [] else []) ++
  default [] (assoc p params).

(** [get_recipients] *)
Fixpoint allowed_recipients (acl : AccessControl.Config) (addrs : list string) : res (list string) :=
  match addrs with
  | [] => Ok []
  | a :: addrs =>
      recipient ← email_of net a;
      host ← match split "@" recipient !! 1 with Some h => Ok h | None => Raise IndexError end;
      ok ← check_host acl (Some host);
      rest ← allowed_recipients acl addrs;
      Ok (if (ok : bool) then recipient :: rest else rest)
  end.
Definition get_recipients (p : string) (url : Url) (params : list (string * list string))
    (acl : AccessControl.Config) : res (list string) :=
  allowed_recipients acl (_get_recipients p url params).

(** The values of a template. *)
Definition mail_context (job_id : string) (meta : JobMeta) : list (string * string) :=
  [("service", m_service meta); ("process", m_process_id meta);
   ("tag", default "None" (m_tag meta)); ("jobid", job_id)].

(** The session with the server *)
Definition send_mail (conf : MailToCallbackConfig) (recipients : list string) (mail : Mail) : M S unit :=
  smtp_connect net (smtp_host conf) (smtp_port conf);;
  try_finally
    ((if smtp_tls conf then smtp_starttls net else mret tt);;
     match smtp_login_ conf with
     | Some user =>
         if str_truth user then
           match smtp_password conf with
           | Some password => smtp_login net user password
           | None => raise (OtherException "AttributeError: get_secret_value")
           end
         else mret tt
     | None => mret tt
     end;;
     smtp_sendmail net (mail_from conf) recipients mail)
    (smtp_quit net).

(** [MailToCallback.send_request] *)
Definition mail_send_request (conf : MailToCallbackConfig) (url : Url) (job_id : string)
    (content : MailContent) (meta : JobMeta) (results : option JobResults) : M S unit :=
  let params := parse_qs (query url) in
  to ← pure (get_recipients "to" url params (mc_acl conf));
  cc ← pure (get_recipients "cc" url params (mc_acl conf));
  bcc ← pure (get_recipients "bcc" url params (mc_acl conf));
  match to, cc, bcc with
  | [], [], [] => raise (ValueError "MailTo callback: no valid recipients")
  | _, _, _ =>
      let context := mail_context job_id meta in
      let subject := match assoc "subject" params with
                     | Some (s :: _) => s
                     | _ => safe_substitute (mc_subject content) context
                     end in
      let attachment := match results with
                        | Some (_ :: _ as r) =>
                            if send_results_as_attachment conf
                            then Some ("results-" +:+ job_id +:+ ".json", r) else None
                        | _ => None
                        end in
      send_mail conf (to ++ cc ++ bcc)
        (MkMail subject (mail_from conf) (join "," to) (join "," cc)
           (safe_substitute (mc_body content) context) (body_format conf) attachment)
  end.

(** [MailToCallback] *)
Definition MailToCallback (conf : MailToCallbackConfig) : CallbackHandler S :=
  MkHandler
    (fun url id meta results => mail_send_request conf url id (content_success conf) meta (Some results))
    (fun url id meta => mail_send_request conf url id (content_failed conf) meta None)
    (fun url id meta => mail_send_request conf url id (content_in_progress conf) meta None).

(** *** handlers/test.py: its methods do not take the metadata they are given *)
Definition TestCallback : CallbackHandler S :=
  MkHandler (fun _ _ _ _ => raise (TypeError "on_success() takes 4 positional arguments but 5 were given"))
    (fun _ _ _ => raise (TypeError "on_failure() takes 3 positional arguments but 4 were given"))
    (fun _ _ _ => raise (TypeError "in_progress() takes 3 positional arguments but 4 were given")).

(** *** callbacks.py *)

(** [HandlerConfig]: the class of the handler with its validated configuration *)
Inductive HandlerClass : Type :=
| KHttp (conf : HttpCallbackConfig)
| KMailTo (conf : MailToCallbackConfig)
| KTest
| KOther (create : list string → res (CallbackHandler S)).
Record HandlerConfig : Type := MkHandlerConfig { cb_enabled : bool; cb_handler : HandlerClass }.

(** [HandlerConfig.create_instance] *)
Definition create_instance (c : HandlerConfig) (schemes : list string) : res (CallbackHandler S) :=
  match cb_handler c with
  | KHttp conf => HttpCallback schemes conf
  | KMailTo conf => Ok (MailToCallback conf)
  | KTest => Ok TestCallback
  | KOther create => create schemes
  end.

(** [Callbacks.__init__] *)
Definition Callbacks : Type := pydict string (CallbackHandler S).
Definition config_schemes (k : string) : list string := strip <$> split "," k.
Fixpoint callbacks_from (conf : list (string * HandlerConfig)) (handlers : Callbacks) : res Callbacks :=
  match conf with
  | [] => Ok handlers
  | (k, cnf) :: conf =>
      if cb_enabled cnf then
        inst ← create_instance cnf (config_schemes k);
        callbacks_from conf (foldl (fun hs scheme => PyDict.insert scheme inst hs) handlers (config_schemes k))
      else callbacks_from conf handlers
  end.
Definition new_callbacks (conf : list (string * HandlerConfig)) : res Callbacks :=
  callbacks_from conf PyDict.empty.

(** [Callbacks.schemes] *)
Definition schemes (cbs : Callbacks) : list string := keys cbs.

(** [Callbacks.get_handler_for] *)
Definition get_handler_for (cbs : Callbacks) (uri : string) : res (option (Url * CallbackHandler S)) :=
  url ← urlsplit uri;
  Ok ((fun h => (url, h)) <$> lookup (PyStd.scheme url) cbs).

(** [infaillible] *)
Definition infaillible (m : M S unit) : M S unit := try_except m (fun _ => Some (mret tt)).

(** [Callbacks.on_success], [Callbacks.on_failure], [Callbacks.in_progress] *)
Definition call_handler (cbs : Callbacks) (uri : string) (f : Url → CallbackHandler S → M S unit) : M S unit :=
  rv ← pure (get_handler_for cbs uri);
  match rv with
  | Some (url, handler) => infaillible (f url handler)
  | None => mret tt
  end.
Definition notify_success (cbs : Callbacks) (uri id : string) (meta : JobMeta) (results : JobResults) : M S unit :=
  call_handler cbs uri (fun url h => on_success h url id meta results).
Definition notify_failure (cbs : Callbacks) (uri id : string) (meta : JobMeta) : M S unit :=
  call_handler cbs uri (fun url h => on_failure h url id meta).
Definition notify_progress (cbs : Callbacks) (uri id : string) (meta : JobMeta) : M S unit :=
  call_handler cbs uri (fun url h => in_progress h url id meta).
End callbacks.

(** ** Properties *)
Section handled.
Context {S : Type} (net : Network S).
Implicit Types (s : S).

Lemma insert_schemes (inst : CallbackHandler S) sch l (hs : Callbacks (S:=S)) :
  wf hs →
  let hs' := foldl (fun hs scheme => PyDict.insert scheme inst hs) hs l in
  wf hs' ∧ lookup sch hs' = if decide (sch ∈ l) then Some inst else lookup sch hs.
Proof.
  revert hs. induction l as [|a l IH]; intros hs Hwf; simpl.
  { split; [done|]. destruct (decide (sch ∈ [])) as [Hn|]; [by apply elem_of_nil in Hn|done]. }
  destruct (IH (PyDict.insert a inst hs)) as [Hw Hl]; [by apply wf_insert|].
  split; [done|]. rw Hl. destruct (decide (sch ∈ l)) as [Hin|Hout].
  - by rw decide_True; [by right|].
  - destruct (decide (sch = a)) as [->|Hne].
    + rw decide_True; [by left|]. by apply lookup_insert_eq.
    + rw decide_False; [by rw elem_of_cons; intros [|]|]. by apply lookup_insert_ne.
Qed.

(** The configurations that answer for a scheme. *)
Definition serves (sch : string) (c : string * HandlerConfig (S:=S)) : Prop :=
  cb_enabled c.2 = true ∧ sch ∈ config_schemes c.1.
#[local] Instance serves_dec sch c : Decision (serves sch c).
Proof. rw /serves. apply _. Defined.

Lemma callbacks_from_lookup sch conf hs cbs :
  wf hs → callbacks_from net conf hs = Ok cbs →
  match last (filter (serves sch) conf) with
  | Some c => ∃ h, create_instance net c.2 (config_schemes c.1) = Ok h ∧ lookup sch cbs = Some h
  | None => lookup sch cbs = lookup sch hs
  end.
Proof.
  revert hs. induction conf as [|[k c] conf IH]; intros hs Hwf; simpl; [by intros [= <-]|].
  destruct (cb_enabled c) eqn:Hen.
  - intros (inst & Hi & H)%res_bind_inv.
    destruct (insert_schemes inst sch (config_schemes k) hs Hwf) as [Hw Hl].
    apply IH in H; [|done]. rw filter_cons. destruct (decide (serves sch (k, c))) as [[_ Hin]|Hn].
    + simpl in Hin. rw last_cons. destruct (last (filter (serves sch) conf)); [done|].
      exists inst. split; [done|]. rw H Hl decide_True //.
    + destruct (last (filter (serves sch) conf)); [done|]. rw H Hl decide_False //.
      intros Hin. by apply Hn.
  - intros H. apply IH in H; [|done]. rw filter_cons_False; [|done].
    intros [He _]. simpl in He. congruence.
Qed.

Lemma infaillible_ok (m : M S unit) s : infaillible m s = (Ok tt, (m s).2).
Proof. rw /infaillible /try_except. by destruct (m s) as [[[]|] ?]. Qed.

(** A notification never fails the job it is about: whatever the handlers do, the
    call returns.  It does nothing when no enabled configuration lists the
    scheme of the uri, and otherwise what the handler of the last one that does
    so leaves. *)
Theorem notification_infallible conf cbs uri url id meta results s :
  new_callbacks net conf = Ok cbs → urlsplit uri = Ok url →
  match last (filter (serves (PyStd.scheme url)) conf) with
  | None =>
      notify_success cbs uri id meta results s = (Ok tt, s) ∧
      notify_failure cbs uri id meta s = (Ok tt, s) ∧
      notify_progress cbs uri id meta s = (Ok tt, s)
  | Some c =>
      ∃ h, create_instance net c.2 (config_schemes c.1) = Ok h ∧
      notify_success cbs uri id meta results s = (Ok tt, (on_success h url id meta results s).2) ∧
      notify_failure cbs uri id meta s = (Ok tt, (on_failure h url id meta s).2) ∧
      notify_progress cbs uri id meta s = (Ok tt, (in_progress h url id meta s).2)
  end.
Proof.
  intros Hc%(callbacks_from_lookup (PyStd.scheme url)) Hu; [|apply wf_empty].
  rw /notify_success /notify_failure /notify_progress /call_handler /get_handler_for Hu.
  destruct (last _) as [c|].
  - destruct Hc as (h & Hi & Hl). exists h. split; [done|].
    py_unfold. rw Hl. simpl. by rw !infaillible_ok.
  - py_unfold. by rw Hc.
Qed.

(** *** Hosts *)

(** A host is allowed: the access control list accepts it, or one of its
    addresses. *)
Definition host_allowed (acl : AccessControl.Config) (name : option string) : Prop :=
  check_host net acl name = Ok true.

(** An HTTP callback posts at most one request, to a host that its access
    control list allows, at the url with the id of the job filled in. *)
Lemma http_callback_allowed schemes conf h url id meta results s :
  HttpCallback net schemes conf = Ok h →
  (on_success h url id meta results s).2 = s ∨
  host_allowed (hc_acl conf) (hostname url) ∧
  ∃ u, format_map [("job_id", id)] (urlunsplit url) None = Ok u ∧
    (on_success h url id meta results s).2 =
    (post net (MkPost u (Some results) [("x-job-id", id); ("user-agent", hc_user_agent conf)]
       (hc_timeout conf) (hc_ca_cert conf)) s).2.
Proof.
  rw /HttpCallback. case_decide; [|done]. intros [= <-]. simpl. rw /http_send_request /host_allowed.
  py_unfold. destruct (any_http_url net _); [|by left]. simpl.
  destruct (check_host net _ _) as [[]|]; [|by left..]. simpl.
  destruct (format_map _ _ _) as [u|]; [|by left]. simpl. right. split; [done|].
  exists u. split; [done|]. by destruct (post net _ s) as [[] ?].
Qed.

Lemma allowed_recipients_spec acl addrs l :
  allowed_recipients net acl addrs = Ok l →
  Forall (fun r => ∃ h, split "@" r !! 1 = Some h ∧ host_allowed acl (Some h)) l.
Proof.
  revert l. induction addrs as [|a addrs IH]; intros l; simpl; [by intros [= <-]|].
  intros (r & _ & H)%res_bind_inv. apply res_bind_inv in H as (h & Hh & H).
  apply res_bind_inv in H as (ok & Hok & H). apply res_bind_inv in H as (rest & Hr & [= <-]).
  destruct (split "@" r !! 1) as [h'|] eqn:Es; [|done]. injection Hh as ->.
  destruct ok; [|by apply IH]. constructor; [|by apply IH]. by exists h.
Qed.

(** A mail callback either leaves the network alone, or opens one session that
    sends one mail, to at least one recipient and to recipients of allowed
    domains only, in the order of [to], [cc] and [bcc]; the recipients of [bcc]
    are in no header of the mail. *)
Theorem mail_recipients_allowed conf url id content meta results s :
  (mail_send_request net conf url id content meta results s).2 = s ∨
  ∃ to cc bcc mail,
    let rs := to ++ cc ++ bcc in
    mail_send_request net conf url id content meta results s = send_mail net conf rs mail s ∧
    rs ≠ [] ∧ ma_from mail = mail_from conf ∧ ma_to mail = join "," to ∧ ma_cc mail = join "," cc ∧
    Forall (fun r => ∃ h, split "@" r !! 1 = Some h ∧ host_allowed (mc_acl conf) (Some h)) rs.
Proof.
  rw /mail_send_request. cbv zeta. set (params := parse_qs (query url)).
  destruct (get_recipients net "to" url params (mc_acl conf)) as [to|] eqn:Ht; [|by left].
  destruct (get_recipients net "cc" url params (mc_acl conf)) as [cc|] eqn:Hc; [|by left].
  destruct (get_recipients net "bcc" url params (mc_acl conf)) as [bcc|] eqn:Hb; [|by left].
  assert (Forall (fun r => ∃ h, split "@" r !! 1 = Some h ∧ host_allowed (mc_acl conf) (Some h))
            (to ++ cc ++ bcc)) as Hall.
  { rw !Forall_app. split_and!; by eapply allowed_recipients_spec. }
  destruct (decide (to ++ cc ++ bcc = [])) as [He|Hne].
  { left. apply app_eq_nil in He as [-> He]. by apply app_eq_nil in He as [-> ->]. }
  right. exists to, cc, bcc. py_unfold.
  destruct to; [destruct cc; [destruct bcc; [done|]|]|]; eexists; (split; [reflexivity|]); done.
Qed.
End handled.

(** ** An example: a network that records urls and recipients *)
Module CallbacksDemo.
Definition net : Network (list string) := MkNetwork
  (fun h => match h with Some h => Ok (inr h) | None => Raise (ValidationError "host") end)
  (fun _ => Ok [AccessControl.IPv4Address 1]) (fun _ => Ok tt) Ok
  (fun p s => (Ok 200%Z, s ++ [po_url p])) (fun _ _ => mret tt) (mret tt) (fun _ _ => mret tt)
  (fun _ rs _ s => (Ok tt, s ++ rs)) (mret tt).
Definition acl (names : list string) : AccessControl.Config :=
  AccessControl.MkConfig AccessControl.ODeny (AccessControl.FHost <$> names) [].
Definition conf : list (string * HandlerConfig (S:=list string)) :=
  [("http, https", MkHandlerConfig true (KHttp (MkHttpConf None "qjazz" 5 (acl ["example.org"]))));
   ("test", MkHandlerConfig false KTest)].
Definition meta : JobMeta := MkMeta "" None "svc" "buffer" 60 (Some "t") None.
Definition uri : string := "https://example.org/done?id={job_id}".
End CallbacksDemo.
Import CallbacksDemo.

Example notified :
  match new_callbacks net conf with
  | Ok cbs => notify_failure cbs uri "6f1c" meta []
  | Raise e => (Raise e, [])
  end = (Ok tt, ["https://example.org/done?id=6f1c"]).
Proof. vm_compute. reflexivity. Qed.
