(* ===== verification/WorkerJobs.v ===== *)
(** * The tasks of a worker

    What a worker does around the function of a job: the arguments it takes
    apart and validates ([qjazz_core/celery/worker.py], class [Job]), the check
    of the registry ([qjazz_processes/worker/worker.py] and [generic.py]), and
    the notifications before and after it ([worker/mixins/callbacks.py]).  The
    keyword arguments of a task are one dict, which the hooks share and change.
    Celery runs the hooks; pydantic validates inputs, outputs and subscribers. *)
From S2P Require Import Prelude PyDict PyStd PyTemplate Json Web Registry Executor JobsApi ProcessesApi Callbacks.

(** ** Arguments *)

(** [Subscriber] *)
Record Subscriber : Type := MkSubscriber {
  success_uri : option string; failed_uri : option string; in_progress_uri : option string;
}.

(** The values of the context of a job: [create_context] answers an object. *)
Inductive CtxValue : Type := CJson (j : JsonValue) | CQgisContext.
Definition JobContext : Type := list (string * CtxValue).

(** [d[k] = v] on the items of a dict. *)
Fixpoint put {V} (k : string) (v : V) (d : list (string * V)) : list (string * V) :=
  match d with
  | [] => [(k, v)]
  | (k', v') :: d => if decide (k = k') then (k, v) :: d else (k', v') :: put k v d
  end.
Definition put_all {V} (new d : list (string * V)) : list (string * V) :=
  foldl (fun d kv => put kv.1 kv.2 d) d new.

Section jobs.
(** [I] is the type of validated inputs. *)
Context {I : Type}.

(** [_Dict]: the metadata of a job, with the attributes that are not stored *)
Record TaskDict : Type := MkTaskDict {
  td_meta : JobMeta; td_errors : option string; td_run_config : option I; td_context : option JobContext;
}.

(** The values of the keyword arguments of a task: as [Processes._execute_task]
    sends them, [__meta__] is there. *)
Inductive KwValue : Type := KJson (j : JsonValue) | KMeta (m : TaskDict).
Definition Kw : Type := pydict string KwValue.

(** The class of a job: the validation of its inputs and of its outputs, whether
    it takes a context, and its function. *)
Record JobClass (S : Type) : Type := MkJobClass {
  jc_validate : JsonValue → I + string;
  jc_outputs : JsonValue → res JsonValue;
  jc_run_context : bool;
  jc_worker_context : JobContext;
  jc_run : option JobContext → I → M S JsonValue;
}.
Arguments MkJobClass {_} _ _ _ _ _.
Arguments jc_validate {_} _ _.
Arguments jc_outputs {_} _ _.
Arguments jc_run_context {_} _.
Arguments jc_worker_context {_} _.
Arguments jc_run {_} _ _ _ _.

(** The state of a task: its arguments and the outside. *)
Record Task (S : Type) : Type := MkTask { t_kwargs : Kw; t_out : S }.
Arguments MkTask {_} _ _.
Arguments t_kwargs {_} _.
Arguments t_out {_} _.

Section task.
Context {S : Type} (jc : JobClass S) (utc_now : string).

Definition set_kwargs (kw : Kw) : M (Task S) unit := modify (fun t => MkTask kw (t_out t)).

(** [kwargs.pop(k, None)] *)
Definition pop_arg (k : string) : M (Task S) (option KwValue) :=
  t ← get;
  match pop k (t_kwargs t) with
  | Some (v, kw) => set_kwargs kw;; mret (Some v)
  | None => mret None
  end.

(** [kwargs.update(k=v)] *)
Definition put_arg (k : string) (v : KwValue) : M (Task S) unit :=
  t ← get; set_kwargs (PyDict.insert k v (t_kwargs t)).

(** ** qjazz_core/celery/worker.py *)

(** The context given to the job; [update] is [Job.update_run_context] *)
Definition run_context_of (update : JobContext → JobContext) (task_id : string) (v : option KwValue) :
    res JobContext :=
  c ← match v with
      | None => Ok []
      | Some (KJson (JObj l)) => Ok ((fun kv => (kv.1, CJson kv.2)) <$> l)
      | Some _ => Raise (OtherException "AttributeError: update")
      end;
  Ok (update (put "task_id" (CJson (JStr task_id)) (put_all (jc_worker_context jc) c))).

(** [Job.before_start] *)
Definition job_before_start (update : JobContext → JobContext) (task_id : string) : M (Task S) unit :=
  cv ← pop_arg "__context__";
  context ← pure (run_context_of update task_id cv);
  mv ← pop_arg "__meta__";
  meta ← pure (match mv with
               | Some (KMeta d) =>
                   let m := td_meta d in
                   Ok (MkMeta (m_created m) (m_realm m) (m_service m) (m_process_id m) (m_expires m)
                         (m_tag m) (Some utc_now))
               | _ => Raise (OtherException "AttributeError: update")
               end);
  rv ← pop_arg "__run_config__";
  t ← get;
  let run_config := match rv with
                    | Some (KJson j) => j
                    | _ => JObj (omap (fun kv => match kv.2 with KJson j => Some (kv.1, j) | _ => None end)
                                   (items (t_kwargs t)))
                    end in
  match jc_validate jc run_config with
  | inl inputs =>
      match rv, run_config with
      | Some _, JObj l =>
          set_kwargs (foldl (fun kw kv => PyDict.insert kv.1 (KJson kv.2) kw) PyDict.empty l)
      | _, _ => mret tt
      end;;
      put_arg "__meta__" (KMeta (MkTaskDict meta None (Some inputs) (Some context)))
  | inr errors =>
      put_arg "__meta__" (KMeta (MkTaskDict meta (Some errors) None None));;
      raise (ValueError "Invalid arguments")
  end.

(** [Job.__call__]: the arguments are given by name, in a dict of their own *)
Definition job_call : M (Task S) JsonValue :=
  t ← get;
  match lookup "__meta__" (t_kwargs t) with
  | Some (KMeta d) =>
      match td_run_config d with
      | Some inputs =>
          out ← zoom t_out (fun s t => MkTask (t_kwargs t) s)
                  (jc_run jc (if jc_run_context jc then td_context d else None) inputs);
          pure (jc_outputs jc out)
      | None => raise (OtherException "AttributeError: __run_config__")
      end
  | _ => raise (KeyError "__meta__")
  end.

(** ** worker.py, generic.py *)

(** What is common to the two classes: a job that is unknown or dismissed is
    refused *)
Context {R : Type} `{!Redis R} (reg : R).
Definition check_registered (task_id : string) : M (Task S) unit := pure (before_start task_id reg).

(** [QgisJob.update_run_context] *)
Definition add_qgis_context (c : JobContext) : JobContext := put "qgis_context" CQgisContext c.

(** [QgisProcessJob.before_start] *)
Definition qgis_before_start (task_id : string) : M (Task S) unit :=
  check_registered task_id;; job_before_start add_qgis_context task_id.

(** [kwargs["__run_config__"]["request"]] *)
Definition run_request : M (Task S) JsonValue :=
  t ← get;
  pure (match lookup "__run_config__" (t_kwargs t) with
        | Some (KJson (JObj l)) =>
            match assoc "request" l with Some r => Ok r | None => Raise (KeyError "request") end
        | Some _ => Raise (TypeError "not subscriptable")
        | None => Raise (KeyError "__run_config__")
        end).
Definition item (k : string) (j : JsonValue) : res JsonValue :=
  match j with
  | JObj l => match assoc k l with Some v => Ok v | None => Raise (KeyError k) end
  | _ => Raise (TypeError "not subscriptable")
  end.

(** [GenericJob.before_start] *)
Definition generic_before_start (task_id : string) : M (Task S) unit :=
  check_registered task_id;;
  request ← run_request;
  try_finally
    (inputs ← pure (item "inputs" request);
     put_arg "__run_config__" (KJson inputs);;
     job_before_start (fun c => c) task_id)
    (subscriber ← pure (item "subscriber" request);
     put_arg "request" (KJson (JObj [("subscriber", subscriber)]))).

(** [GenericJob.__call__] *)
Definition generic_call : M (Task S) JsonValue :=
  out ← job_call; mret (JObj [("output", out)]).

(** ** mixins/callbacks.py *)

(** [dict.get] of a value that should be a dict *)
Definition json_get (k : string) (j : JsonValue) : res (option JsonValue) :=
  match j with JObj l => Ok (assoc k l) | _ => Raise (OtherException "AttributeError: get") end.

Context (MaybeSubscriber : option JsonValue → res (option Subscriber)) (cbs : Callbacks (S:=S)).

Definition on_out {A} (m : M S A) : M (Task S) A := zoom t_out (fun s t => MkTask (t_kwargs t) s) m.

(** [kwargs["__meta__"]] *)
Definition arg_meta : M (Task S) JobMeta :=
  t ← get;
  pure (match lookup "__meta__" (t_kwargs t) with
        | Some (KMeta d) => Ok (td_meta d)
        | _ => Raise (KeyError "__meta__")
        end).

(** [on_task_prerun] *)
Definition on_task_prerun (task_id : string) : M (Task S) unit :=
  request ← run_request;
  sub ← pure (v ← json_get "subscriber" request; MaybeSubscriber v);
  match sub with
  | Some {| in_progress_uri := Some uri |} =>
      meta ← arg_meta; on_out (notify_progress cbs uri task_id meta)
  | _ => mret tt
  end.

(** How a task ended: its results or its exception. *)
Definition results_of (j : JsonValue) : JobResults := match j with JObj l => l | _ => [] end.

(** [on_task_postrun] *)
Definition on_task_postrun (task_id : string) (retval : res JsonValue) : M (Task S) unit :=
  t ← get;
  request ← pure (match lookup "request" (t_kwargs t) with
                  | Some (KJson j) => Ok j
                  | Some (KMeta _) => Ok (JObj [])
                  | None => Raise (KeyError "request")
                  end);
  sub ← pure (v ← json_get "subscriber" request; MaybeSubscriber v);
  match sub, retval with
  | Some {| success_uri := Some uri |}, Ok out =>
      meta ← arg_meta; on_out (notify_success cbs uri task_id meta (results_of out))
  | Some {| failed_uri := Some uri |}, Raise _ =>
      meta ← arg_meta; on_out (notify_failure cbs uri task_id meta)
  | _, _ => mret tt
  end.

(** ** The run of a task

    Celery sends the signal before the task, starts it, calls it, and sends the
    signal after it with what it answered; the errors of the receivers of a
    signal are logged. *)
Definition receiver (m : M (Task S) unit) : M (Task S) unit := try_except m (fun _ => Some (mret tt)).
Definition run_task (before : string → M (Task S) unit) (call : M (Task S) JsonValue) (task_id : string)
    (t : Task S) : res JsonValue * Task S :=
  let t := (receiver (on_task_prerun task_id) t).2 in
  let '(r, t) := (before task_id;; call) t in
  (r, (receiver (on_task_postrun task_id r) t).2).
End task.
End jobs.
Arguments KwValue : clear implicits.
Arguments Kw : clear implicits.
Arguments TaskDict : clear implicits.
Arguments JobClass : clear implicits.
Arguments MkJobClass {_ _} _ _ _ _ _.
Arguments jc_validate {_ _} _ _.
Arguments jc_outputs {_ _} _ _.
Arguments jc_run_context {_ _} _.
Arguments jc_worker_context {_ _} _.
Arguments jc_run {_ _} _ _ _ _.
Arguments Task : clear implicits.
Arguments MkTask {_ _} _ _.
Arguments t_kwargs {_ _} _.
Arguments t_out {_ _} _.

(** The keyword arguments a worker receives with a message of the executor. *)
Definition run_config_json (rc : RunConfig) : JsonValue :=
  JObj [("ident", JStr (rc_ident rc)); ("request", rc_request rc);
        ("project_path", opt_json (rc_project_path rc))].
Definition task_kwargs {I} (sd : Send) : Kw I :=
  PyDict.insert "__run_config__" (KJson (run_config_json (sd_run_config sd)))
    (PyDict.insert "__context__" (KJson (JObj (sd_context sd)))
       (PyDict.insert "__meta__" (KMeta (MkTaskDict (sd_meta sd) None None None)) PyDict.empty)).

(** [Job.set_progress]: the progress that is stored *)
Definition progress_of (percent_done : option Qc) : option Z :=
  (fun p => let x := (p + Q2Qc (QArith_base.Qmake 1 2))%Qc in
            Z.quot (QArith_base.Qnum (this x)) (Z.pos (QArith_base.Qden (this x)))) <$> percent_done.
Definition set_progress (percent_done : option Qc) (message updated : option string) : TaskResult :=
  ResProgress (progress_of percent_done) message updated.

(** ** Properties *)
Section runs.
Context {I S : Type} (jc : JobClass I S) (now : string) {R : Type} `{!Redis R} (reg : R).
Context (MaybeSubscriber : option JsonValue → res (option Subscriber)) (cbs : Callbacks (S:=S)).
Implicit Types (sd : Send) (s : S).

(** The metadata of a started job, and the context its function gets. *)
Definition started (m : JobMeta) : JobMeta :=
  MkMeta (m_created m) (m_realm m) (m_service m) (m_process_id m) (m_expires m) (m_tag m) (Some now).
Definition job_context (update : JobContext → JobContext) (id : string) (sd : Send) : JobContext :=
  update (put "task_id" (CJson (JStr id))
            (put_all (jc_worker_context jc) ((fun kv => (kv.1, CJson kv.2)) <$> sd_context sd))).

Lemma job_before_start_ok update id s inputs sd :
  jc_validate jc (run_config_json (sd_run_config sd)) = inl inputs →
  ∃ kw, job_before_start jc now update id (MkTask (task_kwargs sd) s) = (Ok tt, MkTask kw s) ∧
    lookup "request" kw = Some (KJson (rc_request (sd_run_config sd))) ∧
    lookup "__meta__" kw = Some (KMeta (MkTaskDict (started (sd_meta sd)) None (Some inputs)
      (Some (job_context update id sd)))).
Proof.
  intros H. rw /job_before_start.
  do 6 (erewrite bind_ok by reflexivity). cbv beta iota zeta. rw H.
  eexists. split; [reflexivity|]. split; reflexivity.
Qed.

Lemma job_before_start_refused update id s err sd :
  jc_validate jc (run_config_json (sd_run_config sd)) = inr err →
  ∃ kw, job_before_start jc now update id (MkTask (task_kwargs sd) s) =
      (Raise (ValueError "Invalid arguments"), MkTask kw s) ∧ lookup "request" kw = None.
Proof.
  intros H. rw /job_before_start.
  do 6 (erewrite bind_ok by reflexivity). cbv beta iota zeta. rw H.
  eexists. split; reflexivity.
Qed.

Lemma job_call_run kw s d inputs :
  lookup "__meta__" kw = Some (KMeta d) → td_run_config d = Some inputs →
  job_call jc (MkTask kw s) =
    let '(r, s') := (out ← jc_run jc (if jc_run_context jc then td_context d else None) inputs;
                     pure (jc_outputs jc out)) s in (r, MkTask kw s').
Proof.
  intros Hm Hr. rw /job_call. py_unfold. rw Hm Hr. py_unfold. rw /zoom. simpl.
  by destruct (jc_run jc _ _ s) as [[] ?].
Qed.

(** What the request of a job asks to be told of. *)
Definition subscribed (sd : Send) (sub : option Subscriber) : Prop :=
  ∃ l, rc_request (sd_run_config sd) = JObj l ∧ MaybeSubscriber (assoc "subscriber" l) = Ok sub.

(** The notification of one end of a job, if the subscriber gave its uri. *)
Definition tell_progress (sub : option Subscriber) (id : string) (m : JobMeta) (s : S) : S :=
  match sub ≫= in_progress_uri with Some u => (notify_progress cbs u id m s).2 | None => s end.
Definition tell_end (sub : option Subscriber) (id : string) (m : JobMeta) (r : res JsonValue) (s : S) : S :=
  match r with
  | Ok out => match sub ≫= success_uri with
              | Some u => (notify_success cbs u id m (results_of out) s).2 | None => s end
  | Raise _ => match sub ≫= failed_uri with
               | Some u => (notify_failure cbs u id m s).2 | None => s end
  end.

Lemma receiver_run (m : M (Task I S) unit) t : (receiver m t).2 = (m t).2.
Proof. rw /receiver /try_except. by destruct (m t) as [[[]|] ?]. Qed.

Lemma on_out_run {A} (m : M S A) kw s : (on_out (I:=I) m (MkTask kw s)).2 = MkTask kw (m s).2.
Proof. rw /on_out /zoom. simpl. by destruct (m s). Qed.

Lemma prerun_tells sd sub id s :
  subscribed sd sub →
  (receiver (on_task_prerun MaybeSubscriber cbs id) (MkTask (task_kwargs (I:=I) sd) s)).2 =
  MkTask (task_kwargs sd) (tell_progress sub id (sd_meta sd) s).
Proof.
  intros (l & Hl & Hs). rw receiver_run /on_task_prerun.
  erewrite bind_ok; [|reflexivity]. rw Hl.
  erewrite (bind_ok (pure _)); [|rw /pure /=; by rw Hs].
  rw /tell_progress. destruct sub as [[su fa [u|]]|]; [|done..].
  erewrite bind_ok; [|reflexivity]. by rw on_out_run.
Qed.

Lemma postrun_tells kw l sub id d r s :
  lookup "request" kw = Some (KJson (JObj l)) → MaybeSubscriber (assoc "subscriber" l) = Ok sub →
  lookup "__meta__" kw = Some (KMeta d) →
  (receiver (on_task_postrun MaybeSubscriber cbs id r) (MkTask (I:=I) kw s)).2 =
  MkTask kw (tell_end sub id (td_meta d) r s).
Proof.
  intros Hr Hs Hm. rw receiver_run /on_task_postrun.
  erewrite bind_ok; [|reflexivity]. simpl. rw Hr.
  erewrite (bind_ok (pure _)); [|reflexivity].
  erewrite (bind_ok (pure _)); [|rw /pure /=; by rw Hs].
  assert (arg_meta (MkTask kw s) = (Ok (td_meta d), MkTask kw s)) as Ha.
  { rw /arg_meta. py_unfold. by rw Hm. }
  rw /tell_end. destruct sub as [[[su|] [fa|] ip]|], r; simpl; try done;
    (erewrite bind_ok; [|exact Ha]); by rw on_out_run.
Qed.

(** C22. A job that is registered, not dismissed and has valid inputs is run once,
    with its inputs and its context, between the two notifications its
    subscriber asked for: that it is in progress before, and its success or its
    failure, by what it answered, after. *)
Theorem job_notifications sd sub id inputs s :
  before_start id reg = Ok tt → subscribed sd sub →
  jc_validate jc (run_config_json (sd_run_config sd)) = inl inputs →
  let ctx := if jc_run_context jc then Some (job_context add_qgis_context id sd) else None in
  let '(r, s') := (out ← jc_run jc ctx inputs; pure (jc_outputs jc out))
                    (tell_progress sub id (sd_meta sd) s) in
  ∃ kw, run_task MaybeSubscriber cbs (qgis_before_start jc now reg) (job_call jc) id
          (MkTask (task_kwargs sd) s) = (r, MkTask kw (tell_end sub id (started (sd_meta sd)) r s')).
Proof.
  intros Hb Hsub Hv ctx. pose proof Hsub as (l & Hl & Hs).
  destruct ((out ← jc_run jc ctx inputs; pure (jc_outputs jc out))
    (tell_progress sub id (sd_meta sd) s)) as [r s'] eqn:Er.
  rw /run_task (prerun_tells sd sub) //. set (s1 := tell_progress _ _ _ _) in *.
  destruct (job_before_start_ok add_qgis_context id s1 inputs sd Hv) as (kw & Hk & Hreq & Hm).
  assert ((qgis_before_start jc now reg id;; job_call jc) (MkTask (task_kwargs sd) s1) = (r, MkTask kw s')) as ->.
  { erewrite bind_ok; [|rw /qgis_before_start; erewrite bind_ok; [exact Hk|rw /check_registered /pure Hb //]].
    erewrite job_call_run; [|done..]. simpl. by rw Er. }
  exists kw. f_equal. rw Hl in Hreq. by rw (postrun_tells kw l sub id _ r s' Hreq Hs Hm).
Qed.

(** A job of a QGIS worker that is refused before it starts, because it is
    unknown, dismissed or its arguments are invalid, ends with an error of which
    its subscriber is never told, although it may have been told that the job
    was in progress. *)
Theorem refused_job_untold sd sub id s :
  subscribed sd sub →
  (∃ e, before_start id reg = Raise e) ∨
  (∃ err, jc_validate jc (run_config_json (sd_run_config sd)) = inr err) →
  let '(r, t) := run_task MaybeSubscriber cbs (qgis_before_start jc now reg) (job_call jc) id
                   (MkTask (task_kwargs sd) s) in
  (∃ e, r = Raise e) ∧ t_out t = tell_progress sub id (sd_meta sd) s.
Proof.
  intros Hsub Href. rw /run_task (prerun_tells sd sub) //. set (s1 := tell_progress _ _ _ _).
  assert (∃ e kw, (qgis_before_start jc now reg id;; job_call jc) (MkTask (task_kwargs sd) s1) =
    (Raise e, MkTask kw s1) ∧ lookup "request" kw = None) as (e & kw & -> & Hn).
  { destruct (before_start id reg) as [[]|e] eqn:Hb.
    - destruct Href as [[e [=]]|[err Hv]].
      destruct (job_before_start_refused add_qgis_context id s1 err sd Hv) as (kw & Hk & Hn).
      do 2 eexists. split; [|exact Hn]. apply bind_raise. rw /qgis_before_start.
      erewrite bind_ok; [exact Hk|rw /check_registered /pure Hb //].
    - exists e, (task_kwargs sd). split; [|reflexivity]. apply bind_raise, bind_raise.
      by rw /check_registered /pure Hb. }
  split; [by eexists|]. rw receiver_run /on_task_postrun.
  erewrite bind_ok; [|reflexivity]. simpl. rw Hn. by erewrite bind_raise; [|reflexivity].
Qed.
End runs.

(** ** An example: a job that is told of on the network of the callbacks *)
Module JobsRunDemo.
Import CallbacksDemo.
Definition subscriber : Subscriber :=
  MkSubscriber (Some "http://example.org/ok") (Some "http://example.org/ko") (Some "http://example.org/go").
Definition maybe (v : option JsonValue) : res (option Subscriber) :=
  match v with Some (JObj _) => Ok (Some subscriber) | _ => Ok None end.
Definition job (valid : bool) : JobClass unit (list string) :=
  MkJobClass (fun _ => if valid then inl tt else inr "missing") Ok true []
    (fun _ _ s => (Ok (JObj []), s ++ ["run"])).
Definition message : Send :=
  MkSend "svc.process_execute" "qjazz.svc" 0 60 None meta []
    (MkRunConfig "buffer" (JObj [("inputs", JObj []); ("subscriber", JObj [])]) None).
Definition handlers : Callbacks (S:=list string) :=
  match new_callbacks net conf with Ok cbs => cbs | Raise _ => PyDict.empty end.
Definition registry : RedisDemo.store := ex_redis CeleryDemo.sent.2.
Definition id : string := match CeleryDemo.sent.1 with Ok (id, _) => id | Raise _ => "" end.
Definition run (valid : bool) (reg : RedisDemo.store) :=
  run_task maybe handlers (qgis_before_start (job valid) "now" reg) (job_call (job valid)) id
    (MkTask (task_kwargs message) []).
End JobsRunDemo.
Import JobsRunDemo.

Lemma job_notifications_witness :
  ∃ kw, run true registry =
    (Ok (JObj []), MkTask kw ["http://example.org/go"; "run"; "http://example.org/ok"]).
Proof.
  apply (job_notifications (job true) "now" registry maybe handlers message (Some subscriber) id tt []);
    [vm_compute; reflexivity| |reflexivity].
  exists [("inputs", JObj []); ("subscriber", JObj [])]. split; reflexivity.
Defined.

Lemma refused_job_untold_witness :
  (∃ e, (run false registry).1 = Raise e) ∧ t_out (run false registry).2 = ["http://example.org/go"].
Proof.
  pose proof (refused_job_untold (job false) "now" registry maybe handlers message (Some subscriber) id [])
    as H.
  rw /run. destruct (run_task _ _ _ _ _ _) as [r t]. apply H; [|right; by eexists].
  exists [("inputs", JObj []); ("subscriber", JObj [])]. split; reflexivity.
Defined.
