(* ===== verification/JobLife.v ===== *)
(** * The life of a job, from its request to its results

    The server that executes, follows and dismisses jobs
    ([qjazz_processes/executor/processes.py]), the workers that start and finish
    them ([qjazz_core/celery/worker.py], [qjazz_processes/worker/worker.py]) and
    the registry they share ([worker/registry.py]), put together: a step relation
    over the registry, the Celery application and what is outside, whose steps
    run the operations of [Executor], [Registry] and [WorkerJobs] in any order.
    It refines a specification where each job is a pair of two small automata:
    what the registry says of it, and what became of its task. *)
From S2P Require Import Prelude PyDict PyStd Json Web Registry Executor JobsApi ProcessesApi Callbacks WorkerJobs.

(** ** What the backend keeps of a task *)

(** The exception of a failed task, as the classes of [worker/exceptions.py] and
    of [schemas/models.py] sort it: [DismissedTaskError] and the errors of a
    service are all [ProcessesException]. *)
Definition failure_of (e : exn) : TaskResult :=
  match e with
  | InputValueError m => ResInputValueError m
  | DismissedTaskError _ => ResDismissedTaskError
  | RunProcessException _ => ResRunProcessException
  | ServiceNotAvailable m | UnreachableDestination m | ProcessNotFound m | ProjectRequired m =>
      ResProcessesException m
  | _ => ResException
  end.

(** The keyword arguments stored with a state ([result_extended]): the metadata
    that [Job.before_start] puts there, and the request *)
Definition kwargs_of {I} (kw : Kw I) : Kwargs :=
  MkKwargs (match lookup "__meta__" kw with Some (KMeta d) => Some (td_meta d) | _ => None end)
           (match lookup "request" kw with Some (KJson j) => Some j | _ => None end).
Definition started_meta {I} (kw : Kw I) : TaskMeta :=
  MkTaskMeta STATE_STARTED (ResOther "") None (Some (kwargs_of kw)).
Definition updated_meta {I} (kw : Kw I) (r : TaskResult) : TaskMeta :=
  MkTaskMeta STATE_UPDATED r None (Some (kwargs_of kw)).
Definition revoked_meta {I} (kw : Kw I) (date : string) : TaskMeta :=
  MkTaskMeta STATE_REVOKED (ResOther "") (Some date) (Some (kwargs_of kw)).
Definition success_of (j : JsonValue) : TaskResult :=
  match j with JObj l => ResResults l | j => ResOther (json_str j) end.
Definition ended_meta {I} (kw : Kw I) (date : string) (r : res JsonValue) : TaskMeta :=
  match r with
  | Ok out => MkTaskMeta STATE_SUCCESS (success_of out) (Some date) (Some (kwargs_of kw))
  | Raise e => MkTaskMeta STATE_FAILURE (failure_of e) (Some date) (Some (kwargs_of kw))
  end.

(** ** The side of the workers of a Celery application

    The messages that were sent, and the state a worker stores for a task.  What
    Celery documents of them: a task has an id of its own, an UUID, and is
    pending; storing the state of a task leaves the others; a revoked task has
    that state, with its arguments, unless it ended or its worker did not get
    the order. *)
Class WorkerSide (C : Type) : Type := {
  sent : C → list (string * Send);
  store_state : string → TaskMeta → C → C;
}.

Definition ready (s : TaskState) : bool :=
  bool_decide (s ∈ [STATE_SUCCESS; STATE_FAILURE; STATE_REVOKED]).
Definition no_colon (s : string) : bool := str_forall (fun a => bool_decide (a ≠ ":"%char)) s.
Definition meta_about (sd : Send) (m : TaskMeta) : Prop :=
  ∃ kw mt, tm_kwargs m = Some kw ∧ kw_meta kw = Some mt ∧ m_process_id mt = m_process_id (sd_meta sd).

Class CeleryLaws {C : Type} (cel : Celery C) `{!WorkerSide C} : Prop := {
  sent_task sd c id c' : send_task cel sd c = (id, c') →
    plain_text id = true ∧ no_colon id = true ∧ id ∉ (sent c).*1 ∧ sent c' = (id, sd) :: sent c ∧
    tm_status (get_task_meta cel id c') = STATE_PENDING ∧
    ∀ id', id' ≠ id → get_task_meta cel id' c' = get_task_meta cel id' c;
  stored_state id m c : sent (store_state id m c) = sent c ∧
    get_task_meta cel id (store_state id m c) = m ∧
    ∀ id', id' ≠ id → get_task_meta cel id' (store_state id m c) = get_task_meta cel id' c;
  revoked_task id ds c r c' : revoke cel id ds c = (r, c') →
    sent c' = sent c ∧ (∀ id', id' ≠ id → get_task_meta cel id' c' = get_task_meta cel id' c) ∧
    (get_task_meta cel id c' = get_task_meta cel id c ∨
     ready (tm_status (get_task_meta cel id c)) = false ∧
     tm_status (get_task_meta cel id c') = STATE_REVOKED ∧
     ∀ sd, NoDup (sent c).*1 → (id, sd) ∈ sent c → meta_about sd (get_task_meta cel id c'));
}.

(** ** The system *)
Section system.
Context {R : Type} `{!Redis R} {C : Type} (cel : Celery C) `{!WorkerSide C}.
(** The jobs of the workers, by the name of their task, what they act on, and
    the callbacks. *)
Context {I S : Type} (job : string → JobClass I S).
Context (MaybeSubscriber : option JsonValue → res (option Subscriber)) (cbs : Callbacks (S:=S)).
Context (utc : Z → string) (default_timeout : Z).

(** The state: what servers and workers share; the jobs a server has sent and
    not yet registered; the tasks that workers are running, with their
    arguments; what the functions of the jobs act on. *)
Record World : Type := MkWorld {
  w_ex : Ex R C; w_sending : list (string * JobBuilder); w_running : list (string * Kw I); w_out : S;
}.
Definition w_reg (w : World) : R := ex_redis (w_ex w).
Definition w_cel (w : World) : C := ex_cel (w_ex w).
Definition w_meta (w : World) (id : string) : TaskMeta := get_task_meta cel id (w_cel w).
Definition forget {V} (id : string) (l : list (string * V)) : list (string * V) :=
  filter (fun p => p.1 ≠ id) l.

(** A worker that stores the state of a task. *)
Definition put_state (id : string) (m : TaskMeta) (s : Ex R C) : Ex R C :=
  MkEx (ex_redis s) (store_state id m (ex_cel s)).

(** A worker that takes a message: the signal before the task, the state
    [STARTED] with the arguments as they were sent ([track_started]), and
    [before_start], that may refuse it. *)
Definition worker_start (now id : string) (sd : Send) (w : World) : World :=
  let t := (receiver (on_task_prerun MaybeSubscriber cbs id) (MkTask (task_kwargs sd) (w_out w))).2 in
  match qgis_before_start (job (sd_task sd)) now (w_reg w) id t with
  | (Ok _, t) =>
      MkWorld (put_state id (started_meta (task_kwargs (I:=I) sd)) (w_ex w)) (w_sending w)
        ((id, t_kwargs t) :: w_running w) (t_out t)
  | (Raise e, t) =>
      let t := (receiver (on_task_postrun MaybeSubscriber cbs id (Raise e)) t).2 in
      MkWorld (put_state id (ended_meta (t_kwargs t) now (Raise e)) (w_ex w)) (w_sending w)
        (w_running w) (t_out t)
  end.

(** The function of a task that runs, up to its end. *)
Definition worker_finish (now id : string) (sd : Send) (kw : Kw I) (w : World) : World :=
  let '(r, t) := job_call (job (sd_task sd)) (MkTask kw (w_out w)) in
  let t := (receiver (on_task_postrun MaybeSubscriber cbs id r) t).2 in
  MkWorld (put_state id (ended_meta (t_kwargs t) now r) (w_ex w)) (w_sending w)
    (forget id (w_running w)) (t_out t).

(** What became of a task: it succeeded with a result, failed, or was refused as
    the task of a job that is dismissed. *)
Inductive Outcome : Type := Succeeded (r : TaskResult) | Failed | Refused.
Inductive TaskPhase : Type := Waiting | Running | Ended (o : Outcome) | Revoked.
Definition failed_with (r : TaskResult) : Outcome :=
  match r with ResDismissedTaskError => Refused | _ => Failed end.
Definition phase_of (m : TaskMeta) : TaskPhase :=
  match tm_status m with
  | STATE_PENDING => Waiting
  | STATE_STARTED | STATE_UPDATED => Running
  | STATE_SUCCESS => Ended (Succeeded (tm_result m))
  | STATE_FAILURE => Ended (failed_with (tm_result m))
  | STATE_REVOKED => Revoked
  | STATE_OTHER _ => Ended Failed
  end.

(** What happens; [LStart] says whether the task goes on to its function, [LEnd]
    with what it ended, [LDismiss] whether the dismissal was answered. *)
Inductive Label : Type :=
| LSend (id : string) | LRegister (id : string) | LStart (id : string) (runs : bool)
| LProgress (id : string) | LEnd (id : string) (phase : TaskPhase)
| LDismiss (id : string) (done : bool) | LForget (id : string) | LStale (id : string).

(** The steps.  A request is executed in two steps, between which others may
    come ([_execute] is the two in a row, [execute_two_steps]).  A task is taken
    by a worker once, while it is pending.  [Job.set_progress] is called by the
    function of the job with a percentage.  A dismissal kills the process of a
    task that Celery revokes.  Redis forgets the records that expire; a message
    that no worker takes in time is revoked. *)
Inductive step : Label → World → World → Prop :=
| step_send services created a b id s w :
    job_builder services default_timeout created (xa_service a) (xa_ident a) (xa_pending_timeout a)
      (xa_realm a) (xa_tag a) (xa_countdown a) = Ok b →
    _execute_task cel (xa_service a) (jb_entrypoint b) (MkRunConfig (xa_ident a) (xa_request a) (xa_project a))
      (jb_pending_timeout b) (jb_meta b) (xa_context a) 0 (xa_countdown a) (w_ex w) = (Ok id, s) →
    step (LSend id) w (MkWorld s ((id, b) :: w_sending w) (w_running w) (w_out w))
| step_register id b st s w :
    (id, b) ∈ w_sending w → builder_register b id (w_ex w) = (Ok st, s) →
    step (LRegister id) w (MkWorld s (forget id (w_sending w)) (w_running w) (w_out w))
| step_start now id sd w :
    (id, sd) ∈ sent (w_cel w) → tm_status (w_meta w id) = STATE_PENDING →
    step (LStart id (bool_decide (tm_status (w_meta (worker_start now id sd w) id) = STATE_STARTED)))
      w (worker_start now id sd w)
| step_progress id kw p msg upd w :
    (id, kw) ∈ w_running w → (match progress_of p with Some p => 0 <= p <= 100 | None => True end)%Z →
    step (LProgress id) w
      (MkWorld (put_state id (updated_meta kw (set_progress p msg upd)) (w_ex w)) (w_sending w)
         (w_running w) (w_out w))
| step_end now id sd kw w :
    (id, sd) ∈ sent (w_cel w) → (id, kw) ∈ w_running w →
    step (LEnd id (phase_of (w_meta (worker_finish now id sd kw w) id))) w (worker_finish now id sd kw w)
| step_dismiss now services rl id r s w :
    plain_text id = true → no_colon id = true →
    _dismiss cel utc now id services rl (w_ex w) = (r, s) →
    step (LDismiss id (match r with Ok (Some _) => true | _ => false end)) w
      (MkWorld s (w_sending w)
         (filter (fun p => tm_status (get_task_meta cel p.1 (ex_cel s)) ≠ STATE_REVOKED) (w_running w))
         (w_out w))
| step_forget id r w :
    plain_text id = true → no_colon id = true →
    (∀ k, r_has k r = r_has k (w_reg w) && bool_decide (k ∉ r_keys (id_pattern id) (w_reg w))) →
    (∀ k, r_has k r = true → r_hgetall k r = r_hgetall k (w_reg w)) → r_now (w_reg w) = r_now r →
    id ∉ (w_sending w).*1 →
    step (LForget id) w (MkWorld (MkEx r (w_cel w)) (w_sending w) (w_running w) (w_out w))
| step_stale now id sd w :
    (id, sd) ∈ sent (w_cel w) → tm_status (w_meta w id) = STATE_PENDING →
    step (LStale id) w
      (MkWorld (put_state id (revoked_meta (task_kwargs (I:=I) sd) now) (w_ex w)) (w_sending w)
         (w_running w) (w_out w)).

Inductive steps : list Label → World → World → Prop :=
| steps_nil w : steps [] w w
| steps_cons l ls w1 w2 w3 : step l w1 w2 → steps ls w2 w3 → steps (l :: ls) w1 w3.

(** Nothing was sent yet, and the registry has no record of a job. *)
Definition initial (w : World) : Prop :=
  sent (w_cel w) = [] ∧ w_sending w = [] ∧ w_running w = [] ∧
  ∀ id k, r_has k (w_reg w) = true → no_colon id = true → ~ key_of id k.

(** ** The specification *)
Inductive Reg : Type := Sending | Registered | Gone.
Record Job : Type := MkJob { j_reg : Reg; j_task : TaskPhase }.

(** What one event does to the job it is about, [None] before it was sent. *)
Inductive job_step : Label → option Job → option Job → Prop :=
| js_send id : job_step (LSend id) None (Some (MkJob Sending Waiting))
| js_register id t g : g ≠ Sending →
    job_step (LRegister id) (Some (MkJob Sending t)) (Some (MkJob g t))
| js_start id : job_step (LStart id true) (Some (MkJob Registered Waiting)) (Some (MkJob Registered Running))
| js_invalid id : job_step (LStart id false) (Some (MkJob Registered Waiting))
    (Some (MkJob Registered (Ended Failed)))
| js_refused id g : g ≠ Registered →
    job_step (LStart id false) (Some (MkJob g Waiting)) (Some (MkJob g (Ended Refused)))
| js_progress id g : job_step (LProgress id) (Some (MkJob g Running)) (Some (MkJob g Running))
| js_end id g o : job_step (LEnd id (Ended o)) (Some (MkJob g Running)) (Some (MkJob g (Ended o)))
| js_dismiss id t t' : t' = t ∨ t' = Revoked ∧ (t = Waiting ∨ t = Running) →
    job_step (LDismiss id true) (Some (MkJob Registered t)) (Some (MkJob Gone t'))
| js_dismiss_failed id t t' : t' = t ∨ t' = Revoked ∧ (t = Waiting ∨ t = Running) →
    job_step (LDismiss id false) (Some (MkJob Registered t)) (Some (MkJob Registered t'))
| js_no_dismiss id j : job_step (LDismiss id false) j j
| js_forget id g t : g ≠ Sending → job_step (LForget id) (Some (MkJob g t)) (Some (MkJob Gone t))
| js_forget_unknown id : job_step (LForget id) None None
| js_stale id g : job_step (LStale id) (Some (MkJob g Waiting)) (Some (MkJob g Revoked)).

Definition label_id (l : Label) : string :=
  match l with
  | LSend id | LRegister id | LStart id _ | LProgress id | LEnd id _ | LDismiss id _ | LForget id
  | LStale id => id
  end.
Definition Jobs : Type := string → option Job.
Definition spec_step (l : Label) (f f' : Jobs) : Prop :=
  job_step l (f (label_id l)) (f' (label_id l)) ∧ ∀ id, id ≠ label_id l → f' id = f id.
Inductive spec_steps : list Label → Jobs → Jobs → Prop :=
| spec_nil f f' : (∀ id, f' id = f id) → spec_steps [] f f'
| spec_cons l ls f1 f2 f3 : spec_step l f1 f2 → spec_steps ls f2 f3 → spec_steps (l :: ls) f1 f3.

(** What the state of the system says of a job. *)
Definition abs_reg (w : World) (id : string) : Reg :=
  if decide (id ∈ (w_sending w).*1) then Sending
  else match find_job id None (w_reg w) with
       | Ok (Some ti) => if decide (dismissed ti = 0)%Z then Registered else Gone
       | _ => Gone
       end.
Definition abs (w : World) (id : string) : option Job :=
  if decide (id ∈ (sent (w_cel w)).*1) then Some (MkJob (abs_reg w id) (phase_of (w_meta w id))) else None.

(** The status that should be answered. *)
Definition answered (t : TaskPhase) : JobStatusCode :=
  match t with
  | Waiting => PENDING | Running => RUNNING
  | Ended (Succeeded _) => SUCCESS | Ended Failed => FAILED
  | Ended Refused | Revoked => DISMISSED
  end.
End system.
Arguments World : clear implicits.

(** ** The record of a job in the registry *)
Lemma colon_prefix_inj id id' r r' :
  no_colon id = true → no_colon id' = true → id +:+ "::" +:+ r = id' +:+ "::" +:+ r' → id = id'.
Proof.
  revert id'. induction id as [|a id IH]; intros [|a' id'] Hi Hi' E; [done| | |].
  - injection E as <- _. by rewrite /no_colon /= in Hi'.
  - injection E as -> _. by rewrite /no_colon /= in Hi.
  - injection E as <- E. rewrite /no_colon /= in Hi Hi'.
    apply andb_true_iff in Hi as [_ Hi], Hi' as [_ Hi']. f_equal. by apply IH.
Qed.

Lemma key_of_inj id id' k :
  no_colon id = true → no_colon id' = true → key_of id k → key_of id' k → id = id'.
Proof. intros ?? (r & ->) (r' & E). apply str_app_inj in E. by eapply colon_prefix_inj. Qed.

Section registry.
Context {R : Type} `{!Redis R, !RedisLaws R}.
Implicit Types (r : R).

(** The registry has this record, and no other, of a job. *)
Definition record (id : string) (r : R) (x : option TaskInfo) : Prop :=
  match x with
  | None => ∀ k, r_has k r = true → ~ key_of id k
  | Some ti => ∃ k, (∀ k', r_has k' r = true ∧ key_of id k' ↔ k' = k) ∧
      glob (job_pattern id None) k = true ∧ _decode (r_hgetall k r) = Ok ti
  end.

(** Only the records of a job change. *)
Definition same_but (id : string) (r r' : R) : Prop :=
  ∀ k, ~ key_of id k → r_has k r' = r_has k r ∧ (r_has k r' = true → r_hgetall k r' = r_hgetall k r).

Lemma same_but_trans id r1 r2 r3 : same_but id r1 r2 → same_but id r2 r3 → same_but id r1 r3.
Proof.
  intros H1 H2 k Hk. destruct (H1 k Hk) as [Hh1 Hg1], (H2 k Hk) as [Hh2 Hg2].
  split; [by rw Hh2|]. intros H. rw Hg2 // Hg1 // -Hh2 //.
Qed.

Lemma record_frame id id' r r' x :
  no_colon id = true → no_colon id' = true → id' ≠ id → same_but id r r' →
  record id' r x → record id' r' x.
Proof.
  intros Hi Hi' Hne Hs.
  assert (∀ k, key_of id' k → ~ key_of id k) as Hk.
  { intros k Hk Hk'. by destruct Hne; eapply key_of_inj. }
  destruct x as [ti|]; simpl.
  - intros (k & Hu & Hg & Hd).
    assert (r_has k r = true ∧ key_of id' k) as [Hh Hkk] by (by apply Hu).
    destruct (Hs k (Hk k Hkk)) as [E1 E2]. exists k. split_and!; [|done|by rw E2 // E1].
    intros k'. rw -Hu. split; intros [H1 H2]; (split; [|done]); destruct (Hs k' (Hk k' H2)) as [? _]; congruence.
  - intros H k Hh Hkk. destruct (Hs k (Hk k Hkk)) as [E1 _]. rw E1 in Hh. by destruct (H k Hh).
Qed.

Lemma record_find id r x : plain_text id = true → record id r x → find_job id None r = Ok x.
Proof.
  intros Hid. destruct x as [ti|]; simpl; [|by apply find_job_absent].
  intros (k & Hu & Hg & Hd). rw /find_job.
  assert (∀ k', k' ∈ r_keys (job_pattern id None) r → k' = k) as Hks.
  { intros k' [Hh Hg']%keys_spec. apply Hu. split; [done|]. by eapply job_pattern_key. }
  destruct (r_keys _ _) as [|k' ks] eqn:E.
  - destruct (not_elem_of_nil k). rw -E. apply keys_spec. split; [|done]. by apply Hu.
  - rw (Hks k'); [set_solver|]. by rw Hd.
Qed.

Lemma record_find_realm id rl r x :
  plain_text id = true → record id r x → find_job id rl r = Ok None ∨ find_job id rl r = Ok x.
Proof.
  intros Hid. destruct x as [ti|]; simpl; [|by left; apply find_job_absent].
  intros (k & Hu & Hg & Hd). rw /find_job. destruct (r_keys _ _) as [|k' ks] eqn:E; [by left|right].
  assert (k' ∈ r_keys (job_pattern id rl) r) as [Hh Hg']%keys_spec by (rw E; set_solver).
  assert (k' = k) as -> by (apply Hu; split; [done|by eapply job_pattern_key]). by rw Hd.
Qed.

Lemma record_fun id r x y : plain_text id = true → record id r x → record id r y → x = y.
Proof. intros Hid Hx Hy. apply record_find in Hx, Hy; [|done..]. congruence. Qed.

Lemma register_same sv rl st ex pt r : same_but (js_job_id st) r (register sv rl st ex pt r).
Proof.
  intros k Hk. assert (k ≠ job_key (js_job_id st) sv rl) as Hne by (intros ->; destruct Hk; apply job_key_of).
  rw /register has_expireat has_hset // hgetall_expireat_ne // hget_hset_ne //.
  rw bool_decide_false // orb_false_l. rw bool_decide_true // andb_true_r. done.
Qed.

(** Registering leaves the record, unless it has already expired. *)
Lemma register_record sv rl st ex pt r :
  plain_text (js_job_id st) = true → record (js_job_id st) r None →
  ∃ x, record (js_job_id st) (register sv rl st ex pt r) x ∧
    ∀ ti, x = Some ti → dismissed ti = 0%Z ∧ job_id ti = js_job_id st ∧ process_id ti = js_process_id st.
Proof.
  intros Hid Hnew. set (key := job_key (js_job_id st) sv rl).
  assert (∀ k, r_has k (register sv rl st ex pt r) = true ↔
    (k = key ∨ r_has k r = true) ∧ (k = key → not_expired st ex pt r)) as Hh.
  { intros k. rw /register has_expireat has_hset // now_hset andb_true_iff orb_true_iff !bool_decide_eq_true //. }
  destruct (decide (r_now r < js_created st + ex + pt)%Z) as [Hexp|Hexp].
  - eexists (Some _). split; [exists key; split_and!|].
    + intros k. rw Hh. split; [|intros ->; split; [by split; [left|]|apply job_key_of]].
      intros [[[->|Hk] _] Hkk]; [done|]. by destruct (Hnew k Hk).
    + apply job_pattern_spec; [done|]. exists sv, (fmt_opt rl). split; [done|]. apply glob_star_all.
    + by apply decode_fields.
    + by intros ti [= <-].
  - exists None. split; [|done]. intros k [[->|Hk] He]%Hh; [by destruct Hexp; apply He|by apply Hnew].
Qed.

(** The record with its mark. *)
Definition with_dismissed (z : Z) (ti : TaskInfo) : TaskInfo :=
  MkTaskInfo (job_id ti) (created ti) (service ti) (realm ti) (process_id ti) z (pending_timeout ti)
    (expires ti) (tag ti).

Lemma decode_mark (h h' : list (string * string)) ti z :
  _decode h = Ok ti → (∀ f, f ≠ "dismissed" → hget f h' = hget f h) →
  hget "dismissed" h' = Some (str_of_int z) → _decode h' = Ok (with_dismissed z ti).
Proof.
  intros Hd Hf Hm.
  assert (∀ f, f ≠ "dismissed" → field f h' = field f h) as F by (intros f Hne; by rw /field Hf).
  assert (∀ f, f ≠ "dismissed" → int_field f h' = int_field f h) as G by (intros f Hne; by rw /int_field F).
  assert (int_field "dismissed" h' = Ok z) as D by (rw /int_field /field Hm /= int_of_str_of_int //).
  revert Hd. rw /_decode D !F // !G //.
  do 9 (intros (? & E & H)%res_bind_inv; rw ?E; clear E; revert H). by intros [= <-].
Qed.

(** Marking a job as dismissed, or resetting the mark. *)
Definition mark (b : bool) : Z := if b then 0%Z else 1%Z.
Lemma dismiss_record id b r ti :
  plain_text id = true → record id r (Some ti) →
  record id (Registry.dismiss id b r).2 (Some (with_dismissed (mark b) ti)).
Proof.
  intros Hid (k & Hu & Hg & Hd). rw /Registry.dismiss.
  assert (∀ k', k' ∈ r_keys (id_pattern id) r ↔ k' = k) as Hks.
  { intros k'. rw keys_spec id_pattern_spec //. }
  destruct (r_keys (id_pattern id) r) as [|k' ks]; [by destruct (not_elem_of_nil k); apply Hks|].
  assert (k' = k) as -> by (apply Hks; set_solver). simpl. exists k. split_and!; [|done|].
  - intros k'. rw -Hu has_hset // orb_true_iff bool_decide_eq_true. split; [|tauto].
    intros [[->|] ?]; [|done]. by apply Hu.
  - assert (NoDup [("dismissed", if b then "0" else "1")].*1) as Hn by apply NoDup_singleton.
    apply (decode_mark (r_hgetall k r)); [done| |].
    + intros f Hne. rw hget_hset //=. by rw decide_False.
    + rw hget_hset //=. by destruct b.
Qed.

Lemma dismiss_same id b r : plain_text id = true → same_but id r (Registry.dismiss id b r).2.
Proof.
  intros Hid k Hk. split; [apply (has_dismiss (fun _ => "") 0)|]. intros _. rw /Registry.dismiss.
  destruct (r_keys (id_pattern id) r) as [|k' ks] eqn:E; [done|].
  assert (k' ∈ r_keys (id_pattern id) r) as Hg by (rw E; set_solver). apply keys_spec in Hg as [_ Hg].
  apply hget_hset_ne. intros ->. apply Hk. by apply id_pattern_spec.
Qed.

Lemma delete_record id r : plain_text id = true → record id (Registry.delete id r).2 None.
Proof. intros Hid k [_ Hk]%delete_plain; done. Qed.

Lemma delete_same id r : plain_text id = true → same_but id r (Registry.delete id r).2.
Proof.
  intros Hid k Hk. assert (r_has k (Registry.delete id r).2 = r_has k r) as Hh.
  { apply eq_true_iff_eq. rw delete_plain //. tauto. }
  split; [done|]. intros _. rw /Registry.delete.
  assert (k ∉ r_keys (id_pattern id) r) as Hn.
  { intros [_ Hg]%keys_spec. by apply Hk, id_pattern_spec. }
  destruct (r_keys (id_pattern id) r) as [|k' ks]; [done|]. by apply hgetall_del.
Qed.
End registry.

(** ** Dismissing *)
Section dismissing.
Context {R : Type} `{!Redis R, !RedisLaws R} {C : Type} (cel : Celery C).
Context (utc : Z → string) (now : Z).

(** What a dismissal leaves: everything as it was; or, after an order to the
    workers or without one, the job without its record, which is answered, or
    with its mark reset, when the order raised. *)
Inductive dismissal (id : string) (s : Ex R C) : res (option JobStatus) → Ex R C → Prop :=
| dismissal_none r : (∀ st, r ≠ Ok (Some st)) → dismissal id s r s
| dismissal_done ti st c :
    record id (ex_redis s) (Some ti) →
    (c = ex_cel s ∨ ∃ ds rr, revoke cel id ds (ex_cel s) = (rr, c)) →
    dismissal id s (Ok (Some st)) (MkEx (Registry.delete id (Registry.dismiss id false (ex_redis s)).2).2 c)
| dismissal_failed ti e c :
    record id (ex_redis s) (Some ti) →
    (∃ ds rr, revoke cel id ds (ex_cel s) = (rr, c)) →
    dismissal id s (Raise e) (MkEx (Registry.dismiss id true (Registry.dismiss id false (ex_redis s)).2).2 c).

Lemma dismiss_dismissal id services rl s r s' x :
  plain_text id = true → record id (ex_redis s) x →
  (∀ ti t, x = Some ti → tm_status (get_task_meta cel id (ex_cel s)) ≠ STATE_OTHER t) →
  _dismiss cel utc now id services rl s = (r, s') → dismissal id s r s'.
Proof.
  intros Hid Hx Hst. rw /_dismiss. py_unfold.
  destruct (lock _ _); simpl; [|by intros [= <- <-]; constructor].
  destruct (record_find_realm id rl (ex_redis s) x Hid Hx) as [->| ->]; simpl;
    [by intros [= <- <-]; constructor|].
  destruct x as [ti|]; [|by intros [= <- <-]; constructor].
  case_decide; [by intros [= <- <-]; constructor|].
  destruct (ensure_destinations _ _) as [dests|]; simpl; [|by intros [= <- <-]; constructor].
  rw /on_redis /revoke_task. destruct (Registry.dismiss id false (ex_redis s)) as [b1 r1] eqn:E1; simpl.
  assert (∃ d, dismiss_state cel now id dests ti (ex_cel s) = Ok d) as [d ->].
  { rw /dismiss_state. destruct (tm_status _) as [ | | | | | |t] eqn:Et; eauto; [|by destruct (Hst ti t)].
    destruct (_query_task _ _ _ _) as [[]|]; repeat case_decide; eauto. }
  destruct (Registry.delete id r1) as [b2 r2] eqn:E2. destruct (Registry.dismiss id true r1) as [b3 r3] eqn:E3.
  assert (r2 = (Registry.delete id (Registry.dismiss id false (ex_redis s)).2).2) as Hr2 by (rw E1 /= E2 //).
  assert (r3 = (Registry.dismiss id true (Registry.dismiss id false (ex_redis s)).2).2) as Hr3 by (rw E1 /= E3 //).
  destruct d; simpl; rw ?E2 /=.
  1,3: intros [= <- <-]; rw Hr2; by eapply dismissal_done; [|left].
  destruct (revoke cel id dests (ex_cel s)) as [[[]|e] c] eqn:Er; simpl; rw ?E2 ?E3 /=; intros [= <- <-].
  - rw Hr2. eapply dismissal_done; [done|right; eauto].
  - rw Hr3. eapply dismissal_failed; eauto.
Qed.
End dismissing.

(** ** What a worker leaves of a task *)
Section worker.
Context {R : Type} `{!Redis R} (reg : R) {I S : Type} (jc : JobClass I S).
Context (MaybeSubscriber : option JsonValue → res (option Subscriber)) (cbs : Callbacks (S:=S)).

Lemma on_out_kwargs {A} (kw : Kw I) (m : M S A) :
  preserves (fun t : Task I S => t_kwargs t = kw) (on_out m).
Proof. intros t Ht. rw /on_out /zoom. by destruct (m (t_out t)). Qed.

Ltac keeps_kwargs :=
  repeat (first [apply preserves_bind; [|intros ?]|case_match|apply on_out_kwargs|by intros ?|by auto with py]).

(** The notifications leave the arguments. *)
Lemma prerun_kwargs id (t : Task I S) :
  t_kwargs (receiver (on_task_prerun MaybeSubscriber cbs id) t).2 = t_kwargs t.
Proof.
  rw receiver_run. apply (preserves_run (fun u => t_kwargs u = t_kwargs t)
    (on_task_prerun MaybeSubscriber cbs id) t (on_task_prerun MaybeSubscriber cbs id t).1); [|done|].
  - rw /on_task_prerun /run_request /arg_meta.
    keeps_kwargs.
  - by destruct (on_task_prerun _ _ _ t).
Qed.

Lemma postrun_kwargs id r (t : Task I S) :
  t_kwargs (receiver (on_task_postrun MaybeSubscriber cbs id r) t).2 = t_kwargs t.
Proof.
  rw receiver_run. apply (preserves_run (fun u => t_kwargs u = t_kwargs t)
    (on_task_postrun MaybeSubscriber cbs id r) t (on_task_postrun MaybeSubscriber cbs id r t).1); [|done|].
  - rw /on_task_postrun /arg_meta.
    keeps_kwargs.
  - by destruct (on_task_postrun _ _ _ _ t).
Qed.

Lemma job_call_kwargs (t : Task I S) : t_kwargs (job_call jc t).2 = t_kwargs t.
Proof.
  apply (preserves_run (fun u => t_kwargs u = t_kwargs t) (job_call jc) t (job_call jc t).1); [|done|].
  - rw /job_call. keeps_kwargs.
    all: intros u Hu; rw /zoom; by destruct (jc_run _ _ _ _).
  - by destruct (job_call jc t).
Qed.

(** Arguments that hold the metadata of a message. *)
Definition kwargs_about (sd : Send) (kw : Kw I) : Prop :=
  ∃ mt, kw_meta (kwargs_of kw) = Some mt ∧ m_process_id mt = m_process_id (sd_meta sd).

(** [before_start] of a message: what it answers depends on the registry, and,
    when it lets the task go on, the arguments hold its metadata. *)
Lemma before_start_kwargs now id sd s r t :
  qgis_before_start jc now reg id (MkTask (task_kwargs sd) s) = (r, t) →
  kwargs_about sd (t_kwargs t) ∧
  match before_start id reg with
  | Raise e => r = Raise e
  | Ok _ => r = Ok tt ∨ r = Raise (ValueError "Invalid arguments")
  end.
Proof.
  rw /qgis_before_start /check_registered. intros [([] & s1 & H1 & H2)|(e & H1 & ->)]%bind_inv.
  - injection H1 as -> <-. revert H2. rw /job_before_start.
    do 6 (erewrite bind_ok by reflexivity). cbv beta iota zeta.
    destruct (jc_validate jc _) as [inputs|err].
    + intros [= <- <-]. split; [|by left]. by eexists.
    + intros [= <- <-]. split; [|by right]. by eexists.
  - injection H1 as -> <-. split; [by eexists|done].
Qed.
End worker.

(** ** The system keeps its invariant and follows its specification *)
Section refinement.
Context {R : Type} `{!Redis R, !RedisLaws R} {C : Type} (cel : Celery C) `{!WorkerSide C, !CeleryLaws cel}.
Context {I S : Type} (job : string → JobClass I S).
Context (MaybeSubscriber : option JsonValue → res (option Subscriber)) (cbs : Callbacks (S:=S)).
Context (utc : Z → string) (default_timeout : Z).
Notation World := (World R C I S).
Notation step := (step cel job MaybeSubscriber cbs utc default_timeout).
Notation abs := (abs cel).
Notation abs_reg := (abs_reg (C:=C)).
Implicit Types (w : World) (s : Ex R C).

(** The state a task may have been given. *)
Definition meta_ok (sd : Send) (m : TaskMeta) : Prop :=
  match tm_status m with
  | STATE_PENDING => True
  | STATE_OTHER _ => False
  | STATE_STARTED | STATE_REVOKED | STATE_SUCCESS => meta_about sd m
  | STATE_FAILURE => meta_about sd m ∧ ∃ e, tm_result m = failure_of e
  | STATE_UPDATED => meta_about sd m ∧ ∃ p msg upd, tm_result m = ResProgress p msg upd ∧
      (match p with Some p => 0 <= p <= 100 | None => True end)%Z
  end.

(** The record of a registered job. *)
Definition record_of (w : World) (id : string) (ti : TaskInfo) : Prop :=
  dismissed ti = 0%Z ∧ job_id ti = id ∧ id ∉ (w_sending w).*1 ∧
  ∃ sd, (id, sd) ∈ sent (w_cel w) ∧ process_id ti = m_process_id (sd_meta sd).

Record inv (w : World) : Prop := {
  inv_ids : ∀ id, id ∈ (sent (w_cel w)).*1 → plain_text id = true ∧ no_colon id = true;
  inv_nodup : NoDup (sent (w_cel w)).*1;
  inv_record : ∀ id, plain_text id = true → no_colon id = true →
    ∃ x, record id (w_reg w) x ∧ ∀ ti, x = Some ti → record_of w id ti;
  inv_sending : ∀ id b, (id, b) ∈ w_sending w →
    ∃ sd, (id, sd) ∈ sent (w_cel w) ∧ m_process_id (sd_meta sd) = m_process_id (jb_meta b);
  inv_running : ∀ id kw, (id, kw) ∈ w_running w →
    ∃ sd, (id, sd) ∈ sent (w_cel w) ∧ kwargs_about sd kw ∧ phase_of (w_meta cel w id) = Running;
  inv_meta : ∀ id sd, (id, sd) ∈ sent (w_cel w) → meta_ok sd (w_meta cel w id);
}.

Lemma sent_id w id sd : (id, sd) ∈ sent (w_cel w) → id ∈ (sent (w_cel w)).*1.
Proof. intros H. by apply (list_elem_of_fmap_2 fst) in H. Qed.

Lemma forget_ids {V} id id' (l : list (string * V)) : id' ∈ (forget id l).*1 ↔ id' ∈ l.*1 ∧ id' ≠ id.
Proof. rw /forget !list_elem_of_fmap. setoid_rewrite list_elem_of_filter. naive_solver. Qed.

Lemma abs_reg_record w id x :
  plain_text id = true → record id (w_reg w) x → (∀ ti, x = Some ti → record_of w id ti) →
  abs_reg w id = if decide (id ∈ (w_sending w).*1) then Sending
                 else match x with Some _ => Registered | None => Gone end.
Proof.
  intros Hid Hx Hr. rw /JobLife.abs_reg (record_find id _ x) //. case_decide; [done|].
  destruct x as [ti|]; [|done]. destruct (Hr ti eq_refl) as (Hd & _). by rw decide_True.
Qed.

(** Where nothing about a job changed, it is the same job. *)
Lemma abs_same w w' id :
  (id ∈ (sent (w_cel w')).*1 ↔ id ∈ (sent (w_cel w)).*1) →
  (id ∈ (w_sending w').*1 ↔ id ∈ (w_sending w).*1) →
  find_job id None (w_reg w') = find_job id None (w_reg w) →
  phase_of (w_meta cel w' id) = phase_of (w_meta cel w id) → abs w' id = abs w id.
Proof.
  intros H1 H2 H3 H4. rw /JobLife.abs /JobLife.abs_reg H3 H4.
  rw (decide_ext _ _ _ _ H1) (decide_ext _ _ _ _ H2). done.
Qed.

Lemma abs_sent w id : id ∈ (sent (w_cel w)).*1 →
  abs w id = Some (MkJob (abs_reg w id) (phase_of (w_meta cel w id))).
Proof. intros H. by rw /JobLife.abs decide_True. Qed.

(** A step that writes the state of one task. *)
Lemma put_state_meta id m s id' :
  get_task_meta cel id' (ex_cel (put_state id m s)) = if decide (id' = id) then m else get_task_meta cel id' (ex_cel s).
Proof. destruct (stored_state (cel:=cel) id m (ex_cel s)) as (_ & H1 & H2). rw /put_state /=. case_decide; subst; auto. Qed.
Lemma put_state_sent id m s : sent (ex_cel (put_state id m s)) = sent (ex_cel s).
Proof. by destruct (stored_state (cel:=cel) id m (ex_cel s)) as (H & _). Qed.

(** The registry is as it was. *)
Lemma inv_record_same w w' id :
  inv w → w_reg w' = w_reg w → w_sending w' = w_sending w → sent (w_cel w') = sent (w_cel w) →
  plain_text id = true → no_colon id = true →
  ∃ x, record id (w_reg w') x ∧ ∀ ti, x = Some ti → record_of w' id ti.
Proof.
  intros Hw Hr Hs Hc Hid Hnc. destruct (inv_record w Hw id Hid Hnc) as (x & Hx & Hti).
  exists x. rw /record_of Hr Hs Hc. split; [done|]. apply Hti.
Qed.

(** The worker writes the state of a task that was sent, the rest being as it
    was, but for the running tasks. *)
Lemma inv_put_state w w' id sd m :
  inv w → (id, sd) ∈ sent (w_cel w) → w_ex w' = put_state id m (w_ex w) → w_sending w' = w_sending w →
  meta_ok sd m →
  (∀ id' kw, (id', kw) ∈ w_running w' →
     (id' ≠ id ∧ (id', kw) ∈ w_running w) ∨ id' = id ∧ kwargs_about sd kw ∧ phase_of m = Running) →
  inv w'.
Proof.
  intros Hw Hsd He Hs Hm Hr.
  assert (sent (w_cel w') = sent (w_cel w)) as Hc by (rw /w_cel He put_state_sent //).
  assert (∀ id', w_meta cel w' id' = if decide (id' = id) then m else w_meta cel w id') as Hmeta.
  { intros id'. rw /w_meta /w_cel He put_state_meta //. }
  split.
  - rw Hc. apply Hw.
  - rw Hc. apply Hw.
  - intros id' Hid' Hnc. apply (inv_record_same w w'); rw ?/w_reg ?He //.
  - rw Hs Hc. apply Hw.
  - intros id' kw [[Hne Hin]|(-> & Hk & Hp)]%Hr.
    + destruct (inv_running w Hw id' kw Hin) as (sd' & H1 & H2 & H3). exists sd'.
      rw Hc Hmeta decide_False //.
    + exists sd. rw Hc Hmeta decide_True //.
  - intros id' sd'. rw Hc Hmeta. case_decide as E; [|apply Hw]. subst id'. intros Hin.
    by rw (sublist_keys_NoDup _ _ _ _ (inv_nodup w Hw) Hin Hsd).
Qed.

Lemma abs_put_state w w' id m id' :
  w_ex w' = put_state id m (w_ex w) → w_sending w' = w_sending w →
  abs w' id' = if decide (id' = id) then
                 (fun j => MkJob (j_reg j) (phase_of m)) <$> abs w id'
               else abs w id'.
Proof.
  intros He Hs.
  assert (sent (w_cel w') = sent (w_cel w)) as Hc by (rw /w_cel He put_state_sent //).
  assert (w_meta cel w' id' = if decide (id' = id) then m else w_meta cel w id') as Hm.
  { rw /w_meta /w_cel He put_state_meta //. }
  assert (w_reg w' = w_reg w) as Hr by (rw /w_reg He //).
  rw /JobLife.abs /JobLife.abs_reg Hc Hs Hm Hr. by repeat case_decide.
Qed.

(** *** The steps *)
Definition simulates (l : Label) w w' : Prop := inv w' ∧ spec_step l (abs w) (abs w').

(** A step that writes the state of a task that was sent. *)
Lemma simulates_put_state l w w' id sd m :
  inv w → (id, sd) ∈ sent (w_cel w) → w_ex w' = put_state id m (w_ex w) → w_sending w' = w_sending w →
  meta_ok sd m →
  (∀ id' kw, (id', kw) ∈ w_running w' →
     (id' ≠ id ∧ (id', kw) ∈ w_running w) ∨ id' = id ∧ kwargs_about sd kw ∧ phase_of m = Running) →
  label_id l = id →
  job_step l (Some (MkJob (abs_reg w id) (phase_of (w_meta cel w id)))) (Some (MkJob (abs_reg w id) (phase_of m))) →
  simulates l w w'.
Proof.
  intros Hw Hsd He Hs Hm Hr Hl Hj. split; [by eapply inv_put_state|].
  rw /spec_step Hl. split; [|intros id' Hne]; rw (abs_put_state w w' id m) //.
  - rw decide_True // abs_sent; [by eapply sent_id|done].
  - rw decide_False //.
Qed.

Lemma running_kwargs w id sd kw :
  inv w → (id, sd) ∈ sent (w_cel w) → (id, kw) ∈ w_running w →
  kwargs_about sd kw ∧ phase_of (w_meta cel w id) = Running.
Proof.
  intros Hw Hsd Hkw. destruct (inv_running w Hw id kw Hkw) as (sd' & H1 & H2 & H3).
  by rw (sublist_keys_NoDup _ _ _ _ (inv_nodup w Hw) Hsd H1).
Qed.

Lemma pending_waiting w id : tm_status (w_meta cel w id) = STATE_PENDING → phase_of (w_meta cel w id) = Waiting.
Proof. intros H. by rw /phase_of H. Qed.

(** No task that waits is among those that run. *)
Lemma waiting_not_running w id id' kw :
  inv w → phase_of (w_meta cel w id) = Waiting → (id', kw) ∈ w_running w → id' ≠ id.
Proof. intros Hw Hp Hkw ->. destruct (inv_running w Hw id kw Hkw) as (? & _ & _ & H). by rw Hp in H. Qed.

Lemma kwargs_meta_about sd (kw : Kw I) m :
  kwargs_about sd kw → tm_kwargs m = Some (kwargs_of kw) → meta_about sd m.
Proof. intros (mt & H1 & H2) H. by exists (kwargs_of kw), mt. Qed.

Lemma ended_ok sd (kw : Kw I) now r : kwargs_about sd kw → meta_ok sd (ended_meta kw now r).
Proof.
  intros Hk. destruct r; rw /meta_ok /=; [by eapply kwargs_meta_about|].
  split; [by eapply kwargs_meta_about|eauto].
Qed.

Lemma task_kwargs_about sd : kwargs_about sd (task_kwargs (I:=I) sd).
Proof. by eexists. Qed.

Lemma ended_phase (kw : Kw I) now r : ∃ o, phase_of (ended_meta kw now r) = Ended o.
Proof. destruct r; by eexists. Qed.

Lemma simulates_start now id sd w :
  inv w → (id, sd) ∈ sent (w_cel w) → tm_status (w_meta cel w id) = STATE_PENDING →
  let w' := worker_start job MaybeSubscriber cbs now id sd w in
  simulates (LStart id (bool_decide (tm_status (w_meta cel w' id) = STATE_STARTED))) w w'.
Proof.
  intros Hw Hsd Hst w'. pose proof (pending_waiting w id Hst) as Hwait.
  assert (∀ id' kw, (id', kw) ∈ w_running w → id' ≠ id ∧ (id', kw) ∈ w_running w) as Hrun.
  { intros id' kw Hkw. split; [by eapply waiting_not_running|done]. }
  destruct (inv_ids w Hw id (sent_id w id sd Hsd)) as [Hid Hnc].
  destruct (inv_record w Hw id Hid Hnc) as (x & Hx & Hti).
  pose proof (abs_reg_record w id x Hid Hx Hti) as Hreg.
  subst w'. rw /worker_start.
  destruct (receiver (on_task_prerun MaybeSubscriber cbs id) (MkTask (task_kwargs sd) (w_out w))).2
    as [kw o] eqn:Epre.
  assert (kw = task_kwargs sd) as ->.
  { pose proof (prerun_kwargs (I:=I) MaybeSubscriber cbs id (MkTask (task_kwargs sd) (w_out w))) as H. by rw Epre in H. }
  destruct (qgis_before_start (job (sd_task sd)) now (w_reg w) id (MkTask (task_kwargs sd) o)) as [r t] eqn:Ebs.
  apply before_start_kwargs in Ebs as [Hkw Hr].
  assert (before_start id (w_reg w) = match x with Some _ => Ok tt | None => Raise (DismissedTaskError id) end) as Hb.
  { rw /before_start (record_find id _ x) //. destruct x as [ti|]; [|done].
    destruct (Hti ti eq_refl) as (Hd & _). py_unfold. by rw Hd. }
  rw Hb in Hr. destruct r as [u|e].
  - destruct x as [ti|]; [|done]. rw bool_decide_true; [rw /w_meta put_state_meta decide_True //|].
    destruct (Hti ti eq_refl) as (_ & _ & Hns & _).
    eapply (simulates_put_state _ _ _ id sd); try done.
    + eapply kwargs_meta_about; [apply task_kwargs_about|done].
    + intros id' kw. cbn [w_running]. intros [[= -> ->]|H]%elem_of_cons; [by right|left; by apply Hrun].
    + rw Hreg decide_False // Hwait. constructor.
  - rw bool_decide_false; [rw /w_meta put_state_meta decide_True //|].
    rw postrun_kwargs. eapply (simulates_put_state _ _ _ id sd); try done.
    + by apply ended_ok.
    + intros id' kw H. left. by apply Hrun.
    + rw Hwait Hreg. case_decide as E; [|destruct x as [ti|]].
      * destruct x as [ti|]; [by destruct (Hti ti eq_refl) as (_ & _ & ? & _)|].
        injection Hr as ->. by constructor.
      * destruct Hr as [?|[= ->]]; [done|]. constructor.
      * injection Hr as ->. by constructor.
Qed.

Lemma simulates_finish now id sd kw w :
  inv w → (id, sd) ∈ sent (w_cel w) → (id, kw) ∈ w_running w →
  let w' := worker_finish job MaybeSubscriber cbs now id sd kw w in
  simulates (LEnd id (phase_of (w_meta cel w' id))) w w'.
Proof.
  intros Hw Hsd Hkw w'. destruct (running_kwargs w id sd kw) as [Hk Hp]; [done..|].
  subst w'. rw /worker_finish.
  destruct (job_call (job (sd_task sd)) (MkTask kw (w_out w))) as [r t] eqn:Ec.
  assert (t_kwargs t = kw) as Ht.
  { pose proof (job_call_kwargs (job (sd_task sd)) (MkTask kw (w_out w))) as H. by rw Ec in H. }
  rw postrun_kwargs Ht. rw /w_meta put_state_meta decide_True //.
  eapply (simulates_put_state _ _ _ id sd); try done.
  - by apply ended_ok.
  - intros id' kw' H. left. by apply list_elem_of_filter in H.
  - rw Hp. destruct (ended_phase kw now r) as [o ->]. constructor.
Qed.

(** A step on one job that leaves the backend of the others, and the registry but
    for its record. *)
Lemma abs_frame w w' id id' :
  inv w → no_colon id = true → same_but id (w_reg w) (w_reg w') → id' ≠ id →
  (id' ∈ (sent (w_cel w')).*1 ↔ id' ∈ (sent (w_cel w)).*1) →
  (id' ∈ (w_sending w').*1 ↔ id' ∈ (w_sending w).*1) →
  w_meta cel w' id' = w_meta cel w id' → abs w' id' = abs w id'.
Proof.
  intros Hw Hnc Hsame Hne H1 H2 H3. destruct (decide (id' ∈ (sent (w_cel w)).*1)) as [Hin|Hin].
  - destruct (inv_ids w Hw id' Hin) as [Hid' Hnc']. apply abs_same; [done|done| |by rw H3].
    destruct (inv_record w Hw id' Hid' Hnc') as (x & Hx & _).
    rw (record_find id' (w_reg w) x) //. apply record_find; [done|]. by apply (record_frame id id' (w_reg w)).
  - rw /JobLife.abs !decide_False //. by rw H1.
Qed.

Lemma sending_sent w id : inv w → id ∈ (w_sending w).*1 → id ∈ (sent (w_cel w)).*1.
Proof.
  intros Hw ([? b] & -> & Hb)%list_elem_of_fmap. destruct (inv_sending w Hw _ b Hb) as (sd & H & _).
  by eapply sent_id.
Qed.

(** Nobody has a record of a job that is not registered yet. *)
Lemma no_record w id :
  inv w → plain_text id = true → no_colon id = true →
  id ∉ (sent (w_cel w)).*1 ∨ id ∈ (w_sending w).*1 → record id (w_reg w) None.
Proof.
  intros Hw Hid Hnc Hn. destruct (inv_record w Hw id Hid Hnc) as ([ti|] & Hx & Hti); [|done].
  destruct (Hti ti eq_refl) as (_ & _ & H1 & sd & H2 & _).
  destruct Hn as [Hn|Hn]; [destruct Hn; by eapply sent_id|done].
Qed.

Lemma simulates_send services created a b id s w :
  inv w →
  _execute_task cel (xa_service a) (jb_entrypoint b) (MkRunConfig (xa_ident a) (xa_request a) (xa_project a))
    (jb_pending_timeout b) (jb_meta b) (xa_context a) 0 (xa_countdown a) (w_ex w) = (Ok id, s) →
  job_builder services default_timeout created (xa_service a) (xa_ident a) (xa_pending_timeout a)
    (xa_realm a) (xa_tag a) (xa_countdown a) = Ok b →
  simulates (LSend id) w (MkWorld s ((id, b) :: w_sending w) (w_running w) (w_out w)).
Proof.
  intros Hw Hx _. revert Hx. rw /_execute_task.
  destruct (send_task cel _ (ex_cel (w_ex w))) as [id' c] eqn:Es. intros [= -> <-].
  apply sent_task in Es as (Hid & Hnc & Hnew & Hsent & Hst & Hmeta).
  match type of Hsent with _ = (_, ?sd0) :: _ => set (sd := sd0) in * end.
  assert (id ∉ (w_sending w).*1) as Hns by (intros ?; apply Hnew; by apply sending_sent).
  assert (∀ id' sd', (id', sd') ∈ sent (w_cel w) → id' ≠ id) as Hne.
  { intros id' sd' H ->. apply Hnew. by eapply sent_id. }
  split.
  - split; rw /w_cel /w_reg /w_meta /= ?Hsent.
    + intros id'. csimpl. intros [->|H]%elem_of_cons; [done|]. by apply Hw.
    + csimpl. apply NoDup_cons. split; [done|]. apply Hw.
    + intros id' Hid' Hnc'. destruct (decide (id' = id)) as [->|Hne'].
      { exists None. split; [|done]. apply (no_record w); auto. }
      destruct (inv_record w Hw id' Hid' Hnc') as (x & Hx & Hti). exists x. split; [done|].
      intros ti E. destruct (Hti ti E) as (H1 & H2 & H3 & sd' & H4 & H5).
      split_and!; [done|done|csimpl; set_solver|exists sd'; rw /w_cel /= Hsent; set_solver].
    + intros id' b' [[= -> ->]|H]%elem_of_cons; [exists sd; set_solver|].
      destruct (inv_sending w Hw id' b' H) as (sd' & ? & ?). exists sd'. set_solver.
    + intros id' kw H. destruct (inv_running w Hw id' kw H) as (sd' & H1 & H2 & H3).
      exists sd'. split_and!; [set_solver|done|]. rw Hmeta //. by eapply Hne.
    + intros id' sd' [[= -> ->]|H]%elem_of_cons; [by rw /meta_ok Hst|].
      rw Hmeta; [by eapply Hne|]. by apply Hw.
  - split; [|intros id' Hid']; simpl.
    + rw {1}/JobLife.abs decide_False // abs_sent; [rw /w_cel /= Hsent; csimpl; set_solver|].
      rw /JobLife.abs_reg decide_True; [csimpl; set_solver|].
      rw /phase_of /w_meta /w_cel /= Hst. constructor.
    + simpl in Hid'. apply abs_same; rw /w_cel /w_reg /w_meta /= ?Hsent; csimpl; [set_solver|set_solver|done|].
      by rw Hmeta.
Qed.

Lemma simulates_register id b st s w :
  inv w → (id, b) ∈ w_sending w → builder_register b id (w_ex w) = (Ok st, s) →
  simulates (LRegister id) w (MkWorld s (forget id (w_sending w)) (w_running w) (w_out w)).
Proof.
  intros Hw Hb Hr. injection Hr as _ <-.
  destruct (inv_sending w Hw id b Hb) as (sd & Hsd & Hproc).
  destruct (inv_ids w Hw id (sent_id w id sd Hsd)) as [Hid Hnc].
  assert (id ∈ (w_sending w).*1) as Hin by (by apply (list_elem_of_fmap_2 fst) in Hb).
  set (entry := MkJobEntry id (jb_created b) (m_process_id (jb_meta b)) (m_tag (jb_meta b))).
  set (r' := register (m_service (jb_meta b)) (m_realm (jb_meta b)) entry (jb_expires b)
               (jb_pending_timeout b) (ex_redis (w_ex w))).
  assert (same_but id (w_reg w) r') as Hsame.
  { exact (register_same _ _ entry _ _ _). }
  destruct (register_record (m_service (jb_meta b)) (m_realm (jb_meta b)) entry (jb_expires b)
    (jb_pending_timeout b) (w_reg w) Hid) as (x & Hx & Hti); [by apply no_record; auto|].
  change (record id r' x) in Hx.
  set (w' := MkWorld _ _ _ _).
  assert (∀ ti, x = Some ti → record_of w' id ti) as Hrec.
  { intros ti E. destruct (Hti ti E) as (H1 & H2 & H3). split_and!; [done|done|rw forget_ids; tauto|].
    exists sd. by rw Hproc. }
  split.
  - split; try apply Hw.
    + intros id' Hid' Hnc'. destruct (decide (id' = id)) as [->|Hne]; [by exists x|].
      destruct (inv_record w Hw id' Hid' Hnc') as (y & Hy & Hty). exists y.
      split; [by eapply (record_frame id)|]. intros ti E. destruct (Hty ti E) as (H1 & H2 & H3 & H4).
      split_and!; [done|done|rw forget_ids; tauto|done].
    + intros id' b' H. apply list_elem_of_filter in H as [_ H]. by apply (inv_sending w Hw id' b').
  - split; [|intros id' Hne]; simpl.
    + rw !abs_sent; [by eapply sent_id..|].
      rw {1}/JobLife.abs_reg decide_True // (abs_reg_record w' id x) //.
      rw decide_False; [rw forget_ids; tauto|]. constructor. by destruct x.
    + apply (abs_frame w w' id); try done. rw forget_ids. simpl in Hne. tauto.
Qed.

(** A step that changes the registry for one job only, where the job loses its
    record or keeps it, and the state of its task only. *)
Lemma inv_registry w w' id x :
  inv w → plain_text id = true → no_colon id = true → same_but id (w_reg w) (w_reg w') →
  sent (w_cel w') = sent (w_cel w) → w_sending w' = w_sending w →
  record id (w_reg w') x → (∀ ti, x = Some ti → record_of w id ti) →
  (∀ id', id' ≠ id → w_meta cel w' id' = w_meta cel w id') →
  (∀ sd, (id, sd) ∈ sent (w_cel w) → meta_ok sd (w_meta cel w' id)) →
  (∀ id' kw, (id', kw) ∈ w_running w' →
     (id', kw) ∈ w_running w ∧ (id' = id → w_meta cel w' id = w_meta cel w id)) →
  inv w'.
Proof.
  intros Hw Hid Hnc Hsame Hc Hs Hx Hti Hne Hm Hr.
  assert (∀ id' ti, record_of w id' ti → record_of w' id' ti) as Hrec by (intros id' ti; by rw /record_of Hc Hs).
  split.
  - rw Hc. apply Hw.
  - rw Hc. apply Hw.
  - intros id' Hid' Hnc'. destruct (decide (id' = id)) as [->|Hd]; [exists x; auto|].
    destruct (inv_record w Hw id' Hid' Hnc') as (y & Hy & Hty). exists y.
    split; [by apply (record_frame id id' (w_reg w))|auto].
  - rw Hs Hc. apply Hw.
  - intros id' kw H. destruct (Hr id' kw H) as [H' He].
    destruct (inv_running w Hw id' kw H') as (sd & H1 & H2 & H3). exists sd. rw Hc. split_and!; [done|done|].
    destruct (decide (id' = id)) as [->|Hd]; [by rw He|by rw Hne].
  - rw Hc. intros id' sd H. destruct (decide (id' = id)) as [->|Hd]; [by apply Hm|rw Hne //; by apply Hw].
Qed.

(** What an order to revoke a task, or none, may do to it. *)
Lemma revoked_meta_ok w id c :
  inv w → (c = w_cel w ∨ ∃ ds rr, revoke cel id ds (w_cel w) = (rr, c)) →
  sent c = sent (w_cel w) ∧ (∀ id', id' ≠ id → get_task_meta cel id' c = w_meta cel w id') ∧
  (∀ sd, (id, sd) ∈ sent (w_cel w) → meta_ok sd (get_task_meta cel id c)) ∧
  (get_task_meta cel id c = w_meta cel w id ∨
   tm_status (get_task_meta cel id c) = STATE_REVOKED ∧
   (id ∈ (sent (w_cel w)).*1 →
    phase_of (w_meta cel w id) = Waiting ∨ phase_of (w_meta cel w id) = Running)).
Proof.
  intros Hw [->|(ds & rr & Hr)]; [split_and!; auto; apply Hw|].
  apply revoked_task in Hr as (H1 & H2 & H3). split_and!; [done|done| |].
  - intros sd Hsd. destruct H3 as [->|(_ & Hst & Hab)]; [by apply Hw|]. rw /meta_ok Hst. apply Hab; [apply Hw|done].
  - destruct H3 as [H3|(Hnr & Hst & _)]; [by left|right]. split; [done|].
    intros ([? sd] & -> & Hsd)%list_elem_of_fmap. pose proof (inv_meta w Hw _ sd Hsd) as Hm.
    revert Hnr Hm. rw /meta_ok /phase_of /w_meta /w_cel /=. clear.
    destruct (tm_status (get_task_meta cel _ (ex_cel (w_ex w)))); auto; done.
Qed.

Lemma with_dismissed_same ti : dismissed ti = 0%Z → with_dismissed 0 (with_dismissed 1 ti) = ti.
Proof. destruct ti. simpl. by intros ->. Qed.

Lemma simulates_dismiss now services rl id r s w :
  inv w → plain_text id = true → no_colon id = true →
  _dismiss cel utc now id services rl (w_ex w) = (r, s) →
  simulates (LDismiss id (match r with Ok (Some _) => true | _ => false end)) w
    (MkWorld s (w_sending w)
       (filter (fun p => tm_status (get_task_meta cel p.1 (ex_cel s)) ≠ STATE_REVOKED) (w_running w)) (w_out w)).
Proof.
  intros Hw Hid Hnc Hrun. destruct (inv_record w Hw id Hid Hnc) as (x & Hx & Hti).
  assert (∀ ti t, x = Some ti → tm_status (get_task_meta cel id (ex_cel (w_ex w))) ≠ STATE_OTHER t) as Hst.
  { intros ti t E Ht. destruct (Hti ti E) as (_ & _ & _ & sd & Hsd & _).
    pose proof (inv_meta w Hw id sd Hsd) as Hm. by rw /meta_ok /w_meta /w_cel Ht in Hm. }
  pose proof (dismiss_dismissal cel utc now id services rl (w_ex w) r s x Hid Hx Hst Hrun) as Hd.
  assert (∀ ti, record id (w_reg w) (Some ti) → x = Some ti) as Hfun by (intros ti; by apply record_fun).
  assert (∀ ti, x = Some ti → abs w id = Some (MkJob Registered (phase_of (w_meta cel w id)))) as Habs.
  { intros ti E. destruct (Hti ti E) as (_ & _ & Hns & sd & Hsd & _).
    rw abs_sent; [by eapply sent_id|]. by rw (abs_reg_record w id x) // decide_False // E. }
  assert (∀ c y, (c = w_cel w ∨ ∃ ds rr, revoke cel id ds (w_cel w) = (rr, c)) → ∀ r',
    same_but id (w_reg w) r' → record id r' y → (∀ ti, y = Some ti → record_of w id ti) →
    let w' := MkWorld (MkEx r' c) (w_sending w)
      (filter (fun p => tm_status (get_task_meta cel p.1 c) ≠ STATE_REVOKED) (w_running w)) (w_out w) in
    inv w' ∧ (∀ id', id' ≠ id → abs w' id' = abs w id') ∧
    (∀ ti, x = Some ti → ∃ t', abs w' id = Some (MkJob (if y then Registered else Gone) t') ∧
      (t' = phase_of (w_meta cel w id) ∨
       t' = Revoked ∧ (phase_of (w_meta cel w id) = Waiting ∨ phase_of (w_meta cel w id) = Running)))) as Hgen.
  { intros c y Hc r' Hsame Hy Hty w'. apply (revoked_meta_ok w id c Hw) in Hc as (H1 & H2 & H3 & H4).
    split_and!.
    - apply (inv_registry w w' id y); try done. intros id' kw [Hs' Hin]%list_elem_of_filter.
      split; [done|]. intros ->. destruct H4 as [?|[H4 _]]; [done|]. by destruct Hs'.
    - intros id' Hne. apply (abs_frame w w' id); try done; [by rw /w_cel /= H1|]. by apply H2.
    - intros ti E. destruct (Hti ti E) as (_ & _ & Hns & sd & Hsd & _).
      pose proof (sent_id w id sd Hsd) as Hin. exists (phase_of (get_task_meta cel id c)). split.
      + rw abs_sent; [by rw /w_cel /= H1|]. rw (abs_reg_record w' id y) //.
        { intros ti' E'. destruct (Hty ti' E') as (A & B & D & sd' & F). rw /record_of /w_cel /= H1. eauto. }
        rw decide_False //.
      + destruct H4 as [->|[H4 H5]]; [by left|right]. split; [by rw /phase_of H4|auto]. }
  destruct Hd as [r Hr|ti st c Hrec Hc|ti e c Hrec Hc].
  - destruct (Hgen (w_cel w) x (or_introl eq_refl) (w_reg w)) as (Hinv & Hfr & _); [done|done|done|].
    destruct w as [[wr wc] ws wrun wo]. split; [done|].
    assert (match r with Ok (Some _) => true | _ => false end = false) as -> by (destruct r as [[st|]|]; auto; by destruct (Hr st)).
    split; [|done]. simpl. rw /JobLife.abs /=. constructor.
  - apply Hfun in Hrec. destruct (Hgen c None Hc (Registry.delete id (Registry.dismiss id false (w_reg w)).2).2)
      as (Hinv & Hfr & Hj); [|by apply delete_record|done|].
    { eapply same_but_trans; [by apply dismiss_same|by apply delete_same]. }
    destruct (Hj ti Hrec) as (t' & Ht & Hcase). split; [done|]. split; [|done].
    simpl. rw (Habs ti Hrec) Ht. by constructor.
  - apply Hfun in Hrec as ->.
    destruct (Hgen c (Some ti) (or_intror Hc) (Registry.dismiss id true (Registry.dismiss id false (w_reg w)).2).2)
      as (Hinv & Hfr & Hj); [| |done|].
    { eapply same_but_trans; by apply dismiss_same. }
    { destruct (Hti ti eq_refl) as (H0 & _).
      pose proof (dismiss_record id true _ _ Hid (dismiss_record id false _ _ Hid Hx)) as H.
      cbn [mark] in H. by rw with_dismissed_same in H. }
    destruct (Hj ti eq_refl) as (t' & Ht & Hcase). split; [done|]. split; [|done].
    simpl. rw (Habs ti eq_refl) Ht. by constructor.
Qed.

Lemma simulates_forget id r w :
  inv w → plain_text id = true → no_colon id = true →
  (∀ k, r_has k r = r_has k (w_reg w) && bool_decide (k ∉ r_keys (id_pattern id) (w_reg w))) →
  (∀ k, r_has k r = true → r_hgetall k r = r_hgetall k (w_reg w)) → id ∉ (w_sending w).*1 →
  simulates (LForget id) w (MkWorld (MkEx r (w_cel w)) (w_sending w) (w_running w) (w_out w)).
Proof.
  intros Hw Hid Hnc Hh Hg Hns. set (w' := MkWorld _ _ _ _).
  assert (∀ k, k ∈ r_keys (id_pattern id) (w_reg w) ↔ r_has k (w_reg w) = true ∧ key_of id k) as Hks.
  { intros k. rw keys_spec id_pattern_spec //. }
  assert (record id r None) as Hr.
  { intros k H Hk. rw Hh andb_true_iff bool_decide_eq_true Hks in H. tauto. }
  assert (same_but id (w_reg w) r) as Hsame.
  { intros k Hk. split; [|apply Hg]. rw Hh. rw bool_decide_true; [rw Hks; tauto|apply andb_true_r]. }
  split; [apply (inv_registry w w' id None); try done; by apply Hw|split].
  - simpl. destruct (decide (id ∈ (sent (w_cel w)).*1)) as [Hin|Hin].
    + rw !abs_sent //. rw (abs_reg_record w' id None) // decide_False //. constructor.
      destruct (inv_record w Hw id Hid Hnc) as (x & Hx & Hti).
      rw (abs_reg_record w id x) // decide_False //. by destruct x.
    + rw /JobLife.abs !decide_False //. constructor.
  - intros id' Hne. by apply (abs_frame w w' id).
Qed.

Lemma step_simulates l w w' : inv w → step l w w' → simulates l w w'.
Proof.
  intros Hw H. revert Hw. destruct H as [services created a b id s v Hb Hx|id b st s v Hin Hb|now id sd v Hsd Hst|
    id kw p msg upd v Hkw Hp|now id sd kw v Hsd Hkw|now services rl id r s v Hid Hnc Hd|
    id r v Hid Hnc Hh Hg Hn Hs|now id sd v Hsd Hst]; intros Hw.
  - by apply (simulates_send services created a b).
  - by eapply simulates_register.
  - by apply simulates_start.
  - destruct (inv_running v Hw id kw Hkw) as (sd & Hsd & Hab & Hph).
    eapply (simulates_put_state _ _ _ id sd); try done.
    + split; [by eapply kwargs_meta_about|]. do 3 eexists. split; [reflexivity|done].
    + intros id' kw' H. destruct (decide (id' = id)) as [->|Hne]; [right|by left].
      destruct (running_kwargs v id sd kw') as [? _]; auto.
    + rw Hph. constructor.
  - by apply simulates_finish.
  - by apply (simulates_dismiss now services rl).
  - by apply simulates_forget.
  - eapply (simulates_put_state _ _ _ id sd); try done.
    + eapply kwargs_meta_about; [apply task_kwargs_about|done].
    + intros id' kw' H. left. split; [|done]. eapply waiting_not_running; [done|by apply pending_waiting|done].
    + rw (pending_waiting v id) //. constructor.
Qed.

Lemma initial_inv w : initial w → inv w.
Proof.
  intros (H1 & H2 & H3 & H4). split; rw ?H1 ?H2 ?H3; csimpl; try set_solver; [constructor|].
  intros id Hid Hnc. exists None. split; [|done]. intros k Hk. by apply H4.
Qed.

Lemma spec_steps_refl f : spec_steps [] f f.
Proof. by constructor. Qed.

Lemma spec_steps_ext ls f g f' : (∀ id, f id = g id) → spec_steps ls f f' → spec_steps ls g f'.
Proof.
  intros Hfg H. destruct H as [f f' Hf|l ls f1 f2 f3 [Hl Hfr] Hls].
  - constructor. intros id. by rw Hf.
  - econstructor; [split|done]; [by rw -Hfg|]. intros id Hne. by rw Hfr.
Qed.

Lemma steps_simulates ls w w' :
  inv w → steps cel job MaybeSubscriber cbs utc default_timeout ls w w' →
  inv w' ∧ spec_steps ls (abs w) (abs w').
Proof.
  intros Hw H. induction H as [w|l ls w1 w2 w3 Hs Hss IH]; [split; [done|apply spec_steps_refl]|].
  apply step_simulates in Hs as [Hw2 Hl]; [|done]. destruct (IH Hw2) as [Hw3 Hls].
  split; [done|]. by econstructor.
Qed.

Lemma initial_abs w id : initial w → abs w id = None.
Proof. intros (H & _). rw /JobLife.abs H. case_decide as E; [by apply not_elem_of_nil in E|done]. Qed.

(** *** What a reachable state answers *)

(** The status of a task that is not pending. *)
Lemma status_answered w id sd dests t :
  meta_ok sd (w_meta cel w id) → phase_of (w_meta cel w id) = t → t ≠ Waiting →
  ∃ st, _job_status cel utc (fun _ => 0%Z) id dests false (w_cel w) = Ok (Some st) ∧
    st_job_id st = id ∧ st_status st = answered t ∧ st_process_id st = m_process_id (sd_meta sd).
Proof.
  rw /meta_ok /_job_status /status_of /w_meta /phase_of.
  set (m := get_task_meta cel id (w_cel w)). destruct (tm_status m) eqn:Est; intros Hm <- Ht; try done.
  1,3,4: destruct Hm as (kw & mt & Hkw & Hmt & Hp); rw Hkw; py_unfold; rw Hmt /valid_status Est /=;
    eexists; split_and!; [reflexivity|done..].
  - destruct Hm as ((kw & mt & Hkw & Hmt & Hp) & e & He). rw Hkw He /valid_status Est He.
    destruct e; py_unfold; rw Hmt /=; eexists; (split_and!; [reflexivity|done..]).
  - destruct Hm as ((kw & mt & Hkw & Hmt & Hp) & p & msg & upd & Hr & Hpp). rw Hkw Hr /valid_status Est.
    py_unfold. rw Hmt.
    assert (match p with Some p => (0 <=? p)%Z && (p <=? 100)%Z | None => true end = true) as ->.
    { destruct p as [p|]; [|done]. apply andb_true_iff. rw !Z.leb_le. lia. }
    eexists. split_and!; [reflexivity|done..].
Qed.

(** C6. The system refines its specification: from a state where nothing was sent,
    whatever servers, workers, Redis and the broker do, in any order, each event
    takes the job it is about through a step of the two automata, and leaves the
    other jobs as they are. *)
Theorem job_life_refines w0 ls w :
  initial w0 → steps cel job MaybeSubscriber cbs utc default_timeout ls w0 w →
  spec_steps ls (fun _ => None) (abs w).
Proof.
  intros H0 Hss. destruct (steps_simulates ls w0 w) as [_ H]; [by apply initial_inv|done|].
  eapply spec_steps_ext; [|done]. intros id. by apply initial_abs.
Qed.

End refinement.

(** *** What follows of the specification *)
Section history.

(** What the events of a job so far say of it. *)
Definition told (id : string) (hist : list Label) (j : option Job) : Prop :=
  (∀ j', j = Some j' → j_reg j' ≠ Sending → LRegister id ∈ hist) ∧
  (LDismiss id true ∈ hist → ∃ j', j = Some j' ∧ j_reg j' = Gone) ∧
  (∀ b, LStart id b ∈ hist → ∃ j', j = Some j' ∧ j_task j' ≠ Waiting).

Lemma told_step id hist l f f' :
  spec_step l f f' → told id hist (f id) → told id (hist ++ [l]) (f' id).
Proof.
  intros [Hl Hfr] (H1 & H2 & H3). destruct (decide (id = label_id l)) as [->|Hne].
  - revert H1 H2 H3. rw /told. setoid_rewrite elem_of_app. setoid_rewrite list_elem_of_singleton.
    revert Hl. generalize (f (label_id l)) (f' (label_id l)). clear. intros j j' Hl.
    destruct Hl; simpl; naive_solver.
  - rw Hfr //. rw /told. setoid_rewrite elem_of_app. setoid_rewrite list_elem_of_singleton.
    assert (∀ l', label_id l' = id → l' ≠ l) as Hd by (by intros l' <- ->).
    split_and!; [naive_solver| |]; [intros [?|E]|intros b [?|E]]; try naive_solver; by destruct (Hd _ eq_refl).
Qed.

Lemma told_steps id ls hist f f' :
  spec_steps ls f f' → told id hist (f id) → told id (hist ++ ls) (f' id).
Proof.
  intros H. revert hist. induction H as [f f' Hf|l ls f1 f2 f3 Hs Hss IH]; intros hist Hh.
  - by rw app_nil_r Hf.
  - rw (app_assoc hist [l] ls : hist ++ (l :: ls) = _). apply IH. by eapply told_step.
Qed.

Lemma spec_steps_app ls1 ls2 f f' :
  spec_steps (ls1 ++ ls2) f f' → ∃ f1, spec_steps ls1 f f1 ∧ spec_steps ls2 f1 f'.
Proof.
  revert f. induction ls1 as [|l ls1 IH]; intros f H; simpl in *.
  - exists f. split; [by constructor|done].
  - inversion H as [|? ? ? ? ? Hs Hss]; subst. apply IH in Hss as (f1 & ? & ?).
    exists f1. split; [by econstructor|done].
Qed.

Lemma told_new id : told id [] None.
Proof. split_and!; [done|intros H|intros b H]; by apply not_elem_of_nil in H. Qed.

(** A task starts when it waits; its function is run when its job is registered. *)
Lemma start_waiting id b j j' :
  job_step (LStart id b) j j' → ∃ g, j = Some (MkJob g Waiting) ∧ (b = true → g = Registered).
Proof. inversion 1; subst; by eexists. Qed.

(** The function of a job is run after its registration, before its dismissal,
    and once. *)
Lemma runs_once id ls1 ls2 f :
  spec_steps (ls1 ++ LStart id true :: ls2) (fun _ => None) f →
  LRegister id ∈ ls1 ∧ LDismiss id true ∉ ls1 ∧ ∀ b, LStart id b ∉ ls1 ++ ls2.
Proof.
  intros (f1 & Hs1 & Hs2)%spec_steps_app.
  inversion Hs2 as [|? ? ? f2 ? [Hl Hfr] Hss]; subst; clear Hs2.
  pose proof (told_steps id ls1 [] _ _ Hs1 (told_new id)) as Ht1. rw app_nil_l in Ht1.
  pose proof (told_step id ls1 _ _ _ (conj Hl Hfr) Ht1) as Ht2. destruct Ht1 as (H1 & H2 & H3).
  apply start_waiting in Hl as (g & Hf1 & Hg). rw (Hg eq_refl) /= in Hf1.
  split_and!.
  - by eapply H1.
  - intros Hdis. destruct (H2 Hdis) as (j & Hj & Hgone). rw Hf1 in Hj. by injection Hj as <-.
  - intros b [Hst|Hst]%elem_of_app.
    { destruct (H3 b Hst) as (j & Hj & Hgone). rw Hf1 in Hj. by injection Hj as <-. }
    apply list_elem_of_split in Hst as (l1 & l2 & ->).
    apply spec_steps_app in Hss as (f3 & Hl1 & Hl2).
    pose proof (told_steps id l1 _ _ _ Hl1 Ht2) as (_ & _ & H4).
    destruct (H4 true) as (j & Hj & Ht); [set_solver|].
    inversion Hl2 as [|? ? ? ? ? [Hl3 _] _]; subst. apply start_waiting in Hl3 as (? & E & _).
    simpl in E. rw E in Hj. by injection Hj as <-.
Qed.
End history.

(** *** The steps and the operations they are made of *)
Section operations.
Context {R : Type} `{!Redis R, !RedisLaws R} {C : Type} (cel : Celery C) `{!WorkerSide C, !CeleryLaws cel}.
Context {I S : Type} (job : string → JobClass I S).
Context (MaybeSubscriber : option JsonValue → res (option Subscriber)) (cbs : Callbacks (S:=S)).
Context (utc : Z → string) (default_timeout : Z).
Notation steps := (steps cel job MaybeSubscriber cbs utc default_timeout).
Implicit Types (w : World R C I S).

(** C7. The function of a job is run at most once, after its registration and not
    after a dismissal that was answered, whatever happens in the meantime. *)
Theorem job_runs_once w0 ls1 id ls2 w :
  initial w0 → steps (ls1 ++ LStart id true :: ls2) w0 w →
  LRegister id ∈ ls1 ∧ LDismiss id true ∉ ls1 ∧ ∀ b, LStart id b ∉ ls1 ++ ls2.
Proof.
  intros H0 Hss. destruct (steps_simulates cel job MaybeSubscriber cbs utc default_timeout (ls1 ++ LStart id true :: ls2) w0 w) as [_ H];
    [by apply initial_inv|done|].
  eapply runs_once, spec_steps_ext; [|exact H]. intros id'. by apply initial_abs.
Qed.

(** [_execute] is the two steps in a row. *)
Lemma execute_two_steps services created a w id st s :
  _execute cel services default_timeout created a (w_ex w) = (Ok (id, st), s) →
  id ∉ (w_sending w).*1 →
  steps [LSend id; LRegister id] w (MkWorld s (w_sending w) (w_running w) (w_out w)).
Proof.
  intros Hx Hn. rw /_execute in Hx. apply bind_ok_inv in Hx as (b & s1 & [= Hb <-] & H).
  apply bind_ok_inv in H as (id' & s2 & Hsend & H).
  apply bind_ok_inv in H as (st' & s3 & Hreg & [= -> -> <-]).
  assert (forget id ((id, b) :: w_sending w) = w_sending w) as Hf.
  { rw /forget filter_cons decide_False; [by intros []|]. apply filter_id. intros [id0 b0] Hin. cbn [fst]. intros E.
    subst id0. by apply Hn, (list_elem_of_fmap_2 fst _ (id, b0)). }
  set (w1 := MkWorld s2 ((id, b) :: w_sending w) (w_running w) (w_out w)).
  apply (steps_cons _ _ _ _ _ _ _ _ w w1); [by apply (step_send _ _ _ _ _ _ services created a b id s2)|].
  rw -Hf. eapply steps_cons; [|apply steps_nil].
  apply (step_register _ _ _ _ _ _ id b st s3 w1); [simpl; set_solver|done].
Qed.

(** A task that is taken, and finished when it runs, is [run_task]. *)
Lemma worker_run now id sd w r t :
  run_task MaybeSubscriber cbs (qgis_before_start (job (sd_task sd)) now (w_reg w)) (job_call (job (sd_task sd)))
    id (MkTask (task_kwargs sd) (w_out w)) = (r, t) →
  let w1 := worker_start job MaybeSubscriber cbs now id sd w in
  let ended w' := w_out w' = t_out t ∧ w_meta cel w' id = ended_meta (t_kwargs t) now r in
  (∃ kw, w_running w1 = (id, kw) :: w_running w ∧ ended (worker_finish job MaybeSubscriber cbs now id sd kw w1)) ∨
  ended w1.
Proof.
  rw /run_task /worker_start.
  destruct (receiver (on_task_prerun MaybeSubscriber cbs id) _).2 as [kw0 o0].
  destruct (qgis_before_start _ _ _ _ _) as [[[]|e] [kw1 o1]] eqn:Eb.
  - erewrite bind_ok by exact Eb. intros Hr. left. exists kw1. split; [done|]. rw /worker_finish.
    cbn [w_out t_out t_kwargs]. destruct (job_call _ _) as [r1 t1]. injection Hr as <- <-.
    split; [done|]. rw /w_meta put_state_meta. by rw decide_True.
  - erewrite bind_raise by exact Eb. intros [= <- <-]. right.
    split; [done|]. rw /w_meta put_state_meta. by rw decide_True.
Qed.
End operations.

(** ** An example: a Celery application and its workers *)
Module LifeDemo.
Record broker : Type := MkBroker { bk_sent : list (string * Send); bk_metas : list (string * TaskMeta) }.
Definition pending_meta : TaskMeta := MkTaskMeta STATE_PENDING (ResOther "") None None.
Definition meta (id : string) (c : broker) : TaskMeta := default pending_meta (assoc id (bk_metas c)).
Definition sent_meta (sd : Send) : TaskMeta :=
  MkTaskMeta STATE_REVOKED (ResOther "") (Some "d") (Some (MkKwargs (Some (sd_meta sd)) None)).

(** An id that is longer than those that were given. *)
Fixpoint js (n : nat) : string := match n with O => "" | S n => String "j" (js n) end.
Definition new_id (c : broker) : string := js (S (sum_list ((fun p => String.length p.1) <$> bk_sent c))).
Definition set_meta (id : string) (m : TaskMeta) (c : broker) : broker :=
  MkBroker (bk_sent c) ((id, m) :: bk_metas c).
Definition app : Celery broker := {|
  get_task_meta := meta;
  query_task _ _ _ := [];
  revoke id _ c := (Ok tt,
    match assoc id (bk_sent c) with
    | Some sd => if ready (tm_status (meta id c)) then c else set_meta id (sent_meta sd) c
    | None => c
    end);
  send_task sd c := (new_id c, MkBroker ((new_id c, sd) :: bk_sent c) ((new_id c, pending_meta) :: bk_metas c));
  broadcast _ c := ([], c);
  get_result _ _ _ := Raise CeleryTimeoutError;
|}.
#[global] Instance workers : WorkerSide broker := {| sent := bk_sent; store_state := set_meta |}.

Lemma js_length n : String.length (js n) = n.
Proof. induction n as [|n IH]; [done|]. by rewrite /= IH. Qed.
Lemma new_id_fresh c : new_id c ∉ (bk_sent c).*1.
Proof.
  intros ([id sd] & E & Hin)%list_elem_of_fmap. apply (f_equal String.length) in E. revert E.
  rw /new_id js_length /=.
  assert (String.length id <= sum_list ((fun p => String.length p.1) <$> bk_sent c))%nat; [|lia].
  revert Hin. induction (bk_sent c) as [|p l IH]; [by intros ?%not_elem_of_nil|].
  intros [<-|H]%elem_of_cons; csimpl; [lia|]. apply IH in H. lia.
Qed.
Lemma js_plain n : plain_text (js n) = true ∧ no_colon (js n) = true.
Proof. induction n as [|n [IH1 IH2]]; [done|]. split; [exact IH1|exact IH2]. Qed.

#[global] Instance app_laws : CeleryLaws app.
Proof.
  split.
  - intros sd c id c' [= <- <-]. destruct (js_plain (S (sum_list ((fun p => String.length p.1) <$> bk_sent c)))) as [H1 H2].
    split_and!; [done|done|apply new_id_fresh|done| |].
    + rewrite /= /meta /=. by rewrite decide_True.
    + intros id' Hne. rewrite /= /meta /=. by rewrite decide_False.
  - intros id m c. split_and!; [done| |].
    + rewrite /= /meta /=. by rewrite decide_True.
    + intros id' Hne. rewrite /= /meta /=. by rewrite decide_False.
  - intros id ds c r c' [= _ <-]. destruct (assoc id (bk_sent c)) as [sd|] eqn:Ea; [|auto].
    destruct (ready (tm_status (meta id c))) eqn:Er; [auto|]. split_and!; [done| |right].
    + intros id' Hne. rewrite /= /meta /=. by rewrite decide_False.
    + rewrite /= {2 3}/meta /=. rewrite decide_True //. split_and!; [done..|].
      intros sd' Hnd Hin. assert (sd' = sd) as ->.
      { apply (sublist_keys_NoDup (bk_sent c) id); [done..|]. by apply assoc_Some. }
      by do 2 eexists.
Qed.

(** A job that is executed, taken by a worker and finished. *)
Definition Life : Type := World RedisDemo.store broker unit (list string).
Definition jobs (_ : string) : JobClass unit (list string) := JobsRunDemo.job true.
Definition b : JobBuilder :=
  MkBuilder 1000 (MkMeta "2024-01-01" (Some "r1") "svc" "buffer" 60 None None) 60 30 "buffer".
Definition w0 : Life := MkWorld (MkEx [("qjazz:other", [])] (MkBroker [] [])) [] [] [].
Definition sd : Send :=
  MkSend "svc.buffer" "qjazz.svc" 0 30 None (jb_meta b) [] (MkRunConfig "buffer" (JObj []) None).
Definition w1 : Life := MkWorld (MkEx (w_reg w0) (send_task app sd (w_cel w0)).2) [("j", b)] [] [].
Definition w2 : Life := MkWorld (builder_register b "j" (w_ex w1)).2 [] [] [].
Definition w3 : Life := worker_start jobs JobsRunDemo.maybe JobsRunDemo.handlers "t1" "j" sd w2.
Definition kw : Kw unit := match w_running w3 with (_, kw) :: _ => kw | [] => PyDict.empty end.
Definition w4 : Life := worker_finish jobs JobsRunDemo.maybe JobsRunDemo.handlers "t2" "j" sd kw w3.
Definition labels : list Label :=
  [LSend "j"; LRegister "j"; LStart "j" true; LEnd "j" (Ended (Succeeded (ResResults [])))].

Lemma w0_initial : initial w0.
Proof.
  split_and!; [done..|]. intros id k Hk _ (rest & ->).
  apply bool_decide_eq_true, list_elem_of_singleton in Hk. by injection Hk.
Qed.
Lemma w4_steps : steps app jobs JobsRunDemo.maybe JobsRunDemo.handlers (fun _ => "") 30 labels w0 w4.
Proof.
  apply (steps_cons _ _ _ _ _ _ _ _ w0 w1).
  { apply (step_send _ _ _ _ _ _ CeleryDemo.services ("2024-01-01", 1000)%Z CeleryDemo.args b);
      vm_compute; reflexivity. }
  apply (steps_cons _ _ _ _ _ _ _ _ w1 w2).
  { eapply (step_register _ _ _ _ _ _ "j" b _ _ w1); [by apply list_elem_of_singleton|reflexivity]. }
  apply (steps_cons _ _ _ _ _ _ _ _ w2 w3).
  { assert (LStart "j" true = LStart "j" (bool_decide (tm_status (w_meta app w3 "j") = STATE_STARTED))) as ->
      by (vm_compute; reflexivity).
    apply step_start; [by apply list_elem_of_singleton|reflexivity]. }
  apply (steps_cons _ _ _ _ _ _ _ _ w3 w4); [|constructor].
  assert (Ended (Succeeded (ResResults [])) = phase_of (w_meta app w4 "j")) as -> by (vm_compute; reflexivity).
  apply step_end; [by apply list_elem_of_singleton|].
  assert (w_running w3 = [("j", kw)]) as -> by (vm_compute; reflexivity). by apply list_elem_of_singleton.
Qed.
End LifeDemo.
Import LifeDemo.

Lemma job_life_refines_witness : spec_steps labels (fun _ => None) (abs app w4).
Proof.
  apply (job_life_refines app jobs JobsRunDemo.maybe JobsRunDemo.handlers (fun _ => "") 30 w0);
    [apply w0_initial|apply w4_steps].
Defined.

Lemma job_runs_once_witness :
  LRegister "j" ∈ [LSend "j"; LRegister "j"] ∧ LDismiss "j" true ∉ [LSend "j"; LRegister "j"] ∧
  ∀ b, LStart "j" b ∉ [LSend "j"; LRegister "j"; LEnd "j" (Ended (Succeeded (ResResults [])))].
Proof.
  apply (job_runs_once app jobs JobsRunDemo.maybe JobsRunDemo.handlers (fun _ => "") 30 w0
    [LSend "j"; LRegister "j"] "j" [LEnd "j" (Ended (Succeeded (ResResults [])))] w4);
    [apply w0_initial|apply w4_steps].
Defined.

