(* ===== verification/WorkerFiles.v ===== *)
(** * The files of jobs

    What a worker does with the directory of a job: the list of the files it
    publishes and their links ([qjazz_processes/worker/worker.py],
    [context.py]), its log ([mixins/joblog.py]), the storage the files are moved
    to ([storage.py], [storages/local.py], [storages/s3.py]), and the removal of
    the directories of expired jobs ([mixins/storage.py]).  A storage is an
    interface; what it promises is a class that the two storages implement. *)
From S2P Require Import Prelude PyDict PyStd PyTemplate Json Routes CacheManager FileHandler Web Registry Executor JobsApi ProcessesApi Store.
Import Paths.

(** ** The file system: directories, and files with their contents *)
#[global] Instance ppath_countable : Countable ppath.
Proof.
  apply (inj_countable' (fun p => (p_root p, p_parts p)) (fun rp => PPath rp.1 rp.2)). by intros [].
Defined.

Record FS : Type := MkFS { fs_dirs : gset ppath; fs_files : gmap ppath string }.

Definition is_file (p : ppath) (fs : FS) : bool :=
  match fs_files fs !! p with Some _ => true | None => false end.
Definition exists_path (p : ppath) (fs : FS) : bool := is_file p fs || bool_decide (p ∈ fs_dirs fs).
Definition write_file (p : ppath) (data : string) (fs : FS) : FS :=
  MkFS (fs_dirs fs) (<[p := data]> (fs_files fs)).
Definition unlink (p : ppath) (fs : FS) : FS := MkFS (fs_dirs fs) (base.delete p (fs_files fs)).
(** [shutil.rmtree] *)
Definition rmtree (d : ppath) (fs : FS) : FS :=
  MkFS (filter (fun p => path_is_relative_to p d = false) (fs_dirs fs))
    (filter (fun pf => path_is_relative_to pf.1 d = false) (fs_files fs)).

(** [path.as_uri()] *)
Fixpoint quote_path (s : string) : string :=
  match s with
  | "" => ""
  | String a s =>
      if url_safe a || bool_decide (a = "/"%char) then String a (quote_path s)
      else let n := N_of_ascii a in
           String "%" (String (upper_hex (n / 16)) (String (upper_hex (n mod 16)) (quote_path s)))
  end.
Definition as_uri (p : ppath) : res string :=
  if str_truth (p_root p) then Ok ("file://" +:+ quote_path (path_str p))
  else Raise (ValueError "relative path can't be expressed as a file URI").

Section files.
Context (types_map : string → option string) (dir_size : ppath → Z) (workdir : ppath).

Definition jobdir (job_id : string) : ppath := path_join workdir (path_of job_id).
(** [mimetypes.types_map.get(p.suffix) or "application/octet-stream"] *)
Definition mime_type (p : ppath) : string :=
  str_or (default "" (types_map (suffix p))) "application/octet-stream".

(** ** storage.py *)

(** [Storage]: [T] is the state of the storage beside that of the files *)
Record Storage (T : Type) : Type := MkStorage {
  download_url : string → string → Z → M (FS * T) FileLink;
  move_files : string → list ppath → M (FS * T) unit;
  remove : string → M (FS * T) unit;
}.
Arguments MkStorage {_} _ _ _.
Arguments download_url {_} _ _ _ _ _.
Arguments move_files {_} _ _ _ _.
Arguments remove {_} _ _ _.

(** ** storages/local.py *)
Definition local_download_url {T} (job_id resource : string) : M (FS * T) FileLink := fun s =>
  let path := path_join (jobdir job_id) (path_of resource) in
  match fs_files s.1 !! path with
  | Some data =>
      (h ← as_uri path;
       Ok (MkFileLink h (Some (mime_type path)) (path_name path) (Some (Z.of_nat (String.length data)))), s)
  | None => if bool_decide (path ∈ fs_dirs s.1)
            then (h ← as_uri path; Ok (MkFileLink h (Some (mime_type path)) (path_name path) (Some (dir_size path))), s)
            else (Raise (FileNotFoundError (path_str path)), s)
  end.

(** [LocalStorage]: files stay where they are *)
Definition LocalStorage {T} : Storage T :=
  MkStorage (fun job resource _ => local_download_url job resource) (fun _ _ => mret tt) (fun _ => mret tt).

(** ** storages/s3.py *)

(** What S3 needs beside the client: urls that are signed for a time, and the
    removal of several objects, which answers errors. *)
Section s3.
Context {S : Type} (mn : Minio S) (bucket : string).
Context (presigned_get_object : string → string → Z → string).
Context (remove_objects : string → list string → M S (list string)).

Definition on_s3 {A} (m : M S A) : M (FS * S) A := zoom snd (fun t s => (s.1, t)) m.

(** [_create_bucket] *)
Definition _create_bucket (region : option string) (expiration_days : Z) : M S unit :=
  b ← bucket_exists mn bucket;
  if (b : bool) then mret tt
  else make_bucket mn bucket region;; set_bucket_lifecycle mn bucket expiration_days.

(** [S3Storage.download_url] *)
Definition s3_download_url (job_id resource : string) (expires : Z) : M (FS * S) FileLink :=
  let name := job_id +:+ "/" +:+ resource in
  stat ← on_s3 (stat_object mn bucket name);
  mret (MkFileLink (presigned_get_object bucket name expires) (so_content_type stat) resource (so_size stat)).

(** The name of the object of a file, [None] if it is not transferred *)
Definition s3_object_name (file : ppath) : option string :=
  if str_truth (p_root file) then path_str <$> path_relative_to file workdir else Some (path_str file).

(** [S3Storage.move_files] *)
Fixpoint s3_move_files (files : list ppath) : M (FS * S) unit :=
  match files with
  | [] => mret tt
  | file :: files =>
      s ← get;
      match (if exists_path file s.1 then s3_object_name file else None) with
      | None => mret tt
      | Some name =>
          match fs_files s.1 !! file with
          | Some data =>
              on_s3 (put_object mn bucket name data (Z.of_nat (String.length data)) (mime_type file) []);;
              modify (fun s => (unlink file s.1, s.2))
          | None => raise (OtherException "IsADirectoryError")
          end
      end;;
      s3_move_files files
  end.

(** [S3Storage.remove] *)
Definition s3_remove (job_id : string) : M (FS * S) unit :=
  objs ← on_s3 (list_objects mn bucket (job_id +:+ "/") true);
  on_s3 (remove_objects bucket (so_name <$> objs));;
  mret tt.

Definition S3Storage : Storage S := MkStorage s3_download_url (fun _ => s3_move_files) s3_remove.
End s3.

(** ** context.py, worker.py: published files *)
Definition PUBLISHED_FILES : string := ".files".
Definition FILE_LINKS : string := "links.json".
Definition newline : ascii := ascii_of_N 10.

(** [QgisContext.published_files] *)
Definition published_files (job_id : string) (fs : FS) : list ppath :=
  match fs_files fs !! path_join (jobdir job_id) (path_of PUBLISHED_FILES) with
  | None => []
  | Some text =>
      filter (fun p => is_file p fs = true)
        ((fun n => path_join (jobdir job_id) (path_of n)) <$>
           filter (fun n => str_truth n = true) (strip <$> split newline text))
  end.

(** [store_reference_url] *)
Definition store_reference_url (store_url job_id resource : string) (public_url : option string) : res string :=
  substitute store_url [("resource", resource); ("jobId", job_id); ("public_url", default "" public_url)].

Context (store_url : string) (dump_links : list FileLink → string) (load_links : string → res (list FileLink)).

(** [_make_links] of [QgisWorker.store_files] *)
Definition make_file_link (job_id : string) (fs : FS) (p : ppath) : option (res FileLink) :=
  rel ← path_relative_to p (jobdir job_id);
  let name := path_str rel in
  Some (h ← store_reference_url store_url job_id name (Some "$public_url");
        Ok (MkFileLink h (Some (mime_type p)) name
              (Some (Z.of_nat (String.length (default "" (fs_files fs !! p))))))).

(** The files beside those that are published *)
Definition AUXILIARY : list string := [".zip"; ".qgs"; ".qgz"; ".qml"; ".sld"; ".db"].
Definition auxiliary_files (job_id : string) (fs : FS) : list ppath :=
  AUXILIARY ≫= fun sfx =>
    filter (fun p => path_is_relative_to p (jobdir job_id) && bool_decide (p ≠ jobdir job_id) &&
                     endswith sfx (path_name p) = true)
      ((map_to_list (fs_files fs)).*1).

(** [QgisWorker.store_files] *)
Definition store_files {T} (st : Storage T) (job_id : string) (add_auxiliary_files : bool) : M (FS * T) unit :=
  s ← get;
  let files := published_files job_id s.1 in
  links ← pure (seq_res (omap (make_file_link job_id s.1) files));
  modify (fun s => (write_file (path_join (jobdir job_id) (path_of FILE_LINKS)) (dump_links links) s.1, s.2));;
  s ← get;
  move_files st job_id (files ++ if add_auxiliary_files then auxiliary_files job_id s.1 else []).

(** [QgisWorker.job_files] *)
Definition update_ref (job_id : string) (public_url : option string) (l : FileLink) : res FileLink :=
  h ← store_reference_url store_url job_id (fl_title l) public_url;
  Ok (MkFileLink h (fl_mime_type l) (fl_title l) (fl_length l)).
Definition worker_job_files (job_id : string) (public_url : option string) (fs : FS) : res (list FileLink) :=
  match fs_files fs !! path_join (jobdir job_id) (path_of FILE_LINKS) with
  | Some text => links ← load_links text; seq_res (update_ref job_id public_url <$> links)
  | None => Ok []
  end.

(** ** mixins/joblog.py *)
Definition worker_job_log (job_id now : string) (fs : FS) : ProcessLog :=
  MkProcessLog now
    (default "No log available"
       (fs_files fs !! path_join (jobdir job_id) (path_of "processing.log"))).

(** ** mixins/storage.py *)

(** [download_url], the command: a file that is not found is no link *)
Definition download_command {T} (st : Storage T) (job_id resource : string) (expiration : Z) :
    M (FS * T) (option FileLink) :=
  try_except (l ← download_url st job_id resource expiration; mret (Some l))
    (fun e => match e with FileNotFoundError _ => Some (mret None) | _ => None end).

Context {R : Type} `{!Redis R} (service_name : string).

(** The jobs of the service that have a directory with the mark of expiration *)
Definition EXPIRE_FILE : string := ".job-expire".
Definition expirable_jobs (fs : FS) : list ppath :=
  omap (fun p => match path_relative_to p workdir with
                 | Some {| p_parts := [d; f] |} =>
                     if decide (f = EXPIRE_FILE +:+ "-" +:+ service_name)
                     then Some (PPath (p_root workdir) (p_parts workdir ++ [d])) else None
                 | _ => None
                 end) ((map_to_list (fs_files fs)).*1).

(** [StorageMixin.cleanup_expired_jobs]; [rm] says of a directory whether it can
    be removed *)
Definition cleanup_job {T} (st : Storage T) (rm : ppath → bool) (reg : R) (d : ppath) : M (FS * T) unit :=
  if exists_ (path_name d) None reg then mret tt
  else remove st (path_name d);;
       modify (fun s => (if rm d then rmtree d s.1 else s.1, s.2)).
Fixpoint cleanup_jobs {T} (st : Storage T) (rm : ppath → bool) (reg : R) (dirs : list ppath) : M (FS * T) unit :=
  match dirs with
  | [] => mret tt
  | d :: dirs => cleanup_job st rm reg d;; cleanup_jobs st rm reg dirs
  end.
Definition cleanup_expired_jobs {T} (st : Storage T) (rm : ppath → bool) (reg : R) : M (FS * T) unit :=
  try_except
    (pure (if r_lock ("lock:" +:+ service_name +:+ ":cleanup-batch") reg then Ok tt
           else Raise (LockError "Unable to acquire lock within the time specified"));;
     s ← get;
     cleanup_jobs st rm reg (expirable_jobs s.1))
    (fun e => match e with LockError _ => Some (mret tt) | _ => None end).
End files.
Arguments MkStorage {_} _ _ _.
Arguments download_url {_} _ _ _ _ _.
Arguments move_files {_} _ _ _ _.
Arguments remove {_} _ _ _.

(** ** What a storage promises *)
Lemma path_ok_rel l : Forall part_ok l → path_ok (PPath "" l).
Proof. intros Hl. split; [by left|done]. Qed.
Lemma path_ok_abs l : Forall part_ok l → path_ok (PPath "/" l).
Proof. intros Hl. split; [by right; left|done]. Qed.

Lemma path_of_part x : part_ok x → path_of x = PPath "" [x].
Proof. intros Hx. apply (path_of_str (PPath "" [x])), path_ok_rel. by constructor. Qed.

Lemma relative_ok p q r : path_ok p → path_relative_to p q = Some r → path_ok r.
Proof.
  intros [_ Hp] (_ & Hr & Hparts)%path_relative_to_Some. destruct r as [? l]. simpl in *. subst.
  apply path_ok_rel. rw Hparts in Hp. by apply Forall_app in Hp as [_ ?].
Qed.

Section promise.
#[local] Set Default Proof Using "Type*".
Context (types_map : string → option string) (dir_size : ppath → Z) (workdir : ppath).
Context (workdir_ok : path_ok workdir) (workdir_abs : p_root workdir = "/").

(** A path below the directory of a job, by its name there. *)
Definition below (job_id : string) (p rel : ppath) : Prop :=
  path_ok p ∧ path_relative_to p (jobdir workdir job_id) = Some rel ∧ p_parts rel ≠ [].

Definition absolute (p : ppath) : Prop := path_ok p ∧ p_root p = "/".

(** Files that were moved are found under the names they have in the directory
    of their job, with their sizes, and no other file is touched. *)
Class StorageLaws {T : Type} (st : Storage T) : Prop := {
  moved_downloadable job files s s' p rel data exp :
    part_ok job → Forall absolute files → move_files st job files s = (Ok tt, s') →
    p ∈ files → below job p rel → fs_files s.1 !! p = Some data →
    ∃ link, download_url st job (path_str rel) exp s' = (Ok link, s') ∧
      fl_length link = Some (Z.of_nat (String.length data));
  moved_only job files s s' p :
    move_files st job files s = (Ok tt, s') → p ∉ files → fs_files s'.1 !! p = fs_files s.1 !! p;
}.

Lemma jobdir_part job : part_ok job → jobdir workdir job = PPath "/" (p_parts workdir ++ [job]).
Proof. intros Hj. by rw /jobdir path_of_part // /path_join /= workdir_abs. Qed.

Lemma below_spec job p rel :
  part_ok job → below job p rel →
  p_root p = "/" ∧ path_join (jobdir workdir job) (path_of (path_str rel)) = p ∧
  path_relative_to p workdir = Some (PPath "" (job :: p_parts rel)) ∧
  path_str (PPath "" (job :: p_parts rel)) = job +:+ "/" +:+ path_str rel.
Proof.
  intros Hj (Hp & Hr & Hne). pose proof Hr as (Hroot & Hrel & Hparts)%path_relative_to_Some.
  rw jobdir_part // in Hroot. simpl in Hroot.
  pose proof (relative_ok _ _ _ Hp Hr) as Hok.
  split_and!; [done|rw path_of_str //; by apply path_join_relative_to| |].
  - apply path_relative_to_Some. rw workdir_abs. split_and!; [done..|].
    rw Hparts jobdir_part //=. by rw -app_assoc.
  - destruct rel as [r [|y l]]; [done|]. simpl in Hrel. by subst r.
Qed.

#[global] Instance local_storage_laws {T} : StorageLaws (LocalStorage types_map dir_size workdir (T:=T)).
Proof.
  split.
  - intros job files s s' p rel data exp Hj _ [= <-] _ Hb Hd.
    destruct (below_spec job p rel Hj Hb) as (Hroot & Hp & _). simpl.
    rw /local_download_url Hp Hd /as_uri Hroot. simpl. by eexists.
  - by intros job files s s' p [= <-].
Qed.

(** *** S3 *)
Section s3.
Context {S : Type} (mn : Minio S) (bucket : string).
Context (presigned : string → string → Z → string) (remove_objects : string → list string → M S (list string)).
(** An object is there once it is put, with its size, until it is put again. *)
Context (stat_put : ∀ n d l ct md s r s', put_object mn bucket n d l ct md s = (Ok r, s') →
  ∃ o, stat_object mn bucket n s' = (Ok o, s') ∧ so_size o = Some l).
Context (stat_put_ne : ∀ n d l ct md s r s' n' o, put_object mn bucket n d l ct md s = (Ok r, s') → n' ≠ n →
  stat_object mn bucket n' s = (Ok o, s) → stat_object mn bucket n' s' = (Ok o, s')).

Abbreviation move := (s3_move_files types_map workdir mn bucket).

(** One file of the list. *)
Lemma s3_move_cons f files s s' :
  move (f :: files) s = (Ok tt, s') →
  ∃ s1, move files s1 = (Ok tt, s') ∧
  match fs_files s.1 !! f, s3_object_name workdir f with
  | Some data, Some n =>
      ∃ r, put_object mn bucket n data (Z.of_nat (String.length data)) (mime_type types_map f) [] s.2 = (Ok r, s1.2) ∧
           s1.1 = unlink f s.1
  | _, _ => s1 = s
  end.
Proof.
  simpl. rw /exists_path /is_file.
  intros (s0 & s00 & [= <- <-] & H)%bind_ok_inv. apply bind_ok_inv in H as ([] & s1 & H1 & H).
  exists s1. split; [done|]. destruct (fs_files s.1 !! f) as [data|].
  - simpl in H1. destruct (s3_object_name workdir f) as [n|]; [|by injection H1].
    apply bind_ok_inv in H1 as (r & s2 & Hp & [= <-]).
    revert Hp. rw /on_s3 /zoom. destruct (put_object _ _ _ _ _ _ _ _) as [r' t] eqn:E. intros [= -> <-].
    by exists r.
  - simpl in H1. destruct (bool_decide _); [|by injection H1].
    by destruct (s3_object_name workdir f); [|injection H1].
Qed.

Lemma s3_moved_only files s s' p :
  move files s = (Ok tt, s') → p ∉ files → fs_files s'.1 !! p = fs_files s.1 !! p.
Proof.
  revert s. induction files as [|f files IH]; intros s; [by intros [= <-]|].
  intros (s1 & Hm & Hf)%s3_move_cons [Hne Hp]%not_elem_of_cons. rw (IH _ Hm Hp).
  destruct (fs_files s.1 !! f), (s3_object_name workdir f); try by rw Hf.
  destruct Hf as (r & _ & ->). simpl. by rw fin_maps.lookup_delete_ne.
Qed.

(** Names of objects of absolute files tell them apart. *)
Lemma s3_name_inj f g n :
  absolute f → absolute g → s3_object_name workdir f = Some n → s3_object_name workdir g = Some n → f = g.
Proof.
  intros [Hf Hrf] [Hg Hrg]. rw /s3_object_name Hrf Hrg. simpl.
  intros (p & Hp & Hfp)%fmap_Some (q & Hq & Hgq)%fmap_Some.
  assert (p = q) as ->.
  { pose proof (path_of_str p (relative_ok _ _ _ Hf Hp)). pose proof (path_of_str q (relative_ok _ _ _ Hg Hq)).
    congruence. }
  apply path_join_relative_to in Hp, Hq. congruence.
Qed.

(** An object whose file is gone stays as it is. *)
Lemma s3_kept files s s' p n o :
  move files s = (Ok tt, s') → Forall absolute files → absolute p → s3_object_name workdir p = Some n →
  fs_files s.1 !! p = None → stat_object mn bucket n s.2 = (Ok o, s.2) →
  stat_object mn bucket n s'.2 = (Ok o, s'.2).
Proof.
  revert s. induction files as [|f files IH]; intros s; [by intros [= <-]|].
  intros (s1 & Hm & Hf)%s3_move_cons [Habs Hall]%Forall_cons Hp Hn Hnone Hst.
  apply (IH s1); [done..| |].
  - destruct (fs_files s.1 !! f), (s3_object_name workdir f); try by rw Hf.
    destruct Hf as (r & _ & ->). simpl. by apply lookup_delete_None; right.
  - destruct (fs_files s.1 !! f) as [data|] eqn:Ef, (s3_object_name workdir f) as [n'|] eqn:En; try by rw Hf.
    destruct Hf as (r & Hput & _). eapply stat_put_ne; [exact Hput| |exact Hst].
    intros ->. rw (s3_name_inj p f n') // in Hnone. congruence.
Qed.

Lemma s3_moved files s s' p n data :
  move files s = (Ok tt, s') → Forall absolute files → p ∈ files → absolute p →
  s3_object_name workdir p = Some n → fs_files s.1 !! p = Some data →
  ∃ o, stat_object mn bucket n s'.2 = (Ok o, s'.2) ∧ so_size o = Some (Z.of_nat (String.length data)).
Proof.
  revert s. induction files as [|f files IH]; intros s; [by intros _ _ ?%elem_of_nil|].
  intros (s1 & Hm & Hf)%s3_move_cons [Habs Hall]%Forall_cons Hin Hp Hn Hd.
  destruct (decide (p = f)) as [<-|Hne].
  - rw Hd Hn in Hf. destruct Hf as (r & Hput & Hs1).
    destruct (stat_put _ _ _ _ _ _ _ _ Hput) as (o & Ho & Hsz). exists o. split; [|done].
    eapply s3_kept; [exact Hm|done..| |done]. rw Hs1. apply fin_maps.lookup_delete_eq.
  - apply elem_of_cons in Hin as [?|Hin]; [done|]. apply (IH s1); [done..|].
    destruct (fs_files s.1 !! f), (s3_object_name workdir f); try by rw Hf.
    destruct Hf as (r & _ & ->). simpl. by rw fin_maps.lookup_delete_ne.
Qed.

#[global] Instance s3_storage_laws :
  StorageLaws (S3Storage types_map workdir mn bucket presigned remove_objects).
Proof.
  split.
  - intros job files s s' p rel data exp Hj Hall Hm Hin Hb Hd. simpl in *.
    destruct (below_spec job p rel Hj Hb) as (Hroot & _ & Hrel & Hstr).
    destruct (s3_moved files s s' p (job +:+ "/" +:+ path_str rel) data) as (o & Ho & Hsz); [done..| | |done|].
    { by destruct Hb. }
    { by rw /s3_object_name Hroot /= Hrel /= Hstr. }
    eexists. split.
    + rw /s3_download_url. erewrite bind_ok; [reflexivity|]. rw /on_s3 /zoom Ho. by destruct s'.
    + done.
  - intros job files s s' p. simpl. apply s3_moved_only.
Qed.
End s3.

(** *** The files of a job, for any storage *)
Section publish.
Context {T : Type} (st : Storage T) `{!StorageLaws st}.
Context (store_url : string) (dump_links : list FileLink → string) (load_links : string → res (list FileLink)).
Context (load_dump : ∀ l, load_links (dump_links l) = Ok l).

Definition fs_ok (fs : FS) : Prop := ∀ p, is_Some (fs_files fs !! p) → absolute p.

Lemma is_file_spec p fs : is_file p fs = true ↔ is_Some (fs_files fs !! p).
Proof.
  rw /is_file. destruct (fs_files fs !! p) as [d|]; split; intros H; [by exists d|done|done|by destruct H].
Qed.

Lemma published_is_file job fs p : p ∈ published_files workdir job fs → is_Some (fs_files fs !! p).
Proof.
  rw /published_files. destruct (fs_files fs !! _) as [text|]; [|by intros ?%elem_of_nil].
  by intros [H _]%list_elem_of_filter; apply is_file_spec.
Qed.

Lemma auxiliary_is_file job fs p :
  p ∈ auxiliary_files workdir job fs →
  is_Some (fs_files fs !! p) ∧ ∃ sfx, sfx ∈ AUXILIARY ∧ endswith sfx (path_name p) = true.
Proof.
  rw /auxiliary_files list_elem_of_bind. intros (sfx & Hp & Hs).
  apply list_elem_of_filter in Hp as [H Hin]. apply andb_prop in H as [_ H].
  apply list_elem_of_fmap in Hin as ([q d] & -> & Hq). apply elem_of_map_to_list in Hq.
  split; [by exists d|by exists sfx].
Qed.

Lemma seq_res_elem {A B} (f : A → option (res B)) l bs a r :
  seq_res (omap f l) = Ok bs → a ∈ l → f a = Some r → ∃ b, r = Ok b ∧ b ∈ bs.
Proof.
  revert bs. induction l as [|x l IH]; intros bs; [by intros _ ?%elem_of_nil|].
  simpl. intros H Ha Hf. apply elem_of_cons in Ha as [<-|Ha].
  - rw Hf in H. simpl in H. apply res_bind_inv in H as (b & -> & H).
    apply res_bind_inv in H as (bs' & _ & [= <-]). exists b. split; [done|by left].
  - destruct (f x) as [r'|]; [|by apply IH]. simpl in H. apply res_bind_inv in H as (b & -> & H).
    apply res_bind_inv in H as (bs' & H & [= <-]). destruct (IH bs' H Ha Hf) as (c & -> & Hc).
    exists c. split; [done|by right].
Qed.

Lemma seq_res_fmap_elem {A B} (f : A → res B) l bs b :
  seq_res (f <$> l) = Ok bs → b ∈ l → ∃ c, f b = Ok c ∧ c ∈ bs.
Proof.
  intros H Hb. destruct (seq_res_elem (fun a => Some (f a)) l bs b (f b)) as (c & Hc & Hin); [|done..|].
  - assert (omap (λ a : A, Some (f a)) l = f <$> l) as ->; [|done]. clear. induction l as [|x l IH]; [done|].
    simpl. by f_equal.
  - by exists c.
Qed.

(** C18. Once the files of a job are stored, whatever the storage, each file it
    published has a link, at the url of its name, and is downloaded under that
    name, with the size that its link announces. *)
Theorem published_downloadable job aux pub exp s s' links :
  let linksfile := path_join (jobdir workdir job) (path_of FILE_LINKS) in
  part_ok job → fs_ok s.1 → linksfile ∉ published_files workdir job s.1 →
  store_files types_map workdir store_url dump_links st job aux s = (Ok tt, s') →
  worker_job_files workdir store_url load_links job pub s'.1 = Ok links →
  ∀ p rel, p ∈ published_files workdir job s.1 → below job p rel →
  ∃ l link, l ∈ links ∧ fl_title l = path_str rel ∧
    store_reference_url store_url job (path_str rel) pub = Ok (fl_href l) ∧
    download_url st job (fl_title l) exp s' = (Ok link, s') ∧ fl_length link = fl_length l.
Proof.
  intros linksfile Hj Hok Hnot. rw /store_files.
  intros (s0 & s00 & [= <- <-] & H)%bind_ok_inv. apply bind_ok_inv in H as (ls & s0 & Hls & H).
  injection Hls as Hls <-. apply bind_ok_inv in H as ([] & s1 & [= <-] & H).
  apply bind_ok_inv in H as (s1 & s2 & [= <- <-] & Hmv). simpl in Hmv. fold linksfile in Hmv.
  set (fs1 := write_file linksfile (dump_links ls) s.1) in *.
  intros Hjf p rel Hp Hb. destruct (published_is_file job s.1 p Hp) as [data Hd].
  assert (p ≠ linksfile) as Hne by (by intros ->).
  assert (fs_files fs1 !! p = Some data) as Hd1 by (simpl; by rw fin_maps.lookup_insert_ne).
  set (files := published_files workdir job s.1 ++ _) in Hmv.
  assert (linksfile ∉ files) as Hlinks.
  { rw /files. destruct aux; [|by rw app_nil_r]. intros [?|(_ & sfx & Hs & He)%auxiliary_is_file]%elem_of_app; [done|].
    revert He. rw /linksfile jobdir_part // /path_join /= /path_name /= last_snoc /=.
    repeat (apply elem_of_cons in Hs as [->|Hs]; [done|]). by apply elem_of_nil in Hs. }
  assert (fs_ok fs1) as Hok1.
  { intros q [d Hq]. simpl in Hq. destruct (decide (q = linksfile)) as [->|Hq'].
    - rw /linksfile jobdir_part // /path_join /=. split; [|done]. apply path_ok_abs, Forall_app. split; [apply Forall_app; split; [apply workdir_ok|by constructor]|]. by repeat constructor.
    - rw fin_maps.lookup_insert_ne // in Hq. by apply Hok. }
  assert (Forall absolute files) as Habs.
  { apply Forall_app. split; apply Forall_forall.
    - intros q Hq%published_is_file. by apply Hok.
    - destruct aux; [|by intros q ?%elem_of_nil]. intros q [Hq _]%auxiliary_is_file. by apply Hok1. }
  assert (fs_files s'.1 !! linksfile = Some (dump_links ls)) as Hl.
  { rw (moved_only _ _ _ _ _ Hmv Hlinks). apply fin_maps.lookup_insert_eq. }
  destruct (moved_downloadable job files (fs1, s.2) s' p rel data exp) as (link & Hlk & Hlen);
    try done; [rw /files; apply elem_of_app; by left|].
  rw /worker_job_files Hl load_dump /= in Hjf.
  pose proof (fun r => seq_res_elem _ _ _ p r Hls Hp) as Hel. rw /make_file_link in Hel.
  rw (proj1 (proj2 Hb)) /= in Hel. destruct (Hel _ eq_refl) as (l0 & Hl0 & Hin0). clear Hel.
  apply res_bind_inv in Hl0 as (h0 & _ & [= <-]).
  destruct (seq_res_fmap_elem _ _ _ _ Hjf Hin0) as (l & Hu & Hin).
  revert Hu. rw /update_ref. intros (h & Hh & [= <-])%res_bind_inv. simpl in *.
  eexists _, link. split; [exact Hin|]. split_and!; [done..|]. by rw Hlen Hd.
Qed.
End publish.
End promise.

(** *** Names that leave the directory of a job *)

(** With the local storage, any file of the worker can be downloaded through the
    directory of any job: the path of the file, put after [files/], leads to the
    handler of downloads with that path as the name of the resource, and an
    absolute name is not looked for in the directory of the job. *)
Theorem local_download_escapes types_map dir_size workdir p st id q data exp (fs : FS) :
  segment_ok id = true → absolute q → fs_files fs !! q = Some data →
  resolve_route (routes p st) "GET" (p +:+ "/jobs/" +:+ id +:+ "/files/" +:+ path_str q) =
    Some ("job_download", [("JobId", id); ("Resource", path_str q)]) ∧
  ∃ link, download_command (LocalStorage types_map dir_size workdir) id (path_str q) exp (fs, tt) =
      (Ok (Some link), (fs, tt)) ∧
    fl_href link = "file://" +:+ quote_path (path_str q) ∧
    fl_length link = Some (Z.of_nat (String.length data)).
Proof.
  intros Hid [Hq Hr] Hd. split.
  { apply download_route; [done|]. destruct q as [r l]. simpl in Hr. subst r. by destruct l. }
  assert (path_join (jobdir workdir id) (path_of (path_str q)) = q) as Hj.
  { rw path_of_str //. by rw /path_join Hr. }
  rw /download_command /try_except /=.
  assert (local_download_url types_map dir_size workdir id (path_str q) (fs, tt) =
    (Ok (MkFileLink ("file://" +:+ quote_path (path_str q)) (Some (mime_type types_map q)) (path_name q)
      (Some (Z.of_nat (String.length data)))), (fs, tt))) as He.
  { by rw /local_download_url Hj /= Hd /as_uri Hr. }
  erewrite bind_ok by exact He. by eexists.
Qed.

(** ** Expired jobs *)
Section cleanup.
Context {R : Type} `{!Redis R} (workdir : ppath) (service : string) {T : Type} (st : Storage T) (reg : R).
Context (remove_files : ∀ job s, (remove st job s).2.1 = s.1).

Lemma rmtree_lookup d p fs :
  fs_files (rmtree d fs) !! p = if path_is_relative_to p d then None else fs_files fs !! p.
Proof.
  rw /rmtree /= map_lookup_filter. destruct (fs_files fs !! p) as [x|]; simpl; [|by destruct (path_is_relative_to p d)].
  case_guard as Hg; simpl in *; [by rw Hg|]. by destruct (path_is_relative_to p d).
Qed.

(** One directory. *)
Lemma cleanup_one rm d s r s1 :
  cleanup_job st rm reg d s = (r, s1) →
  s1.1 = s.1 ∨ s1.1 = rmtree d s.1 ∧ exists_ (path_name d) None reg = false.
Proof.
  rw /cleanup_job. destruct (exists_ (path_name d) None reg); [by intros [= _ <-]; left|].
  intros [([] & s2 & H1 & [= _ <-])|(e & H1 & ->)]%bind_inv.
  - pose proof (remove_files (path_name d) s) as Hr. rw H1 in Hr. simpl in *. rw Hr.
    destruct (rm d); [by right|by left].
  - left. pose proof (remove_files (path_name d) s) as Hr. by rw H1 in Hr.
Qed.

Lemma cleanup_jobs_keeps rm dirs s r s' p :
  cleanup_jobs st rm reg dirs s = (r, s') →
  (∀ d, d ∈ dirs → path_is_relative_to p d = true → exists_ (path_name d) None reg = true) →
  fs_files s'.1 !! p = fs_files s.1 !! p.
Proof.
  revert s. induction dirs as [|d dirs IH]; intros s; [by intros [= _ <-]|]. simpl. intros H Hd.
  assert (∀ r s1, cleanup_job st rm reg d s = (r, s1) →
     fs_files s1.1 !! p = fs_files s.1 !! p) as Hone.
  { intros r1 s1 [->|[-> He]]%cleanup_one; [done|]. rw rmtree_lookup.
    destruct (path_is_relative_to p d) eqn:Hp; [|done]. rw (Hd d) // in He. by left. }
  apply bind_inv in H as [([] & s1 & H1 & H2)|(e & H1 & ->)]; [|by eapply Hone].
  rw (IH s1 H2); [|by eapply Hone]. intros d' Hd'. apply Hd. by right.
Qed.

Lemma rm_none d p fs : path_is_relative_to p d = true → fs_files (rmtree d fs) !! p = None.
Proof. intros Hp. by rw rmtree_lookup Hp. Qed.

Lemma cleanup_jobs_removes rm dirs s s' p d :
  cleanup_jobs st rm reg dirs s = (Ok tt, s') → d ∈ dirs → rm d = true →
  exists_ (path_name d) None reg = false → path_is_relative_to p d = true →
  fs_files s'.1 !! p = None.
Proof.
  revert s. induction dirs as [|d0 dirs IH]; intros s H Hin Hrm Hex Hp; [by apply elem_of_nil in Hin|].
  simpl in H. apply bind_ok_inv in H as ([] & s1 & H1 & H2).
  destruct (decide (d = d0)) as [<-|Hne]; [|by apply (IH s1); [|set_solver|..]].
  rw /cleanup_job Hex in H1. apply bind_ok_inv in H1 as ([] & s2 & _ & [= <-]). rw Hrm in H2.
  assert (∀ dirs s, fs_files s.1 !! p = None → ∀ r s', cleanup_jobs st rm reg dirs s = (r, s') →
    fs_files s'.1 !! p = None) as Hnone.
  { clear -remove_files. induction dirs as [|d dirs IH]; intros s Hs r s'; [by intros [= _ <-]|]. simpl.
    assert (∀ r s1, cleanup_job st rm reg d s = (r, s1) →
       fs_files s1.1 !! p = None) as Hone.
    { intros r1 s1 [->|[-> _]]%cleanup_one; [done|]. rw rmtree_lookup Hs. by destruct (path_is_relative_to p d). }
    intros [([] & s1 & H1 & H2)|(e & H1 & ->)]%bind_inv; [|by eapply Hone].
    by eapply IH; [eapply Hone|]. }
  eapply Hnone; [|exact H2]. simpl. by apply rm_none.
Qed.

(** C32. The cleanup touches no file but those in the directories of the service that
    are marked to expire and whose job is no longer registered; when it ends
    without an error and holds the lock, it has removed all those that can be
    removed. *)
Theorem cleanup_expired rm s r s' :
  cleanup_expired_jobs workdir service st rm reg s = (r, s') →
  (∀ p, (∀ d, d ∈ expirable_jobs workdir service s.1 → path_is_relative_to p d = true →
           exists_ (path_name d) None reg = true) →
     fs_files s'.1 !! p = fs_files s.1 !! p) ∧
  (r = Ok tt → r_lock ("lock:" +:+ service +:+ ":cleanup-batch") reg = true →
   (∀ job s e s', remove st job s = (Raise e, s') → ∀ m, e ≠ LockError m) →
   ∀ d p, d ∈ expirable_jobs workdir service s.1 → rm d = true →
     exists_ (path_name d) None reg = false → path_is_relative_to p d = true →
     fs_files s'.1 !! p = None).
Proof.
  rw /cleanup_expired_jobs /try_except. destruct (r_lock _ reg) eqn:Hlock.
  - erewrite bind_ok by reflexivity. erewrite bind_ok by reflexivity.
    destruct (cleanup_jobs st rm reg (expirable_jobs workdir service s.1) s) as [r0 s0] eqn:Hc.
    intros H. assert (s' = s0 ∧ (r0 = Ok tt → r = Ok tt) ∧ ∀ e, r0 = Raise e → r = Raise e ∨ ∃ m, e = LockError m) as (-> & _ & He).
    { destruct r0 as [[]|e]; [by injection H as <- <-|]. destruct e; injection H as <- <-; split_and!; try done;
        intros e' [= <-]; first [by left | by right; eexists]. }
    split; [intros p; by eapply cleanup_jobs_keeps|]. intros -> _ Hrem d p Hd Hrm Hex Hp.
    destruct r0 as [[]|e]; [by eapply cleanup_jobs_removes|].
    exfalso. destruct (He e eq_refl) as [?|[m ->]]; [done|].
    assert (∀ dirs s s0, cleanup_jobs st rm reg dirs s = (Raise (LockError m), s0) → False) as Hno; [|by eapply Hno].
    clear -Hrem. induction dirs as [|d dirs IH]; intros s s0; [done|]. simpl.
    intros [([] & s1 & _ & H2)|(e & H1 & [= <-])]%bind_inv; [by eapply IH|].
    rw /cleanup_job in H1. destruct (exists_ (path_name d) None reg); [done|].
    apply bind_inv in H1 as [(? & ? & _ & H1)|(e & H1 & [= <-])]; [done|]. by eapply Hrem.
  - intros H. erewrite bind_raise in H by reflexivity. injection H as <- <-. by split.
Qed.
End cleanup.

(** ** An example: a job that publishes one file in a local directory *)
Module FilesDemo.
#[global] Instance FileLink_eq_dec : EqDecision FileLink.
Proof. solve_decision. Defined.
#[global] Instance FileLink_countable : Countable FileLink.
Proof.
  apply (inj_countable' (fun l => (fl_href l, fl_mime_type l, fl_title l, fl_length l))
    (fun x => MkFileLink x.1.1.1 x.1.1.2 x.1.2 x.2)). by intros [].
Defined.

(** A text for every list of links. *)
Fixpoint bits (p : positive) : string :=
  match p with xH => "" | xO p => String "0" (bits p) | xI p => String "1" (bits p) end.
Fixpoint unbits (s : string) : positive :=
  match s with
  | "" => xH
  | String a s => if decide (a = "0"%char) then xO (unbits s) else xI (unbits s)
  end.
Definition dump (l : list FileLink) : string := bits (encode l).
Definition load (s : string) : res (list FileLink) :=
  match decode (unbits s) with Some l => Ok l | None => Raise (ValidationError "links") end.

Lemma load_dump l : load (dump l) = Ok l.
Proof.
  rw /load /dump. assert (∀ p, unbits (bits p) = p) as Hb by (intros p; induction p; simpl; congruence).
  by rw Hb decode_encode.
Qed.

Definition types (s : string) : option string := if decide (s = ".tif") then Some "image/tiff" else None.
Definition w : ppath := PPath "/" ["w"].
Definition file (l : list string) : ppath := PPath "/" l.
Definition fs : FS :=
  MkFS {[ w ]} (list_to_map
    [(file ["w"; "j1"; ".files"], "out.tif" +:+ String newline "");
     (file ["w"; "j1"; "out.tif"], "data");
     (file ["w"; "j1"; ".job-expire-svc"], "");
     (file ["etc"; "secret"], "hush")]).
Definition template : string := "${public_url}/jobs/$jobId/files/$resource".
Definition st : Storage unit := LocalStorage types (fun _ => 0%Z) w.
Definition stored : res unit * (FS * unit) := store_files types w template dump st "j1" true (fs, tt).
Definition links : list FileLink :=
  [MkFileLink "http://h/jobs/j1/files/out.tif" (Some "image/tiff") "out.tif" (Some 4%Z)].
End FilesDemo.
Import FilesDemo.

Lemma published_downloadable_witness :
  ∃ l link, l ∈ links ∧ fl_title l = "out.tif" ∧ fl_href l = "http://h/jobs/j1/files/out.tif" ∧
    download_url st "j1" "out.tif" 60 stored.2 = (Ok link, stored.2) ∧ fl_length link = Some 4%Z.
Proof.
  assert (path_ok w) as Hw by (by apply path_ok_abs; repeat constructor).
  destruct (published_downloadable types w Hw eq_refl st
    (StorageLaws0 := local_storage_laws types (fun _ => 0%Z) w Hw eq_refl) template dump load load_dump "j1" true (Some "http://h") 60 (fs, tt) stored.2 links)
    with (p := file ["w"; "j1"; "out.tif"]) (rel := PPath "" ["out.tif"]) as (l & link & Hl & Ht & Hh & Hd & Hlen).
  - done.
  - intros p [x Hx]. apply (elem_of_list_to_map_2 (M := gmap ppath)) in Hx.
    repeat (apply elem_of_cons in Hx as [[= -> _]|Hx]; [split; [by apply path_ok_abs; repeat constructor|done]|]).
    by apply elem_of_nil in Hx.
  - vm_compute. intros H. by repeat (apply elem_of_cons in H as [H|H]; [discriminate|]); apply elem_of_nil in H.
  - reflexivity.
  - assert (fs_files stored.2.1 !! file ["w"; "j1"; "links.json"] = Some (dump
      [MkFileLink "$public_url/jobs/j1/files/out.tif" (Some "image/tiff") "out.tif" (Some 4%Z)])) as Hs by reflexivity.
    rw /worker_job_files (Hs : fs_files stored.2.1 !! path_join (jobdir w "j1") (path_of FILE_LINKS) = _) load_dump.
    reflexivity.
  - vm_compute. by left.
  - split_and!; [by apply path_ok_abs; repeat constructor|reflexivity|done].
  - exists l, link. apply list_elem_of_singleton in Hl as ->.
    split_and!; [by left|reflexivity..|exact Hd|exact Hlen].
Defined.

Lemma local_download_escapes_witness :
  resolve_route (routes "" false) "GET" "/jobs/j1/files//etc/secret" =
    Some ("job_download", [("JobId", "j1"); ("Resource", "/etc/secret")]) ∧
  ∃ link, download_command st "j1" "/etc/secret" 60 (fs, tt) = (Ok (Some link), (fs, tt)) ∧
    fl_href link = "file:///etc/secret" ∧ fl_length link = Some 4%Z.
Proof.
  apply (local_download_escapes types (fun _ => 0%Z) w "" false "j1" (file ["etc"; "secret"]) "hush" 60 fs);
    [done| |reflexivity].
  split; [by apply path_ok_abs; repeat constructor|done].
Defined.

Lemma cleanup_expired_witness :
  let '(r, s') := cleanup_expired_jobs w "svc" st (fun _ => true) ([] : RedisDemo.store) (fs, tt) in
  fs_files s'.1 !! file ["etc"; "secret"] = Some "hush" ∧ fs_files s'.1 !! file ["w"; "j1"; "out.tif"] = None.
Proof.
  destruct (cleanup_expired_jobs w "svc" st (fun _ => true) ([] : RedisDemo.store) (fs, tt)) as [r s'] eqn:E.
  assert (r = Ok tt) as Hr by (change r with (r, s').1; rewrite -E; reflexivity).
  destruct (cleanup_expired w "svc" st ([] : RedisDemo.store) (fun _ _ => eq_refl) (fun _ => true) (fs, tt) r s' E)
    as [H1 H2]. clear E.
  assert (expirable_jobs w "svc" fs = [file ["w"; "j1"]]) as He by (vm_compute; reflexivity).
  split.
  - rw H1; [|reflexivity]. simpl. rw He. intros d ->%list_elem_of_singleton. by vm_compute.
  - apply (H2 Hr eq_refl ltac:(intros job s e t; discriminate) (file ["w"; "j1"]));
      [simpl; rw He; by left|reflexivity..].
Defined.
