(* ===== verification/WorkerApp.v ===== *)
(** * The application of a worker

    [qjazz_core/celery/_celery.py] and [celery/worker.py]: the configuration of a
    Celery application, its jobs and the run configurations made of their
    signatures; [qjazz_processes/worker/worker.py] and [generic.py]: the life of a
    worker, from its start to its shutdown, and the commands that list and
    describe its processes.  Celery keeps the settings of an application, whose
    defaults are a parameter, and calls the worker when it is ready and when it
    stops. *)
From S2P Require Import Prelude PyDict PyAssoc PyStd Json Web Registry Executor JobsApi ProcessesApi WorkerCache.

(** ** Configuration *)
Record TLSConfig : Type := MkTLS { cafile : option string; certfile : option string; keyfile : option string }.
Record SecurityConfig : Type := MkSecurity { cert_store : ppath; sec_keyfile : string; sec_certfile : string }.
Record CeleryScheduler : Type := MkScheduler { enabled : bool; max_interval : option Z; database : option ppath }.

Record CeleryConfig : Type := MkCelery {
  broker_host : string; broker_use_tls : bool; broker_user : option string; broker_password : option string;
  broker_tls : option TLSConfig;
  backend_host : string; backend_use_tls : bool; backend_password : option string; backend_tls : option TLSConfig;
  security : option SecurityConfig;
  task_time_limit : Z; task_time_grace_period : Z; result_expires : Z;
  concurrency : option Z; max_concurrency : option Z; max_tasks_per_child : option Z; max_memory_per_child : option Z;
  scheduler : CeleryScheduler;
}.

(** [broker_url], [backend_url] *)
Definition broker_url (c : CeleryConfig) : string :=
  match broker_user c, broker_password c with
  | Some name, Some passwd => "amqp://" +:+ name +:+ ":" +:+ passwd +:+ "@" +:+ broker_host c
  | Some name, None => "amqp://" +:+ name +:+ "@" +:+ broker_host c
  | None, _ => "amqp://" +:+ broker_host c
  end.
Definition backend_url (c : CeleryConfig) : string :=
  (if backend_use_tls c then "rediss" else "redis") +:+ "://" +:+
  (if ostr_truth (backend_password c) then ":" +:+ default "" (backend_password c) +:+ "@" else "") +:+ backend_host c.

(** ** The settings of the application *)
Definition Settings : Type := list (string * JsonValue).
Definition conf_set (k : string) (v : JsonValue) : M Settings unit := modify (dict_set k v).
Definition int_truth (v : option Z) : bool := match v with Some n => negb (n =? 0)%Z | None => false end.
Definition set_int_if (k : string) (v : option Z) : M Settings unit :=
  if int_truth v then conf_set k (JInt (default 0%Z v)) else mret tt.

(** A certificate with its key, when both are given *)
Definition tls_pair (t : TLSConfig) (key cert : string) : option (list (string * JsonValue)) :=
  if ostr_truth (keyfile t) && ostr_truth (certfile t)
  then Some [(key, JStr (default "" (keyfile t))); (cert, JStr (default "" (certfile t)))] else None.

Section celery.
(** The defaults of the settings *)
Context (dflt : string → JsonValue).

(** [conf.k.update(l)] *)
Definition conf_update (k : string) (l : list (string * JsonValue)) : M Settings unit :=
  s ← get;
  match default (dflt k) (assoc k s) with
  | JObj o => conf_set k (JObj (dict_extend o l))
  | _ => raise (OtherException "AttributeError: update")
  end.

(** Lines 228-242: the connection to the broker *)
Definition configure_broker (c : CeleryConfig) : M Settings unit :=
  if broker_use_tls c then
    match broker_tls c with
    | Some t =>
        (if ostr_truth (cafile t)
         then conf_set "broker_use_ssl" (JObj [("ca_certs", JStr (default "" (cafile t)))]) else mret tt);;
        match tls_pair t "keyfile" "certfile" with
        | Some l => conf_update "broker_use_ssl" l
        | None => mret tt
        end
    | None => conf_set "broker_use_ssl" (JBool true)
    end
  else mret tt.

(** Lines 244-258: the connection to the backend *)
Definition configure_backend (c : CeleryConfig) : M Settings unit :=
  if backend_use_tls c then
    conf_set "redis_backend_use_ssl" (JObj [("ssl_cert_reqs", JStr "CERT_REQUIRED")]);;
    match backend_tls c with
    | Some t =>
        (if ostr_truth (cafile t)
         then conf_update "redis_backend_use_ssl" [("ssl_ca_certs", JStr (default "" (cafile t)))] else mret tt);;
        match tls_pair t "ssl_keyfile" "ssl_certfile" with
        | Some l => conf_update "redis_backend_use_ssl" l
        | None => mret tt
        end
    | None => mret tt
    end
  else mret tt.

(** Lines 260-272: the signature of messages *)
Definition configure_security (c : CeleryConfig) : M Settings unit :=
  match security c with
  | Some s => modify (fun st => dict_extend st
      [("security_key", JStr (sec_keyfile s)); ("security_certificate", JStr (sec_certfile s));
       ("security_cert_store", JStr (path_str (path_join (cert_store s) (path_of "*.pem"))));
       ("security_digest", JStr "sha256"); ("task_serializer", JStr "auth");
       ("event_serializer", JStr "auth"); ("accept_content", JArr [JStr "auth"])])
  | None => mret tt
  end.

(** [Celery.__init__] *)
Definition celery_init (c : CeleryConfig) (kwargs : Settings) : M Settings unit :=
  modify (fun _ => dict_extend
    [("broker_url", JStr (broker_url c)); ("result_backend", JStr (backend_url c));
     ("broker_connection_retry_on_startup", JBool true); ("redis_backend_health_check_interval", JInt 5);
     ("result_extended", JBool true)] kwargs);;
  conf_set "result_expires" (JInt (result_expires c));;
  conf_set "task_time_limit" (JInt (task_time_limit c + task_time_grace_period c));;
  conf_set "task_soft_time_limit" (JInt (task_time_limit c));;
  conf_set "task_send_sent_event" (JBool true);;
  set_int_if "worker_concurrency" (concurrency c);;
  set_int_if "worker_max_tasks_per_child" (max_tasks_per_child c);;
  set_int_if "worker_max_memory_per_child" (max_memory_per_child c);;
  configure_broker c;;
  configure_backend c;;
  configure_security c.

(** [Worker.__init__] *)
Definition worker_init (c : CeleryConfig) (kwargs : Settings) : M Settings unit :=
  celery_init c kwargs;;
  conf_set "worker_prefetch_multiplier" (JInt 1);;
  conf_set "worker_redirect_stdouts" (JBool false);;
  conf_set "worker_hijack_root_logger" (JBool false).

(** [QgisWorker.__init__] and [GenericWorker.__init__]: the queue of the service *)
Definition service_init (c : CeleryConfig) (service_name : string) (kwargs : Settings) : M Settings unit :=
  worker_init c kwargs;;
  conf_set "task_default_queue" (JStr ("qjazz." +:+ service_name));;
  conf_set "task_default_exchange" (JStr ("qjazz." +:+ service_name));;
  conf_set "worker_pool_restarts" (JBool true).

(** The arguments that [Worker.start_worker] gives to Celery *)
Definition start_arguments (c : CeleryConfig) (hostname : string) (s kwargs : Settings) : Settings :=
  let kwargs :=
    match max_concurrency c, default (dflt "worker_concurrency") (assoc "worker_concurrency" s) with
    | Some m, JInt n => if negb (m =? 0)%Z && negb (n =? 0)%Z && (n <? m)%Z
                        then dict_set "autoscale" (JArr [JInt m; JInt n]) kwargs else kwargs
    | _, _ => kwargs
    end in
  let kwargs :=
    if enabled (scheduler c)
    then dict_extend kwargs
           [("beat", JBool true);
            ("schedule", match database (scheduler c) with Some p => JStr (path_str p) | None => JNull end);
            ("heartbeat_interval", match max_interval (scheduler c) with Some n => JInt n | None => JNull end)]
    else kwargs in
  [("hostname", JStr hostname); ("prefetch_multiplier", JInt 1); ("optimization", JStr "fair")] ++ kwargs.
End celery.

(** ** Jobs *)

(** The name a job is registered under, and the name its run configuration has *)
Definition task_name (main name : string) : string := main +:+ "." +:+ name.
Definition job_name (app_name name : string) : string := removeprefix (app_name +:+ ".") name.

(** A parameter of a signature: its kind, and its annotation and default when it
    has them *)
Inductive ParameterKind : Type := POSITIONAL_ONLY | POSITIONAL_OR_KEYWORD | VAR_POSITIONAL | KEYWORD_ONLY | VAR_KEYWORD.
Record Parameter_ (T : Type) : Type := MkParam {
  pm_name : string; pm_kind : ParameterKind; pm_annotation : option T; pm_default : option JsonValue;
}.
Arguments MkParam {T}. Arguments pm_name {T}. Arguments pm_kind {T}. Arguments pm_annotation {T}. Arguments pm_default {T}.

Section run_config.
Context {T : Type} (json_schema : T → list (string * JsonValue)).

Definition is_input (k : ParameterKind) : bool :=
  match k with POSITIONAL_OR_KEYWORD | KEYWORD_ONLY => true | _ => false end.

(** [_models] *)
Fixpoint _models (qualname : string) (ps : list (Parameter_ T)) : res (list (string * (T * option JsonValue))) :=
  match ps with
  | [] => Ok []
  | p :: ps =>
      if is_input (pm_kind p)
      then match pm_annotation p with
           | None => Raise (TypeError ("Missing annotation for argument " +:+ pm_name p +:+ " in job " +:+ qualname))
           | Some t => l ← _models qualname ps; Ok ((pm_name p, (t, pm_default p)) :: l)
           end
      else _models qualname ps
  end.

(** [_format_doc]; [doc] is the documentation of the function without its
    indentation *)
Fixpoint rstrip_ends (s : string) : string :=
  match s with
  | "" => ""
  | String a r => match rstrip_ends r with
                  | "" => if bool_decide (a = " "%char ∨ a = ascii_of_N 10) then "" else String a ""
                  | r => String a r
                  end
  end.
Definition is_end (nl_only : bool) (a : ascii) : bool :=
  bool_decide (a = ascii_of_N 10) || (negb nl_only && bool_decide (a = " "%char)).
Fixpoint rstrip_newlines (s : string) : string :=
  match s with
  | "" => ""
  | String a r => match rstrip_newlines r with
                  | "" => if bool_decide (a = ascii_of_N 10) then "" else String a ""
                  | r => String a r
                  end
  end.
Definition _format_doc (doc : option string) (qualname : string) : string * string :=
  if ostr_truth doc then
    let s := rstrip_ends (lstrip (is_end false) (default "" doc)) in
    match partition (ascii_of_N 10) s with
    | Some (title, rest) => (title, rstrip_newlines (lstrip (is_end true) rest))
    | None => (s, "")
    end
  else (qualname, "").

(** The description of an input, from the schema of its type: [s.pop] *)
Record InputDescription : Type := MkInput { in_title : JsonValue; in_description : JsonValue; in_schema : list (string * JsonValue) }.
Definition input_description (t : T) (dflt : option JsonValue) : InputDescription :=
  let s := json_schema t in
  let s := match dflt with Some d => dict_set "default" d s | None => s end in
  MkInput (default (JStr "") (assoc "title" s)) (default (JStr "") (assoc "description" s))
    (List.filter (fun kv => negb (bool_decide (kv.1 = "title")) && negb (bool_decide (kv.1 = "description"))) s).

(** [RunConfigSchema] and [job_run_config] *)
Record RunConfigSchema : Type := MkSchema {
  rc_id : string; rc_title : string; rc_description : string; rc_inputs : list (string * InputDescription);
  rc_outputs : list (string * InputDescription);
}.
Definition job_run_config (jobname qualname : string) (doc : option string) (params : list (Parameter_ T))
    (return_ : option T) : res (list (string * (T * option JsonValue)) * RunConfigSchema) :=
  let '(title, description) := _format_doc doc qualname in
  inputs ← _models qualname params;
  Ok (inputs, MkSchema jobname title description
                ((fun i => (i.1, input_description i.2.1 i.2.2)) <$> inputs)
                (match return_ with
                 | Some t => let d := input_description t None in
                             [("output", MkInput (in_title d) (match assoc "description" (json_schema t) with Some v => v | None => JNull end) (in_schema d))]
                 | None => []
                 end)).

(** [Job.__init__] *)
Definition register_job (app_name name qualname : string) (doc : option string) (params : list (Parameter_ T))
    (return_ : option T) : M (list (string * RunConfigSchema)) (list (string * (T * option JsonValue))) :=
  let jobname := job_name app_name name in
  r ← pure (job_run_config jobname qualname doc params return_);
  modify (dict_set jobname r.2);;
  mret r.1.

(** [describe_process] of a generic worker *)
Definition generic_describe (ident : string) (run_configs : list (string * RunConfigSchema)) : option RunConfigSchema :=
  assoc ident run_configs.
End run_config.

(** ** What a worker says of itself *)
Record ServiceInfo : Type := MkInfo {
  si_name : string; si_title : string; si_description : string; si_links : list (string * string);
  si_online_since : Z; si_hide_versions : bool;
}.
Definition PROCESS_ENTRYPOINT : string := "process_execute".

(** [presence] of a QGIS worker and of a generic one: the version of QGIS and its
    details, the expiration of results and the schemes of the callbacks *)
Definition presence (i : ServiceInfo) (version : Z) (details : list string) (expires : Z) (schemes : list string) : Presence :=
  MkPresence (si_name i) expires (Some PROCESS_ENTRYPOINT) (si_online_since i) (si_title i) (si_description i) (si_links i)
    (Some version) (if si_hide_versions i then [] else details) schemes.
Definition generic_presence (i : ServiceInfo) (expires : Z) (schemes : list string) : Presence :=
  MkPresence (si_name i) expires None (si_online_since i) (si_title i) (si_description i) (si_links i) None [] schemes.

(** ** The life of a worker *)

(** A periodic task, with its interval in seconds *)
Inductive TaskTarget : Type := CleanupExpiredJobs | WatchReload.

Section life.
(** The child that describes processes; how far it is when the worker stops
    waiting is an argument of each operation, [n] *)
Context {D C : Type} (model_dump : D → JsonValue).
Context (_describe : C → string → option string → res D) (_update : C → res (list ProcessSummary) * C).

(** [QgisWorker]: its periodic tasks, whether they run, the time the watched file
    was last seen modified, the process cache, and the workers whose pool it
    asked to restart *)
Record QgisWorker : Type := MkWorker {
  qw_hostname : string;
  qw_tasks : list (string * TaskTarget * Z);
  qw_running : bool;
  qw_watch : option Qc;
  qw_cache : option (WorkerCache D C);
  qw_restarts : list string;
}.
Definition on_cache {A} (w : WorkerCache D C) (m : M (WorkerCache D C) A) : M QgisWorker A := fun q =>
  let '(r, w) := m w in
  (r, MkWorker (qw_hostname q) (qw_tasks q) (qw_running q) (qw_watch q) (Some w) (qw_restarts q)).
Definition set_running (b : bool) : M QgisWorker unit :=
  modify (fun q => MkWorker (qw_hostname q) (qw_tasks q) b (qw_watch q) (qw_cache q) (qw_restarts q)).
Definition set_watch (t : Qc) : M QgisWorker unit :=
  modify (fun q => MkWorker (qw_hostname q) (qw_tasks q) (qw_running q) (Some t) (qw_cache q) (qw_restarts q)).

(** [__init__] *)
Definition new_worker (hostname : string) (cleanup_interval : Z) : QgisWorker :=
  MkWorker hostname [("cleanup", CleanupExpiredJobs, cleanup_interval)] false None None [].

(** [start_worker]: [c0] is the state in which the child of the service starts,
    when it has one; [monitor] is the modification time of the watched file, when
    there is one *)
Definition new_process_cache : WorkerCache D C := MkCache PyDict.empty (RSummaries []) ∅ [] [] None.
Definition start_worker (n : nat) (c0 : option C) (monitor : option (option Qc)) : M QgisWorker unit :=
  match c0 with
  | Some c => on_cache new_process_cache (cache_start _describe _update n c)
  | None => mret tt
  end;;
  match monitor with
  | Some mtime =>
      modify (fun q => MkWorker (qw_hostname q) (qw_tasks q ++ [("reload", WatchReload, 5%Z)]) (qw_running q)
                         (Some (new_watch mtime)) (qw_cache q) (qw_restarts q))
  | None => mret tt
  end.

(** [on_worker_ready], [on_worker_shutdown] *)
Definition update_cache_if (n : nat) : M QgisWorker unit :=
  q ← get;
  match qw_cache q with
  | Some w => on_cache w (cache_update _describe _update n);; mret tt
  | None => mret tt
  end.
Definition on_worker_ready (n : nat) : M QgisWorker unit := set_running true;; update_cache_if n.
Definition on_worker_shutdown (n : nat) : M QgisWorker unit :=
  q ← get;
  match qw_cache q with
  | Some w => on_cache w (cache_stop _describe _update n)
  | None => mret tt
  end;;
  set_running false.

(** [reload_processes] *)
Definition reload_processes (n : nat) : M QgisWorker unit :=
  update_cache_if n;;
  modify (fun q => MkWorker (qw_hostname q) (qw_tasks q) (qw_running q) (qw_watch q) (qw_cache q)
                     (qw_restarts q ++ [qw_hostname q])).

(** One turn of the task that watches the file: its exceptions are logged *)
Definition watch_turn (n : nat) (mtime : option Qc) : M QgisWorker unit :=
  q ← get;
  match qw_watch q, mtime with
  | Some last, Some m =>
      if qw_running q && Qc_lt last m
      then set_watch m;; try_except (reload_processes n) (fun _ => Some (mret tt))
      else mret tt
  | _, _ => mret tt
  end.

(** The commands [reload_processes_cache], [list_processes], [describe_process] *)
Definition reload_processes_cache (n : nat) : M QgisWorker unit := update_cache_if n.
Definition list_processes : M QgisWorker (list ProcessSummary) :=
  q ← get;
  match qw_cache q with
  | Some w => match wc_processes w with
              | RSummaries l => mret l
              | _ => raise (OtherException "PydanticSerializationError")
              end
  | None => mret []
  end.
Definition describe_process (n : nat) (ident : string) (project_path : option string) : M QgisWorker (option JsonValue) :=
  q ← get;
  match qw_cache q with
  | Some w => on_cache w (cache_describe model_dump _describe _update n ident project_path)
  | None => mret None
  end.

(** ** What a worker promises *)

(** The service as it is seen: the child, what it listed last and the processes it
    knows, the watched time, and the restarts *)
Record Service : Type := MkService {
  sv_child : C; sv_listed : list ProcessSummary; sv_watch : option Qc; sv_restarts : nat;
}.
Definition sv_known (s : Service) : gset string := list_to_set (ps_id <$> sv_listed s).

Inductive event : Type :=
| EvReady | EvWatch (mtime : option Qc) | EvReload | EvList | EvDescribe (ident : string) (project : option string).
Inductive answer : Type :=
| AnDone (ok : bool) | AnList (r : res (list ProcessSummary)) | AnDescription (r : res (option JsonValue)).
Definition is_ok {A} (r : res A) : bool := match r with Ok _ => true | Raise _ => false end.

Definition run_event (n : nat) (e : event) (q : QgisWorker) : answer * QgisWorker :=
  match e with
  | EvReady => let '(r, q) := on_worker_ready n q in (AnDone (is_ok r), q)
  | EvWatch m => let '(r, q) := watch_turn n m q in (AnDone (is_ok r), q)
  | EvReload => let '(r, q) := reload_processes_cache n q in (AnDone (is_ok r), q)
  | EvList => let '(r, q) := list_processes q in (AnList r, q)
  | EvDescribe i p => let '(r, q) := describe_process n i p q in (AnDescription r, q)
  end.

(** A service lists what its child answered last; a reload asks it again, and the
    pool is restarted when the watched file changed and the child answered. *)
Definition service_update (s : Service) : bool * Service :=
  match _update (sv_child s) with
  | (Ok l, c) => (true, MkService c l (sv_watch s) (sv_restarts s))
  | (Raise _, _) => (false, s)
  end.
Definition service_event (e : event) (s : Service) : answer * Service :=
  match e with
  | EvReady | EvReload => let '(ok, s) := service_update s in (AnDone ok, s)
  | EvWatch m =>
      match sv_watch s, m with
      | Some last, Some m =>
          if Qc_lt last m
          then let '(ok, s) := service_update s in
               (AnDone true, MkService (sv_child s) (sv_listed s) (Some m) (if ok : bool then S (sv_restarts s) else sv_restarts s))
          else (AnDone true, s)
      | _, _ => (AnDone true, s)
      end
  | EvList => (AnList (Ok (sv_listed s)), s)
  | EvDescribe i p =>
      (AnDescription (spec_describe model_dump _describe i p (MkProcesses (sv_child s) (sv_known s))), s)
  end.

Fixpoint run_worker (es : list (nat * event)) (q : QgisWorker) : list answer * QgisWorker :=
  match es with
  | [] => ([], q)
  | (n, e) :: es => let '(a, q) := run_event n e q in let '(l, q) := run_worker es q in (a :: l, q)
  end.
Fixpoint run_service (es : list event) (s : Service) : list answer * Service :=
  match es with
  | [] => ([], s)
  | e :: es => let '(a, s) := service_event e s in let '(l, s) := run_service es s in (a :: l, s)
  end.
End life.

(** ** A worker and its service *)
Section refines.
Context {D C : Type} (model_dump : D → JsonValue).
Context (_describe : C → string → option string → res D) (_update : C → res (list ProcessSummary) * C).
Context (update_atomic : ∀ c e c', _update c = (Raise e, c') → c' = c).
Implicit Types (q : QgisWorker (D := D) (C := C)) (s : Service (C := C)).

Lemma cache_update_lists n (w : WorkerCache D C) p :
  in_sync _describe w p → 1 ≤ n →
  match _update (sp_child p) with
  | (Ok l, c) => ∃ w', cache_update _describe _update n w = (Ok (RSummaries l), w') ∧
      in_sync _describe w' (MkProcesses c (list_to_set (ps_id <$> l))) ∧ wc_processes w' = RSummaries l
  | (Raise _, _) => ∃ e w', cache_update _describe _update n w = (Raise e, w') ∧
      in_sync _describe w' p ∧ wc_processes w' = wc_processes w
  end.
Proof.
  intros Hs Hn. pose proof (update_refines _describe _update update_atomic n w p Hs Hn) as H.
  destruct (cache_update _describe _update n w) as [r w'] eqn:E.
  destruct Hs as (Hs & Hr & Hc & Hk & Hw & Hd). destruct w as [ds ps kn st rc ch]. simpl in *. subst.
  move: H E. rw /spec_update /cache_update. py_unfold. rw /is_alive /= ask_idle //= /child_turn /set_pipe /=; [by destruct (_update _)|].
  destruct (_update (sp_child p)) as [[l|e] c] eqn:Eu; simpl.
  - intros [-> H] [= <-]. by eexists.
  - intros [-> H] [= <-]. eexists _, _. split; [done|]. split; [|done].
    destruct p as [c' kn]. simpl in *. by apply update_atomic in Eu as ->.
Qed.

(** The worker stands for a service; [b] is whether its tasks run. *)
Definition represents (b : bool) q s : Prop :=
  ∃ w, qw_cache q = Some w ∧ in_sync _describe w (MkProcesses (sv_child s) (sv_known s)) ∧
    wc_processes w = RSummaries (sv_listed s) ∧ qw_watch q = sv_watch s ∧
    qw_restarts q = replicate (sv_restarts s) (qw_hostname q) ∧ qw_running q = b.

Lemma update_cache_if_represents b n q s : represents b q s → 1 ≤ n →
  let '(r, q') := update_cache_if _describe _update n q in
  let '(ok, s') := service_update _update s in
  is_ok r = ok ∧ represents b q' s' ∧ qw_hostname q' = qw_hostname q.
Proof.
  intros (w & Hq & Hs & Hl & Hw & Hr & Hb) Hn. rw /update_cache_if /service_update. py_unfold. rw Hq.
  apply (cache_update_lists n) in Hs as Hu; [|done]. simpl in Hu.
  destruct (_update (sv_child s)) as [[l|e] c].
  - destruct Hu as (w' & Hu & Hs' & Hl'). rw /on_cache Hu /=. split_and!; try done.
    exists w'. by split_and!.
  - destruct Hu as (e' & w' & Hu & Hs' & Hl'). rw /on_cache Hu /=. split_and!; try done.
    exists w'. split_and!; try done. by rw Hl'.
Qed.

Lemma describe_keeps_list n (w : WorkerCache D C) p i pr :
  in_sync _describe w p → 1 ≤ n → wc_processes (cache_describe model_dump _describe _update n i pr w).2 = wc_processes w.
Proof.
  intros Hs Hn. rw /cache_describe. py_unfold. destruct (is_alive w); [|done]. case_decide; [|done].
  case_match; [done|].
  rw (ask_describe _ _ n w p) //. by destruct (_describe (sp_child p) i pr).
Qed.

(** The requests of an event: identifiers without [@]. *)
Definition plain_event (e : event) : Prop := match e with EvDescribe i pr => plain_request i pr | _ => True end.

Lemma watch_turn_represents n m q s : represents true q s → 1 ≤ n →
  let '(r, q') := watch_turn _describe _update n m q in
  let '(a, s') := service_event model_dump _describe _update (EvWatch m) s in
  AnDone (is_ok r) = a ∧ represents true q' s' ∧ qw_hostname q' = qw_hostname q.
Proof.
  intros Hrep Hn. pose proof Hrep as (w & Hq & Hs & Hl & Hw & Hr & Hb).
  rw /watch_turn /service_event. py_unfold. rw Hw Hb.
  destruct (sv_watch s) as [last|] eqn:Hlast; [|done]. destruct m as [m|]; [|done]. simpl.
  destruct (Qc_lt last m); [|done].
  set (q1 := MkWorker _ _ _ _ _ _). set (s1 := MkService (sv_child s) (sv_listed s) (Some m) (sv_restarts s)).
  assert (represents true q1 s1) as H1 by by exists w.
  apply (update_cache_if_represents true n) in H1 as H2; [|done].
  rw /reload_processes /try_except. py_unfold.
  assert (service_update _update s1 = let '(ok, s') := service_update _update s in
            (ok, MkService (sv_child s') (sv_listed s') (Some m) (sv_restarts s'))) as Es.
  { rw /service_update /=. by destruct (_update (sv_child s)) as [[] ?]. }
  destruct (update_cache_if _describe _update n q1) as [[[]|e] q2]; rw Es in H2;
    destruct (service_update _update s) as [ok s']; destruct H2 as (<- & H2 & Hh); cbn [is_ok]; simpl.
  - split_and!; [done| |done]. destruct H2 as (w2 & ? & ? & ? & ? & Hr2 & ?). exists w2. split_and!; try done.
    simpl. by rw Hr2 /= -replicate_cons_app.
  - by split_and!.
Qed.

Lemma ready_represents b n q s : represents b q s → 1 ≤ n →
  let '(a, q') := run_event model_dump _describe _update n EvReady q in
  let '(a', s') := service_event model_dump _describe _update EvReady s in
  a = a' ∧ represents true q' s' ∧ qw_hostname q' = qw_hostname q.
Proof.
  intros (w & ? & ? & ? & ? & ? & _) Hn. simpl. rw /on_worker_ready. py_unfold. simpl.
  set (q1 := MkWorker _ _ _ _ _ _).
  assert (represents true q1 s) as Hq1 by by exists w.
  apply (update_cache_if_represents true n) in Hq1 as Hq2; [|done].
  destruct (update_cache_if _ _ _ _) as [r q2], (service_update _ _) as [ok s']. by destruct Hq2 as (<- & ? & ?).
Qed.

Lemma event_represents n e q s : represents true q s → 1 ≤ n → plain_event e →
  let '(a, q') := run_event model_dump _describe _update n e q in
  let '(a', s') := service_event model_dump _describe _update e s in
  a = a' ∧ represents true q' s' ∧ qw_hostname q' = qw_hostname q.
Proof.
  intros Hrep Hn Hp. destruct e as [|m| | |i pr]; [by eapply ready_represents|cbn [run_event]|simpl..].
  - apply (watch_turn_represents n m) in Hrep as H; [|done].
    destruct (watch_turn _ _ _ _ _) as [r q2], (service_event _ _ _ _ _) as [a s']. by destruct H as (-> & ? & ?).
  - apply (update_cache_if_represents true n) in Hrep as H; [|done]. rw /reload_processes_cache.
    destruct (update_cache_if _ _ _ _) as [r q2], (service_update _ _) as [ok s']. by destruct H as (<- & ? & ?).
  - destruct Hrep as (w & Hq & ? & Hl & ?). rw /list_processes. py_unfold. rw Hq Hl. split_and!; try done. by exists w.
  - destruct Hrep as (w & Hq & Hs & Hl & Hw & Hr & Hb). rw /describe_process. py_unfold. rw Hq /on_cache.
    pose proof (describe_refines model_dump _describe _update n w _ i pr Hs Hn Hp) as H.
    pose proof (describe_keeps_list n w _ i pr Hs Hn) as H'.
    destruct (cache_describe _ _ _ _ _ _ _) as [r w']. destruct H as [-> Hs']. simpl in H'.
    split_and!; try done. exists w'. by rw H'.
Qed.

End refines.

(** The name of a job is the one it was declared with. *)
Lemma job_name_task main name : job_name main (task_name main name) = name.
Proof. rw /job_name /task_name -str_app_assoc. apply removeprefix_app. Qed.

(** The inputs of a job are its parameters that can be given by name, in order,
    unless one of them has no annotation. *)
Lemma models_inputs {T} qualname (ps : list (Parameter_ T)) :
  match _models qualname ps with
  | Ok l => l.*1 = pm_name <$> filter (fun p => is_input (pm_kind p) = true) ps
  | Raise e => ∃ p, p ∈ ps ∧ is_input (pm_kind p) = true ∧ pm_annotation p = None
  end.
Proof.
  induction ps as [|p ps IH]; [done|]. cbn [_models]. rw filter_cons.
  assert ((∃ p0, p0 ∈ ps ∧ is_input (pm_kind p0) = true ∧ pm_annotation p0 = None) →
          ∃ p0, p0 ∈ p :: ps ∧ is_input (pm_kind p0) = true ∧ pm_annotation p0 = None) as Hex.
  { intros (p0 & ? & ?). exists p0. split; [by right|done]. }
  destruct (is_input (pm_kind p)) eqn:Hk; simpl.
  - destruct (pm_annotation p) as [t|] eqn:Ha; [|exists p; by split; [left|]].
    destruct (_models qualname ps); csimpl; [by rw IH|by apply Hex].
  - destruct (_models qualname ps); [done|by apply Hex].
Qed.

(** ** Configurations and a worker *)
Module WorkerAppDemo.
Definition conf (t : option TLSConfig) : CeleryConfig :=
  MkCelery "broker" true None None t "redis:6379/0" true (Some "secret") None None 3600 60 86400
    None (Some 4%Z) None None (MkScheduler false None None).
Definition dflt (k : string) : JsonValue := if bool_decide (k = "broker_use_ssl") then JBool false else JNull.
Definition broker_use_ssl (t : option TLSConfig) : res unit * option JsonValue :=
  let '(r, s) := celery_init dflt (conf t) [] [] in (r, assoc "broker_use_ssl" s).

(** A client certificate without an authority, and a connection in clear for
    options that are all empty. *)
Example tls_no_authority : (broker_use_ssl (Some (MkTLS None (Some "cert") (Some "key")))).1
  = Raise (OtherException "AttributeError: update").
Proof. reflexivity. Qed.
Example tls_in_clear : broker_use_ssl (Some (MkTLS None None None)) = (Ok tt, None).
Proof. reflexivity. Qed.
Example tls_alone : broker_use_ssl None = (Ok tt, Some (JBool true)).
Proof. reflexivity. Qed.
Example urls : (broker_url (conf None), backend_url (conf None)) = ("amqp://broker", "rediss://:secret@redis:6379/0").
Proof. reflexivity. Qed.

(** A maximum of processes is not used without a minimum. *)
Example no_autoscale : assoc "autoscale" (start_arguments dflt (conf None) "w@h" [] []) = None.
Proof. reflexivity. Qed.

Example documented : _format_doc (Some (" Title" +:+ String (ascii_of_N 10) (String (ascii_of_N 10) "More"))) "f" = ("Title", "More").
Proof. reflexivity. Qed.

Definition events : list (nat * event) :=
  [(1, EvList); (2, EvDescribe "buffer" None); (1, EvWatch (Some (Qc_of_Z 3))); (1, EvList); (1, EvDescribe "none" None);
   (1, EvWatch (Some (Qc_of_Z 3)))].

End WorkerAppDemo.
