(* ===== verification/ProcessContext.v ===== *)
(** * The context of a processing job

    [qjazz_processes/worker/context.py]: the project of a job, read from the
    cache of the worker process, and the execution of a job in its directory;
    [qjazz_processing/processing.py] and [processing/processes.py]: the
    processes of QGIS as they are listed, described, validated and run.  QGIS
    is a parameter: algorithms, their parameters and their run. *)
From S2P Require Import Prelude PyDict PyStd PyTemplate Routes CacheManager Json Web Registry Executor JobsApi ProcessesApi Store Callbacks WorkerJobs WorkerFiles.

(** ** worker/context.py: projects *)
Section project.
Context {Project : Type} (env : Env Project) (now_evict now_hit : Qc).
Context (routes : Routes) (allow_direct : bool) (max_cached_projects : nat).

(** [cm.update(md, status)] with what [checkout] found: an entry of the cache
    has no attribute [uri], which every status it comes with reads first *)
Definition update_found (found : option (Found Project)) (status : CheckoutStatus) :
    M (CacheManager Project) (CacheEntry Project * CheckoutStatus) :=
  match found with
  | Some (FoundMetadata m) => CacheManager.update env m status None
  | Some (FoundEntry _) => raise (OtherException "AttributeError: 'CacheEntry' object has no attribute 'uri'")
  | None => raise (OtherException "AttributeError: 'NoneType' object has no attribute 'uri'")
  end.

(** [status == Co.NEW and len(cm) >= max_cached_projects]: room is made *)
Definition make_room (status : CheckoutStatus) : M (CacheManager Project) unit :=
  cm ← get;
  if decide (status = NEW ∧ max_cached_projects ≤ cm_len cm)
  then evict_by_popularity env now_evict;; mret tt
  else mret tt.

(** [QgisContext.project]; the entry that is hit is the one of the cache *)
Definition context_project (path : string) : M (CacheManager Project) Project :=
  url ← pure (resolve_path routes allow_direct path false);
  found ← checkout env url;
  match found.2 with
  | REMOVED => update_found found.1 REMOVED;; raise (FileNotFoundError (urlunsplit url))
  | NOTFOUND => raise (FileNotFoundError (urlunsplit url))
  | status =>
      make_room status;;
      es ← update_found found.1 status;
      modify (fun cm => CacheManager.set_cache (PyDict.alter (hit_me now_hit) (uri (md es.1)) (_cache cm)) cm);;
      mret (project es.1)
  end.
End project.

(** ** processing/processes.py *)

(** The flags of an algorithm that the code reads. *)
Inductive AlgFlag : Type :=
| HideFromToolbox | NotAvailableInStandaloneTool | Deprecated | RequiresProject | KnownIssues.

(** An algorithm of QGIS: [P] are projects, [V] the values of parameters.  The
    definitions of its parameters and of its outputs are read in a project. *)
Record Algorithm (P V : Type) : Type := MkAlgorithm {
  al_id : string; al_display_name : string; al_help_url : string;
  al_flags : AlgFlag → bool;
  al_inputs : option P → list (string * JsonValue);
  al_outputs : list string;
  al_validate_output : string → JsonValue → res unit;
  al_parameters : option P → list (string * JsonValue) → res V;
  al_run : V → res (list (string * JsonValue));
  al_output : string → JsonValue → res JsonValue;
}.
Arguments al_id {_ _} _.
Arguments al_display_name {_ _} _.
Arguments al_help_url {_ _} _.
Arguments al_flags {_ _} _ _.
Arguments al_inputs {_ _} _ _.
Arguments al_outputs {_ _} _.
Arguments al_validate_output {_ _} _ _ _.
Arguments al_parameters {_ _} _ _ _.
Arguments al_run {_ _} _ _.
Arguments al_output {_ _} _ _ _.

Section algorithms.
Context {P V : Type} (HttpUrl : string → res string) (qgis_version : string) (qgis_version_int : Z).
Implicit Types (alg : Algorithm P V).

(** [ProcessAlgorithm.hidden] and the other flags: one bit of the mask is enough *)
Definition hidden alg : bool := al_flags alg HideFromToolbox || al_flags alg NotAvailableInStandaloneTool.
Definition deprecated alg : bool := al_flags alg Deprecated.
Definition require_project alg : bool := al_flags alg RequiresProject.
Definition known_issues alg : bool := al_flags alg KnownIssues.

(** [ProcessAlgorithm.algorithms], from the providers by their id *)
Definition algorithms (providers : list (string * list (Algorithm P V))) (include_deprecated : bool)
    (only : list string) : list (Algorithm P V) :=
  providers ≫= fun p =>
    if decide (only ≠ [] ∧ p.1 ∉ only) then []
    else filter (fun a => negb (hidden a) && (include_deprecated || negb (deprecated a)) = true) p.2.

(** [ProcessAlgorithm._description], [summary] *)
Definition summary alg : res ProcessSummary :=
  links ← (if str_truth (al_help_url alg)
           then u ← HttpUrl (al_help_url alg); Ok [MkLink u "about" "text/html" "Process documentation"]
           else Ok []);
  Ok (MkSummary (al_id alg) (al_display_name alg)
        [MdValue (Some "QgisVersion") None (JStr qgis_version);
         MdValue (Some "QgisVersionInt") None (JInt qgis_version_int);
         MdValue (Some "Deprecated") None (JBool (deprecated alg));
         MdValue (Some "KnownIssues") None (JBool (known_issues alg));
         MdValue (Some "RequiresProject") None (JBool (require_project alg))]
        ["sync-execute"; "async-execute"; "dismiss"] links).

(** [JobExecute] *)
Record JobExecute : Type := MkJobExecute {
  je_inputs : list (string * JsonValue); je_outputs : list (string * JsonValue);
}.

(** [ProcessAlgorithm.validate_execute_parameters]: the parameters *)
Definition validate_execute_parameters alg (request : JobExecute) (project : option P) : res V :=
  if require_project alg && bool_decide (project = None)
  then Raise (InputValueError "Algorithm {self.ident} require project")
  else
    foldl (fun r o => r ≫= fun _ =>
             match assoc o (je_outputs request) with
             | Some out => al_validate_output alg o out
             | None => Ok tt
             end) (Ok tt) (al_outputs alg) ≫= fun _ =>
    al_parameters alg project (je_inputs request).

(** [ProcessAlgorithm.execute], in a directory that exists: what an algorithm
    does not answer is an error *)
Definition alg_execute alg (request : JobExecute) (project : option P) (workdir_exists : bool) :
    res (list (string * JsonValue)) :=
  if workdir_exists then
    parameters ← validate_execute_parameters alg request project;
    results ← al_run alg parameters;
    if decide (Forall (fun o => is_Some (assoc o results)) (al_outputs alg))
    then seq_res ((fun o => v ← al_output alg o (default JNull (assoc o results)); Ok (o, v)) <$> al_outputs alg)
    else Raise (RunProcessException "Incomplete output for algorithm")
  else Raise (PreconditionError "Context workdir is not a directory").
End algorithms.

(** ** worker/context.py: the execution of a job *)
Section execute.
Context {P V : Type} (env : Env P) (now_evict now_hit : Qc).
Context (routes : Routes) (allow_direct : bool) (max_cached_projects : nat).
Context (workdir : ppath) (service_name : option string) (with_expiration : bool).

(** The cache of the worker process and its files. *)
Record Ctx : Type := MkCtx { cx_cm : CacheManager P; cx_fs : FS }.
Definition on_cm {A} (m : M (CacheManager P) A) : M Ctx A := zoom cx_cm (fun c s => MkCtx c (cx_fs s)) m.
Definition on_fs (f : FS → FS) : M Ctx unit := modify (fun s => MkCtx (cx_cm s) (f (cx_fs s))).

Definition find_project (project_path : option string) : M Ctx (option P) :=
  match project_path with
  | Some path => if str_truth path
                 then p ← on_cm (context_project env now_evict now_hit routes allow_direct max_cached_projects path);
                      mret (Some p)
                 else mret None
  | None => mret None
  end.

Definition expire_file : string :=
  match service_name with
  | Some s => if str_truth s then EXPIRE_FILE +:+ "-" +:+ s else EXPIRE_FILE
  | None => EXPIRE_FILE
  end.

(** [workdir.mkdir(parents=True, exist_ok=...)] *)
Definition mkdir (d : ppath) (exist_ok : bool) : M Ctx unit :=
  s ← get;
  if decide (d ∈ fs_dirs (cx_fs s)) then
    if exist_ok then mret tt else raise (OtherException "FileExistsError")
  else if is_file d (cx_fs s) then raise (OtherException "FileExistsError")
  else on_fs (fun fs => MkFS ({[ d ]} ∪ fs_dirs fs) (fs_files fs)).

(** The text of [.files]: a line for each name *)
Definition files_text (files : list string) : string :=
  join "" ((fun f => f +:+ String newline "") <$> files).

(** [QgisContext.job_execute]: [job] answers its results and the names it
    published, [save] writes the project of the results *)
Definition job_execute (job : option P → M FS (JobResults * list string)) (save : M FS unit)
    (task_id ident : string) (require : bool) (project_path : option string) : M Ctx JobResults :=
  project ← find_project project_path;
  if require && bool_decide (project = None) then
    raise (ProjectRequired ("Algorithm " +:+ ident +:+ " require project"))
  else
    let dir := jobdir workdir task_id in
    mkdir dir (negb with_expiration);;
    (if with_expiration
     then on_fs (fun fs => let p := path_join dir (path_of expire_file) in
                           write_file p (default "" (fs_files fs !! p)) fs)
     else mret tt);;
    rf ← zoom cx_fs (fun fs s => MkCtx (cx_cm s) fs) (job project);
    on_fs (write_file (path_join dir (path_of PUBLISHED_FILES)) (files_text rf.2));;
    zoom cx_fs (fun fs s => MkCtx (cx_cm s) fs) save;;
    mret rf.1.

(** ** qjazz_processing/processing.py *)
Context (find_algorithm : string → option (Algorithm P V)).

(** [QgisProcessingContext.describe] *)
Definition context_describe (ident : string) (project_path : option string) :
    M Ctx (option (Algorithm P V * option P)) :=
  match find_algorithm ident with
  | Some alg => project ← find_project project_path; mret (Some (alg, project))
  | None => mret None
  end.

(** [QgisProcessingContext.validate] *)
Definition context_validate (ident : string) (request : JobExecute) (project_path : option string) : M Ctx V :=
  match find_algorithm ident with
  | None => raise (ProcessNotFound ("Algorithm '" +:+ ident +:+ "' not found"))
  | Some alg =>
      project ← find_project project_path;
      if require_project alg && bool_decide (project = None)
      then raise (ProjectRequired ("Algorithm " +:+ ident +:+ " require project"))
      else pure (validate_execute_parameters alg request project)
  end.

(** [QgisProcessingContext.execute] *)
Definition context_execute (job : Algorithm P V → JobExecute → option P → M FS (JobResults * list string))
    (save : M FS unit) (task_id ident : string) (request : JobExecute) (project_path : option string) :
    M Ctx JobResults :=
  match find_algorithm ident with
  | None => raise (ProcessNotFound ("Algorithm '" +:+ ident +:+ "' not found"))
  | Some alg => job_execute (job alg request) save task_id ident (require_project alg) project_path
  end.

(** ** qjazz_processing/jobs.py: [execute_process] of the worker *)
Definition worker_execute_process {T} (types_map : string → option string) (store_url : string)
    (dump_links : list FileLink → string) (st : Storage T)
    (job : Algorithm P V → JobExecute → option P → M FS (JobResults * list string)) (save : M FS unit)
    (task_id ident : string) (request : JobExecute) (project_path : option string) : M (Ctx * T) JobResults :=
  result ← zoom fst (fun c s => (c, s.2)) (context_execute job save task_id ident request project_path);
  zoom (fun s => (cx_fs s.1, s.2)) (fun ft s => (MkCtx (cx_cm s.1) ft.1, ft.2))
    (store_files types_map workdir store_url dump_links st task_id true);;
  mret result.
End execute.

(** ** Properties *)
Section projects.
Context {P : Type} (env : Env P) (now_evict now_hit : Qc).
Context (routes : Routes) (allow_direct : bool) (max : nat) (max_pos : 0 < max).
Implicit Types (cm : CacheManager P).

Abbreviation load := (context_project env now_evict now_hit routes allow_direct max).

(** The cache of a worker process: well formed, within its size, and none of its
    entries pinned, so that there is always one to evict. *)
Definition ctx_inv cm : Prop :=
  cm_inv cm ∧ cm_len cm ≤ max ∧ ∀ e, e ∈ iter cm → pinned e = false.

Lemma iter_insert cm u e x :
  x ∈ iter (CacheManager.set_cache (PyDict.insert u e (_cache cm)) cm) → x = e ∨ x ∈ iter cm.
Proof.
  rw /iter /values. rw !list_elem_of_fmap. intros (kv & -> & [->|Hin]%items_insert_elem); [by left|].
  right. by exists kv.
Qed.

Lemma dlen_insert_le {V} k (v : V) (d : pydict string V) : wf d → dlen (PyDict.insert k v d) ≤ S (dlen d).
Proof.
  intros Hw.   destruct (lookup k d) eqn:E; [|by rw dlen_insert_new].
  rw dlen_insert_old; [done|by eexists|lia].
Qed.

(** Room is made for one more entry, unless nothing was loaded. *)
Lemma make_room_inv cm r cm1 :
  ctx_inv cm → make_room env now_evict max NEW cm = (r, cm1) →
  ctx_inv cm1 ∧ (r = Ok tt → S (cm_len cm1) ≤ max).
Proof.
  intros (Hi & Hl & Hp). rw /make_room. erewrite bind_ok by reflexivity.
  case_decide as Hd; [|intros [= <- <-]; split; [done|]; intros _; apply not_and_l in Hd as [?|?]; [done|lia]].
  intros [(c & cm2 & He & [= <- <-])|(e & He & ->)]%bind_inv.
  - pose proof (evict_spec _ _ _ _ _ Hi He) as Hs. destruct c as [c|].
    + pose proof (evict_len _ _ _ _ _ Hi He) as Hlen. destruct Hs as (_ & _ & _ & Hc & _).
      assert (cm_inv cm2) as Hi2 by (by eapply preserves_run; [apply preserves_evict|..]).
      split; [|intros _; lia]. split_and!; [done|lia|]. intros e. rw /iter /values Hc.
      rw list_elem_of_fmap. intros ([k y] & -> & Hy%items_delete_elem). apply Hp.
      rw /iter /values list_elem_of_fmap. by exists (k, y).
    + exfalso. destruct Hs as [-> Hs]. destruct (iter cm) as [|e l] eqn:Eit.
      * assert (cm_len cm = 0); [|lia]. revert Eit. rw /iter /values /cm_len /dlen. by destruct (items _).
      * specialize (Hs e ltac:(by left)). rw Hp in Hs; [by left|done].
  - split; [|done]. assert (cm1 = cm) as ->; [|done].
    revert He. rw /evict_by_popularity. erewrite bind_ok by reflexivity.
    intros [(c & s2 & [= Hm <-] & H)|(e' & [= _ <-] & _)]%bind_inv; [|done].
    destruct c as [c|]; [|done]. exfalso.
    apply bind_inv in H as [(a & s3 & _ & H)|(e' & H & _)]; [done|].
    apply min_by_spec in Hm as (Hin & _); [|done]. destruct Hin as [[_ Hin]%list_elem_of_filter|]; [|done].
    destruct (update_removed env (md c) None cm c) as [rm Hu]; [by apply iter_lookup|].
    by rw Hu in H.
Qed.

(** An entry that is hit stays unpinned and in its place. *)
Lemma hit_inv cm u :
  ctx_inv cm → ctx_inv (CacheManager.set_cache (PyDict.alter (hit_me now_hit) u (_cache cm)) cm).
Proof.
  intros (Hi & Hl & Hp). split_and!.
  - by apply cm_inv_alter.
  - rw /cm_len /= dlen_alter //. apply Hi.
  - intros e. rw /PyDict.alter. destruct (lookup u (_cache cm)) as [x|] eqn:Hx; [|by apply Hp].
    intros [->|?]%iter_insert; [|by apply Hp]. simpl. apply Hp.
    apply lookup_items in Hx; [|apply Hi]. rw /iter /values list_elem_of_fmap. by exists (u, x).
Qed.

(** Loading a new project where there is room. *)
Lemma load_new_inv m cm r cm' :
  ctx_inv cm → S (cm_len cm) ≤ max → CacheManager.update env m NEW None cm = (r, cm') → ctx_inv cm'.
Proof.
  intros (Hi & Hl & Hp) Hroom Hu.
  assert (cm_inv cm') as Hi' by (by eapply preserves_run; [apply preserves_update|..]).
  revert Hu. simpl. intros [(h & s1 & [= _ <-] & H)|(e & [= _ <-] & _)]%bind_inv; [|done].
  apply bind_inv in H as [(en & s1 & [= He <-] & H)|(e & [= _ <-] & _)]; [|done].
  injection H as _ <-. split_and!; [done| |].
  - pose proof (dlen_insert_le (uri m) en (_cache cm) (proj1 Hi)). rw /cm_len /=. unfold cm_len in Hroom. lia.
  - intros x [->|?]%iter_insert; [|by apply Hp]. revert He. rw /_new_cache_entry.
    by intros (p & _ & [= <-])%res_bind_inv.
Qed.

(** Whatever the jobs that a worker process runs, and whether they find their
    projects or not, its cache never holds more than [max_cached_projects]
    projects. *)
Theorem context_project_bounded path : preserves ctx_inv (load path).
Proof.
  intros cm Hcm. destruct (load path cm) as [r cm'] eqn:E. revert E. rw /context_project.
  intros [(url & s & [= _ <-] & H)|(e & [= _ <-] & _)]%bind_inv; [|done].
  apply bind_inv in H as [([f st] & s & Hc & H)|(e & Hc & _)]; [|by rw (checkout_pure _ _ _ _ _ Hc)].
  apply checkout_sound in Hc as [-> (h & _ & Hs)]. simpl in H.
  destruct f as [[m|en]|], st; try done; try (by injection H as _ <-).
  - apply bind_inv in H as [([] & s1 & Hr & H)|(e & Hr & _)];
      destruct (make_room_inv _ _ _ Hcm Hr) as [Hs1 Hroom]; [|done].
    apply bind_inv in H as [([en st] & s2 & Hu & H)|(e & Hu & _)];
      pose proof (load_new_inv _ _ _ _ Hs1 (Hroom eq_refl) Hu) as Hs2; [|done].
    injection H as _ <-. by apply hit_inv.
Qed.

(** A worker process can use a project once.  The first job that asks for it
    loads it; as long as it stays in the cache, every other job that asks for it
    fails with an [AttributeError], whether the project is up to date, out of
    date or removed. *)
Theorem context_project_once path url m cm p cm' :
  cm_inv cm → resolve_path routes allow_direct path false = Ok url →
  checkout env url cm = (Ok (Some (FoundMetadata m), NEW), cm) → load path cm = (Ok p, cm') →
  load path cm' =
    (Raise (OtherException "AttributeError: 'CacheEntry' object has no attribute 'uri'"), cm').
Proof.
  intros Hi Hurl Hc. rw /context_project Hurl.
  erewrite bind_ok by reflexivity. erewrite bind_ok by exact Hc. simpl.
  intros ([] & s1 & Hr & H)%bind_ok_inv. apply bind_ok_inv in H as ([e st] & s2 & Hu & [= _ <-]).
  assert (cm_inv s1) as Hi1.
  { eapply preserves_run; [|exact Hi|exact Hr]. rw /make_room. apply preserves_bind; [by intros ?|intros c].
    case_decide; [apply preserves_bind; [apply preserves_evict|auto with py]|auto with py]. }
  change (CacheManager.update env m NEW None s1 = (Ok (e, st), s2)) in Hu.
  destruct (update_load_lookup _ _ _ _ _ _ _ _ Hi1 (or_introl eq_refl) Hu) as (Hmd & Hl & _).
  assert (wf (_cache s2)) as Hw2.
  { pose proof (preserves_update env m NEW None s1 Hi1) as [? _]. by rw Hu in H. }
  apply checkout_sound in Hc as (_ & h & Hh & Hm & _).
  erewrite bind_ok; [|reflexivity].
  set (cm2 := CacheManager.set_cache _ _).
  assert (lookup (uri m) (_cache cm2) = Some (hit_me now_hit e)) as Hl2.
  { by rw /cm2 /= lookup_alter // Hmd decide_True // Hl. }
  assert (checkout env url cm2 = (Ok (Some (FoundEntry (hit_me now_hit e)), UNCHANGED), cm2)) as Hck.
  { rw /checkout. py_unfold. rw Hh Hm Hl2.
    assert (out_of_date m (hit_me now_hit e) = false) as ->; [|done].
    apply out_of_date_false. simpl. rw Hmd. apply Qcle_refl. }
  erewrite bind_ok by exact Hck. simpl. rw /make_room. erewrite bind_ok; [|by erewrite bind_ok by reflexivity].
  done.
Qed.
End projects.

(** ** Examples *)
Module ContextDemo.
Import CacheManager.Demo.
Definition search : Routes :=
  match build_routes (fun _ => None) [("/", "file:///")] with Ok r => r | Raise _ => [] end.
Definition stored : Env string := demo_env [("/a", 1); ("/b", 1)]%Z.
Definition ask (path : string) : M (CacheManager string) string :=
  context_project stored (Qc_of_Z 20) (Qc_of_Z 21) search false 1 path.
End ContextDemo.
Import CacheManager.Demo ContextDemo.

Lemma context_project_bounded_witness : ctx_inv 1 (ask "/b" (loaded [("/a", 1)]%Z)).2.
Proof.
  apply (context_project_bounded stored (Qc_of_Z 20) (Qc_of_Z 21) search false 1 ltac:(lia) "/b").
  split_and!; [apply loaded_inv|vm_compute; lia|]. vm_compute. intros e ->%list_elem_of_singleton. done.
Defined.

Lemma context_project_once_witness :
  let cm' := (ask "/a" new_cache_manager).2 in
  (ask "/a" new_cache_manager).1 = Ok "/a" ∧
  ask "/a" cm' = (Raise (OtherException "AttributeError: 'CacheEntry' object has no attribute 'uri'"), cm').
Proof.
  intros cm'. split; [vm_compute; reflexivity|].
  apply (context_project_once stored (Qc_of_Z 20) (Qc_of_Z 21) search false 1 "/a" (demo_url "/a")
    (demo_md "/a" 1) new_cache_manager "/a"); [apply cm_inv_new|vm_compute; reflexivity..].
Defined.
