(* ===== verification/ProcessingCli.v ===== *)
(** * Running algorithms from the command line

    [qjazz_processes/processing/cli.py]: the processes of QGIS are listed,
    described, checked and run in the process of the command, without workers.
    The configuration is loaded and QGIS is started before; [click] prints,
    pydantic reads and writes JSON, and QGIS runs the algorithms. *)
From S2P Require Import Prelude PyDict PyStd PyTemplate Routes CacheManager Json Web Registry Executor JobsApi ProcessesApi Store Callbacks WorkerJobs WorkerFiles ProcessContext Terminal.

Section cli.
Context {P V : Type} (env : Env P) (routes : Routes) (allow_direct : bool).
Context (style : Style → string → string) (exn_str : exn → string).
Context (HttpUrl : string → res string) (qgis_version : string) (qgis_version_int : Z).
(** The providers that are published, and the algorithms of QGIS by their id. *)
Context (providers : list (string * list (Algorithm P V))) (find_algorithm : string → option (Algorithm P V)).
(** [shortDescription] of an algorithm, the JSON of models. *)
Context (short_description : Algorithm P V → option string).
Context (dump_summaries : list ProcessSummary → string).
Context (description : Algorithm P V → option P → res string).
Context (validate_execute : string → res JobExecute) (request_json : JobExecute → JsonValue).
Context (dump_json : list (string * JsonValue) → string).
(** The directory of the jobs, and the project of the results of a run, with
    what writing it answers. *)
Context (workdir : ppath) (destination_dirty destination_written : bool).
Notation State := (Cli (Ctx (P:=P))).

(** [ctx.abort()] raises *)
Definition click_Abort : exn := OtherException "Abort".
Definition abort_with_error {A} (msg : string) : M State A :=
  echo_err (style (colour "red") msg);; raise click_Abort.

(** [get_project] *)
Definition get_project (path : string) : M State P :=
  url ← pure (resolve_path routes allow_direct path false);
  found ← on_exec (on_cm (checkout env url));
  match found.2 with
  | REMOVED | NOTFOUND => raise (FileNotFoundError (urlunsplit url))
  | status => es ← on_exec (on_cm (update_found env found.1 status)); mret (project es.1)
  end.
Definition opt_project (path : string) : M State (option P) :=
  if str_truth path then p ← get_project path; mret (Some p) else mret None.

(** [list_processes] *)
Definition echo_alg (alg : Algorithm P V) : M State unit :=
  s ← pure (summary HttpUrl qgis_version qgis_version_int alg);
  let flag b (c : string) := if b : bool then c else " " in
  echo_n (style (colour "yellow")
    (" " +:+ flag (deprecated alg) "D" +:+ flag (require_project alg) "P" +:+ flag (known_issues alg) "I" +:+ " "));;
  echo_n (style (colour "green") (ljust 40 (ps_id s)));;
  echo_n (style (MkStyle None true false) (ljust 20 (ps_title s)));;
  match short_description alg with
  | Some d => echo_n (style (MkStyle None false true) (ljust 30 d))
  | None => raise (TypeError "unsupported format string passed to NoneType.__format__")
  end;;
  echo "".
Fixpoint summaries (algs : list (Algorithm P V)) : res (list ProcessSummary) :=
  match algs with
  | [] => Ok []
  | alg :: algs => s ← summary HttpUrl qgis_version qgis_version_int alg; ss ← summaries algs; Ok (s :: ss)
  end.
Definition list_processes (json_format : bool) (provider : string) (deprecated : bool) : M State unit :=
  let algs := algorithms providers deprecated (if str_truth provider then [provider] else []) in
  if json_format then ss ← pure (summaries algs); echo (dump_summaries ss) else each echo_alg algs.

(** [describe_processes] *)
Definition describe_processes (ident project_path : string) : M State unit :=
  match find_algorithm ident with
  | None => abort_with_error ("Algorithm '" +:+ ident +:+ "' not found")
  | Some alg =>
      project ← opt_project project_path;
      d ← pure (description alg project);
      echo d
  end.

(** The inputs of [execute_processes]: a text, a file or the standard input.  The
    file is read to its end, and then once more for the request *)
Definition read_inputs (inputs : string) : M State string :=
  if negb (str_truth inputs) then mret "{}"
  else if startswith "@" inputs then
    s ← get;
    match fs_files (cx_fs (cli_exec s)) !! path_of (removeprefix "@" inputs) with
    | None => abort_with_error (exn_str (FileNotFoundError (removeprefix "@" inputs)))
    | Some content =>
        let rest := "" in
        _ ← pure (validate_execute rest);
        mret content
    end
  else if decide (inputs = "-") then
    s ← get;
    modify (fun s => MkCli (cli_exec s) (cli_out s) (cli_err s) []);;
    mret (String.concat "" (cli_in s))
  else mret inputs.

(** [execute_processes]; [uuid] is a new one *)
Definition execute_processes (uuid ident inputs jobid project_path : string) (dry_run : bool) : M State unit :=
  text ← read_inputs inputs;
  request ← try_except (pure (validate_execute text))
    (fun e => match e with
              | ValidationError _ => Some (abort_with_error (exn_str e))
              | _ => None end);
  let jobid := if str_truth jobid then jobid else uuid in
  match find_algorithm ident with
  | None => abort_with_error ("Algorithm '" +:+ ident +:+ "' not found")
  | Some alg =>
      project ← opt_project project_path;
      let dir := jobdir workdir jobid in
      on_exec (ProcessContext.mkdir dir true);;
      if require_project alg && bool_decide (project = None) then abort_with_error "Algorithm require project"
      else
        try_except
          (if dry_run then
             echo_err (style (colour "yellow") "Dry run, not executing process");;
             _ ← pure (validate_execute_parameters alg request project);
             echo (dump_json [("job_id", JStr jobid); ("workdir", JStr (path_str dir));
                              ("request", request_json request)])
           else
             s ← get;
             results ← pure (alg_execute alg request project (bool_decide (dir ∈ fs_dirs (cx_fs (cli_exec s)))));
             echo (dump_json [("job_id", JStr jobid); ("workdir", JStr (path_str dir));
                              ("result", JObj results)]);;
             if destination_dirty then
               echo_err (style (colour "green") "Writing destination project");;
               if destination_written then mret tt
               else raise (PostconditionError "Failed no save destination project")
             else mret tt)
          (fun e => match e with
                    | InputValueError m => Some (abort_with_error ("Input error: " +:+ m))
                    | RunProcessException m => Some (abort_with_error ("Execute error: " +:+ m))
                    | _ => None end)
  end.
End cli.

(** ** Properties *)
Section runs.
Context {P V : Type} (env : Env P) (routes : Routes) (allow_direct : bool).
Context (style : Style → string → string) (exn_str : exn → string).
Context (find_algorithm : string → option (Algorithm P V)).
Context (validate_execute : string → res JobExecute) (request_json : JobExecute → JsonValue).
Context (dump_json : list (string * JsonValue) → string) (workdir : ppath) (dirty written : bool).
Notation execute := (execute_processes env routes allow_direct style exn_str find_algorithm validate_execute
                       request_json dump_json workdir dirty written).

(** Inputs that are given in a file are never taken: the file is read twice, and
    the request is made of what the second reading gives, which is nothing. *)
Lemma execute_file_inputs uuid ident file jobid project_path dry_run s e :
  validate_execute "" = Raise e → is_Some (fs_files (cx_fs (cli_exec s)) !! path_of file) →
  execute uuid ident ("@" +:+ file) jobid project_path dry_run s = (Raise e, s).
Proof.
  intros He [content Hf]. apply bind_raise. rw /read_inputs.
  change (str_truth ("@" +:+ file)) with true. change (startswith "@" ("@" +:+ file)) with (startswith "@" ("@" +:+ file)).
  rw startswith_app removeprefix_app. cbn [negb]. erewrite bind_ok by reflexivity.
  rw Hf. apply bind_raise. by rw /pure He.
Qed.

(** A run without a project, from a literal request, in a new directory: what the
    command prints and how it ends, by what the algorithm answers. *)
Theorem execute_prints uuid ident text jobid request alg s :
  str_truth text = true → startswith "@" text = false → text ≠ "-" →
  validate_execute text = Ok request → find_algorithm ident = Some alg →
  let id := if str_truth jobid then jobid else uuid in
  let dir := jobdir workdir id in
  dir ∉ fs_dirs (cx_fs (cli_exec s)) → is_file dir (cx_fs (cli_exec s)) = false →
  let '(r, s') := execute uuid ident text jobid "" false s in
  if require_project alg then
    r = Raise click_Abort ∧ cli_out s' = cli_out s ∧
    cli_err s' = cli_err s ++ [style (colour "red") "Algorithm require project"]
  else
    match alg_execute alg request None true with
    | Ok results =>
        cli_out s' = cli_out s ++
          [Echo (dump_json [("job_id", JStr id); ("workdir", JStr (path_str dir)); ("result", JObj results)] +:+ newline)] ∧
        (dirty = false → r = Ok tt ∧ cli_err s' = cli_err s)
    | Raise e => cli_out s' = cli_out s ∧ (∃ e', r = Raise e') ∧ (cli_err s' = cli_err s → r = Raise e)
    end.
Proof.
  intros Ht Ha Hd Hv Hf id dir Hdir Hfile.
  assert (read_inputs style exn_str validate_execute text s = (Ok text, s)) as Hread.
  { rw /read_inputs Ht Ha /=. by rw decide_False. }
  rw /execute_processes (bind_ok _ _ _ _ _ Hread).
  erewrite bind_ok; [|rw /try_except /pure Hv; reflexivity]. rw Hf -/id -/dir.
  erewrite bind_ok by reflexivity.
  assert (on_exec (mkdir dir true) s =
    (Ok tt, MkCli (MkCtx (cx_cm (cli_exec s)) (MkFS ({[dir]} ∪ fs_dirs (cx_fs (cli_exec s))) (fs_files (cx_fs (cli_exec s)))))
              (cli_out s) (cli_err s) (cli_in s))) as Hmk.
  { rw /on_exec /zoom /mkdir. py_unfold. rw decide_False // Hfile //. }
  erewrite bind_ok by exact Hmk. rw bool_decide_true // andb_true_r.
  destruct (require_project alg); [by split_and!|]. rw /try_except.
  erewrite bind_ok by reflexivity. cbn [cli_exec cx_fs fs_dirs]. rw bool_decide_true; [set_solver|].
  destruct (alg_execute alg request None true) as [results|e]; py_unfold.
  - destruct dirty, written; by split.
  - destruct e; (split; [done|]); (split; [by eexists|]); try done; intros E; simpl in E;
      exfalso; revert E; clear; generalize (cli_err s) as l; intros l E;
      apply (f_equal length) in E; rw length_app /= in E; lia.
Qed.
End runs.
