(* ===== verification/InputLiterals.v ===== *)
(** * Literal inputs

    [processing/inputs/base.py], [literal.py] and [matrix.py]: the annotated
    type of an input, made from the definition of a QGIS parameter, the value
    given to QGIS for what was validated, and the metadata of its description.
    A definition of QGIS is a record of the answers of its accessors. *)
From S2P Require Import Prelude PyDict PyStd PyFloat Json Pydantic Ogc Web Registry Executor JobsApi ProcessesApi.

(** ** base.py *)

(** [defaultValue()]: a value, or a [QVariant] that is null or has one *)
Inductive DefaultValue : Type := DValue (v : PyVal) | DVariant (v : option PyVal).

(** [QgsProcessingParameterDefinition] *)
Record ParamDefinition : Type := MkParam {
  pd_name : string; pd_type : string; pd_description : string; pd_help : string;
  pd_optional : bool; pd_hidden : bool; pd_default : DefaultValue;
}.

(** [InputParameter.default_value] *)
Definition default_value (p : ParamDefinition) : PyVal :=
  match pd_default p with DValue v => v | DVariant (Some v) => v | DVariant None => VNone end.

(** [InputParameter.model]: the field that [create_model] starts from *)
Definition model_field (p : ParamDefinition) (validation_only : bool) : Field :=
  if validation_only then no_field
  else match default_value p with VNone => no_field | d => set_default (Some d) no_field end.

(** [InputParameter.metadata], and the name of a related parameter *)
Definition base_metadata (p : ParamDefinition) : list Metadata :=
  [MdValue (Some "typeName") None (JStr (pd_type p))].
Definition parent_metadata (role parent : string) : list Metadata :=
  if str_truth parent then [MdValue (Some role) None (JStr parent)] else [].

(** [InputDescription], but its schema *)
Record InputDescription : Type := MkInputDescription {
  id_title : string; id_description : string; id_value_passing : list string;
  id_metadata : list Metadata; id_min_occurs : Z;
}.

(** [name.capitalize().replace(_, space)] *)
Definition name_title (name : string) : string :=
  str_map (fun a => if decide (a = "_"%char) then " "%char else a) (capitalize name).

(** [InputParameter.description] *)
Definition input_description (p : ParamDefinition) (value_passing : list string) (md : list Metadata) :
    InputDescription :=
  MkInputDescription
    (str_or (pd_description p) (name_title (pd_name p)))
    (pd_help p) value_passing md (if pd_optional p then 0 else 1)%Z.

(** ** [ParameterEnum] *)
Record EnumParam : Type := MkEnum { en_options : list string; en_multiple : bool; en_static : bool }.

(** [l[k]] of a list *)
Definition py_index {A} (l : list A) (k : Z) : res A :=
  let k := if decide (k < 0)%Z then (k + Z.of_nat (length l))%Z else k in
  match (if decide (k < 0)%Z then None else l !! Z.to_nat k) with
  | Some x => Ok x
  | None => Raise IndexError
  end.

(** [l.index(v)] *)
Definition index_of (l : list string) (v : string) : res Z :=
  match list_find (v =.) l with
  | Some (i, _) => Ok (Z.of_nat i)
  | None => Raise (ValueError "not in list")
  end.

(** Integers, of which booleans are. *)
Definition as_int (v : PyVal) : option Z :=
  match v with VInt z => Some z | VBool b => Some (if b then 1 else 0)%Z | _ => None end.
Definition opt_at (opts : list string) (v : PyVal) : res PyVal :=
  match as_int v with
  | Some k => VStr <$> py_index opts k
  | None => Raise (TypeError "list indices must be integers or slices")
  end.

(** The default of an enumeration: what it is given as a name or an index, a
    list of them, or a text with commas. *)
Definition enum_default (e : EnumParam) (d : PyVal) : res PyVal :=
  match d with
  | VStr s => Ok (if en_multiple e then VSet (remove_dups (VStr <$> split "," s)) else d)
  | VList ((VStr _ as x) :: l) => Ok (if en_multiple e then VSet (remove_dups (x :: l)) else x)
  | VList (x :: l) =>
      match as_int x with
      | Some _ =>
          if en_multiple e then (fun vs => VSet (remove_dups vs)) <$> seq_res (opt_at (en_options e) <$> x :: l)
          else opt_at (en_options e) x
      | None => Raise (InputValueError "Invalid default Enum value")
      end
  | _ =>
      match as_int d with
      | Some _ => opt_at (en_options e) d
      | None => Raise (InputValueError "Invalid default Enum value")
      end
  end.

(** [ParameterEnum.create_model] *)
Definition enum_type (e : EnumParam) : Ty :=
  if en_multiple e then TSet (TLiteral (en_options e)) else TLiteral (en_options e).
Definition enum_model (e : EnumParam) (field : Field) (validation_only : bool) : res (Ty * Field) :=
  if validation_only then Ok (enum_type e, field)
  else
    match f_default field with
    | Some d => d ← enum_default e d; Ok (enum_type e, set_default (Some d) field)
    | None => Ok (enum_type e, field)
    end.

(** [ParameterEnum.value], of a validated value *)
Definition index_value (opts : list string) (v : PyVal) : res PyVal :=
  match v with
  | VStr s => VInt <$> index_of opts s
  | _ => Raise (ValueError "not in list")
  end.
Definition enum_value (e : EnumParam) (v : PyVal) : res PyVal :=
  match en_static e, en_multiple e, v with
  | false, true, VSet l => VList <$> seq_res (index_value (en_options e) <$> l)
  | false, true, _ => Raise (TypeError "object is not iterable")
  | false, false, _ => index_value (en_options e) v
  | true, true, VSet l => Ok (VList l)
  | true, true, _ => Raise (TypeError "object is not iterable")
  | true, false, _ => Ok v
  end.

(** ** [ParameterNumber] and its subclasses *)
Inductive NumberType : Type := NDouble | NInteger | NInvalid.
Record NumberParam : Type := MkNumber {
  nu_min : Qc; nu_max : Qc; nu_type : NumberType;
  (** [defaultUnit()], when it is known: its text and its abbreviation *)
  nu_unit : option (string * string);
  nu_parent : string;
}.

(** [sys.float_info.max] *)
Definition float_max : Qc := Qc_of_Z ((2 ^ 53 - 1) * 2 ^ 971).

(** [set_number_minmax] *)
Definition set_number_minmax (n : NumberParam) (field : Field) : Field :=
  set_bounds (if Qc_le (nu_min n) (- float_max) then f_ge field else Some (nu_min n))
    (if Qc_le float_max (nu_max n) then f_le field else Some (nu_max n)) field.

(** [ParameterNumber.create_model] *)
Definition number_model (n : NumberParam) (field : Field) : res (Ty * Field) :=
  let field := set_number_minmax n field in
  match nu_type n with
  | NDouble => Ok (TFloat, field)
  | NInteger => Ok (TInt, field)
  | NInvalid => Raise (InputValueError "Invalid type for number")
  end.

(** A link to an OGC data type, and the unit of a measure *)
Definition type_link (name : string) : list Metadata :=
  [MdLink (Some "ogcType") (default "" (OgcDataType name)) name].
Definition unit_metadata (unit : option (string * string)) : list Metadata :=
  match unit with
  | None => []
  | Some (uom, abbrev) =>
      match uom_ref uom with
      | Some ref => [MdLink (Some "uom") ref uom]
      | None => [MdValue (Some "uom") (Some uom) (JStr abbrev)]
      end
  end.

(** [ParameterDistance.metadata], [ParameterScale.metadata],
    [ParameterDuration.metadata] *)
Definition distance_metadata (p : ParamDefinition) (n : NumberParam) : list Metadata :=
  base_metadata p ++ type_link "length" ++ unit_metadata (nu_unit n) ++
  parent_metadata "parentParameterName" (nu_parent n).
Definition scale_metadata (p : ParamDefinition) : list Metadata := base_metadata p ++ type_link "scale".
Definition duration_metadata (p : ParamDefinition) (n : NumberParam) : list Metadata :=
  base_metadata p ++ type_link "time" ++ unit_metadata (nu_unit n).

(** ** [ParameterRange] *)
Definition range_end (t : Ty) (s : string) : res PyVal :=
  match t with TInt => VInt <$> int_of_str s | _ => VFloat <$> float_of s end.

(** [ParameterRange.create_model]: an invalid default is left as it is, the
    error for it is built but not raised *)
Definition range_model (dt : NumberType) (field : Field) (validation_only : bool) : res (Ty * Field) :=
  t ← match dt with
      | NInteger => Ok TInt
      | NDouble => Ok TFloat
      | NInvalid => Raise (OtherException "UnboundLocalError: _type")
      end;
  let field' := set_lengths (Some 2) (Some 2) field in
  match validation_only, f_default field with
  | false, Some (VStr s) =>
      match split ":" s with
      | [a; b] =>
          l ← range_end t a; r ← range_end t b;
          Ok (TSeq t, set_default (Some (VList [l; r])) field')
      | _ => Raise (ValueError "unpack")
      end
  | _, _ => Ok (TSeq t, field')
  end.
(** ** [ParameterColor] *)
Section color.
(** [QgsSymbolLayerUtils.parseColor]; [None] for a color that is not valid *)
Context (parseColor : string → option PyVal).

Definition color_model (field : Field) (validation_only : bool) : res (Ty * Field) :=
  if validation_only then Ok (TColor, field)
  else
    let field' := set_default None field in
    match f_default field with
    | Some (VStr s) => Ok (TColor, set_default (parseColor s) field')
    | Some (VColor r g b a) => Ok (TColor, set_default (Some (VColor r g b a)) field')
    | _ => Raise (InputValueError "Invalid default value for color")
    end.
End color.

(** [ParameterColor.value], of a validated value: the [QColor] *)
Definition color_value (opacity : bool) (v : PyVal) : res PyVal :=
  match v with
  | VColor r g b a => Ok (VColor r g b (if opacity then a else None))
  | _ => Raise (OtherException "AttributeError: as_rgb_tuple")
  end.

(** ** Parameters that name something *)

(** [ParameterDatabaseSchema.metadata], [ParameterDatabaseTable.metadata],
    [ParameterLayoutItem.metadata] *)
Definition database_schema_metadata (p : ParamDefinition) (parent_connection : string) : list Metadata :=
  base_metadata p ++ parent_metadata "parentConnectionParameterName" parent_connection.
Definition database_table_metadata (p : ParamDefinition) (allow_new : bool) (parent_connection : string) :
    list Metadata :=
  base_metadata p ++ [MdValue (Some "allowNewTableNames") None (JBool allow_new)] ++
  parent_metadata "parentConnectionParameterName" parent_connection.
Definition layout_item_metadata (p : ParamDefinition) (parent_layout : string) : list Metadata :=
  base_metadata p ++ parent_metadata "parentLayoutParameterName" parent_layout.

(** A literal of the names there are, any string when there are none *)
Definition names_type (names : list string) : Ty :=
  match names with [] => TStr | _ => TLiteral names end.

(** [ParameterLayout.create_model], from the names of the print layouts of the
    project, if there is one that has a layout manager *)
Definition layout_model (layouts : option (list string)) : Ty := names_type (default [] layouts).

(** ** matrix.py *)
Record MatrixParam : Type := MkMatrix { mx_headers : list string; mx_rows : option nat }.

(** [ParameterMatrix.metadata] *)
Definition matrix_metadata (p : ParamDefinition) (m : MatrixParam) : list Metadata :=
  base_metadata p ++
  MdValue (Some "hasFixedNumberRows") None (JBool (bool_decide (is_Some (mx_rows m)))) ::
  match mx_rows m with
  | Some n => [MdValue (Some "numberRows") None (JInt (Z.of_nat n))]
  | None => []
  end.

(** [l[i : i + n]] for [i] from 0 to the length of the list by steps of [n] *)
Fixpoint chunks_of {A} (fuel n : nat) (l : list A) : list (list A) :=
  match fuel, l with
  | S fuel, _ :: _ => take n l :: chunks_of fuel n (drop n l)
  | _, _ => []
  end.

Section matrix.
(** [QgsProcessingParameters.parameterAsMatrix]; [None] for what is no sequence *)
Context (parameterAsMatrix : PyVal → option (list PyVal)).

(** [get_default_value]: rows that are not as many as they should be are only
    logged *)
Definition matrix_default (d : PyVal) (rows cols : option nat) : option PyVal :=
  if negb (py_truth d) then None
  else
    match parameterAsMatrix d with
    | None => Some (match cols with Some (S _) => d | _ => VOther "QVariant" end)
    | Some l =>
        let cols := match cols, rows with
                    | Some (S _), _ => cols
                    | _, Some (S r) => Some (length l / S r)
                    | _, _ => cols
                    end in
        match cols with
        | Some (S c) => Some (VList (VList <$> chunks_of (length l) (S c) l))
        | _ => Some (VList l)
        end
    end.

(** [ParameterMatrix.create_model] *)
Definition matrix_cols (m : MatrixParam) : option nat :=
  match mx_headers m with [] => None | l => Some (length l) end.
Definition cell_type : Ty := TUnion [TFloat; TStr].
Definition matrix_type (m : MatrixParam) : Ty :=
  let row := match matrix_cols m with
             | Some c => TAnnotated (TSeq cell_type) (set_lengths (Some c) (Some c) no_field)
             | None => TSeq cell_type
             end in
  match mx_rows m with
  | Some r => TAnnotated (TSeq row) (set_lengths (Some r) (Some r) no_field)
  | None => TSeq row
  end.
Definition matrix_model (m : MatrixParam) (field : Field) (validation_only : bool) : Ty * Field :=
  (matrix_type m,
   if validation_only then field
   else
     match matrix_default (default VNone (f_default field)) (mx_rows m) (matrix_cols m) with
     | Some d => set_default (if py_truth d then Some d else None) field
     | None => set_default None field
     end).
End matrix.

(** [ParameterMatrix.value], of a validated value: its rows one after another *)
Definition matrix_value (v : PyVal) : res PyVal :=
  match v with
  | VList rows =>
      (fun rs => VList (concat rs)) <$>
      seq_res ((fun r => match r with
                         | VList l => Ok l
                         | _ => Raise (TypeError "object is not iterable")
                         end) <$> rows)
  | _ => Raise (TypeError "object is not iterable")
  end.

(** ** Properties *)

Lemma seq_res_ok {A B} (f : A → res B) l :
  Forall (fun x => ∃ y, f x = Ok y) l →
  ∃ ys, seq_res (f <$> l) = Ok ys ∧ Forall2 (fun x y => f x = Ok y) l ys.
Proof.
  induction 1 as [|x l (y & Hy) _ (ys & IH & Hf)]; [by exists []|].
  exists (y :: ys). csimpl. by rw Hy /= IH; split; [|constructor].
Qed.

Lemma forallb_Forall {A} (p : A → bool) l : forallb p l = true ↔ Forall (fun x => p x = true) l.
Proof. rw forallb_forall Forall_forall. by setoid_rewrite list_elem_of_In. Qed.

Lemma literal_inv opts v : has_type (TLiteral opts) v = true → ∃ s, v = VStr s ∧ s ∈ opts.
Proof. destruct v; try done. simpl. intros ?%bool_decide_eq_true. eauto. Qed.

Lemma index_of_ok l s : s ∈ l → ∃ i, index_of l s = Ok (Z.of_nat i) ∧ l !! i = Some s.
Proof.
  intros Hs. rw /index_of. destruct (list_find (s =.) l) as [[i x]|] eqn:E.
  - apply list_find_Some in E as (? & -> & _). by exists i.
  - apply list_find_None in E. rw Forall_forall in E. by destruct (E s Hs).
Qed.

(** [r] is the index of the option [v]. *)
Definition option_index (opts : list string) (v r : PyVal) : Prop :=
  ∃ s i, v = VStr s ∧ r = VInt (Z.of_nat i) ∧ opts !! i = Some s.

Lemma index_value_ok opts v : has_type (TLiteral opts) v = true →
  ∃ r, index_value opts v = Ok r ∧ option_index opts v r.
Proof.
  intros (s & -> & Hs)%literal_inv. destruct (index_of_ok opts s Hs) as (i & Hi & Ho).
  exists (VInt (Z.of_nat i)). rw /index_value Hi. split; [done|]. by exists s, i.
Qed.

(** A valid choice is given to QGIS as the indexes of what was chosen, or as it
    is when the options are static strings. *)
Lemma enum_value_ok e v : has_type (enum_type e) v = true →
  ∃ r, enum_value e v = Ok r ∧
    match v with
    | VSet l => ∃ rs, r = VList rs ∧ Forall (fun x => has_type (TLiteral (en_options e)) x = true) l ∧
        if en_static e then rs = l else Forall2 (option_index (en_options e)) l rs
    | _ => if en_static e then r = v else option_index (en_options e) v r
    end.
Proof.
  rw /enum_type /enum_value. destruct (en_multiple e).
  - destruct v; try done. simpl. intros Ht%forallb_Forall. destruct (en_static e); [by exists (VList l); eauto|].
    destruct (seq_res_ok (index_value (en_options e)) l) as (rs & -> & Hf).
    { eapply Forall_impl; [exact Ht|]. intros x (r & Hr & _)%index_value_ok. eauto. }
    exists (VList rs). split; [done|]. exists rs. split; [done|]. split; [done|].
    apply Forall2_same_length_lookup_2.
    { by eapply Forall2_length. }
    intros i x y Hx Hy. rw Forall_lookup in Ht.
    destruct (index_value_ok _ _ (Ht i x Hx)) as (r & Hr & Ho).
    pose proof (Forall2_lookup_lr _ _ _ _ _ _ Hf Hx Hy) as Hxy. rw Hr in Hxy. by injection Hxy as <-.
  - intros Ht. destruct (literal_inv _ _ Ht) as (s & -> & Hs).
    destruct (en_static e); [by exists (VStr s)|]. by apply index_value_ok in Ht.
Qed.

Lemma seq_inv t v : has_type (TSeq t) v = true → ∃ l, v = VList l ∧ Forall (fun x => has_type t x = true) l.
Proof. destruct v; try done. simpl. intros ?%forallb_Forall. eauto. Qed.

Lemma meets_lengths n l : meets (set_lengths (Some n) (Some n) no_field) (VList l) = true → length l = n.
Proof.
  rw /meets /= andb_true_iff !bool_decide_eq_true. lia.
Qed.

Lemma concat_length {A} n (l : list (list A)) : Forall (fun r => length r = n) l → length (concat l) = length l * n.
Proof. induction 1 as [|r l Hr _ IH]; [done|]. simpl. by rw length_app Hr IH. Qed.

Lemma matrix_row_inv m v :
  has_type (match matrix_cols m with
            | Some c => TAnnotated (TSeq cell_type) (set_lengths (Some c) (Some c) no_field)
            | None => TSeq cell_type end) v = true →
  ∃ l, v = VList l ∧ Forall (fun x => has_type cell_type x = true) l ∧
    ∀ c, matrix_cols m = Some c → length l = c.
Proof.
  destruct (matrix_cols m) as [c|].
  - intros [(l & -> & Hl)%seq_inv Hm]%andb_true_iff. exists l. split; [done|]. split; [done|].
    intros ? [= <-]. by apply meets_lengths.
  - intros (l & -> & Hl)%seq_inv. by exists l.
Qed.

(** A valid matrix is given to QGIS as the list of its cells, numbers or texts,
    as many as the rows and the columns that are fixed make. *)
Lemma matrix_value_ok m v : has_type (matrix_type m) v = true →
  ∃ cells, matrix_value v = Ok (VList cells) ∧ Forall (fun x => has_type cell_type x = true) cells ∧
    ∀ r c, mx_rows m = Some r → matrix_cols m = Some c → length cells = r * c.
Proof.
  intros Ht.
  assert (∃ rows, v = VList rows ∧
    Forall (fun x => ∃ l, x = VList l ∧ Forall (fun x => has_type cell_type x = true) l ∧
      ∀ c, matrix_cols m = Some c → length l = c) rows ∧
    ∀ r, mx_rows m = Some r → length rows = r) as (rows & -> & Hr & Hn).
  { rw /matrix_type in Ht. destruct (mx_rows m) as [r|].
    - apply andb_true_iff in Ht as [(rows & -> & Hr)%seq_inv Hm]. exists rows. split; [done|]. split.
      + eapply Forall_impl; [exact Hr|]. intros x. apply matrix_row_inv.
      + intros ? [= <-]. by apply meets_lengths.
    - apply seq_inv in Ht as (rows & -> & Hr). exists rows. split; [done|]. split; [|done].
      eapply Forall_impl; [exact Hr|]. intros x. apply matrix_row_inv. }
  rw /matrix_value.
  destruct (seq_res_ok (fun r => match r with VList l => Ok l | _ => Raise (TypeError "object is not iterable") end)
              rows) as (ls & -> & Hf).
  { eapply Forall_impl; [exact Hr|]. intros x (l & -> & _). eauto. }
  exists (concat ls). split; [done|].
  assert (Forall (fun l => Forall (fun x => has_type cell_type x = true) l ∧
    ∀ c, matrix_cols m = Some c → length l = c) ls) as Hls.
  { apply Forall_lookup. intros i l Hl. destruct (Forall2_lookup_r _ _ _ _ _ Hf Hl) as (x & Hx & Hxl).
    rw Forall_lookup in Hr. destruct (Hr i x Hx) as (l' & -> & Hp). by injection Hxl as ->. }
  split.
  - apply Forall_concat. eapply Forall_impl; [exact Hls|]. by intros l [].
  - intros r c Hmr Hmc. rw (concat_length c).
    { eapply Forall_impl; [exact Hls|]. intros l [_ Hl]. by apply Hl. }
    by rw -(Forall2_length _ _ _ Hf) (Hn r Hmr).
Qed.
