(* ===== verification/InputLayers.v ===== *)
(** * Layer inputs

    [processing/utils.py] and [processing/inputs/layers.py]: the layers of a
    project that an input can take, the selection of their features, and the
    files of the layers that an algorithm makes. *)
From S2P Require Import Prelude PyDict PyStd PyFloat Json Pydantic Ogc Routes CacheManager FileHandler Web ProcessesApi InputLiterals.
Import Paths.

(** ** Layers of a project *)
Inductive GeometryType : Type := GPoint | GLine | GPolygon | GOther.
Inductive LayerKind : Type :=
| KVector (geometry : GeometryType) (spatial : bool)
| KRaster | KMesh | KAnnotation | KVectorTile | KPointCloud | KOther.
Record MapLayer : Type := MkLayer { ly_id : string; ly_name : string; ly_kind : LayerKind }.

#[global] Instance GeometryType_eq_dec : EqDecision GeometryType.
Proof. solve_decision. Defined.

(** [Qgis.ProcessingSourceType] *)
Inductive SourceType : Type :=
| SVectorAnyGeometry | SVectorPoint | SVectorLine | SVectorPolygon | SVector
| SRaster | SMesh | SAnnotation | SVectorTile | SPointCloud | SOther (code : Z).

#[global] Instance SourceType_eq_dec : EqDecision SourceType.
Proof. solve_decision. Defined.

(** [QgsProject], as the inputs read it: its layers, the names of its print
    layouts, its reference system when it is valid, and the mesh layers that
    [QgsProcessingUtils.compatibleMeshLayers] answers *)
Record QgsProject : Type := MkQgsProject {
  qp_layers : list MapLayer; qp_layouts : option (list string); qp_crs : option string;
  qp_meshes : list MapLayer;
}.

(** ** utils.py *)

(** [is_compatible_vector_layer], of a vector layer *)
Definition is_compatible_vector_layer (geometry : GeometryType) (spatial : bool) (dtypes : list SourceType) :
    bool :=
  bool_decide (dtypes = []) ||
  bool_decide (SVectorPoint ∈ dtypes) && bool_decide (geometry = GPoint) ||
  bool_decide (SVectorLine ∈ dtypes) && bool_decide (geometry = GLine) ||
  bool_decide (SVectorPolygon ∈ dtypes) && bool_decide (geometry = GPolygon) ||
  bool_decide (SVectorAnyGeometry ∈ dtypes) && spatial ||
  bool_decide (SVector ∈ dtypes).

(** [compatible_vector_layers] *)
Definition vector_compatible (dtypes : list SourceType) (l : MapLayer) : bool :=
  match ly_kind l with
  | KVector g s => bool_decide (dtypes = []) || is_compatible_vector_layer g s dtypes
  | _ => false
  end.
Definition compatible_vector_layers (p : QgsProject) (dtypes : list SourceType) : list MapLayer :=
  List.filter (vector_compatible dtypes) (qp_layers p).

(** [compatible_layers_type] and its uses *)
Definition compatible_layers_type (is_type : LayerKind → bool) (p : QgsProject) : list MapLayer :=
  List.filter (fun l => is_type (ly_kind l)) (qp_layers p).
Definition compatible_raster_layers : QgsProject → list MapLayer :=
  compatible_layers_type (fun k => match k with KRaster => true | _ => false end).
Definition compatible_pointcloud_layers : QgsProject → list MapLayer :=
  compatible_layers_type (fun k => match k with KPointCloud => true | _ => false end).
Definition compatible_annotation_layers : QgsProject → list MapLayer :=
  compatible_layers_type (fun k => match k with KAnnotation => true | _ => false end).

(** [compatible_layers] *)
Definition layer_compatible (dtypes : list SourceType) (l : MapLayer) : bool :=
  match ly_kind l with
  | KVector g s => is_compatible_vector_layer g s dtypes
  | KRaster => bool_decide (SRaster ∈ dtypes)
  | KMesh => bool_decide (SMesh ∈ dtypes)
  | KAnnotation => bool_decide (SAnnotation ∈ dtypes)
  | KVectorTile => bool_decide (SVectorTile ∈ dtypes)
  | KPointCloud => bool_decide (SPointCloud ∈ dtypes)
  | KOther => false
  end.
Definition compatible_layers (p : QgsProject) (dtypes : list SourceType) : list MapLayer :=
  match dtypes with
  | [] => qp_layers p
  | _ => List.filter (layer_compatible dtypes) (qp_layers p)
  end.

(** [get_valid_filename]; the bytes of a character that is not ASCII are kept,
    as those of a letter *)
Definition is_word (a : ascii) : bool :=
  is_alpha a || is_digit a || char_in a "_-." || (128 <=? N_of_ascii a)%N.
Definition get_valid_filename (s : string) : string :=
  str_map (fun a => if is_word a then a else "_"%char)
    (str_map (fun a => if decide (a = " "%char) then "_"%char else a) (rstrip (lstrip is_space s))).

(** [p.with_suffix(sfx)], of any suffix *)
Definition with_any_suffix (p : ppath) (sfx : string) : res ppath :=
  if char_in "/" sfx || (str_truth sfx && negb (startswith "." sfx)) || bool_decide (sfx = ".")
  then Raise (ValueError "Invalid suffix")
  else with_suffix p sfx.

(** [resolve_raw_path] *)
Definition resolve_raw_path (p : string) (workdir : ppath) (root_path : option ppath) (extension : string) :
    res ppath :=
  let p := path_of p in
  q ← (if str_truth (p_root p) then
         match path_relative_to p (path_of "/") with
         | Some q => Ok match root_path with Some r => path_join r q | None => q end
         | None => Raise (ValueError "is not in the subpath of '/'")
         end
       else Ok (path_join workdir p));
  if str_truth extension && negb (str_truth (suffix q)) then with_any_suffix q extension else Ok q.

(** [resolve_raw_reference] *)
Definition resolve_raw_reference (ref : string) (workdir : ppath) (root_path : option ppath)
    (extension : string) : res (option ppath) :=
  url ← urlsplit ref;
  if str_truth (u_path url) && bool_decide (lower (scheme url) = "file")
  then Some <$> resolve_raw_path (u_path url) workdir root_path extension
  else Ok None.

(** [raw_destination_sink]: the sink and the name of the layer; the text is cut
    twice at most, and a cut of the option of the name keeps what is between
    the first two equal signs *)
Definition raw_destination_sink (name destination : string) (workdir : ppath) (default_extension : string)
    (root_path : option ppath) : res (string * string) :=
  let '(destination, rest) := match partition "|" destination with
                              | Some (d, r) => (d, Some (default r (fst <$> partition "|" r)))
                              | None => (destination, None)
                              end in
  let layername := match rest with
                   | Some r => if startswith "layername=" (lower r)
                               then rstrip (lstrip is_space (default "" (split "=" r !! 1))) else ""
                   | None => ""
                   end in
  url ← urlsplit destination;
  if str_truth (u_path url) && bool_decide (lower (scheme url) ∈ [""; "file"])
  then p ← resolve_raw_path (u_path url) workdir root_path default_extension;
       Ok (path_str p, str_or layername (stem p))
  else Ok (destination, str_or layername name).

(** ** layers.py: the layers of a project as inputs *)

(** The classes of inputs that name layers, with what their definitions answer:
    [dataTypes()] is empty for a definition that has none, [layerType()] is that
    of a multiple input *)
Inductive LayerInput : Type :=
| ParameterMapLayer (dtypes : list SourceType)
| ParameterMultipleLayers (layer_type : SourceType) (minimum : Z)
| ParameterVectorLayer (dtypes : list SourceType)
| ParameterFeatureSource (dtypes : list SourceType)
| ParameterRasterLayer
| ParameterPointCloudLayer
| ParameterVectorTileWriterLayers (dtypes : list SourceType)
| ParameterDxfLayers
| ParameterAnnotationLayer
| ParameterTinInputLayers
| ParameterAlignRasterLayers
| ParameterMeshLayer.

(** [compatible_layers] of [ParameterDxfLayers], of [ParameterMeshLayer] and of each
    class *)
Definition dxf_compatible_layers (p : QgsProject) : list MapLayer :=
  List.filter (fun l => match ly_kind l with KVector _ s => s | _ => false end) (compatible_vector_layers p []).
Definition mesh_compatible_layers (p : QgsProject) : list MapLayer := qp_meshes p.
Definition input_layers (c : LayerInput) (p : QgsProject) : list MapLayer :=
  match c with
  | ParameterMapLayer dtypes | ParameterVectorTileWriterLayers dtypes => compatible_layers p dtypes
  | ParameterMultipleLayers t _ => compatible_layers p [t]
  | ParameterVectorLayer dtypes | ParameterFeatureSource dtypes => compatible_vector_layers p dtypes
  | ParameterRasterLayer | ParameterAlignRasterLayers => compatible_raster_layers p
  | ParameterPointCloudLayer => compatible_pointcloud_layers p
  | ParameterDxfLayers => dxf_compatible_layers p
  | ParameterAnnotationLayer => compatible_annotation_layers p
  | ParameterTinInputLayers => compatible_vector_layers p []
  | ParameterMeshLayer => mesh_compatible_layers p
  end.

(** [ParameterMapLayer.create_model]: the type of one layer, and that of the
    classes that take several *)
Definition layer_name_type (c : LayerInput) (project : option QgsProject) : Ty :=
  names_type (match project with Some p => ly_name <$> input_layers c p | None => [] end).
Definition multiple (c : LayerInput) : bool :=
  match c with
  | ParameterMultipleLayers _ _ | ParameterDxfLayers | ParameterTinInputLayers => true
  | _ => false
  end.
Definition map_layer_type (c : LayerInput) (project : option QgsProject) : Ty :=
  if multiple c then TSet (layer_name_type c project) else layer_name_type c project.

(** [BoundingBox] *)
Definition bbox_type : Ty :=
  let len n := TAnnotated (TSeq TFloat) (set_lengths (Some n) (Some n) no_field) in
  TModel [("bbox", TUnion [len 4; len 6]); ("crs", TStr)] false.

(** [create_model] of each class, from the type of its layers *)
Definition multiple_model (minimum : Z) (t : Ty) (field : Field) : Ty * Field :=
  (t, if decide (0 < minimum)%Z then set_lengths (Some (Z.to_nat minimum)) (f_max_length field) field else field).
Definition source_model (t : Ty) : Ty :=
  TModel [("source", t); ("intersect", TOptional bbox_type); ("expression", TOptional TStr)] false.
Definition feature_source_model (t : Ty) : Ty := TUnion [t; source_model t].
Definition tile_writer_model (t : Ty) : Ty := TSeq (TModel [("layer", t)] true).
Definition tin_model (t : Ty) : Ty :=
  TSeq (TModel [("source", t); ("attributeIndex", TStr); ("type", TStr)] true).
Definition align_model (t : Ty) : Ty :=
  TUnion [TSeq t; TSeq (TModel [("inputFile", t); ("outputFile", TStr); ("resampleMethod", TInt)] false)].
Definition layer_model (c : LayerInput) (project : option QgsProject) (field : Field) : Ty * Field :=
  let t := map_layer_type c project in
  match c with
  | ParameterMultipleLayers _ n => multiple_model n t field
  | ParameterFeatureSource _ => (feature_source_model t, field)
  | ParameterVectorTileWriterLayers _ => (tile_writer_model t, field)
  | ParameterTinInputLayers => (tin_model t, field)
  | ParameterAlignRasterLayers => (align_model t, field)
  | _ => (t, field)
  end.

(** ** [ParameterFeatureSource.value] *)

(** What is done to a layer of the context. *)
Inductive Selection : Type :=
| SelectByRect (layer : string) (rect : list PyVal)
| SelectByExpression (layer expression : string).

(** What is given to QGIS. *)
Inductive QValue : Type :=
| QPy (v : PyVal)
| QSource (source : string) (selectedFeaturesOnly : bool)
| QSink (sink destinationName : string) (destination_project : option string)
(** A geometry by its text, [None] for a null one, with its reference system *)
| QGeom (g : option string) (crs : option string)
| QPoint (x y : Qc) (crs : option string)
| QCrs (crs : string)
| QRect (bounds : list PyVal) (crs : option string)
| QTime (k : TimeKind) (t : Qc).

(** [v[k]]: models have no items *)
Definition get_item (v : PyVal) (k : nat) : res PyVal :=
  match v with
  | VList l => match l !! k with Some x => Ok x | None => Raise IndexError end
  | _ => Raise (TypeError "object is not subscriptable")
  end.

(** The attribute of a model *)
Definition attr (name : string) (v : PyVal) : PyVal :=
  match v with VObj l => default VNone (assoc name l) | _ => VNone end.

Section source.
(** [context.getMapLayer] *)
Context (getMapLayer : string → option MapLayer).
Notation S := (list Selection).

Definition select_features (source : string) (intersect expression : PyVal) : M S unit :=
  match getMapLayer source with
  | None => raise (InputValueError ("No layer '" +:+ source +:+ "' found"))
  | Some layer =>
      match ly_kind layer with
      | KVector _ _ =>
          (if py_truth intersect then
             a ← pure (get_item intersect 0); b ← pure (get_item intersect 1);
             c ← pure (get_item intersect 2); d ← pure (get_item intersect 3);
             modify (fun s => s ++ [SelectByRect (ly_id layer) [a; b; c; d]])
           else mret tt);;
          match expression with
          | VStr e => if str_truth e then modify (fun s => s ++ [SelectByExpression (ly_id layer) e]) else mret tt
          | _ => mret tt
          end
      | _ => raise (InputValueError "'{_inp.source}' is not a vector layer")
      end
  end.

(** [ParameterFeatureSource.value], of a validated value and with a context *)
Definition feature_source_value (v : PyVal) : M S QValue :=
  match v with
  | VStr source => mret (QSource source false)
  | _ =>
      match attr "source" v with
      | VStr source =>
          if py_truth (attr "intersect" v) || py_truth (attr "expression" v)
          then select_features source (attr "intersect" v) (attr "expression" v);; mret (QSource source true)
          else mret (QSource source false)
      | _ => raise (TypeError "source")
      end
  end.
End source.

(** ** Other inputs *)

(** [ParameterField], [ParameterBand], [ParameterFieldMapping],
    [ParameterAggregate]: their types *)
Definition at_least_one (t : Ty) : Ty := TAnnotated (TSeq t) (set_lengths (Some 1) None no_field).
Definition field_type (allow_multiple : bool) : Ty := if allow_multiple then at_least_one TStr else TStr.
Definition band_type (allow_multiple : bool) : Ty :=
  let t := TAnnotated TInt (set_bounds (Some 0%Qc) None no_field) in
  if allow_multiple then at_least_one t else t.
Definition FieldMapping : Ty := TModel [("name", TStr); ("type", TStr); ("expression", TStr)] true.
Definition AggregateItem : Ty :=
  TModel [("name", TStr); ("type", TStr); ("type_name", TOptional TStr); ("sub_type", TOptional TInt);
          ("input", TStr); ("aggregate", TStr); ("length", TOptional TInt); ("precision", TOptional TInt);
          ("delimiter", TOptional TStr)] true.

(** Their metadata *)
Definition field_metadata (p : ParamDefinition) (data_type : string) (default_to_all : bool) (parent_layer : string) :
    list Metadata :=
  base_metadata p ++
  [MdValue (Some "dataType") None (JStr data_type); MdValue (Some "defaultToAllFields") None (JBool default_to_all)]
  ++ parent_metadata "parentLayerParameterName" parent_layer.
Definition parent_layer_metadata (p : ParamDefinition) (parent_layer : string) : list Metadata :=
  base_metadata p ++ parent_metadata "parentLayerParameterName" parent_layer.
Definition expression_metadata (p : ParamDefinition) (expression_type parent_layer : string) : list Metadata :=
  base_metadata p ++ [MdValue (Some "expressionType") None (JStr expression_type)] ++
  parent_metadata "parentLayerParameterName" parent_layer.

(** [dump_python(mode=json, by_alias, exclude_none)] of a validated value: what
    is [None] is left out of the models *)
Fixpoint dump_python (v : PyVal) : PyVal :=
  match v with
  | VSet l => VList (dump_python <$> l)
  | VList l => VList (dump_python <$> l)
  | VObj l =>
      VObj ((fix go l := match l with
                         | [] => []
                         | (_, VNone) :: l => go l
                         | (n, x) :: l => (n, dump_python x) :: go l
                         end) l)
  | _ => v
  end.
