(* ===== verification/GeoInputs.v ===== *)
(** * Geometric and temporal inputs

    [schemas/geojson.py], [schemas/crs.py], [processing/inputs/geometry.py],
    [datetime.py] and [mesh.py]: the types of geometries, reference systems,
    extents, dates and mesh parameters, and the QGIS values made of them. *)
From S2P Require Import Prelude PyDict PyStd PyFloat Json Pydantic Ogc Routes CacheManager FileHandler Web ProcessesApi InputLiterals InputLayers.

(** ** geojson.py *)
Definition NamedCrs : Ty :=
  TModel [("type", TLiteral ["name"]); ("properties", TModel [("name", TStr)] false)] false.
(** A model of [Referenced]: its type, and the field of its items *)
Definition Referenced (type items : string) (t : Ty) : Ty :=
  TModel [("crs", TOptional NamedCrs); ("type", TLiteral [type]); (items, t)] false.

Definition PointItem : Ty := TAnnotated (TSeq TFloat) (set_lengths (Some 2) (Some 4) no_field).
Definition LineStringItem : Ty := TAnnotated (TSeq PointItem) (set_lengths (Some 2) (Some 2) no_field).
Definition Ring : Ty := TAnnotated (TSeq PointItem) (set_lengths (Some 4) None no_field).
Definition PolygonItem : Ty := TSeq Ring.

Definition Point : Ty := Referenced "Point" "coordinates" PointItem.
Definition MultiPoint : Ty := Referenced "MultiPoint" "coordinates" (TSeq PointItem).
Definition LineString : Ty := Referenced "LineString" "coordinates" LineStringItem.
Definition MultiLineString : Ty := Referenced "MultiLineString" "coordinates" (TSeq LineStringItem).
Definition Polygon : Ty := Referenced "Polygon" "coordinates" PolygonItem.
Definition MultiPolygon : Ty := Referenced "MultiPolygon" "coordinates" (TSeq PolygonItem).
Definition GeometryCollection (geometry : Ty) : Ty :=
  Referenced "GeometryCollection" "geometries" (TSeq geometry).

(** [Geometry] refers to itself by its collections *)
Fixpoint geometry_at (n : nat) : Ty :=
  TUnion [Point; MultiPoint; LineString; MultiLineString; Polygon; MultiPolygon;
          GeometryCollection (match n with O => TUnion [] | S n => geometry_at n end)].
Definition Geometry : Ty := TRec geometry_at.

(** ** QGIS *)

(** A geometry object that a default can be: a point, or a geometry with what
    [asJson()] reads as, with its reference system, [None] when it is invalid. *)
Inductive GeomObj : Type :=
| QgsPointXY (x y : Qc)
| QgsReferencedPointXY (x y : Qc) (crs : option string)
| QgsGeometry (json : JsonValue)
| QgsReferencedGeometry (json : JsonValue) (crs : option string)
| NotGeometry.
Record Rect : Type := MkRect { rc_bounds : list Qc; rc_empty : bool; rc_null : bool }.

(** What the inputs call of QGIS and OGR: a geometry is its text and a valid
    reference system its definition. *)
Record QgisGeo : Type := {
  geometry_object : PyVal → GeomObj;
  (** [QgsGeometry.fromWkt], which answers a null geometry for a text it does not read *)
  fromWkt : string → option string;
  (** [ogr.CreateGeometryFromJson], [CreateGeometryFromGML], with [ExportToWkt] *)
  ogr_from_json : PyVal → option string;
  ogr_from_gml : string → option string;
  isPoint : option string → bool;
  asPoint : option string → res (Qc * Qc);
  centroid : option string → option string;
  (** [QgsCoordinateReferenceSystem(s)], [createFromUserInput] *)
  crs_from_string : string → option string;
  createFromUserInput : string → option string;
  toOgcUrn : string → string;
  toOgcUri : string → string;
  parameterAsCrs : PyVal → option string;
  parameterAsExtent : PyVal → Rect;
  parameterAsExtentCrs : PyVal → option string;
  dump_json : PyVal → string;
  (** [toPyDate], [toPyTime] and [toPyDateTime] of a default *)
  to_py : TimeKind → PyVal → res PyVal;
}.

(** ** Text of geometries *)
Definition wkt_media : string := "application/wkt".
Definition gml_media : string := "application/gml+xml".

(** The whitespace of a pattern *)
Definition re_space (a : ascii) : bool :=
  let n := N_of_ascii a in (n =? 32)%N || ((9 <=? n) && (n <=? 13))%N || ((28 <=? n) && (n <=? 31))%N.
Definition newline : ascii := "010"%char.
(** [s] cut at the last [c] *)
Fixpoint rpartition (c : ascii) (s : string) : option (string * string) :=
  match s with
  | "" => None
  | String a s' => match rpartition c s' with
                   | Some (l, r) => Some (String a l, r)
                   | None => if decide (a = c) then Some ("", s') else None
                   end
  end.

(** The groups of [WKT_EXPR]: the kind and the text of the reference system, empty
    when they are absent, and the text of the geometry *)
Definition wkt_match (wkt : string) : option (string * string * string) :=
  let s := lstrip re_space wkt in
  let s := match rpartition newline s with Some (l, "") => l | _ => s end in
  if char_in newline s then None
  else
    let prefix kind := if startswith (kind +:+ "=") s
                       then (fun lr => (kind, lr.1, lr.2)) <$> rpartition ";" (removeprefix (kind +:+ "=") s)
                       else None in
    match prefix "CRS", prefix "SRID" with
    | Some m, _ | None, Some m => Some m
    | None, None => Some ("", "", s)
    end.

Section geometry.
Context {TA : TypeAdapter} (qg : QgisGeo).

(** [wkt_to_geometry] *)
Definition wkt_to_geometry (wkt : string) : res QValue :=
  match wkt_match wkt with
  | Some (kind, crs_str, text) =>
      match fromWkt qg text with
      | None => Ok (QGeom None None)
      | Some g =>
          let crs_str := if decide (kind = "SRID") then "POSTGIS:" +:+ crs_str else crs_str in
          Ok (QGeom (Some g) (crs_from_string qg crs_str))
      end
  | None => Raise (InputValueError "Invalid wkt format")
  end.

(** What [SRSNAME_EXPR] finds: the first attribute srsname, whatever its case, and
    not the end of a longer word, with a value that is not empty *)
Definition quote_char : ascii := "034"%char.
Definition srs_value (s : string) : option string :=
  if startswith ("srsname=" +:+ String quote_char "") (lower s)
  then match partition quote_char (removeprefix ("srsname=" +:+ String quote_char "") (lower s)) with
       | Some (l, _) => if str_truth l then Some (String.substring 9 (String.length l) s) else None
       | None => None
       end
  else None.
Fixpoint srsname_search (after_word : bool) (s : string) : option string :=
  match s with
  | "" => None
  | String a s' =>
      match (if after_word then None else srs_value s) with
      | Some v => Some v
      | None => srsname_search (is_word a) s'
      end
  end.

(** [gml_to_geometry] *)
Definition gml_to_geometry (gml : string) : res QValue :=
  match ogr_from_gml qg gml with
  | None => Raise (InputValueError "Invalid gml format")
  | Some text =>
      Ok (QGeom (fromWkt qg text) (srsname_search false gml ≫= crs_from_string qg))
  end.

(** ** [ParameterGeometry] *)
Record GeomParam : Type := MkGeomParam { gp_types : list GeometryType; gp_multipart : bool }.

Definition geometrytypes_to_model (seq : list GeometryType) (allowMultipart : bool) : list Ty :=
  seq ≫= (fun t =>
    match t with
    | GPoint => Point :: if allowMultipart then [MultiPoint] else []
    | GLine => LineString :: if allowMultipart then [MultiLineString] else []
    | GPolygon => Polygon :: if allowMultipart then [MultiPolygon] else []
    | GOther => []
    end).
Definition get_geometry_type (p : GeomParam) : res Ty :=
  match gp_types p with
  | [] => Ok Geometry
  | types => match geometrytypes_to_model types (gp_multipart p) with
             | [] => Raise (TypeError "Cannot take a Union of no types.")
             | l => Ok (TUnion l)
             end
  end.

(** [qgsgeometry_to_json]; [default_crs] is the reference system of a project,
    which may be invalid *)
Definition set_attr (name : string) (x v : PyVal) : PyVal :=
  match v with
  | VObj l => VObj ((fun kv : string * PyVal => if decide (kv.1 = name) then (name, x) else kv) <$> l)
  | _ => v
  end.
Definition from_ref (ref : string) : PyVal :=
  VObj [("type", VStr "name"); ("properties", VObj [("name", VStr ref)])].
Definition from_xy (x y : Qc) : PyVal :=
  VObj [("crs", VNone); ("type", VStr "Point"); ("coordinates", VList [VFloat x; VFloat y])].
Definition qgsgeometry_to_json (t : Ty) (g : GeomObj) (default_crs : option (option string)) :
    res (option PyVal) :=
  out ← match g with
        | QgsPointXY x y => Ok (Some (from_xy x y, None))
        | QgsReferencedPointXY x y crs => Ok (Some (from_xy x y, crs))
        | QgsGeometry j => v ← validate_python t no_field j; Ok (Some (v, None))
        | QgsReferencedGeometry j crs => v ← validate_python t no_field j; Ok (Some (v, crs))
        | NotGeometry => Ok None
        end;
  match out with
  | None => Ok None
  | Some (v, crs) =>
      let crs := match crs, default_crs with None, Some d => d | _, _ => crs end in
      Ok (Some (match crs with Some c => set_attr "crs" (from_ref (toOgcUrn qg c)) v | None => v end))
  end.

(** [ParameterGeometry.create_model], from the type of the geometry *)
Definition geometry_model (t : Ty) (field : Field) (project : option QgsProject) (validation_only : bool) :
    res (Ty * Field) :=
  field ← (if validation_only then Ok field
           else
             let popped := set_default None field in
             match f_default field with
             | Some d =>
                 if py_truth d then
                   g ← qgsgeometry_to_json t (geometry_object qg d) (qp_crs <$> project);
                   Ok (match g with Some v => set_default (Some v) popped | None => popped end)
                 else Ok popped
             | None => Ok popped
             end);
  Ok (TUnion [t; TStr; TStr], field).

(** [ParameterGeometry.value] *)
Definition geojson_value (v : PyVal) : res QValue :=
  match v with
  | VStr _ => Raise (OtherException "AttributeError: model_dump_json")
  | _ =>
      match ogr_from_json qg v with
      | None => Ok (QPy VNone)
      | Some text =>
          let g := fromWkt qg text in
          let crs := attr "crs" v in
          if py_truth crs then
            match attr "name" (attr "properties" crs) with
            | VStr name => Ok (QGeom g (createFromUserInput qg name))
            | _ => Raise (TypeError "name")
            end
          else Ok (QGeom g None)
      end
  end.
(** An input that is qualified by a media type *)
Definition qualified (inp : JsonValue) : option (string * JsonValue) :=
  match inp with
  | JObj l => match assoc "value" l, assoc "mediaType" l with
              | Some (JStr value), Some media => Some (value, media)
              | _, _ => None
              end
  | _ => None
  end.
Definition geometry_value (t : Ty) (field : Field) (inp : JsonValue) : res QValue :=
  match qualified inp with
  | Some (value, JStr media) =>
      if decide (media = wkt_media) then wkt_to_geometry value
      else if decide (media = gml_media) then gml_to_geometry value
      else Raise (InputValueError ("Invalid geometry format: " +:+ media))
  | Some _ => Raise (InputValueError "Invalid geometry format")
  | None => v ← validate_python t field inp; geojson_value v
  end.

(** [ParameterPoint.value] with [qgsgeometry_to_point] *)
Definition qgsgeometry_to_point (g crs : option string) : res QValue :=
  p ← asPoint qg (if isPoint qg g then g else centroid qg g);
  Ok (QPoint p.1 p.2 crs).
Definition point_value (t : Ty) (field : Field) (inp : JsonValue) : res QValue :=
  g ← geometry_value t field inp;
  match g with
  | QGeom g crs => qgsgeometry_to_point g crs
  | _ => Raise (InputValueError "Geometry expected")
  end.

(** ** [ParameterCrs] *)

(** [CrsDefinition]; a url is its text *)
Definition CrsDefinition : Ty :=
  TUnion [TStr; TStr; TModel [("uri", TStr)] false; TModel [("json", TAny)] false].
Definition crs_model (field : Field) (validation_only : bool) : Ty * Field :=
  (CrsDefinition,
   if validation_only then field
   else
     let popped := set_default None field in
     match f_default field with
     | Some d =>
         if py_truth d then
           match parameterAsCrs qg d with
           | Some crs => set_default (Some (VStr (toOgcUrn qg crs))) popped
           | None => popped
           end
         else popped
     | None => popped
     end).

(** [ParameterCrs.value] *)
Definition crs_text (v : PyVal) : res string :=
  match v with
  | VStr value => Ok value
  | VObj l =>
      match assoc "uri" l, assoc "json" l with
      | Some (VStr url), _ => Ok url
      | None, Some data => Ok (dump_json qg data)
      | _, _ => Raise (InputValueError "Invalide CRS definition")
      end
  | _ => Raise (InputValueError "Invalide CRS definition")
  end.
Definition crs_value (field : Field) (inp : JsonValue) : res QValue :=
  let inp := match qualified inp with
             | Some (value, JStr media) => if decide (media = wkt_media) then JStr value else inp
             | _ => inp
             end in
  v ← validate_python CrsDefinition field inp;
  value ← crs_text v;
  match createFromUserInput qg value with
  | Some crs => Ok (QCrs crs)
  | None => Raise (InputValueError "Invalid CRS")
  end.

(** [ParameterCoordinateOperation.metadata]: the reference systems of a definition
    are values that may be absent or of any type *)
Inductive CrsVariant : Type := InvalidVariant | CrsVal (crs : option string) | OtherVal (text : string).
Definition to_string (v : CrsVariant) : option string :=
  match v with
  | InvalidVariant => None
  | CrsVal crs => toOgcUrn qg <$> crs
  | OtherVal s => Some s
  end.
Record OperationParam : Type := MkOperation {
  co_source : string; co_destination : string; co_source_crs : CrsVariant; co_destination_crs : CrsVariant;
}.
Definition operation_metadata (p : ParamDefinition) (o : OperationParam) : list Metadata :=
  base_metadata p ++
  (if str_truth (co_source o) then
     [MdValue (Some "sourceCrsParameterName") None (JStr (co_source o));
      MdValue (Some "destinationCrsParameterName") None (JStr (co_destination o))]
   else []) ++
  parent_metadata "staticDestinationCrs" (default "" (to_string (co_destination_crs o))) ++
  parent_metadata "staticSourceCrs" (default "" (to_string (co_source_crs o))).

(** ** [ParameterExtent] *)
Definition extent_model (field : Field) (validation_only : bool) : Ty * Field :=
  (bbox_type,
   if validation_only then field
   else
     let popped := set_default None field in
     match f_default field with
     | Some d =>
         if py_truth d then
           let rect := parameterAsExtent qg d in
           let crs := match parameterAsExtentCrs qg d with Some c => toOgcUri qg c | None => WGS84 end in
           if negb (rc_empty rect) || rc_null rect
           then set_default (Some (VObj [("bbox", VList (VFloat <$> rc_bounds rect)); ("crs", VStr crs)])) popped
           else popped
         else popped
     | None => popped
     end).

(** [ParameterExtent.value], of a validated value *)
Definition extent_value (v : PyVal) : res QValue :=
  let bbox := attr "bbox" v in
  a ← get_item bbox 0; b ← get_item bbox 1; c ← get_item bbox 2; d ← get_item bbox 3;
  match attr "crs" v with
  | VStr crs => Ok (QRect [a; b; c; d] (createFromUserInput qg crs))
  | _ => Raise (TypeError "crs")
  end.

(** ** [ParameterDateTime] *)

(** [date()] and [time()] of a date time *)
Definition Qc_floor (x : Qc) : Z := (QArith_base.Qnum (this x) / Z.pos (QArith_base.Qden (this x)))%Z.
Definition day_seconds : Qc := Qc_of_Z 86400.
Definition date_of (t : Qc) : Qc := (day_seconds * Qc_of_Z (Qc_floor (t / day_seconds)))%Qc.
Definition time_of (t : Qc) : Qc := (t - date_of t)%Qc.

(** The definition: its type, its bounds when they are valid *)
Record DateParam : Type := MkDate { dt_type : TimeKind; dt_minimum : option Qc; dt_maximum : option Qc }.
Definition date_bound (k : TimeKind) (t : Qc) : Qc :=
  match k with KDate => date_of t | KTime => time_of t | KDateTime => t end.
Definition datetime_model (p : DateParam) (field : Field) (validation_only : bool) : res (Ty * Field) :=
  let popped := set_default None field in
  d ← match f_default field with
      | Some d => if py_truth d then Some <$> to_py qg (dt_type p) d else Ok None
      | None => Ok None
      end;
  let bound t := date_bound (dt_type p) <$> t in
  let field := set_bounds (match bound (dt_minimum p) with Some m => Some m | None => f_ge popped end)
                 (match bound (dt_maximum p) with Some m => Some m | None => f_le popped end) popped in
  Ok (TTime (dt_type p),
      if validation_only then field
      else match d with Some v => if py_truth v then set_default (Some v) field else field | None => field end).

(** [ParameterDateTime.value], of a validated value *)
Definition datetime_value (p : DateParam) (v : PyVal) : res QValue :=
  match v with
  | VTime _ t => Ok (QTime (dt_type p) t)
  | _ => Raise (TypeError "arguments did not match any overloaded call")
  end.

(** ** mesh.py *)
Definition MeshDatasetGroups : Ty := TSet (TIntLiteral [0; 1; 2; 3]%Z).
Definition DefinedDatetime : Ty := TModel [("type", TLiteral ["defined-date-time"]); ("value", TTime KDateTime)] false.
Definition DatasetTimeStep : Ty :=
  TModel [("type", TLiteral ["dataset-time-step"]);
          ("value", TAnnotated (TSeq TInt) (set_lengths (Some 2) (Some 2) no_field))] false.
Definition StaticDateTime : Ty := TModel [("type", TLiteral ["static"])] false.
Definition CurrentContextTime : Ty := TModel [("type", TLiteral ["current-context-time"])] false.
Definition MeshDatasetTime : Ty := TUnion [DefinedDatetime; DatasetTimeStep; StaticDateTime; CurrentContextTime].

Definition mesh_groups_metadata (p : ParamDefinition) (mesh_layer : string) : list Metadata :=
  base_metadata p ++ parent_metadata "meshLayerParameterName" mesh_layer.
Definition mesh_time_metadata (p : ParamDefinition) (mesh_layer group : string) : list Metadata :=
  base_metadata p ++ parent_metadata "meshLayerParameterName" mesh_layer ++
  parent_metadata "datasetGroupParameterName" group.

(** [ParameterMeshDatasetTime.value], of a validated value *)
Definition mesh_time_value (v : PyVal) : res QValue :=
  match attr "type" v with
  | VStr "defined-date-time" =>
      match attr "value" v with
      | VTime _ t => Ok (QTime KDateTime t)
      | _ => Raise (TypeError "arguments did not match any overloaded call")
      end
  | _ => Ok (QPy v)
  end.
End geometry.

(** ** Properties *)

(** A geometry is unfolded far enough. *)
Lemma forallb_ext_le {A} (f g : A → bool) (d : A → nat) l :
  (∀ x, d x ≤ foldr (fun x n => Nat.max (d x) n) 0 l → f x = g x) → forallb f l = forallb g l.
Proof.
  induction l as [|x l IH]; simpl; [done|]. intros H. f_equal; [apply H; lia|].
  apply IH. intros y Hy. apply H. lia.
Qed.
Lemma assoc_depth {A} (d : A → nat) k (l : list (string * A)) x :
  assoc k l = Some x → d x ≤ foldr (fun kv n => Nat.max (d kv.2) n) 0 l.
Proof.
  induction l as [|[k' y] l IH]; simpl; [done|]. case_match; [intros [= ->]; lia|]. intros Hl%IH. lia.
Qed.

Lemma collection_ext t t' v :
  (∀ x, S (S (py_depth x)) ≤ py_depth v → has_type t x = has_type t' x) →
  has_type (GeometryCollection t) v = has_type (GeometryCollection t') v.
Proof.
  intros H. destruct v as [| | | | | | |l| | |]; try done. simpl in H |- *. f_equal. f_equal. f_equal.
  destruct (assoc "geometries" l) as [g|] eqn:E; [|done]. simpl.
  apply (assoc_depth py_depth) in E. destruct g as [| | | | |xs| | | | |]; try done. simpl in E.
  apply (forallb_ext_le _ _ py_depth). intros x Hx. apply H. lia.
Qed.

Lemma geometry_unfold n v : py_depth v ≤ n → has_type Geometry v = has_type (geometry_at n) v.
Proof.
  change (has_type Geometry v) with (has_type (geometry_at (py_depth v)) v).
  assert (∀ m n, py_depth v ≤ m → py_depth v ≤ n → has_type (geometry_at m) v = has_type (geometry_at n) v) as H;
    [|by intros; apply H].
  clear n. intros m. revert v. induction m as [|m IH]; intros v n Hm Hn.
  all: destruct n as [|n].
  all: cbn [geometry_at has_type existsb]; do 6 f_equal; try done.
  all: f_equal; apply collection_ext; intros x Hx; try lia.
  apply IH; lia.
Qed.

(** What the type of a model says of its attributes. *)
Lemma referenced_inv type items t v : has_type (Referenced type items t) v = true → items ≠ "crs" → items ≠ "type" →
  attr "type" v = VStr type ∧ has_type t (attr items v) = true.
Proof.
  intros H Hc Ht. destruct v as [| | | | | | |l| | |]; try done. simpl in H |- *.
  destruct (assoc "crs" l) as [c|]; [|done]. destruct (assoc "type" l) as [ty|]; [|by rw andb_false_r in H].
  destruct (assoc items l) as [x|]; [|by rw !andb_false_r in H].
  simpl in H |- *. apply andb_true_iff in H as [_ [H1 [H2 _]%andb_true_iff]%andb_true_iff].
  split; [|done]. destruct ty; try done. by apply bool_decide_eq_true_1, list_elem_of_singleton in H1 as ->.
Qed.

Lemma line_string_inv v : has_type LineString v = true →
  ∃ a b, attr "coordinates" v = VList [a; b] ∧ has_type PointItem a = true ∧ has_type PointItem b = true.
Proof.
  intros [_ [(l & -> & Hl)%seq_inv Hm]%andb_true_iff]%referenced_inv; [|done..].
  apply meets_lengths in Hm. destruct l as [|a [|b []]]; try done.
  inversion Hl as [|? ? ? Hl']; subst. inversion Hl'; subst. by exists a, b.
Qed.

(** The geometries of a type, by the text of their attribute. *)
Lemma geometry_types_inv seq multi t v : t ∈ geometrytypes_to_model seq multi → has_type t v = true →
  t = LineString ∨ attr "type" v ≠ VStr "LineString".
Proof.
  intros (g & Hg & _)%list_elem_of_bind Ht.
  assert (t = LineString ∨ t ∈ [Point; MultiPoint; MultiLineString; Polygon; MultiPolygon]) as [|H]; [|by left|right].
  { destruct g, multi; simpl in Hg; set_solver. }
  repeat (apply elem_of_cons in H as [->|H]; [by apply referenced_inv in Ht as [-> _]|]). by apply elem_of_nil in H.
Qed.

Lemma union_inv ts v : has_type (TUnion ts) v = true → ∃ t, t ∈ ts ∧ has_type t v = true.
Proof.
  change (existsb (fun t => has_type t v) ts = true → ∃ t, t ∈ ts ∧ has_type t v = true).
  intros (t & Hin & Ht)%existsb_exists. apply list_elem_of_In in Hin. eauto.
Qed.
Lemma geometry_at_members n : ∃ g, geometry_at n =
  TUnion [Point; MultiPoint; LineString; MultiLineString; Polygon; MultiPolygon; GeometryCollection g].
Proof. destruct n; eauto. Qed.

Lemma any_geometry_inv v : has_type Geometry v = true →
  has_type LineString v = true ∨ attr "type" v ≠ VStr "LineString".
Proof.
  change (has_type Geometry v) with (has_type (geometry_at (py_depth v)) v).
  destruct (geometry_at_members (py_depth v)) as [g ->]. intros (t & H & Ht)%union_inv.
  repeat (apply elem_of_cons in H as [->|H];
          [try (by left); right; by apply referenced_inv in Ht as [-> _]|]).
  by apply elem_of_nil in H.
Qed.

(** Whatever geometries a parameter takes, a line is accepted only when it has
    exactly two points: no other line can be given to an algorithm. *)
Theorem lines_have_two_points p t v :
  get_geometry_type p = Ok t → has_type t v = true → attr "type" v = VStr "LineString" →
  ∃ a b, attr "coordinates" v = VList [a; b] ∧ has_type PointItem a = true ∧ has_type PointItem b = true.
Proof.
  rw /get_geometry_type. intros Hp Ht Hv. apply line_string_inv. destruct (gp_types p) as [|g gs].
  - injection Hp as <-. by destruct (any_geometry_inv v Ht).
  - destruct (geometrytypes_to_model _ _) as [|t0 l] eqn:E; [done|]. injection Hp as <-.
    apply union_inv in Ht as (t & Hin & Ht). rw -E in Hin.
    by destruct (geometry_types_inv _ _ _ _ Hin Ht) as [->|].
Qed.

(** The prefixes of a text of geometry. *)
Lemma rpartition_none c s : char_in c s = false → rpartition c s = None.
Proof.
  induction s as [|a s IH]; simpl; [done|]. intros [Ha Hs]%orb_false_iff. rw IH; [done|].
  case_decide as E; [|done]. subst. by rw bool_decide_eq_true_2 in Ha.
Qed.
Lemma rpartition_last c l r : char_in c r = false → rpartition c (l +:+ String c r) = Some (l, r).
Proof.
  intros Hr. induction l as [|a l IH]; simpl; [|by rw IH]. rw rpartition_none //. by rw decide_True.
Qed.
Lemma lstrip_app f sp s : str_forall f sp = true → lstrip f (sp +:+ s) = lstrip f s.
Proof. induction sp as [|a sp IH]; simpl; [done|]. intros [-> ?]%andb_true_iff. by apply IH. Qed.

(** A text of geometry may name its reference system before it, as [CRS=...;] or
    [SRID=...;]: whatever this name holds up to the last semicolon, and the
    whitespace before it, the geometry is that of the rest, and its reference
    system is the one of this name, or that of PostGIS with this number. *)
Theorem wkt_reference {TA : TypeAdapter} qg sp kind c text :
  str_forall re_space sp = true → kind ∈ ["CRS"; "SRID"] →
  char_in newline c = false → char_in newline text = false → char_in ";" text = false →
  wkt_to_geometry qg (sp +:+ kind +:+ "=" +:+ c +:+ ";" +:+ text) =
    Ok (match fromWkt qg text with
        | None => QGeom None None
        | Some g => QGeom (Some g)
            (crs_from_string qg (if decide (kind = "SRID") then "POSTGIS:" +:+ c else c))
        end).
Proof.
  intros Hsp Hk Hc Ht Hsemi. rw /wkt_to_geometry.
  assert (wkt_match (sp +:+ kind +:+ "=" +:+ c +:+ ";" +:+ text) = Some (kind, c, text)) as ->; [|by case_match].
  assert (char_in newline (c +:+ ";" +:+ text) = false) as Hn by by rw !char_in_app Hc Ht.
  assert (rpartition ";" (c +:+ ";" +:+ text) = Some (c, text)) as Hp by by apply rpartition_last.
  rw /wkt_match lstrip_app //.
  apply elem_of_cons in Hk as [->|Hk]; [|apply list_elem_of_singleton in Hk as ->].
  all: set (x := c +:+ ";" +:+ text) in *; clearbody x; cbn -[rpartition removeprefix]; rw rpartition_none; simpl; rw ?Hn //.
  - by rw (removeprefix_app "CRS=" x) Hp.
  - by rw (removeprefix_app "SRID=" x) Hp.
Qed.

Lemma referenced_null type items t : has_type (Referenced type items t) VNone = false.
Proof. done. Qed.
Lemma geometry_type_null p t : get_geometry_type p = Ok t → has_type t VNone = false.
Proof.
  intros Hp. destruct (has_type t VNone) eqn:Ht; [|done]. exfalso. move: Hp. rw /get_geometry_type.
  destruct (gp_types p) as [|g gs]; [by intros [= <-]|].
  destruct (geometrytypes_to_model _ _) as [|t0 l] eqn:E; [done|]. intros [= <-].
  apply union_inv in Ht as (t & Hin & Ht). rw -E in Hin.
  apply list_elem_of_bind in Hin as (k & Hk & _). destruct k, (gp_multipart p); simpl in Hk; set_unfold.
  all: destruct_or! Hk; by subst.
Qed.

(** What the values are. *)
Section values.
Context {TA : TypeAdapter} {TAL : TypeAdapterLaws} (qg : QgisGeo).

Lemma geometry_value_ok t f j q : geometry_value qg t f j = Ok q →
  q = QPy VNone ∨ ∃ g crs, q = QGeom g crs.
Proof.
  rw /geometry_value. destruct (qualified j) as [[value media]|].
  - destruct media; try done. repeat case_decide; try done.
    + rw /wkt_to_geometry. repeat case_match; intros [= <-]; eauto.
    + rw /gml_to_geometry. case_match; intros [= <-]; eauto.
  - intros (v & _ & Hq)%res_bind_inv. move: Hq. rw /geojson_value.
    repeat case_match; intros [= <-]; eauto.
Qed.

Lemma point_value_ok t f j q : point_value qg t f j = Ok q → ∃ x y crs, q = QPoint x y crs.
Proof.
  rw /point_value. intros (g & _ & Hq)%res_bind_inv. destruct g; try done.
  move: Hq. rw /qgsgeometry_to_point. intros ([x y] & _ & [= <-])%res_bind_inv. eauto.
Qed.

Lemma crs_value_ok f j q : crs_value qg f j = Ok q → ∃ crs, q = QCrs crs.
Proof.
  rw /crs_value. intros (v & _ & (s & _ & Hq)%res_bind_inv)%res_bind_inv.
  case_match; [|done]. injection Hq as <-. eauto.
Qed.

Lemma floats_inv l : Forall (fun x => has_type TFloat x = true) l → ∃ qs, l = VFloat <$> qs.
Proof.
  induction 1 as [|x l Hx _ [qs ->]]; [by exists []|]. destruct x as [| | |y| | | | | | |]; try done.
  by exists (y :: qs).
Qed.
Lemma extent_value_ok v q : has_type bbox_type v = true → extent_value qg v = Ok q →
  ∃ a b c d crs, q = QRect [VFloat a; VFloat b; VFloat c; VFloat d] crs.
Proof.
  intros Ht Hq. rw /extent_value in Hq. destruct (attr "bbox" v) as [| | | | |l| | | | |] eqn:Hb; try done.
  assert (∃ qs, l = VFloat <$> qs) as [qs ->].
  { destruct v as [| | | | | | |fs| | |]; try done. simpl in Hb. simpl in Ht.
    destruct (assoc "bbox" fs) as [bb|]; [|done]. simpl in Hb. subst bb. simpl in Ht.
    apply floats_inv, forallb_Forall. apply andb_true_iff in Ht as [Ht _].
    by destruct (forallb _ l). }
  apply res_bind_inv in Hq as (a & Ha & Hq). apply res_bind_inv in Hq as (b & Hb' & Hq).
  apply res_bind_inv in Hq as (c & Hc & Hq). apply res_bind_inv in Hq as (d & Hd & Hq).
  destruct (attr "crs" v); try done. injection Hq as <-.
  do 4 (destruct qs as [|? qs]; [done|]). simpl in *. injection Ha as <-. injection Hb' as <-.
  injection Hc as <-. injection Hd as <-. eauto 10.
Qed.

(** The rectangle of a box with heights ends at its lowest height. *)
Lemma extent_heights x0 y0 z0 x1 y1 z1 crs :
  extent_value qg (VObj [("bbox", VList (VFloat <$> [x0; y0; z0; x1; y1; z1])); ("crs", VStr crs)]) =
    Ok (QRect [VFloat x0; VFloat y0; VFloat z0; VFloat x1] (createFromUserInput qg crs)).
Proof. done. Qed.

Lemma datetime_value_ok p vo t f v q :
  datetime_model qg p no_field vo = Ok (t, f) → has_type t v = true → meets f v = true →
  datetime_value p v = Ok q →
  ∃ t, q = QTime (dt_type p) t ∧
    (∀ m, dt_minimum p = Some m → date_bound (dt_type p) m ≤ t)%Qc ∧
    (∀ m, dt_maximum p = Some m → t ≤ date_bound (dt_type p) m)%Qc.
Proof.
  intros [= <- Hf] Ht Hm. destruct v as [| | | | | | | | |k x|]; try done. intros [= <-].
  exists x. split; [done|].
  assert (f_ge f = date_bound (dt_type p) <$> dt_minimum p ∧ f_le f = date_bound (dt_type p) <$> dt_maximum p)
    as [Hge Hle]. { subst f. by destruct vo, (dt_minimum p), (dt_maximum p). }
  rw /meets Hge Hle in Hm. split; intros m E; rw E /= in Hm; repeat apply andb_true_iff in Hm as [Hm ?].
  all: by apply Qc_le_true.
Qed.

Lemma mesh_groups_ok v : has_type MeshDatasetGroups v = true →
  ∃ l, v = VSet l ∧ Forall (fun v => ∃ z, v = VInt z ∧ (0 ≤ z < 4)%Z) l.
Proof.
  destruct v as [| | | | | |l| | | |]; try done. intros Hl%forallb_Forall. exists l. split; [done|].
  eapply Forall_impl; [exact Hl|]. intros x Hx. destruct x as [| |z| | | | | | | |]; try done.
  exists z. split; [done|]. apply bool_decide_eq_true_1 in Hx.
  repeat (apply elem_of_cons in Hx as [->|Hx]; [lia|]). by apply elem_of_nil in Hx.
Qed.

Lemma mesh_time_ok v q : has_type MeshDatasetTime v = true → mesh_time_value v = Ok q →
  (∃ t, q = QTime KDateTime t) ∨
  ∃ v, q = QPy v ∧ attr "type" v ∈ [VStr "dataset-time-step"; VStr "static"; VStr "current-context-time"].
Proof.
  intros (t & Hin & Ht)%union_inv Hq.
  assert (∃ s, attr "type" v = VStr s ∧
    s ∈ ["defined-date-time"; "dataset-time-step"; "static"; "current-context-time"]) as (s & Hs & Hins).
  { repeat (apply elem_of_cons in Hin as [->|Hin];
      [destruct v as [| | | | | | |l| | |]; try done; simpl in Ht; simpl;
       destruct (assoc "type" l) as [ty|]; [|done]; destruct ty; try done; eexists; split; [done|];
       apply andb_true_iff in Ht as [Ht _]; apply bool_decide_eq_true_1 in Ht; set_solver|]).
    by apply elem_of_nil in Hin. }
  move: Hq. rw /mesh_time_value Hs. apply elem_of_cons in Hins as [->|Hins].
  - destruct (attr "value" v); try done. intros [= <-]. eauto.
  - intros Hq. right. exists v.
    repeat (apply elem_of_cons in Hins as [->|Hins]; [injection Hq as <-; split; [done|]; rw Hs; set_solver|]).
    by apply elem_of_nil in Hins.
Qed.
End values.

(** ** Witnesses *)
Module GeoDemo.
(** A QGIS that reads points and the reference systems of EPSG. *)
Definition epsg (s : string) : option string := if startswith "EPSG:" s then Some s else None.
Definition qgis : QgisGeo := {|
  geometry_object _ := NotGeometry;
  fromWkt s := if startswith "POINT" s then Some s else None;
  ogr_from_json _ := Some "POINT(1 2)";
  ogr_from_gml _ := None;
  isPoint _ := true;
  asPoint _ := Ok (Qc_of_Z 1, Qc_of_Z 2);
  centroid g := g;
  crs_from_string := epsg;
  createFromUserInput := epsg;
  toOgcUrn s := "urn:ogc:def:crs:" +:+ s;
  toOgcUri s := "http://www.opengis.net/def/crs/" +:+ s;
  parameterAsCrs _ := None;
  parameterAsExtent _ := MkRect [] true true;
  parameterAsExtentCrs _ := None;
  dump_json _ := "{}";
  to_py _ v := Ok v;
|}.
Definition point (x y : Z) : PyVal := VList [VFloat (Qc_of_Z x); VFloat (Qc_of_Z y)].
Definition line (points : list PyVal) : PyVal :=
  VObj [("crs", VNone); ("type", VStr "LineString"); ("coordinates", VList points)].
Definition lines : GeomParam := MkGeomParam [GLine] true.

(** A line of three points has no type. *)
Example line_of_three : ∀ n, has_type (geometry_at n) (line [point 0 0; point 1 1; point 2 0]) = false.
Proof.
  intros n. destruct (geometry_at_members n) as [g ->]. vm_compute. reflexivity.
Qed.
(** A collection of lines is a geometry. *)
Example collection :
  has_type Geometry (VObj [("crs", VNone); ("type", VStr "GeometryCollection");
                           ("geometries", VList [line [point 0 0; point 1 1]])]) = true.
Proof. vm_compute. reflexivity. Qed.
Example srs_name : srsname_search false "<gml:Point srsName='EPSG:1' SRSNAME=x/>" = None.
Proof. vm_compute. reflexivity. Qed.
Example srs_name_found :
  let q := String quote_char "" in
  srsname_search false ("<gml:Point xsrsname=" +:+ q +:+ "a" +:+ q +:+ " srsName=" +:+ q +:+ "EPSG:4326" +:+ q) =
    Some "EPSG:4326".
Proof. vm_compute. reflexivity. Qed.
End GeoDemo.

Lemma lines_have_two_points_witness :
  ∃ a b, attr "coordinates" (GeoDemo.line [GeoDemo.point 0 0; GeoDemo.point 1 1]) = VList [a; b] ∧
    has_type PointItem a = true ∧ has_type PointItem b = true.
Proof.
  eapply (lines_have_two_points GeoDemo.lines); [reflexivity|vm_compute; reflexivity|reflexivity].
Defined.

Lemma wkt_reference_witness :
  @wkt_to_geometry GeoDemo.qgis (" CRS=EPSG:4326;POINT(1 2)") = Ok (QGeom (Some "POINT(1 2)") (Some "EPSG:4326")).
Proof.
  exact (@wkt_reference (StrictPydantic.strict (fun _ => None)) GeoDemo.qgis " " "CRS" "EPSG:4326" "POINT(1 2)"
    eq_refl (list_elem_of_here _ _) eq_refl eq_refl eq_refl).
Defined.
