(* ===== verification/InputFiles.v ===== *)
(** * Files of inputs and outputs

    [OutputFormatDefinition] of [schemas/models.py], the destination layers of
    [processing/inputs/layers.py], [processing/inputs/files.py],
    [processing/outputs/base.py] and [processing/outputs/files.py]: where the
    files of a job are read and written, in which format, and how they are
    answered. *)
From S2P Require Import Prelude PyDict PyStd PyTemplate PyFloat Json Pydantic Ogc Routes CacheManager FileHandler Web Registry Executor JobsApi ProcessesApi Store WorkerFiles InputLiterals InputLayers.
Import Paths.

(** The configuration of a job and its context, as the inputs and the outputs
    read them: [raw_destination_input_sink] and [raw_destination_root_path] *)
Record PCtx : Type := MkPCtx {
  px_workdir : ppath; px_raw : bool; px_root : option ppath; px_destination_project : option string;
  px_job_id : string; px_public_url : string; px_store_url : string;
}.

(** ** Formats *)
Definition AnyFormat : string := "application/octet-stream".

(** [OutputFormatDefinition]: the media type of the format and the extension *)
Record OutputFmt : Type := MkFmt { of_media : string; of_ext : string }.
Definition default_fmt : OutputFmt := MkFmt AnyFormat "".

Section formats.
(** The tables of the module [mimetypes] *)
Context (types_map guess_extension : string → option string).

(** The setter of [output_format]: with the format of anything, the extension
    stays what it was *)
Definition set_output_format (media_type : string) (f : OutputFmt) : OutputFmt :=
  MkFmt media_type (if decide (media_type = AnyFormat) then of_ext f else default "" (guess_extension media_type)).

(** The setter of [output_extension] *)
Definition set_output_extension (ext : string) (f : OutputFmt) : res OutputFmt :=
  if startswith "." ext then Ok (MkFmt (default AnyFormat (types_map ext)) ext)
  else Raise (PreconditionError "Suffix should start with a '.'").

(** ** Destination layers *)

(** The default value of a destination layer: none, a text, or a definition with
    the static value of its sink and its name *)
Inductive DestDefault : Type :=
| DestNone
| DestName (name : string)
| DestDefinition (sink : option string) (destinationName : string).

Record DestParam : Type := MkDest { dp_name : string; dp_default_ext : string; dp_default : DestDefault }.

(** [ParameterLayerDestination.get_default_value] *)
Definition get_default_value (d : DestParam) : res (option string * string) :=
  let ext := "." +:+ dp_default_ext d in
  match dp_default d with
  | DestNone => Ok (None, ext)
  | DestName n => Ok (Some n, ext)
  | DestDefinition sink name =>
      if ostr_truth sink then
        let sink := default "" sink in
        url ← urlsplit (default sink (fst <$> partition "|" sink));
        if str_truth (u_path url) && bool_decide (lower (scheme url) ∈ [""; "file"])
        then let p := path_of (u_path url) in
             Ok (Some (str_or name (stem p)), str_or (suffix p) ext)
        else Raise (OtherException "UnboundLocalError: dest")
      else Ok (Some name, ext)
  end.

(** [ParameterLayerDestination.initialize] *)
Definition layer_destination_init (d : DestParam) : res OutputFmt :=
  de ← get_default_value d; set_output_extension de.2 default_fmt.

(** [ParameterLayerDestination.create_model] *)
Definition layer_destination_model (d : DestParam) (field : Field) (validation_only : bool) : res (Ty * Field) :=
  if validation_only then Ok (TStr, field)
  else de ← get_default_value d;
       Ok (TStr, set_default (match de.1 with
                              | Some n => if str_truth n then Some (VStr n) else None
                              | None => None
                              end) field).

(** [ParameterLayerDestination.value], of a validated destination *)
Definition layer_destination_value (d : DestParam) (f : OutputFmt) (destination : string) (ctx : PCtx) : res QValue :=
  if px_raw ctx then
    sn ← raw_destination_sink (dp_name d) destination (px_workdir ctx) (of_ext f) (px_root ctx);
    Ok (QSink sn.1 sn.2 (px_destination_project ctx))
  else
    Ok (QSink (path_str (path_join (px_workdir ctx) (path_of (get_valid_filename (dp_name d) +:+ of_ext f))))
          destination (px_destination_project ctx)).

(** ** Input files *)

(** [QgsProcessingParameterFile] *)
Record FileParam : Type := MkFile { fl_name : string; fl_extension : string; fl_folder : bool }.

(** [QualifiedInputValue], [LinkReference] *)
Inductive RefOrQualified : Type :=
| Qualified (value : JsonValue) (encoding : option string)
| Reference (href method : string) (mime_type hreflang body : option string).

(** [ParameterFile.create_model]: a text, or a link given as an object *)
Definition LinkReferenceTy : Ty := TModel [("href", TStr)] true.
Definition file_type (p : FileParam) : Ty := if fl_folder p then TStr else TUnion [TStr; LinkReferenceTy].

Section files.
(** The validation of [RefOrQualifiedInput], the decoding of base64, and the
    answer to a request of a method on a link with headers and a body *)
Context (validate_input : JsonValue → res RefOrQualified) (b64decode : string → res string).
Context (request : string → string → list (string * string) → option string → res (Z * string)).

(** [download_ref] *)
Definition download_ref (href method : string) (mime_type hreflang body : option string) : res string :=
  let header n v := if ostr_truth v then [(n, default "" v)] else [] in
  resp ← request (str_or method "GET") href (header "Accept" mime_type ++ header "Accept-Language" hreflang)
           (if ostr_truth body then body else None);
  if decide (resp.1 ∈ [200; 206]%Z) then Ok resp.2
  else Raise (InputValueError "Reference request error: ({resp.status_code}) {resp.text}").

(** What is written of an input *)
Definition input_data (i : RefOrQualified) : res string :=
  match i with
  | Qualified v enc =>
      match v with
      | JStr s => if decide (enc ∈ [Some "base64"; Some "binary"]) then b64decode s else Ok s
      | _ => Raise (OtherException "AttributeError: encode")
      end
  | Reference href method mime lang body => download_ref href method mime lang body
  end.

(** [ParameterFile.value] *)
Definition store_input (destination : ppath) (i : RefOrQualified) : M FS QValue := fun fs =>
  let opened := write_file destination "" fs in
  match input_data i with
  | Ok data => (Ok (QPy (VStr (path_str destination))), write_file destination data opened)
  | Raise e => (Raise e, unlink destination opened)
  end.
Definition file_value (p : FileParam) (inp : JsonValue) (ctx : PCtx) : M FS QValue :=
  if fl_folder p then
    if px_raw ctx then
      match inp with JStr s => mret (QPy (VStr s)) | _ => mret (QPy (VOther "JsonValue")) end
    else mret (QPy (VStr ""))
  else
    raw ← (if px_raw ctx then
             match inp with
             | JObj l =>
                 match assoc "href" l with
                 | Some (JStr s) => pure (resolve_raw_reference s (px_workdir ctx) (px_root ctx) (fl_extension p))
                 | None => pure (resolve_raw_reference "" (px_workdir ctx) (px_root ctx) (fl_extension p))
                 | Some _ => raise (OtherException "AttributeError: decode")
                 end
             | _ => raise (OtherException "AttributeError: get")
             end
           else mret None);
    match raw with
    | Some q =>
        fs ← get;
        if exists_path q fs then mret (QPy (VStr (path_str q)))
        else raise (InputValueError (fl_name p +:+ ": file not found '" +:+ path_str q +:+ "'"))
    | None =>
        i ← pure (validate_input inp);
        destination ← pure (with_any_suffix (path_join (px_workdir ctx) (path_of (fl_name p))) (fl_extension p));
        store_input destination i
    end.
End files.

(** ** Destination files *)
Section destinations.
(** [Path.resolve()], which follows the links of the file system *)
Context (resolve : ppath → ppath).

(** [resolve_path] of [inputs/files.py], of a validated path, and without raw
    paths: a path that leaves the directory of the job is cut to its name *)
Definition resolve_destination (inp : string) (workdir : ppath) : ppath :=
  let value := resolve (path_join workdir (path_of (removeprefix "/" inp))) in
  if path_is_relative_to value workdir then value else path_of (path_name value).

(** [ParameterFileDestination.initialize] *)
Definition file_destination_init (default_ext : string) : res OutputFmt :=
  if str_truth default_ext && negb (bool_decide (default_ext = "file"))
  then set_output_extension ("." +:+ default_ext) default_fmt
  else Ok default_fmt.

(** [ParameterFileDestination.value]: a raw path is a text, which has no
    [with_suffix] *)
Definition file_destination_value (f : OutputFmt) (inp : string) (ctx : PCtx) : res QValue :=
  if px_raw ctx then
    if str_truth (of_ext f) then Raise (OtherException "AttributeError: 'str' object has no attribute 'with_suffix'")
    else Ok (QPy (VStr inp))
  else
    p ← (let p := resolve_destination inp (px_workdir ctx) in
         if str_truth (of_ext f) then with_any_suffix p (of_ext f) else Ok p);
    Ok (QPy (VStr (path_str p))).
End destinations.

(** [ParameterFolderDestination.create_model]: the class has no type *)
Definition folder_destination_model : res (Ty * Field) := Raise (OtherException "NotImplementedError").

(** ** Output formats *)

(** [s.split(sep)] with a separator of two characters *)
Fixpoint split_two (a b : ascii) (s : string) (acc : string) : list string :=
  match s with
  | String x ((String y s2) as s1) =>
      if decide (x = a ∧ y = b) then acc :: split_two a b s2 "" else split_two a b s1 (acc +:+ String x "")
  | String x "" => [acc +:+ String x ""]
  | "" => [acc]
  end.

(** The regular expression of [output_file_formats]: the last dot that lower case
    letters follow, and these letters *)
Definition is_lower (a : ascii) : bool := ((97 <=? N_of_ascii a) && (N_of_ascii a <=? 122))%N.
Fixpoint lower_run (s : string) : string :=
  match s with String a s => if is_lower a then String a (lower_run s) else "" | "" => "" end.
Fixpoint last_ext (s : string) : option string :=
  match s with
  | "" => None
  | String a s =>
      match last_ext s with
      | Some e => Some e
      | None => if decide (a = "."%char ∧ str_truth (lower_run s) = true)
                then Some ("." +:+ lower_run s) else None
      end
  end.

(** [output_file_formats]: media types and suffixes *)
Definition output_file_formats (fileFilter : string) : list (string * string) :=
  omap (fun f => ext ← last_ext f; mime ← types_map ext;
                 if str_truth mime then Some (mime, ext) else None)
    (split_two ";" ";" fileFilter "").

(** The definition of a file output: its name, and the filter of the destination
    that created it *)
Record FileOutput : Type := MkFileOutput { fo_name : string; fo_filter : option string }.

(** [OutputFile.get_output_formats] *)
Definition file_output_formats (o : FileOutput) : list (string * string) :=
  match fo_filter o with Some f => output_file_formats f | None => [] end.

(** [OutputFile.validate_output], and that of the class it extends: the formats
    of the output and, when it is one of those allowed, of the input it comes
    from.  [format] is that of the request, if it is valid. *)
Definition validate_output (o : FileOutput) (format : res string) (out : OutputFmt) (param : option OutputFmt) :
    res (OutputFmt * option OutputFmt) :=
  match format with
  | Ok media =>
      let out := set_output_format media out in
      if decide (of_media out ∈ (file_output_formats o).*1) then
        if decide (of_media out = AnyFormat) then Ok (out, param)
        else Ok (out, match param with Some _ => Some out | None => None end)
      else Raise (InputValueError (fo_name o +:+ ": invalid format"))
  | Raise (ValidationError _) => Raise (InputValueError (fo_name o +:+ ": Invalid format definition"))
  | Raise e => Raise e
  end.

(** ** Output files *)

(** [resolve_path] of [outputs/files.py] *)
Definition resolve_output (value : string) (ctx : PCtx) : res ppath :=
  let p := path_of value in
  let root := if px_raw ctx then default (px_workdir ctx) (px_root ctx) else px_workdir ctx in
  if path_is_relative_to p root then Ok p else Raise (PostconditionError ("Invalid path: " +:+ path_str p)).

(** [ProcessingContext.file_reference]: the url of a file, that is added to those
    the job publishes *)
Definition file_reference (p : ppath) (ctx : PCtx) : M (gset string) string :=
  match path_relative_to p (px_workdir ctx) with
  | Some rel =>
      modify (fun fs => {[path_str rel]} ∪ fs);;
      pure (substitute (px_store_url ctx)
              [("resource", path_str rel); ("jobId", px_job_id ctx); ("public_url", px_public_url ctx)])
  | None => raise (ValueError "is not in the subpath of")
  end.

(** [Link(..).model_dump(..)]: the description has to be a text, when there is one *)
Definition link_json (href : string) (mime_type : option string) (title : string) (description : PyVal)
    (length : option Z) : res JsonValue :=
  if has_type (TOptional TStr) description then
    Ok (JObj ([("href", JStr href)] ++ (match mime_type with Some m => [("type", JStr m)] | None => [] end) ++
              [("title", JStr title)] ++
              (match description with VStr d => [("description", JStr d)] | _ => [] end) ++
              (match length with Some n => [("length", JInt n)] | None => [] end)))
  else Raise (ValidationError "description").

(** [self._out.description], without a call: the method of the definition *)
Definition description_method : PyVal := VOther "method".

(** [OutputFile.output] *)
Definition file_output (o : FileOutput) (out : OutputFmt) (value : string) (ctx : PCtx) (fs : FS) :
    M (gset string) JsonValue :=
  p ← pure (resolve_output value ctx);
  if is_file p fs then
    out ← pure (if decide (of_media out = AnyFormat) then set_output_extension (suffix p) out else Ok out);
    href ← file_reference p ctx;
    pure (link_json href (Some (of_media out)) (name_title (fo_name o)) description_method
            ((fun d => Z.of_nat (String.length d)) <$> fs_files fs !! p))
  else raise (FileNotFoundError value).

(** [OutputFolder.output] and [OutputHtml.output], which is the same *)
Definition folder_output (o : FileOutput) (value : string) (ctx : PCtx) (fs : FS) : M (gset string) JsonValue :=
  p ← pure (resolve_output value ctx);
  if bool_decide (p ∈ fs_dirs fs) then
    href ← file_reference p ctx; pure (link_json href None (name_title (fo_name o)) description_method None)
  else raise (ValueError ("'" +:+ path_str p +:+ "' is not a directory")).
End formats.

(** ** Properties *)

Lemma str_map_no_char (c : ascii) (f : ascii → ascii) s :
  (∀ a, f a ≠ c) → char_in c (str_map f s) = false.
Proof. intros Hf. induction s as [|a s IH]; [done|]. simpl. rw IH orb_false_r. by apply bool_decide_eq_false. Qed.

Lemma valid_filename_no_sep s : char_in "/" (get_valid_filename s) = false.
Proof.
  apply str_map_no_char. intros a. destruct (is_word a) eqn:E; [|done]. intros ->. by vm_compute in E.
Qed.

Lemma part_ok_plain x : char_in "/" x = false → x ∉ [""; "."] → part_ok x.
Proof. intros Hc Hx. split_and!; [set_solver..|done]. Qed.

(** [name_stem name ++ ext] is a component when [ext] is an extension. *)
Definition ext_ok (ext : string) : Prop := startswith "." ext = true ∧ char_in "/" ext = false ∧ ext ≠ ".".

Lemma with_any_suffix_ok p ext :
  p_parts p ≠ [] → Forall part_ok (p_parts p) → ext_ok ext →
  with_any_suffix p ext = Ok (PPath (p_root p) (removelast (p_parts p) ++ [name_stem (path_name p) +:+ ext])).
Proof.
  intros Hne Hp (Hs & Hc & Hd). rw /with_any_suffix Hc Hs andb_false_r bool_decide_false //=.
  rw /with_suffix. assert (str_truth (path_name p) = true) as ->; [|done].
  destruct (exists_last Hne) as (l & x & Hx). rw /path_name Hx last_snoc /=.
  rw Hx Forall_app Forall_singleton in Hp. destruct Hp as (_ & Hp & _). by destruct x.
Qed.

(** The file of a destination layer is a component of the directory of the job,
    made of the name of the parameter: the text of the request only names the
    layer. *)
Lemma layer_sink_place d f destination ctx :
  px_raw ctx = false → let file := get_valid_filename (dp_name d) +:+ of_ext f in
  char_in "/" (of_ext f) = false → file ∉ [""; "."] →
  layer_destination_value d f destination ctx =
    Ok (QSink (path_str (PPath (p_root (px_workdir ctx)) (p_parts (px_workdir ctx) ++ [file])))
          destination (px_destination_project ctx)).
Proof.
  intros Hr file Hx Hf. rw /layer_destination_value Hr -/file.
  by rw path_of_part //; apply part_ok_plain; [rw /file char_in_app valid_filename_no_sep Hx|].
Qed.

Lemma rsplit_dot_inv s l r : rsplit_dot s = Some (l, r) → s = l +:+ "." +:+ r.
Proof.
  revert l. induction s as [|a s IH]; intros l; simpl; [done|].
  destruct (rsplit_dot s) as [[l' r']|] eqn:E.
  - intros [= <- <-]. by rw (IH l').
  - case_decide; [subst|done]. by intros [= <- <-].
Qed.

Lemma name_stem_no_sep c s : char_in c s = false → char_in c (name_stem s) = false.
Proof.
  intros Hs. rw /name_stem. destruct (rsplit_dot s) as [[l r]|] eqn:E; [|done]. case_match; [|done].
  apply rsplit_dot_inv in E. rw E char_in_app in Hs. by apply orb_false_iff in Hs as [? _].
Qed.

Lemma ext_part_ok x ext : part_ok x → ext_ok ext → part_ok (name_stem x +:+ ext).
Proof.
  intros (_ & _ & Hx) (Hs & Hc & Hd). apply part_ok_plain.
  - by rw char_in_app Hc name_stem_no_sep.
  - destruct (name_stem x) as [|a y]; destruct ext as [|b ext]; try done.
    + change ("" +:+ String b ext) with (String b ext). by intros [?|?%list_elem_of_singleton]%elem_of_cons.
    + change (String a y +:+ String b ext) with (String a (y +:+ String b ext)).
      intros [|[= _ Hy]%list_elem_of_singleton]%elem_of_cons; [done|]. by destruct y.
Qed.

(** ** Destination files *)
Section destination.
#[local] Set Default Proof Using "Type*".
Context (resolve : ppath → ppath) (resolve_ok : ∀ p, path_ok (resolve p)).
Implicit Types (p q w : ppath).

(** [p] with an extension, in the same directory. *)
Definition with_name_ext (p : ppath) (ext : string) : ppath :=
  PPath (p_root p) (removelast (p_parts p) ++ [name_stem (path_name p) +:+ ext]).

Lemma with_name_ext_ok p ext :
  path_ok p → p_parts p ≠ [] → ext_ok ext →
  with_any_suffix p ext = Ok (with_name_ext p ext) ∧ path_of (path_str (with_name_ext p ext)) = with_name_ext p ext.
Proof.
  intros [Hr Hp] Hne He. split; [by apply with_any_suffix_ok|]. apply path_of_str. split; [done|]. simpl.
  destruct (exists_last Hne) as (l & x & Hx). rw /path_name Hx last_snoc removelast_last /=.
  rw Hx in Hp. apply Forall_app in Hp as [Hl Hx']. apply Forall_app. split; [done|].
  apply Forall_singleton, ext_part_ok; [by inversion Hx'|done].
Qed.

Lemma name_parts p : path_name p ≠ "" → p_parts p ≠ [].
Proof. intros H Hp. apply H. by rw /path_name Hp. Qed.

Lemma name_part_ok p : path_ok p → path_name p ≠ "" → part_ok (path_name p).
Proof.
  intros [_ Hp] Hne. destruct (exists_last (name_parts _ Hne)) as (l & x & Hx).
  rw /path_name Hx last_snoc /=. rw Hx in Hp. apply Forall_app in Hp as [_ Hp]. by inversion Hp.
Qed.

Lemma app_ext_ne (x y : string) : x +:+ y = x → y = "".
Proof. induction x as [|a x IH]; [done|]. intros [= H]. auto. Qed.

(** What is written beside a directory without an extension is not in it. *)
Lemma sibling_outside p w ext :
  p_parts p = p_parts w → p_parts w ≠ [] → suffix w = "" → ext_ok ext →
  path_relative_to (with_name_ext p ext) w = None.
Proof.
  intros Hp Hne Hs (He & _ & _). destruct (path_relative_to _ w) as [r|] eqn:Hq; [|done]. exfalso.
  apply path_relative_to_Some in Hq as (_ & _ & Hq). simpl in Hq.
  destruct (exists_last Hne) as (l & x & Hx). rw /path_name Hp Hx removelast_last last_snoc -app_assoc /= in Hq.
  apply app_inv_head in Hq. injection Hq as Hq _.
  rw /suffix /path_name Hx last_snoc /= in Hs.
  assert (name_stem x = x) as Hst.
  { move: Hs. rw /name_suffix /name_stem. repeat case_match; done. }
  rw Hst in Hq. apply app_ext_ne in Hq. by subst.
Qed.

(** C20. Where the file of a destination is written.  A destination in the directory
    of the job stays there, with the extension of its format, and is accepted
    when the outputs are answered.  A destination that is this directory is
    written beside it, and one that is elsewhere as a name in the current
    directory of the process; both are refused afterwards. *)
Theorem file_destination_place f inp ctx :
  px_raw ctx = false → ext_ok (of_ext f) → path_ok (px_workdir ctx) →
  p_parts (px_workdir ctx) ≠ [] → suffix (px_workdir ctx) = "" → p_root (px_workdir ctx) ≠ "" →
  let w := px_workdir ctx in
  let v := resolve (path_join w (path_of (removeprefix "/" inp))) in
  path_name v ≠ "" →
  let q := match path_relative_to v w with
           | Some _ => with_name_ext v (of_ext f)
           | None => PPath "" [name_stem (path_name v) +:+ of_ext f]
           end in
  file_destination_value resolve f inp ctx = Ok (QPy (VStr (path_str q))) ∧
  resolve_output (path_str q) ctx =
    match path_relative_to v w with
    | Some (PPath _ (_ :: _)) => Ok q
    | _ => Raise (PostconditionError ("Invalid path: " +:+ path_str q))
    end.
Proof.
  intros Hr He Hw Hne Hsfx Hroot w v Hname q.
  assert (part_ok (path_name v)) as Hpv by (apply name_part_ok; [apply resolve_ok|done]).
  assert (with_any_suffix (resolve_destination resolve inp w) (of_ext f) = Ok q ∧ path_of (path_str q) = q)
    as [Hv Hs].
  { rw /resolve_destination -/v /path_is_relative_to /q. destruct (path_relative_to v w).
    - apply with_name_ext_ok; [apply resolve_ok|by apply name_parts|done].
    - rw path_of_part //. apply (with_name_ext_ok (PPath "" [path_name v])); [|done..].
      by apply path_ok_rel, Forall_singleton. }
  split.
  { rw /file_destination_value Hr -/w. assert (str_truth (of_ext f) = true) as ->.
    { destruct He as (? & _). by destruct (of_ext f). }
    by rw Hv. }
  rw /resolve_output Hr Hs -/w /path_is_relative_to /q.
  destruct (path_relative_to v w) as [[rr rel]|] eqn:Hrel.
  - pose proof Hrel as (Hrt & Hrr & Hparts)%path_relative_to_Some. simpl in Hrr, Hparts. subst rr.
    destruct rel as [|y rel].
    + rw app_nil_r in Hparts. rw sibling_outside //.
    + assert (path_relative_to (with_name_ext v (of_ext f)) w =
        Some (PPath "" (removelast (y :: rel) ++ [name_stem (path_name v) +:+ of_ext f]))) as ->; [|done].
      apply path_relative_to_Some. split_and!; [done..|]. simpl. by rw Hparts removelast_app // app_assoc.
  - rw /path_relative_to decide_False //.
Qed.
End destination.

(** ** Input files *)

(** A file that is given by value or by reference is stored whole in the
    directory of the job; when it cannot be had nothing is left of it.  No other
    file changes. *)
Lemma store_input_spec b64 request d i fs r fs' :
  store_input b64 request d i fs = (r, fs') →
  match input_data b64 request i with
  | Ok data => r = Ok (QPy (VStr (path_str d))) ∧ fs_files fs' !! d = Some data
  | Raise e => r = Raise e ∧ fs_files fs' !! d = None
  end ∧ ∀ p, p ≠ d → fs_files fs' !! p = fs_files fs !! p.
Proof.
  rw /store_input. destruct (input_data b64 request i) as [data|e]; intros [= <- <-]; simpl.
  - split; [by simplify_map_eq|]. intros p Hp. by simplify_map_eq.
  - split; [by simplify_map_eq|]. intros p Hp. by simplify_map_eq.
Qed.

(** ** Outputs *)

(** What a negotiation of formats ends with: the format asked for, one of those
    of the output, with its extension, for the output and for its destination. *)
Lemma validate_output_ok types_map guess o media out param out' param' :
  validate_output types_map guess o (Ok media) out param = Ok (out', param') →
  media ∈ (file_output_formats types_map o).*1 ∧ of_media out' = media ∧
  (media ≠ AnyFormat → of_ext out' = default "" (guess media) ∧
     ∀ f, param = Some f → param' = Some out').
Proof.
  rw /validate_output /=. case_decide as Hin; [|done]. case_decide as Ha.
  - intros [= <- <-]. split_and!; [done..|]. by intros ?.
  - intros [= <- <-]. split_and!; [done..|]. intros _. rw /= decide_False //. split; [done|]. by intros f ->.
Qed.

(** No output that is a file or a directory is ever answered: the description of
    its link is the method that answers it, which is refused. *)
Theorem file_outputs_refused types_map o out value ctx fs s :
  (∃ e s', file_output types_map o out value ctx fs s = (Raise e, s')) ∧
  (∃ e s', folder_output o value ctx fs s = (Raise e, s')).
Proof.
  rw /file_output /folder_output /file_reference. py_unfold. rw /link_json /=.
  split; destruct (resolve_output value ctx) as [p|]; [|by eauto| |by eauto].
  - destruct (is_file p fs); [|by eauto]. case_decide.
    + destruct (set_output_extension types_map (suffix p) out); [|by eauto].
      destruct (path_relative_to p _); [|by eauto]. simpl. destruct (substitute _ _); by eauto.
    + destruct (path_relative_to p _); [|by eauto]. simpl. destruct (substitute _ _); by eauto.
  - destruct (bool_decide _); [|by eauto]. destruct (path_relative_to p _); [|by eauto].
    simpl. destruct (substitute _ _); by eauto.
Qed.

(** ** Witness *)
Module DestinationDemo.
(** A file system without links: parents are resolved. *)
Definition resolve (p : ppath) : ppath :=
  PPath (p_root (path_of (path_str p)))
    (rev (foldl (fun l x => if decide (x = "..") then tail l else x :: l) [] (p_parts (path_of (path_str p))))).
Definition ctx : PCtx := MkPCtx (PPath "/" ["w"; "job-1"]) false None None "job-1" "http://localhost" "".
Definition fmt : OutputFmt := MkFmt "application/json" ".json".

Lemma resolve_ok p : path_ok (resolve p).
Proof.
  pose proof (path_of_ok (path_str p)) as [Hr Hl]. split; [done|]. simpl. apply Forall_rev.
  assert (∀ l acc, Forall part_ok acc → Forall part_ok l →
    Forall part_ok (foldl (fun l x => if decide (x = "..") then tail l else x :: l) acc l)) as H; [|by apply H].
  induction l as [|x l IH]; intros acc Ha Hx; [done|]. inversion Hx; subst. simpl. apply IH; [|done].
  case_decide; [destruct acc; [done|by inversion Ha]|by constructor].
Qed.
End DestinationDemo.

Lemma file_destination_place_witness :
  file_destination_value DestinationDemo.resolve DestinationDemo.fmt "a/../out.txt" DestinationDemo.ctx =
    Ok (QPy (VStr "/w/job-1/out.json")) ∧
  (file_destination_value DestinationDemo.resolve DestinationDemo.fmt "../../etc/passwd" DestinationDemo.ctx =
    Ok (QPy (VStr "passwd.json")) ∧
   resolve_output "passwd.json" DestinationDemo.ctx = Raise (PostconditionError "Invalid path: passwd.json")) ∧
  file_destination_value DestinationDemo.resolve DestinationDemo.fmt "/" DestinationDemo.ctx =
    Ok (QPy (VStr "/w/job-1.json")).
Proof.
  assert (ext_ok ".json") by (split_and!; done).
  assert (path_ok (px_workdir DestinationDemo.ctx)) by exact (path_of_ok "/w/job-1").
  split_and!.
  - apply (file_destination_place DestinationDemo.resolve DestinationDemo.resolve_ok DestinationDemo.fmt
      "a/../out.txt" DestinationDemo.ctx); done.
  - apply (file_destination_place DestinationDemo.resolve DestinationDemo.resolve_ok DestinationDemo.fmt
      "../../etc/passwd" DestinationDemo.ctx); done.
  - apply (file_destination_place DestinationDemo.resolve DestinationDemo.resolve_ok DestinationDemo.fmt
      "../../etc/passwd" DestinationDemo.ctx); done.
  - apply (file_destination_place DestinationDemo.resolve DestinationDemo.resolve_ok DestinationDemo.fmt
      "/" DestinationDemo.ctx); done.
Defined.
