(* ===== verification/Inputs.v ===== *)
(** * The inputs of a process

    [processing/inputs/__init__.py] and the inputs of [processing/processes.py]:
    the class of input of each QGIS parameter, the conversion of the values of a
    request to parameters of an algorithm, and what QGIS is given by it. *)
From S2P Require Import Prelude PyDict PyStd PyTemplate PyFloat Json Pydantic Ogc Routes CacheManager FileHandler Web Registry Executor JobsApi ProcessesApi Store WorkerFiles InputLiterals InputLayers GeoInputs InputFiles.

(** ** Classes of inputs *)

(** The subclasses of [ParameterString], and the inputs that are strings *)
Inductive StringClass : Type :=
| ParameterString | ParameterAuthConfig | ParameterProviderConnection | ParameterMapTheme
| ParameterDatabaseSchema (parent_connection : string)
| ParameterDatabaseTable (allow_new : bool) (parent_connection : string)
| ParameterLayoutItem (parent_layout : string)
| ParameterExpression (expression_type parent_layer : string)
| ParameterCoordinateOperation (o : OperationParam).
Inductive NumberClass : Type := ParameterNumber | ParameterDistance | ParameterScale | ParameterDuration.

(** [InputTypes], by the class that each QGIS parameter has there, with the
    answers of its accessors. *)
Inductive InputClass : Type :=
| ParameterBool
| ParameterText (c : StringClass)
| ParameterEnum (e : EnumParam)
| ParameterNum (c : NumberClass) (n : NumberParam)
| ParameterRange (t : NumberType)
| ParameterColor (opacity : bool)
| ParameterLayout
| ParameterMatrix (m : MatrixParam)
| ParameterLayer (c : LayerInput)
| ParameterField (multiple : bool) (data_type : string) (default_all : bool) (parent_layer : string)
| ParameterBand (multiple : bool) (parent_layer : string)
| ParameterFieldMapping (parent_layer : string)
| ParameterAggregate (parent_layer : string)
| ParameterFile (p : FileParam)
| ParameterFileDestination (default_ext fileFilter : string)
| ParameterFolderDestination
| ParameterLayerDestination (d : DestParam) (vector_type : option string)
| ParameterGeometry (g : GeomParam)
| ParameterPoint
| ParameterCrs
| ParameterExtent
| ParameterDateTime (d : DateParam)
| ParameterMeshDatasetGroups (mesh_layer : string)
| ParameterMeshDatasetTime (mesh_layer group : string)
| Unsupported.

(** An input: its definition and class, the type and the field of its model, and
    its format when it is a destination *)
Record Input : Type := MkInput {
  in_param : ParamDefinition; in_class : InputClass; in_type : Ty; in_field : Field; in_fmt : OutputFmt;
}.
Definition in_name (i : Input) : string := pd_name (in_param i).

Section inputs.
Context {TA : TypeAdapter} (types_map : string → option string).
Context (parseColor : string → option PyVal) (parameterAsMatrix : PyVal → option (list PyVal)).
Context (qg : QgisGeo).

(** [create_model] of each class *)
Definition create_model (c : InputClass) (field : Field) (project : option QgsProject) (validation_only : bool) :
    res (Ty * Field) :=
  match c with
  | ParameterBool => Ok (TBool, field)
  | ParameterText _ => Ok (TStr, field)
  | ParameterEnum e => enum_model e field validation_only
  | ParameterNum _ n => number_model n field
  | ParameterRange t => range_model t field validation_only
  | ParameterColor _ => color_model parseColor field validation_only
  | ParameterLayout => Ok (layout_model (project ≫= qp_layouts), field)
  | ParameterMatrix m => Ok (matrix_model parameterAsMatrix m field validation_only)
  | ParameterLayer c => Ok (layer_model c project field)
  | ParameterField multiple _ _ _ => Ok (field_type multiple, field)
  | ParameterBand multiple _ => Ok (band_type multiple, field)
  | ParameterFieldMapping _ => Ok (TSeq FieldMapping, field)
  | ParameterAggregate _ => Ok (TSeq AggregateItem, field)
  | ParameterFile p => Ok (file_type p, field)
  | ParameterFileDestination _ _ => Ok (TStr, field)
  | ParameterFolderDestination => folder_destination_model
  | ParameterLayerDestination d _ => layer_destination_model d field validation_only
  | ParameterGeometry g => t ← get_geometry_type g; geometry_model qg t field project validation_only
  | ParameterPoint => geometry_model qg Point field project validation_only
  | ParameterCrs => Ok (crs_model qg field validation_only)
  | ParameterExtent => Ok (extent_model qg field validation_only)
  | ParameterDateTime d => datetime_model qg d field validation_only
  | ParameterMeshDatasetGroups _ => Ok (MeshDatasetGroups, field)
  | ParameterMeshDatasetTime _ _ => Ok (MeshDatasetTime, field)
  | Unsupported => Raise (ValueError "Unsupported input parameter")
  end.

(** [InputParameter.__init__] with [initialize] *)
Definition new_input (p : ParamDefinition) (c : InputClass) (project : option QgsProject) (validation_only : bool) :
    res Input :=
  tf ← create_model c (model_field p validation_only) project validation_only;
  fmt ← match c with
        | ParameterFileDestination ext _ => file_destination_init types_map ext
        | ParameterLayerDestination d _ => layer_destination_init types_map d
        | _ => Ok default_fmt
        end;
  Ok (MkInput p c tf.1 tf.2 fmt).

Definition supported (c : InputClass) : bool := match c with Unsupported => false | _ => true end.

(** [ProcessAlgorithm.inputs]: the class of a hidden parameter is looked for, but
    it is not an input *)
Definition inputs (defs : list (ParamDefinition * InputClass)) (project : option QgsProject)
    (validation_only : bool) : res (list Input) :=
  seq_res (omap (fun pc : ParamDefinition * InputClass =>
    if supported pc.2 then
      if pd_hidden pc.1 then None else Some (new_input pc.1 pc.2 project validation_only)
    else Some (Raise (ValueError "Unsupported input parameter"))) defs).

(** [metadata] of file and vector destinations, and of each class *)
Definition file_destination_metadata (p : ParamDefinition) (fileFilter : string) : list Metadata :=
  base_metadata p ++
  match output_file_formats types_map fileFilter with
  | [] => []
  | fs => [MdValue (Some "outputFormats") None (JArr ((fun f => JStr f.1) <$> fs))]
  end.
Definition vector_destination_metadata (p : ParamDefinition) (data_type : string) : list Metadata :=
  base_metadata p ++ [MdValue (Some "dataType") None (JStr data_type)].
Definition input_metadata (i : Input) : list Metadata :=
  let p := in_param i in
  match in_class i with
  | ParameterText (ParameterDatabaseSchema c) => database_schema_metadata p c
  | ParameterText (ParameterDatabaseTable a c) => database_table_metadata p a c
  | ParameterText (ParameterLayoutItem l) => layout_item_metadata p l
  | ParameterText (ParameterExpression t l) => expression_metadata p t l
  | ParameterText (ParameterCoordinateOperation o) => operation_metadata qg p o
  | ParameterMeshDatasetGroups l => mesh_groups_metadata p l
  | ParameterMeshDatasetTime l g => mesh_time_metadata p l g
  | ParameterNum ParameterDistance n => distance_metadata p n
  | ParameterNum ParameterScale _ => scale_metadata p
  | ParameterNum ParameterDuration n => duration_metadata p n
  | ParameterMatrix m => matrix_metadata p m
  | ParameterField _ t a l => field_metadata p t a l
  | ParameterBand _ l | ParameterFieldMapping l | ParameterAggregate l => parent_layer_metadata p l
  | ParameterFileDestination _ filt => file_destination_metadata p filt
  | ParameterLayerDestination _ (Some t) => vector_destination_metadata p t
  | _ => base_metadata p
  end.

(** [value_passing], [description] *)
Definition value_passing (i : Input) : list string :=
  match in_class i with ParameterFile _ => ["byValue"; "byReference"] | _ => ["byValue"] end.
Definition description (i : Input) : InputDescription :=
  input_description (in_param i) (value_passing i) (input_metadata i).

(** ** Values *)
Record PState : Type := MkPState { ps_fs : FS; ps_selected : list Selection }.
Definition on_files {A} (m : M FS A) : M PState A :=
  zoom ps_fs (fun fs s => MkPState fs (ps_selected s)) m.
Definition on_layers {A} (m : M (list Selection) A) : M PState A :=
  zoom ps_selected (fun l s => MkPState (ps_fs s) l) m.

Context (getMapLayer : string → option MapLayer) (resolve : ppath → ppath).
Context (validate_input : JsonValue → res RefOrQualified) (b64decode : string → res string).
Context (request : string → string → list (string * string) → option string → res (Z * string)).

Definition text_of (v : PyVal) : res string :=
  match v with VStr s => Ok s | _ => Raise (TypeError "str expected") end.

(** What the class makes of a validated value; the classes whose value is the one
    that was validated are the last case *)
Definition convert (i : Input) (v : PyVal) (ctx : PCtx) : M PState QValue :=
  match in_class i with
  | ParameterEnum e => pure (QPy <$> enum_value e v)
  | ParameterColor opacity => pure (QPy <$> color_value opacity v)
  | ParameterMatrix _ => pure (QPy <$> matrix_value v)
  | ParameterLayer (ParameterFeatureSource _) => on_layers (feature_source_value getMapLayer v)
  | ParameterLayer (ParameterVectorTileWriterLayers _)
  | ParameterLayer ParameterTinInputLayers | ParameterLayer ParameterAlignRasterLayers
  | ParameterFieldMapping _ | ParameterAggregate _ => mret (QPy (dump_python v))
  | ParameterFileDestination _ _ =>
      pure (s ← text_of v; file_destination_value resolve (in_fmt i) s ctx)
  | ParameterLayerDestination d _ =>
      pure (s ← text_of v; layer_destination_value d (in_fmt i) s ctx)
  | ParameterExtent => pure (extent_value qg v)
  | ParameterDateTime d => pure (datetime_value d v)
  | ParameterMeshDatasetTime _ _ => pure (mesh_time_value v)
  | _ => mret (QPy v)
  end.

(** [value] of an input: files are not validated against their model, nor are
    geometries and reference systems that are qualified by a media type *)
Definition input_value (i : Input) (inp : JsonValue) (ctx : PCtx) : M PState QValue :=
  match in_class i with
  | ParameterFile p => on_files (file_value validate_input b64decode request p inp ctx)
  | ParameterGeometry _ => pure (geometry_value qg (in_type i) (in_field i) inp)
  | ParameterPoint => pure (point_value qg (in_type i) (in_field i) inp)
  | ParameterCrs => pure (crs_value qg (in_field i) inp)
  | _ => v ← pure (validate_python (in_type i) (in_field i) inp); convert i v ctx
  end.

(** [InputParameter.parameters]: the value of one input, and those of all, by
    their names *)
Definition parameter (params : list (string * JsonValue)) (ctx : PCtx) (i : Input) : M PState QValue :=
  let v := default JNull (assoc (in_name i) params) in
  if json_truth v || pd_optional (in_param i) then
    try_except (input_value i v ctx)
      (fun e => match e with
                | ValidationError _ => Some (raise (InputValueError ("'" +:+ in_name i +:+ "' parameter error")))
                | _ => None
                end)
  else raise (InputValueError ("Missing parameter " +:+ in_name i)).
Fixpoint parameters (ins : list Input) (params : list (string * JsonValue)) (ctx : PCtx) :
    M PState (list (string * QValue)) :=
  match ins with
  | [] => mret []
  | i :: ins => v ← parameter params ctx i; vs ← parameters ins params ctx; mret ((in_name i, v) :: vs)
  end.
End inputs.

(** ** What QGIS is given *)

(** A layer of the project that the input can take; any name when there is none. *)
Definition layer_ok (project : option QgsProject) (c : LayerInput) (name : string) : Prop :=
  let names := match project with Some p => ly_name <$> input_layers c p | None => [] end in
  names = [] ∨ name ∈ names.

(** A choice of an enumeration: an option, or the index of one. *)
Definition choice_ok (e : EnumParam) (v : PyVal) : Prop :=
  if en_static e then ∃ s, v = VStr s ∧ s ∈ en_options e
  else ∃ i s, v = VInt (Z.of_nat i) ∧ en_options e !! i = Some s.

Definition number_ok (t : NumberType) (v : PyVal) : Prop :=
  match t with NInteger => ∃ z, v = VInt z | _ => ∃ x, v = VFloat x end.
Definition bounded (n : NumberParam) (v : PyVal) : Prop :=
  ∃ x, num_of v = Some x ∧
    (Qc_le (nu_min n) (- float_max) = false → nu_min n ≤ x)%Qc ∧
    (Qc_le float_max (nu_max n) = false → x ≤ nu_max n)%Qc.

(** The values that an algorithm expects for a parameter of the class. *)
Definition value_ok (project : option QgsProject) (c : InputClass) (q : QValue) : Prop :=
  match c with
  | ParameterBool => ∃ b, q = QPy (VBool b)
  | ParameterText _ => ∃ s, q = QPy (VStr s)
  | ParameterEnum e =>
      if en_multiple e then ∃ l, q = QPy (VList l) ∧ Forall (choice_ok e) l
      else ∃ v, q = QPy v ∧ choice_ok e v
  | ParameterNum _ n => ∃ v, q = QPy v ∧ number_ok (nu_type n) v ∧ bounded n v
  | ParameterRange t => ∃ a b, q = QPy (VList [a; b]) ∧ number_ok t a ∧ number_ok t b
  | ParameterLayout =>
      ∃ s, q = QPy (VStr s) ∧ let names := default [] (project ≫= qp_layouts) in names = [] ∨ s ∈ names
  | ParameterMatrix m =>
      ∃ cells, q = QPy (VList cells) ∧ Forall (fun x => has_type cell_type x = true) cells ∧
        ∀ r c, mx_rows m = Some r → matrix_cols m = Some c → length cells = r * c
  | ParameterLayer c =>
      match c with
      | ParameterFeatureSource _ => ∃ s b, q = QSource s b ∧ layer_ok project c s
      | ParameterVectorTileWriterLayers _ | ParameterTinInputLayers | ParameterAlignRasterLayers => True
      | ParameterMultipleLayers _ _ | ParameterDxfLayers =>
          ∃ l, q = QPy (VSet l) ∧ Forall (fun v => ∃ s, v = VStr s ∧ layer_ok project c s) l
      | _ => ∃ s, q = QPy (VStr s) ∧ layer_ok project c s
      end
  | ParameterBand false _ => ∃ z, q = QPy (VInt z) ∧ (0 ≤ z)%Z
  | ParameterField false _ _ _ => ∃ s, q = QPy (VStr s)
  | ParameterField true _ _ _ =>
      ∃ l, q = QPy (VList l) ∧ l ≠ [] ∧ Forall (fun v => ∃ s, v = VStr s) l
  | ParameterFileDestination _ _ => ∃ s, q = QPy (VStr s)
  | ParameterLayerDestination _ _ => ∃ sink name project, q = QSink sink name project
  | ParameterGeometry _ => q = QPy VNone ∨ ∃ g crs, q = QGeom g crs
  | ParameterPoint => ∃ x y crs, q = QPoint x y crs
  | ParameterCrs => ∃ crs, q = QCrs crs
  | ParameterExtent => ∃ a b c d crs, q = QRect [VFloat a; VFloat b; VFloat c; VFloat d] crs
  | ParameterDateTime p =>
      ∃ t, q = QTime (dt_type p) t ∧
        (∀ m, dt_minimum p = Some m → date_bound (dt_type p) m ≤ t)%Qc ∧
        (∀ m, dt_maximum p = Some m → t ≤ date_bound (dt_type p) m)%Qc
  | ParameterMeshDatasetGroups _ => ∃ l, q = QPy (VSet l) ∧ Forall (fun v => ∃ z, v = VInt z ∧ (0 ≤ z < 4)%Z) l
  | ParameterMeshDatasetTime _ _ =>
      (∃ t, q = QTime KDateTime t) ∨
      ∃ v, q = QPy v ∧ attr "type" v ∈ [VStr "dataset-time-step"; VStr "static"; VStr "current-context-time"]
  | _ => True
  end.

Lemma names_inv names v : has_type (names_type names) v = true →
  ∃ s, v = VStr s ∧ (names = [] ∨ s ∈ names).
Proof.
  rw /names_type. destruct names as [|n ns].
  - destruct v; try done. eauto.
  - intros (s & -> & Hs)%literal_inv. eauto.
Qed.

Lemma str_inv v : has_type TStr v = true → ∃ s, v = VStr s.
Proof. destruct v; try done. eauto. Qed.

Lemma number_inv t ty v : (ty, t) = (TInt, NInteger) ∨ (ty, t) = (TFloat, NDouble) →
  has_type ty v = true → number_ok t v.
Proof. intros [[= -> ->]|[= -> ->]]; destruct v; try done; simpl; eauto. Qed.

Lemma bounded_ok n v f :
  meets (set_number_minmax n no_field) v = true → number_ok f v → bounded n v.
Proof.
  rw /meets /set_number_minmax /bounded /= !andb_true_r andb_true_iff. intros [Hge Hle] Hn.
  assert (∃ x, num_of v = Some x) as [x Hx]. { destruct f, Hn as [? ->]; eauto. }
  exists x. split; [done|]. rw Hx in Hge, Hle.
  split; intros Hb; rw Hb /= in Hge, Hle; by apply Qc_le_true.
Qed.

Lemma pair_inv t v : has_type (TSeq t) v = true → meets (set_lengths (Some 2) (Some 2) no_field) v = true →
  ∃ a b, v = VList [a; b] ∧ has_type t a = true ∧ has_type t b = true.
Proof.
  intros (l & -> & Hl)%seq_inv Hm. apply meets_lengths in Hm.
  destruct l as [|a [|b [|c l]]]; try done. inversion_clear Hl as [|? ? Ha Hb]. inversion_clear Hb. eauto.
Qed.

Lemma enum_choice_ok e v r : has_type (enum_type e) v = true → enum_value e v = Ok r →
  if en_multiple e then ∃ l, r = VList l ∧ Forall (choice_ok e) l else choice_ok e r.
Proof.
  intros Ht Hr. destruct (enum_value_ok e v Ht) as (r' & Hr' & Hv). rw Hr in Hr'. injection Hr' as <-.
  rw /enum_type in Ht. rw /choice_ok. destruct (en_multiple e).
  - destruct v; try done. destruct Hv as (rs & -> & Hl & Hv). exists rs. split; [done|].
    destruct (en_static e).
    + subst rs. eapply Forall_impl; [exact Hl|]. intros x. apply literal_inv.
    + apply Forall_lookup. intros i y Hy. destruct (Forall2_lookup_r _ _ _ _ _ Hv Hy) as (x & _ & s & j & _ & ? & ?).
      eauto.
  - destruct (literal_inv _ _ Ht) as (s & -> & Hs). destruct (en_static e); [by subst; eauto|].
    destruct Hv as (s' & j & _ & ? & ?). eauto.
Qed.

Lemma select_features_value getMapLayer source a b s r s' :
  (select_features getMapLayer source a b;; mret (QSource source true)) s = (Ok r, s') → r = QSource source true.
Proof. by intros (? & ? & _ & [= <- _])%bind_ok_inv. Qed.

Lemma feature_source_ok getMapLayer t v s q s' :
  has_type (TUnion [t; source_model t]) v = true → (∀ x, has_type t x = true → ∃ n, x = VStr n) →
  feature_source_value getMapLayer v s = (Ok q, s') →
  ∃ n b, q = QSource n b ∧ has_type t (VStr n) = true.
Proof.
  intros Ht Hstr. simpl in Ht. rw orb_false_r in Ht. apply orb_true_iff in Ht as [Ht|Ht].
  - destruct (Hstr v Ht) as [n ->]. intros [= <- _]. eauto.
  - destruct v as [| | | | | | |l| | |]; try done. simpl in Ht. rw /feature_source_value /=.
    apply andb_true_iff in Ht as [Hsrc _]. destruct (assoc "source" l) as [x|]; [|done]. simpl in Hsrc |- *.
    destruct (Hstr x Hsrc) as [n ->]. case_match.
    + intros ->%select_features_value. eauto.
    + intros [= <- _]. eauto.
Qed.

Lemma at_least_one_inv t v : has_type (at_least_one t) v = true →
  ∃ l, v = VList l ∧ l ≠ [] ∧ Forall (fun x => has_type t x = true) l.
Proof.
  intros [(l & -> & Hl)%seq_inv Hm]%andb_true_iff. exists l. split_and!; [done| |done]. by intros ->.
Qed.

Lemma band_inv v : has_type (band_type false) v = true → ∃ z, v = VInt z ∧ (0 ≤ z)%Z.
Proof.
  destruct v; try done. intros Hm. exists z. split; [done|]. simpl in Hm.
  rw /meets /= !andb_true_r in Hm. apply Qc_le_true in Hm. by apply Z2Qc_inj_le.
Qed.

(** The layers that are named one by one. *)
Lemma layer_names_ok project c f v q : 
  has_type (layer_model c project f).1 v = true → q = QPy v →
  match c with ParameterFeatureSource _ => False | _ => True end → value_ok project (ParameterLayer c) q.
Proof.
  intros Ht -> Hc. destruct c; try done; simpl in Ht |- *.
  all: try by destruct (names_inv _ _ Ht) as (s & -> & Hs); eauto.
  all: destruct v as [| | | | | |l| | | |]; try done; exists l; split; [done|].
  all: apply forallb_Forall in Ht; eapply Forall_impl; [exact Ht|]; intros x; apply names_inv.
Qed.

Section typed.
Context {TA : TypeAdapter} {TAL : TypeAdapterLaws}.
Context (types_map : string → option string).
Context (parseColor : string → option PyVal) (parameterAsMatrix : PyVal → option (list PyVal)).
Context (qg : QgisGeo) (getMapLayer : string → option MapLayer) (resolve : ppath → ppath).
Context (validate_input : JsonValue → res RefOrQualified) (b64decode : string → res string).
Context (request : string → string → list (string * string) → option string → res (Z * string)).
Context (project : option QgsProject).

Abbreviation new p c := (new_input types_map parseColor parameterAsMatrix qg p c project true).
Abbreviation convert := (convert qg getMapLayer resolve).
Abbreviation input_value := (input_value qg getMapLayer resolve validate_input b64decode request).

Lemma new_input_inv p c i : new p c = Ok i →
  in_param i = p ∧ in_class i = c ∧
  create_model parseColor parameterAsMatrix qg c no_field project true = Ok (in_type i, in_field i).
Proof.
  rw /new_input. intros ([t f] & Hm & Hi)%res_bind_inv. apply res_bind_inv in Hi as (fmt & _ & [= <-]).
  done.
Qed.

(** The classes whose values are validated against their model *)
Definition validated (c : InputClass) : bool :=
  match c with ParameterFile _ | ParameterGeometry _ | ParameterPoint | ParameterCrs => false | _ => true end.

(** Numbers are within their bounds. *)
Lemma number_model_ok n t f v : number_model n no_field = Ok (t, f) → has_type t v = true → meets f v = true →
  number_ok (nu_type n) v ∧ bounded n v.
Proof.
  intros Hm Ht Hf. rw /number_model in Hm.
  assert (number_ok (nu_type n) v ∧ f = set_number_minmax n no_field) as [Hn Hfd].
  { destruct (nu_type n) eqn:E; [..|done]; injection Hm as Hty Hfd; rw -Hty in Ht.
    all: split; [eapply number_inv; [|exact Ht]; by eauto|done]. }
  split; [done|]. rw Hfd in Hf. by eapply bounded_ok.
Qed.

(** Layers are those of the project. *)
Lemma layer_value_ok c i v ctx s q s' : in_class i = ParameterLayer c →
  has_type (layer_model c project no_field).1 v = true → convert i v ctx s = (Ok q, s') →
  value_ok project (ParameterLayer c) q.
Proof.
  intros Hc Ht. rw /Inputs.convert Hc. pose proof (layer_names_ok project c no_field v (QPy v) Ht eq_refl) as Hn.
  destruct c as [| | |dt| | | | | | | |]; try done.
  all: try by intros [= <- _]; apply Hn.
  rw /on_layers /zoom. destruct (feature_source_value getMapLayer v (ps_selected s)) as [r sel] eqn:Hv.
  intros [= -> _].
  destruct (feature_source_ok _ _ _ _ _ _ Ht (fun x Hx => let '(ex_intro _ n (conj Hn _)) := names_inv _ x Hx
    in ex_intro _ n Hn) Hv) as (n & b & -> & Hs).
  destruct (names_inv _ _ Hs) as (? & [= <-] & ?). simpl. eauto.
Qed.

(** A value of the type of its class is converted to what the class expects. *)
Lemma convert_ok p c i v ctx s q s' :
  validated c = true → new p c = Ok i → has_type (in_type i) v = true → meets (in_field i) v = true →
  convert i v ctx s = (Ok q, s') → value_ok project c q.
Proof.
  intros Hval (_ & Hc & Hm)%new_input_inv Ht Hf.
  assert (∀ l, c = ParameterLayer l → has_type (layer_model l project no_field).1 v = true →
    convert i v ctx s = (Ok q, s') → value_ok project c q) as Hlayer.
  { intros l ->. by apply layer_value_ok. }
  move: Hlayer. rw /Inputs.convert Hc => Hlayer.
  destruct c as [|sc|e|nc n|nt|op| |m|c|mu dt da pl|mu pl|pl|pl|fp|de ff| |d vt|g| | | |dt|ml|ml gr|]; simpl in Hm |- *;
    try done.
  - injection Hm as Hty _. rw -Hty in Ht. destruct v; try done. intros [= <- _]. eauto.
  - injection Hm as Hty _. rw -Hty in Ht. intros [= <- _]. apply str_inv in Ht as [? ->]. eauto.
  - injection Hm as Hty _. rw -Hty in Ht. intros [= Hq _]. destruct (enum_value e v) as [r|] eqn:Hr; [|done].
    injection Hq as <-. pose proof (enum_choice_ok _ _ _ Ht Hr) as Hco.
    destruct (en_multiple e); [destruct Hco as (l & -> & ?)|]; eauto.
  - intros [= <- _]. exists v. split; [done|]. by eapply number_model_ok.
  - intros [= <- _]. rw /range_model /= in Hm.
    assert (∃ ty, has_type (TSeq ty) v = true ∧ in_field i = set_lengths (Some 2) (Some 2) no_field ∧
      ((ty, nt) = (TInt, NInteger) ∨ (ty, nt) = (TFloat, NDouble))) as (ty & Hty & Hfd & Hnt).
    { destruct nt; [..|done]; injection Hm as Hty Hfd; rw -Hty in Ht; eauto. }
    rw Hfd in Hf. destruct (pair_inv _ _ Hty Hf) as (a & b & -> & Ha & Hb).
    exists a, b. by split_and!; [done|eapply number_inv..].
  - injection Hm as Hty _. rw -Hty in Ht. intros [= <- _].
    destruct (names_inv _ _ Ht) as (s0 & -> & Hs). eauto.
  - injection Hm as Hty _. rw -Hty in Ht. intros [= Hq _].
    destruct (matrix_value_ok m v Ht) as (cells & Hc' & ? & ?). rw Hc' in Hq. injection Hq as <-. eauto.
  - injection Hm as Hm. assert (in_type i = (layer_model c project no_field).1) as Hty by by rw Hm.
    rw Hty in Ht. by apply (Hlayer c).
  - injection Hm as Hty _. rw -Hty in Ht. intros [= <- _]. destruct mu.
    + apply at_least_one_inv in Ht as (l & -> & ? & Hl). exists l. split_and!; [done..|].
      eapply Forall_impl; [exact Hl|]. intros x. apply str_inv.
    + apply str_inv in Ht as [? ->]. eauto.
  - injection Hm as Hty _. rw -Hty in Ht. intros [= <- _]. destruct mu; [done|].
    apply band_inv in Ht as (z & -> & ?). eauto.
  - intros [= Hq _]. destruct (text_of v) as [s0|]; [|done]. simpl in Hq.
    move: Hq. rw /file_destination_value. repeat case_match; try done.
    all: try by intros [= <-]; eauto.
    all: intros (x & _ & [= <-])%res_bind_inv; eauto.
  - intros [= Hq _]. destruct (text_of v) as [s0|]; [|done]. simpl in Hq.
    move: Hq. rw /layer_destination_value. case_match.
    + intros (x & _ & [= <-])%res_bind_inv. eauto.
    + intros [= <-]. eauto.
  - injection Hm as Hty _. rw -Hty in Ht. intros [= Hq _]. by eapply extent_value_ok.
  - intros [= Hq _]. destruct (datetime_value_ok _ _ _ _ _ _ _ Hm Ht Hf Hq) as (x & ? & ? & ?). eauto.
  - injection Hm as Hty _. rw -Hty in Ht. intros [= <- _]. destruct (mesh_groups_ok v Ht) as (l & -> & ?). eauto.
  - injection Hm as Hty _. rw -Hty in Ht. intros [= Hq _]. by eapply mesh_time_ok.
Qed.
End typed.

Section typed.
Context {TA : TypeAdapter} {TAL : TypeAdapterLaws}.
Context (types_map : string → option string).
Context (parseColor : string → option PyVal) (parameterAsMatrix : PyVal → option (list PyVal)).
Context (qg : QgisGeo) (getMapLayer : string → option MapLayer) (resolve : ppath → ppath).
Context (validate_input : JsonValue → res RefOrQualified) (b64decode : string → res string).
Context (request : string → string → list (string * string) → option string → res (Z * string)).
Context (project : option QgsProject).

Abbreviation convert := (convert qg getMapLayer resolve).
Abbreviation inputs defs := (inputs types_map parseColor parameterAsMatrix qg defs project true).
Abbreviation input_value := (input_value qg getMapLayer resolve validate_input b64decode request).
Abbreviation parameter := (parameter qg getMapLayer resolve validate_input b64decode request).
Abbreviation parameters := (parameters qg getMapLayer resolve validate_input b64decode request).

Lemma input_value_ok p c i j ctx s q s' :
  new_input types_map parseColor parameterAsMatrix qg p c project true = Ok i →
  input_value i j ctx s = (Ok q, s') → value_ok project c q.
Proof.
  intros Hi. pose proof Hi as (_ & Hc & _)%new_input_inv. rw /Inputs.input_value Hc.
  destruct (validated c) eqn:Hval.
  - assert (∀ v, validate_python (in_type i) (in_field i) j = Ok v → convert i v ctx s = (Ok q, s') →
      value_ok project c q) as Hok.
    { intros v [Ht Hm]%validate_ok. by eapply convert_ok. }
    destruct c; try done; rewrite /pure; intros (v & s1 & Hv & Hq)%bind_ok_inv; injection Hv as Hv <-; eauto.
  - destruct c; try done; intros [= Hq _].
    + by eapply geometry_value_ok.
    + by eapply point_value_ok.
    + by eapply crs_value_ok.
Qed.

Lemma parameter_ok params ctx i s q s' :
  parameter params ctx i s = (Ok q, s') →
  let j := default JNull (assoc (in_name i) params) in
  (pd_optional (in_param i) = false → json_truth j = true) ∧ input_value i j ctx s = (Ok q, s').
Proof.
  rw /Inputs.parameter. case_match eqn:E; [|done]. rw /try_except.
  destruct (input_value i _ ctx s) as [[q'|e] s1] eqn:Hv.
  - intros [= -> ->]. split; [|done]. intros Ho. by rw Ho orb_false_r in E.
  - destruct e; done.
Qed.

Lemma parameters_ok ins params ctx s l s' :
  parameters ins params ctx s = (Ok l, s') →
  Forall2 (fun i nv => nv.1 = in_name i ∧ ∃ s1 s2, parameter params ctx i s1 = (Ok nv.2, s2)) ins l.
Proof.
  revert s l. induction ins as [|i ins IH]; intros s l; simpl.
  - intros [= <- _]. constructor.
  - intros (v & s1 & Hv & (vs & s2 & Hvs & [= <- <-])%bind_ok_inv)%bind_ok_inv.
    constructor; [split; [done|]; by exists s, s1|by eapply IH].
Qed.

Lemma inputs_ok defs ins : inputs defs = Ok ins →
  Forall2 (fun pc i => new_input types_map parseColor parameterAsMatrix qg pc.1 pc.2 project true = Ok i)
    (filter (fun pc => pd_hidden pc.1 = false) defs) ins.
Proof.
  rw /Inputs.inputs. revert ins. induction defs as [|[p c] defs IH]; intros ins.
  { intros [= <-]. constructor. }
  rw filter_cons. csimpl. destruct (supported c); [|done].
  destruct (pd_hidden p); [apply IH|].
  simpl. intros (i & Hi & (is' & His & [= <-])%res_bind_inv)%res_bind_inv. constructor; [done|]. by apply IH.
Qed.


(** The inputs that are validated do not take null. *)
Definition takes_null (c : InputClass) : bool :=
  match c with ParameterFile _ => true | _ => false end.

Lemma no_null_type p c i : new_input types_map parseColor parameterAsMatrix qg p c project true = Ok i →
  takes_null c = false → has_type (in_type i) VNone = false.
Proof.
  intros (_ & _ & Hm)%new_input_inv Hc.
  assert (∀ names, has_type (names_type names) VNone = false) as Hn by by intros [].
  destruct c as [| |e|nc n|nt| | |m|c|[]|[]| | | | | | |g| | | |d| | |]; simpl in Hm; try done.
  all: try by injection Hm as <- _.
  - injection Hm as <- _. rw /enum_type. by destruct (en_multiple e).
  - move: Hm. rw /number_model. by destruct (nu_type n); intros [= <- _].
  - move: Hm. rw /range_model. by destruct nt; intros [= <- _].
  - injection Hm as <- _. apply Hn.
  - injection Hm as <- _. rw /matrix_type. destruct (mx_rows m), (matrix_cols m); done.
  - injection Hm as Hm. assert (in_type i = (layer_model c project no_field).1) as -> by by rw Hm.
    destruct c; simpl; try done; try apply Hn. by rw Hn.
  - apply res_bind_inv in Hm as (t & Ht & [= <- _]). simpl. by rw (geometry_type_null g).
Qed.

Lemma null_refused p c i ctx s q s' : new_input types_map parseColor parameterAsMatrix qg p c project true = Ok i →
  takes_null c = false → input_value i JNull ctx s ≠ (Ok q, s').
Proof.
  intros Hi Hc Hv. pose proof (no_null_type _ _ _ Hi Hc) as Hn. pose proof Hi as (_ & Hci & Hm)%new_input_inv.
  assert (∀ t f v, has_type t VNone = false → validate_python t f JNull ≠ Ok v) as Hval.
  { intros t f v Ht Hok. pose proof (validate_null _ _ _ Hok) as ->. apply validate_ok in Hok as [Hok _]. by rw Hok in Ht. }
  move: Hv. rw /Inputs.input_value Hci. destruct c; try done.
  all: try (intros (w & ? & [= Hw _] & _)%bind_ok_inv; by eapply Hval).
  - intros [= (v & Hw & _)%res_bind_inv _]. by eapply Hval.
  - intros [= (v & (w & Hw & _)%res_bind_inv & _)%res_bind_inv _]. by eapply Hval.
  - intros [= (v & Hw & _)%res_bind_inv _]. by apply Hval in Hw.
Qed.

(** When the parameters are made, every input that is not optional was given a
    value that is true in the sense of Python, and every input a value that is
    not null: an optional input that is left out, a false, a zero or an empty
    text are all refused, and no default value is ever taken. *)
Theorem parameters_required defs ins params ctx s l s' :
  inputs defs = Ok ins → parameters ins params ctx s = (Ok l, s') →
  Forall (fun pc => let j := default JNull (assoc (pd_name pc.1) params) in
            (pd_optional pc.1 = false → json_truth j = true) ∧ (takes_null pc.2 = false → j ≠ JNull))
    (filter (fun pc => pd_hidden pc.1 = false) defs).
Proof.
  intros Hi%inputs_ok Hp%parameters_ok. revert l Hp. induction Hi as [|pc i pcs is' Hi _ IH]; intros l Hp.
  { constructor. }
  inversion Hp as [|? [n v] ? vs (Hn & s1 & s2 & Hv) Hvs]; subst. constructor; [|by eapply IH].
  apply parameter_ok in Hv as [Ht Hv]. pose proof Hi as (Hpi & Hci & _)%new_input_inv.
  rw /in_name Hpi in Ht, Hv. split; [done|]. intros Hc Hj. rw Hj in Hv. by eapply null_refused.
Qed.
End typed.

(** ** Witnesses *)
Module InputsDemo.
Definition adapter : TypeAdapter := StrictPydantic.strict (fun _ => None).
Definition laws : @TypeAdapterLaws adapter := StrictPydantic.strict_laws (fun _ => None).
Definition param (name type : string) (optional hidden : bool) : ParamDefinition :=
  MkParam name type "" "" optional hidden (DValue VNone).
Definition count : NumberParam := MkNumber (Qc_of_Z 0) (Qc_of_Z 10) NInteger None "".
Definition defs : list (ParamDefinition * InputClass) :=
  [(param "MODE" "enum" false false, ParameterEnum (MkEnum ["fast"; "slow"] false false));
   (param "COUNT" "number" false false, ParameterNum ParameterNumber count);
   (param "DEBUG" "boolean" false true, ParameterBool);
   (param "CRS" "crs" false false, ParameterCrs);
   (param "LAYER" "vector" true false, ParameterLayer (ParameterVectorLayer [SVectorLine]))].
Definition project : option QgsProject :=
  Some (MkQgsProject [MkLayer "l1" "roads" (KVector GLine true); MkLayer "l2" "dem" KRaster] None None []).
Definition ins : res (list Input) :=
  @inputs adapter (fun _ => None) (fun _ => None) (fun _ => None) GeoDemo.qgis defs project true.
Definition request : list (string * JsonValue) :=
  [("MODE", JStr "slow"); ("COUNT", JInt 3); ("CRS", JStr "EPSG:4326"); ("LAYER", JStr "roads")].
Definition ctx : PCtx := MkPCtx (PPath "/" ["w"; "job-1"]) false None None "job-1" "http://localhost" "".
Definition run (params : list (string * JsonValue)) :=
  is' ← ins;
  (@parameters adapter GeoDemo.qgis (fun _ => None) (fun p => p) (fun _ => Raise (ValidationError "")) (fun s => Ok s)
    (fun _ _ _ _ => Ok (404%Z, "")) is' params ctx (MkPState (MkFS ∅ ∅) [])).1.
Definition given : list (string * QValue) :=
  [("MODE", QPy (VInt 1)); ("COUNT", QPy (VInt 3)); ("CRS", QCrs "EPSG:4326"); ("LAYER", QPy (VStr "roads"))].

Example run_ex : run request = Ok given.
Proof. vm_compute. reflexivity. Qed.
(** A zero is taken for a missing parameter. *)
Example run_zero :
  run [("MODE", JStr "slow"); ("COUNT", JInt 0); ("LAYER", JStr "roads")] =
    Raise (InputValueError "Missing parameter COUNT").
Proof. vm_compute. reflexivity. Qed.
(** An optional parameter cannot be left out. *)
Example run_optional :
  run [("MODE", JStr "slow"); ("COUNT", JInt 3); ("CRS", JStr "EPSG:4326")] = Raise (InputValueError "'LAYER' parameter error").
Proof. vm_compute. reflexivity. Qed.
End InputsDemo.


Lemma parameters_required_witness :
  Forall (fun pc => let j := default JNull (assoc (pd_name pc.1) InputsDemo.request) in
            (pd_optional pc.1 = false → json_truth j = true) ∧ (takes_null pc.2 = false → j ≠ JNull))
    (filter (fun pc => pd_hidden pc.1 = false) InputsDemo.defs).
Proof.
  eapply (@parameters_required InputsDemo.adapter InputsDemo.laws (fun _ => None) (fun _ => None) (fun _ => None)
    GeoDemo.qgis (fun _ => None) (fun p => p) (fun _ => Raise (ValidationError "")) (fun s => Ok s)
    (fun _ _ _ _ => Ok (404%Z, "")) InputsDemo.project InputsDemo.defs _ InputsDemo.request InputsDemo.ctx
    (MkPState (MkFS ∅ ∅) []) InputsDemo.given); [reflexivity|]. vm_compute. reflexivity.
Defined.
