(* ===== verification/OutputLayers.v ===== *)
(** * Layer outputs

    [processing/outputs/layers.py], the references of [processing/context.py] to
    the OGC services of a job, and the services of [schemas/formats.py]: the
    layers that an algorithm made are added to the project of the job and
    answered by a url of its services. *)
From S2P Require Import Prelude PyDict PyStd PyTemplate PyFloat Json Pydantic Ogc Routes CacheManager FileHandler Web Registry Executor JobsApi ProcessesApi Store WorkerFiles InputLiterals InputLayers InputFiles.

(** ** formats.py *)

(** [Format.service]: the service that the media type starts with *)
Definition service_of (media_type : string) : option string :=
  (fun s => upper s) <$>
  head (List.filter (fun s => startswith ("application/x-ogc-" +:+ s +:+ "+xml") media_type)
          ["wms"; "wcs"; "wfs"; "wmts"]).

(** [Format.version]: the expression is matched at the start of the media type *)
Fixpoint version_run (s : string) : string :=
  match s with
  | String a s => if bool_decide (a = ";"%char) || is_space a then "" else String a (version_run s)
  | "" => ""
  end.
Definition version_of (media_type : string) : option string :=
  match media_type with
  | String ";" (String a s) =>
      let t := lstrip is_space s in
      if is_space a && startswith "version=" t && str_truth (version_run (removeprefix "version=" t))
      then Some (version_run (removeprefix "version=" t)) else None
  | _ => None
  end.

(** [Formats], those of the services *)
Definition WMS : string := "application/x-ogc-wms+xml".
Definition map_formats : list string :=
  [WMS; WMS +:+ "; version=1.1.1"; WMS +:+ "; version=1.3.0"; "application/x-ogc-wmts+xml;";
   "application/x-ogc-wmts+xml; version=1.0.0"].
Definition coverage_formats : list string :=
  (fun v => "application/x-ogc-wcs+xml" +:+ v) <$> [""; "; version=1.0.0"; "; version=1.1.0"].
Definition feature_formats : list string :=
  (fun v => "application/x-ogc-wfs+xml" +:+ v) <$> [""; "; version=1.0.0"; "; version=1.1.0"].

(** ** The classes of outputs *)
Inductive LayerOutput : Type :=
| OutputMapLayer | OutputRasterLayer | OutputVectorLayer | OutputVectorTileLayer | OutputPointCloudLayer
| OutputMultipleLayers.

(** [_ServiceFormats] *)
Definition service_formats (c : LayerOutput) : list string :=
  match c with
  | OutputRasterLayer => map_formats ++ coverage_formats
  | OutputVectorLayer => map_formats ++ feature_formats
  | _ => map_formats
  end.

(** [OutputLayerBase.initialize]: the first of them *)
Definition layer_output_init (c : LayerOutput) : string := default AnyFormat (head (service_formats c)).

(** [OutputParameter.validate_output] for them *)
Definition layer_validate_output (c : LayerOutput) (format : res string) : res string :=
  match format with
  | Ok media => if decide (media ∈ service_formats c) then Ok media
                else Raise (InputValueError "invalid format")
  | Raise (ValidationError _) => Raise (InputValueError "Invalid format definition")
  | Raise e => Raise e
  end.

(** ** context.py *)

(** [_ows_reference]; the template is [advertised_services_url] *)
Definition _ows_reference (template name job_id public_url : string) (service request version query : option string) :
    res string :=
  let or d x := if ostr_truth x then default d x else d in
  url ← substitute template [("name", name); ("jobId", job_id); ("public_url", public_url)];
  let url := url +:+ (if char_in "?" url then "&" else "?") +:+ "SERVICE=" +:+ or "WMS" service +:+
             "&REQUEST=" +:+ or "GetCapabilities" request in
  let url := if ostr_truth version then url +:+ "&VERSION=" +:+ default "" version else url in
  Ok (if ostr_truth query then url +:+ "&" +:+ default "" query else url).

(** [ows_reference]: of the destination project, by the name of its file *)
Definition ows_reference (template job_id public_url : string) (project_file : option string)
    (service version query : option string) : res string :=
  match project_file with
  | Some f => _ows_reference template (stem (path_of f)) job_id public_url service None version query
  | None => Raise (PreconditionError "Destination project required")
  end.

(** [urlencode(((LAYERS, name),), quote_via=quote)] *)
Fixpoint quote (s : string) : string :=
  match s with
  | "" => ""
  | String a s =>
      if url_safe a then String a (quote s)
      else let n := N_of_ascii a in
           String "%" (String (upper_hex (n / 16)) (String (upper_hex (n mod 16)) (quote s)))
  end.
Definition layers_query (name : string) : string := "LAYERS=" +:+ quote name.

(** ** layers.py *)

(** The layers to load on completion, by their source, with their details; the
    urls of the data of layers; the files that the job publishes *)
Record Details : Type := MkDetails { dt_name : string; dt_output : string; dt_project : option string }.
Record LCtx : Type := MkLCtx {
  lc_load : list (string * Details); lc_data_urls : list (string * string); lc_files : gset string;
}.

Section output.
(** [QgsProcessingUtils.mapLayerFromString], and the name [setOutputLayerName]
    leaves to a layer: that of its details, or one QGIS chooses *)
Context (mapLayerFromString : string → option MapLayer) (output_layer_name : MapLayer → Details → string).
Context (layer_source : MapLayer → string) (template : string) (ctx : PCtx) (fs : FS).

(** [add_layer_details] *)
Definition add_layer_details (output_name value : string) : M LCtx (MapLayer * string) :=
  let details := MkDetails "" output_name (px_destination_project ctx) in
  match mapLayerFromString value with
  | Some layer =>
      let name := output_layer_name layer details in
      modify (fun c => MkLCtx ((value, details) :: List.filter (fun d => negb (bool_decide (d.1 = value))) (lc_load c))
                         (lc_data_urls c) (lc_files c));;
      mret (MkLayer (ly_id layer) name (ly_kind layer), name)
  | None => raise (PostconditionError ("No layer found for '" +:+ value +:+ "'"))
  end.

(** [add_layer_to_load_on_completion] *)
Definition add_layer_to_load_on_completion (value output_name : string) : M LCtx (MapLayer * string) :=
  c ← get;
  match assoc value (lc_load c) with
  | Some details =>
      match mapLayerFromString value with
      | Some layer =>
          if str_truth (dt_name details) then mret (layer, dt_name details)
          else let name := output_layer_name layer details in
               mret (MkLayer (ly_id layer) name (ly_kind layer), name)
      | None => raise (PostconditionError ("No layer found for '" +:+ value +:+ "'"))
      end
  | None => add_layer_details output_name value
  end.

(** [OutputLayerBase.advertise_layer]: the file of a layer is published *)
Definition advertise_layer (layer : MapLayer) : M LCtx unit :=
  let datasource := path_of (layer_source layer) in
  if exists_path datasource fs && path_is_relative_to datasource (px_workdir ctx) then
    url ← zoom lc_files (fun f c => MkLCtx (lc_load c) (lc_data_urls c) f) (file_reference datasource ctx);
    modify (fun c => MkLCtx (lc_load c) ((ly_id layer, url) :: lc_data_urls c) (lc_files c))
  else mret tt.

Definition reference (service version query : option string) : res string :=
  ows_reference template (px_job_id ctx) (px_public_url ctx) (px_destination_project ctx) service version query.

(** [OutputLayerBase.output]; [descr] is what [description()] of the definition
    answers *)
Definition layer_output (output_name descr media_type value : string) : M LCtx JsonValue :=
  ln ← add_layer_to_load_on_completion value output_name;
  advertise_layer ln.1;;
  href ← pure (reference (service_of media_type) (version_of media_type) (Some (layers_query ln.2)));
  pure (link_json href (Some media_type) (name_title output_name) (VStr descr) None).

(** [OutputMultipleLayers.output] *)
Fixpoint add_all (output_name : string) (values : list string) : M LCtx (list string) :=
  match values with
  | [] => mret []
  | v :: vs => ln ← add_layer_details output_name v; ns ← add_all output_name vs; mret (ly_name ln.1 :: ns)
  end.
Definition multiple_output (output_name descr media_type : string) (values : list string) : M LCtx JsonValue :=
  names ← add_all output_name values;
  href ← pure (reference (service_of media_type) None (Some (layers_query (join "," names))));
  pure (link_json href (Some media_type) (name_title output_name) (VStr descr) None).
End output.

(** ** Properties *)

Lemma unquote_quote_all s : unquote_plus (quote s) = s.
Proof.
  induction s as [|a s IH]; [done|]. simpl. destruct (url_safe a) eqn:Ha.
  { rw unquote_safe //. by rw IH. }
  pose proof (N_ascii_bounded a) as Hb. simpl.
  rw !hex_upper; [apply N.Div0.div_lt_upper_bound; lia|apply N.mod_lt; lia|].
  rw IH -N.div_mod' //. by rw ascii_N_embedding.
Qed.

Lemma quote_no_char c s : url_safe c = false → c ≠ "%"%char → char_in c (quote s) = false.
Proof.
  intros Hc Hq. assert (∀ n, (n < 16)%N → upper_hex n ≠ c) as Hx.
  { intros n Hn <-. by rw upper_hex_safe // in Hc. }
  induction s as [|a s IH]; [done|]. simpl. destruct (url_safe a) eqn:Ha; simpl.
  - rw bool_decide_false //. congruence.
  - pose proof (N_ascii_bounded a). rw !bool_decide_false //.
    + apply Hx, N.Div0.div_lt_upper_bound. lia.
    + apply Hx, N.mod_lt. lia.
Qed.

Lemma quote_truth s : str_truth s = true → str_truth (quote s) = true.
Proof. destruct s as [|a s]; [done|]. simpl. by case_match. Qed.

(** The field of a query for some layers. *)
Lemma layers_field name : str_truth name = true →
  parse_qsl (layers_query name) = [("LAYERS", name)].
Proof.
  intros Hn. rw /layers_query parse_qsl_field.
  { by rw char_in_app quote_no_char. }
  csimpl. rw /qs_field (partition_first "=" "LAYERS" (quote name)) //. csimpl.
  rw unquote_quote_all. destruct (quote name) eqn:E; [|done].
  apply quote_truth in Hn. by rw E in Hn.
Qed.

(** The services that formats name; a version is never found. *)
Lemma service_format c media : media ∈ service_formats c →
  ∃ s, service_of media = Some s ∧ s ∈ ["WMS"; "WMTS"; "WCS"; "WFS"] ∧ version_of media = None.
Proof.
  intros Hm. pose (known m := match service_of m with
                              | Some s => bool_decide (s ∈ ["WMS"; "WMTS"; "WCS"; "WFS"]) | None => false
                              end && bool_decide (version_of m = None)).
  assert (forallb known (service_formats c) = true) as H by (destruct c; vm_compute; reflexivity).
  rw forallb_Forall Forall_forall in H. apply H in Hm. rw /known in Hm.
  apply andb_true_iff in Hm as [Hs Hv%bool_decide_eq_true]. destruct (service_of media) as [s|]; [|done].
  exists s. by apply bool_decide_eq_true in Hs.
Qed.

(** The name that the layer of a result is answered under. *)
Definition result_name (olname : MapLayer → Details → string) (ctx : PCtx) (output value : string) (s : LCtx)
    (layer : MapLayer) : string :=
  match assoc value (lc_load s) with
  | Some d => str_or (dt_name d) (olname layer d)
  | None => olname layer (MkDetails "" output (px_destination_project ctx))
  end.

Lemma completion_name mapLayer olname ctx output value s l name s' :
  add_layer_to_load_on_completion mapLayer olname ctx value output s = (Ok (l, name), s') →
  ∃ layer, mapLayer value = Some layer ∧ name = result_name olname ctx output value s layer.
Proof.
  rw /add_layer_to_load_on_completion /add_layer_details /result_name. py_unfold.
  destruct (assoc value (lc_load s)), (mapLayer value) as [layer|]; try done; rw /str_or; repeat case_match.
  all: intros [= _ <- _]; eauto.
Qed.

(** The details an answered layer has, and its name. *)
Lemma completion_value mapLayer olname ctx output value s l name s' :
  add_layer_to_load_on_completion mapLayer olname ctx value output s = (Ok (l, name), s') →
  ∃ layer d, mapLayer value = Some layer ∧ assoc value (lc_load s') = Some d ∧
    result_name olname ctx output value s layer = str_or (dt_name d) (olname layer d).
Proof.
  rw /add_layer_to_load_on_completion /add_layer_details /result_name. py_unfold.
  destruct (assoc value (lc_load s)) as [d|] eqn:Hd, (mapLayer value) as [layer|]; try done.
  - case_match; intros [= _ _ <-]; exists layer, d; by rw Hd.
  - intros [= _ _ <-]. eexists layer, _. csimpl. by rw decide_True.
Qed.

Lemma layer_reference mapLayer olname source template ctx fs c output descr media value s j s' :
  media ∈ service_formats c →
  layer_output mapLayer olname source template ctx fs output descr media value s = (Ok j, s') →
  ∃ layer base svc mark query,
    let name := result_name olname ctx output value s layer in
    mapLayer value = Some layer ∧ service_of media = Some svc ∧ mark ∈ ["?"; "&"] ∧
    j = JObj ([("href", JStr (base +:+ mark +:+ query)); ("type", JStr media);
               ("title", JStr (name_title output)); ("description", JStr descr)]) ∧
    substitute template [("name", stem (path_of (default "" (px_destination_project ctx))));
                         ("jobId", px_job_id ctx); ("public_url", px_public_url ctx)] = Ok base ∧
    (str_truth name = true →
     parse_qsl query = [("SERVICE", svc); ("REQUEST", "GetCapabilities"); ("LAYERS", name)]).
Proof.
  intros (svc & Hs & Hin & Hv)%service_format. rw /layer_output.
  intros ([l name] & s1 & (layer & Hl & ->)%completion_name & (? & s2 & _ & (href & s3 & Hr & Hj)%bind_ok_inv)%bind_ok_inv)%bind_ok_inv.
  injection Hr as Hr <-. injection Hj as <- _. simpl in Hr |- *. rw Hs Hv in Hr.
  move: Hr. rw /reference /ows_reference. destruct (px_destination_project ctx) as [f|]; [|done].
  rw /_ows_reference. intros (base & Hb & [= <-])%res_bind_inv. simpl in Hb |- *.
  exists layer, base, svc, (if char_in "?" base then "&" else "?"),
    ("SERVICE=" +:+ svc +:+ "&REQUEST=GetCapabilities&" +:+ layers_query (result_name olname ctx output value s layer)).
  set name := result_name olname ctx output value s layer.
  assert (str_truth svc = true ∧ char_in "&" svc = false ∧ qs_field ("SERVICE=" +:+ svc) = Some ("SERVICE", svc))
    as (Ht & Hc & Hq).
  { clear -Hin. repeat (apply elem_of_cons in Hin as [->|Hin]; [done|]). by apply not_elem_of_nil in Hin. }
  split_and!; [done|done| | |done|].
  - rw !elem_of_cons. destruct (char_in "?" base); auto.
  - by rw Ht !str_app_assoc.
  - intros Hn. rw -(str_app_assoc "SERVICE=" svc).
    change ("&REQUEST=GetCapabilities&" +:+ layers_query name)
      with ("&" +:+ ("REQUEST=GetCapabilities" +:+ "&" +:+ layers_query name)).
    rw parse_qsl_and parse_qsl_and layers_field // parse_qsl_field; [by rw char_in_app|].
    csimpl. by rw Hq.
Qed.

(** A layer that an algorithm made is answered by the url of a service of the
    format asked for, whose query gives the service, the request of its
    capabilities and the name of the layer, whatever its characters; the version
    in the format is never part of it. *)
Theorem layer_reference_query mapLayer olname source template ctx fs c output descr media value s j s' :
  media ∈ service_formats c →
  layer_output mapLayer olname source template ctx fs output descr media value s = (Ok j, s') →
  ∃ layer base svc mark query,
    let name := result_name olname ctx output value s layer in
    mapLayer value = Some layer ∧ service_of media = Some svc ∧ mark ∈ ["?"; "&"] ∧
    j = JObj ([("href", JStr (base +:+ mark +:+ query)); ("type", JStr media);
               ("title", JStr (name_title output)); ("description", JStr descr)]) ∧
    substitute template [("name", stem (path_of (default "" (px_destination_project ctx))));
                         ("jobId", px_job_id ctx); ("public_url", px_public_url ctx)] = Ok base ∧
    (str_truth name = true →
     parse_qsl query = [("SERVICE", svc); ("REQUEST", "GetCapabilities"); ("LAYERS", name)]).
Proof. apply layer_reference. Qed.

(** ** Witness *)
Module OutputDemo.
Definition ctx : PCtx :=
  MkPCtx (PPath "/" ["w"; "job-1"]) false None (Some "/w/job-1/buffer.qgz") "job-1" "http://localhost" "".
Definition layer : MapLayer := MkLayer "l1" "roads" (KVector GLine true).
Definition run : res JsonValue * LCtx :=
  layer_output (fun _ => Some layer) (fun l _ => "R&D roads") (fun _ => "/w/job-1/out.fgb") "ows:$jobId/$name" ctx
    (MkFS ∅ ∅) "OUTPUT" "The roads" (WMS +:+ "; version=1.1.1") "/w/job-1/out.fgb" (MkLCtx [] [] ∅).
End OutputDemo.

Lemma layer_reference_query_witness :
  OutputDemo.run.1 =
    Ok (JObj [("href", JStr "ows:job-1/buffer?SERVICE=WMS&REQUEST=GetCapabilities&LAYERS=R%26D%20roads");
              ("type", JStr "application/x-ogc-wms+xml; version=1.1.1"); ("title", JStr "Output");
              ("description", JStr "The roads")]) ∧
  ∃ base query, parse_qsl query = [("SERVICE", "WMS"); ("REQUEST", "GetCapabilities"); ("LAYERS", "R&D roads")] ∧
    base = "ows:job-1/buffer".
Proof.
  split; [vm_compute; reflexivity|].
  destruct (layer_reference_query (fun _ => Some OutputDemo.layer) (fun l _ => "R&D roads")
    (fun _ => "/w/job-1/out.fgb") "ows:$jobId/$name" OutputDemo.ctx (MkFS ∅ ∅) OutputMapLayer "OUTPUT" "The roads"
    (WMS +:+ "; version=1.1.1") "/w/job-1/out.fgb" (MkLCtx [] [] ∅)
    (default JNull (match OutputDemo.run.1 with Ok j => Some j | _ => None end)) OutputDemo.run.2)
    as (layer & base & svc & mark & query & Hl & Hs & _ & _ & Hb & Hq).
  - right. left.
  - vm_compute. reflexivity.
  - injection Hl as <-. exists base, query. vm_compute in Hs. injection Hs as <-. split; [by apply Hq|].
    vm_compute in Hb. by injection Hb as <-.
Defined.
