(* ===== verification/Schemas.v ===== *)
(** * The JSON schemas of models and of processes

    [qjazz_core/models.py]: how the schema that pydantic makes of a type is
    rewritten, in place: alternatives are [oneOf], an optional field has the
    schema of its value, and the titles that pydantic made out of the names of
    the fields are removed.  The descriptions of inputs and outputs that are
    made of them ([processing/inputs/base.py], [processing/outputs/base.py],
    [outputs/layers.py], [schemas/utils.py]).  The schema itself is what pydantic
    answers for a type. *)
From S2P Require Import Prelude PyDict PyAssoc PyStd Json Pydantic Web Registry Executor JobsApi ProcessesApi Ogc InputLiterals InputLayers InputFiles OutputLayers.

(** A dictionary of JSON values, and the deletion of a key. *)
Definition JsonDict : Type := list (string * JsonValue).
Definition dict_pop (k : string) (s : JsonDict) : JsonDict := filter (fun kv => kv.1 ≠ k) s.

(** ** models.py *)

(** [one_of] *)
Definition one_of (s : JsonDict) : JsonDict :=
  match assoc "anyOf" s with
  | Some v => dict_pop "anyOf" (dict_set "oneOf" v s)
  | None => s
  end.

(** [fix_optional_schema], [fix_nullable_schema]: the first alternative *)
Definition fix_optional_schema (s : JsonDict) : res JsonDict :=
  match assoc "anyOf" s with
  | None => Raise (KeyError "anyOf")
  | Some (JArr (JObj schema :: _)) => Ok (dict_extend (dict_pop "default" (dict_pop "anyOf" s)) schema)
  | Some (JArr []) => Raise IndexError
  | Some _ => Raise (TypeError "not a sequence of schemas")
  end.
Definition fix_nullable_schema (s : JsonDict) : res JsonDict :=
  s ← fix_optional_schema s; Ok (dict_set "nullable" (JBool true) s).

(** [_pull_title]: the title that is the name of its key, but for cases and for
    spaces *)
Definition underscored (s : string) : string :=
  str_map (fun a => if decide (a = " "%char) then "_"%char else a) s.
Definition _pull_title (k : string) (v : JsonValue) : res JsonValue :=
  match v with
  | JObj l =>
      let title := default JNull (assoc "title" l) in
      if json_truth title then
        match title with
        | JStr s => Ok (if decide (underscored (lower s) = lower k) then JObj (dict_pop "title" l) else v)
        | _ => Raise (OtherException "AttributeError: lower")
        end
      else Ok v
  | _ => Raise (OtherException "AttributeError: get")
  end.

(** The value of a key, changed in place. *)
Fixpoint on_item (k : string) (f : JsonValue → res JsonValue) (l : JsonDict) : res JsonDict :=
  match l with
  | [] => Ok []
  | (k', v) :: l =>
      if decide (k = k') then v ← f v; Ok ((k', v) :: l) else l ← on_item k f l; Ok ((k', v) :: l)
  end.
(** The entries of a mapping of schemas: their titles, then what is in them. *)
Fixpoint on_entries (f : JsonValue → res JsonValue) (ps : JsonDict) : res JsonDict :=
  match ps with
  | [] => Ok []
  | (k, v) :: ps => v ← _pull_title k v; v ← f v; ps ← on_entries f ps; Ok ((k, v) :: ps)
  end.
Definition on_schemas (f : JsonValue → res JsonValue) (v : JsonValue) : res JsonValue :=
  match v with
  | JObj ps => ps ← on_entries f ps; Ok (JObj ps)
  | _ => Raise (OtherException "AttributeError: items")
  end.
(** The elements of what should be a sequence; a mapping gives its keys, and a
    text its characters, in which nothing can change. *)
Fixpoint on_elements (f : JsonValue → res JsonValue) (l : list JsonValue) : res (list JsonValue) :=
  match l with
  | [] => Ok []
  | v :: l => v ← f v; l ← on_elements f l; Ok (v :: l)
  end.
Definition on_sequence (f : JsonValue → res JsonValue) (v : JsonValue) : res JsonValue :=
  match v with
  | JArr l => l ← on_elements f l; Ok (JArr l)
  | JObj l => _ ← on_elements f (JStr ∘ fst <$> l); Ok v
  | JStr _ => Ok v
  | _ => Raise (TypeError "not iterable")
  end.

(** What the [match] of [remove_auto_title] goes into. *)
Inductive Inside : Type := Properties | Alternatives (k : string) | Nothing.
Definition inside (l : JsonDict) : Inside :=
  match assoc "type" l, assoc "properties" l with
  | Some (JStr "object"), Some (JObj _) => Properties
  | _, _ =>
      match list_find (fun k => k ∈ l.*1) ["oneOf"; "allOf"; "anyOf"] with
      | Some (_, k) => Alternatives k
      | None => Nothing
      end
  end.

(** [remove_auto_title]; [n] bounds the depth of the schema *)
Fixpoint remove_auto_title (n : nat) (schema : JsonValue) : res JsonValue :=
  match n with
  | O => Raise (OtherException "RecursionError")
  | S n =>
      match schema with
      | JObj l =>
          l ← match inside l with
              | Properties => on_item "properties" (on_schemas (remove_auto_title n)) l
              | Alternatives k => on_item k (on_sequence (remove_auto_title n)) l
              | Nothing => Ok l
              end;
          l ← on_item "$defs" (on_schemas (remove_auto_title n)) l;
          Ok (JObj l)
      | JStr s => if str_in "$defs" s then Raise (TypeError "string indices must be integers") else Ok schema
      | JArr l => if existsb (fun j => match j with JStr "$defs" => true | _ => false end) l
                  then Raise (TypeError "list indices must be integers") else Ok schema
      | _ => Raise (TypeError "not iterable")
      end
  end.
Definition remove_titles (schema : JsonDict) : res JsonDict :=
  match remove_auto_title (S (json_depth (JObj schema))) (JObj schema) with
  | Ok (JObj l) => Ok l
  | Ok _ => Raise (TypeError "dict expected")
  | Raise e => Raise e
  end.

(** ** The schemas of inputs and outputs *)

(** [InputParameter.json_schema] of the schema of its type *)
Definition input_json_schema (schema : JsonDict) (schema_format : option string) : res JsonDict :=
  s ← remove_titles (one_of (dict_pop "title" schema));
  Ok (match schema_format with
      | Some f => if str_truth f then dict_set "format" (JStr f) s else s
      | None => s
      end).

(** [OutputParameter.json_schema], [title], [value_passing] and [metadata] *)
Definition output_json_schema (schema : JsonDict) : res JsonDict := remove_titles (one_of (dict_pop "title" schema)).

(** [OutputLayerBase.json_schema]: an alternative for each format of the services *)
Definition layer_json_schema (schema : JsonDict) (formats : list (string * string)) : res JsonDict :=
  schema ← output_json_schema schema;
  Ok (match formats with
      | [] => schema
      | _ => [("$defs", JObj [("Link", JObj schema)]);
              ("oneOf", JArr ((fun f => JObj [("$ref", JStr "#/$defs/Link"); ("contentMediaType", JStr f.1);
                                              ("title", JStr f.2)]) <$> formats))]
      end).

(** [OutputDescription] and [OutputParameter.description] *)
Record OutputDescription : Type := MkOutputDescription {
  od_title : string; od_description : string; od_schema : JsonDict; od_metadata : list Metadata;
  od_keywords : list string; od_value_passing : list string;
}.
Definition output_description (name type_name descr : string) (layer : bool) (schema : JsonDict)
    (formats : list (string * string)) : res OutputDescription :=
  s ← (if layer then layer_json_schema schema formats else output_json_schema schema);
  Ok (MkOutputDescription (name_title name) descr s [MdValue (Some "typeName") None (JStr type_name)] []
        [if layer then "byReference" else "byValue"]).

(** [input_model_description] of [schemas/utils.py]: a job of a generic worker *)
Inductive SchemaExtra : Type := ExtraNone | ExtraDict (d : JsonDict) | ExtraCall (f : JsonDict → res JsonDict).
Record ModelInput : Type := MkModelInput {
  mi_title : option string; mi_description : option string; mi_schema : JsonDict;
  mi_value_passing : list string; mi_min_occurs : Z;
}.
Definition input_model_description (schema : JsonDict) (title description : option string) (optional : bool)
    (value_passing : list string) (extra : SchemaExtra) : res ModelInput :=
  schema ← match extra with
           | ExtraNone => Ok schema
           | ExtraDict d => Ok (dict_extend schema d)
           | ExtraCall f => f schema
           end;
  s ← remove_titles (one_of (dict_pop "title" schema));
  Ok (MkModelInput title description s (match value_passing with [] => ["byValue"] | l => l end)
        (if optional then 0 else 1)%Z).

(** ** Properties *)

(** A schema without its titles: the entries [title] that hold a text, at any
    depth. *)
Fixpoint erase (j : JsonValue) : JsonValue :=
  match j with
  | JArr l => JArr (erase <$> l)
  | JObj l =>
      JObj ((fix go (l : JsonDict) : JsonDict :=
               match l with
               | [] => []
               | (k, v) :: l =>
                   match v with
                   | JStr _ => if decide (k = "title") then go l else (k, erase v) :: go l
                   | _ => (k, erase v) :: go l
                   end
               end) l)
  | j => j
  end.
Definition is_title (kv : string * JsonValue) : bool :=
  match kv with (k, JStr _) => bool_decide (k = "title") | _ => false end.

Lemma erase_obj (l : JsonDict) :
  erase (JObj l) = JObj ((fun kv => (kv.1, erase kv.2)) <$> filter (fun kv => is_title kv = false) l).
Proof.
  simpl. f_equal. induction l as [|[k v] l IH]; [done|]. rw filter_cons.
  destruct v; csimpl; rw ?IH //. rw /bool_decide. by repeat case_decide.
Qed.

(** Keys are unique, at any depth. *)
Fixpoint wf_json (j : JsonValue) : Prop :=
  match j with
  | JArr l => foldr (fun j P => wf_json j ∧ P) True l
  | JObj l => NoDup l.*1 ∧ foldr (fun kv P => wf_json kv.2 ∧ P) True l
  | _ => True
  end.

(** A rewriting that drops titles only: keys stay unique, the rest is the same,
    no text becomes something else nor the other way round, and nothing gets
    deeper. *)
Definition keeps (f : JsonValue → res JsonValue) : Prop :=
  ∀ v v', wf_json v → f v = Ok v' →
    wf_json v' ∧ erase v' = erase v ∧ (∀ k, is_title (k, v') = is_title (k, v)) ∧
    (json_depth v' <= json_depth v)%nat.

Lemma erase_tail kv (l l' : JsonDict) :
  erase (JObj l') = erase (JObj l) → erase (JObj (kv :: l')) = erase (JObj (kv :: l)).
Proof. rw !erase_obj !filter_cons. intros [= H]. by case_decide; csimpl; rw H. Qed.

Lemma erase_head k v v' (l : JsonDict) :
  erase v' = erase v → (∀ k, is_title (k, v') = is_title (k, v)) →
  erase (JObj ((k, v') :: l)) = erase (JObj ((k, v) :: l)).
Proof. rw !erase_obj !filter_cons. intros Hv Ht. rw (Ht k). case_decide; [|done]. csimpl. by rw Hv. Qed.

Lemma wf_pop k (l : JsonDict) : wf_json (JObj l) → wf_json (JObj (dict_pop k l)).
Proof.
  rw /dict_pop. induction l as [|[k0 v0] l IH]; [done|]. simpl. intros [[Hk Hn]%NoDup_cons [Hv Hl]].
  destruct (IH (conj Hn Hl)) as [IH1 IH2]. rw filter_cons. case_decide; simpl; [|done].
  split; [|done]. apply NoDup_cons. split; [|done]. intros Hin. apply Hk.
  apply list_elem_of_fmap in Hin as (y & -> & [_ Hy]%list_elem_of_filter). by apply (list_elem_of_fmap_2 fst).
Qed.

Lemma depth_cons k v (l : JsonDict) :
  json_depth (JObj ((k, v) :: l)) = S (Nat.max (json_depth v) (pred (json_depth (JObj l)))).
Proof. done. Qed.

Lemma depth_pop k (l : JsonDict) : (json_depth (JObj (dict_pop k l)) <= json_depth (JObj l))%nat.
Proof.
  rw /dict_pop. induction l as [|[k0 v0] l IH]; [done|].
  rw filter_cons. case_decide; rw !depth_cons.
  - by apply le_n_S, Nat.max_le_compat_l, Nat.pred_le_mono.
  - etransitivity; [exact IH|lia].
Qed.

Lemma pull_title_keeps k : keeps (_pull_title k).
Proof.
  intros v v' Hwf. rw /_pull_title. destruct v as [| | | | | |l]; try done.
  destruct (json_truth _); [|by intros [= <-]].
  destruct (default JNull (assoc "title" l)) as [| | | |s| |] eqn:Et; try done.
  case_decide; intros [= <-]; [|done]. split; [by apply wf_pop|].
  split; [|split; [done|apply depth_pop]].
  destruct (assoc "title" l) as [j|] eqn:Ea; [simpl in Et; subst j|done].
  rw !erase_obj. do 2 f_equal. destruct Hwf as [Hnd _].
  assert (∀ v0, ("title", v0) ∈ l → v0 = JStr s) as Ht.
  { intros v0 Hin. apply assoc_Some in Ea. by eapply sublist_keys_NoDup. }
  clear - Ht. rw /dict_pop. induction l as [|[k0 v0] l IH]; [done|].
  specialize (IH (fun v Hv => Ht v (list_elem_of_further _ _ _ Hv))).
  destruct (decide (k0 = "title")) as [->|Hne].
  - rw filter_cons_False; [by intros []|]. rw IH filter_cons_False //.
    assert (v0 = JStr s) as -> by (apply Ht; by left). done.
  - rw (filter_cons_True _ (k0, v0)) // !filter_cons IH. done.
Qed.

Lemma keeps_bind_cons (f : JsonValue → res JsonValue) k v l v' l' :
  keeps f → wf_json (JObj ((k, v) :: l)) → f v = Ok v' → l'.*1 = l.*1 → wf_json (JObj l') →
  erase (JObj l') = erase (JObj l) → (json_depth (JObj l') <= json_depth (JObj l))%nat →
  wf_json (JObj ((k, v') :: l')) ∧ erase (JObj ((k, v') :: l')) = erase (JObj ((k, v) :: l)) ∧
  (json_depth (JObj ((k, v') :: l')) <= json_depth (JObj ((k, v) :: l)))%nat.
Proof.
  intros Hf [[Hk Hnd]%NoDup_cons [Hv Hl]] Hfv Hkeys [Hnd' Hl'] He Hd. cbn [fst snd] in *.
  destruct (Hf v v' Hv Hfv) as (H1 & H2 & H3 & H4).
  split; [|split; [by rw (erase_head k v v') // (erase_tail _ l l')|rw !depth_cons; lia]].
  split; [|by split]. csimpl. rw Hkeys. by apply NoDup_cons.
Qed.

Lemma on_item_keeps k f (l l' : JsonDict) :
  keeps f → wf_json (JObj l) → on_item k f l = Ok l' →
  wf_json (JObj l') ∧ erase (JObj l') = erase (JObj l) ∧ l'.*1 = l.*1 ∧
  (json_depth (JObj l') <= json_depth (JObj l))%nat.
Proof.
  intros Hf. revert l'. induction l as [|[k0 v0] l IH]; intros l' Hwf; cbn [on_item on_entries]; [by intros [= <-]|].
  pose proof Hwf as [[_ Hnd]%NoDup_cons [_ Hl]]. case_decide.
  - intros (v & Hv & [= <-])%res_bind_inv.
    destruct (keeps_bind_cons f k0 v0 l v l) as (H1 & H2 & H7); [done..|by split|done|done|by split_and!].
  - intros (l1 & H1 & [= <-])%res_bind_inv. destruct (IH l1 (conj Hnd Hl) H1) as (H2 & H3 & H4 & H8).
    destruct (keeps_bind_cons Ok k0 v0 l v0 l1) as (H5 & H6 & H7); try done; [by intros v v' ? [= <-]|].
    split_and!; [done|done| |done]. csimpl. by rw H4.
Qed.

Lemma on_entries_keeps f (l l' : JsonDict) :
  keeps f → wf_json (JObj l) → on_entries f l = Ok l' →
  wf_json (JObj l') ∧ erase (JObj l') = erase (JObj l) ∧ l'.*1 = l.*1 ∧
  (json_depth (JObj l') <= json_depth (JObj l))%nat.
Proof.
  intros Hf. revert l'. induction l as [|[k0 v0] l IH]; intros l' Hwf; cbn [on_item on_entries]; [by intros [= <-]|].
  pose proof Hwf as [[_ Hnd]%NoDup_cons [_ Hl]].
  intros (v1 & Hv1 & (v2 & Hv2 & (l1 & H1 & [= <-])%res_bind_inv)%res_bind_inv)%res_bind_inv.
  destruct (IH l1 (conj Hnd Hl) H1) as (H2 & H3 & H4 & H8).
  destruct (keeps_bind_cons (fun v => v ← _pull_title k0 v; f v) k0 v0 l v2 l1) as (H5 & H6 & H7); try done.
  - intros v v' Hv (w & E1 & E2)%res_bind_inv. destruct (pull_title_keeps k0 v w Hv E1) as (A1 & A2 & A3 & A4).
    destruct (Hf w v' A1 E2) as (B1 & B2 & B3 & B4). split_and!; [done|congruence| |lia]. intros k. by rw B3.
  - by rw Hv1.
  - split_and!; [done|done| |done]. csimpl. by rw H4.
Qed.

Lemma on_elements_keeps f (l l' : list JsonValue) :
  keeps f → wf_json (JArr l) → on_elements f l = Ok l' →
  wf_json (JArr l') ∧ erase <$> l' = erase <$> l ∧ (json_depth (JArr l') <= json_depth (JArr l))%nat.
Proof.
  intros Hf. revert l'. induction l as [|v l IH]; intros l' Hwf; cbn [on_elements]; [by intros [= <-]|].
  destruct Hwf as [Hv Hl]. intros (v1 & H1 & (l1 & H2 & [= <-])%res_bind_inv)%res_bind_inv.
  destruct (IH l1 Hl H2) as (H3 & H4 & H7). destruct (Hf v v1 Hv H1) as (H5 & H6 & _ & H8).
  split; [by split|]. split; [csimpl; by rw H4 H6|simpl in *; lia].
Qed.

Lemma on_schemas_keeps f : keeps f → keeps (on_schemas f).
Proof.
  intros Hf v v' Hwf. destruct v as [| | | | | |l]; try done. intros (l' & H & [= <-])%res_bind_inv.
  by destruct (on_entries_keeps f l l') as (? & ? & _ & ?).
Qed.
Lemma on_sequence_keeps f : keeps f → keeps (on_sequence f).
Proof.
  intros Hf v v' Hwf. destruct v as [| | | |s|l|l]; cbn [remove_auto_title on_sequence]; try done.
  - by intros [= <-].
  - intros (l' & H & [= <-])%res_bind_inv. destruct (on_elements_keeps f l l') as (H1 & H2 & H3); [done..|].
    split_and!; [done| |done|done]. simpl. by rw H2.
  - by intros (l' & H & [= <-])%res_bind_inv.
Qed.

Lemma remove_auto_title_keeps n : keeps (remove_auto_title n).
Proof.
  induction n as [|n IH]; [done|]. intros v v' Hwf. destruct v as [| | | |s|l|l]; cbn [remove_auto_title on_sequence]; try done.
  - case_match; [done|]. by intros [= <-].
  - case_match; [done|]. by intros [= <-].
  - intros (l1 & H1 & (l2 & H2 & [= <-])%res_bind_inv)%res_bind_inv.
    assert (wf_json (JObj l1) ∧ erase (JObj l1) = erase (JObj l) ∧
      (json_depth (JObj l1) <= json_depth (JObj l))%nat) as (Hwf1 & He1 & Hd1).
    { destruct (inside l) as [|k|]; [| |by injection H1 as <-];
        (eapply on_item_keeps in H1 as (? & ? & _ & ?); [done|by auto using on_schemas_keeps, on_sequence_keeps|done]). }
    destruct (on_item_keeps "$defs" (on_schemas (remove_auto_title n)) l1 l2) as (H3 & H4 & _ & H5); [|done..|].
    { by apply on_schemas_keeps. }
    split_and!; [done| |done|lia]. by rw H4.
Qed.

(** *** The depth is enough *)

(** Two functions that agree on what is shallower than a value do the same in it. *)
Definition agree (d : nat) (f g : JsonValue → res JsonValue) : Prop :=
  ∀ v, (json_depth v < d)%nat → f v = g v.

Lemma depth_item k v (l : JsonDict) : (k, v) ∈ l → (json_depth v < json_depth (JObj l))%nat.
Proof.
  induction l as [|[k0 v0] l IH]; [by intros ?%not_elem_of_nil|]. rw depth_cons.
  intros [[= <- <-]|H]%elem_of_cons; [lia|]. apply IH in H. lia.
Qed.

Lemma on_item_agree k f g d (l : JsonDict) :
  agree d f g → (∀ v, (k, v) ∈ l → (json_depth v < d)%nat) → on_item k f l = on_item k g l.
Proof.
  intros Hfg. induction l as [|[k0 v0] l IH]; intros Hd; [done|]. simpl. case_decide as E.
  - subst. rw Hfg //. apply Hd. by left.
  - rw IH //. intros v Hv. apply Hd. by right.
Qed.

Lemma pull_title_depth k v v' : _pull_title k v = Ok v' → (json_depth v' <= json_depth v)%nat.
Proof.
  rw /_pull_title. destruct v as [| | | | | |l]; try done.
  destruct (json_truth _); [|by intros [= <-]].
  destruct (default JNull (assoc "title" l)) as [| | | |s| |]; try done.
  case_decide; intros [= <-]; [apply depth_pop|done].
Qed.

Lemma on_entries_agree f g d (l : JsonDict) :
  agree d f g → (json_depth (JObj l) <= d)%nat → on_entries f l = on_entries g l.
Proof.
  intros Hfg. induction l as [|[k0 v0] l IH]; intros Hd; [done|]. rw depth_cons in Hd. simpl.
  rw IH; [lia|]. destruct (_pull_title k0 v0) as [v1|] eqn:E; [|done]. apply pull_title_depth in E.
  py_unfold. rw Hfg //. lia.
Qed.

Lemma on_schemas_agree f g d : agree d f g → agree (S d) (on_schemas f) (on_schemas g).
Proof. intros Hfg v Hv. destruct v as [| | | | | |l]; try done. rewrite /on_schemas (on_entries_agree f g d) //. by apply Nat.lt_succ_r. Qed.

Lemma on_elements_agree f g d (l : list JsonValue) :
  agree d f g → (json_depth (JArr l) <= d)%nat → on_elements f l = on_elements g l.
Proof.
  intros Hfg. induction l as [|v l IH]; intros Hd; [done|]. simpl in *. rw IH; [lia|]. rw Hfg //. lia.
Qed.

Lemma on_sequence_agree f g d : agree d f g → agree (S d) (on_sequence f) (on_sequence g).
Proof.
  intros Hfg v Hv. destruct v as [| | | | |l|l]; try done; rewrite /on_sequence.
  - rw (on_elements_agree f g d) //. by apply Nat.lt_succ_r.
  - rw (on_elements_agree f g d) //. destruct d as [|d]; [by simpl in Hv; lia|].
    simpl. apply le_n_S. clear. induction l as [|kv l IH]; csimpl; lia.
Qed.

Lemma on_item_others k f (l l' : JsonDict) k' v :
  on_item k f l = Ok l' → (k', v) ∈ l' → k' ≠ k → (k', v) ∈ l.
Proof.
  revert l'. induction l as [|[k0 v0] l IH]; intros l'; simpl; [by intros [= <-]|]. case_decide as E.
  - intros (v1 & _ & [= <-])%res_bind_inv [[= -> ->]|H]%elem_of_cons Hne; [by destruct Hne|by right].
  - intros (l1 & H1 & [= <-])%res_bind_inv [[= -> ->]|H]%elem_of_cons Hne; [by left|right; eauto].
Qed.

Lemma inside_key l k : inside l = Alternatives k → k ∈ ["oneOf"; "allOf"; "anyOf"].
Proof.
  rw /inside. intros H.
  assert (match list_find (fun k => k ∈ l.*1) ["oneOf"; "allOf"; "anyOf"] with
          | Some (_, k) => Alternatives k | None => Nothing end = Alternatives k) as H1.
  { by repeat case_match. }
  destruct (list_find _ _) as [[i k']|] eqn:E; [|done]. injection H1 as ->.
  apply list_find_Some in E as (E & _). by apply list_elem_of_lookup_2 in E.
Qed.

(** A bound above the depth is enough, and more changes nothing. *)
Lemma remove_auto_title_fuel d n m v :
  (json_depth v <= d)%nat → (d < n)%nat → (d < m)%nat → remove_auto_title n v = remove_auto_title m v.
Proof.
  revert n m v. induction d as [d IH] using lt_wf_ind. intros n m v Hd Hn Hm.
  destruct n as [|n], m as [|m]; try lia. destruct v as [| | | | | |l]; try done.
  assert (∃ d', d = S d' ∧ ∀ k v, (k, v) ∈ l → json_depth v < S d')%nat as (d' & -> & Hitem).
  { exists (pred d). split; [simpl in Hd; lia|]. intros k v Hv%depth_item. lia. }
  assert (agree d' (remove_auto_title n) (remove_auto_title m)) as Ha.
  { intros v Hv. apply (IH (json_depth v)); lia. }
  cbn [remove_auto_title].
  assert (∀ k, on_item k (on_schemas (remove_auto_title n)) l = on_item k (on_schemas (remove_auto_title m)) l) as Hs.
  { intros k. apply (on_item_agree k _ _ (S d')); [by apply on_schemas_agree|]. intros v. apply Hitem. }
  assert (∀ k, on_item k (on_sequence (remove_auto_title n)) l = on_item k (on_sequence (remove_auto_title m)) l) as Hq.
  { intros k. apply (on_item_agree k _ _ (S d')); [by apply on_sequence_agree|]. intros v. apply Hitem. }
  assert (∀ k f l1, k ≠ "$defs" → on_item k f l = Ok l1 →
    on_item "$defs" (on_schemas (remove_auto_title n)) l1 = on_item "$defs" (on_schemas (remove_auto_title m)) l1) as Hdefs.
  { intros k f l1 Hk Hl. apply (on_item_agree _ _ _ (S d')); [by apply on_schemas_agree|].
    intros v Hv. apply (Hitem "$defs"). by eapply on_item_others. }
  destruct (inside l) as [|k|] eqn:Ei.
  - rw Hs. destruct (on_item "properties" _ l) as [l1|] eqn:El; [|done]. py_unfold.
    by rw (Hdefs "properties" _ l1 ltac:(done) El).
  - rw Hq. destruct (on_item k _ l) as [l1|] eqn:El; [|done]. py_unfold.
    assert (k ≠ "$defs") as Hk by (intros ->; by apply inside_key, (bool_decide_pack _) in Ei).
    by rw (Hdefs k _ l1 Hk El).
  - py_unfold. by rw Hs.
Qed.

(** *** Nothing is left to remove *)

(** A second turn changes nothing, and the first one leaves the title and the kind
    of what it is given. *)
Definition is_obj (v : JsonValue) : bool := match v with JObj _ => true | _ => false end.
Definition title_of (v : JsonValue) : option JsonValue :=
  match v with JObj l => assoc "title" l | _ => None end.
Definition settles (f : JsonValue → res JsonValue) : Prop :=
  ∀ v v', f v = Ok v' → f v' = Ok v' ∧ is_obj v' = is_obj v ∧ title_of v' = title_of v.

Lemma on_item_assoc k f (l l' : JsonDict) k' :
  on_item k f l = Ok l' → k' ≠ k → assoc k' l' = assoc k' l.
Proof.
  revert l'. induction l as [|[k0 v0] l IH]; intros l'; simpl; [by intros [= <-]|]. case_decide as E.
  - intros (v1 & _ & [= <-])%res_bind_inv Hne. simpl. by rw !decide_False; subst.
  - intros (l1 & H1 & [= <-])%res_bind_inv Hne. simpl. by rw (IH l1 H1 Hne).
Qed.

Lemma on_item_keys k f (l l' : JsonDict) : on_item k f l = Ok l' → l'.*1 = l.*1.
Proof.
  revert l'. induction l as [|[k0 v0] l IH]; intros l'; simpl; [by intros [= <-]|]. case_decide as E.
  - by intros (v1 & _ & [= <-])%res_bind_inv.
  - intros (l1 & H1 & [= <-])%res_bind_inv. csimpl. by rw (IH l1 H1).
Qed.

Lemma on_item_again k f (l l' : JsonDict) :
  (∀ v v', f v = Ok v' → f v' = Ok v') → on_item k f l = Ok l' → on_item k f l' = Ok l'.
Proof.
  intros Hf. revert l'. induction l as [|[k0 v0] l IH]; intros l'; simpl; [by intros [= <-]|].
  case_decide as E.
  - intros (v1 & H1 & [= <-])%res_bind_inv. simpl. rw decide_True // (Hf _ _ H1) //.
  - intros (l1 & H1 & [= <-])%res_bind_inv. simpl. rw decide_False // (IH l1 H1) //.
Qed.

(** What is settled under a key stays so when another key changes. *)
Lemma on_item_other k f k' g (l l' : JsonDict) :
  k' ≠ k → on_item k f l = Ok l → on_item k' g l = Ok l' → on_item k f l' = Ok l'.
Proof.
  intros Hne. revert l'. induction l as [|[k0 v0] l IH]; intros l'; simpl; [by intros _ [= <-]|].
  case_decide as E1; case_decide as E2; [congruence| | |].
  - intros (v1 & H1 & H2)%res_bind_inv (l1 & H3 & [= <-])%res_bind_inv. simpl.
    injection H2 as ->. rw decide_True // H1 //.
  - intros (l0 & H1 & H2)%res_bind_inv (v1 & H3 & [= <-])%res_bind_inv. simpl.
    injection H2 as ->. rw decide_False // H1 //.
  - intros (l0 & H1 & H2)%res_bind_inv (l1 & H3 & [= <-])%res_bind_inv. simpl.
    injection H2 as ->. rw decide_False // (IH l1) //.
Qed.

Lemma on_item_is_obj k f (l l' : JsonDict) k' :
  (∀ v v', f v = Ok v' → is_obj v' = is_obj v) → on_item k f l = Ok l' →
  is_obj <$> assoc k' l' = is_obj <$> assoc k' l.
Proof.
  intros Hf. revert l'. induction l as [|[k0 v0] l IH]; intros l'; simpl; [by intros [= <-]|].
  case_decide as E.
  - intros (v1 & H1 & [= <-])%res_bind_inv. simpl. case_decide; [|done]. csimpl. by rw (Hf _ _ H1).
  - intros (l1 & H1 & [= <-])%res_bind_inv. simpl. case_decide; [done|]. by apply IH.
Qed.

Lemma inside_on_item k f (l l' : JsonDict) :
  k ≠ "type" → (∀ v v', f v = Ok v' → is_obj v' = is_obj v) → on_item k f l = Ok l' → inside l' = inside l.
Proof.
  intros Hk Hf Hl. pose proof (on_item_is_obj k f l l' "properties" Hf Hl) as Hp.
  rw /inside (on_item_keys k f l l' Hl) (on_item_assoc k f l l' "type" Hl (not_eq_sym Hk)).
  destruct (assoc "type" l) as [[| | | |t| |]|]; try done.
  destruct (assoc "properties" l') as [[]|], (assoc "properties" l) as [[]|]; try done; simpl in Hp; done.
Qed.

(** The titles that [_pull_title] leaves. *)
Definition kept (k : string) (title : option JsonValue) : Prop :=
  json_truth (default JNull title) = true →
  ∃ s, default JNull title = JStr s ∧ underscored (lower s) ≠ lower k.

Lemma pull_title_kept k v v' : _pull_title k v = Ok v' → is_obj v' = true ∧ kept k (title_of v').
Proof.
  rw /_pull_title /kept. destruct v as [| | | | | |l]; try done.
  destruct (json_truth _) eqn:Et; [|intros [= <-]; split; [done|]; simpl; by rw Et].
  destruct (default JNull (assoc "title" l)) as [| | | |s| |] eqn:E; try done.
  case_decide; intros [= <-]; (split; [done|]); simpl; [|rw E; eauto].
  assert (assoc "title" (dict_pop "title" l) = None) as ->; [|done].
  apply assoc_None. intros ([k0 v0] & Hk & [Hn _]%list_elem_of_filter)%list_elem_of_fmap. by simpl in *.
Qed.

Lemma kept_pull_title k v : is_obj v = true → kept k (title_of v) → _pull_title k v = Ok v.
Proof.
  rw /_pull_title /kept. destruct v as [| | | | | |l]; try done. intros _ Hk. simpl in Hk.
  destruct (json_truth _); [|done]. destruct Hk as (s & -> & Hne); [done|]. by rw decide_False.
Qed.

Lemma on_entries_settles f (l l' : JsonDict) :
  settles f → on_entries f l = Ok l' → on_entries f l' = Ok l'.
Proof.
  intros Hf. revert l'. induction l as [|[k0 v0] l IH]; intros l'; simpl; [by intros [= <-]|].
  intros (v1 & H1 & (v2 & H2 & (l1 & H3 & [= <-])%res_bind_inv)%res_bind_inv)%res_bind_inv.
  apply pull_title_kept in H1 as [Ho Hk]. apply Hf in H2 as (H4 & H5 & H6). simpl.
  rw (kept_pull_title k0 v2); [by rw H5|by rw H6|]. py_unfold. rw H4 (IH l1 H3) //.
Qed.

Lemma on_elements_settles f (l l' : list JsonValue) :
  settles f → on_elements f l = Ok l' → on_elements f l' = Ok l'.
Proof.
  intros Hf. revert l'. induction l as [|v l IH]; intros l'; simpl; [by intros [= <-]|].
  intros (v1 & H1 & (l1 & H3 & [= <-])%res_bind_inv)%res_bind_inv. simpl.
  apply Hf in H1 as (-> & _). py_unfold. by rw (IH l1 H3).
Qed.

Lemma on_schemas_settles f v v' :
  settles f → on_schemas f v = Ok v' → on_schemas f v' = Ok v' ∧ is_obj v' = is_obj v.
Proof.
  intros Hf. destruct v as [| | | | | |l]; try done. intros (l' & H & [= <-])%res_bind_inv.
  split; [|done]. simpl. by rw (on_entries_settles f l l' Hf H).
Qed.
Lemma on_sequence_settles f v v' :
  settles f → on_sequence f v = Ok v' → on_sequence f v' = Ok v' ∧ is_obj v' = is_obj v.
Proof.
  intros Hf. destruct v as [| | | |s|l|l]; simpl; try done.
  - by intros [= <-].
  - intros (l' & H & [= <-])%res_bind_inv. split; [|done]. simpl. by rw (on_elements_settles f l l' Hf H).
  - intros (l' & H & [= <-])%res_bind_inv. split; [|done]. simpl. by rw H.
Qed.

Lemma remove_auto_title_settles n : settles (remove_auto_title n).
Proof.
  induction n as [|n IH]; [done|]. intros v v'.
  destruct v as [| | | |s|l|l]; cbn [remove_auto_title]; try done.
  1,2: destruct (_ : bool) eqn:E; [done|]; intros [= <-]; cbn [remove_auto_title]; by rw E.
  set (schemas := on_schemas (remove_auto_title n)). set (seq := on_sequence (remove_auto_title n)).
  intros (l1 & H1 & (l2 & H2 & [= <-])%res_bind_inv)%res_bind_inv.
  assert (∀ v v', schemas v = Ok v' → schemas v' = Ok v' ∧ is_obj v' = is_obj v) as Hs.
  { intros w w'. by apply on_schemas_settles. }
  assert (∀ v v', seq v = Ok v' → seq v' = Ok v' ∧ is_obj v' = is_obj v) as Hq.
  { intros w w'. by apply on_sequence_settles. }
  assert (inside l2 = inside l1) as Hi2 by (apply (inside_on_item "$defs" schemas); [done|apply Hs|done]).
  assert (assoc "title" l2 = assoc "title" l1) as Ht2 by (by apply (on_item_assoc "$defs" schemas)).
  assert (on_item "$defs" schemas l2 = Ok l2) as Hd2 by (apply (on_item_again _ _ l1); [apply Hs|done]).
  assert (∀ k f, k ∈ ["properties"; "oneOf"; "allOf"; "anyOf"] →
    (∀ v v', f v = Ok v' → f v' = Ok v' ∧ is_obj v' = is_obj v) → on_item k f l = Ok l1 →
    on_item k f l2 = Ok l2 ∧ inside l2 = inside l ∧ assoc "title" l2 = assoc "title" l) as Hk.
  { intros k f Hin Hf Hl.
    assert ("$defs" ≠ k ∧ k ≠ "type" ∧ "title" ≠ k) as (Hk1 & Hk2 & Hk3).
    { clear - Hin. split_and!; intros E; subst k; by apply (bool_decide_pack _) in Hin. }
    split_and!.
    - apply (on_item_other k f "$defs" schemas l1); [done| |done]. apply (on_item_again _ _ l); [apply Hf|done].
    - rw Hi2. apply (inside_on_item k f); [done|apply Hf|done].
    - rw Ht2. by apply (on_item_assoc k f). }
  destruct (inside l) as [|k|] eqn:Ei.
  - destruct (Hk "properties" schemas ltac:(set_solver) Hs H1) as (H3 & H4 & H5).
    split_and!; [|done|done]. by rw H4 H3; py_unfold; rw Hd2.
  - destruct (Hk k seq) as (H3 & H4 & H5); [apply inside_key in Ei; set_solver|done|done|].
    split_and!; [|done|done]. by rw H4 H3; py_unfold; rw Hd2.
  - injection H1 as ->. split_and!; [|done|done]. by rw Hi2 Ei; py_unfold; rw Hd2.
Qed.


(** The schema of a field of a model. *)
Module SchemaDemo.
Definition schema : JsonDict :=
  [("type", JStr "object"); ("title", JStr "Job");
   ("properties", JObj [("job_id", JObj [("title", JStr "Job Id"); ("type", JStr "string")]);
                        ("tag", JObj [("title", JStr "A tag"); ("type", JStr "string")])])].
Definition cleaned : JsonDict :=
  [("type", JStr "object"); ("title", JStr "Job");
   ("properties", JObj [("job_id", JObj [("type", JStr "string")]);
                        ("tag", JObj [("title", JStr "A tag"); ("type", JStr "string")])])].
End SchemaDemo.

