(* ===== verification/RunAlg.v ===== *)
(** * Execution of an algorithm

    [processing/outputs/__init__.py], [processing/runalg.py] and the execution of
    [processing/processes.py]: the outputs of an algorithm, its run with the
    parameters made of a request, and the layers it leaves in the project of the
    results. *)
From S2P Require Import Prelude PyDict PyStd PyTemplate PyFloat Json Pydantic Ogc Routes CacheManager FileHandler Web Registry Executor JobsApi ProcessesApi Store WorkerFiles InputLiterals InputLayers GeoInputs InputFiles Inputs OutputLayers.

(** ** Outputs *)

(** [OutputTypes]: the class of each QGIS output; the classes that are marked as
    unsupported are hidden, the types that are not in the table are refused *)
Inductive OutputClass : Type :=
| OutputLiteral
| OutputFile
| OutputFolder
| OutputHtml
| OutputLayer (c : LayerOutput)
| UnsupportedOutput
| UnknownOutput.
Record OutputDef : Type := MkOutputDef {
  od_name : string; od_description : string; od_class : OutputClass;
  (** The filter and the name of the destination parameter that created it *)
  od_filter : option string; od_input : option string;
}.

(** An output and its format *)
Record Output : Type := MkOutput { ou_def : OutputDef; ou_fmt : OutputFmt }.

Section outputs.
Context (types_map : string → option string) (guess_extension : string → option string).

(** [initialize] of each class *)
Definition output_init (c : OutputClass) : OutputFmt :=
  match c with
  | OutputLayer c => set_output_format guess_extension (layer_output_init c) default_fmt
  | OutputHtml => set_output_format guess_extension "text/html" default_fmt
  | _ => default_fmt
  end.

(** [ProcessAlgorithm.outputs] *)
Fixpoint outputs (defs : list OutputDef) : res (list Output) :=
  match defs with
  | [] => Ok []
  | d :: defs =>
      match od_class d with
      | UnknownOutput => Raise (ValueError "Unsupported input parameter")
      | UnsupportedOutput => outputs defs
      | c => os ← outputs defs; Ok (MkOutput d (output_init c) :: os)
      end
  end.

(** [validate_output] of each class, with the format of the input that created the
    output, when it has one *)
Definition validate_output_of (o : Output) (format : res string) (param : option OutputFmt) :
    res (Output * option OutputFmt) :=
  let d := ou_def o in
  match od_class d with
  | OutputFile =>
      r ← validate_output types_map guess_extension (MkFileOutput (od_name d) (od_filter d)) format (ou_fmt o) param;
      Ok (MkOutput d r.1, r.2)
  | OutputLayer c =>
      m ← layer_validate_output c format;
      Ok (MkOutput d (set_output_format guess_extension m (ou_fmt o)), param)
  | OutputHtml =>
      match format with
      | Ok m => if decide (m = of_media (ou_fmt o)) then Ok (o, param)
                else Raise (InputValueError (od_name d +:+ ": invalid format"))
      | Raise (ValidationError _) => Raise (InputValueError (od_name d +:+ ": Invalid format definition"))
      | Raise e => Raise e
      end
  | _ => Ok (o, param)
  end.

(** The inputs whose values have a format *)
Definition has_format (c : InputClass) : bool :=
  match c with ParameterFileDestination _ _ | ParameterLayerDestination _ _ => true | _ => false end.
Definition input_format (name : option string) (ins : list Input) : option OutputFmt :=
  n ← name; i ← List.find (fun i => bool_decide (in_name i = n)) ins;
  if has_format (in_class i) then Some (in_fmt i) else None.
Definition set_input_format (name : string) (f : OutputFmt) (ins : list Input) : list Input :=
  (fun i => if decide (in_name i = name) then MkInput (in_param i) (in_class i) (in_type i) (in_field i) f else i) <$> ins.

(** The formats that a request asks for, when they are valid *)
Fixpoint validate_outputs (os : list Output) (formats : list (string * res string)) (ins : list Input) :
    res (list Output * list Input) :=
  match os with
  | [] => Ok ([], ins)
  | o :: os =>
      match assoc (od_name (ou_def o)) formats with
      | None => r ← validate_outputs os formats ins; Ok (o :: r.1, r.2)
      | Some format =>
          v ← validate_output_of o format (input_format (od_input (ou_def o)) ins);
          let ins := match v.2, od_input (ou_def o) with
                     | Some f, Some n => set_input_format n f ins
                     | _, _ => ins
                     end in
          r ← validate_outputs os formats ins; Ok (v.1 :: r.1, r.2)
      end
  end.
End outputs.

(** ** runalg.py *)

(** The files of the job, the layers to load on completion, the layers of the
    projects by their files, and the styles that were loaded, by layer *)
Record XState : Type := MkX {
  x_in : PState; x_out : LCtx; x_layers : list (string * MapLayer); x_styles : list (string * string);
}.
Definition on_in {A} (m : M PState A) : M XState A :=
  zoom x_in (fun i s => MkX i (x_out s) (x_layers s) (x_styles s)) m.
Definition on_out {A} (m : M LCtx A) : M XState A :=
  zoom x_out (fun o s => MkX (x_in s) o (x_layers s) (x_styles s)) m.
Definition set_details (value : string) (d : Details) : M LCtx unit :=
  modify (fun c => MkLCtx ((value, d) :: List.filter (fun e => negb (bool_decide (e.1 = value))) (lc_load c))
                     (lc_data_urls c) (lc_files c)).

(** An algorithm: its definitions, the check of its parameters, which answers a
    message when they are refused, and its run, which writes files and adds
    layers to load on completion. *)
Record RunAlgorithm : Type := MkRunAlg {
  ra_id : string;
  ra_require_project : bool;
  ra_inputs : list (ParamDefinition * InputClass);
  ra_outputs : list OutputDef;
  ra_check : list (string * QValue) → option string;
  ra_run : list (string * QValue) → M (FS * LCtx) (list (string * JsonValue));
}.

(** [validate_parameters], with [abort_on_error] *)
Definition validate_parameters (alg : RunAlgorithm) (params : list (string * QValue)) : res unit :=
  match ra_check alg params with
  | Some msg => Raise (RunProcessException ("Processing parameters error: " +:+ msg))
  | None => Ok tt
  end.

(** [execute]: the names of the destinations are given back to their layers *)
Definition destinations (params : list (string * QValue)) : list (string * string) :=
  omap (fun nv : string * QValue => match nv.2 with QSink _ name _ => Some (nv.1, name) | _ => None end) params.
Definition restore_name (dests : list (string * string)) (results : list (string * JsonValue)) (d : OutputDef) :
    M LCtx unit :=
  match assoc (od_name d) dests with
  | None => mret tt
  | Some name =>
      match assoc (od_name d) results with
      | None => raise (KeyError (od_name d))
      | Some (JStr value) =>
          c ← get;
          match assoc value (lc_load c) with
          | Some details => set_details value (MkDetails name (dt_output details) (dt_project details))
          | None => mret tt
          end
      | Some _ => raise (TypeError "willLoadLayerOnCompletion")
      end
  end.
Fixpoint for_each {S A} (f : A → M S unit) (l : list A) : M S unit :=
  match l with [] => mret tt | x :: l => f x;; for_each f l end.
Definition on_run {A} (m : M (FS * LCtx) A) : M XState A :=
  zoom (fun s => (ps_fs (x_in s), x_out s))
    (fun r s => MkX (MkPState r.1 (ps_selected (x_in s))) r.2 (x_layers s) (x_styles s)) m.
Definition run_execute (alg : RunAlgorithm) (params : list (string * QValue)) :
    M XState (list (string * JsonValue)) :=
  pure (validate_parameters alg params);;
  results ← try_except (on_run (ra_run alg params))
    (fun _ => Some (raise (RunProcessException "Algorithm failed with error")));
  on_out (for_each (restore_name (destinations params) results) (ra_outputs alg));;
  mret results.

Section process.
Context {TA : TypeAdapter} (types_map guess_extension : string → option string).
Context (parseColor : string → option PyVal) (parameterAsMatrix : PyVal → option (list PyVal)).
Context (qg : QgisGeo) (getMapLayer : string → option MapLayer) (resolve : ppath → ppath).
Context (validate_input : JsonValue → res RefOrQualified) (b64decode : string → res string).
Context (request : string → string → list (string * string) → option string → res (Z * string)).
Context (mapLayerFromString : string → option MapLayer) (output_layer_name : MapLayer → Details → string).
Context (layer_source : MapLayer → string) (template : string).
(** The rendering styles of an algorithm and those of the settings, by the type of
    the layer; what post processors do *)
Context (rendering_style : string → string → option string) (setting_style : LayerKind → option string).
Context (post_process : Details → MapLayer → res unit).

(** [set_output_layer_style] *)
Definition set_output_layer_style (alg_id : string) (layer : MapLayer) (details : Details) (workdir : ppath) :
    M XState unit :=
  s ← get;
  let style :=
    if str_truth (dt_output details) then
      let qml := path_join workdir (path_of (dt_output details +:+ ".qml")) in
      if is_file qml (ps_fs (x_in s)) then Some (path_str qml) else rendering_style alg_id (dt_output details)
    else None in
  let style := match style with Some _ => style | None => setting_style (ly_kind layer) end in
  match style with
  | Some p => if str_truth p
              then modify (fun s => MkX (x_in s) (x_out s) (x_layers s) ((ly_id layer, p) :: x_styles s))
              else mret tt
  | None => mret tt
  end.

(** [process_layer_outputs]: one layer, and whether it was not wrong *)
Definition process_layer (alg_id : string) (ctx : PCtx) (value : string) (details : Details) : M XState bool :=
  match mapLayerFromString value with
  | None => mret true
  | Some layer =>
      let layer := MkLayer (ly_id layer) (output_layer_name layer details) (ly_kind layer) in
      let project := if ostr_truth (dt_project details) then dt_project details else px_destination_project ctx in
      let details := MkDetails (dt_name details) (dt_output details) project in
      set_output_layer_style alg_id layer details (px_workdir ctx);;
      match project with
      | Some p => modify (fun s => MkX (x_in s) (x_out s) ((p, layer) :: x_layers s) (x_styles s))
      | None => mret tt
      end;;
      try_except (pure (post_process details layer);; mret true) (fun _ => Some (mret false))
  end.
Fixpoint process_layers (alg_id : string) (ctx : PCtx) (l : list (string * Details)) : M XState bool :=
  match l with
  | [] => mret true
  | (value, details) :: l =>
      ok ← process_layer alg_id ctx value details; oks ← process_layers alg_id ctx l; mret (ok && oks)
  end.
Definition process_layer_outputs (alg_id : string) (ctx : PCtx) : M XState bool :=
  s ← get; process_layers alg_id ctx (lc_load (x_out s)).

(** ** [ProcessAlgorithm.execute] *)

(** [output] of each class *)
Definition text_of_json (v : JsonValue) : res string :=
  match v with JStr s => Ok s | _ => Raise (TypeError "str expected") end.
Definition output_value (o : Output) (ctx : PCtx) (v : JsonValue) : M XState JsonValue :=
  let d := ou_def o in
  let f := MkFileOutput (od_name d) (od_filter d) in
  s ← get;
  let fs := ps_fs (x_in s) in
  let on_files m := on_out (zoom lc_files (fun f c => MkLCtx (lc_load c) (lc_data_urls c) f) m) in
  match od_class d with
  | OutputFile => p ← pure (text_of_json v); on_files (file_output types_map f (ou_fmt o) p ctx fs)
  | OutputFolder | OutputHtml => p ← pure (text_of_json v); on_files (folder_output f p ctx fs)
  | OutputLayer OutputMultipleLayers =>
      vs ← pure (match v with JArr l => seq_res (text_of_json <$> l) | _ => Raise (TypeError "list expected") end);
      on_out (multiple_output mapLayerFromString output_layer_name template ctx (od_name d) (od_description d)
                (of_media (ou_fmt o)) vs)
  | OutputLayer _ =>
      p ← pure (text_of_json v);
      on_out (layer_output mapLayerFromString output_layer_name layer_source template ctx fs (od_name d)
                (od_description d) (of_media (ou_fmt o)) p)
  | _ => mret v
  end.
Fixpoint output_values (os : list Output) (ctx : PCtx) (results : list (string * JsonValue)) :
    M XState (list (string * JsonValue)) :=
  match os with
  | [] => mret []
  | o :: os =>
      v ← pure (match assoc (od_name (ou_def o)) results with Some v => Ok v | None => Raise (KeyError (od_name (ou_def o))) end);
      j ← output_value o ctx v;
      js ← output_values os ctx results;
      mret ((od_name (ou_def o), j) :: js)
  end.

(** [ProcessingContext.create_project]: the file of the project of the results and
    the urls it advertises *)
Definition create_project (ctx : PCtx) (name : string) : res (string * list string) :=
  let filename := get_valid_filename name in
  urls ← seq_res ((fun service => _ows_reference template filename (px_job_id ctx) (px_public_url ctx)
                                    (Some service) None None None) <$> ["WMS"; "WCS"; "WFS"; "WMTS"]);
  Ok (path_str (path_join (px_workdir ctx) (path_of filename)) +:+ ".qgz", urls).
Definition with_destination (ctx : PCtx) (name : string) : res PCtx :=
  match px_destination_project ctx with
  | Some _ => Ok ctx
  | None =>
      p ← create_project ctx name;
      Ok (MkPCtx (px_workdir ctx) (px_raw ctx) (px_root ctx) (Some p.1) (px_job_id ctx) (px_public_url ctx)
            (px_store_url ctx))
  end.

(** [validate_execute_parameters] *)
Definition execute_parameters (alg : RunAlgorithm) (project : option QgsProject) (params : list (string * JsonValue))
    (formats : list (string * res string)) (ctx : PCtx) : M XState (list (string * QValue) * list Output) :=
  if ra_require_project alg && bool_decide (project = None)
  then raise (InputValueError "Algorithm {self.ident} require project")
  else
    ins ← pure (inputs types_map parseColor parameterAsMatrix qg (ra_inputs alg) project true);
    os ← pure (outputs guess_extension (ra_outputs alg));
    r ← pure (validate_outputs types_map guess_extension os formats ins);
    ps ← on_in (parameters qg getMapLayer resolve validate_input b64decode request r.2 params ctx);
    mret (ps, r.1).

Definition process_execute (alg : RunAlgorithm) (project : option QgsProject) (params : list (string * JsonValue))
    (formats : list (string * res string)) (ctx : PCtx) : M XState (list (string * JsonValue)) :=
  s ← get;
  if bool_decide (px_workdir ctx ∈ fs_dirs (ps_fs (x_in s))) then
    ctx ← pure (with_destination ctx (ra_id alg));
    po ← execute_parameters alg project params formats ctx;
    results ← run_execute alg po.1;
    pure (if forallb (fun o => bool_decide (is_Some (assoc (od_name (ou_def o)) results))) po.2 then Ok tt
          else Raise (RunProcessException "Incomplete output for algorithm"));;
    values ← output_values po.2 ctx results;
    process_layer_outputs (ra_id alg) ctx;;
    mret values
  else raise (PreconditionError "Context workdir is not a directory").
End process.

(** ** Properties *)

(** The projects that the layers of results go to. *)
Definition goes_to (dest : string) (load : list (string * Details)) : Prop :=
  Forall (fun vd : string * Details => dt_project vd.2 ∈ [None; Some dest]) load.

Lemma filter_other {A} (v w : string) (l : list (string * A)) : v ≠ w →
  assoc v (List.filter (fun e => negb (bool_decide (e.1 = w))) l) = assoc v l.
Proof.
  intros Hvw. induction l as [|[k x] l IH]; [done|]. csimpl. destruct (decide (k = w)) as [->|Hk].
  - rw bool_decide_true //=. by rw decide_False.
  - rw bool_decide_false //=. by rw IH.
Qed.
Lemma goes_to_filter dest f load : goes_to dest load → goes_to dest (List.filter f load).
Proof.
  intros H. apply Forall_forall. intros x [Hx _]%list_elem_of_In%filter_In.
  apply list_elem_of_In in Hx. by eapply Forall_forall in H.
Qed.

Lemma restore_name_ok dest dests results d c r c' : restore_name dests results d c = (r, c') →
  goes_to dest (lc_load c) → goes_to dest (lc_load c').
Proof.
  rw /restore_name /set_details /modify /get. py_unfold.
  destruct (assoc (od_name d) dests) as [name|]; [|by intros [= _ <-]].
  destruct (assoc (od_name d) results) as [[| | | |value| |]|]; try by intros [= _ <-].
  destruct (assoc value (lc_load c)) as [details|] eqn:E; [|by intros [= _ <-]].
  intros [= _ <-] H. constructor; [|by apply goes_to_filter]. apply assoc_Some in E.
  by eapply Forall_forall in H; [|exact E].
Qed.
Lemma restore_names_ok dest dests results l c r c' : for_each (restore_name dests results) l c = (r, c') →
  goes_to dest (lc_load c) → goes_to dest (lc_load c').
Proof.
  revert c. induction l as [|d l IH]; intros c; simpl; [by intros [= _ <-]|].
  intros [([] & c1 & Hd & Hl)|(e & Hd & _)]%bind_inv H; apply (restore_name_ok dest) in Hd; eauto.
Qed.

(** The algorithm leaves its layers to the project of the results. *)
Lemma run_execute_ok dest alg params s results s' :
  (∀ ps t r t', ra_run alg ps t = (Ok r, t') → goes_to dest (lc_load t.2) → goes_to dest (lc_load t'.2)) →
  run_execute alg params s = (Ok results, s') → goes_to dest (lc_load (x_out s)) → goes_to dest (lc_load (x_out s')).
Proof.
  intros Hrun H0 Hs. move: H0. rw /run_execute. intros (? & s1 & Hv & (rs & s2 & Hr & ([] & s3 & Hn & [= <- <-])%bind_ok_inv)%bind_ok_inv)%bind_ok_inv.
  injection Hv as _ <-.
  assert (goes_to dest (lc_load (x_out s2))) as H2.
  { move: Hr. rw /try_except /on_run /zoom. destruct (ra_run alg params _) as [[r|e] t] eqn:E; [|done].
    intros [= _ <-]. by eapply Hrun. }
  move: Hn. rw /on_out /zoom. destruct (for_each _ _ _) as [r c] eqn:E. intros [= -> <-].
  by eapply restore_names_ok.
Qed.

Section published.
Context (mapLayerFromString : string → option MapLayer) (output_layer_name : MapLayer → Details → string).
Context (layer_source : MapLayer → string) (template : string) (ctx : PCtx) (dest : string).
Hypothesis (Hdest : px_destination_project ctx = Some dest).

(** A layer that is to be loaded stays so, under its details; that of an answer is
    one of them. *)
Definition keeps (c c' : LCtx) : Prop :=
  (∀ v d, assoc v (lc_load c) = Some d → assoc v (lc_load c') = Some d) ∧
  (goes_to dest (lc_load c) → goes_to dest (lc_load c')).
Lemma keeps_refl c c' : lc_load c' = lc_load c → keeps c c'.
Proof. intros H. by rw /keeps H. Qed.
Lemma keeps_trans c c1 c2 : keeps c c1 → keeps c1 c2 → keeps c c2.
Proof. intros [H1 H2] [H3 H4]. split; eauto. Qed.

Lemma completion_keeps output value c l name c' :
  add_layer_to_load_on_completion mapLayerFromString output_layer_name ctx value output c = (Ok (l, name), c') →
  keeps c c' ∧ ∃ d, assoc value (lc_load c') = Some d.
Proof.
  rw /add_layer_to_load_on_completion /add_layer_details. py_unfold.
  destruct (assoc value (lc_load c)) as [d|] eqn:Hd, (mapLayerFromString value) as [layer|] eqn:Hm; try done.
  - case_match; intros [= _ _ <-]; (split; [by apply keeps_refl|eauto]).
  - intros [= _ _ <-]. split; [split|].
    + intros v d Hv. csimpl. case_decide as E; [subst; congruence|]. by rw filter_other.
    + intros H. constructor; [|by apply goes_to_filter]. csimpl. rw Hdest. set_solver.
    + eexists. csimpl. by rw decide_True.
Qed.

(** The link to a layer: its query names the layer, when it has a name. *)
Definition links (j : JsonValue) (name : string) : Prop :=
  ∃ href query rest, j = JObj (("href", JStr (href +:+ query)) :: rest) ∧
    (str_truth name = true → ∃ svc,
       parse_qsl query = [("SERVICE", svc); ("REQUEST", "GetCapabilities"); ("LAYERS", name)]).

Lemma layer_output_ok fs c output descr media value s j s' : media ∈ service_formats c →
  layer_output mapLayerFromString output_layer_name layer_source template ctx fs output descr media value s = (Ok j, s') →
  keeps s s' ∧ ∃ layer d, mapLayerFromString value = Some layer ∧ assoc value (lc_load s') = Some d ∧
    links j (str_or (dt_name d) (output_layer_name layer d)).
Proof.
  intros Hf Hj. pose proof (layer_reference _ _ _ _ _ _ _ _ _ _ _ _ _ _ Hf Hj)
    as (layer & base & svc & mark & query & Hl & _ & _ & -> & _ & Hq).
  move: Hj. rw /layer_output. intros ([l name] & s1 & Hc & ([] & s2 & Ha & (href & s3 & Hr & He)%bind_ok_inv)%bind_ok_inv)%bind_ok_inv.
  injection Hr as _ <-. injection He as _ <-.
  assert (lc_load s2 = lc_load s1) as H2.
  { move: Ha. rw /advertise_layer /zoom. py_unfold. case_match; [|by intros [= <-]].
    destruct (file_reference _ _ _) as [[u|e] f]; [|done]. by intros [= <-]. }
  pose proof (completion_value _ _ _ _ _ _ _ _ _ Hc) as (layer' & d & Hl' & Hd & Hn).
  rw Hl in Hl'. injection Hl' as <-. apply completion_keeps in Hc as [Hk _].
  split; [by eapply keeps_trans, keeps_refl|]. exists layer, d. rw H2. split_and!; [done..|].
  exists (base +:+ mark), query. eexists. rw str_app_assoc -Hn. split; [done|]. intros Ht. exists svc. by apply Hq.
Qed.

(** Outputs whose format is one of their class. *)
Definition format_ok (o : Output) : Prop :=
  ∀ c, od_class (ou_def o) = OutputLayer c → of_media (ou_fmt o) ∈ service_formats c ∧ c ≠ OutputMultipleLayers.
Definition answered (load : list (string * Details)) (o : Output) (nj : string * JsonValue) : Prop :=
  nj.1 = od_name (ou_def o) ∧
  ∀ c, od_class (ou_def o) = OutputLayer c → ∃ value layer d,
    mapLayerFromString value = Some layer ∧ assoc value load = Some d ∧
    links nj.2 (str_or (dt_name d) (output_layer_name layer d)).

Context (types_map : string → option string).
Abbreviation output_value := (output_value types_map mapLayerFromString output_layer_name layer_source template).
Abbreviation output_values := (output_values types_map mapLayerFromString output_layer_name layer_source template).

Lemma on_files_out {A} (m : M (gset string) A) s r s' :
  on_out (zoom lc_files (fun f c => MkLCtx (lc_load c) (lc_data_urls c) f) m) s = (r, s') →
  lc_load (x_out s') = lc_load (x_out s) ∧ x_layers s' = x_layers s.
Proof. rw /on_out /zoom. destruct (m _) as [x f]. by intros [= _ <-]. Qed.

Lemma output_value_ok o v s j s' : format_ok o → output_value o ctx v s = (Ok j, s') →
  keeps (x_out s) (x_out s') ∧ x_layers s' = x_layers s ∧
  answered (lc_load (x_out s')) o (od_name (ou_def o), j).
Proof.
  intros Hf. rw /RunAlg.output_value /get. intros (x & s0 & Hx & Hv)%bind_ok_inv. injection Hx as <- <-. move: Hv.
  rw /answered. destruct (od_class (ou_def o)) as [| | | |c| |] eqn:Hc; rw /pure.
  1,6,7: intros [= <- <-]; (split_and!; [by apply keeps_refl|done..]).
  1,2,3: intros (y & s1 & Hy & Hv)%bind_ok_inv; injection Hy as _ <-; apply on_files_out in Hv as [Hl Hx];
    (split_and!; [by apply keeps_refl|done..]).
  destruct (Hf c Hc) as [Hm Hne].
  assert (∀ p, on_out (layer_output mapLayerFromString output_layer_name layer_source template ctx (ps_fs (x_in s))
    (od_name (ou_def o)) (od_description (ou_def o)) (of_media (ou_fmt o)) p) s = (Ok j, s') →
    keeps (x_out s) (x_out s') ∧ x_layers s' = x_layers s ∧
    answered (lc_load (x_out s')) o (od_name (ou_def o), j)) as Hout.
  { intros p. rw /on_out /zoom. destruct (layer_output _ _ _ _ _ _ _ _ _ _ _) as [r c'] eqn:E.
    intros [= -> <-]. apply (layer_output_ok _ c) in E as (Hk & layer & d & ? & ? & ?); [|done].
    split_and!; [done..|]. split; [done|]. intros c1 _. by exists p, layer, d. }
  destruct c; try done; intros (p & s1 & Hp & Hv)%bind_ok_inv; injection Hp as _ <-; move: (Hout p Hv).
  all: rw /answered Hc; by intros.
Qed.

Lemma output_values_ok os results s js s' : Forall format_ok os → output_values os ctx results s = (Ok js, s') →
  keeps (x_out s) (x_out s') ∧ x_layers s' = x_layers s ∧
  Forall2 (answered (lc_load (x_out s'))) os js.
Proof.
  revert s js. induction os as [|o os IH]; intros s js; simpl.
  { intros _ [= <- <-]. split_and!; [by apply keeps_refl|done|constructor]. }
  intros [Ho Hos]%Forall_cons. rw /pure.
  intros (v & s1 & Hv & (j & s2 & Hj & (js' & s3 & Hjs & [= <- <-])%bind_ok_inv)%bind_ok_inv)%bind_ok_inv.
  injection Hv as _ <-. apply output_value_ok in Hj as (Hk & Hx & Hn & Ha); [|done].
  apply IH in Hjs as (Hk' & Hx' & Has); [|done]. split_and!; [by eapply keeps_trans|congruence|].
  constructor; [|done]. split; [done|]. intros c Hc. destruct (Ha c Hc) as (value & layer & d & ? & Hd & ?).
  exists value, layer, d. split_and!; [done|by apply Hk'|done].
Qed.

(** Every layer to load is put in the project of the results. *)
Context (rendering_style : string → string → option string) (setting_style : LayerKind → option string).
Context (post_process : Details → MapLayer → res unit).
Abbreviation process_layer := (process_layer mapLayerFromString output_layer_name rendering_style setting_style post_process).
Abbreviation process_layers := (process_layers mapLayerFromString output_layer_name rendering_style setting_style post_process).

Lemma process_layer_ok alg_id value d s r s' : dt_project d ∈ [None; Some dest] →
  process_layer alg_id ctx value d s = (r, s') →
  (∀ x, x ∈ x_layers s → x ∈ x_layers s') ∧
  ∀ layer, mapLayerFromString value = Some layer →
    (dest, MkLayer (ly_id layer) (output_layer_name layer d) (ly_kind layer)) ∈ x_layers s'.
Proof.
  intros Hd. rw /RunAlg.process_layer. destruct (mapLayerFromString value) as [layer|]; [|by intros [= _ <-]].
  assert ((if ostr_truth (dt_project d) then dt_project d else px_destination_project ctx) = Some dest) as ->.
  { rw Hdest. apply elem_of_cons in Hd as [->| ->%list_elem_of_singleton]; [done|]. by case_match. }
  rw /set_output_layer_style /get /modify /try_except /pure. py_unfold. cbn [fst snd x_in x_out x_layers x_styles].
  repeat case_match; intros [= _ <-]; cbn [x_layers].
  all: split; [intros y ?; set_solver|intros l' [= <-]; set_solver].
Qed.

Lemma process_layers_ok alg_id l s r s' : goes_to dest l → process_layers alg_id ctx l s = (Ok r, s') →
  (∀ x, x ∈ x_layers s → x ∈ x_layers s') ∧
  ∀ value d layer, (value, d) ∈ l → mapLayerFromString value = Some layer →
    (dest, MkLayer (ly_id layer) (output_layer_name layer d) (ly_kind layer)) ∈ x_layers s'.
Proof.
  revert s r. induction l as [|[value d] l IH]; intros s r; simpl.
  { intros _ [= _ <-]. split; [done|]. by intros ??? []%not_elem_of_nil. }
  intros [Hd Hl]%Forall_cons (ok & s1 & Hp & (oks & s2 & Hps & [= _ <-])%bind_ok_inv)%bind_ok_inv.
  apply process_layer_ok in Hp as [Hkeep Hin]; [|done]. apply IH in Hps as [Hkeep' Hin']; [|done].
  split; [by auto|]. intros v d' layer [[= -> ->]|?]%elem_of_cons; eauto.
Qed.
End published.

(** The formats of outputs. *)
Lemma set_format_media g m f : of_media (set_output_format g m f) = m.
Proof. done. Qed.

Lemma outputs_ok guess defs os : outputs guess defs = Ok os →
  Forall (fun d => od_class d ≠ OutputLayer OutputMultipleLayers) defs →
  Forall format_ok os ∧ ∀ d c, d ∈ defs → od_class d = OutputLayer c → ∃ o, o ∈ os ∧ ou_def o = d.
Proof.
  revert os. induction defs as [|d defs IH]; intros os; simpl.
  { intros [= <-] _. split; [done|]. by intros ?? []%not_elem_of_nil. }
  intros H [Hd Hds]%Forall_cons.
  assert (∃ os', outputs guess defs = Ok os' ∧
    (os = os' ∧ (∀ c, od_class d ≠ OutputLayer c) ∨ os = MkOutput d (output_init guess (od_class d)) :: os')) as (os' & Hos & Hc).
  { destruct (od_class d); try done; eauto.
    all: apply res_bind_inv in H as (os' & Hos & [= <-]); eauto. }
  destruct (IH _ Hos Hds) as [IH1 IH2]. destruct Hc as [[-> Hc]| ->].
  - split; [done|]. intros d' c [->|Hin]%elem_of_cons Hc'; [by destruct (Hc c)|by eapply IH2].
  - split.
    + constructor; [|done]. intros c Hc. simpl in Hc |- *. rw Hc. split; [by destruct c; left|congruence].
    + intros d' c [->|Hin]%elem_of_cons Hc; [eexists; split; [by left|done]|].
      destruct (IH2 d' c Hin Hc) as (o & ? & ?). exists o. split; [by right|done].
Qed.

Lemma validate_output_ok_format types_map guess o f p r : validate_output_of types_map guess o f p = Ok r →
  format_ok o → format_ok r.1 ∧ ou_def r.1 = ou_def o.
Proof.
  rw /validate_output_of. intros H Ho. destruct (od_class (ou_def o)) as [| | | |c| |] eqn:Hc; try by injection H as <-.
  - apply res_bind_inv in H as (x & _ & [= <-]). split; [|done]. intros c. simpl. congruence.
  - by repeat (case_match; try done); injection H as <-.
  - apply res_bind_inv in H as (m & Hm & [= <-]). split; [|done]. intros c'. simpl. rw Hc. intros [= <-].
    split; [|by apply Ho]. move: Hm. rw /layer_validate_output. repeat case_match; try done. by intros [= <-].
Qed.

Lemma validate_outputs_ok types_map guess os formats ins r : validate_outputs types_map guess os formats ins = Ok r →
  Forall format_ok os → Forall format_ok r.1 ∧ ou_def <$> r.1 = ou_def <$> os.
Proof.
  revert ins r. induction os as [|o os IH]; intros ins r; simpl; [by intros [= <-]|].
  intros H [Ho Hos]%Forall_cons. destruct (assoc _ formats) as [f|].
  - apply res_bind_inv in H as (v & Hv & (r' & Hr & [= <-])%res_bind_inv).
    apply validate_output_ok_format in Hv as [Hf Hd]; [|done]. apply IH in Hr as [Hr Hd']; [|done].
    split; [by constructor|]. csimpl. by rw Hd Hd'.
  - apply res_bind_inv in H as (r' & Hr & [= <-]). apply IH in Hr as [Hr Hd']; [|done].
    split; [by constructor|]. csimpl. by rw Hd'.
Qed.

Section published.
Context {TA : TypeAdapter} (types_map guess_extension : string → option string).
Context (parseColor : string → option PyVal) (parameterAsMatrix : PyVal → option (list PyVal)).
Context (qg : QgisGeo) (getMapLayer : string → option MapLayer) (resolve : ppath → ppath).
Context (validate_input : JsonValue → res RefOrQualified) (b64decode : string → res string).
Context (request : string → string → list (string * string) → option string → res (Z * string)).
Context (mapLayerFromString : string → option MapLayer) (output_layer_name : MapLayer → Details → string).
Context (layer_source : MapLayer → string) (template : string).
Context (rendering_style : string → string → option string) (setting_style : LayerKind → option string).
Context (post_process : Details → MapLayer → res unit).
Abbreviation process_execute := (process_execute types_map guess_extension parseColor parameterAsMatrix qg getMapLayer
  resolve validate_input b64decode request mapLayerFromString output_layer_name layer_source template rendering_style
  setting_style post_process).
(** QGIS gives a layer the name of its details, when they have one. *)
Hypothesis (details_name : ∀ layer d, str_truth (dt_name d) = true → output_layer_name layer d = dt_name d).

Lemma process_execute_inv alg project params formats ctx s values s' :
  process_execute alg project params formats ctx s = (Ok values, s') →
  ∃ ctx' os os' formats' ins r ps s1 results s2 s3 ok,
    with_destination template ctx (ra_id alg) = Ok ctx' ∧ outputs guess_extension (ra_outputs alg) = Ok os ∧
    validate_outputs types_map guess_extension os formats' ins = Ok r ∧ r.1 = os' ∧
    x_out s1 = x_out s ∧ run_execute alg ps s1 = (Ok results, s2) ∧
    output_values types_map mapLayerFromString output_layer_name layer_source template os' ctx' results s2 = (Ok values, s3) ∧
    process_layers mapLayerFromString output_layer_name rendering_style setting_style post_process (ra_id alg) ctx'
      (lc_load (x_out s3)) s3 = (Ok ok, s').
Proof.
  rw /RunAlg.process_execute /pure /get. intros (x & s0 & Hx & H)%bind_ok_inv. injection Hx as <- <-.
  case_match; [|done]. apply bind_ok_inv in H as (ctx' & ? & Hc & H). injection Hc as Hc <-.
  apply bind_ok_inv in H as ([ps os'] & s1 & Hp & H). apply bind_ok_inv in H as (results & s2 & Hr & H).
  apply bind_ok_inv in H as ([] & ? & Hall & H). injection Hall as _ <-.
  apply bind_ok_inv in H as (vs & s3 & Hv & (ok & s4 & Hl & [= -> ->])%bind_ok_inv).
  move: Hp. rw /execute_parameters /pure. case_match; [done|].
  intros (ins & ? & Hi & (os & ? & Ho & (r & ? & Hvo & (q & ? & Hq & [= -> <- ->])%bind_ok_inv)%bind_ok_inv)%bind_ok_inv)%bind_ok_inv.
  injection Hi as Hi <-. injection Ho as Ho <-. injection Hvo as Hvo <-.
  move: Hl. rw /process_layer_outputs /get. intros (y & ? & Hy & Hl)%bind_ok_inv. injection Hy as <- <-.
  exists ctx', os, r.1, formats, ins, r, ps, s1, results, s2, s3, ok. split_and!; try done.
  move: Hq. rw /on_in /zoom. destruct (parameters _ _ _ _ _ _ _ _ _) as [x' i]. by intros [= _ <-].
Qed.

End published.

(** ** Witness *)
Module RunDemo.
(** An algorithm that writes the layer of its destination. *)
Definition out : string := "/w/job-1/roads.fgb".
Definition run (ps : list (string * QValue)) : M (FS * LCtx) (list (string * JsonValue)) := fun s =>
  match assoc "OUTPUT" ps with
  | Some (QSink sink _ _) =>
      (Ok [("OUTPUT", JStr sink)],
       (write_file (path_of sink) "data" s.1,
        MkLCtx [(sink, MkDetails "" "OUTPUT" (Some "/w/job-1/buffer.qgz"))] [] ∅))
  | _ => (Raise (KeyError "OUTPUT"), s)
  end.
Definition alg : RunAlgorithm :=
  MkRunAlg "buffer" false
    [(MkParam "OUTPUT" "vectorDestination" "" "" false false (DValue VNone),
      ParameterLayerDestination (MkDest "OUTPUT" "fgb" DestNone) None)]
    [MkOutputDef "OUTPUT" "The roads" (OutputLayer OutputVectorLayer) None (Some "OUTPUT")]
    (fun _ => None) run.
Definition ctx : PCtx := MkPCtx (PPath "/" ["w"; "job-1"]) false None None "job-1" "http://localhost" "".
Definition start : XState := MkX (MkPState (MkFS {[PPath "/" ["w"; "job-1"]]} ∅) []) (MkLCtx [] [] ∅) [] [].
Definition shown_name (l : MapLayer) (d : Details) : string := str_or (dt_name d) "roads".
Definition layer_of (v : string) : option MapLayer := Some (MkLayer v "layer" (KVector GLine true)).
Definition execute (name : string) : res (list (string * JsonValue)) * XState :=
  @process_execute InputsDemo.adapter (fun _ => None) (fun _ => None) (fun _ => None) (fun _ => None) GeoDemo.qgis
    (fun _ => None) (fun p => p) (fun _ => Raise (ValidationError "")) (fun s => Ok s) (fun _ _ _ _ => Ok (404%Z, ""))
    layer_of shown_name (fun l => ly_id l) "ows:$jobId/$name" (fun _ _ => None) (fun _ => None) (fun _ _ => Ok tt)
    alg None [("OUTPUT", JStr name)] [] ctx start.

Lemma run_ok ps t r t' : run ps t = (Ok r, t') → goes_to "/w/job-1/buffer.qgz" (lc_load t'.2).
Proof.
  rw /run. destruct (assoc "OUTPUT" ps) as [[]|]; try done. intros [= _ <-].
  constructor; [right; by left|constructor].
Qed.
End RunDemo.

